(* ===== verification/_CoqProject ===== *)
-Q . S2P
Prelude.v
Atr.v
CecState.v
CecSend.v
CecDev.v
CecOpcodes.v
CecWorker.v
Pti.v
Avs.v
Stv6412.v
SciState.v
SciCtrl.v
SciIrq.v
SciParams.v
SciCard.v
SciFrame.v
SciLine.v
SciExchange.v
SciInit.v
SciAnswer.v
SciInv.v
SciTune.v
TffpState.v
TffpDisplay.v
TffpTime.v
TffpInput.v
TffpDev.v
TffpFrame.v
TffpInv.v
TffpTypes.v
TffpCalendar.v
TffpReceive.v
TffpKeys.v
TffpText.v
TffpConfig.v
TffpClock.v
TffpShow.v
TffpScroll.v
Bpamem.v
BpamemOwn.v
