(* ===== verification/Prelude.v ===== *)
(** * Drivers of the SH4 set-top boxes: a verification library

    The repository holds the Linux kernel drivers of satellite receivers built
    on ST's STi71xx chips.  Most of it is imported from chip makers; the library
    models the drivers that were written for these boxes and carry logic of
    their own.

    ** The parts and their files

    - [Prelude]: outcomes, the state monad, machine integers, arrays, frames.
    - [Atr] (smartcard/atr.c): the parser of a smart card's answer to reset.
      [ATR] is the structure of atr.h, an interface byte being [IB value
      present]; ATR_InitFromArray takes the whole structure it fills, so what a
      previous call left there is part of the input.
    - [CecState], [CecSend], [CecDev], [CecOpcodes], [CecWorker] (cec/): the
      HDMI CEC driver.  [cec] is the record of the file-level variables of all
      its source files.  [CecState] has cec_opcodes_def.h, cec_internal.h and
      cec_internal.c, [CecSend] the transmit function of cec_worker.c,
      [CecDev] the device file with its ring buffer (cec_dev.c), [CecOpcodes]
      the interpretation of messages (cec_opcodes.c, cec_rc.c, the events of
      cec_proc.c), [CecWorker] the interrupt handler, the worker task, the proc
      files and the module's entry points (cec_worker.c, cec_proc.c,
      cec_main.c).  The calls go that way: the interrupt handler reassembles a
      message, interprets it or, in passive mode, puts it into the ring; the
      interpretation may queue an answer, which wakes the worker task, which
      starts a transmission that the interrupt handler carries on.
    - [Pti] (pti/pti_main.c, pti.h, tc_code.h): the transport stream
      demultiplexer.  [pti] is struct pti_internal with the file-level
      variables; the memory shared with the firmware is reached through the
      device, the work queue joins the polling timer to the injector thread, and
      the calls of the demultiplexer's callback are recorded.
    - [Avs] (avs/avs_core.h) and [Stv6412] (avs/stv6412.c): the audio/video
      switch.  [avs] holds the chip's register fields and the driver's saved
      values.
    - [SciState], [SciCtrl], [SciIrq], [SciParams], [SciCard] (smartcard/sci.h,
      sci_7111.h, sci_drv.c, sci_params.c): the smart card reader.  [sci] is
      SCI_CONTROL_BLOCK with the variable sci_driver_init and the hardware.
      [SciState] has the register functions, [SciCtrl] clock, power, reset and
      initialisation of the controller, [SciIrq] the interrupt handler and the
      device file, [SciParams] the communication parameters, [SciCard] the
      reset command around [Atr], the ioctl, the detection thread, loading and
      unloading.  The interrupt handler moves bytes between the serial
      controller and the two buffers of the control block, which sci_read and
      sci_write empty and fill; detect_ATR power cycles the card, sleeps while
      the interrupt handler receives the answer, and check_atr gives the bytes
      to the parser.  The theorems are in [SciFrame] (what register accesses
      leave alone), [SciLine] (a concrete card line), [SciExchange] (write,
      interrupts, read), [SciInit], [SciAnswer], [SciTune] and [SciInv].

    - [TffpState], [TffpDisplay], [TffpTime], [TffpInput], [TffpDev]
      (frontcontroller/tffp/: frontpanel.c, frontpanel.h, tffp_config.c,
      tffp_procfs.c, VFDSegmentMap.h): the Topfield front panel.  [tffp] is the
      record of all file-level variables and function-level statics.
      [TffpState] has the variables, the sending of messages over the serial
      line and the configuration in the EEPROM, [TffpDisplay] digits, texts,
      icons, the spinner, the scroll state machine and the timer, [TffpTime] the
      clock messages, gmtime and the real time clock, [TffpInput] the interrupt
      handler, the task that interprets messages and the ring of keys,
      [TffpDev] the device and proc files, every ioctl command, loading and
      unloading.  The interrupt handler fills a ring of bytes and wakes the task,
      which acts on whole messages: keys go to the ring that the device file
      reads, a clock message to the variable that a waiting caller looks at.
      The theorems are in [TffpFrame] (sending; a concrete [panel]), [TffpInv]
      and [TffpTypes] (the type invariant), [TffpCalendar], [TffpReceive],
      [TffpKeys], [TffpText], [TffpConfig], [TffpClock], [TffpShow] and
      [TffpScroll].
    - [Bpamem] (bpamem/bpamem.c, bpamem.h): devices that stand for blocks of
      physical memory; [bpamem] is the table of devices with its semaphore and
      the kernel.  [BpamemOwn] has the laws of the allocator and the theorems.

    ** How C is read

    A function is a computation of [M S A]: it threads the driver's state [S]
    and may end in a [fault], an access outside an object, a division by zero or
    a loop that does not end.  An error code is an ordinary result, with the
    sign and number the code returns.  Integers are [Z]; where the C type is
    narrower than the values that can reach it the wrap-around is written out
    ([u8], [s16], [u32], ...), and the arrays of a driver are lists of fixed
    length whose accesses are checked ([aget], [aset], [amemcpy]).  Logging is
    left out.

    The hardware is a parameter: [Mmio] is a memory-mapped device whose reads
    may change it, [CecHw] adds what the CEC driver learns from the HDMI cell,
    [I2c] is a bus that takes messages and may refuse them, [SciHw] adds pins,
    interrupts and threads to the card reader's registers, [FpHw] and [FpKernel]
    are the front panel's serial controller, EEPROM and kernel functions, [BpaHw]
    the allocator behind [Bpamem], with what is documented of them in
    [FpKernelOk], [FpHwOk], [CalendarKernel], [CapsKernel], [BpaLaws] and [Chip], which a
    concrete kernel satisfies in the examples.  Properties
    about wire behaviour fix a device that records its writes ([tap] for CEC, a
    log of messages for the A/V switch, a [gmap] of words for the demultiplexer,
    [line] for the card reader, where every byte sent is heard back, [panel] for
    the front panel); the others
    hold for every device.  The choice of the board (class [CecBuild]; __TDT__
    for the demultiplexer; sci_7111.h with one reader) is an argument or is
    named in the file's header.

    A function that sleeps in the middle while interrupts or another thread
    run takes the computation [delay], the effect of the rest of the system on
    the driver's state during one wait; in interrupt context it is [skip].
    Interleavings at other points are sequences of whole calls; [SciInv] closes
    the two under each other, an operation that sleeps lets others run, which
    may sleep in their turn ([asleep]).

    ** What the theorems show

    - [Atr]: the outcome of parsing any input; an accepted answer determines the
      bytes it consumed, which ATR_GetRaw gives back; what acceptance guarantees
      about the first interface bytes; and the input that overruns the table of
      interface bytes.
    - [CecDev]: the ring is an unbounded byte queue while messages find room in
      one piece, and what happens when one does not; the outcomes of a write.
    - [CecOpcodes]: a message faults exactly when its text does not end, and
      otherwise causes at most one answer, which fits the transmit buffer and is
      not of a kind that is answered; passive mode is silent with one exception;
      key events come in pairs.
    - [CecWorker]: the interrupts of a message rebuild exactly its bytes, and in
      passive mode one frame reaches the reader of the device file while the bus
      sees acknowledges, with the same exceptions; a queued
      message goes to the bus byte by byte with its end mark; a failing one is
      sent again a bounded number of times; address allocation takes the first
      free address of the type; text written to the proc file is decoded.
    - [Pti]: after a poll and the injector's run every demultiplexer got
      exactly the payloads tagged for it, in order; a slow firmware stops the
      queue; the PID table and the slots stay a list of slots with distinct PIDs
      over any sequence of calls that set a PID only on a slot without one;
      initialisation establishes the invariants.
    - [Stv6412]: the registers in the chip ([Chip]) follow a specification of
      what is selected and whether it is muted, after any sequence of commands
      whose last one reports success; the effect and reply of every setting
      command on every box; standby, volume, pin 8 and message encoding round
      trips.

    - [SciExchange]: what a caller writes goes to the card in order and encoded
      in the card's convention, the echo of it is dropped, and the reads, of
      whatever sizes, give the decoded reply; reception works exactly as long as
      the buffer has room.
    - [SciInit]: loading the driver and detecting a card establish what the
      other theorems assume of the reader ([installed]); a failed initialisation
      does not return.
    - [SciAnswer]: the reset command from the power cycle to the parsed record
      and the rates, for every answer, and for a card that stays silent.
    - [SciTune]: which parameters take effect and what reads back.
    - [SciInv]: the invariant of the control block under any interleaving on any
      hardware (all positions in the buffers but rx_wptr); the transmitting half
      of the interrupt handler never faults.

    - [TffpTypes]: whatever interrupts, timer, task, callers, proc files, loading
      and unloading do, every variable of the driver keeps its type, and the
      timer never faults.
    - [TffpReceive]: bytes cut anywhere into interrupts and turns of the task are
      understood as exactly the messages sent; and which data is taken for a
      shutdown request.
    - [TffpKeys]: the ring of keys is a queue while keys are read in time, what
      happens when they are not, and how a held key repeats.
    - [TffpCalendar], [TffpClock]: gmtime is the Gregorian calendar; the time set
      is the time read.
    - [TffpShow], [TffpScroll], [TffpText]: every segment a text lights and what
      is sent for it, the course of a scrolling text, and the translation of
      UTF-8 with its defect.
    - [TffpConfig]: the stored configuration survives a restart, and what the
      EEPROM holds when it refuses a part of it.
    - [BpamemOwn]: the table of devices and the allocator agree over any sequence
      of allocating calls; a block's way from allocation through mmap to release;
      what MAPMEM, UNMAPMEM and mmap on a free device do to blocks of others.

    The theorems that exhibit a defect of the code state it as the code
    behaves, on a concrete state.

    ** Fuel

    Recursion is structural wherever the C loop has a bound.  The others:
    [atr_loop] gets the length of the answer plus one, and each round consumes a
    byte ([atr_loop_total]); [advance] gets ten rounds for a table of nine
    entries, the tenth read is out of bounds; [stop_pwrite] gets a hundred, where
    [stop_pwrite_spec] shows that memory which keeps what is written ends the
    loop after one; [collecting] gets 2^15 + 1, the range of its counter's bound,
    and [collecting_run] shows that it ends by the number of PIDs.  In the card
    reader [rx_loop] gets [rx_fuel], two more than the buffer has bytes, and each
    round stores one; [find_frequency] gets half the system clock plus one, after
    which the frequency is 0 ([find_frequency_stop]); the loops that wait for
    another thread ([wait_while], [wait_thread]) take their fuel as an argument,
    and [sci_init_hangs] holds for every fuel.

    In the front panel [wait_the] gets 100000 rounds, the code's own count;
    [find_sot] and [log_spurious] 257 for a ring of 256 bytes; [task_rounds] 87,
    as a message takes three bytes of the ring at least; [find_year] 138 and
    [find_month] 13, where [find_date] shows that 2^32 seconds end before 2107;
    [utf_loop] two more than the text has bytes, one of which every round reads;
    [write_bursts] 33 for at most 256 bytes; [shift_text] 40, the length of the
    text; [rx_drain] takes the depth of the receive buffer as an argument.  That
    none of them runs out is part of [tffp_types], [tffp_receive],
    [tffp_calendar], [tffp_scroll] and [tffp_latin1].  The loops of [Bpamem] are
    structural; a semaphore that nobody raises is the fault [Diverges].

    ** What is not modelled

    Imported code (frontends, the player, frame buffer, wireless, Multicom,
    compcache), drivers that are one table or one register, and kernel services
    (allocation, locks, proc files, the I2C and HDMI layers), which are
    arguments of the definitions that use them.  Of the modelled drivers:
    logging, the PTI's polling routine of builds without __TDT__, and its
    descrambler entry points, which return a constant.

    Of the card reader also the text of its proc file, the registration of the
    module, and the builds with voltage control or two readers (the second
    interrupt handler is the same text).  Of the front panel: the text of log
    messages (except the one buffer that can overflow, [log_spurious]), the
    registration of the real time clock and the platform device, and
    readEepromByte, which nobody calls.

    Left for later: the A/V switch core (avs/avs_core.c), which chooses the chip,
    and the other chips; the LNB power drivers; the small drivers e2_proc and
    cpu_frequ. *)
From Stdlib Require Export ZArith Lia.
From stdpp Require Export base list gmap strings numbers.

#[global] Open Scope Z_scope.

(** ** Outcomes *)

(** What can go wrong in the C code besides a returned error code. *)
Inductive fault :=
  | OutOfBounds      (* access outside an array or object *)
  | DivByZero        (* integer division by zero *)
  | Diverges.        (* a loop did not end within its fuel *)

Inductive res (A : Type) :=
  | Ok (a : A)
  | Fault (f : fault).
Arguments Ok {A} a.
Arguments Fault {A} f.

#[export] Instance fault_eq_dec : EqDecision fault.
Proof. solve_decision. Defined.
#[export] Instance res_eq_dec `{EqDecision A} : EqDecision (res A).
Proof. solve_decision. Defined.

#[export] Instance res_ret : MRet res := fun A a => Ok a.
#[export] Instance res_bind : MBind res := fun A B f m =>
  match m with Ok a => f a | Fault e => Fault e end.

(** Stateful code that may fault: [M S A] threads a state [S]. *)
Definition M (S A : Type) : Type := S -> res (A * S).
#[export] Instance M_ret {S} : MRet (M S) := fun A a s => Ok (a, s).
#[export] Instance M_bind {S} : MBind (M S) := fun A B f m s =>
  match m s with Ok (a, s') => f a s' | Fault e => Fault e end.

Definition lift {S A} (r : res A) : M S A := fun s =>
  match r with Ok a => Ok (a, s) | Fault e => Fault e end.
Definition gets {S A} (f : S -> A) : M S A := fun s => Ok (f s, s).
Definition modify {S} (f : S -> S) : M S unit := fun s => Ok (tt, f s).
Definition skip {S} : M S unit := mret tt.
Definition when {S} (b : bool) (m : M S unit) : M S unit := if b then m else skip.
Definition faulty {S A} (f : fault) : M S A := fun _ => Fault f.

(** The final state of a computation that did not fault. *)
Definition exec {S A} (m : M S A) (s : S) : res S :=
  match m s with Ok (_, s') => Ok s' | Fault e => Fault e end.

(** ** Record update: [s <| f := v |>] *)

Class Setter {R T : Type} (proj : R -> T) := set : T -> R -> R.
Arguments set {R T} proj {_} v r.

(** [setter eta proj] builds the update of field [proj] from the record's
    eta-expansion [eta]. *)
Ltac setter eta proj :=
  unfold Setter;
  let v := fresh "v" in let r := fresh "r" in intros v r;
  let e := eval hnf in (eta r) in
  let e' := eval pattern (proj r) in e in
  match e' with ?F _ => let t := eval cbv beta in (F v) in exact t end.

Notation "s <| f := v |>" := (set f v s)
  (at level 1, f at next level, left associativity,
   format "s  <|  f  :=  v  |>").
Arguments set {R T} proj {_} v r /.

(** ** Machine integers *)

Definition u8 (x : Z) : Z := x mod 2 ^ 8.
Definition u16 (x : Z) : Z := x mod 2 ^ 16.
Definition u32 (x : Z) : Z := x mod 2 ^ 32.
(** Two's complement reading of the low 32 (8) bits. *)
Definition s32 (x : Z) : Z :=
  let y := u32 x in if y <? 2 ^ 31 then y else y - 2 ^ 32.
Definition s16 (x : Z) : Z :=
  let y := u16 x in if y <? 2 ^ 15 then y else y - 2 ^ 16.
Definition s8 (x : Z) : Z :=
  let y := u8 x in if y <? 2 ^ 7 then y else y - 2 ^ 8.

Definition is_u8 (x : Z) : Prop := 0 <= x < 2 ^ 8.
Definition is_u16 (x : Z) : Prop := 0 <= x < 2 ^ 16.
Definition is_u32 (x : Z) : Prop := 0 <= x < 2 ^ 32.

Infix ".&" := Z.land (at level 37, left associativity) : Z_scope.
Infix ".|" := Z.lor (at level 39, left associativity) : Z_scope.

(** A C condition: nonzero is true. *)
Definition truthy (x : Z) : bool := negb (x =? 0).

(** Unsigned division; a zero divisor faults. *)
Definition udiv (a b : Z) : res Z := if b =? 0 then Fault DivByZero else Ok (a / b).

(** ** Arrays *)

Definition aget {A} (l : list A) (i : Z) : res A :=
  if i <? 0 then Fault OutOfBounds
  else match l !! Z.to_nat i with Some x => Ok x | None => Fault OutOfBounds end.

Definition aset {A} (l : list A) (i : Z) (v : A) : res (list A) :=
  if (0 <=? i) && (i <? Z.of_nat (length l)) then Ok (<[Z.to_nat i := v]> l)
  else Fault OutOfBounds.

(** [n] elements of [l] from index [i]. *)
Definition aslice {A} (l : list A) (i n : Z) : res (list A) :=
  if (0 <=? i) && (0 <=? n) && (i + n <=? Z.of_nat (length l))
  then Ok (take (Z.to_nat n) (drop (Z.to_nat i) l))
  else Fault OutOfBounds.

(** memcpy(dst + d, src + s, n) between two distinct arrays. *)
Definition amemcpy {A} (dst : list A) (d : Z) (src : list A) (s n : Z) : res (list A) :=
  x ← aslice src s n;
  if (0 <=? d) && (d + n <=? Z.of_nat (length dst))
  then Ok (take (Z.to_nat d) dst ++ x ++ drop (Z.to_nat (d + n)) dst)
  else Fault OutOfBounds.

(** ** Devices *)

(** A memory-mapped device: a read may change it (FIFO registers do). *)
Class Mmio (D : Type) := {
  mmio_rd : Z -> D -> Z * D;
  mmio_wr : Z -> Z -> D -> D
}.

#[global] Arguments aget : simpl never.
#[global] Arguments aset : simpl never.
#[global] Arguments aslice : simpl never.
#[global] Arguments amemcpy : simpl never.
#[global] Arguments udiv : simpl never.
#[global] Arguments u8 : simpl never.
#[global] Arguments u16 : simpl never.
#[global] Arguments u32 : simpl never.
#[global] Arguments s8 : simpl never.
#[global] Arguments s16 : simpl never.
#[global] Arguments s32 : simpl never.

(** ** Lemmas and automation *)

Create HintDb drv.

Lemma res_bind_Ok {A B} (m : res A) (f : A -> res B) b :
  (m ≫= f) = Ok b <-> exists a, m = Ok a /\ f a = Ok b.
Proof.
  destruct m as [a|e]; cbn; split; [eauto|by intros (?&[= ->]&?)|done|by intros (?&?&?)].
Qed.

Lemma M_bind_Ok {S A B} (m : M S A) (f : A -> M S B) s r :
  (m ≫= f) s = Ok r <-> exists a s', m s = Ok (a, s') /\ f a s' = Ok r.
Proof.
  unfold mbind, M_bind. destruct (m s) as [[a s']|e]; split;
    [eauto|by intros (?&?&[= -> ->]&?)|done|by intros (?&?&?&?)].
Qed.

Lemma M_bind_run {S A B} (m : M S A) (f : A -> M S B) s a s' :
  m s = Ok (a, s') -> (m ≫= f) s = f a s'.
Proof. intros H. unfold mbind, M_bind. by rewrite H. Qed.

Lemma M_bind_fault {S A B} (m : M S A) (f : A -> M S B) s e :
  m s = Fault e -> (m ≫= f) s = Fault e.
Proof. intros H. unfold mbind, M_bind. by rewrite H. Qed.

Lemma M_bind_assoc {S A B C} (m : M S A) (f : A -> M S B) (g : B -> M S C) s :
  ((m ≫= f) ≫= g) s = (m ≫= (fun x => f x ≫= g)) s.
Proof. unfold mbind, M_bind. by destruct (m s) as [[? ?]|]. Qed.

Lemma M_bind_ext {S A B} (m m' : M S A) (f f' : A -> M S B) s :
  m s = m' s -> (forall a s', m s = Ok (a, s') -> f a s' = f' a s') -> (m ≫= f) s = (m' ≫= f') s.
Proof.
  intros Hm Hf. unfold mbind, M_bind. rewrite <- Hm. destruct (m s) as [[a s']|] eqn:E; [|done].
  by apply Hf.
Qed.

Lemma M_bind_skip {S} (m : M S unit) s : (m;; skip) s = m s.
Proof. unfold mbind, M_bind, skip, mret, M_ret. by destruct (m s) as [[[] ?]|]. Qed.

Lemma lift_run {S A} (m : res A) (s : S) a : m = Ok a -> lift m s = Ok (a, s).
Proof. by intros ->. Qed.

Lemma lift_Ok {S A} (m : res A) (s : S) r :
  lift m s = Ok r <-> exists a, m = Ok a /\ r = (a, s).
Proof.
  unfold lift. destruct m; (split; [intros [=]; subst; eauto | intros (?&[=]&->); by subst]).
Qed.

Lemma udiv_Ok a b q : udiv a b = Ok q <-> b <> 0 /\ q = a / b.
Proof.
  unfold udiv. destruct (Z.eqb_spec b 0); (split; [intros [=]; subst; auto | intros [? ->]; done]).
Qed.

Section arrays.
Context {A : Type}.
Implicit Types (l : list A) (i n d : Z) (x : A).

Lemma aget_Ok l i x : aget l i = Ok x <-> 0 <= i /\ l !! Z.to_nat i = Some x.
Proof.
  unfold aget. destruct (Z.ltb_spec i 0); [split; [done|lia]|].
  destruct (l !! Z.to_nat i); (split; [intros [=]; by subst|by intros [? [=->]]]).
Qed.

Lemma aget_in l i : 0 <= i < Z.of_nat (length l) -> exists x, aget l i = Ok x.
Proof.
  intros Hi. destruct (lookup_lt_is_Some_2 l (Z.to_nat i)) as [x Hx]; [lia|].
  exists x. apply aget_Ok. split; [lia|done].
Qed.

Lemma aget_Ok_inv l i x : aget l i = Ok x -> 0 <= i < Z.of_nat (length l).
Proof. intros [? ?%lookup_lt_Some]%aget_Ok. lia. Qed.

Lemma aget_oob l i : Z.of_nat (length l) <= i -> aget l i = Fault OutOfBounds.
Proof.
  intros Hi. unfold aget. destruct (Z.ltb_spec i 0); [done|].
  by rewrite lookup_ge_None_2 by lia.
Qed.

Lemma aset_Ok l i x l' :
  aset l i x = Ok l' <-> 0 <= i < Z.of_nat (length l) /\ l' = <[Z.to_nat i := x]> l.
Proof.
  unfold aset. destruct (Z.leb_spec 0 i), (Z.ltb_spec i (Z.of_nat (length l)));
    cbn; (split; [intros [=]; subst; (split; [lia|done]) | intros [? ->]; done || lia]).
Qed.

Lemma aset_in l i x :
  0 <= i < Z.of_nat (length l) -> aset l i x = Ok (<[Z.to_nat i := x]> l).
Proof. intros. by apply aset_Ok. Qed.

Lemma aslice_Ok l i n l' :
  aslice l i n = Ok l' <->
  0 <= i /\ 0 <= n /\ i + n <= Z.of_nat (length l) /\
  l' = take (Z.to_nat n) (drop (Z.to_nat i) l).
Proof.
  unfold aslice. destruct (Z.leb_spec 0 i), (Z.leb_spec 0 n),
    (Z.leb_spec (i + n) (Z.of_nat (length l))); cbn;
    (split; [intros [=]; subst; by repeat split | intros (?&?&?&->); done || lia]).
Qed.

Lemma amemcpy_Ok l d l2 s n l' :
  amemcpy l d l2 s n = Ok l' <->
  0 <= s /\ 0 <= n /\ s + n <= Z.of_nat (length l2) /\
  0 <= d /\ d + n <= Z.of_nat (length l) /\
  l' = take (Z.to_nat d) l ++ take (Z.to_nat n) (drop (Z.to_nat s) l2)
       ++ drop (Z.to_nat (d + n)) l.
Proof.
  unfold amemcpy. rewrite res_bind_Ok. setoid_rewrite aslice_Ok.
  destruct (Z.leb_spec 0 d), (Z.leb_spec (d + n) (Z.of_nat (length l))); cbn;
    (split; [intros (?&(?&?&?&->)&[=]); subst; by repeat split
            |intros (?&?&?&?&?&->); eauto 10 || lia]).
Qed.

Lemma amemcpy_length l d l2 s n l' :
  amemcpy l d l2 s n = Ok l' -> length l' = length l.
Proof.
  rewrite amemcpy_Ok. intros (?&?&?&?&?&->).
  rewrite !length_app, !length_take, !length_drop. lia.
Qed.

(** The elements [i .. j-1]. *)
Definition seg (l : list A) (i j : Z) : list A :=
  take (Z.to_nat (j - i)) (drop (Z.to_nat i) l).

Lemma seg_nil l i : seg l i i = [].
Proof. unfold seg. by rewrite Z.sub_diag. Qed.

Lemma seg_app l i j k : 0 <= i <= j -> j <= k -> seg l i j ++ seg l j k = seg l i k.
Proof.
  intros Hij Hjk. unfold seg.
  replace (Z.to_nat (k - i)) with (Z.to_nat (j - i) + Z.to_nat (k - j))%nat by lia.
  rewrite <- take_take_drop, drop_drop. do 3 f_equal. lia.
Qed.

Lemma seg_one l i x : aget l i = Ok x -> seg l i (i + 1) = [x].
Proof.
  intros [? H]%aget_Ok. unfold seg. replace (Z.to_nat (i + 1 - i)) with 1%nat by lia.
  by rewrite (drop_S _ _ _ H).
Qed.

Lemma seg_length l i j :
  0 <= i -> j <= Z.of_nat (length l) -> length (seg l i j) = Z.to_nat (j - i).
Proof. intros. unfold seg. rewrite length_take, length_drop. lia. Qed.

Lemma seg_ge l i j : Z.of_nat (length l) <= i -> seg l i j = [].
Proof. intros. unfold seg. rewrite drop_ge, take_nil by lia. done. Qed.

Lemma seg_drop l i j : 0 <= i -> seg l i j = drop (Z.to_nat i) (take (Z.to_nat j) l).
Proof. intros. unfold seg. rewrite skipn_firstn_comm. f_equal. lia. Qed.

(** What a copy changes: the bytes at [d], nothing before or after. *)
Lemma amemcpy_seg l d l2 s n l' :
  amemcpy l d l2 s n = Ok l' ->
  (forall i j, j <= d -> 0 <= i -> seg l' i j = seg l i j) /\
  seg l' d (d + n) = seg l2 s (s + n) /\
  (forall i j, d + n <= i -> seg l' i j = seg l i j).
Proof.
  intros (?&?&?&?&?&->)%amemcpy_Ok. split_and!; [|unfold seg..].
  - intros i j Hj Hi. rewrite !(seg_drop _ i j Hi).
    rewrite take_app_le by (rewrite length_take; lia). rewrite take_take. do 2 f_equal. lia.
  - rewrite drop_app_ge by (rewrite length_take; lia). rewrite length_take.
    replace (Z.to_nat d - (Z.to_nat d `min` length l))%nat with 0%nat by lia.
    rewrite drop_0, take_app_le by (rewrite length_take, length_drop; lia).
    rewrite take_take. do 2 f_equal; lia.
  - intros i j Hi. rewrite !drop_app, drop_ge by (rewrite length_take; lia).
    rewrite length_take, length_take, length_drop, (drop_ge (take _ (drop _ _)))
      by (rewrite length_take, length_drop; lia).
    cbn [app]. rewrite drop_drop. do 2 f_equal. lia.
Qed.

Lemma seg_0 l j : seg l 0 j = take (Z.to_nat j) l.
Proof. unfold seg. by rewrite Z.sub_0_r. Qed.
End arrays.
#[global] Arguments seg : simpl never.

(** Decidable facts on bytes are decided by running through all of them. *)
Lemma byte_dec (P : Z -> Prop) `{forall x, Decision (P x)} :
  forallb (fun b => bool_decide (P b)) (seqZ 0 256) = true -> forall b, is_u8 b -> P b.
Proof.
  intros HP b Hb. rewrite forallb_forall in HP.
  apply (bool_decide_eq_true (P b)), HP.
  apply list_elem_of_In, elem_of_seqZ. unfold is_u8 in Hb. lia.
Qed.
Ltac by_bytes x Hx :=
  revert x Hx;
  match goal with |- forall x, is_u8 x -> @?P x => apply (byte_dec P) end;
  vm_compute; reflexivity.

Lemma is_u8_u8 x : is_u8 (u8 x).
Proof. apply Z.mod_pos_bound. lia. Qed.
#[export] Hint Resolve is_u8_u8 : drv.

Lemma u8_id x : is_u8 x -> u8 x = x.
Proof. apply Z.mod_small. Qed.

Lemma map_u8_id l : Forall is_u8 l -> map u8 l = l.
Proof. induction 1 as [|x l Hx _ IH]; simpl; [done|]. by rewrite IH, u8_id. Qed.

Lemma s32_small x : 0 <= x < 2 ^ 31 -> s32 x = x.
Proof.
  intros Hx. unfold s32, u32. rewrite Z.mod_small by lia. by rewrite (proj2 (Z.ltb_lt _ _)) by lia.
Qed.

Lemma lor_disjoint a b : a .& b = 0 -> a .| b = a + b.
Proof. intros Hd. pose proof (Z.add_lor_land a b). lia. Qed.

Lemma lor_shift a b k : 0 <= k -> 0 <= b < 2 ^ k -> (a ≪ k) .| b = a * 2 ^ k + b.
Proof.
  intros Hk Hb. rewrite lor_disjoint; [by rewrite Z.shiftl_mul_pow2|].
  replace b with (b .& Z.ones k) by (rewrite Z.land_ones, Z.mod_small by lia; done).
  rewrite Z.land_assoc, (Z.land_comm _ b), <- Z.land_assoc, Z.land_ones, Z.shiftl_mul_pow2 by lia.
  by rewrite Z.mod_mul, Z.land_0_r by lia.
Qed.

Lemma nibble_hi v : 0 <= (v .& 0xF0) ≫ 4 < 16.
Proof.
  rewrite Z.shiftr_land. change (0xF0 ≫ 4) with (Z.ones 4).
  rewrite Z.land_ones by lia. apply Z.mod_pos_bound. lia.
Qed.

Lemma nibble_lo v : 0 <= v .& 0x0F < 16.
Proof.
  change 0x0F with (Z.ones 4). rewrite Z.land_ones by lia. apply Z.mod_pos_bound. lia.
Qed.

Lemma aget_Forall {A} (P : A -> Prop) l i x : Forall P l -> aget l i = Ok x -> P x.
Proof. intros HP [_ H]%aget_Ok. by eapply Forall_lookup_1. Qed.

(** Invert every successful computation in the context. *)
Ltac minv_step :=
  match goal with
  | H : Ok _ = Ok _ |- _ => injection H as H; subst
  | H : (_, _) = (_, _) |- _ => injection H as H; subst
  | H : Fault _ = Ok _ |- _ => discriminate H
  | H : (_ ≫= _) _ = Ok _ |- _ =>
      apply M_bind_Ok in H; destruct H as (?&?&?&?)
  | H : (_ ≫= _) = Ok _ |- _ => apply res_bind_Ok in H; destruct H as (?&?&?)
  | H : lift _ _ = Ok _ |- _ => apply lift_Ok in H; destruct H as (?&?&?)
  | H : gets _ _ = Ok _ |- _ => unfold gets in H
  | H : modify _ _ = Ok _ |- _ => unfold modify in H
  | H : mret _ _ = Ok _ |- _ => unfold mret, M_ret in H
  | H : mret _ = Ok _ |- _ => unfold mret, res_ret in H
  | H : skip _ = Ok _ |- _ => unfold skip, mret, M_ret in H
  | H : faulty _ _ = Ok _ |- _ => unfold faulty in H
  | x : unit |- _ => destruct x
  end.
Ltac minv := simpl in *; repeat (minv_step; simpl in *).

(** Case analysis on the boolean tests in the goal and hypotheses, with their
    meaning. *)
Ltac bool_case :=
  match goal with
  | |- context [Z.ltb ?a ?b] => destruct (Z.ltb_spec a b)
  | |- context [Z.leb ?a ?b] => destruct (Z.leb_spec a b)
  | |- context [Z.eqb ?a ?b] => destruct (Z.eqb_spec a b)
  | H : context [Z.ltb ?a ?b] |- _ => destruct (Z.ltb_spec a b)
  | H : context [Z.leb ?a ?b] |- _ => destruct (Z.leb_spec a b)
  | H : context [Z.eqb ?a ?b] |- _ => destruct (Z.eqb_spec a b)
  end.

(** ** Frames

    [keeps R m]: whatever [m] does, it relates the state after to the state
    before by the preorder [R]. *)
Definition keeps {S A} (R : relation S) (m : M S A) : Prop :=
  forall s a s', m s = Ok (a, s') -> R s s'.

Section keeps.
Context {S : Type} (R : relation S) `{!PreOrder R}.

Lemma keeps_ret {A} (a : A) : keeps R (mret a).
Proof. intros s a' s' [= <- <-]. reflexivity. Qed.
Lemma keeps_skip : keeps R skip.
Proof. apply keeps_ret. Qed.
Lemma keeps_gets {A} (f : S -> A) : keeps R (gets f).
Proof. intros s a' s' [= <- <-]. reflexivity. Qed.
Lemma keeps_lift {A} (r : res A) : keeps R (lift r).
Proof. intros s a s' (?&_&[= -> ->])%lift_Ok. reflexivity. Qed.
Lemma keeps_faulty {A} f : keeps (A := A) R (faulty f).
Proof. done. Qed.
Lemma keeps_modify f : (forall s, R s (f s)) -> keeps R (modify f).
Proof. intros Hf s a s' [= <- <-]. apply Hf. Qed.
Lemma keeps_bind {A B} (m : M S A) (k : A -> M S B) :
  keeps R m -> (forall a, keeps R (k a)) -> keeps R (m ≫= k).
Proof.
  intros Hm Hk s b s' (a&s1&H1&H2)%M_bind_Ok.
  transitivity s1; [by eapply Hm|by eapply Hk].
Qed.
Lemma keeps_when b m : keeps R m -> keeps R (when b m).
Proof. destruct b; [done|]. intros _. apply keeps_skip. Qed.
Lemma keeps_if {A} (b : bool) (m1 m2 : M S A) :
  keeps R m1 -> keeps R m2 -> keeps R (if b then m1 else m2).
Proof. by destruct b. Qed.
End keeps.

(** Lemmas about particular computations go in the database [keeps]. *)
Create HintDb keeps discriminated.
#[export] Hint Constants Opaque : keeps.

(** Walk through a computation with the frame rules. *)
Ltac keeps_step :=
  lazymatch goal with
  | |- keeps _ (mbind _ _) => apply keeps_bind; [apply _| |intros ?]
  | |- keeps _ (mret _) => apply keeps_ret; apply _
  | |- keeps _ skip => apply keeps_skip; apply _
  | |- keeps _ (gets _) => apply keeps_gets; apply _
  | |- keeps _ (lift _) => apply keeps_lift; apply _
  | |- keeps _ (faulty _) => apply keeps_faulty
  | |- keeps _ (modify _) => apply keeps_modify; intros ?; simpl
  | |- keeps _ (when _ _) => apply keeps_when; [apply _|]
  | |- keeps _ (if _ then _ else _) => apply keeps_if
  | |- keeps _ _ => first [assumption | solve [eauto with keeps]]
  end.
Ltac keeps := repeat (keeps_step; cbv beta zeta).

(** ** Total correctness

    [runs m s Q]: from [s] the computation [m] ends without a fault, in a
    result and a state that satisfy [Q]. *)
Definition runs {S A} (m : M S A) (s : S) (Q : A -> S -> Prop) : Prop :=
  exists a s', m s = Ok (a, s') /\ Q a s'.

Section runs.
Context {S : Type}.
Implicit Types s : S.

Lemma runs_ret {A} (a : A) s (Q : A -> S -> Prop) : Q a s -> runs (mret a) s Q.
Proof. intros HQ. by exists a, s. Qed.
Lemma runs_skip s (Q : unit -> S -> Prop) : Q tt s -> runs skip s Q.
Proof. apply runs_ret. Qed.
Lemma runs_gets {A} (f : S -> A) s (Q : A -> S -> Prop) : Q (f s) s -> runs (gets f) s Q.
Proof. intros HQ. by exists (f s), s. Qed.
Lemma runs_modify f s (Q : unit -> S -> Prop) : Q tt (f s) -> runs (modify f) s Q.
Proof. intros HQ. by exists tt, (f s). Qed.
Lemma runs_lift {A} (r : res A) a s (Q : A -> S -> Prop) :
  r = Ok a -> Q a s -> runs (lift r) s Q.
Proof. intros -> HQ. by exists a, s. Qed.
Lemma runs_bind {A B} (m : M S A) (k : A -> M S B) s (Q : B -> S -> Prop) :
  runs m s (fun a s' => runs (k a) s' Q) -> runs (m ≫= k) s Q.
Proof.
  intros (a & s1 & E & b & s2 & E2 & HQ). exists b, s2. split; [|done].
  by rewrite (M_bind_run _ _ _ _ _ E).
Qed.
Lemma runs_conseq {A} (m : M S A) s (P Q : A -> S -> Prop) :
  runs m s P -> (forall a s', P a s' -> Q a s') -> runs m s Q.
Proof. intros (a & s' & E & HP) HPQ. exists a, s'. auto. Qed.
Lemma runs_eq {A} (m : M S A) s a s' (Q : A -> S -> Prop) :
  m s = Ok (a, s') -> Q a s' -> runs m s Q.
Proof. intros E HQ. by exists a, s'. Qed.
Lemma runs_inv {A} (m : M S A) s a s' (Q : A -> S -> Prop) :
  runs m s Q -> m s = Ok (a, s') -> Q a s'.
Proof. by intros (? & ? & -> & HQ) [= <- <-]. Qed.
Lemma runs_exec {A} (m : M S A) s (Q : S -> Prop) :
  runs m s (fun _ => Q) -> exists s', exec m s = Ok s' /\ Q s'.
Proof. intros (a & s' & E & HQ). exists s'. unfold exec. by rewrite E. Qed.
Lemma runs_value {A} (Q : S -> Prop) (m : M S A) s a :
  runs m s (fun a' s' => a' = a /\ Q s') -> exists s', m s = Ok (a, s') /\ Q s'.
Proof. intros (a' & s' & E & -> & HQ). by exists s'. Qed.
End runs.

(** Walk through a computation forwards. *)
Ltac runs_step :=
  lazymatch goal with
  | |- runs (mbind _ _) _ _ => apply runs_bind
  | |- runs (mret _) _ _ => apply runs_ret
  | |- runs skip _ _ => apply runs_skip
  | |- runs (gets _) _ _ => apply runs_gets
  | |- runs (modify _) _ _ => apply runs_modify
  | |- runs (when true _) _ _ => unfold when
  | |- runs (when false _) _ _ => apply runs_skip
  end; cbv beta.

(** [ends R m]: from every state [m] ends without a fault, in a state related to
    the first by the preorder [R]. *)
Definition ends {S A} (R : relation S) (m : M S A) : Prop :=
  forall s, runs m s (fun _ => R s).

Section ends.
Context {S : Type} (R : relation S) `{!PreOrder R}.

Lemma ends_ret {A} (a : A) : ends R (mret a).
Proof. intros s. by apply runs_ret. Qed.
Lemma ends_skip : ends R skip.
Proof. apply ends_ret. Qed.
Lemma ends_gets {A} (f : S -> A) : ends R (gets f).
Proof. intros s. by apply runs_gets. Qed.
Lemma ends_modify f : (forall s, R s (f s)) -> ends R (modify f).
Proof. intros Hf s. by apply runs_modify. Qed.
Lemma ends_bind {A B} (m : M S A) (k : A -> M S B) :
  ends R m -> (forall a, ends R (k a)) -> ends R (m ≫= k).
Proof.
  intros Hm Hk s. apply runs_bind. eapply runs_conseq; [apply Hm|]. intros a s1 H1.
  eapply runs_conseq; [apply Hk|]. intros b s2 H2. by transitivity s1.
Qed.
Lemma ends_when b m : ends R m -> ends R (when b m).
Proof. destruct b; [done|]. intros _. apply ends_skip. Qed.
Lemma ends_if {A} (b : bool) (m1 m2 : M S A) :
  ends R m1 -> ends R m2 -> ends R (if b then m1 else m2).
Proof. by destruct b. Qed.

Lemma ends_keeps {A} (m : M S A) : ends R m -> keeps R m.
Proof. intros Hm s a s' E. exact (runs_inv _ _ _ _ _ (Hm s) E). Qed.

(** An ending computation before another. *)
Lemma runs_ends {A B} (m : M S A) (k : A -> M S B) s (Q : B -> S -> Prop) :
  ends R m -> (forall a s', R s s' -> runs (k a) s' Q) -> runs (m ≫= k) s Q.
Proof. intros Hm Hk. apply runs_bind. eapply runs_conseq; [apply Hm|]. apply Hk. Qed.
End ends.

Create HintDb ends discriminated.
#[export] Hint Constants Opaque : ends.

(** Walk through a computation with the rules of [ends]. *)
Ltac ends_step :=
  lazymatch goal with
  | |- ends _ (mbind _ _) => apply ends_bind; [apply _| |intros ?]
  | |- ends _ (mret _) => apply ends_ret; apply _
  | |- ends _ skip => apply ends_skip; apply _
  | |- ends _ (gets _) => apply ends_gets; apply _
  | |- ends _ (modify _) => apply ends_modify; intros ?; simpl
  | |- ends _ (when _ _) => apply ends_when; [apply _|]
  | |- ends _ (if _ then _ else _) => apply ends_if
  | |- ends _ _ => first [assumption | solve [eauto with ends]]
  end.
Ltac ends := repeat (ends_step; cbv beta zeta).
