(* ===== verification/Atr.v ===== *)
(** * Answer to reset (smartcard/atr.c)

    The parser of an ISO 7816 answer to reset, the accessors of the parsed
    record and the regenerated raw form. *)
From S2P Require Import Prelude.

(** ** Constants of atr.h *)

Definition ATR_OK := 0.
Definition ATR_NOT_FOUND := 1.
Definition ATR_MALFORMED := 2.
Definition ATR_MAX_SIZE := 33.
Definition ATR_MAX_HISTORICAL := 15.
Definition ATR_MAX_PROTOCOLS := 7.
Definition ATR_MAX_IB := 4.
Definition ATR_CONVENTION_DIRECT := 0.
Definition ATR_CONVENTION_INVERSE := 1.
Definition ATR_PROTOCOL_TYPE_T0 := 0.
Definition ATR_INTERFACE_BYTE_TA := 0.
Definition ATR_INTERFACE_BYTE_TB := 1.
Definition ATR_INTERFACE_BYTE_TC := 2.
Definition ATR_INTERFACE_BYTE_TD := 3.
Definition ATR_PARAMETER_F := 0.
Definition ATR_PARAMETER_D := 1.
Definition ATR_PARAMETER_I := 2.
Definition ATR_PARAMETER_P := 3.
Definition ATR_PARAMETER_N := 4.
Definition ATR_INTEGER_VALUE_FI := 0.
Definition ATR_INTEGER_VALUE_DI := 1.
Definition ATR_INTEGER_VALUE_II := 2.
Definition ATR_INTEGER_VALUE_PI1 := 3.
Definition ATR_INTEGER_VALUE_N := 4.
Definition ATR_INTEGER_VALUE_PI2 := 5.
Definition ATR_DEFAULT_F := 372.
Definition ATR_DEFAULT_D := 1000000.
Definition ATR_DEFAULT_I := 50.
Definition ATR_DEFAULT_N := 0.
Definition ATR_DEFAULT_P := 5.

(** INVERT_BYTE: b7 to b0, b0 to b7. *)
Definition INVERT_BYTE (a : Z) : Z :=
  ((a ≪ 7) .& 0x80) .| ((a ≪ 5) .& 0x40) .| ((a ≪ 3) .& 0x20) .| ((a ≪ 1) .& 0x10)
  .| ((a ≫ 1) .& 0x08) .| ((a ≫ 3) .& 0x04) .| ((a ≫ 5) .& 0x02) .| ((a ≫ 7) .& 0x01).

(** ** Tables *)

Definition atr_fs_table : list Z :=
  [3570000; 5000000; 6000000; 8000000; 12000000; 16000000; 20000000; 0; 0;
   5000000; 7500000; 10000000; 15000000; 20000000; 0; 0].
Definition atr_num_ib_table : list Z := [0; 1; 1; 2; 1; 2; 2; 3; 1; 2; 2; 3; 2; 3; 3; 4].
Definition atr_f_table : list Z :=
  [372; 372; 558; 744; 1116; 1488; 1860; 0; 0; 512; 768; 1024; 1536; 2048; 0; 0].
Definition atr_d_table : list Z :=
  [0; 1000000; 2000000; 4000000; 8000000; 16000000; 32000000; 64000000; 12000000;
   20000000; 500000; 250000; 125000; 62500; 31250; 15625].
Definition atr_i_table : list Z := [25; 50; 100; 0].

(** ** The parsed record *)

Record ib_byte := IB { value : Z; present : bool }.

Record ATR := mkATR {
  atr_length : Z;
  TS : Z;
  T0 : Z;
  ib : list (list ib_byte);   (* [ATR_MAX_PROTOCOLS][ATR_MAX_IB] *)
  TCK : ib_byte;
  pn : Z;
  hb : list Z;                (* [ATR_MAX_HISTORICAL] *)
  hbn : Z
}.

Definition eta_ATR (a : ATR) : ATR :=
  mkATR (atr_length a) (TS a) (T0 a) (ib a) (TCK a) (pn a) (hb a) (hbn a).
#[export] Instance set_atr_length : Setter atr_length := ltac:(setter eta_ATR atr_length).
#[export] Instance set_TS : Setter TS := ltac:(setter eta_ATR TS).
#[export] Instance set_T0 : Setter T0 := ltac:(setter eta_ATR T0).
#[export] Instance set_ib : Setter ib := ltac:(setter eta_ATR ib).
#[export] Instance set_TCK : Setter TCK := ltac:(setter eta_ATR TCK).
#[export] Instance set_pn : Setter pn := ltac:(setter eta_ATR pn).
#[export] Instance set_hb : Setter hb := ltac:(setter eta_ATR hb).
#[export] Instance set_hbn : Setter hbn := ltac:(setter eta_ATR hbn).

(** The record as declared: every array has its declared size. *)
Definition zero_ATR : ATR :=
  mkATR 0 0 0 (replicate 7 (replicate 4 (IB 0 false))) (IB 0 false) 0 (replicate 15 0) 0.

(** atr->ib[p][c] *)
Definition get_ib (a : ATR) (p c : Z) : res ib_byte :=
  row ← aget (ib a) p; aget row c.

(** atr->ib[p][c].value = v; atr->ib[p][c].present = TRUE *)
Definition ib_store (p c v : Z) : M ATR unit := fun a =>
  row ← aget (ib a) p;
  row' ← aset row c (IB v true);
  t ← aset (ib a) p row';
  Ok (tt, a <| ib := t |>).

(** atr->ib[p][c].present = FALSE (the value stays) *)
Definition ib_absent (p c : Z) : M ATR unit := fun a =>
  row ← aget (ib a) p;
  b ← aget row c;
  row' ← aset row c (IB (value b) false);
  t ← aset (ib a) p row';
  Ok (tt, a <| ib := t |>).

Definition GetClockRate (mhz : Z) : Z :=
  if (mhz =? 357) || (mhz =? 358) then 372 * 9600
  else if mhz =? 368 then 384 * 9600
  else u32 (mhz * 10000).

(** ** The parser *)

(** The local copy of the input, bit-inverted for an inverse convention card.
    Only its first [length] bytes are ever written: they are the list. *)
Definition atr_normalise (atr_buffer : list Z) (length : Z) : res (list Z) :=
  if length <=? ATR_MAX_SIZE then
    raw ← aslice atr_buffer 0 length;
    t ← aget atr_buffer 0;
    mret (if t =? 0x03 then map (fun b => u8 (Z.lnot (INVERT_BYTE b))) raw else raw)
  else Fault OutOfBounds.

(** One of TAi, TBi, TCi: present when the bit left out of [mask] is set. *)
Definition atr_ib_step (buffer : list Z) (p c mask TDi pointer : Z) : M ATR Z :=
  if (TDi .| mask) =? 0xFF then
    b ← lift (aget buffer (pointer + 1));
    ib_store p c b;;
    mret (pointer + 1)
  else ib_absent p c;; mret pointer.

(** The three conditional bytes TAi, TBi, TCi together. *)
Definition atr_tabc (buffer : list Z) (p TDi pointer : Z) : M ATR Z :=
  pointer ← atr_ib_step buffer p ATR_INTERFACE_BYTE_TA 0xEF TDi pointer;
  pointer ← atr_ib_step buffer p ATR_INTERFACE_BYTE_TB 0xDF TDi pointer;
  atr_ib_step buffer p ATR_INTERFACE_BYTE_TC 0xBF TDi pointer.

(** How the interface-byte loop ends: a return of the function, or the values
    of [pointer] and [pn] after it. *)
Inductive loop_end := Return (code : Z) | Break (pointer p : Z).

Fixpoint atr_loop (fuel : nat) (buffer : list Z) (length pointer p TDi : Z)
    : M ATR loop_end :=
  match fuel with
  | O => faulty Diverges
  | S fuel =>
    if pointer <? length then
      n ← lift (aget atr_num_ib_table ((0xF0 .& TDi) ≫ 4));
      if length <=? pointer + n then mret (Return ATR_MALFORMED)
      else
        pointer ← atr_tabc buffer p TDi pointer;
        if (TDi .| 0x7F) =? 0xFF then
          TDi ← lift (aget buffer (pointer + 1));
          ib_store p ATR_INTERFACE_BYTE_TD TDi;;
          modify (fun a => a <| TCK := IB (value (TCK a))
                                 (negb ((TDi .& 0x0F) =? ATR_PROTOCOL_TYPE_T0)) |>);;
          if ATR_MAX_PROTOCOLS <=? p then mret (Return ATR_MALFORMED)
          else atr_loop fuel buffer length (pointer + 1) (p + 1) TDi
        else
          ib_absent p ATR_INTERFACE_BYTE_TD;;
          mret (Break pointer p)
    else mret (Break pointer p)
  end.

(** The checks of TA1 and TB1 when there is a single protocol. *)
Definition atr_checks (p : Z) : M ATR Z :=
  n ← gets pn;
  bad_fi ← (if n =? 1 then
              ta ← (a ← gets id; lift (get_ib a p ATR_INTERFACE_BYTE_TA));
              if present ta then
                fs ← lift (aget atr_fs_table ((value ta .& 0xF0) ≫ 4)); mret (fs =? 0)
              else mret false
            else mret false);
  if (bad_fi : bool) then mret ATR_MALFORMED
  else
    bad_tb ← (if n =? 1 then
                tb ← (a ← gets id; lift (get_ib a p ATR_INTERFACE_BYTE_TB));
                mret (present tb && (0x80 <? value tb))
              else mret false);
    mret (if (bad_tb : bool) then ATR_MALFORMED else ATR_OK).

(** Everything after the loop: historical bytes, TCK, length and the checks. *)
Definition atr_finish (buffer : list Z) (length pointer p : Z) : M ATR Z :=
  modify (fun a => a <| pn := p + 1 |>);;
  n ← gets hbn;
  if length <=? pointer + n then mret ATR_MALFORMED
  else
    h ← gets hb;
    h' ← lift (amemcpy h 0 buffer (pointer + 1) n);
    modify (fun a => a <| hb := h' |>);;
    let pointer := pointer + n in
    tck ← gets TCK;
    if present tck && (length <=? pointer + 1) then mret ATR_MALFORMED
    else
      pointer ← (if present tck then
                   b ← lift (aget buffer (pointer + 1));
                   modify (fun a => a <| TCK := IB b (present (TCK a)) |>);;
                   mret (pointer + 1)
                 else mret pointer);
      modify (fun a => a <| atr_length := pointer + 1 |>);;
      atr_checks p.

Definition ATR_InitFromArray (atr_buffer : list Z) (length : Z) : M ATR Z :=
  if length <? 2 then mret ATR_MALFORMED
  else
    buffer ← lift (atr_normalise atr_buffer length);
    ts ← lift (aget buffer 0);
    TDi ← lift (aget buffer 1);
    modify (fun a => a <| TS := ts |> <| T0 := TDi |> <| hbn := TDi .& 0x0F |>
                       <| TCK := IB (value (TCK a)) false |>);;
    e ← atr_loop (Z.to_nat length) buffer length 1 0 TDi;
    match e with
    | Return code => mret code
    | Break pointer p => atr_finish buffer length pointer p
    end.

(** ** Accessors

    An output pointer is the [option] of the value stored through it: [None]
    when the function leaves it alone. *)

Definition ATR_GetConvention (a : ATR) : Z * option Z :=
  if TS a =? 0x3B then (ATR_OK, Some ATR_CONVENTION_DIRECT)
  else if TS a =? 0x3F then (ATR_OK, Some ATR_CONVENTION_INVERSE)
  else (ATR_MALFORMED, None).

Definition ATR_GetSize (a : ATR) : Z * Z := (ATR_OK, atr_length a).
Definition ATR_GetNumberOfProtocols (a : ATR) : Z * Z := (ATR_OK, pn a).

Definition ATR_GetProtocolType (a : ATR) (number_protocol : Z) : res (Z * option Z) :=
  if (pn a <? number_protocol) || (number_protocol <? 2) then Ok (ATR_NOT_FOUND, None)
  else
    b ← get_ib a (number_protocol - 2) ATR_INTERFACE_BYTE_TD;
    if present b then Ok (ATR_OK, Some (value b .& 0x0F))
    else Ok (ATR_OK, Some ATR_PROTOCOL_TYPE_T0).

Definition ATR_GetInterfaceByte (a : ATR) (number character : Z) : res (Z * option Z) :=
  if (pn a <? number) || (number <? 1) then Ok (ATR_NOT_FOUND, None)
  else
    b ← get_ib a (number - 1) character;
    if present b &&
       ((character =? ATR_INTERFACE_BYTE_TA) || (character =? ATR_INTERFACE_BYTE_TB) ||
        (character =? ATR_INTERFACE_BYTE_TC) || (character =? ATR_INTERFACE_BYTE_TD))
    then Ok (ATR_OK, Some (value b))
    else Ok (ATR_NOT_FOUND, None).

(** The integer values coded in TA1, TB1, TC1 and TB2. *)
Definition ATR_GetIntegerValue (a : ATR) (name : Z) : res (Z * option Z) :=
  let read p c (f : Z -> Z) :=
    b ← get_ib a p c;
    if present b then Ok (ATR_OK, Some (f (value b))) else Ok (ATR_NOT_FOUND, None) in
  if name =? ATR_INTEGER_VALUE_FI then
    read 0 ATR_INTERFACE_BYTE_TA (fun v => (v .& 0xF0) ≫ 4)
  else if name =? ATR_INTEGER_VALUE_DI then
    read 0 ATR_INTERFACE_BYTE_TA (fun v => v .& 0x0F)
  else if name =? ATR_INTEGER_VALUE_II then
    read 0 ATR_INTERFACE_BYTE_TB (fun v => (v .& 0x60) ≫ 5)
  else if name =? ATR_INTEGER_VALUE_PI1 then
    read 0 ATR_INTERFACE_BYTE_TB (fun v => v .& 0x1F)
  else if name =? ATR_INTEGER_VALUE_PI2 then
    read 1 ATR_INTERFACE_BYTE_TB (fun v => v)
  else if name =? ATR_INTEGER_VALUE_N then
    read 0 ATR_INTERFACE_BYTE_TC (fun v => v)
  else Ok (ATR_NOT_FOUND, None).

Definition ATR_GetParameter (a : ATR) (name : Z) : res (Z * option Z) :=
  if name =? ATR_PARAMETER_F then
    r ← ATR_GetIntegerValue a ATR_INTEGER_VALUE_FI;
    match r with
    | (0, Some FI) => f ← aget atr_f_table FI; Ok (ATR_OK, Some f)
    | _ => Ok (ATR_OK, Some ATR_DEFAULT_F)
    end
  else if name =? ATR_PARAMETER_D then
    r ← ATR_GetIntegerValue a ATR_INTEGER_VALUE_DI;
    match r with
    | (0, Some DI) => d ← aget atr_d_table DI; Ok (ATR_OK, Some d)
    | _ => Ok (ATR_OK, Some ATR_DEFAULT_D)
    end
  else if name =? ATR_PARAMETER_I then
    r ← ATR_GetIntegerValue a ATR_INTEGER_VALUE_II;
    match r with
    | (0, Some II) => i ← aget atr_i_table II; Ok (ATR_OK, Some i)
    | _ => Ok (ATR_OK, Some ATR_DEFAULT_I)
    end
  else if name =? ATR_PARAMETER_P then
    r2 ← ATR_GetIntegerValue a ATR_INTEGER_VALUE_PI2;
    match r2 with
    | (0, Some PI2) => Ok (ATR_OK, Some PI2)
    | _ =>
      r1 ← ATR_GetIntegerValue a ATR_INTEGER_VALUE_PI1;
      match r1 with
      | (0, Some PI1) => Ok (ATR_OK, Some PI1)
      | _ => Ok (ATR_OK, Some ATR_DEFAULT_P)
      end
    end
  else if name =? ATR_PARAMETER_N then
    r ← ATR_GetIntegerValue a ATR_INTEGER_VALUE_N;
    match r with
    | (0, Some N) => Ok (ATR_OK, Some N)
    | _ => Ok (ATR_OK, Some ATR_DEFAULT_N)
    end
  else Ok (ATR_NOT_FOUND, None).

(** The function-local static of GetParameterD and GetParameterF is the
    argument [parameter]: its value before the call. *)
Definition GetParameterD (parameter : Z) (a : ATR) : res Z :=
  r ← ATR_GetParameter a ATR_INTEGER_VALUE_DI;
  Ok (match r.2 with Some v => v | None => parameter end).
Definition GetParameterF (parameter : Z) (a : ATR) : res Z :=
  r ← ATR_GetParameter a ATR_INTEGER_VALUE_FI;
  Ok (match r.2 with Some v => v | None => parameter end).

Definition ATR_GetHistoricalBytes (a : ATR) (hist : list Z) : res (Z * list Z * option Z) :=
  if hbn a =? 0 then Ok (ATR_NOT_FOUND, hist, None)
  else h ← amemcpy hist 0 (hb a) 0 (hbn a); Ok (ATR_OK, h, Some (hbn a)).

(** buffer[j++] = ib.value when present *)
Definition raw_ib (b : ib_byte) (bj : list Z * Z) : res (list Z * Z) :=
  let '(buffer, j) := bj in
  if present b then buffer' ← aset buffer j (value b); Ok (buffer', j + 1)
  else Ok (buffer, j).

(** for (i = 0; i < atr->pn; i++), from [i], [n] rounds left. *)
Fixpoint raw_loop (a : ATR) (n : nat) (i : Z) (bj : list Z * Z) : res (list Z * Z) :=
  match n with
  | O => Ok bj
  | S n =>
    ta ← get_ib a i ATR_INTERFACE_BYTE_TA; bj ← raw_ib ta bj;
    tb ← get_ib a i ATR_INTERFACE_BYTE_TB; bj ← raw_ib tb bj;
    tc ← get_ib a i ATR_INTERFACE_BYTE_TC; bj ← raw_ib tc bj;
    td ← get_ib a i ATR_INTERFACE_BYTE_TD; bj ← raw_ib td bj;
    raw_loop a n (i + 1) bj
  end.

(** The buffer after the call, the length stored and the code. *)
Definition ATR_GetRaw (a : ATR) (buffer : list Z) : res (Z * list Z * Z) :=
  buffer ← aset buffer 0 (TS a);
  buffer ← aset buffer 1 (T0 a);
  '(buffer, j) ← raw_loop a (Z.to_nat (pn a)) 0 (buffer, 2);
  '(buffer, j) ← (if 0 <? hbn a then
                    buffer ← amemcpy buffer j (hb a) 0 (hbn a); Ok (buffer, j + hbn a)
                  else Ok (buffer, j));
  '(buffer, j) ← raw_ib (TCK a) (buffer, j);
  Ok (ATR_OK, buffer, j).

Definition ATR_GetCheckByte (a : ATR) : Z * option Z :=
  if present (TCK a) then (ATR_OK, Some (value (TCK a))) else (ATR_NOT_FOUND, None).

Definition ATR_GetFsMax (a : ATR) : res (Z * Z) :=
  r ← ATR_GetIntegerValue a ATR_INTEGER_VALUE_FI;
  match r with
  | (0, Some FI) => f ← aget atr_fs_table FI; Ok (ATR_OK, f)
  | _ => f ← aget atr_fs_table 1; Ok (ATR_OK, f)
  end.

(** ** Lemmas *)

(** Every array of the record has its declared size. *)
Definition atr_shape (a : ATR) : Prop :=
  length (ib a) = 7%nat /\ Forall (fun row => length row = 4%nat) (ib a) /\
  length (hb a) = 15%nat.

(** The bytes a row of interface bytes contributes to the raw ATR. *)
Definition ib_bytes (row : list ib_byte) : list Z :=
  omap (fun b => if present b then Some (value b) else None) row.

#[global] Arguments ib_bytes : simpl never.

(** The bytes of the rows before row [p]. *)
Definition groups (a : ATR) (p : Z) : list Z :=
  concat (map ib_bytes (take (Z.to_nat p) (ib a))).

Lemma ib_bytes_app r1 r2 : ib_bytes (r1 ++ r2) = ib_bytes r1 ++ ib_bytes r2.
Proof. apply omap_app. Qed.

(** What one interface-byte test does to the record. *)
Definition ib_upd (a a' : ATR) (p c : Z) (bs : list Z) : Prop :=
  exists row row',
    0 <= p /\ ib a !! Z.to_nat p = Some row /\ a' = a <| ib := <[Z.to_nat p := row']> (ib a) |> /\
    length row' = length row /\ 0 <= c < Z.of_nat (length row) /\
    ib_bytes (take (S (Z.to_nat c)) row') = ib_bytes (take (Z.to_nat c) row) ++ bs.

Lemma ib_bytes_insert row c b :
  0 <= c < Z.of_nat (length row) ->
  ib_bytes (take (S (Z.to_nat c)) (<[Z.to_nat c := b]> row)) =
  ib_bytes (take (Z.to_nat c) row) ++ (if present b then [value b] else []).
Proof.
  intros Hc. erewrite take_S_r; [|apply list_lookup_insert_eq; lia].
  rewrite take_insert_ge by lia. rewrite ib_bytes_app. f_equal.
  unfold ib_bytes. cbn. by destruct (present b).
Qed.

Lemma ib_store_upd p c v a x a' :
  ib_store p c v a = Ok (x, a') -> ib_upd a a' p c [v].
Proof.
  unfold ib_store. intros H. minv.
  repeat match goal with
  | H : aget _ _ = Ok _ |- _ => apply aget_Ok in H; destruct H
  | H : aset _ _ _ = Ok _ |- _ => apply aset_Ok in H; destruct H; subst end.
  eexists _, _. split_and!; [done|done|done|by rewrite length_insert|lia|lia|].
  by rewrite ib_bytes_insert by lia.
Qed.

Lemma ib_absent_upd p c a x a' :
  ib_absent p c a = Ok (x, a') -> ib_upd a a' p c [].
Proof.
  unfold ib_absent. intros H. minv.
  repeat match goal with
  | H : aget _ _ = Ok _ |- _ => apply aget_Ok in H; destruct H
  | H : aset _ _ _ = Ok _ |- _ => apply aset_Ok in H; destruct H; subst end.
  eexists _, _. split_and!; [done|done|done|by rewrite length_insert|lia|lia|].
  by rewrite ib_bytes_insert by lia.
Qed.

Lemma atr_ib_step_upd buffer p c mask TDi pointer a pointer' a' :
  0 <= pointer -> atr_ib_step buffer p c mask TDi pointer a = Ok (pointer', a') ->
  pointer <= pointer' <= pointer + 1 /\
  (pointer < Z.of_nat (length buffer) -> pointer' < Z.of_nat (length buffer)) /\
  ib_upd a a' p c (seg buffer (pointer + 1) (pointer' + 1)).
Proof.
  intros Hp. unfold atr_ib_step. destruct (_ =? _); intros H; minv.
  - split; [lia|]. split.
    { match goal with H : aget _ _ = Ok _ |- _ => apply aget_Ok_inv in H end. lia. }
    erewrite (seg_one _ (pointer + 1)) by done. by eapply ib_store_upd.
  - split; [lia|]. split; [lia|]. rewrite seg_nil. by eapply ib_absent_upd.
Qed.

(** Row [p] has contributed [acc] with its first [c] bytes. *)
Definition row_acc (a : ATR) (p : Z) (c : nat) (acc : list Z) : Prop :=
  exists row, ib a !! Z.to_nat p = Some row /\ ib_bytes (take c row) = acc.

Lemma ib_upd_row_start a a' p c bs : ib_upd a a' p c bs -> row_acc a p 0 [].
Proof. intros (row&row'&Hp&Hr&_). by exists row. Qed.

Lemma ib_upd_index a a' p c bs : ib_upd a a' p c bs -> atr_shape a -> 0 <= p <= 6.
Proof. intros (row&row'&Hp&Hr&_) (H7&_). apply lookup_lt_Some in Hr. lia. Qed.

Lemma ib_upd_row_acc a a' p c bs acc :
  ib_upd a a' p (Z.of_nat c) bs -> row_acc a p c acc -> row_acc a' p (S c) (acc ++ bs).
Proof.
  intros (row&row'&Hp&Hr&->&Hl&Hc&Hb) (row0&Hr0&Ha). simplify_eq.
  exists row'. rewrite Nat2Z.id in Hb. rewrite Hb. split; [|done].
  simpl. apply list_lookup_insert_eq. by eapply lookup_lt_Some.
Qed.

Lemma ib_upd_groups a a' p c bs : ib_upd a a' p c bs -> groups a' p = groups a p.
Proof.
  intros (row&row'&Hp&Hr&->&_). unfold groups. simpl. by rewrite take_insert_ge by lia.
Qed.

Lemma ib_upd_shape a a' p c bs : ib_upd a a' p c bs -> atr_shape a -> atr_shape a'.
Proof.
  intros (row&row'&Hp&Hr&->&Hl&_) (H7&H4&Hh). unfold atr_shape. simpl.
  rewrite length_insert. split_and!; [done| |done].
  apply Forall_insert; [done|]. rewrite Hl. by eapply (Forall_lookup_1 _ _ _ _ H4).
Qed.

(** The fields the interface-byte loop leaves alone. *)
Definition same_frame (a a' : ATR) : Prop :=
  TS a' = TS a /\ T0 a' = T0 a /\ hbn a' = hbn a /\ hb a' = hb a.

Lemma same_frame_refl a : same_frame a a.
Proof. done. Qed.

Lemma same_frame_trans a b c : same_frame a b -> same_frame b c -> same_frame a c.
Proof. unfold same_frame. intuition congruence. Qed.

Lemma ib_upd_frame a a' p c bs : ib_upd a a' p c bs -> same_frame a a'.
Proof. by intros (row&row'&Hp&Hr&->&_). Qed.

Lemma ib_upd_TCK a a' p c bs : ib_upd a a' p c bs -> TCK a' = TCK a.
Proof. by intros (row&row'&Hp&Hr&->&_). Qed.

#[export] Hint Resolve ib_upd_frame ib_upd_shape same_frame_refl : drv.

Lemma groups_succ a p acc :
  atr_shape a -> 0 <= p -> row_acc a p 4 acc -> groups a (p + 1) = groups a p ++ acc.
Proof.
  intros (H7&H4&_) Hp (row&Hr&<-). unfold groups.
  rewrite Z2Nat.inj_add, Nat.add_1_r by lia.
  erewrite take_S_r by done. rewrite map_app, concat_app. simpl. rewrite app_nil_r.
  rewrite (take_ge row); [done|]. by rewrite (Forall_lookup_1 _ _ _ _ H4 Hr).
Qed.

Lemma atr_tabc_ok buffer p TDi pointer a pointer' a' :
  atr_shape a -> 0 <= pointer ->
  atr_tabc buffer p TDi pointer a = Ok (pointer', a') ->
  pointer <= pointer' <= pointer + 3 /\
  (pointer < Z.of_nat (length buffer) -> pointer' < Z.of_nat (length buffer)) /\ 0 <= p <= 6 /\ atr_shape a' /\ same_frame a a' /\
  TCK a' = TCK a /\ groups a' p = groups a p /\
  row_acc a' p 3 (seg buffer (pointer + 1) (pointer' + 1)).
Proof.
  intros Hs Hptr H. unfold atr_tabc in H. minv.
  repeat match goal with H : atr_ib_step _ _ _ _ _ ?q _ = Ok _ |- _ =>
    apply atr_ib_step_upd in H as (?&?&?); [|lia] end.
  match goal with U : ib_upd a _ _ _ _ |- _ =>
    pose proof (ib_upd_row_start _ _ _ _ _ U) as R0; pose proof (ib_upd_index _ _ _ _ _ U Hs) end.
  repeat match goal with
  | U : ib_upd ?x ?y _ ATR_INTERFACE_BYTE_TA _, R : row_acc ?x _ 0 _ |- _ =>
      pose proof (ib_upd_row_acc _ _ _ 0 _ _ U R); clear R
  | U : ib_upd ?x ?y _ ATR_INTERFACE_BYTE_TB _, R : row_acc ?x _ 1 _ |- _ =>
      pose proof (ib_upd_row_acc _ _ _ 1 _ _ U R); clear R
  | U : ib_upd ?x ?y _ ATR_INTERFACE_BYTE_TC _, R : row_acc ?x _ 2 _ |- _ =>
      pose proof (ib_upd_row_acc _ _ _ 2 _ _ U R) as R3; clear R end.
  rewrite app_nil_l, !seg_app in R3 by lia.
  split_and!; [lia|lia|lia|lia|lia|eauto 6 with drv| | | |done].
  - repeat (eapply same_frame_trans; [by eapply ib_upd_frame|]). apply same_frame_refl.
  - repeat (erewrite ib_upd_TCK by eassumption). done.
  - repeat (erewrite ib_upd_groups by eassumption). done.
Qed.

Lemma atr_loop_Break fuel buffer pointer p TDi a pointer' p' a' :
  let len := Z.of_nat (length buffer) in
  atr_shape a -> 1 <= pointer < len -> 0 <= p ->
  groups a p = seg buffer 2 (pointer + 1) ->
  atr_loop fuel buffer len pointer p TDi a = Ok (Break pointer' p', a') ->
  pointer <= pointer' < len /\ p <= p' <= 6 /\ atr_shape a' /\ same_frame a a' /\
  groups a' (p' + 1) = seg buffer 2 (pointer' + 1).
Proof.
  intros len. revert pointer p TDi a.
  induction fuel as [|fuel IH]; intros pointer p TDi a Hs Hp Hpn Hg H; [discriminate|].
  cbn [atr_loop] in H. destruct (Z.ltb_spec pointer len); [|lia].
  apply M_bind_Ok in H as (n&?&Hn%lift_Ok&H). destruct Hn as (?&_&[= <- <-]).
  destruct (Z.leb_spec len (pointer + n)); [by minv|].
  apply M_bind_Ok in H as (q&a1&Hq&H).
  apply atr_tabc_ok in Hq as (?&?&?&Hs1&Hf1&_&Hg1&Hr1); [|done|lia].
  destruct (_ =? _).
  - minv. match goal with H : ib_store _ _ _ _ = _ |- _ => apply ib_store_upd in H as U end.
    match goal with H : aget _ _ = Ok _ |- _ => pose proof (aget_Ok_inv _ _ _ H); 
      apply seg_one in H as Hone end.
    pose proof (ib_upd_row_acc _ _ _ 3 _ _ U Hr1) as R4.
    rewrite <- Hone, seg_app in R4 by lia.
    apply groups_succ in R4; [|by eauto with drv|lia].
    rewrite (ib_upd_groups _ _ _ _ _ U), Hg1, Hg, seg_app in R4 by lia.
    destruct (Z.leb_spec ATR_MAX_PROTOCOLS p); [by minv|].
    match goal with H : atr_loop _ _ _ _ _ _ ?s = _ |- _ => apply IH in H end;
      [|by eapply ib_upd_shape in U|lia|lia|done].
    destruct_and!. split_and!; try lia; try done.
    eapply same_frame_trans; [done|]. eapply same_frame_trans; [by eapply ib_upd_frame|]. done.
  - minv. match goal with H : ib_absent _ _ _ = _ |- _ => apply ib_absent_upd in H as U end.
    pose proof (ib_upd_row_acc _ _ _ 3 _ _ U Hr1) as R4. rewrite app_nil_r in R4.
    apply groups_succ in R4; [|by eauto with drv|lia].
    rewrite (ib_upd_groups _ _ _ _ _ U), Hg1, Hg, seg_app in R4 by lia.
    split_and!; [lia|lia|lia|lia|by eauto with drv| |done].
    eapply same_frame_trans; [done|]. by eapply ib_upd_frame.
Qed.

(** The TCK byte of the raw ATR, when there is one. *)
Definition tck_bytes (a : ATR) : list Z := ib_bytes [TCK a].

Lemma tck_bytes_eq a : tck_bytes a = if present (TCK a) then [value (TCK a)] else [].
Proof. unfold tck_bytes, ib_bytes. cbn. by destruct (present (TCK a)). Qed.

Lemma atr_finish_OK buffer pointer p a a' :
  let len := Z.of_nat (length buffer) in
  atr_shape a -> 0 <= pointer < len -> 0 <= hbn a ->
  atr_finish buffer len pointer p a = Ok (ATR_OK, a') ->
  pn a' = p + 1 /\ ib a' = ib a /\ TS a' = TS a /\ T0 a' = T0 a /\ hbn a' = hbn a /\
  atr_shape a' /\ atr_length a' <= len /\ hbn a <= 15 /\
  take (Z.to_nat (hbn a)) (hb a') = seg buffer (pointer + 1) (pointer + 1 + hbn a) /\
  pointer + 1 + hbn a <= atr_length a' /\
  tck_bytes a' = seg buffer (pointer + 1 + hbn a) (atr_length a').
Proof.
  intros len Hs Hp Hh H. unfold atr_finish, atr_checks in H. minv.
  destruct (Z.leb_spec len (pointer + hbn a)); minv; [discriminate|].
  match goal with H : amemcpy _ _ _ _ _ = Ok ?l |- _ => rename l into h';
    pose proof (amemcpy_length _ _ _ _ _ _ H) as Hl; apply amemcpy_Ok in H as (?&?&?&?&?&Hhb) end.
  destruct Hs as (Hs7&Hs4&Hs15). rewrite Hs15 in *.
  assert (Hhbs : take (Z.to_nat (hbn a)) h' = seg buffer (pointer + 1) (pointer + 1 + hbn a)).
  { rewrite Hhb. unfold seg. rewrite Z2Nat.inj_0, take_0. cbn [app].
    replace (pointer + 1 + hbn a - (pointer + 1)) with (hbn a) by lia.
    rewrite take_app_le, take_take, Nat.min_id; [done|].
    rewrite length_take, length_drop. lia. }
  destruct (present (TCK a)) eqn:HT; cbn [andb] in *.
  - destruct (Z.leb_spec len (pointer + hbn a + 1)); minv; [discriminate|].
    match goal with H : aget buffer _ = Ok _ |- _ => apply seg_one in H as Hone end.
    repeat (case_match; minv; try discriminate).
    all: repeat split; simpl; try done; try lia.
    all: rewrite tck_bytes_eq; simpl; rewrite HT;
      replace (pointer + 1 + hbn a) with (pointer + hbn a + 1) by lia; by rewrite Hone.
  - minv. repeat (case_match; minv; try discriminate).
    all: repeat split; simpl; try done; try lia.
    all: rewrite tck_bytes_eq; simpl; rewrite HT;
      replace (pointer + 1 + hbn a) with (pointer + hbn a + 1) by lia; by rewrite seg_nil.
Qed.

#[global] Arguments raw_ib : simpl never.

(** [bs] is written at [j], everything before [j] stays. *)
Definition emits (buffer : list Z) (j : Z) (buffer' : list Z) (j' : Z) (bs : list Z) : Prop :=
  length buffer' = length buffer /\ j' = j + Z.of_nat (length bs) /\
  take (Z.to_nat j') buffer' = take (Z.to_nat j) buffer ++ bs.

Lemma emits_nil buffer j : emits buffer j buffer j [].
Proof. split; [done|]. split; [simpl; lia|]. by rewrite app_nil_r. Qed.

Lemma emits_trans b0 j0 b1 j1 b2 j2 x y :
  emits b0 j0 b1 j1 x -> emits b1 j1 b2 j2 y -> emits b0 j0 b2 j2 (x ++ y).
Proof.
  intros (L1&->&E1) (L2&->&E2). split; [congruence|]. split; [rewrite length_app; lia|].
  by rewrite E2, E1, app_assoc.
Qed.

Lemma raw_ib_emits b buffer j :
  0 <= j -> j + Z.of_nat (length (ib_bytes [b])) <= Z.of_nat (length buffer) ->
  exists buffer' j', raw_ib b (buffer, j) = Ok (buffer', j') /\
    emits buffer j buffer' j' (ib_bytes [b]).
Proof.
  unfold raw_ib, ib_bytes. cbn. destruct (present b); cbn; intros Hj Hl.
  - rewrite aset_in by lia. eexists _, _. split; [done|]. split_and!; [|simpl; lia|].
    + by rewrite length_insert.
    + rewrite Z2Nat.inj_add, Nat.add_1_r by lia.
      erewrite take_S_r; [|apply list_lookup_insert_eq; lia].
      by rewrite take_insert_ge by lia.
  - eexists _, _. split; [done|apply emits_nil].
Qed.

Lemma row4 (row : list ib_byte) :
  length row = 4%nat -> exists b0 b1 b2 b3, row = [b0; b1; b2; b3].
Proof. destruct row as [|b0 [|b1 [|b2 [|b3 [|]]]]]; try done. by exists b0, b1, b2, b3. Qed.

(** The bytes of rows [i .. i+n-1]. *)
Definition rows_bytes (a : ATR) (i : Z) (n : nat) : list Z :=
  concat (map ib_bytes (take n (drop (Z.to_nat i) (ib a)))).

Lemma get_ib_row a i row c :
  0 <= i -> ib a !! Z.to_nat i = Some row -> get_ib a i c = aget row c.
Proof. intros Hi Hr. unfold get_ib. by rewrite (proj2 (aget_Ok (ib a) i row)). Qed.

Lemma raw_loop_emits a n i buffer j :
  atr_shape a -> 0 <= i -> i + Z.of_nat n <= 7 -> 0 <= j ->
  j + Z.of_nat (length (rows_bytes a i n)) <= Z.of_nat (length buffer) ->
  exists buffer' j', raw_loop a n i (buffer, j) = Ok (buffer', j') /\
    emits buffer j buffer' j' (rows_bytes a i n).
Proof.
  intros Hs. revert i buffer j. induction n as [|n IH]; intros i buffer j Hi Hn Hj Hl.
  { eexists _, _. split; [done|]. apply emits_nil. }
  destruct Hs as (H7&H4&H15).
  destruct (lookup_lt_is_Some_2 (ib a) (Z.to_nat i)) as [row Hr]; [lia|].
  destruct (row4 row (Forall_lookup_1 _ _ _ _ H4 Hr)) as (b0&b1&b2&b3&->).
  assert (Hb : rows_bytes a i (S n) =
    ((ib_bytes [b0] ++ ib_bytes [b1]) ++ ib_bytes [b2]) ++ ib_bytes [b3]
      ++ rows_bytes a (i + 1) n).
  { unfold rows_bytes. rewrite (drop_S _ _ _ Hr).
    replace (Z.to_nat (i + 1)) with (S (Z.to_nat i)) by lia. simpl.
    change (ib_bytes [b0; b1; b2; b3]) with (ib_bytes ((([b0] ++ [b1]) ++ [b2]) ++ [b3])).
    by rewrite !ib_bytes_app, <- !app_assoc. }
  rewrite Hb in *. rewrite !length_app in Hl. cbn [raw_loop].
  rewrite !(get_ib_row _ _ _ _ Hi Hr). cbn [mbind res_bind aget].
  destruct (raw_ib_emits b0 buffer j) as (u0&j0&E0&T0); [lia|lia|].
  pose proof T0 as (L0&J0&_).
  destruct (raw_ib_emits b1 u0 j0) as (u1&j1&E1&T1); [lia|lia|].
  pose proof T1 as (L1&J1&_).
  destruct (raw_ib_emits b2 u1 j1) as (u2&j2&E2&T2); [lia|lia|].
  pose proof T2 as (L2&J2&_).
  destruct (raw_ib_emits b3 u2 j2) as (u3&j3&E3&T3); [lia|lia|].
  pose proof T3 as (L3&J3&_).
  destruct (IH (i + 1) u3 j3) as (u4&j4&E4&T4); [lia|lia|lia|lia|].
  exists u4, j4. split; [|by eauto 10 using emits_trans].
  unfold aget, mbind, res_bind. simpl. rewrite E0, E1, E2, E3. done.
Qed.

(** The raw form a parsed record stands for. *)
Definition raw_bytes (a : ATR) : list Z :=
  [TS a; T0 a] ++ groups a (pn a) ++ take (Z.to_nat (hbn a)) (hb a) ++ tck_bytes a.

Lemma rows_bytes_0 a p : 0 <= p -> rows_bytes a 0 (Z.to_nat p) = groups a p.
Proof. done. Qed.

Lemma emits_memcpy buffer j src n buffer' :
  amemcpy buffer j src 0 n = Ok buffer' -> emits buffer j buffer' (j + n) (take (Z.to_nat n) src).
Proof.
  intros H. pose proof (amemcpy_length _ _ _ _ _ _ H).
  apply amemcpy_Ok in H as (?&?&?&?&?&->).
  assert (length (take (Z.to_nat n) src) = Z.to_nat n) by (rewrite length_take; lia).
  split; [done|]. split; [lia|].
  rewrite Z2Nat.inj_0, drop_0, app_assoc, take_app_length'; [done|].
  rewrite length_app, length_take. lia.
Qed.

Lemma ATR_GetRaw_spec a out :
  atr_shape a -> 0 <= pn a <= 7 -> 0 <= hbn a <= 15 ->
  Z.of_nat (length (raw_bytes a)) <= Z.of_nat (length out) ->
  exists out', ATR_GetRaw a out = Ok (ATR_OK, out', Z.of_nat (length (raw_bytes a))) /\
    length out' = length out /\ take (length (raw_bytes a)) out' = raw_bytes a.
Proof.
  intros Hs Hpn Hn Hl. unfold ATR_GetRaw.
  assert (Hh : length (take (Z.to_nat (hbn a)) (hb a)) = Z.to_nat (hbn a)).
  { destruct Hs as (_&_&H15). rewrite length_take. lia. }
  unfold raw_bytes in Hl. rewrite !length_app, Hh in Hl. simpl in Hl.
  assert (E0 : emits out 0 (<[1%nat:=T0 a]> (<[0%nat:=TS a]> out)) 2 [TS a; T0 a]).
  { split; [by rewrite !length_insert|]. split; [done|]. by destruct out as [|? [|??]]; simpl in *; try lia. }
  rewrite aset_in by lia. cbn [mbind res_bind].
  rewrite aset_in by (rewrite length_insert; lia). cbn [mbind res_bind].
  change (Z.to_nat 1) with 1%nat. change (Z.to_nat 0) with 0%nat.
  pose proof E0 as (L0&_&_).
  destruct (raw_loop_emits a (Z.to_nat (pn a)) 0 (<[1%nat:=T0 a]> (<[0%nat:=TS a]> out)) 2)
    as (u1&j1&E1&T1); [done|lia|lia|lia| |].
  { rewrite rows_bytes_0, L0 by lia. lia. }
  rewrite rows_bytes_0 in T1 by lia. rewrite E1. cbn [mbind res_bind].
  pose proof T1 as (L1&J1&_).
  assert (exists u2 j2, (if 0 <? hbn a then
      buffer ← amemcpy u1 j1 (hb a) 0 (hbn a); Ok (buffer, j1 + hbn a) else Ok (u1, j1)) = Ok (u2, j2)
      /\ emits u1 j1 u2 j2 (take (Z.to_nat (hbn a)) (hb a))) as (u2&j2&E2&T2).
  { destruct (Z.ltb_spec 0 (hbn a)).
    - destruct (amemcpy u1 j1 (hb a) 0 (hbn a)) as [u2|] eqn:Hm.
      + exists u2, (j1 + hbn a). split; [done|]. by apply emits_memcpy.
      + exfalso. destruct Hs as (_&_&H15).
        eassert (amemcpy u1 j1 (hb a) 0 (hbn a) = Ok _) as Hm'; [|congruence].
        apply amemcpy_Ok. split_and!; [lia|lia|lia|lia|lia|reflexivity].
    - exists u1, j1. split; [done|]. replace (hbn a) with 0 by lia. apply emits_nil. }
  rewrite E2. cbn [mbind res_bind]. pose proof T2 as (L2&J2&_).
  destruct (raw_ib_emits (TCK a) u2 j2) as (u3&j3&E3&T3); [lia|unfold tck_bytes in Hl; lia|].
  rewrite E3. cbn [mbind res_bind]. exists u3.
  pose proof (emits_trans _ _ _ _ _ _ _ _ (emits_trans _ _ _ _ _ _ _ _
     (emits_trans _ _ _ _ _ _ _ _ E0 T1) T2) T3) as (L&J&T).
  rewrite <- !app_assoc in T, J. fold (tck_bytes a) in T, J. fold (raw_bytes a) in T, J.
  rewrite Z.add_0_l in J. subst j3. rewrite Nat2Z.id in T. by split_and!.
Qed.

Lemma groups_0 a : groups a 0 = [].
Proof. done. Qed.

Lemma atr_loop_Return fuel buffer len pointer p TDi a c a' :
  atr_loop fuel buffer len pointer p TDi a = Ok (Return c, a') -> c = ATR_MALFORMED.
Proof.
  revert pointer p TDi a. induction fuel as [|fuel IH]; intros pointer p TDi a H; [done|].
  cbn [atr_loop] in H. case_match; [|by minv].
  apply M_bind_Ok in H as (?&?&_&H). case_match; [by minv|].
  apply M_bind_Ok in H as (?&?&_&H). case_match; minv; [|done].
  case_match; [by minv|by eapply IH].
Qed.

Lemma atr_normalise_Ok buf len norm :
  0 <= len -> atr_normalise buf len = Ok norm ->
  len <= ATR_MAX_SIZE /\ len = Z.of_nat (length norm) /\ len <= Z.of_nat (length buf).
Proof.
  intros Hl H. unfold atr_normalise in H. destruct (Z.leb_spec len ATR_MAX_SIZE); [|done].
  apply res_bind_Ok in H as (raw&(?&?&?&->)%aslice_Ok&Hr).
  apply res_bind_Ok in Hr as (t&_&Ht). minv.
  case_match; rewrite ?length_map, length_take, length_drop; lia.
Qed.

(** What a successful parse leaves in the record: the bytes of the normalised
    input up to [atr_length]. *)
Lemma ATR_InitFromArray_raw buf len a0 a :
  atr_shape a0 -> ATR_InitFromArray buf len a0 = Ok (ATR_OK, a) ->
  exists norm, atr_normalise buf len = Ok norm /\ atr_shape a /\ 1 <= pn a <= 7 /\
    0 <= hbn a <= 15 /\ 2 <= atr_length a <= len /\ len <= ATR_MAX_SIZE /\
    len = Z.of_nat (length norm) /\
    raw_bytes a = take (Z.to_nat (atr_length a)) norm.
Proof.
  intros Hs H. unfold ATR_InitFromArray in H.
  destruct (Z.ltb_spec len 2); [minv; discriminate|].
  apply M_bind_Ok in H as (norm&?&(?&Hn&[= <- <-])%lift_Ok&H).
  apply M_bind_Ok in H as (ts&?&(?&Hts&[= <- <-])%lift_Ok&H).
  apply M_bind_Ok in H as (t0&?&(?&Ht0&[= <- <-])%lift_Ok&H).
  apply M_bind_Ok in H as ([]&?&[= <-]&H).
  apply M_bind_Ok in H as (e&a1&Hloop&Hfin).
  pose proof Hn as Hn'. apply atr_normalise_Ok in Hn' as (Hmax&Hlen&_); [|lia].
  destruct e as [code|ptr p].
  { apply atr_loop_Return in Hloop. minv. discriminate. }
  rewrite Hlen in Hloop, Hfin. apply atr_loop_Break in Hloop as (Hptr&Hp&Hs1&Hf&Hg);
    [|done|lia|lia|by rewrite seg_nil].
  destruct Hf as (HTS&HT0&Hhbn&_). simpl in HTS, HT0, Hhbn.
  assert (0 <= hbn a1) by (rewrite Hhbn; apply Z.land_nonneg; lia).
  apply atr_finish_OK in Hfin as (Hpn&Hib&HTS'&HT0'&Hhbn'&Hs'&HL&H15&Hhb&HL1&Htck); [|done|lia|done].
  exists norm. split_and!; try done; try lia.
  unfold raw_bytes. rewrite Hpn, Hhbn', Hhb, Htck, HTS', HT0', HTS, HT0.
  assert (Hgr : groups a (p + 1) = groups a1 (p + 1)) by (unfold groups; by rewrite Hib).
  rewrite Hgr, Hg, <- (seg_0 norm).
  apply seg_one in Hts. apply seg_one in Ht0.
  change [ts; t0] with ([ts] ++ [t0]). rewrite <- Hts, <- Ht0.
  rewrite !app_assoc, !seg_app by lia. done.
Qed.

(** *** The parser always returns, within bounds *)

Definition bit_absent (TDi mask : Z) : Z := if (TDi .| mask) =? 0xFF then 1 else 0.

(** The table gives the number of interface bytes announced by the high
    nibble. *)
Lemma num_ib_spec TDi :
  is_u8 TDi ->
  aget atr_num_ib_table ((0xF0 .& TDi) ≫ 4) =
  Ok (bit_absent TDi 0xEF + bit_absent TDi 0xDF + bit_absent TDi 0xBF + bit_absent TDi 0x7F).
Proof.
  intros HT. by_bytes TDi HT.
Qed.

Lemma get_row a p c :
  atr_shape a -> 0 <= p <= 6 -> 0 <= c < 4 ->
  exists row b, aget (ib a) p = Ok row /\ aget row c = Ok b /\ length row = 4%nat.
Proof.
  intros (H7&H4&_) Hp Hc. destruct (aget_in (ib a) p) as [row Hr]; [lia|].
  pose proof (aget_Forall _ _ _ _ H4 Hr) as Hl. cbn beta in Hl.
  destruct (aget_in row c) as [b Hb]; [lia|]. by exists row, b.
Qed.

Lemma ib_store_runs a p c v :
  atr_shape a -> 0 <= p <= 6 -> 0 <= c < 4 -> exists a', ib_store p c v a = Ok (tt, a').
Proof.
  intros Hs Hp Hc. destruct (get_row a p c Hs Hp Hc) as (row&b&Hr&Hb&Hl).
  destruct Hs as (H7&_). unfold ib_store. rewrite Hr. cbn [mbind res_bind].
  rewrite aset_in by lia. cbn [mbind res_bind]. rewrite aset_in by lia. by eexists.
Qed.

Lemma ib_absent_runs a p c :
  atr_shape a -> 0 <= p <= 6 -> 0 <= c < 4 -> exists a', ib_absent p c a = Ok (tt, a').
Proof.
  intros Hs Hp Hc. destruct (get_row a p c Hs Hp Hc) as (row&b&Hr&Hb&Hl).
  destruct Hs as (H7&_). unfold ib_absent. rewrite Hr. cbn [mbind res_bind].
  rewrite Hb. cbn [mbind res_bind].
  rewrite aset_in by lia. cbn [mbind res_bind]. rewrite aset_in by lia. by eexists.
Qed.

Lemma atr_ib_step_runs buffer p c mask TDi pointer a :
  atr_shape a -> 0 <= p <= 6 -> 0 <= c < 4 -> 0 <= pointer ->
  pointer + bit_absent TDi mask < Z.of_nat (length buffer) ->
  exists a', atr_ib_step buffer p c mask TDi pointer a = Ok (pointer + bit_absent TDi mask, a')
    /\ atr_shape a'.
Proof.
  intros Hs Hp Hc Hptr Hb.
  assert (exists a', atr_ib_step buffer p c mask TDi pointer a
            = Ok (pointer + bit_absent TDi mask, a')) as [a' Ha].
  { unfold atr_ib_step, bit_absent in *. destruct (_ =? _).
    - destruct (aget_in buffer (pointer + 1)) as [b Hb']; [lia|].
      destruct (ib_store_runs a p c b Hs Hp Hc) as [a' Ha]. exists a'.
      unfold lift, mbind, M_bind. by rewrite Hb', Ha.
    - destruct (ib_absent_runs a p c Hs Hp Hc) as [a' Ha]. exists a'.
      unfold mbind, M_bind. rewrite Ha, Z.add_0_r. done. }
  exists a'. split; [done|]. apply atr_ib_step_upd in Ha as (_&_&U); [|done].
  by eapply ib_upd_shape.
Qed.

(** TA, TB and TC of a row that exists: the announced bytes are consumed. *)
Lemma atr_tabc_runs buffer p TDi pointer a :
  let n := bit_absent TDi 0xEF + bit_absent TDi 0xDF + bit_absent TDi 0xBF in
  atr_shape a -> 0 <= p <= 6 -> 0 <= pointer -> pointer + n < Z.of_nat (length buffer) ->
  exists a', atr_tabc buffer p TDi pointer a = Ok (pointer + n, a') /\ atr_shape a'.
Proof.
  intros n Hs Hp Hptr Hn.
  assert (Hbit : forall m, 0 <= bit_absent TDi m <= 1) by
    (intros m; unfold bit_absent; destruct (_ =? _); lia).
  pose proof (Hbit 0xEF). pose proof (Hbit 0xDF). pose proof (Hbit 0xBF).
  unfold atr_tabc, mbind, M_bind.
  destruct (atr_ib_step_runs buffer p ATR_INTERFACE_BYTE_TA 0xEF TDi pointer a)
    as (a1&E1&S1); [done|done|done|done|lia|]. rewrite E1.
  destruct (atr_ib_step_runs buffer p ATR_INTERFACE_BYTE_TB 0xDF TDi
    (pointer + bit_absent TDi 0xEF) a1) as (a2&E2&S2); [done|done|done|lia|lia|]. rewrite E2.
  destruct (atr_ib_step_runs buffer p ATR_INTERFACE_BYTE_TC 0xBF TDi
    (pointer + bit_absent TDi 0xEF + bit_absent TDi 0xDF) a2) as (a3&E3&S3);
    [done|done|done|lia|lia|]. exists a3. split; [|done]. rewrite E3. do 2 f_equal. lia.
Qed.

(** Past the last row every access faults. *)
Lemma atr_tabc_overflow buffer p TDi pointer a :
  atr_shape a -> 7 <= p -> 0 <= pointer ->
  pointer + bit_absent TDi 0xEF < Z.of_nat (length buffer) ->
  atr_tabc buffer p TDi pointer a = Fault OutOfBounds.
Proof.
  intros (H7&_) Hp Hptr Hb. unfold atr_tabc, mbind, M_bind, atr_ib_step.
  unfold bit_absent in Hb. destruct (_ =? _).
  - destruct (aget_in buffer (pointer + 1)) as [b Hb']; [lia|].
    unfold lift, mbind, M_bind, ib_store. rewrite Hb'.
    by rewrite aget_oob by lia.
  - unfold mbind, M_bind, ib_absent. by rewrite aget_oob by lia.
Qed.

Lemma atr_loop_total fuel buffer pointer p TDi a :
  let len := Z.of_nat (length buffer) in
  atr_shape a -> Forall is_u8 buffer -> is_u8 TDi -> 1 <= pointer < len ->
  0 <= p < pointer -> len - pointer < Z.of_nat fuel ->
  (exists e a', atr_loop fuel buffer len pointer p TDi a = Ok (e, a')) \/
  (atr_loop fuel buffer len pointer p TDi a = Fault OutOfBounds /\ 9 <= len).
Proof.
  intros len. revert pointer p TDi a.
  induction fuel as [|fuel IH]; intros pointer p TDi a Hs HB HT Hptr Hp Hf; [lia|].
  assert (Hbit : forall m, 0 <= bit_absent TDi m <= 1) by
    (intros m; unfold bit_absent; destruct (_ =? _); lia).
  pose proof (Hbit 0xEF). pose proof (Hbit 0xDF). pose proof (Hbit 0xBF).
  pose proof (Hbit 0x7F).
  cbn [atr_loop]. destruct (Z.ltb_spec pointer len); [|lia].
  erewrite M_bind_run by (apply lift_run, num_ib_spec; done).
  destruct (Z.leb_spec len (pointer + (bit_absent TDi 0xEF + bit_absent TDi 0xDF
    + bit_absent TDi 0xBF + bit_absent TDi 0x7F))); [left; by eexists _, _|].
  destruct (decide (p <= 6)).
  - destruct (atr_tabc_runs buffer p TDi pointer a) as (a1&E1&S1); [done|lia|lia|lia|].
    erewrite M_bind_run by done.
    assert (Hd : bit_absent TDi 0x7F = if (TDi .| 0x7F) =? 0xFF then 1 else 0) by done.
    destruct ((TDi .| 0x7F) =? 0xFF).
    + match goal with |- context [aget buffer (?q + 1)] =>
        destruct (aget_in buffer (q + 1)) as [TD HTD]; [lia|] end.
      erewrite M_bind_run by (by apply lift_run).
      match type of HTD with aget _ ?q = _ => set (ptr' := q) in * end.
      destruct (ib_store_runs a1 p ATR_INTERFACE_BYTE_TD TD) as [a2 E2]; [done|lia|done|].
      erewrite M_bind_run by done. erewrite M_bind_run by done.
      destruct (Z.leb_spec ATR_MAX_PROTOCOLS p); [left; by eexists _, _|].
      apply IH; [|done|by eapply aget_Forall| |lia|lia].
      * apply ib_store_upd, ib_upd_shape in E2; [|done]. done.
      * subst ptr'. lia.
    + destruct (ib_absent_runs a1 p ATR_INTERFACE_BYTE_TD) as [a2 E2]; [done|lia|done|].
      left. erewrite M_bind_run by done. by eexists _, _.
  - right. split; [|lia]. erewrite M_bind_fault; [done|]. apply atr_tabc_overflow; [done|lia|lia|lia].
Qed.

Lemma get_ib_in a p c :
  atr_shape a -> 0 <= p <= 6 -> 0 <= c < 4 -> exists b, get_ib a p c = Ok b.
Proof.
  intros Hs Hp Hc. destruct (get_row a p c Hs Hp Hc) as (row&b&Hr&Hb&_).
  exists b. unfold get_ib. by rewrite Hr.
Qed.

(** A parsed record whose single protocol has been checked. *)
Definition single_protocol_ok (a : ATR) (p : Z) : Prop :=
  forall ta tb, get_ib a p ATR_INTERFACE_BYTE_TA = Ok ta ->
  get_ib a p ATR_INTERFACE_BYTE_TB = Ok tb -> pn a = 1 ->
  (present ta = true -> exists fs, aget atr_fs_table ((value ta .& 0xF0) ≫ 4) = Ok fs /\ fs <> 0)
  /\ (present tb = true -> value tb <= 0x80).

Lemma atr_checks_total p a :
  atr_shape a -> 0 <= p <= 6 ->
  exists code, atr_checks p a = Ok (code, a) /\
    (code = ATR_OK \/ code = ATR_MALFORMED) /\
    (code = ATR_OK -> single_protocol_ok a p).
Proof.
  intros Hs Hp. unfold atr_checks. erewrite M_bind_run by done.
  destruct (Z.eqb_spec (pn a) 1) as [Hpn|Hpn]; last first.
  { do 2 (erewrite M_bind_run by done; cbv iota beta). eexists.
    split; [done|]. split; [by left|]. intros _ ta tb _ _ ?. lia. }
  destruct (get_ib_in a p ATR_INTERFACE_BYTE_TA) as [ta Hta]; [done..|].
  destruct (get_ib_in a p ATR_INTERFACE_BYTE_TB) as [tb Htb]; [done..|].
  destruct (aget_in atr_fs_table ((value ta .& 0xF0) ≫ 4)) as [fs Hfs]; [apply nibble_hi|].
  erewrite (M_bind_run _ _ _ (present ta && (fs =? 0))); last first.
  { erewrite M_bind_run by (erewrite M_bind_run by done; by apply lift_run).
    destruct (present ta); [|done]. by erewrite M_bind_run by (by apply lift_run). }
  destruct (present ta && (fs =? 0)) eqn:Hbad.
  { eexists. split; [done|split; [by right|done]]. }
  erewrite (M_bind_run _ _ _ (present tb && (0x80 <? value tb))); last first.
  { by erewrite M_bind_run by (erewrite M_bind_run by done; by apply lift_run). }
  eexists. split; [done|]. destruct (present tb && (0x80 <? value tb)) eqn:Hc.
  { split; [by right|done]. }
  split; [by left|]. intros _ ta' tb' Hta' Htb' _.
  rewrite Hta in Hta'. rewrite Htb in Htb'. injection Hta' as <-. injection Htb' as <-.
  split; intros Hpr.
  - exists fs. split; [done|]. rewrite Hpr in Hbad. cbn in Hbad. lia.
  - rewrite Hpr in Hc. cbn in Hc. lia.
Qed.

Lemma atr_finish_total buffer pointer p a :
  let len := Z.of_nat (length buffer) in
  atr_shape a -> 0 <= p <= 6 -> 0 <= pointer -> 0 <= hbn a <= 15 ->
  exists code a', atr_finish buffer len pointer p a = Ok (code, a') /\
    (code = ATR_OK \/ code = ATR_MALFORMED) /\
    (code = ATR_OK -> single_protocol_ok a' p /\ pn a' = p + 1).
Proof.
  intros len Hs Hp Hptr Hn. unfold atr_finish.
  erewrite M_bind_run by done. erewrite M_bind_run by done. cbn [hbn set set_pn].
  case_match; [eexists _, _; split; [done|split; [by right|done]]|].
  destruct (Z.leb_spec len (pointer + hbn a)) as [|Hle]; [done|].
  erewrite M_bind_run by done.
  destruct (amemcpy (hb a) 0 buffer (pointer + 1) (hbn a)) as [h'|] eqn:Hm; last first.
  { exfalso. eassert (amemcpy (hb a) 0 buffer (pointer + 1) (hbn a) = Ok _); [|congruence].
    destruct Hs as (_&_&H15). apply amemcpy_Ok. split_and!; [lia|lia|lia|lia|lia|reflexivity]. }
  erewrite M_bind_run by (by apply lift_run).
  erewrite M_bind_run by done. erewrite M_bind_run by done.
  pose proof (amemcpy_length _ _ _ _ _ _ Hm) as Hl.
  set (a1 := set_hb h' (set_pn (p + 1) a)).
  assert (Hs1 : atr_shape a1) by (destruct Hs as (?&?&?); split_and!; simpl; congruence).
  assert (Htail : forall q a2, atr_shape a2 -> pn a2 = p + 1 -> exists code a',
    (modify (fun a => a <| atr_length := q + 1 |>);; atr_checks p) a2 = Ok (code, a') /\
    (code = ATR_OK \/ code = ATR_MALFORMED) /\
    (code = ATR_OK -> single_protocol_ok a' p /\ pn a' = p + 1)).
  { intros q a2 Hs2 Hpn. erewrite M_bind_run by done.
    destruct (atr_checks_total p (a2 <| atr_length := q + 1 |>)) as (code&E&Hc&Hok);
      [done..|]. eexists code, _. split; [done|]. split; [done|]. intros ->. split; [auto|done]. }
  destruct (present (TCK a1)); cbn [andb].
  - destruct (Z.leb_spec len (pointer + hbn a + 1)); [eexists _, _; split; [done|split; [by right|done]]|].
    destruct (aget_in buffer (pointer + hbn a + 1)) as [b Hb]; [lia|].
    erewrite M_bind_run by (erewrite M_bind_run by (by apply lift_run); by erewrite M_bind_run by done).
    by apply Htail.
  - erewrite M_bind_run by done. by apply Htail.
Qed.

(** What the three outcomes of a parse are. *)
Lemma ATR_InitFromArray_cases buf len a0 :
  atr_shape a0 -> Forall is_u8 buf -> len <= ATR_MAX_SIZE -> len <= Z.of_nat (length buf) ->
  (exists code a, ATR_InitFromArray buf len a0 = Ok (code, a) /\
    (code = ATR_OK \/ code = ATR_MALFORMED) /\
    (code = ATR_OK -> single_protocol_ok a (pn a - 1))) \/
  (ATR_InitFromArray buf len a0 = Fault OutOfBounds /\ 9 <= len).
Proof.
  intros Hs HB Hmax Hlen. unfold ATR_InitFromArray.
  destruct (Z.ltb_spec len 2); [left; eexists _, _; split; [done|split; [by right|done]]|].
  assert (exists norm, atr_normalise buf len = Ok norm /\ Forall is_u8 norm) as (norm&Hn&HBn).
  { destruct (aget_in buf 0) as [t Ht]; [lia|]. unfold atr_normalise.
    destruct (Z.leb_spec len ATR_MAX_SIZE); [|lia].
    destruct (aslice buf 0 len) as [raw|] eqn:Hr.
    - rewrite Ht. cbn [mbind res_bind]. eexists. split; [done|].
      apply aslice_Ok in Hr as (_&_&_&->).
      assert (Forall is_u8 (take (Z.to_nat len) (drop (Z.to_nat 0) buf))) by (by apply Forall_take, Forall_drop).
      destruct (t =? 0x03); [|done]. apply Forall_map, Forall_forall. auto with drv.
    - exfalso. eassert (aslice buf 0 len = Ok _); [|congruence].
      apply aslice_Ok. split_and!; [lia|lia|lia|reflexivity]. }
  pose proof Hn as Hn'. apply atr_normalise_Ok in Hn' as (_&Hl&_); [|lia].
  destruct (aget_in norm 0) as [ts Hts]; [lia|]. destruct (aget_in norm 1) as [t0 Ht0]; [lia|].
  erewrite M_bind_run by (by apply lift_run). erewrite M_bind_run by (by apply lift_run).
  erewrite M_bind_run by (by apply lift_run). erewrite M_bind_run by done.
  match goal with |- context [(atr_loop _ _ _ _ _ _ ≫= _) ?s] => set (a1 := s) end.
  rewrite Hl. destruct (atr_loop_total (Z.to_nat (Z.of_nat (length norm))) norm 1 0 t0 a1)
    as [(e&a2&He)|[He H9]]; [done|done|by eapply aget_Forall|lia|lia|lia| |].
  - erewrite M_bind_run by done. left. destruct e as [code|ptr p].
    + apply atr_loop_Return in He as ->. eexists _, _. split; [done|split; [by right|done]].
    + apply atr_loop_Break in He as (Hptr&Hp&Hs2&(_&_&Hh&_)&_); [|done|lia|lia|by rewrite seg_nil].
      destruct (atr_finish_total norm ptr p a2) as (code&a3&E&Hc&Hok);
        [done|lia|lia|rewrite Hh; pose proof (nibble_lo t0); simpl; lia|].
      exists code, a3. split; [done|]. split; [done|]. intros [Hsp ->]%Hok.
      by replace (p + 1 - 1) with p by lia.
  - right. erewrite M_bind_fault by done. done.
Qed.

(** ** The record in its caller's hands *)

Definition shape_kept (a a' : ATR) : Prop := atr_shape a -> atr_shape a'.
#[export] Instance shape_kept_preorder : PreOrder shape_kept.
Proof. split; [by intros a H|intros a b c H1 H2 H; by apply H2, H1]. Qed.

Lemma ib_store_shape p c v : keeps shape_kept (ib_store p c v).
Proof. intros a x a' H. exact (ib_upd_shape _ _ _ _ _ (ib_store_upd _ _ _ _ _ _ H)). Qed.
Lemma ib_absent_shape p c : keeps shape_kept (ib_absent p c).
Proof. intros a x a' H. exact (ib_upd_shape _ _ _ _ _ (ib_absent_upd _ _ _ _ _ H)). Qed.
#[export] Hint Resolve ib_store_shape ib_absent_shape : keeps.

Lemma atr_ib_step_shape buffer p c mask TDi pointer :
  keeps shape_kept (atr_ib_step buffer p c mask TDi pointer).
Proof. unfold atr_ib_step. keeps. Qed.
#[export] Hint Resolve atr_ib_step_shape : keeps.

Lemma atr_loop_shape fuel buffer len : forall pointer p TDi,
  keeps shape_kept (atr_loop fuel buffer len pointer p TDi).
Proof.
  induction fuel as [|fuel IH]; intros pointer p TDi; cbn [atr_loop]; [apply keeps_faulty|].
  unfold atr_tabc. keeps; intros Hs; exact Hs.
Qed.
#[export] Hint Resolve atr_loop_shape : keeps.

Lemma hb_copy_shape {A} b p n (k : M ATR A) :
  keeps shape_kept k ->
  keeps shape_kept (h ← gets hb; h' ← lift (amemcpy h 0 b p n);
                    modify (fun a => a <| hb := h' |>);; k).
Proof.
  intros Hk a x a' H (H1 & H2 & H3). rewrite (M_bind_run _ _ _ _ _ eq_refl) in H.
  apply M_bind_Ok in H as (h & ? & (? & Hh & [= <- <-])%lift_Ok & H).
  rewrite (M_bind_run _ _ _ _ _ eq_refl) in H. apply (Hk _ _ _ H).
  split_and!; [done|done|]. simpl. by rewrite (amemcpy_length _ _ _ _ _ _ Hh).
Qed.

Lemma atr_finish_shape buffer len pointer p : keeps shape_kept (atr_finish buffer len pointer p).
Proof.
  unfold atr_finish.
  apply keeps_bind; [apply _|apply keeps_modify; intros a Hs; exact Hs|intros _].
  apply keeps_bind; [apply _|apply keeps_gets; apply _|intros n].
  apply keeps_if; [apply keeps_ret; apply _|]. apply hb_copy_shape.
  unfold atr_checks. keeps; intros Hs; exact Hs.
Qed.
#[export] Hint Resolve atr_finish_shape : keeps.

(** Whatever its result, the parser leaves a well-formed record. *)
Lemma ATR_InitFromArray_shape buf len : keeps shape_kept (ATR_InitFromArray buf len).
Proof.
  unfold ATR_InitFromArray. keeps; [intros Hs; exact Hs|].
  match goal with |- keeps _ (match ?e with _ => _ end) => destruct e end; keeps.
Qed.

(** Only the first [length] bytes of the array matter. *)
Lemma ATR_InitFromArray_prefix buf rest a :
  ATR_InitFromArray (buf ++ rest) (Z.of_nat (length buf)) a =
  ATR_InitFromArray buf (Z.of_nat (length buf)) a.
Proof.
  unfold ATR_InitFromArray. destruct (Z.ltb_spec (Z.of_nat (length buf)) 2); [done|].
  replace (atr_normalise (buf ++ rest) (Z.of_nat (length buf)))
    with (atr_normalise buf (Z.of_nat (length buf))); [done|].
  unfold atr_normalise. destruct (_ <=? _); [|done].
  assert (E : forall l, aslice (buf ++ l) 0 (Z.of_nat (length buf)) = Ok buf).
  { intros l. apply aslice_Ok. rewrite length_app, drop_0, Nat2Z.id, take_app_length.
    split_and!; [lia|lia|lia|done]. }
  pose proof (E []) as E0. rewrite app_nil_r in E0. rewrite E, E0. cbn [mbind res_bind].
  replace (aget (buf ++ rest) 0) with (aget buf 0); [done|].
  destruct (aget_in buf 0) as [b Hb]; [lia|]. rewrite Hb. symmetry. apply aget_Ok in Hb as [_ Hb].
  apply aget_Ok. split; [done|]. by apply lookup_app_l_Some.
Qed.

(** The conversion factors of a well-formed record exist. *)
Lemma ATR_factors a :
  atr_shape a -> exists f d, GetParameterF 0 a = Ok f /\ GetParameterD 0 a = Ok d /\
    0 <= f <= 2048 /\ 0 <= d <= 64000000.
Proof.
  intros (H7 & H4 & _).
  destruct (aget_in (ib a) 0) as [row Hrow]; [lia|].
  assert (Hr : length row = 4%nat) by (apply (Forall_lookup_1 _ _ _ _ H4 (proj2 (proj1 (aget_Ok _ _ _) Hrow)))).
  destruct (aget_in row ATR_INTERFACE_BYTE_TA) as [b Hb]; [rewrite Hr; unfold ATR_INTERFACE_BYTE_TA; lia|].
  assert (Hib : get_ib a 0 ATR_INTERFACE_BYTE_TA = Ok b).
  { unfold get_ib. rewrite Hrow. exact Hb. }
  destruct (aget_in atr_f_table ((value b .& 0xF0) ≫ 4)) as [f Hf].
  { pose proof (nibble_hi (value b)). simpl length. lia. }
  destruct (aget_in atr_d_table (value b .& 0x0F)) as [d Hd].
  { pose proof (nibble_lo (value b)). simpl length. lia. }
  assert (EF : GetParameterF 0 a = Ok (if present b then f else ATR_DEFAULT_F)).
  { unfold GetParameterF, ATR_GetParameter. cbn -[get_ib Z.land Z.shiftr atr_f_table].
    rewrite Hib. cbn -[Z.land Z.shiftr atr_f_table]. destruct (present b); [|done].
    cbn -[Z.land Z.shiftr atr_f_table]. by rewrite Hf. }
  assert (ED : GetParameterD 0 a = Ok (if present b then d else ATR_DEFAULT_D)).
  { unfold GetParameterD, ATR_GetParameter. cbn -[get_ib Z.land Z.shiftr atr_d_table].
    rewrite Hib. cbn -[Z.land Z.shiftr atr_d_table]. destruct (present b); [|done].
    cbn -[Z.land Z.shiftr atr_d_table]. by rewrite Hd. }
  apply (aget_Forall (fun f => 0 <= f <= 2048)) in Hf;
    [|repeat apply Forall_cons_2; try apply Forall_nil_2; lia].
  apply (aget_Forall (fun d => 0 <= d <= 64000000)) in Hd;
    [|repeat apply Forall_cons_2; try apply Forall_nil_2; lia].
  rewrite EF, ED. eexists _, _. split_and!; try done;
    destruct (present b); unfold ATR_DEFAULT_F, ATR_DEFAULT_D; lia.
Qed.

(** ** Properties *)

(** C6. Round trip: when ATR_InitFromArray accepts an answer to reset, ATR_GetRaw
    regenerates from the parsed record exactly the bytes the parser consumed
    (bit-inverted first for an inverse convention card): the first [atr_length]
    bytes of the normalised input. *)
Theorem ATR_raw_roundtrip buf len a0 a out :
  atr_shape a0 -> length out = 33%nat ->
  ATR_InitFromArray buf len a0 = Ok (ATR_OK, a) ->
  2 <= atr_length a <= len /\
  exists norm out', atr_normalise buf len = Ok norm /\
    ATR_GetRaw a out = Ok (ATR_OK, out', atr_length a) /\
    take (Z.to_nat (atr_length a)) out' = take (Z.to_nat (atr_length a)) norm.
Proof.
  intros Hs Hout (norm&Hn&Hs'&Hpn&Hhbn&HL&Hmax&Hlen&Hraw)%ATR_InitFromArray_raw; [|done].
  assert (Hl : length (raw_bytes a) = Z.to_nat (atr_length a)).
  { rewrite Hraw, length_take. lia. }
  destruct (ATR_GetRaw_spec a out) as (out'&HG&_&HT);
    [done|lia|lia|unfold ATR_MAX_SIZE in Hmax; lia|].
  split; [lia|]. exists norm, out'. rewrite Hl in HT. rewrite HT, Hraw.
  split_and!; [done| |done]. rewrite HG, Hl. do 2 f_equal. lia.
Qed.

Lemma ATR_raw_roundtrip_witness :
  exists a out', ATR_InitFromArray [0x3B; 0x92; 0x18; 0x81; 0x31; 0x20; 0x55; 0x41; 0x42; 0x77] 10 zero_ATR
    = Ok (ATR_OK, a) /\ ATR_GetRaw a (replicate 33 0) = Ok (ATR_OK, out', atr_length a).
Proof.
  destruct (ATR_InitFromArray [0x3B; 0x92; 0x18; 0x81; 0x31; 0x20; 0x55; 0x41; 0x42; 0x77] 10 zero_ATR)
    as [[c a]|] eqn:E; vm_compute in E; [|discriminate].
  injection E as <- <-.
  destruct (ATR_raw_roundtrip [0x3B; 0x92; 0x18; 0x81; 0x31; 0x20; 0x55; 0x41; 0x42; 0x77] 10 zero_ATR _
    (replicate 33 0) ltac:(by repeat constructor) eq_refl
    ltac:(vm_compute; reflexivity)) as (_&norm&out'&_&H&_).
  eexists _, out'. split; [vm_compute; reflexivity|exact H].
Defined.

(** C36. The parser always answers: on any bytes of at most [ATR_MAX_SIZE] it
    returns ATR_OK or ATR_MALFORMED, except that an answer of at least nine
    bytes may make it write outside [atr->ib]. In particular its loop always
    ends within [length] rounds and every input byte it reads exists. *)
Theorem ATR_InitFromArray_answers buf len a0 :
  atr_shape a0 -> Forall is_u8 buf -> len <= ATR_MAX_SIZE -> len <= Z.of_nat (length buf) ->
  (exists code a, ATR_InitFromArray buf len a0 = Ok (code, a) /\
    (code = ATR_OK \/ code = ATR_MALFORMED)) \/
  (ATR_InitFromArray buf len a0 = Fault OutOfBounds /\ 9 <= len).
Proof.
  intros Hs HB Hmax Hlen.
  destruct (ATR_InitFromArray_cases buf len a0) as [(c&a&?&?&_)|?]; eauto 6.
Qed.

Lemma ATR_InitFromArray_answers_witness :
  exists code a, ATR_InitFromArray [0x3B; 0x10; 0x11; 0x00] 4 zero_ATR = Ok (code, a) /\
    (code = ATR_OK \/ code = ATR_MALFORMED).
Proof.
  destruct (ATR_InitFromArray_answers [0x3B; 0x10; 0x11; 0x00] 4 zero_ATR) as [H|[_ H]];
    [by repeat constructor|by repeat constructor|done|done|exact H|lia].
Defined.

(** The bound of [ATR_MAX_PROTOCOLS] is tested after the row is written:
    seven chained TD bytes of 0x80, a malformed answer of nine bytes, make the
    parser write past [atr->ib] whatever the record held, where one TD byte
    fewer is answered with ATR_MALFORMED. *)
Theorem ATR_InitFromArray_overrun :
  ATR_InitFromArray (0x3B :: replicate 7 0x80 ++ [0]) 9 zero_ATR = Fault OutOfBounds /\
  exists a, ATR_InitFromArray (0x3B :: replicate 7 0x80) 8 zero_ATR = Ok (ATR_MALFORMED, a).
Proof. split; [vm_compute; reflexivity|]. eexists. vm_compute. reflexivity. Qed.

(** What an accepted single-protocol answer guarantees its users: the
    maximum clock frequency looked up from FI is a positive entry of the
    table, and TB1 is at most 0x80. *)
Theorem ATR_single_protocol buf len a0 a :
  atr_shape a0 -> Forall is_u8 buf -> ATR_InitFromArray buf len a0 = Ok (ATR_OK, a) ->
  pn a = 1 ->
  (exists fs, ATR_GetFsMax a = Ok (ATR_OK, fs) /\ 0 < fs) /\
  (forall tb, get_ib a 0 ATR_INTERFACE_BYTE_TB = Ok tb -> present tb = true -> value tb <= 0x80).
Proof.
  intros Hs HB H Hpn. pose proof H as (norm&Hn&Hs'&_&_&?&?&_&_)%ATR_InitFromArray_raw; [|done].
  apply atr_normalise_Ok in Hn as (_&_&?); [|lia].
  destruct (ATR_InitFromArray_cases buf len a0) as [(c&a'&E&_&Hok)|[E _]]; [done..| |congruence].
  rewrite H in E. injection E as <- <-. specialize (Hok eq_refl). rewrite Hpn in Hok.
  destruct (get_ib_in a 0 ATR_INTERFACE_BYTE_TA) as [ta Hta]; [done..|].
  destruct (get_ib_in a 0 ATR_INTERFACE_BYTE_TB) as [tb Htb]; [done..|].
  destruct (Hok ta tb Hta Htb Hpn) as [HA HBv]. split; [|intros tb' Htb'; rewrite Htb in Htb'; injection Htb' as <-; exact HBv].
  unfold ATR_GetFsMax. change (ATR_GetIntegerValue a ATR_INTEGER_VALUE_FI) with
    (b ← get_ib a 0 ATR_INTERFACE_BYTE_TA;
     if present b then Ok (0, Some ((value b .& 0xF0) ≫ 4)) else Ok (1, None)).
  rewrite Hta. cbn [mbind res_bind].
  destruct (present ta); cbn [mbind res_bind].
  - destruct HA as (fs&Hfs&Hnz); [done|]. exists fs. rewrite Hfs. split; [done|].
    assert (0 <= fs) by (refine (aget_Forall (fun x => 0 <= x) _ _ _ _ Hfs); by repeat constructor).
    lia.
  - by eexists.
Qed.

Lemma ATR_single_protocol_witness :
  exists a fs, ATR_InitFromArray [0x3B; 0x30; 0x92; 0x25] 4 zero_ATR = Ok (ATR_OK, a) /\
    ATR_GetFsMax a = Ok (ATR_OK, fs) /\ 0 < fs.
Proof.
  eexists _.
  destruct (ATR_single_protocol [0x3B; 0x30; 0x92; 0x25] 4 zero_ATR _
    ltac:(by repeat constructor) ltac:(by repeat constructor)
    ltac:(vm_compute; reflexivity) ltac:(reflexivity)) as [(fs&H1&H2) _].
  exists fs. split; [vm_compute; reflexivity|]. split; [exact H1|exact H2].
Defined.
