(* ===== verification/CecState.v ===== *)
(** * HDMI CEC: protocol constants and driver state (cec/)

    The constants of cec_opcodes_def.h and cec_internal.h, the record of all the
    file-level variables of the module, and the register accessors of
    cec_internal.c over an abstract memory-mapped device. *)
From S2P Require Import Prelude.

(** ** cec_opcodes_def.h *)

Definition BROADCAST := 0xf.
Definition SCREEN := 0x0.
Definition ABORT_REASON_UNRECOGNIZED_OPCODE := 0x00.
Definition ABORT_REASON_NOT_IN_CORRECT_MODE := 0x01.
Definition ABORT_REASON_CANNOT_PROVIDE_SOURCE := 0x02.
Definition ABORT_REASON_INVALID_OPERAND := 0x03.
Definition ABORT_REASON_REFUSED := 0x04.
Definition ANALOGUE_BROADCAST_TYPE_CABLE := 0x00.
Definition ANALOGUE_BROADCAST_TYPE_SATELLITE := 0x01.
Definition ANALOGUE_BROADCAST_TYPE_TERRESTRIAL := 0x02.
Definition AUDIO_RATE_RATE_CONTROL_OFF := 0x00.
Definition AUDIO_RATE_WRC_STANDARD_RATE := 0x01.
Definition AUDIO_RATE_WRC_FAST_RATE := 0x02.
Definition AUDIO_RATE_WRC_SLOW_RATE := 0x03.
Definition AUDIO_RATE_NRC_STANDARD_RATE := 0x04.
Definition AUDIO_RATE_NRC_FAST_RATE := 0x05.
Definition AUDIO_RATE_NRC_SLOW_RATE := 0x06.
Definition AUDIO_STATUS_AUDIO_MUTE_STATUS := 0x08.
Definition AUDIO_STATUS_AUDIO_VOLUME_STATUS := 0x07.
Definition AUDIO_MUTE_STATUS_AUDIO_MUTE_OFF := 0x00.
Definition AUDIO_MUTE_STATUS_AUDIO_MUTE_ON := 0x01.
Definition CEC_VERSION_V11 := 0x00.
Definition CEC_VERSION_V12 := 0x01.
Definition CEC_VERSION_V12A := 0x02.
Definition CEC_VERSION_V13 := 0x03.
Definition CEC_VERSION_V13A := 0x04.
Definition CEC_VERSION_V14 := 0x05.
Definition DECK_CONTROL_MODE_SKIP_FORWARD := 0x01.
Definition DECK_CONTROL_MODE_SKIP_REVERSE := 0x02.
Definition DECK_CONTROL_MODE_STOP := 0x03.
Definition DECK_CONTROL_MODE_EJECT := 0x04.
Definition DECK_INFO_PLAY := 0x11.
Definition DECK_INFO_RECORD := 0x12.
Definition DECK_INFO_PLAY_REVERSE := 0x13.
Definition DECK_INFO_STILL := 0x14.
Definition DECK_INFO_SLOW := 0x15.
Definition DECK_INFO_SLOW_REVERSE := 0x16.
Definition DECK_INFO_FAST_FORWARD := 0x17.
Definition DECK_INFO_FAST_REVERSE := 0x18.
Definition DECK_INFO_NO_MEDIA := 0x19.
Definition DECK_INFO_STOP := 0x1A.
Definition DECK_INFO_SKIP_FORWARD := 0x1B.
Definition DECK_INFO_SKIP_REVERSE := 0x1C.
Definition DECK_INFO_INDEX_SEARCH_FORWARD := 0x1D.
Definition DECK_INFO_INDEX_SEARCH_REVERSE := 0x1E.
Definition DECK_INFO_OTHER_STATUS := 0x1F.
Definition DEVICE_TYPE_TV := 0x00.
Definition DEVICE_TYPE_REC := 0x01.
Definition DEVICE_TYPE_STB := 0x03.
Definition DEVICE_TYPE_DVD := 0x04.
Definition DEVICE_TYPE_AUDIO := 0x05.
Definition DEVICE_TYPE_REC1 := 0x01.
Definition DEVICE_TYPE_REC2 := 0x02.
Definition DEVICE_TYPE_STB1 := 0x03.
Definition DEVICE_TYPE_DVD1 := 0x04.
Definition DEVICE_TYPE_STB2 := 0x06.
Definition DEVICE_TYPE_STB3 := 0x07.
Definition DEVICE_TYPE_DVD2 := 0x08.
Definition DEVICE_TYPE_REC3 := 0x09.
Definition DEVICE_TYPE_STB4 := 0x0A.
Definition DEVICE_TYPE_DVD3 := 0x0B.
Definition DEVICE_TYPE_RES1 := 0x0C.
Definition DEVICE_TYPE_RES2 := 0x0D.
Definition DEVICE_TYPE_FREEUSE := 0x0E.
Definition DEVICE_TYPE_UNREG := 0x0F.
Definition DISPLAY_CONTROL_DEFAULT_TIME := 0x00.
Definition DISPLAY_CONTROL_UNTIL_CLEARED := 0x01.
Definition DISPLAY_CONTROL_CLEAR := 0x02.
Definition DISPLAY_CONTROL_RESERVED := 0x03.
Definition MENU_REQUEST_TYPE_ACTIVATE := 0x00.
Definition MENU_REQUEST_TYPE_DEACTIVATE := 0x01.
Definition MENU_REQUEST_TYPE_QUERY := 0x02.
Definition MENU_STATE_ACTIVATE := 0x00.
Definition MENU_STATE_DEACTIVATE := 0x01.
Definition PHYSICAL_ADDRESS_MASK := 0xFFFF.
Definition POWER_STATUS_ON := 0x00.
Definition POWER_STATUS_STANDBY := 0x01.
Definition POWER_STATUS_GOING_TO_ON := 0x02.
Definition POWER_STATUS_GOING_TO_STANDBY := 0x03.
Definition STATUS_REQUEST_ON := 0x01.
Definition STATUS_REQUEST_OFF := 0x02.
Definition STATUS_REQUEST_ONCE := 0x03.
Definition USER_CONTROL_CODE_SELECT := 0x00.
Definition USER_CONTROL_CODE_UP := 0x01.
Definition USER_CONTROL_CODE_DOWN := 0x02.
Definition USER_CONTROL_CODE_LEFT := 0x03.
Definition USER_CONTROL_CODE_RIGHT := 0x04.
Definition USER_CONTROL_CODE_RIGHTUP := 0x05.
Definition USER_CONTROL_CODE_RIGHTDOWN := 0x06.
Definition USER_CONTROL_CODE_LEFTUP := 0x07.
Definition USER_CONTROL_CODE_LEFTDOWN := 0x08.
Definition USER_CONTROL_CODE_ROOT_MENU := 0x09.
Definition USER_CONTROL_CODE_SETUP_MENU := 0x0A.
Definition USER_CONTROL_CODE_CONTENTS_MENU := 0x0B.
Definition USER_CONTROL_CODE_EXIT := 0x0D.
Definition USER_CONTROL_CODE_NUMBERS_0 := 0x20.
Definition USER_CONTROL_CODE_NUMBERS_1 := 0x21.
Definition USER_CONTROL_CODE_NUMBERS_2 := 0x22.
Definition USER_CONTROL_CODE_NUMBERS_3 := 0x23.
Definition USER_CONTROL_CODE_NUMBERS_4 := 0x24.
Definition USER_CONTROL_CODE_NUMBERS_5 := 0x25.
Definition USER_CONTROL_CODE_NUMBERS_6 := 0x26.
Definition USER_CONTROL_CODE_NUMBERS_7 := 0x27.
Definition USER_CONTROL_CODE_NUMBERS_8 := 0x28.
Definition USER_CONTROL_CODE_NUMBERS_9 := 0x29.
Definition USER_CONTROL_CODE_PAGEUP := 0x30.
Definition USER_CONTROL_CODE_PAGEDOWN := 0x31.
Definition USER_CONTROL_CODE_PREV_CHANNEL := 0x32.
Definition USER_CONTROL_CODE_INFO := 0x35.
Definition USER_CONTROL_CODE_EPG := 0x53.
Definition USER_CONTROL_CODE_F1_BLUE := 0x71.
Definition USER_CONTROL_CODE_F2_RED := 0x72.
Definition USER_CONTROL_CODE_F3_GREEN := 0x73.
Definition USER_CONTROL_CODE_F4_YELLOW := 0x74.
Definition USER_CONTROL_CODE_F5 := 0x75.
Definition USER_CONTROL_CODE_PLAY := 0x44.
Definition USER_CONTROL_CODE_STOP := 0x45.
Definition USER_CONTROL_CODE_PAUSE := 0x46.
Definition USER_CONTROL_CODE_RECORD := 0x47.
Definition USER_CONTROL_CODE_REWIND := 0x48.
Definition USER_CONTROL_CODE_FASTFORWARD := 0x49.
Definition USER_CONTROL_CODE_NEXT := 0x4B.
Definition USER_CONTROL_CODE_LAST := 0x4C.
Definition USER_CONTROL_CODE_FUNCTION_PLAY := 0x60.
Definition USER_CONTROL_CODE_FUNCTION_PAUSEPLAY := 0x61.
Definition USER_CONTROL_CODE_FUNCTION_RECORD := 0x62.
Definition USER_CONTROL_CODE_FUNCTION_PAUSERECORD := 0x63.
Definition USER_CONTROL_CODE_FUNCTION_STOP := 0x64.
Definition USER_CONTROL_CODE_FUNCTION_MUTE := 0x65.
Definition USER_CONTROL_CODE_FUNCTION_RESTORE := 0x66.
Definition USER_CONTROL_CODE_FUNCTION_TUNE := 0x67.
Definition USER_CONTROL_CODE_FUNCTION_SELECT_MEDIA := 0x68.
Definition USER_CONTROL_CODE_FUNCTION_SELECT_AV_INPUT := 0x69.
Definition USER_CONTROL_CODE_FUNCTION_SELECT_AUDIO_INPUT := 0x6A.
Definition USER_CONTROL_CODE_FUNCTION_POWER_TOGGLE := 0x6B.
Definition USER_CONTROL_CODE_FUNCTION_POWER_OFF := 0x6C.
Definition USER_CONTROL_CODE_FUNCTION_POWER_ON := 0x6D.
Definition FEATURE_ABORT := 0x00.
Definition ABORT_MESSAGE := 0xFF.
Definition IMAGE_VIEW_ON := 0x04.
Definition RECORD_ON := 0x09.
Definition RECORD_STATUS := 0x0A.
Definition RECORD_OFF := 0x0B.
Definition TEXT_VIEW_ON := 0x0D.
Definition RECORD_TV_SCREEN := 0x0F.
Definition GIVE_DECK_STATUS := 0x1A.
Definition DECK_STATUS := 0x1B.
Definition SET_MENU_LANGUAGE := 0x32.
Definition STANDBY := 0x36.
Definition USER_CONTROL_PRESSED := 0x44.
Definition USER_CONTROL_RELEASED := 0x45.
Definition GIVE_OSD_NAME := 0x46.
Definition SET_OSD_NAME := 0x47.
Definition SET_OSD_STRING := 0x64.
Definition ROUTING_CHANGE := 0x80.
Definition ROUTING_INFORMATION := 0x81.
Definition ACTIVE_SOURCE := 0x82.
Definition GIVE_PHYSICAL_ADDRESS := 0x83.
Definition REPORT_PHYSICAL_ADDRESS := 0x84.
Definition REQUEST_ACTIVE_SOURCE := 0x85.
Definition SET_STREAM_PATH := 0x86.
Definition DEVICE_VENDOR_ID := 0x87.
Definition VENDOR_COMMAND := 0x89.
Definition VENDOR_REMOTE_BUTTON_DOWN := 0x8A.
Definition GIVE_DEVICE_VENDOR_ID := 0x8C.
Definition MENU_REQUEST := 0x8D.
Definition MENU_STATUS := 0x8E.
Definition GIVE_DEVICE_POWER_STATUS := 0x8F.
Definition REPORT_POWER_STATUS := 0x90.
Definition GIVE_MENU_LANGUAGE := 0x91.
Definition SET_AUDIO_RATE := 0x9a.
Definition CEC_VERSION := 0x9e.
Definition GET_CEC_VERSION := 0x9f.
Definition VENDOR_COMMAND_WITH_ID := 0xA0.

(** ** cec_internal.h and cec_internal.c: registers *)

Definition PIO1BaseAddress := 0xFD021000.
Definition CECBaseAddress := 0xFE030C00.
Definition SysConfigBaseAddress := 0xFE001000.
Definition PIO_PC0 := 0x24.
Definition PIO_PC1 := 0x34.
Definition PIO_PC2 := 0x44.
Definition SYS_CFG2 := 0x108.
Definition SYS_CFG5 := 0x114.
Definition CEC_PRESCALER_LEFT := 0x00.
Definition CEC_PRESCALER_RIGHT := 0x04.
Definition CEC_STATUS_ERROR := 0x08.
Definition CEC_CONTROL := 0x0C.
Definition CEC_TX := 0x10.
Definition CEC_RX := 0x14.
Definition CEC_CFG := 0x18.
Definition CEC_ADDRESS := 0x1C.
Definition CEC_TRANSM_SOM := 1.
Definition CEC_TRANSM_EOM := 2.
Definition CEC_STATUS_RECV_BTF := 128.
Definition CEC_STATUS_RECV_ERR := 64.
Definition CEC_STATUS_RECV_EOMSG := 32.
Definition CEC_STATUS_RECV_SOMSG := 16.
Definition CEC_STATUS_SEND_BTF := 8.
Definition CEC_STATUS_SEND_ERR := 4.
Definition CEC_STATUS_SEND_EOMSG := 2.
Definition CEC_STATUS_SEND_SOMSG := 1.
Definition CEC_ERROR_ACK := 16.
Definition CEC_MAX_DATA_LEN := 15.
Definition RECV_BUF_SIZE := 16.
Definition SEND_BUF_SIZE := 16.
Definition DEFAULT_RETRY_COUNT := 3.
Definition OUTBUFFERSIZE := 4096.
Definition INPUT_BUFFER_SIZE := 255.

(** ** The module's variables *)

Record cec (D : Type) := mkCec {
  (* the device *)
  hw : D;
  (* module parameters: cec_main.c *)
  activemode : Z; deviceName : list Z; deviceType : Z;
  (* cec_worker.c *)
  isReceiving : Z; indexOfRecvBuf : Z; recvBuf : list Z;
  isSending : Z; indexOfSendBuf : Z; sizeOfSendBuf : Z; sendBuf : list Z;
  retries : Z; sendCommand : Z; sendCommandWithDelay : Z; notEndTask : Z;
  (* cec_opcodes.c *)
  isFirstKiss : Z; logicalDeviceTypeChoicesIndex : Z; logicalDeviceType : Z;
  ActiveSource : Z;
  (* cec_proc.c *)
  eventDiscovery : Z; eventActiveSource : Z; eventStandby : Z;
  inputBuffer : list Z; sizeOfInputBuffer : Z;
  (* cec_rc.c, with the events passed to the input layer, oldest first *)
  last_keycode : Z; key_events : list (Z * Z);
  (* cec_dev.c: vOpen.fp is the open file, if any *)
  vOpen : option Z;
  outputBufferStart : Z; outputBufferEnd : Z; outputBuffer : list Z
}.
Arguments mkCec {D} _ _ _ _ _ _ _ _ _ _ _ _ _ _ _ _ _ _ _ _ _ _ _ _ _ _ _ _ _ _.
Arguments hw {D} _.
Arguments activemode {D} _.
Arguments deviceName {D} _.
Arguments deviceType {D} _.
Arguments isReceiving {D} _.
Arguments indexOfRecvBuf {D} _.
Arguments recvBuf {D} _.
Arguments isSending {D} _.
Arguments indexOfSendBuf {D} _.
Arguments sizeOfSendBuf {D} _.
Arguments sendBuf {D} _.
Arguments retries {D} _.
Arguments sendCommand {D} _.
Arguments sendCommandWithDelay {D} _.
Arguments notEndTask {D} _.
Arguments isFirstKiss {D} _.
Arguments logicalDeviceTypeChoicesIndex {D} _.
Arguments logicalDeviceType {D} _.
Arguments ActiveSource {D} _.
Arguments eventDiscovery {D} _.
Arguments eventActiveSource {D} _.
Arguments eventStandby {D} _.
Arguments inputBuffer {D} _.
Arguments sizeOfInputBuffer {D} _.
Arguments last_keycode {D} _.
Arguments key_events {D} _.
Arguments vOpen {D} _.
Arguments outputBufferStart {D} _.
Arguments outputBufferEnd {D} _.
Arguments outputBuffer {D} _.

Definition eta_cec {D : Type} (s : cec D) : cec D :=
  mkCec (hw s) (activemode s) (deviceName s) (deviceType s) (isReceiving s)
    (indexOfRecvBuf s) (recvBuf s) (isSending s) (indexOfSendBuf s) (sizeOfSendBuf s)
    (sendBuf s) (retries s) (sendCommand s) (sendCommandWithDelay s) (notEndTask s)
    (isFirstKiss s) (logicalDeviceTypeChoicesIndex s) (logicalDeviceType s)
    (ActiveSource s) (eventDiscovery s) (eventActiveSource s) (eventStandby s)
    (inputBuffer s) (sizeOfInputBuffer s) (last_keycode s) (key_events s) (vOpen s)
    (outputBufferStart s) (outputBufferEnd s) (outputBuffer s).

Section cec_setters.
Context {D : Type}.
#[export] Instance set_hw : Setter (@hw D) := ltac:(setter (@eta_cec D) (@hw D)).
#[export] Instance set_activemode : Setter (@activemode D) := ltac:(setter (@eta_cec D) (@activemode D)).
#[export] Instance set_deviceName : Setter (@deviceName D) := ltac:(setter (@eta_cec D) (@deviceName D)).
#[export] Instance set_deviceType : Setter (@deviceType D) := ltac:(setter (@eta_cec D) (@deviceType D)).
#[export] Instance set_isReceiving : Setter (@isReceiving D) := ltac:(setter (@eta_cec D) (@isReceiving D)).
#[export] Instance set_indexOfRecvBuf : Setter (@indexOfRecvBuf D) := ltac:(setter (@eta_cec D) (@indexOfRecvBuf D)).
#[export] Instance set_recvBuf : Setter (@recvBuf D) := ltac:(setter (@eta_cec D) (@recvBuf D)).
#[export] Instance set_isSending : Setter (@isSending D) := ltac:(setter (@eta_cec D) (@isSending D)).
#[export] Instance set_indexOfSendBuf : Setter (@indexOfSendBuf D) := ltac:(setter (@eta_cec D) (@indexOfSendBuf D)).
#[export] Instance set_sizeOfSendBuf : Setter (@sizeOfSendBuf D) := ltac:(setter (@eta_cec D) (@sizeOfSendBuf D)).
#[export] Instance set_sendBuf : Setter (@sendBuf D) := ltac:(setter (@eta_cec D) (@sendBuf D)).
#[export] Instance set_retries : Setter (@retries D) := ltac:(setter (@eta_cec D) (@retries D)).
#[export] Instance set_sendCommand : Setter (@sendCommand D) := ltac:(setter (@eta_cec D) (@sendCommand D)).
#[export] Instance set_sendCommandWithDelay : Setter (@sendCommandWithDelay D) := ltac:(setter (@eta_cec D) (@sendCommandWithDelay D)).
#[export] Instance set_notEndTask : Setter (@notEndTask D) := ltac:(setter (@eta_cec D) (@notEndTask D)).
#[export] Instance set_isFirstKiss : Setter (@isFirstKiss D) := ltac:(setter (@eta_cec D) (@isFirstKiss D)).
#[export] Instance set_logicalDeviceTypeChoicesIndex : Setter (@logicalDeviceTypeChoicesIndex D) := ltac:(setter (@eta_cec D) (@logicalDeviceTypeChoicesIndex D)).
#[export] Instance set_logicalDeviceType : Setter (@logicalDeviceType D) := ltac:(setter (@eta_cec D) (@logicalDeviceType D)).
#[export] Instance set_ActiveSource : Setter (@ActiveSource D) := ltac:(setter (@eta_cec D) (@ActiveSource D)).
#[export] Instance set_eventDiscovery : Setter (@eventDiscovery D) := ltac:(setter (@eta_cec D) (@eventDiscovery D)).
#[export] Instance set_eventActiveSource : Setter (@eventActiveSource D) := ltac:(setter (@eta_cec D) (@eventActiveSource D)).
#[export] Instance set_eventStandby : Setter (@eventStandby D) := ltac:(setter (@eta_cec D) (@eventStandby D)).
#[export] Instance set_inputBuffer : Setter (@inputBuffer D) := ltac:(setter (@eta_cec D) (@inputBuffer D)).
#[export] Instance set_sizeOfInputBuffer : Setter (@sizeOfInputBuffer D) := ltac:(setter (@eta_cec D) (@sizeOfInputBuffer D)).
#[export] Instance set_last_keycode : Setter (@last_keycode D) := ltac:(setter (@eta_cec D) (@last_keycode D)).
#[export] Instance set_key_events : Setter (@key_events D) := ltac:(setter (@eta_cec D) (@key_events D)).
#[export] Instance set_vOpen : Setter (@vOpen D) := ltac:(setter (@eta_cec D) (@vOpen D)).
#[export] Instance set_outputBufferStart : Setter (@outputBufferStart D) := ltac:(setter (@eta_cec D) (@outputBufferStart D)).
#[export] Instance set_outputBufferEnd : Setter (@outputBufferEnd D) := ltac:(setter (@eta_cec D) (@outputBufferEnd D)).
#[export] Instance set_outputBuffer : Setter (@outputBuffer D) := ltac:(setter (@eta_cec D) (@outputBuffer D)).
End cec_setters.

(** The build the module is compiled for: the SoC and the vendor id it
    announces. *)
Inductive soc := STx7105 | STx7111 | OtherSoc.
Inductive box := UFS912_913 | HS8200 | OtherBox.
Class CecBuild := { build_soc : soc; build_box : box }.

(** The hardware the module sees: its registers, and the physical address the
    HDMI driver (stmhdmiio_get_cec_address) reports. *)
Class CecHw (D : Type) := {
  cec_mmio :: Mmio D;
  stmhdmiio_get_cec_address : D -> Z
}.

Section internal.
Context {D : Type} `{CecHw D} `{CecBuild}.

Definition cec_write_register_u32 (address value : Z) : M (cec D) unit :=
  modify (fun s => s <| hw := mmio_wr address (u32 value) (hw s) |>).

Definition cec_read_register_u32 (address : Z) : M (cec D) Z := fun s =>
  let (v, d) := mmio_rd address (hw s) in Ok (u32 v, s <| hw := d |>).

Definition cec_write_data (value : Z) : M (cec D) unit :=
  cec_write_register_u32 (CECBaseAddress + CEC_TX) value.

Definition cec_read_data : M (cec D) Z := cec_read_register_u32 (CECBaseAddress + CEC_RX).

Definition cec_start_sending (isPing : Z) : M (cec D) unit :=
  if isPing =? 1 then
    cec_write_register_u32 (CECBaseAddress + CEC_CONTROL) (CEC_TRANSM_EOM .| CEC_TRANSM_SOM)
  else cec_write_register_u32 (CECBaseAddress + CEC_CONTROL) CEC_TRANSM_SOM.

Definition cec_end_sending : M (cec D) unit :=
  cec_write_register_u32 (CECBaseAddress + CEC_CONTROL) CEC_TRANSM_EOM.

Definition cec_get_status : M (cec D) Z :=
  r ← cec_read_register_u32 (CECBaseAddress + CEC_CONTROL); mret (r .& 0xFF).

Definition cec_get_error : M (cec D) Z :=
  r ← cec_read_register_u32 (CECBaseAddress + CEC_STATUS_ERROR); mret (r .& 0xFF).

Definition cec_acknowledge : M (cec D) unit :=
  cec_write_register_u32 (CECBaseAddress + CEC_CONTROL) 0x00.

Definition cec_acknowledge_eom : M (cec D) unit :=
  cec_write_register_u32 (CECBaseAddress + CEC_CONTROL) 0x02.

Definition cec_set_own_address (own_address : Z) : M (cec D) unit :=
  cec_write_register_u32 (CECBaseAddress + CEC_ADDRESS) own_address.

(** res = read(a); res |= bits; write(a, res) *)
Definition reg_set (a bits : Z) : M (cec D) unit :=
  r ← cec_read_register_u32 a; cec_write_register_u32 a (r .| bits).
(** res = read(a); res &= ~bits; write(a, res) *)
Definition reg_clear (a bits : Z) : M (cec D) unit :=
  r ← cec_read_register_u32 a; cec_write_register_u32 a (r .& Z.lnot bits).

Definition cec_internal_init : M (cec D) Z :=
  match build_soc with
  | STx7105 => reg_set (SysConfigBaseAddress + SYS_CFG2) (1 ≪ 29)
  | STx7111 =>
      cec_write_register_u32 (PIO1BaseAddress + PIO_PC0) 128;;
      cec_write_register_u32 (PIO1BaseAddress + PIO_PC1) 128;;
      cec_write_register_u32 (PIO1BaseAddress + PIO_PC2) 128;;
      reg_set (SysConfigBaseAddress + SYS_CFG5) (1 ≪ 8);;
      reg_set (SysConfigBaseAddress + SYS_CFG5) (1 ≪ 24)
  | OtherSoc => skip
  end;;
  reg_set (CECBaseAddress + CEC_CFG) 0x3;;
  cec_write_register_u32 (CECBaseAddress + CEC_PRESCALER_LEFT) 0x88;;
  cec_write_register_u32 (CECBaseAddress + CEC_PRESCALER_RIGHT) 0x13;;
  mret 0.

Definition cec_internal_exit : M (cec D) unit :=
  match build_soc with
  | STx7105 => reg_clear (SysConfigBaseAddress + SYS_CFG2) (1 ≪ 29)
  | STx7111 => reg_clear (SysConfigBaseAddress + SYS_CFG5) 256
  | OtherSoc => skip
  end;;
  reg_clear (CECBaseAddress + CEC_CFG) 0x03;;
  cec_write_register_u32 (CECBaseAddress + CEC_PRESCALER_LEFT) 0x0;;
  cec_write_register_u32 (CECBaseAddress + CEC_PRESCALER_RIGHT) 0x0.
End internal.

(** ** A recording device

    Reads are answered from a register file set by the environment, writes are
    recorded in order. *)

Record tap := Tap { regs : gmap Z Z; address : Z; log : list (Z * Z) }.

#[export] Instance tap_mmio : Mmio tap := {|
  mmio_rd a d := (default 0 (regs d !! a), d);
  mmio_wr a v d := Tap (regs d) (address d) (log d ++ [(a, v)])
|}.
#[export] Instance tap_hw : CecHw tap := {|
  cec_mmio := tap_mmio; stmhdmiio_get_cec_address := address
|}.

(** The driver state when the module has been loaded and nothing happened. *)
Definition cec_boot {D} (d : D) (active : Z) (name : list Z) (type : Z) : cec D :=
  {| hw := d; activemode := active; deviceName := name; deviceType := type;
     isReceiving := 0; indexOfRecvBuf := 0; recvBuf := replicate 16 0;
     isSending := 0; indexOfSendBuf := 0; sizeOfSendBuf := 0; sendBuf := replicate 16 0;
     retries := DEFAULT_RETRY_COUNT; sendCommand := 0; sendCommandWithDelay := 0;
     notEndTask := 1; isFirstKiss := 0; logicalDeviceTypeChoicesIndex := 0;
     logicalDeviceType := DEVICE_TYPE_DVD1; ActiveSource := 0;
     eventDiscovery := 0; eventActiveSource := 0; eventStandby := 0;
     inputBuffer := replicate 255 0; sizeOfInputBuffer := 0;
     last_keycode := 0xFFFF; key_events := []; vOpen := None;
     outputBufferStart := 0; outputBufferEnd := 0; outputBuffer := replicate (Z.to_nat 4096) 0 |}.
