(* ===== verification/CecSend.v ===== *)
(** * HDMI CEC: the transmit side shared by the whole module

    sendMessageWithRetry and sendMessage of cec_worker.c with the accessors of
    cec_opcodes.c they use. A function that may wait for the bus takes the
    computation [delay]: what the rest of the system does to the driver during
    one udelay(10000). In the interrupt handler, which nothing interrupts, it
    is [skip]. *)
From S2P Require Import Prelude CecState.

Section send.
Context {D : Type} `{CecHw D}.
Variable delay : M (cec D) unit.

Definition getIsFirstKiss : M (cec D) Z := gets isFirstKiss.
Definition getLogicalDeviceType : M (cec D) Z := gets logicalDeviceType.
Definition getDeviceType : M (cec D) Z := gets deviceType.
Definition getPhysicalAddress : M (cec D) Z :=
  gets (fun s => stmhdmiio_get_cec_address (hw s) .& 0xffff).

(** while (isSending && --Counter) udelay(10000); the final Counter. *)
Fixpoint wait_sending (Counter : nat) : M (cec D) nat :=
  busy ← gets isSending;
  if truthy busy then
    match Counter with
    | S (S _ as Counter') => delay;; wait_sending Counter'
    | _ => mret 0%nat
    end
  else mret Counter.

(** [buf] is the contents of the caller's array, whose element 0 the function
    overwrites: [store] does that assignment where the array outlives the call
    (the retransmission passes sendBuf itself). *)
Definition sendMessageWithRetry (store : Z -> M (cec D) unit) (len : Z) (buf : list Z)
    (retry : Z) : M (cec D) Z :=
  Counter ← wait_sending 100;
  if (Counter =? 0)%nat then mret (-1)
  else
    modify (fun s => s <| sizeOfSendBuf := len |> <| indexOfSendBuf := 0 |>
                       <| isSending := 1 |> <| retries := u8 retry |>);;
    src ← getLogicalDeviceType;
    b0 ← lift (aget buf 0);
    let h := u8 ((src ≪ 4) + ((b0 .& 0x0F) .& 0xF)) in
    buf ← lift (aset buf 0 h);
    store h;;
    t ← gets sendBuf;
    t ← lift (amemcpy t 0 buf 0 len);
    modify (fun s => s <| sendBuf := t |>);;
    cec_set_own_address src;;
    i ← gets indexOfSendBuf;
    value ← lift (aget t i);
    cec_write_data value;;
    modify (fun s => s <| indexOfSendBuf := indexOfSendBuf s + 1 |>);;
    modify (fun s => s <| sendCommand := sendCommand s + 1 |>);;
    mret 0.

(** A local array of the caller. *)
Definition local (_ : Z) : M (cec D) unit := skip.

Definition sendMessage (len : Z) (buf : list Z) : M (cec D) unit :=
  sendMessageWithRetry local len buf DEFAULT_RETRY_COUNT;; skip.

(** sendMessageWithRetry(sizeOfSendBuf, sendBuf, retry) *)
Definition resend (retry : Z) : M (cec D) Z :=
  n ← gets sizeOfSendBuf;
  buf ← gets sendBuf;
  sendMessageWithRetry
    (fun v => t ← gets sendBuf; t ← lift (aset t 0 v); modify (fun s => s <| sendBuf := t |>))
    n buf retry.
End send.

(** ** What a send does *)

Section send_facts.
Context {D : Type} `{CecHw D}.
Implicit Types (s : cec D) (delay : M (cec D) unit) (buf : list Z).

(** The state after a message has been queued: its first byte is in the
    transmit register and the worker task has been woken. *)
Definition queued s (len : Z) buf retry : cec D :=
  let b0 := default 0 (head buf) in
  let h := u8 ((logicalDeviceType s ≪ 4) + (b0 .& 0x0F)) in
  s <| sizeOfSendBuf := len |> <| isSending := 1 |> <| retries := u8 retry |>
    <| sendBuf := take (Z.to_nat len) (h :: tail buf) ++ drop (Z.to_nat len) (sendBuf s) |>
    <| hw := mmio_wr (CECBaseAddress + CEC_TX) (u32 h)
              (mmio_wr (CECBaseAddress + CEC_ADDRESS) (u32 (logicalDeviceType s)) (hw s)) |>
    <| indexOfSendBuf := 1 |>
    <| sendCommand := sendCommand s + 1 |>.

Lemma wait_sending_idle delay n s : isSending s = 0 -> wait_sending delay n s = Ok (n, s).
Proof. intros Hs. destruct n; cbn; unfold mbind, M_bind, gets; by rewrite Hs. Qed.

Lemma wait_sending_busy n s :
  truthy (isSending s) = true -> wait_sending skip n s = Ok (0%nat, s).
Proof.
  intros Hs. induction n as [|n IH]; cbn; unfold mbind, M_bind, gets; rewrite Hs; [done|].
  by destruct n.
Qed.

Lemma nibble_idem b : (b .& 0x0F) .& 0xF = b .& 0x0F.
Proof. by rewrite <- Z.land_assoc. Qed.

Lemma sendMessageWithRetry_idle delay len buf retry s :
  isSending s = 0 -> length (sendBuf s) = 16%nat -> 1 <= len <= 16 ->
  len <= Z.of_nat (length buf) ->
  sendMessageWithRetry delay local len buf retry s = Ok (0, queued s len buf retry).
Proof.
  intros Hs Hl Hlen Hb. destruct buf as [|b0 buf]; [simpl in Hb; lia|].
  unfold sendMessageWithRetry. erewrite M_bind_run by (by apply wait_sending_idle).
  cbn [Nat.eqb]. do 2 erewrite M_bind_run by done.
  erewrite M_bind_run by (apply lift_run; by apply aget_Ok).
  erewrite M_bind_run by (apply lift_run; apply aset_in; simpl length in *; lia).
  erewrite M_bind_run by done. erewrite M_bind_run by done.
  erewrite M_bind_run.
  2: { apply lift_run. apply amemcpy_Ok. simpl in *.
       split_and!; [lia|lia|lia|lia|lia|reflexivity]. }
  erewrite M_bind_run by done. erewrite M_bind_run by done. erewrite M_bind_run by done.
  erewrite M_bind_run.
  2: { apply lift_run. apply aget_Ok. split; [done|]. cbn.
       destruct (Z.to_nat len) eqn:E; [lia|]. done. }
  do 3 erewrite M_bind_run by done. unfold mret, M_ret, queued. do 2 f_equal.
  cbn -[Z.land Z.shiftl]. rewrite nibble_idem. done.
Qed.

Lemma resend_idle delay retry s :
  isSending s = 0 -> length (sendBuf s) = 16%nat -> 1 <= sizeOfSendBuf s <= 16 ->
  resend delay retry s = Ok (0, queued s (sizeOfSendBuf s) (sendBuf s) retry).
Proof.
  intros Hs Hl Hlen. unfold resend. do 2 erewrite M_bind_run by done.
  destruct (sendBuf s) as [|b0 buf] eqn:Hb; [done|].
  unfold sendMessageWithRetry. erewrite M_bind_run by (by apply wait_sending_idle).
  cbn [Nat.eqb]. do 2 erewrite M_bind_run by done.
  erewrite M_bind_run by (apply lift_run; by apply aget_Ok).
  erewrite M_bind_run by (apply lift_run; apply aset_in; simpl length in *; lia).
  erewrite M_bind_run.
  2: { erewrite M_bind_run by done. erewrite M_bind_run; [reflexivity|].
       apply lift_run. simpl. rewrite Hb. apply aset_in. simpl length in *. lia. }
  erewrite M_bind_run by done.
  erewrite M_bind_run.
  2: { apply lift_run. apply amemcpy_Ok. simpl in *.
       split_and!; [lia|lia|lia|lia|lia|reflexivity]. }
  erewrite M_bind_run by done. erewrite M_bind_run by done. erewrite M_bind_run by done.
  erewrite M_bind_run.
  2: { apply lift_run. apply aget_Ok. split; [done|]. cbn.
       destruct (Z.to_nat (sizeOfSendBuf s)) eqn:E; [lia|]. done. }
  do 3 erewrite M_bind_run by done. unfold mret, M_ret, queued. do 2 f_equal.
  cbn -[Z.land Z.shiftl]. rewrite nibble_idem, Hb, !Z.add_0_l.
  destruct (Z.to_nat (sizeOfSendBuf s)) eqn:E; [lia|]. done.
Qed.

(** A message longer than the send buffer overruns it. *)
Lemma sendMessageWithRetry_long delay len buf retry s :
  isSending s = 0 -> length (sendBuf s) = 16%nat -> 1 <= Z.of_nat (length buf) -> 16 < len ->
  sendMessageWithRetry delay local len buf retry s = Fault OutOfBounds.
Proof.
  intros Hs Hl Hb Hlen. unfold sendMessageWithRetry.
  destruct buf as [|b0 buf]; [simpl in Hb; lia|].
  erewrite M_bind_run by (by apply wait_sending_idle).
  cbn [Nat.eqb]. do 2 erewrite M_bind_run by done.
  erewrite M_bind_run by (apply lift_run; by apply aget_Ok).
  erewrite M_bind_run by (apply lift_run; apply aset_in; simpl length in *; lia).
  do 2 erewrite M_bind_run by done. apply M_bind_fault. unfold lift.
  simpl (sendBuf _). match goal with |- context [amemcpy ?d ?i ?b ?j ?n] =>
    destruct (amemcpy d i b j n) eqn:E end.
  - apply amemcpy_Ok in E. lia.
  - unfold amemcpy, aslice, mbind, res_bind in E. repeat case_match; congruence.
Qed.

Lemma sendMessageWithRetry_busy len buf retry s :
  truthy (isSending s) = true -> sendMessageWithRetry skip local len buf retry s = Ok (-1, s).
Proof.
  intros Hs. unfold sendMessageWithRetry. by erewrite M_bind_run by (by apply wait_sending_busy).
Qed.

(** In interrupt context a send either queues the message or, when another one
    is in flight, gives up and changes nothing. *)
Lemma sendMessage_irq len buf s :
  length (sendBuf s) = 16%nat -> 1 <= len <= 16 -> len <= Z.of_nat (length buf) ->
  sendMessage skip len buf s =
  Ok (tt, if isSending s =? 0 then queued s len buf DEFAULT_RETRY_COUNT else s).
Proof.
  intros Hl Hlen Hb. unfold sendMessage. destruct (Z.eqb_spec (isSending s) 0).
  - by erewrite M_bind_run by (by apply sendMessageWithRetry_idle).
  - erewrite M_bind_run; [done|]. apply sendMessageWithRetry_busy. unfold truthy.
    by destruct (Z.eqb_spec (isSending s) 0).
Qed.
End send_facts.
