(* ===== verification/CecDev.v ===== *)
(** * HDMI CEC: the character device of passive mode (cec_dev.c)

    The ring buffer of received messages, the file operations, and the proof
    that the ring is a byte queue as long as no message has to be split. *)
From S2P Require Import Prelude CecState CecSend.

(** Error numbers of the kernel. *)
Definition EUSERS := 87.
Definition ENOMEM := 12.
Definition ERESTARTSYS := 512.
Definition EFAULT := 14.
Definition EIO := 5.

(** sizeof(tCECMessage): address, length and 256 bytes of data. *)
Definition sizeof_tCECMessage := 258.
Record tCECMessage := CECMessage { msg_address : Z; msg_length : Z; msg_data : list Z }.

(** The bytes of a message in memory, up to its last initialised one. *)
Definition msg_bytes (m : tCECMessage) : list Z := msg_address m :: msg_length m :: msg_data m.

Inductive ioctl_cmd := CEC_GET_ADDRESS | CEC_FLUSH | CEC_OTHER.
Record tCECAddressinfo := AddressInfo { physical : list Z; logical : Z; type : Z }.

Section dev.
Context {D : Type} `{CecHw D}.

Definition GetMessageBufferSize : M (cec D) Z :=
  gets (fun s =>
    if outputBufferStart s <=? outputBufferEnd s then outputBufferEnd s - outputBufferStart s
    else (OUTBUFFERSIZE - outputBufferStart s) + outputBufferEnd s).

(** The [len] bytes copied to [msg]. *)
Definition GetMessageFromBuffer (len : Z) : M (cec D) (list Z) :=
  start ← gets outputBufferStart; e ← gets outputBufferEnd; b ← gets outputBuffer;
  if start <=? e then
    msg ← lift (aslice b start len);
    modify (fun s => s <| outputBufferStart := start + len |>);;
    mret msg
  else
    let dataAtTheEnd := OUTBUFFERSIZE - start in
    if dataAtTheEnd <? len then
      m1 ← lift (aslice b start dataAtTheEnd);
      m2 ← lift (aslice b 0 (len - dataAtTheEnd));
      modify (fun s => s <| outputBufferStart := len - dataAtTheEnd |>);;
      mret (m1 ++ m2)
    else
      msg ← lift (aslice b start len);
      modify (fun s => s <| outputBufferStart := start + len |>);;
      mret msg.

(** In the split case the second source address is &msg + spaceAtTheEnd, that
    many whole messages past the first byte. *)
Definition AddMessageBuffer (msg : tCECMessage) : M (cec D) unit :=
  e ← gets outputBufferEnd; b ← gets outputBuffer;
  let spaceAtTheEnd := OUTBUFFERSIZE - e in
  let messageSize := msg_length msg + 2 in
  if messageSize <=? spaceAtTheEnd then
    b ← lift (amemcpy b e (msg_bytes msg) 0 messageSize);
    modify (fun s => s <| outputBuffer := b |> <| outputBufferEnd := e + messageSize |>)
  else
    b ← lift (amemcpy b e (msg_bytes msg) 0 spaceAtTheEnd);
    b ← lift (amemcpy b 0 (msg_bytes msg) (spaceAtTheEnd * sizeof_tCECMessage)
                (messageSize - spaceAtTheEnd));
    modify (fun s => s <| outputBuffer := b |>
                       <| outputBufferEnd := messageSize - spaceAtTheEnd |>).

(** The wake-up of the readers has no state here. *)
Definition AddMessageToBuffer (rawmsg : list Z) (len : Z) : M (cec D) unit :=
  a ← lift (aget rawmsg 0);
  let n := u8 (len - 1) in
  d ← lift (aslice rawmsg 1 n);
  AddMessageBuffer (CECMessage a n d).

(** [buff] is the user's buffer, [mem] whether kmalloc succeeds. *)
Definition CECdev_write (delay : M (cec D) unit) (mem : bool) (buff : list Z) : M (cec D) Z :=
  let len := Z.of_nat (length buff) in
  if negb mem then mret (- ENOMEM)
  else
    (if 2 <=? len then
      address ← lift (aget buff 0);
      n ← lift (aget buff 1);
      when (len - 2 <=? n) (
        data ← lift (aslice buff 2 n);
        sendMessage delay (n + 1) (address :: data))
     else skip);;
    mret len.

(** [filp] is the caller's file, [interrupted] whether the wait for the
    semaphore is; the bytes copied to the user come with the result. *)
Definition CECdev_read (filp : Z) (interrupted : bool) (len : Z) : M (cec D) (Z * list Z) :=
  availableBytes ← GetMessageBufferSize;
  fp ← gets vOpen;
  if negb (bool_decide (fp = Some filp)) then mret (- EUSERS, [])
  else if interrupted then mret (- ERESTARTSYS, [])
  else
    let len := if availableBytes <? len then availableBytes else len in
    if 0 <? len then msg ← GetMessageFromBuffer len; mret (len, msg)
    else mret (len, []).

(** POLLIN | POLLRDNORM *)
Definition POLL_READABLE := 0x0041.
Definition CECdev_poll : M (cec D) Z :=
  gets (fun s => if outputBufferStart s =? outputBufferEnd s then 0 else POLL_READABLE).

Definition CECdev_open (filp : Z) : M (cec D) Z :=
  fp ← gets vOpen;
  match fp with
  | Some _ => mret (- EUSERS)
  | None => modify (fun s => s <| vOpen := Some filp |>);; mret 0
  end.

Definition CECdev_close (filp : Z) : M (cec D) Z :=
  fp ← gets vOpen;
  when (bool_decide (fp = Some filp)) (modify (fun s => s <| vOpen := None |>));;
  mret 0.

Definition CECdev_ioctl (cmd : ioctl_cmd) : M (cec D) (Z * option tCECAddressinfo) :=
  match cmd with
  | CEC_GET_ADDRESS =>
      phys_addr ← getPhysicalAddress;
      logical_device_type ← getLogicalDeviceType;
      device_type ← getDeviceType;
      mret (0, Some (AddressInfo [(phys_addr ≫ 8) .& 0xFF; phys_addr .& 0xFF]
                                 logical_device_type device_type))
  | CEC_FLUSH =>
      modify (fun s => s <| outputBufferEnd := 0 |> <| outputBufferStart := 0 |>);;
      mret (0, None)
  | CEC_OTHER => mret (0, None)
  end.

Definition init_dev : M (cec D) Z :=
  modify (fun s => s <| outputBufferEnd := 0 |> <| outputBufferStart := 0 |>);;
  modify (fun s => s <| vOpen := None |>);;
  mret 0.
End dev.

(** ** The ring as a queue *)

Section ring.
Context {D : Type} `{CecHw D}.
Implicit Types s : cec D.

Definition ring_ok s : Prop :=
  length (outputBuffer s) = Z.to_nat OUTBUFFERSIZE /\
  0 <= outputBufferStart s <= OUTBUFFERSIZE /\ 0 <= outputBufferEnd s <= OUTBUFFERSIZE.

(** The bytes waiting to be read, oldest first. *)
Definition ring_contents s : list Z :=
  let b := outputBuffer s in
  if outputBufferStart s <=? outputBufferEnd s
  then seg b (outputBufferStart s) (outputBufferEnd s)
  else seg b (outputBufferStart s) OUTBUFFERSIZE ++ seg b 0 (outputBufferEnd s).

(** A message of [n] bytes fits without being split and without reaching the
    oldest unread byte. *)
Definition ring_room s (n : Z) : Prop :=
  if outputBufferStart s <=? outputBufferEnd s
  then outputBufferEnd s + n <= OUTBUFFERSIZE \/ (outputBufferEnd s = OUTBUFFERSIZE /\ n < outputBufferStart s)
  else outputBufferEnd s + n < outputBufferStart s.

#[export] Instance ring_room_dec s n : Decision (ring_room s n).
Proof. unfold ring_room. destruct (_ <=? _); apply _. Defined.

Lemma contents_size s :
  ring_ok s -> GetMessageBufferSize s = Ok (Z.of_nat (length (ring_contents s)), s).
Proof.
  intros (Hl&Hs&He). unfold GetMessageBufferSize, gets, ring_contents. do 2 f_equal.
  unfold OUTBUFFERSIZE in *. destruct (Z.leb_spec (outputBufferStart s) (outputBufferEnd s));
    rewrite ?length_app, !seg_length by lia; lia.
Qed.

Lemma take_seg {A} (l : list A) i j n :
  0 <= n <= j - i -> take (Z.to_nat n) (seg l i j) = seg l i (i + n).
Proof. intros. unfold seg. rewrite take_take. f_equal. lia. Qed.

Lemma drop_seg {A} (l : list A) i j n :
  0 <= i -> 0 <= n <= j - i -> drop (Z.to_nat n) (seg l i j) = seg l (i + n) j.
Proof.
  intros. unfold seg. rewrite skipn_firstn_comm, drop_drop. f_equal; [lia|f_equal; lia].
Qed.

Lemma aslice_seg {A} (l : list A) i n :
  0 <= i -> 0 <= n -> i + n <= Z.of_nat (length l) -> aslice l i n = Ok (seg l i (i + n)).
Proof.
  intros. apply aslice_Ok. split_and!; [lia..|]. unfold seg. do 2 f_equal. lia.
Qed.

Ltac ring_done := unfold ring_ok, OUTBUFFERSIZE; simpl; split_and!; solve [done|lia].

Lemma GetMessageFromBuffer_spec s n :
  ring_ok s -> 0 <= n <= Z.of_nat (length (ring_contents s)) ->
  exists s', GetMessageFromBuffer n s = Ok (take (Z.to_nat n) (ring_contents s), s') /\
    ring_ok s' /\ ring_contents s' = drop (Z.to_nat n) (ring_contents s) /\
    outputBufferEnd s' = outputBufferEnd s /\
    s' = s <| outputBufferStart := outputBufferStart s' |>.
Proof.
  intros (Hl&Hs&He) Hn. unfold GetMessageFromBuffer, ring_contents in *.
  do 3 erewrite M_bind_run by done. unfold OUTBUFFERSIZE in *.
  set (st := outputBufferStart s) in *. set (en := outputBufferEnd s) in *.
  set (b := outputBuffer s) in *.
  destruct (Z.leb_spec st en) as [Hle|Hgt].
  - rewrite seg_length in Hn by lia.
    erewrite M_bind_run by (apply lift_run, aslice_seg; lia). erewrite M_bind_run by done.
    eexists. split; [by rewrite take_seg by lia|]. split; [ring_done|]; split; [simpl|done].
    fold en b. destruct (Z.leb_spec (st + n) en); [|lia].
    by rewrite drop_seg by lia.
  - rewrite length_app, !seg_length in Hn by lia. destruct (Z.ltb_spec (4096 - st) n).
    + erewrite M_bind_run by (apply lift_run, aslice_seg; lia).
      erewrite M_bind_run by (apply lift_run, aslice_seg; lia). erewrite M_bind_run by done.
      eexists. split.
      { rewrite take_app, seg_length, take_ge by (rewrite ?seg_length; lia).
        replace (Z.to_nat n - Z.to_nat (4096 - st))%nat with (Z.to_nat (n - (4096 - st))) by lia.
        rewrite take_seg by lia. by replace (st + (4096 - st)) with 4096 by lia. }
      split; [ring_done|]; split; [simpl|done].
      fold en b. destruct (Z.leb_spec (n - (4096 - st)) en); [|lia].
      rewrite drop_app, seg_length, drop_ge by (rewrite ?seg_length; lia).
      replace (Z.to_nat n - Z.to_nat (4096 - st))%nat with (Z.to_nat (n - (4096 - st))) by lia.
      rewrite drop_seg by lia. done.
    + erewrite M_bind_run by (apply lift_run, aslice_seg; lia). erewrite M_bind_run by done.
      eexists. split.
      { rewrite take_app_le, take_seg by (rewrite ?seg_length; lia). done. }
      split; [ring_done|]; split; [simpl|done].
      fold en b. destruct (Z.leb_spec (st + n) en); [lia|].
      rewrite drop_app_le, drop_seg by (rewrite ?seg_length; lia). done.
Qed.

Lemma amemcpy_runs {A} (dst : list A) d src i n :
  0 <= i -> 0 <= n -> i + n <= Z.of_nat (length src) -> 0 <= d ->
  d + n <= Z.of_nat (length dst) -> exists r, amemcpy dst d src i n = Ok r.
Proof. intros. eexists. apply amemcpy_Ok. split_and!; [lia..|reflexivity]. Qed.

Definition msg_wf (m : tCECMessage) : Prop := msg_length m = Z.of_nat (length (msg_data m)).

Lemma msg_bytes_length m : msg_wf m -> Z.of_nat (length (msg_bytes m)) = msg_length m + 2.
Proof. unfold msg_wf, msg_bytes. simpl. lia. Qed.

Lemma AddMessageBuffer_spec s m :
  ring_ok s -> msg_wf m -> ring_room s (msg_length m + 2) ->
  exists s', AddMessageBuffer m s = Ok (tt, s') /\ ring_ok s' /\
    ring_contents s' = ring_contents s ++ msg_bytes m /\
    s' = s <| outputBuffer := outputBuffer s' |> <| outputBufferEnd := outputBufferEnd s' |>.
Proof.
  intros (Hl&Hs&He) Hm Hr. pose proof (msg_bytes_length m Hm) as Hlen. unfold msg_wf in Hm.
  assert (Hseg : seg (msg_bytes m) 0 (0 + (msg_length m + 2)) = msg_bytes m).
  { unfold seg. rewrite drop_0, take_ge by lia. done. }
  unfold AddMessageBuffer, ring_contents, ring_room, OUTBUFFERSIZE in *.
  do 2 erewrite M_bind_run by done.
  set (st := outputBufferStart s) in *. set (en := outputBufferEnd s) in *.
  set (n := msg_length m + 2) in *. set (b := outputBuffer s) in *.
  destruct (Z.leb_spec n (4096 - en)).
  - destruct (amemcpy_runs b en (msg_bytes m) 0 n) as [b' Hb]; [lia..|].
    erewrite M_bind_run by (by apply lift_run). eexists. split; [done|].
    pose proof (amemcpy_length _ _ _ _ _ _ Hb). apply amemcpy_seg in Hb as (Hb1&Hb2&Hb3).
    split; [ring_done|]. split; [simpl|done]. fold st en b. rewrite Hseg in Hb2.
    destruct (Z.leb_spec st en).
    + destruct (Z.leb_spec st (en + n)); [|lia].
      rewrite <- (seg_app _ st en (en + n)), Hb1, Hb2 by lia. done.
    + destruct (Z.leb_spec st (en + n)); [lia|].
      rewrite Hb3, <- (seg_app _ 0 en (en + n)), Hb1, Hb2, app_assoc by lia. done.
  - assert (en = 4096) by (destruct (Z.leb_spec st en); lia).
    assert (n < st) by (destruct (Z.leb_spec st en); lia).
    replace (4096 - en) with 0 in * by lia. rewrite Z.mul_0_l, Z.sub_0_r.
    destruct (amemcpy_runs b en (msg_bytes m) 0 0) as [b1 Hb1]; [lia..|].
    erewrite M_bind_run by (by apply lift_run).
    pose proof (amemcpy_length _ _ _ _ _ _ Hb1). apply amemcpy_seg in Hb1 as (Hb1&_&_).
    destruct (amemcpy_runs b1 0 (msg_bytes m) 0 n) as [b2 Hb2]; [lia..|].
    erewrite M_bind_run by (by apply lift_run). eexists. split; [done|].
    pose proof (amemcpy_length _ _ _ _ _ _ Hb2). apply amemcpy_seg in Hb2 as (_&Hb2&Hb3).
    split; [ring_done|]. split; [simpl|done]. fold st en b. rewrite Hseg, Z.add_0_l in Hb2.
    destruct (Z.leb_spec st n); [lia|]. destruct (Z.leb_spec st en); [|lia].
    rewrite Hb3, Hb1, Hb2 by lia. f_equal. by replace en with 4096 by lia.
Qed.

(** A message that has to be split makes the second copy read far outside it. *)
Lemma AddMessageBuffer_split s m :
  ring_ok s -> msg_wf m -> msg_length m <= 255 ->
  0 < OUTBUFFERSIZE - outputBufferEnd s < msg_length m + 2 ->
  AddMessageBuffer m s = Fault OutOfBounds.
Proof.
  intros (Hl&Hs&He) Hm H255 Hsp. pose proof (msg_bytes_length m Hm) as Hlen.
  unfold AddMessageBuffer, OUTBUFFERSIZE, sizeof_tCECMessage in *.
  do 2 erewrite M_bind_run by done.
  destruct (Z.leb_spec (msg_length m + 2) (4096 - outputBufferEnd s)); [lia|].
  destruct (amemcpy_runs (outputBuffer s) (outputBufferEnd s) (msg_bytes m) 0
    (4096 - outputBufferEnd s)) as [b Hb]; [lia..|].
  erewrite M_bind_run by (by apply lift_run). apply M_bind_fault. unfold lift.
  case_match eqn:E; [|].
  - apply amemcpy_Ok in E. lia.
  - unfold amemcpy, aslice, mbind, res_bind in E. repeat case_match; congruence.
Qed.
End ring.

(** ** The device against a queue of bytes *)

(** What happens to the ring: a message arrives, or the owner of the device
    reads up to [n] bytes. *)
Inductive dev_op := Put (m : tCECMessage) | Get (n : Z).

Section refinement.
Context {D : Type} `{CecHw D}.
Variable filp : Z.
Implicit Types (s : cec D) (ops : list dev_op).

Fixpoint run_dev ops : M (cec D) (list (list Z)) :=
  match ops with
  | [] => mret []
  | Put m :: ops => AddMessageBuffer m;; run_dev ops
  | Get n :: ops => r ← CECdev_read filp false n; rs ← run_dev ops; mret (r.2 :: rs)
  end.

(** The specification: an unbounded queue. *)
Fixpoint run_queue ops (q : list Z) : list (list Z) * list Z :=
  match ops with
  | [] => ([], q)
  | Put m :: ops => run_queue ops (q ++ msg_bytes m)
  | Get n :: ops =>
      let (rs, q') := run_queue ops (drop (Z.to_nat n) q) in (take (Z.to_nat n) q :: rs, q')
  end.

(** Along the run, every message is well formed and finds room in one piece. *)
Fixpoint roomy ops s : Prop :=
  match ops with
  | [] => True
  | Put m :: ops =>
      msg_wf m /\ ring_room s (msg_length m + 2) /\
      forall s', AddMessageBuffer m s = Ok (tt, s') -> roomy ops s'
  | Get n :: ops =>
      0 <= n /\ forall r s', CECdev_read filp false n s = Ok (r, s') -> roomy ops s'
  end.

Lemma CECdev_read_spec s n :
  ring_ok s -> vOpen s = Some filp -> 0 <= n ->
  exists s', CECdev_read filp false n s =
      Ok ((Z.min n (Z.of_nat (length (ring_contents s))), take (Z.to_nat n) (ring_contents s)), s') /\
    ring_ok s' /\ vOpen s' = Some filp /\ ring_contents s' = drop (Z.to_nat n) (ring_contents s).
Proof.
  intros Hok Hfp Hn. unfold CECdev_read. erewrite M_bind_run by (by apply contents_size).
  erewrite M_bind_run by done. rewrite Hfp, bool_decide_true by done. cbn [negb].
  set (c := ring_contents s). set (len := if _ <? n then _ else n).
  assert (Hlen : len = Z.min n (Z.of_nat (length c))).
  { unfold len. destruct (Z.ltb_spec (Z.of_nat (length c)) n); lia. }
  assert (Htake : take (Z.to_nat len) c = take (Z.to_nat n) c).
  { destruct (decide (n <= Z.of_nat (length c))); [by replace len with n by lia|].
    rewrite !take_ge by lia. done. }
  assert (Hdrop : drop (Z.to_nat len) c = drop (Z.to_nat n) c).
  { destruct (decide (n <= Z.of_nat (length c))); [by replace len with n by lia|].
    rewrite !drop_ge by lia. done. }
  destruct (Z.ltb_spec 0 len).
  - destruct (GetMessageFromBuffer_spec s len) as (s'&E&Hok'&Hc&_&Hfr); [done|fold c; lia|].
    erewrite M_bind_run by done. exists s'. fold c in Hc. fold c. rewrite Htake, Hlen.
    split; [done|]. split; [done|]. split; [by rewrite Hfr|congruence].
  - exists s. fold c. rewrite <- Htake, <- Hdrop, <- Hlen. replace len with 0 by lia. done.
Qed.

Lemma run_dev_queue ops : forall s,
  ring_ok s -> vOpen s = Some filp -> roomy ops s ->
  exists s', run_dev ops s = Ok ((run_queue ops (ring_contents s)).1, s') /\ ring_ok s' /\
    ring_contents s' = (run_queue ops (ring_contents s)).2.
Proof.
  induction ops as [|[m|n] ops IH]; intros s Hok Hfp Hroom.
  - by exists s.
  - destruct Hroom as (Hwf&Hr&Hnext).
    destruct (AddMessageBuffer_spec s m) as (s1&E&Hok1&Hc&Hfr); [done..|].
    cbn [run_dev run_queue]. erewrite M_bind_run by done. rewrite <- Hc.
    apply IH; [done|by rewrite Hfr|by apply Hnext].
  - destruct Hroom as (Hn&Hnext).
    destruct (CECdev_read_spec s n) as (s1&E&Hok1&Hfp1&Hc); [done..|].
    destruct (IH s1) as (s2&E2&Hok2&Hc2); [done|done|by eapply Hnext|].
    cbn [run_dev run_queue]. erewrite M_bind_run by done. erewrite M_bind_run by done.
    rewrite Hc in E2, Hc2 |- *.
    destruct (run_queue ops (drop (Z.to_nat n) (ring_contents s))) as [rs q].
    exists s2. split; [|done]. unfold mret, M_ret. done.
Qed.
End refinement.

Section write.
Context {D : Type} `{CecHw D}.

Lemma CECdev_write_cases delay (s : cec D) address n data :
  isSending s = 0 -> length (sendBuf s) = 16%nat -> is_u8 n ->
  let buff := address :: n :: data in
  CECdev_write delay true buff s =
  if n <? Z.of_nat (length data) then Ok (Z.of_nat (length buff), s)
  else if (n =? Z.of_nat (length data)) && (n <=? CEC_MAX_DATA_LEN)
  then Ok (Z.of_nat (length buff), queued s (n + 1) (address :: data) DEFAULT_RETRY_COUNT)
  else Fault OutOfBounds.
Proof.
  intros Hs Hl Hn buff. unfold is_u8 in Hn. unfold CECdev_write. cbn [negb].
  assert (Hlen : Z.of_nat (length buff) = Z.of_nat (length data) + 2) by (simpl; lia).
  destruct (Z.leb_spec 2 (Z.of_nat (length buff))); [|lia].
  assert (Hhead : forall k : M (cec D) Z,
    ((address ← lift (aget buff 0); n ← lift (aget buff 1);
      when (Z.of_nat (length buff) - 2 <=? n)
       (data ← lift (aslice buff 2 n); sendMessage delay (n + 1) (address :: data)));; k) s =
    (when (Z.of_nat (length buff) - 2 <=? n)
       (data ← lift (aslice buff 2 n); sendMessage delay (n + 1) (address :: data));; k) s).
  { intros k. unfold mbind, M_bind. do 2 (rewrite lift_run with (a := _) by (by apply aget_Ok)). done. }
  rewrite Hhead. clear Hhead. rewrite Hlen.
  replace (Z.of_nat (length data) + 2 - 2) with (Z.of_nat (length data)) by lia.
  destruct (Z.ltb_spec n (Z.of_nat (length data))).
  { destruct (Z.leb_spec (Z.of_nat (length data)) n); [lia|]. done. }
  destruct (Z.leb_spec (Z.of_nat (length data)) n); [|lia]. cbn [when].
  destruct (Z.eqb_spec n (Z.of_nat (length data))) as [Heq|Hne]; cbn [andb].
  - assert (Hsl : aslice buff 2 n = Ok data).
    { apply aslice_Ok. split_and!; [lia|lia|lia|]. rewrite Heq, Nat2Z.id.
      change (drop (Z.to_nat 2) buff) with data. by rewrite firstn_all. }
    unfold CEC_MAX_DATA_LEN. destruct (Z.leb_spec n 15).
    + erewrite M_bind_run; [done|]. erewrite M_bind_run by (by apply lift_run).
      unfold sendMessage. erewrite M_bind_run;
        [reflexivity|apply sendMessageWithRetry_idle; [done|done|lia|simpl; lia]].
    + apply M_bind_fault. erewrite M_bind_run by (by apply lift_run).
      unfold sendMessage. apply M_bind_fault. by apply sendMessageWithRetry_long; [| |simpl; lia|lia].
  - apply M_bind_fault, M_bind_fault. unfold lift.
    destruct (aslice buff 2 n) eqn:E; [apply aslice_Ok in E; lia|].
    unfold aslice in E. case_match; congruence.
Qed.
End write.

(** ** Properties *)

(** C11. The device file of passive mode is a byte queue: whatever the sequence
    of arriving messages and reads, as long as every message finds room in one
    piece, each read returns the oldest unread bytes and the ring holds the
    rest, exactly as an unbounded queue would. *)
Theorem cec_ring_refines_queue {D : Type} `{CecHw D} filp (s : cec D) ops :
  ring_ok s -> vOpen s = Some filp -> roomy filp ops s ->
  exists s', run_dev filp ops s = Ok ((run_queue ops (ring_contents s)).1, s') /\
    ring_contents s' = (run_queue ops (ring_contents s)).2.
Proof.
  intros Hok Hfp Hroom. destruct (run_dev_queue filp ops s) as (s'&E&_&Hc); eauto.
Qed.

Definition demo_msg : tCECMessage := CECMessage 0x40 2 [0x36; 0x01].
Definition demo_state : cec tap := (cec_boot (Tap ∅ 0x1000 []) 0 [83; 84; 66] 4) <| vOpen := Some 1 |>.

Lemma cec_ring_refines_queue_witness :
  exists s', run_dev 1 [Put demo_msg; Get 3; Get 9] demo_state =
    Ok ([[0x40; 2; 0x36]; [0x01]], s') /\ ring_contents s' = [].
Proof.
  apply (cec_ring_refines_queue 1 demo_state [Put demo_msg; Get 3; Get 9]).
  - repeat split; vm_compute; congruence.
  - reflexivity.
  - cbn [roomy]. split; [reflexivity|]. split; [vm_compute; left; congruence|].
    intros s1 _. split; [lia|]. intros r s2 _. split; [lia|]. intros r' s3 _. exact I.
Defined.

(** A message that has to be split at the end of the ring is not stored: the
    second copy starts sizeof(tCECMessage) bytes too far for every byte of
    space left, outside the message. *)
Theorem cec_ring_split_overrun {D : Type} `{CecHw D} (s : cec D) m :
  ring_ok s -> msg_wf m -> msg_length m <= 255 ->
  0 < OUTBUFFERSIZE - outputBufferEnd s < msg_length m + 2 ->
  AddMessageBuffer m s = Fault OutOfBounds.
Proof. apply AddMessageBuffer_split. Qed.

Lemma cec_ring_split_overrun_witness :
  AddMessageBuffer demo_msg (demo_state <| outputBufferStart := 4093 |> <| outputBufferEnd := 4093 |>)
  = Fault OutOfBounds.
Proof.
  apply cec_ring_split_overrun; [|done|done|split; vm_compute; reflexivity].
  repeat split; vm_compute; congruence.
Defined.

(** Writing a message to the device file: it is sent when the length byte
    is the number of data bytes and at most 15; a smaller length byte makes the
    write succeed without sending anything; a larger one, or more than 15 data
    bytes, makes the driver access memory outside its buffers. *)
Theorem cec_write_outcomes {D : Type} `{CecHw D} delay (s : cec D) address n data :
  isSending s = 0 -> length (sendBuf s) = 16%nat -> is_u8 n ->
  let buff := address :: n :: data in
  CECdev_write delay true buff s =
  if n <? Z.of_nat (length data) then Ok (Z.of_nat (length buff), s)
  else if (n =? Z.of_nat (length data)) && (n <=? CEC_MAX_DATA_LEN)
  then Ok (Z.of_nat (length buff), queued s (n + 1) (address :: data) DEFAULT_RETRY_COUNT)
  else Fault OutOfBounds.
Proof. apply CECdev_write_cases. Qed.

Lemma cec_write_outcomes_witness :
  CECdev_write skip true [0x0F; 1; 0x36] demo_state =
    Ok (3, queued demo_state 2 [0x0F; 0x36] DEFAULT_RETRY_COUNT) /\
  CECdev_write skip true [0x0F; 3; 0x36] demo_state = Fault OutOfBounds.
Proof.
  split.
  - exact (cec_write_outcomes skip demo_state 0x0F 1 [0x36] eq_refl eq_refl ltac:(done)).
  - exact (cec_write_outcomes skip demo_state 0x0F 3 [0x36] eq_refl eq_refl ltac:(done)).
Defined.
