(* ===== verification/CecOpcodes.v ===== *)
(** * HDMI CEC: message interpretation (cec_opcodes.c, cec_rc.c, cec_proc.c)

    The remote control codes handed to the input layer, the event counters, the
    interpretation of a received or sent message with the answers it causes,
    and the messages the box sends by itself. *)
From S2P Require Import Prelude CecState CecSend CecDev.

(** A C switch: the first case with that label, else the default. *)
Fixpoint switch {A} (x : Z) (cases : list (Z * A)) (dflt : A) : A :=
  match cases with
  | [] => dflt
  | (k, a) :: cases => if x =? k then a else switch x cases dflt
  end.

(** ** cec_rc.c *)

(** Key codes of linux/input.h. *)
Definition KEY_OK := 0x160.
Definition KEY_UP := 103.
Definition KEY_DOWN := 108.
Definition KEY_LEFT := 105.
Definition KEY_RIGHT := 106.
Definition KEY_HOME := 102.
Definition KEY_MENU := 139.
Definition KEY_INFO := 0x166.
Definition KEY_0 := 11.
Definition KEY_1 := 2.
Definition KEY_2 := 3.
Definition KEY_3 := 4.
Definition KEY_4 := 5.
Definition KEY_5 := 6.
Definition KEY_6 := 7.
Definition KEY_7 := 8.
Definition KEY_8 := 9.
Definition KEY_9 := 10.
Definition KEY_BLUE := 0x191.
Definition KEY_RED := 0x18E.
Definition KEY_GREEN := 0x18F.
Definition KEY_YELLOW := 0x190.
Definition KEY_PLAY := 207.
Definition KEY_STOP := 128.
Definition KEY_PAUSE := 119.
Definition KEY_RECORD := 167.
Definition KEY_REWIND := 168.
Definition KEY_FASTFORWARD := 208.
Definition KEY_FAVORITES := 0x16C.
Definition KEY_PAGEUP := 104.
Definition KEY_PAGEDOWN := 109.

Definition rc_keys : list (Z * Z) :=
  [(USER_CONTROL_CODE_SELECT, KEY_OK);
   (USER_CONTROL_CODE_UP, KEY_UP);
   (USER_CONTROL_CODE_DOWN, KEY_DOWN);
   (USER_CONTROL_CODE_LEFT, KEY_LEFT);
   (USER_CONTROL_CODE_RIGHT, KEY_RIGHT);
   (USER_CONTROL_CODE_EXIT, KEY_HOME);
   (USER_CONTROL_CODE_PREV_CHANNEL, KEY_MENU);
   (USER_CONTROL_CODE_EPG, KEY_INFO);
   (USER_CONTROL_CODE_NUMBERS_0, KEY_0);
   (USER_CONTROL_CODE_NUMBERS_1, KEY_1);
   (USER_CONTROL_CODE_NUMBERS_2, KEY_2);
   (USER_CONTROL_CODE_NUMBERS_3, KEY_3);
   (USER_CONTROL_CODE_NUMBERS_4, KEY_4);
   (USER_CONTROL_CODE_NUMBERS_5, KEY_5);
   (USER_CONTROL_CODE_NUMBERS_6, KEY_6);
   (USER_CONTROL_CODE_NUMBERS_7, KEY_7);
   (USER_CONTROL_CODE_NUMBERS_8, KEY_8);
   (USER_CONTROL_CODE_NUMBERS_9, KEY_9);
   (USER_CONTROL_CODE_F1_BLUE, KEY_BLUE);
   (USER_CONTROL_CODE_F2_RED, KEY_RED);
   (USER_CONTROL_CODE_F3_GREEN, KEY_GREEN);
   (USER_CONTROL_CODE_F4_YELLOW, KEY_YELLOW);
   (USER_CONTROL_CODE_PLAY, KEY_PLAY);
   (USER_CONTROL_CODE_STOP, KEY_STOP);
   (USER_CONTROL_CODE_PAUSE, KEY_PAUSE);
   (USER_CONTROL_CODE_RECORD, KEY_RECORD);
   (USER_CONTROL_CODE_REWIND, KEY_REWIND);
   (USER_CONTROL_CODE_FASTFORWARD, KEY_FASTFORWARD);
   (USER_CONTROL_CODE_ROOT_MENU, KEY_MENU);
   (USER_CONTROL_CODE_CONTENTS_MENU, KEY_FAVORITES);
   (USER_CONTROL_CODE_SETUP_MENU, KEY_MENU);
   (USER_CONTROL_CODE_NEXT, KEY_FASTFORWARD);
   (USER_CONTROL_CODE_LAST, KEY_REWIND);
   (USER_CONTROL_CODE_PAGEUP, KEY_PAGEUP);
   (USER_CONTROL_CODE_PAGEDOWN, KEY_PAGEDOWN);
   (USER_CONTROL_CODE_INFO, KEY_INFO)].

Section rc.
Context {D : Type}.

(** input_event(button_dev, 1, code, value) *)
Definition input_event (code value : Z) : M (cec D) unit :=
  modify (fun s => s <| key_events := key_events s ++ [(code, value)] |>).

Definition input_inject (key type : Z) : M (cec D) Z :=
  let code := switch key rc_keys 0 in
  '(code, value) ←
    (if type =? 1 then modify (fun s => s <| last_keycode := code |>);; mret (code, 1)
     else if type =? 0 then code ← gets last_keycode; mret (code, 0)
     else mret (code, 0));
  when (negb (code =? 0)) (input_event code value);;
  mret 0.
End rc.

(** ** cec_proc.c: event counters *)

(** INC: saturates at 0xf. *)
Definition INC (counter : Z) : Z := if counter =? 0xf then counter else u8 (counter + 1).

Section events.
Context {D : Type}.
Definition setUpdatedDiscovery : M (cec D) unit :=
  modify (fun s => s <| eventDiscovery := INC (eventDiscovery s) |>).
Definition setUpdatedActiveSource : M (cec D) unit :=
  modify (fun s => s <| eventActiveSource := INC (eventActiveSource s) |>).
Definition setUpdatedStandby : M (cec D) unit :=
  modify (fun s => s <| eventStandby := INC (eventStandby s) |>).
End events.

(** ** The text of a message

    [name] is the contents of the local array of [NAME_SIZE] characters that
    holds the message's description for the debug output. *)

Definition NAME_SIZE := 100.

Definition chars (s : string) : list Z :=
  map (fun c => Z.of_N (Ascii.N_of_ascii c)) (String.list_ascii_of_string s).

Definition strcpy (s : list Z) : res (list Z) :=
  if Z.of_nat (length s) <? NAME_SIZE then Ok s else Fault OutOfBounds.
Definition strcat (name s : list Z) : res (list Z) :=
  if Z.of_nat (length name + length s) <? NAME_SIZE then Ok (name ++ s) else Fault OutOfBounds.

(** The string that starts at [l]: up to the first NUL, which must be there. *)
Fixpoint cstring (l : list Z) : res (list Z) :=
  match l with
  | [] => Fault OutOfBounds
  | c :: l => if c =? 0 then Ok [] else t ← cstring l; Ok (c :: t)
  end.

Definition abort_names : list (Z * string) :=
  [(ABORT_REASON_UNRECOGNIZED_OPCODE, "UNRECOGNIZED_OPCODE");
   (ABORT_REASON_NOT_IN_CORRECT_MODE, "NOT_IN_CORRECT_MODE");
   (ABORT_REASON_CANNOT_PROVIDE_SOURCE, "CANNOT_PROVIDE_SOURCE");
   (ABORT_REASON_INVALID_OPERAND, "INVALID_OPERAND");
   (ABORT_REASON_REFUSED, "REFUSED")]%string.
Definition status_request_names : list (Z * string) :=
  [(STATUS_REQUEST_ON, "STATUS_REQUEST_ON"); (STATUS_REQUEST_OFF, "STATUS_REQUEST_OFF");
   (STATUS_REQUEST_ONCE, "STATUS_REQUEST_ONCE")]%string.
Definition deck_names : list (Z * string) :=
  [(DECK_INFO_PLAY, "PLAY"%string);
   (DECK_INFO_RECORD, "RECORD"%string);
   (DECK_INFO_PLAY_REVERSE, "PLAY_REVERSE"%string);
   (DECK_INFO_STILL, "STILL"%string);
   (DECK_INFO_SLOW, "SLOW"%string);
   (DECK_INFO_SLOW_REVERSE, "SLOW_REVERSE"%string);
   (DECK_INFO_FAST_FORWARD, "FAST_FORWARD"%string);
   (DECK_INFO_FAST_REVERSE, "FAST_REVERSE"%string);
   (DECK_INFO_NO_MEDIA, "NO_MEDIA"%string);
   (DECK_INFO_STOP, "STOP"%string);
   (DECK_INFO_SKIP_FORWARD, "SKIP_FORWARD"%string);
   (DECK_INFO_SKIP_REVERSE, "SKIP_REVERSE"%string);
   (DECK_INFO_INDEX_SEARCH_FORWARD, "INDEX_SEARCH_FORWARD"%string);
   (DECK_INFO_INDEX_SEARCH_REVERSE, "INDEX_SEARCH_REVERSE"%string);
   (DECK_INFO_OTHER_STATUS, "OTHER_STATUS"%string)].
Definition user_control_names : list (Z * string) :=
  [(USER_CONTROL_CODE_SELECT, "SELECT"%string);
   (USER_CONTROL_CODE_UP, "UP"%string);
   (USER_CONTROL_CODE_DOWN, "DOWN"%string);
   (USER_CONTROL_CODE_LEFT, "LEFT"%string);
   (USER_CONTROL_CODE_RIGHT, "RIGHT"%string);
   (USER_CONTROL_CODE_RIGHTUP, "RIGHT-UP"%string);
   (USER_CONTROL_CODE_RIGHTDOWN, "RIGHT-DOWN"%string);
   (USER_CONTROL_CODE_LEFTUP, "LEFT-UP"%string);
   (USER_CONTROL_CODE_LEFTDOWN, "LEFT-DOWN"%string);
   (USER_CONTROL_CODE_EXIT, "EXIT"%string);
   (USER_CONTROL_CODE_PREV_CHANNEL, "PREV_CHANNEL"%string);
   (USER_CONTROL_CODE_EPG, "EPG"%string);
   (USER_CONTROL_CODE_NUMBERS_0, "NUMBERS_0"%string);
   (USER_CONTROL_CODE_NUMBERS_1, "NUMBERS_1"%string);
   (USER_CONTROL_CODE_NUMBERS_2, "NUMBERS_2"%string);
   (USER_CONTROL_CODE_NUMBERS_3, "NUMBERS_3"%string);
   (USER_CONTROL_CODE_NUMBERS_4, "NUMBERS_4"%string);
   (USER_CONTROL_CODE_NUMBERS_5, "NUMBERS_5"%string);
   (USER_CONTROL_CODE_NUMBERS_6, "NUMBERS_6"%string);
   (USER_CONTROL_CODE_NUMBERS_7, "NUMBERS_7"%string);
   (USER_CONTROL_CODE_NUMBERS_8, "NUMBERS_8"%string);
   (USER_CONTROL_CODE_NUMBERS_9, "NUMBERS_9"%string);
   (USER_CONTROL_CODE_F1_BLUE, "F1_(BLUE)"%string);
   (USER_CONTROL_CODE_F2_RED, "F2_(RED)"%string);
   (USER_CONTROL_CODE_F3_GREEN, "F3_(GREEN)"%string);
   (USER_CONTROL_CODE_F4_YELLOW, "F4_(YELLOW)"%string);
   (USER_CONTROL_CODE_F5, "F5"%string);
   (USER_CONTROL_CODE_PLAY, "PLAY"%string);
   (USER_CONTROL_CODE_STOP, "STOP"%string);
   (USER_CONTROL_CODE_PAUSE, "PAUSE"%string);
   (USER_CONTROL_CODE_RECORD, "RECORD"%string);
   (USER_CONTROL_CODE_REWIND, "REWIND"%string);
   (USER_CONTROL_CODE_FASTFORWARD, "FASTFORWARD"%string);
   (USER_CONTROL_CODE_FUNCTION_PLAY, "PLAY"%string);
   (USER_CONTROL_CODE_FUNCTION_PAUSEPLAY, "PAUSE-PLAY"%string);
   (USER_CONTROL_CODE_FUNCTION_RECORD, "RECORD"%string);
   (USER_CONTROL_CODE_FUNCTION_PAUSERECORD, "PAUSE-RECORD"%string);
   (USER_CONTROL_CODE_FUNCTION_STOP, "STOP"%string);
   (USER_CONTROL_CODE_FUNCTION_MUTE, "MUTE"%string);
   (USER_CONTROL_CODE_FUNCTION_RESTORE, "RESTORE"%string);
   (USER_CONTROL_CODE_FUNCTION_TUNE, "TUNE"%string);
   (USER_CONTROL_CODE_FUNCTION_SELECT_MEDIA, "SELECT_MEDIA"%string);
   (USER_CONTROL_CODE_FUNCTION_SELECT_AV_INPUT, "SELECT_AV_INPUT"%string);
   (USER_CONTROL_CODE_FUNCTION_SELECT_AUDIO_INPUT, "SELECT_AUDIO_INPUT"%string);
   (USER_CONTROL_CODE_FUNCTION_POWER_TOGGLE, "POWER_TOGGLE"%string);
   (USER_CONTROL_CODE_FUNCTION_POWER_OFF, "POWER_OFF"%string);
   (USER_CONTROL_CODE_FUNCTION_POWER_ON, "POWER_ON"%string);
   (USER_CONTROL_CODE_ROOT_MENU, "ROOT_MENU"%string);
   (USER_CONTROL_CODE_CONTENTS_MENU, "CONTENTS_MENU"%string);
   (USER_CONTROL_CODE_SETUP_MENU, "SETUP_MENU"%string);
   (USER_CONTROL_CODE_PAGEUP, "PAGEUP"%string);
   (USER_CONTROL_CODE_PAGEDOWN, "PAGEDOWN"%string);
   (USER_CONTROL_CODE_INFO, "INFO"%string);
   (USER_CONTROL_CODE_NEXT, "NEXT"%string);
   (USER_CONTROL_CODE_LAST, "LAST"%string)].
Definition menu_request_names : list (Z * string) :=
  [(MENU_REQUEST_TYPE_ACTIVATE, "ACTIVATE"); (MENU_REQUEST_TYPE_DEACTIVATE, "DEACTIVATE");
   (MENU_REQUEST_TYPE_QUERY, "QUERY")]%string.
Definition menu_state_names : list (Z * string) :=
  [(MENU_STATE_ACTIVATE, "ACTIVATE"); (MENU_STATE_DEACTIVATE, "DEACTIVATE")]%string.
Definition power_names : list (Z * string) :=
  [(POWER_STATUS_ON, "ON"); (POWER_STATUS_STANDBY, "STANDBY");
   (POWER_STATUS_GOING_TO_ON, "GOING_TO_ON");
   (POWER_STATUS_GOING_TO_STANDBY, "GOING_TO_STANDBY")]%string.
Definition version_names : list (Z * string) :=
  [(CEC_VERSION_V11, "1.1"); (CEC_VERSION_V12, "1.2"); (CEC_VERSION_V12A, "1.2a");
   (CEC_VERSION_V13, "1.3"); (CEC_VERSION_V13A, "1.3a"); (CEC_VERSION_V14, "1.4")]%string.

(** strcpy(name, a); strcat(name, ": "); and the name of an operand *)
Definition name1 (a : string) : res (list Z) := strcpy (chars a).
Definition name2 (a : string) (x : Z) (t : list (Z * string)) : res (list Z) :=
  n ← strcpy (chars a); n ← strcat n (chars ": ");
  match switch x (map (fun '(k, v) => (k, Some v)) t) None with
  | Some v => strcat n (chars v)
  | None => Ok n
  end.
(** ... and the text of the message from byte [i] *)
Definition name_text (a : string) (buf : list Z) (i : nat) : res (list Z) :=
  n ← strcpy (chars a); n ← strcat n (chars ": ");
  t ← cstring (drop i buf); strcat n t.

(** ** cec_opcodes.c *)

Definition logicalDeviceTypeChoices : list (Z * Z) :=
  [(1 ≪ DEVICE_TYPE_DVD, DEVICE_TYPE_DVD1); (1 ≪ DEVICE_TYPE_DVD, DEVICE_TYPE_DVD2);
   (1 ≪ DEVICE_TYPE_DVD, DEVICE_TYPE_DVD3); (1 ≪ DEVICE_TYPE_STB, DEVICE_TYPE_STB1);
   (1 ≪ DEVICE_TYPE_STB, DEVICE_TYPE_STB2); (1 ≪ DEVICE_TYPE_STB, DEVICE_TYPE_STB3);
   (1 ≪ DEVICE_TYPE_REC, DEVICE_TYPE_REC1); (1 ≪ DEVICE_TYPE_REC, DEVICE_TYPE_REC2);
   (0xFF, DEVICE_TYPE_UNREG)].

(** The two bytes of a physical address. *)
Definition addr_hi (p : Z) : Z := (((p ≫ 12) .& 0xf) ≪ 4) + ((p ≫ 8) .& 0xf).
Definition addr_lo (p : Z) : Z := (((p ≫ 4) .& 0xf) ≪ 4) + ((p ≫ 0) .& 0xf).

(** A zeroed responseBuffer whose first bytes have been set. *)
Definition responseBuffer (l : list Z) : list Z := l ++ replicate (16 - length l) 0.

(** The vendor id of the build. *)
Definition vendor_id `{CecBuild} : list Z :=
  match build_box with
  | UFS912_913 => [0x00; 0xD0; 0x55]
  | HS8200 => [0x00; 0x1E; 0xB8]
  | OtherBox => chars "DBX"
  end.

Section opcodes.
Context {D : Type} `{CecHw D} `{CecBuild}.
Variable delay : M (cec D) unit.

(** (getLogicalDeviceType() << 4) + (x & 0xF), stored in a byte *)
Definition header (x : Z) : M (cec D) Z :=
  ldt ← getLogicalDeviceType; mret (u8 ((ldt ≪ 4) + (x .& 0xF))).

(** Fill responseBuffer with a header to [dst] and [body], and send all of it. *)
Definition respond (dst : Z) (body : list Z) : M (cec D) unit :=
  h ← header dst;
  sendMessage delay (Z.of_nat (length body) + 1) (responseBuffer (h :: body)).

Definition sendReportPhysicalAddress : M (cec D) unit :=
  p ← getPhysicalAddress;
  t ← getDeviceType;
  respond BROADCAST [REPORT_PHYSICAL_ADDRESS; addr_hi p; addr_lo p; t].

Definition setIsFirstKiss (kiss : Z) : M (cec D) unit :=
  modify (fun s => s <| isFirstKiss := kiss |>);;
  active ← gets activemode;
  when ((kiss =? 0) && truthy active) sendReportPhysicalAddress.

Definition getActiveSource : M (cec D) Z := gets ActiveSource.

Definition setActiveSource (addr : Z) : M (cec D) unit :=
  a ← getActiveSource;
  when (negb (a =? u16 addr))
    (modify (fun s => s <| ActiveSource := u16 addr |>);; setUpdatedActiveSource).

Definition setSourceAsActive : M (cec D) unit :=
  p ← getPhysicalAddress; respond BROADCAST [ACTIVE_SOURCE; addr_hi p; addr_lo p].

Definition wakeTV : M (cec D) unit := respond DEVICE_TYPE_TV [IMAGE_VIEW_ON].

Definition sendInitMessage : M (cec D) unit :=
  respond DEVICE_TYPE_TV [GIVE_DEVICE_POWER_STATUS].

(** while (!(ldt & choices[index][0])) index++ *)
Fixpoint advance (fuel : nat) (ldt : Z) : M (cec D) unit :=
  match fuel with
  | O => faulty Diverges
  | S fuel =>
    i ← gets logicalDeviceTypeChoicesIndex;
    c ← lift (aget logicalDeviceTypeChoices i);
    if truthy (ldt .& c.1) then skip
    else modify (fun s => s <| logicalDeviceTypeChoicesIndex := u8 (i + 1) |>);; advance fuel ldt
  end.

(** Ten rounds are enough: the tenth element does not exist. *)
Definition sendPingWithAutoIncrement : M (cec D) unit :=
  t ← gets deviceType;
  let ldt := s8 (1 ≪ t) in
  advance 10 ldt;;
  setIsFirstKiss 1;;
  i ← gets logicalDeviceTypeChoicesIndex;
  c ← lift (aget logicalDeviceTypeChoices i);
  modify (fun s => s <| logicalDeviceTypeChoicesIndex := u8 (i + 1) |>
                     <| logicalDeviceType := c.2 |>);;
  sendMessage delay 1 [u8 ((c.2 ≪ 4) + (c.2 .& 0xF))];;
  advance 10 ldt.

Definition sendOneTouchPlay : M (cec D) unit :=
  p ← getPhysicalAddress;
  respond DEVICE_TYPE_TV [IMAGE_VIEW_ON];;
  delay;;
  respond BROADCAST [ACTIVE_SOURCE; addr_hi p; addr_lo p].

Definition sendSystemStandby (deviceId : Z) : M (cec D) unit := respond deviceId [STANDBY].

(** if (activemode) ... *)
Definition when_active (m : M (cec D) unit) : M (cec D) unit :=
  a ← gets activemode; when (truthy a) m.

(** One case of the switch: the message's name is put together, then [m] does
    what the case does. The result is [name], which the code prints. *)
Definition named (n : res (list Z)) (m : M (cec D) unit) : M (cec D) (list Z) :=
  n ← lift n; m;; mret n.

(** A case whose name depends on the operand buf[i]. *)
Definition named_by (buf : list Z) (a : string) (i : Z) (t : list (Z * string))
    (m : Z -> M (cec D) unit) : M (cec D) (list Z) :=
  x ← lift (aget buf i); named (name2 a x t) (m x).

(** (buf[i] << 8) + buf[i + 1] *)
Definition word (buf : list Z) (i : Z) : M (cec D) Z :=
  h ← lift (aget buf i); l ← lift (aget buf (i + 1)); mret ((h ≪ 8) + l).

(** The cases of the switch on buf[0], in the order of the source. *)
Definition deck_cases (src : Z) (buf : list Z) : list (Z * M (cec D) (list Z)) :=
  [(FEATURE_ABORT, named_by buf "FEATURE_ABORT" 2 abort_names (fun _ => skip));
   (ABORT_MESSAGE, named (name1 "ABORT_MESSAGE") skip);
   (IMAGE_VIEW_ON, named (name1 "IMAGE_VIEW_ON") skip);
   (RECORD_ON, named (name1 "RECORD_ON") skip);
   (RECORD_STATUS, named (name1 "RECORD_STATUS") skip);
   (RECORD_OFF, named (name1 "RECORD_OFF") skip);
   (TEXT_VIEW_ON, named (name1 "TEXT_VIEW_ON") skip);
   (RECORD_TV_SCREEN, named (name1 "RECORD_TV_SCREEN") skip);
   (GIVE_DECK_STATUS, named_by buf "GIVE_DECK_STATUS" 1 status_request_names (fun _ =>
     when_active (respond src [DECK_STATUS; DECK_INFO_PLAY])));
   (DECK_STATUS, named_by buf "DECK_STATUS" 1 deck_names (fun _ => skip))].

Definition user_cases (src : Z) (buf : list Z) : list (Z * M (cec D) (list Z)) :=
  [(SET_MENU_LANGUAGE, named (name_text "SET_MENU_LANGUAGE" buf 1) skip);
   (STANDBY, named (name1 "STANDBY") setUpdatedStandby);
   (USER_CONTROL_PRESSED, named_by buf "USER_CONTROL_PRESSED " 1 user_control_names (fun key =>
     when_active (input_inject key 1;; skip)))].

Definition source_cases (src : Z) (buf : list Z) : list (Z * M (cec D) (list Z)) :=
  [(USER_CONTROL_RELEASED, named (name1 "USER_CONTROL_RELEASED")
     (when_active (input_inject 0xFFFF 0;; skip)));
   (GIVE_OSD_NAME, named (name1 "GIVE_OSD_NAME") (when_active (
     nm ← gets deviceName;
     let n := if CEC_MAX_DATA_LEN - 2 <? Z.of_nat (length nm) then CEC_MAX_DATA_LEN - 2
              else Z.of_nat (length nm) in
     respond src (SET_OSD_NAME :: take (Z.to_nat n) nm))));
   (SET_OSD_NAME, named (name_text "SET_OSD_NAME" buf 1) skip);
   (SET_OSD_STRING, named (name_text "SET_OSD_STRING" buf 2) skip);
   (ROUTING_CHANGE, named (name1 "ROUTING_CHANGE") (a ← word buf 3; setActiveSource a));
   (ROUTING_INFORMATION, named (name1 "ROUTING_INFORMATION") (a ← word buf 1; setActiveSource a));
   (ACTIVE_SOURCE, named (name1 "ACTIVE_SOURCE") (a ← word buf 1; setActiveSource a));
   (GIVE_PHYSICAL_ADDRESS, named (name1 "GIVE_PHYSICAL_ADDRESS") sendReportPhysicalAddress);
   (REPORT_PHYSICAL_ADDRESS, named (name1 "REPORT_PHYSICAL_ADDRESS") skip);
   (REQUEST_ACTIVE_SOURCE, named (name1 "REQUEST_ACTIVE_SOURCE") (when_active (
     p ← getPhysicalAddress; respond BROADCAST [ACTIVE_SOURCE; addr_hi p; addr_lo p])));
   (SET_STREAM_PATH, named (name1 "SET_STREAM_PATH") (when_active (
     a ← word buf 1;
     p ← getPhysicalAddress;
     when (a =? p) (respond BROADCAST [ACTIVE_SOURCE; addr_hi p; addr_lo p]))))].

Definition device_cases (src : Z) (buf : list Z) : list (Z * M (cec D) (list Z)) :=
  [(DEVICE_VENDOR_ID, named (name1 "DEVICE_VENDOR_ID") skip);
   (VENDOR_COMMAND, named (name1 "VENDOR_COMMAND") (when_active
     (respond src [FEATURE_ABORT; VENDOR_COMMAND; ABORT_REASON_UNRECOGNIZED_OPCODE])));
   (VENDOR_REMOTE_BUTTON_DOWN, named (name1 "VENDOR_REMOTE_BUTTON_DOWN") skip);
   (GIVE_DEVICE_VENDOR_ID, named (name1 "GIVE_DEVICE_VENDOR_ID") (when_active
     (respond BROADCAST (DEVICE_VENDOR_ID :: vendor_id))));
   (MENU_REQUEST, named_by buf "MENU_REQUEST" 1 menu_request_names (fun _ =>
     when_active (respond src [MENU_STATUS; MENU_STATE_ACTIVATE])));
   (MENU_STATUS, named_by buf "MENU_STATUS" 1 menu_state_names (fun _ => skip));
   (GIVE_DEVICE_POWER_STATUS, named (name1 "GIVE_DEVICE_POWER_STATUS") (when_active
     (respond src [REPORT_POWER_STATUS; POWER_STATUS_ON])));
   (REPORT_POWER_STATUS, named_by buf "REPORT_POWER_STATUS" 1 power_names (fun _ => skip));
   (GIVE_MENU_LANGUAGE, named (name1 "SET_STREAM_PATH") skip);
   (SET_AUDIO_RATE, named_by buf "SET_AUDIO_RATE" 1 menu_state_names (fun _ => skip));
   (CEC_VERSION, named_by buf "CEC_VERSION" 1 version_names (fun _ => skip));
   (GET_CEC_VERSION, named (name1 "GET_CEC_VERSION") (when_active
     (respond src [CEC_VERSION; CEC_VERSION_V13A])));
   (VENDOR_COMMAND_WITH_ID, named (name1 "VENDOR_COMMAND_WITH_ID") (when_active
     (respond src [FEATURE_ABORT; VENDOR_COMMAND_WITH_ID; ABORT_REASON_UNRECOGNIZED_OPCODE])))].

Definition parseMessage (src dst len : Z) (buf : list Z) : M (cec D) (list Z) :=
  op ← lift (aget buf 0);
  switch op (deck_cases src buf ++ user_cases src buf ++ source_cases src buf ++ device_cases src buf)
    (named (name1 "UNKNOWN") skip).

(** [buf] points into the driver's own memory: it is read again after
    parseMessage, which may have changed it. *)
Definition parseRawMessage (len : Z) (buf : cec D -> list Z) : M (cec D) unit :=
  b ← gets buf;
  b0 ← lift (aget b 0);
  let src := b0 ≫ 4 in
  let dst := b0 .& 0x0F in
  let dataLen := u8 (len - 1) in
  if CEC_MAX_DATA_LEN <? dataLen then skip
  else if 0 <? dataLen then
    parseMessage src dst dataLen (tail b);;
    active ← gets activemode;
    when (negb (truthy active)) (b ← gets buf; AddMessageToBuffer b len)
  else
    ldt ← getLogicalDeviceType;
    when ((src =? dst) && (src =? ldt))
      (when (negb (ldt =? DEVICE_TYPE_UNREG)) sendPingWithAutoIncrement).
End opcodes.

(** ** Facts *)

(** The whole switch of parseMessage. *)
Ltac unfold_message :=
  unfold parseMessage, deck_cases, user_cases, source_cases, device_cases, named_by, named, word;
  cbn [app].

Lemma switch_ind {A} (P : A -> Prop) x cases dflt :
  Forall (fun ka => x = ka.1 -> P ka.2) cases -> P dflt -> P (switch x cases dflt).
Proof.
  intros HF Hd. induction HF as [|[k a] cases Hk HF IH]; [done|]. simpl.
  destruct (Z.eqb_spec x k); [by apply Hk|done].
Qed.

Lemma switch_hit {A} x k (a : A) cases d :
  (x =? k) = true -> switch x ((k, a) :: cases) d = a.
Proof. intros H. simpl. by rewrite H. Qed.
Lemma switch_skip {A} x k (a : A) cases d :
  (x =? k) = false -> switch x ((k, a) :: cases) d = switch x cases d.
Proof. intros H. simpl. by rewrite H. Qed.
(** Select the case of a switch on a known value. *)
Ltac switch_to := repeat rewrite switch_skip by reflexivity; rewrite switch_hit by reflexivity.

(** Everything the transmission of messages depends on. *)
Definition tx {D} (s : cec D) :=
  (hw s, isSending s, indexOfSendBuf s, sizeOfSendBuf s, sendBuf s, retries s, sendCommand s).

Section passive.
Context {D : Type} `{CecHw D} `{CecBuild}.

(** With activemode off, the transmitter is left alone. *)
Definition passive (s s' : cec D) : Prop :=
  activemode s' = activemode s /\ (activemode s = 0 -> tx s' = tx s).

#[export] Instance passive_preorder : PreOrder passive.
Proof.
  split; [done|]. intros s1 s2 s3 [H1 H1'] [H2 H2']. split; [congruence|].
  intros Ha. rewrite H2' by congruence. auto.
Qed.

Definition same_mode (s s' : cec D) : Prop := activemode s' = activemode s.
#[export] Instance same_mode_preorder : PreOrder same_mode.
Proof. split; [done|]. intros s1 s2 s3. unfold same_mode. congruence. Qed.

Lemma wait_sending_mode n : keeps same_mode (wait_sending skip n).
Proof.
  induction n as [|n IH]; cbn [wait_sending]; keeps. destruct n; keeps.
Qed.
Hint Resolve wait_sending_mode : keeps.

Lemma respond_mode dst body : keeps same_mode (respond skip dst body).
Proof.
  unfold respond, header, sendMessage, sendMessageWithRetry, local, cec_set_own_address,
    cec_write_data, cec_write_register_u32, getLogicalDeviceType. keeps; done.
Qed.

Lemma when_active_passive (m : M (cec D) unit) : keeps same_mode m -> keeps passive (when_active m).
Proof.
  intros Hm s [] s' E. unfold when_active in E.
  erewrite M_bind_run in E by done. unfold truthy in E.
  destruct (Z.eqb_spec (activemode s) 0).
  - injection E as <-. done.
  - split; [by eapply Hm|done].
Qed.

Lemma setActiveSource_passive a : keeps passive (setActiveSource a).
Proof. unfold setActiveSource, getActiveSource, setUpdatedActiveSource. keeps; done. Qed.

Lemma input_inject_mode k t : keeps same_mode (input_inject k t : M (cec D) Z).
Proof. unfold input_inject, input_event. keeps; try done. case_match; keeps; done. Qed.

Hint Resolve respond_mode when_active_passive setActiveSource_passive input_inject_mode : keeps.

Lemma parseMessage_passive src dst len buf :
  aget buf 0 <> Ok GIVE_PHYSICAL_ADDRESS ->
  keeps passive (parseMessage (D := D) skip src dst len buf).
Proof.
  intros Hop. unfold_message; unfold getPhysicalAddress.
  intros s n s'. destruct (aget buf 0) as [op|] eqn:E; [|done].
  erewrite M_bind_run by (by apply lift_run). revert s n s'.
  apply (switch_ind (keeps passive)); [|keeps].
  repeat first [apply Forall_nil_2 | apply Forall_cons_2; [cbn [fst snd]; intros Hk|]].
  all: try (exfalso; congruence); clear Hop E Hk.
  all: keeps.
  all: try (apply when_active_passive; keeps).
  all: unfold setUpdatedStandby; keeps; try done.
Qed.
End passive.

(** The opcodes the box uses in its answers. *)
Definition is_answer (op : Z) : bool :=
  existsb (Z.eqb op)
    [DECK_STATUS; SET_OSD_NAME; REPORT_PHYSICAL_ADDRESS; ACTIVE_SOURCE; FEATURE_ABORT;
     DEVICE_VENDOR_ID; MENU_STATUS; REPORT_POWER_STATUS; CEC_VERSION].

Section answers.
Context {D : Type} `{CecHw D} `{CecBuild}.
Implicit Types s : cec D.

(** The header byte of a message from this box to [dst]. *)
Definition header_to s (dst : Z) : Z := u8 ((logicalDeviceType s ≪ 4) + (dst .& 0xF)).

(** Between [s] and [s'] nothing was sent, or the transmitter was free and one
    answer was queued. *)
Definition answered s s' : Prop :=
  tx s' = tx s \/
  (isSending s = 0 /\ exists dst op args,
    is_answer op = true /\ Z.of_nat (length args) <= 14 /\
    tx s' = tx (queued s (Z.of_nat (length args) + 2)
                  (responseBuffer (header_to s dst :: op :: args)) DEFAULT_RETRY_COUNT)).

Definition answers {A} (m : M (cec D) A) : Prop :=
  forall s, length (sendBuf s) = 16%nat -> exists a s', m s = Ok (a, s') /\ answered s s'.

Lemma answers_lift {A B} (r : res A) a (k : A -> M (cec D) B) :
  r = Ok a -> answers (k a) -> answers (lift r ≫= k).
Proof. intros Hr Hk s Hs. erewrite M_bind_run by (by apply lift_run). by apply Hk. Qed.

Lemma answers_gets {A B} (f : cec D -> A) (k : A -> M (cec D) B) :
  (forall a, answers (k a)) -> answers (gets f ≫= k).
Proof. intros Hk s Hs. erewrite M_bind_run by done. by apply Hk. Qed.

Lemma answers_then {A B} (m : M (cec D) A) (b : B) : answers m -> answers (m ≫= fun _ => mret b).
Proof.
  intros Hm s Hs. destruct (Hm s Hs) as (a&s'&E&Ha). erewrite M_bind_run by done. eauto.
Qed.

(** Nothing sent. *)
Lemma answers_silent {A} (m : M (cec D) A) :
  (forall s, exists a s', m s = Ok (a, s') /\ tx s' = tx s) -> answers m.
Proof. intros Hm s _. destruct (Hm s) as (a&s'&E&Ht). exists a, s'. split; [done|by left]. Qed.

Lemma answers_skip : answers (skip : M (cec D) unit).
Proof. apply answers_silent. eauto. Qed.

Lemma answers_when b (m : M (cec D) unit) : answers m -> answers (when b m).
Proof. destruct b; [done|]. intros _. apply answers_skip. Qed.

Lemma answers_when_active (m : M (cec D) unit) : answers m -> answers (when_active m).
Proof. intros Hm. apply answers_gets. intros a. by apply answers_when. Qed.

Lemma answers_respond dst op args :
  is_answer op = true -> Z.of_nat (length args) <= 14 -> answers (respond skip dst (op :: args)).
Proof.
  intros Hop Hl s Hs. unfold respond, header, getLogicalDeviceType.
  erewrite M_bind_run by (by erewrite M_bind_run by done).
  unfold answered. rewrite sendMessage_irq; [|done|simpl; lia|].
  - eexists tt, _. split; [done|]. destruct (Z.eqb_spec (isSending s) 0); [right|by left].
    split; [done|]. exists dst, op, args. split_and!; [done|done|].
    by replace (Z.of_nat (length args) + 2) with (Z.of_nat (length (op :: args)) + 1) by (simpl; lia).
  - unfold responseBuffer. rewrite length_app, length_replicate. simpl. lia.
Qed.

Lemma setActiveSource_runs a s :
  exists s', setActiveSource a s = Ok (tt, s') /\ tx s' = tx s.
Proof.
  unfold setActiveSource, getActiveSource. erewrite M_bind_run by done.
  unfold when. case_match; eexists; (split; [done|]); done.
Qed.

Lemma input_inject_runs k t s :
  exists s', (input_inject k t;; skip) s = Ok (tt, s') /\ tx s' = tx s.
Proof.
  unfold input_inject. generalize (switch k rc_keys 0). intros code.
  unfold input_event, when, mbind, M_bind, modify, gets, mret, M_ret.
  destruct (t =? 1); [|destruct (t =? 0)]; cbv beta iota;
    (destruct (negb _); eexists; (split; [reflexivity|done])).
Qed.

Lemma name2_runs a x t :
  forallb (fun kv => Z.of_nat (length (chars a) + 2 + length (chars kv.2)) <? NAME_SIZE) t = true ->
  (Z.of_nat (length (chars a) + 2) <? NAME_SIZE) = true ->
  exists n, name2 a x t = Ok n.
Proof.
  intros Ht Ha. unfold name2, strcpy.
  destruct (Z.ltb_spec (Z.of_nat (length (chars a))) NAME_SIZE); [|apply Z.ltb_lt in Ha; lia].
  cbn [mbind res_bind]. unfold strcat. change (length (chars ": ")) with 2%nat.
  rewrite Ha. cbn [mbind res_bind].
  assert (forall P : option string -> Prop, P None -> (forall kv, kv ∈ t -> P (Some kv.2)) ->
    P (switch x (map (fun '(k, v) => (k, Some v)) t) None)) as Hsw.
  { intros P HN HP. apply switch_ind; [|done]. apply Forall_map, Forall_forall.
    intros [k v] Hin _. exact (HP (k, v) (proj2 (list_elem_of_In _ _) Hin)). }
  apply Hsw; [eauto|]. intros kv Hin. rewrite length_app. change (length (chars ": ")) with 2%nat.
  rewrite forallb_forall in Ht. rewrite Ht by (by apply list_elem_of_In). eauto.
Qed.

Lemma cstring_length l t : cstring l = Ok t -> (length t <= length l)%nat.
Proof.
  revert t. induction l as [|c l IH]; intros t Ht; [done|]. cbn in Ht.
  destruct (c =? 0); minv; [simpl; lia|]. apply le_n_S. by apply IH.
Qed.

Lemma name_text_runs a buf i :
  Z.of_nat (length (chars a)) <= 20 -> (length buf <= 15)%nat ->
  (exists t, cstring (drop i buf) = Ok t) -> exists n, name_text a buf i = Ok n.
Proof.
  intros Ha Hb [t Ht]. pose proof (cstring_length _ _ Ht) as Hl. rewrite length_drop in Hl.
  unfold name_text, strcpy, strcat, NAME_SIZE.
  destruct (Z.ltb_spec (Z.of_nat (length (chars a))) 100); [|lia]. cbn [mbind res_bind].
  change (length (chars ": ")) with 2%nat.
  destruct (Z.ltb_spec (Z.of_nat (length (chars a) + 2)) 100); [|lia]. cbn [mbind res_bind].
  rewrite Ht. cbn [mbind res_bind]. rewrite length_app. change (length (chars ": ")) with 2%nat.
  destruct (Z.ltb_spec (Z.of_nat (length (chars a) + 2 + length t)) 100); [eauto|lia].
Qed.

(** Where the text of a message starts, for the opcodes whose text is shown. *)
Definition text_start (op : Z) : option nat :=
  switch op [(SET_MENU_LANGUAGE, Some 1%nat); (SET_OSD_NAME, Some 1%nat); (SET_OSD_STRING, Some 2%nat)] None.

(** The message has a text that does not end inside its buffer. *)
Definition unterminated (buf : list Z) : bool :=
  match buf with
  | [] => false
  | op :: _ => match text_start op with Some i => bool_decide (0 ∉ drop i buf) | None => false end
  end.

Lemma cstring_nul l : 0 ∈ l -> exists t, cstring l = Ok t.
Proof.
  induction l as [|c l IH]; [by intros ?%elem_of_nil|]. intros Hl. cbn.
  destruct (Z.eqb_spec c 0); [eauto|]. apply elem_of_cons in Hl as [|Hl]; [congruence|].
  destruct IH as [t Ht]; [done|]. rewrite Ht. cbn. eauto.
Qed.

Lemma cstring_overrun l : 0 ∉ l -> cstring l = Fault OutOfBounds.
Proof.
  induction l as [|c l IH]; [done|]. intros [Hc Hl]%not_elem_of_cons. cbn.
  destruct (Z.eqb_spec c 0); [congruence|]. by rewrite IH.
Qed.

Lemma terminated_text buf op i :
  aget buf 0 = Ok op -> text_start op = Some i -> unterminated buf = false ->
  exists t, cstring (drop i buf) = Ok t.
Proof.
  intros Hop Hi. destruct buf as [|x buf]; [done|]. injection Hop as ->. unfold unterminated. rewrite Hi.
  intros Ht%bool_decide_eq_false. apply cstring_nul. by apply dec_stable.
Qed.

Lemma name_text_overrun a buf i :
  (Z.of_nat (length (chars a) + 2) <? NAME_SIZE) = true -> 0 ∉ drop i buf ->
  name_text a buf i = Fault OutOfBounds.
Proof.
  intros Ha Hn. unfold name_text, strcpy, strcat. rewrite (proj2 (Z.ltb_lt _ _)) by (apply Z.ltb_lt in Ha; lia).
  cbn [mbind res_bind]. change (length (chars ": ")) with 2%nat. rewrite Ha. cbn [mbind res_bind].
  by rewrite cstring_overrun.
Qed.

(** A message of at most 14 data bytes, in a buffer cleared beforehand. *)
Lemma terminated_last buf : buf !! 14%nat = Some 0 -> unterminated buf = false.
Proof.
  intros H14. destruct buf as [|op l]; [done|]. unfold unterminated, text_start.
  assert (Hd : forall i, (i <= 2)%nat -> 0 ∈ drop i (op :: l)).
  { intros i Hi. apply (list_elem_of_lookup_2 _ (14 - i)). rewrite lookup_drop.
    by replace (i + (14 - i))%nat with 14%nat by lia. }
  apply switch_ind; [|done]. repeat first [apply Forall_nil_2 | apply Forall_cons_2; [cbn [fst snd]; intros _|]];
    apply bool_decide_eq_false; intros []; apply Hd; lia.
Qed.

Lemma answers_word {B} buf i h l (k : Z -> M (cec D) B) :
  aget buf i = Ok h -> aget buf (i + 1) = Ok l -> (forall a, answers (k a)) ->
  answers ((h ← lift (aget buf i); l ← lift (aget buf (i + 1)); mret ((h ≪ 8) + l)) ≫= k).
Proof.
  intros Hh Hl Hk s Hs. erewrite M_bind_run.
  2: { erewrite M_bind_run by (by apply lift_run). by erewrite M_bind_run by (by apply lift_run). }
  by apply Hk.
Qed.

Lemma answers_report : answers (sendReportPhysicalAddress skip : M (cec D) unit).
Proof. do 2 (apply answers_gets; intros ?). by apply answers_respond. Qed.

Lemma answers_inject k t : answers (input_inject k t;; skip : M (cec D) unit).
Proof. apply answers_silent. intros s. destruct (input_inject_runs k t s) as (s'&?&?). eauto. Qed.

Lemma answers_source a : answers (setActiveSource a : M (cec D) unit).
Proof. apply answers_silent. intros s. destruct (setActiveSource_runs a s) as (s'&?&?). eauto. Qed.

Ltac answers_step :=
  lazymatch goal with
  | |- answers (when_active _) => apply answers_when_active
  | |- answers (when _ _) => apply answers_when
  | |- answers skip => apply answers_skip
  | |- answers (sendReportPhysicalAddress _) => apply answers_report
  | |- answers (setActiveSource _) => apply answers_source
  | |- answers (respond _ _ _) => apply answers_respond; [done|simpl; try lia]
  | |- answers (input_inject _ _ ≫= _) => apply answers_inject
  | |- answers (gets _ ≫= _) => apply answers_gets; intros ?
  | |- answers ((lift _ ≫= _) ≫= _) => eapply answers_word; [eassumption|eassumption|intros ?]
  end.

Lemma parseMessage_answers src dst len buf :
  length buf = 15%nat -> unterminated buf = false -> answers (parseMessage (D := D) skip src dst len buf).
Proof.
  intros Hb HT. unfold_message.
  assert (Hget : forall i, 0 <= i < 15 -> exists x, aget buf i = Ok x)
    by (intros; apply aget_in; lia).
  destruct (Hget 0) as [op Hop]; [lia|]. destruct (Hget 1) as [b1 H1]; [lia|].
  destruct (Hget 2) as [b2 H2]; [lia|]. destruct (Hget 3) as [b3 H3]; [lia|].
  destruct (Hget 4) as [b4 H4]; [lia|].
  assert (T : forall k i, text_start k = Some i -> op = k -> exists t, cstring (drop i buf) = Ok t).
  { intros k i Hk ->. by eapply terminated_text. }
  eapply answers_lift; [done|]. apply (switch_ind answers).
  2: { eapply answers_lift; [done|]. apply answers_then, answers_skip. }
  repeat first [apply Forall_nil_2 | apply Forall_cons_2; [cbn [fst snd]; intros Hcase|]].
  all: try (eapply answers_lift; [eassumption|]).
  all: match goal with
       | |- answers (lift (name1 _) ≫= _) => eapply answers_lift; [done|]
       | |- answers (lift (name2 ?a ?x ?t) ≫= _) =>
           destruct (name2_runs a x t eq_refl eq_refl) as [nm Hnm];
           eapply answers_lift; [exact Hnm|]
       | |- answers (lift (name_text ?a ?b ?i) ≫= _) =>
           destruct (name_text_runs a b i) as [nm Hnm]; [done|lia|by eapply T; [|exact Hcase]|];
           eapply answers_lift; [exact Hnm|]
       end.
  all: apply answers_then.
  all: unfold getPhysicalAddress; repeat answers_step.
  - apply answers_silent. intros s. by eexists _, _.
  - unfold CEC_MAX_DATA_LEN. case_match; rewrite length_take; lia.
  - unfold vendor_id. case_match; simpl; lia.
Qed.

(** The text of a full message is copied past the end of the buffer. *)
Lemma parseMessage_overrun src dst len buf s :
  unterminated buf = true -> parseMessage skip src dst len buf s = Fault OutOfBounds.
Proof.
  destruct buf as [|op l]; [done|]. unfold unterminated, text_start. cbn [switch]. intros Hu.
  unfold_message. erewrite M_bind_run by (apply lift_run; by apply aget_Ok).
  repeat match type of Hu with
  | context [op =? ?k] => destruct (Z.eqb_spec op k) as [->|_]
  end; try discriminate Hu; apply bool_decide_eq_true in Hu; switch_to; apply M_bind_fault; unfold lift;
    by rewrite name_text_overrun.
Qed.
End answers.

Section terminal.
Context {D : Type} `{CecHw D} `{CecBuild}.

Definition same_tx (s s' : cec D) : Prop := tx s' = tx s.
#[export] Instance same_tx_preorder : PreOrder same_tx.
Proof. split; [done|]. intros s1 s2 s3. unfold same_tx. congruence. Qed.

Lemma setActiveSource_same_tx a : keeps same_tx (setActiveSource a : M (cec D) unit).
Proof. unfold setActiveSource, getActiveSource, setUpdatedActiveSource. keeps; done. Qed.
Hint Resolve setActiveSource_same_tx : keeps.

(** An answer is never answered. *)
Lemma parseMessage_terminal src dst len buf op :
  aget buf 0 = Ok op -> is_answer op = true ->
  keeps same_tx (parseMessage (D := D) skip src dst len buf).
Proof.
  intros E Hop. unfold_message.
  intros s n s'. erewrite M_bind_run by (by apply lift_run). revert s n s'.
  apply (switch_ind (keeps same_tx)); [|keeps].
  repeat first [apply Forall_nil_2 | apply Forall_cons_2; [cbn [fst snd]; intros Hk|]].
  all: try (exfalso; subst op; discriminate Hop); clear Hop E Hk.
  all: keeps.
Qed.
End terminal.

(** *** Keys *)

Section keys.
Context {D : Type} `{CecHw D} `{CecBuild}.
Implicit Types s : cec D.

Lemma press_effect src dst len k rest s :
  activemode s <> 0 ->
  exists n, parseMessage skip src dst len (USER_CONTROL_PRESSED :: k :: rest) s =
    Ok (n, let code := switch k rc_keys 0 in
           s <| last_keycode := code |>
             <| key_events := key_events s ++ (if code =? 0 then [] else [(code, 1)]) |>).
Proof.
  intros Ha. unfold_message.
  erewrite M_bind_run by (apply lift_run; by apply aget_Ok). switch_to.
  erewrite M_bind_run by (apply lift_run; by apply aget_Ok).
  destruct (name2_runs "USER_CONTROL_PRESSED " k user_control_names eq_refl eq_refl) as [nm Hnm].
  erewrite M_bind_run by (by apply lift_run). exists nm.
  unfold when_active, truthy, when, input_inject, input_event, skip.
  generalize (switch k rc_keys 0). intros code.
  unfold mbind, M_bind, gets, modify, mret, M_ret. destruct (Z.eqb_spec (activemode s) 0); [done|].
  cbn [negb Z.eqb Pos.eqb]. destruct (code =? 0); cbn [negb]; simpl; [|done].
  rewrite app_nil_r. by destruct s.
Qed.

Lemma release_effect src dst len rest s :
  activemode s <> 0 ->
  exists n, parseMessage skip src dst len (USER_CONTROL_RELEASED :: rest) s =
    Ok (n, let code := last_keycode s in
           s <| key_events := key_events s ++ (if code =? 0 then [] else [(code, 0)]) |>).
Proof.
  intros Ha. unfold_message.
  erewrite M_bind_run by (apply lift_run; by apply aget_Ok). switch_to.
  erewrite M_bind_run by (by apply lift_run). eexists.
  unfold when_active, truthy, when, input_inject, input_event, skip.
  generalize (switch 0xFFFF rc_keys 0). intros code.
  unfold mbind, M_bind, gets, modify, mret, M_ret. destruct (Z.eqb_spec (activemode s) 0); [done|].
  cbn [negb Z.eqb Pos.eqb]. destruct (last_keycode s =? 0); cbn [negb]; simpl; [|done].
  rewrite app_nil_r. by destruct s.
Qed.
End keys.

(** *** What a message never touches *)

Section frame.
Context {D : Type} `{CecHw D} `{CecBuild}.

Lemma parseMessage_keeps (R : relation (cec D)) `{!PreOrder R} src dst len buf :
  (forall dst body, keeps R (respond skip dst body)) ->
  (forall a, keeps R (setActiveSource a)) -> keeps R setUpdatedStandby ->
  (forall k t, keeps R (input_inject k t)) ->
  keeps R (parseMessage skip src dst len buf).
Proof.
  intros H1 H2 H3 H4. unfold_message; unfold getPhysicalAddress.
  apply keeps_bind; [done|keeps|intros op].
  apply (switch_ind (keeps R)); [|keeps].
  repeat first [apply Forall_nil_2 | apply Forall_cons_2; [cbn [fst snd]; intros _|]].
  all: unfold sendReportPhysicalAddress, getPhysicalAddress, getDeviceType, when_active; keeps.
  all: auto.
Qed.

(** The received message and the ring of received messages. *)
Definition rx_part (s : cec D) :=
  (recvBuf s, activemode s, outputBuffer s, outputBufferStart s, outputBufferEnd s).
Definition same_rx (s s' : cec D) : Prop := rx_part s' = rx_part s.
#[export] Instance same_rx_preorder : PreOrder same_rx.
Proof. split; [done|]. intros s1 s2 s3. unfold same_rx. congruence. Qed.

Lemma wait_sending_rx n : keeps same_rx (wait_sending skip n : M (cec D) nat).
Proof. induction n as [|n IH]; cbn [wait_sending]; keeps. destruct n; keeps. Qed.
Hint Resolve wait_sending_rx : keeps.

Lemma parseMessage_rx src dst len buf :
  keeps same_rx (parseMessage skip src dst len buf : M (cec D) _).
Proof.
  apply parseMessage_keeps; [apply _|intros|intros| |intros].
  - unfold respond, header, sendMessage, sendMessageWithRetry, local, cec_set_own_address,
      cec_write_data, cec_write_register_u32, getLogicalDeviceType. keeps; done.
  - unfold setActiveSource, getActiveSource, setUpdatedActiveSource. keeps; done.
  - unfold setUpdatedStandby. keeps; done.
  - unfold input_inject, input_event. keeps; try done. case_match; keeps; done.
Qed.
End frame.

(** ** Properties *)

Definition demo_build : CecBuild := {| build_soc := STx7111; build_box := OtherBox |}.

(** A box in active mode, [buf] a message of it padded to the buffer's end. *)
Definition demo_active : cec tap :=
  cec_boot (Tap ∅ 0x2100 []) 1 (chars "DUCKBOX") DEVICE_TYPE_DVD.
Definition padded (l : list Z) : list Z := l ++ replicate (15 - length l) 0.

(** C38. In passive mode (activemode 0) interpreting a message never touches the
    transmitter: no byte is written, nothing is queued and no transmission in
    progress is disturbed; the only exception is GIVE_PHYSICAL_ADDRESS, which
    the code answers whatever the mode. *)
Theorem cec_passive_silent {D : Type} `{CecHw D} `{CecBuild} (s s' : cec D) src dst len buf n :
  activemode s = 0 -> aget buf 0 <> Ok GIVE_PHYSICAL_ADDRESS ->
  parseMessage skip src dst len buf s = Ok (n, s') -> tx s' = tx s.
Proof.
  intros Ha Hop E. by apply (parseMessage_passive src dst len buf Hop) in E as [_ ?]; auto.
Qed.

Lemma cec_passive_silent_witness :
  let s := demo_active <| activemode := 0 |> in
  let _ := demo_build in
  exists n s', parseMessage skip 0 4 2 (padded [GIVE_OSD_NAME]) s = Ok (n, s') /\ tx s' = tx s.
Proof.
  intros s b. destruct (parseMessage skip 0 4 2 (padded [GIVE_OSD_NAME]) s) as [[n s']|] eqn:E;
    [|vm_compute in E; discriminate].
  exists n, s'. split; [reflexivity|].
  exact (cec_passive_silent s s' 0 4 2 (padded [GIVE_OSD_NAME]) n eq_refl ltac:(vm_compute; congruence) E).
Defined.

(** C20. Interpreting a message faults exactly when its opcode is SET_OSD_NAME,
    SET_OSD_STRING or SET_MENU_LANGUAGE and its text has no NUL up to the end of
    the buffer, which then is overrun. Every other message is interpreted to the
    end, and either sends nothing or, the transmitter being idle, queues one
    message of 2 to 16 bytes whose opcode is one of the nine answer opcodes. *)
Theorem cec_message_answered {D : Type} `{CecHw D} `{CecBuild} (s : cec D) src dst len buf :
  length (sendBuf s) = 16%nat -> length buf = 15%nat ->
  if unterminated buf then parseMessage skip src dst len buf s = Fault OutOfBounds
  else exists name s', parseMessage skip src dst len buf s = Ok (name, s') /\
    (tx s' = tx s \/
     (isSending s = 0 /\ exists to op args,
       is_answer op = true /\ 2 <= Z.of_nat (length (op :: args)) + 1 <= 16 /\
       tx s' = tx (queued s (Z.of_nat (length (op :: args)) + 1)
                  (responseBuffer (header_to s to :: op :: args)) DEFAULT_RETRY_COUNT))).
Proof.
  intros Hs Hb. destruct (unterminated buf) eqn:Ht; [by apply parseMessage_overrun|].
  destruct (parseMessage_answers src dst len buf Hb Ht s Hs)
    as (n&s'&E&[Hq|(Hi&to&op&args&Hop&Hl&Hq)]); exists n, s'; (split; [done|]); [by left|right].
  split; [done|]. exists to, op, args. split; [done|]. split; [simpl; lia|].
  by replace (Z.of_nat (length (op :: args)) + 1) with (Z.of_nat (length args) + 2) by (simpl; lia).
Qed.

Lemma cec_message_answered_witness :
  let _ := demo_build in
  (exists name s', parseMessage skip 0 4 2 (padded [GIVE_OSD_NAME]) demo_active = Ok (name, s') /\
    answered demo_active s') /\
  parseMessage skip 0 4 15 (SET_OSD_NAME :: replicate 14 65) demo_active = Fault OutOfBounds.
Proof.
  intros b. split.
  - destruct (cec_message_answered demo_active 0 4 2 (padded [GIVE_OSD_NAME]) eq_refl eq_refl)
      as (name&s'&E&[H|(Hi&to&op&args&Hop&Hl&H)]); exists name, s'; (split; [exact E|]).
    + left. exact H.
    + right. split; [exact Hi|]. exists to, op, args. split; [exact Hop|]. split; [simpl in Hl; lia|].
      replace (Z.of_nat (length args) + 2) with (Z.of_nat (length (op :: args)) + 1) by (simpl; lia).
      exact H.
  - exact (cec_message_answered demo_active 0 4 15 (SET_OSD_NAME :: replicate 14 65) eq_refl eq_refl).
Defined.

(** Answers are never answered: interpreting a message that carries one of
    the answer opcodes sends nothing, so that the box, which also interprets
    what it has sent itself, cannot start a conversation with itself. *)
Theorem cec_answers_end {D : Type} `{CecHw D} `{CecBuild} (s s' : cec D) src dst len buf op n :
  aget buf 0 = Ok op -> is_answer op = true ->
  parseMessage skip src dst len buf s = Ok (n, s') -> tx s' = tx s.
Proof. intros Hop Ha E. by apply (parseMessage_terminal src dst len buf op Hop Ha) in E. Qed.

Lemma cec_answers_end_witness :
  let _ := demo_build in
  exists n s', parseMessage skip 4 0 2 (padded [CEC_VERSION; CEC_VERSION_V13A]) demo_active = Ok (n, s')
    /\ tx s' = tx demo_active.
Proof.
  intros b.
  destruct (parseMessage skip 4 0 2 (padded [CEC_VERSION; CEC_VERSION_V13A]) demo_active)
    as [[n s']|] eqn:E; [|vm_compute in E; discriminate].
  exists n, s'. split; [reflexivity|].
  exact (cec_answers_end demo_active s' 4 0 2 (padded [CEC_VERSION; CEC_VERSION_V13A])
    CEC_VERSION n eq_refl eq_refl E).
Defined.

(** Key presses and releases are paired: in active mode a
    USER_CONTROL_PRESSED followed by a USER_CONTROL_RELEASED gives the input
    layer a press and a release of the same key, and nothing when the code has
    no key. *)
Theorem cec_key_pairing {D : Type} `{CecHw D} `{CecBuild} (s : cec D) src k rest rest' :
  activemode s <> 0 ->
  exists n s1 n' s2,
    parseMessage skip src 4 2 (USER_CONTROL_PRESSED :: k :: rest) s = Ok (n, s1) /\
    parseMessage skip src 4 1 (USER_CONTROL_RELEASED :: rest') s1 = Ok (n', s2) /\
    key_events s2 = key_events s ++
      (let code := switch k rc_keys 0 in if code =? 0 then [] else [(code, 1); (code, 0)]).
Proof.
  intros Ha. destruct (press_effect src 4 2 k rest s Ha) as [n E1].
  match type of E1 with _ = Ok (_, ?x) => set (s1 := x) in * end.
  destruct (release_effect src 4 1 rest' s1) as [n' E2]; [done|].
  eexists n, s1, n', _. split; [done|]. split; [done|]. unfold s1. clear.
  generalize (switch k rc_keys 0). intros code. simpl. rewrite <- app_assoc. by destruct (code =? 0).
Qed.

Lemma cec_key_pairing_witness :
  let _ := demo_build in
  exists s1 s2 n n',
    parseMessage skip 0 4 2 (USER_CONTROL_PRESSED :: USER_CONTROL_CODE_UP :: replicate 13 0) demo_active
      = Ok (n, s1) /\
    parseMessage skip 0 4 1 (USER_CONTROL_RELEASED :: replicate 14 0) s1 = Ok (n', s2) /\
    key_events s2 = [(KEY_UP, 1); (KEY_UP, 0)].
Proof.
  intros b. destruct (cec_key_pairing demo_active 0 USER_CONTROL_CODE_UP (replicate 13 0)
    (replicate 14 0) ltac:(done)) as (n&s1&n'&s2&H1&H2&H3).
  exists s1, s2, n, n'. split; [exact H1|]. split; [exact H2|exact H3].
Defined.

(** A full message of 14 characters and no NUL makes the interpreter read
    past the receive buffer: the text of SET_OSD_NAME is copied as a C string. *)
Theorem cec_osd_name_overrun {D : Type} `{CecHw D} `{CecBuild} (s : cec D) src dst name :
  length name = 14%nat -> 0 ∉ name ->
  parseMessage skip src dst 15 (SET_OSD_NAME :: name) s = Fault OutOfBounds.
Proof. intros _ Hn. apply parseMessage_overrun. by apply bool_decide_eq_true. Qed.

Lemma cec_osd_name_overrun_witness :
  let _ := demo_build in
  parseMessage skip 0 4 15 (SET_OSD_NAME :: replicate 14 65) demo_active = Fault OutOfBounds.
Proof.
  intros b. apply cec_osd_name_overrun; [reflexivity|].
  intros H. apply elem_of_replicate in H as [H _]. discriminate H.
Defined.
