(* ===== verification/CecWorker.v ===== *)
(** * HDMI CEC: interrupt handler, worker task, proc files and module entry
    points (cec_worker.c, cec_proc.c, cec_main.c) *)
From S2P Require Import Prelude CecState CecSend CecDev CecOpcodes.

(** ** cec_worker.c *)

(** One pass of the worker task's loop: it sleeps on the semaphore, ends, or
    starts the transmission that was queued. *)
Inductive task_state := Asleep | Running | Ended.

(** status & bit *)
Definition has (status bit : Z) : bool := truthy (status .& bit).

Section worker.
Context {D : Type} `{CecHw D} `{CecBuild}.
Variable delay : M (cec D) unit.

(** The start of cec_task up to its loop. *)
Definition cec_task_start : M (cec D) unit :=
  modify (fun s => s <| sendCommand := 0 |> <| notEndTask := 1 |>).

Definition cec_task : M (cec D) task_state :=
  c ← gets sendCommand;
  if c <=? 0 then mret Asleep
  else
    modify (fun s => s <| sendCommand := c - 1 |>);;
    n ← gets notEndTask;
    if n =? 0 then modify (fun s => s <| notEndTask := 1 |>);; mret Ended
    else
      d ← gets sendCommandWithDelay;
      modify (fun s => s <| sendCommandWithDelay := u8 (d - 1) |>);;
      when (truthy d) delay;;
      size ← gets sizeOfSendBuf;
      (if size =? 1 then cec_start_sending 1 else cec_start_sending 0);;
      mret Running.

(** startTask: the thread runs until it sleeps, so notEndTask is 1 again. *)
Definition startTask : M (cec D) unit :=
  modify (fun s => s <| notEndTask := 0 |>);; cec_task_start.

(** endTask: the semaphore lets the task see notEndTask and end. *)
Definition endTask : M (cec D) unit :=
  modify (fun s => s <| notEndTask := 0 |>);;
  modify (fun s => s <| sendCommand := sendCommand s + 1 |>);;
  cec_task;; skip.

Definition cec_worker_init : M (cec D) unit :=
  cec_set_own_address 0x0F;;
  cec_get_status;; cec_get_error;;
  sendPingWithAutoIncrement delay.
End worker.

Section irq.
Context {D : Type} `{CecHw D} `{CecBuild}.

(** if (retries > 0) sendMessageWithRetry(sizeOfSendBuf, sendBuf, retries - 1) *)
Definition retry_send : M (cec D) unit :=
  r ← gets retries;
  when (0 <? r) (resend skip (r - 1);; skip).

Definition irq_send_error (status error : Z) : M (cec D) unit :=
  (if has status CEC_STATUS_SEND_EOMSG then cec_acknowledge_eom else cec_acknowledge);;
  modify (fun s => s <| isSending := 0 |>);;
  kiss ← getIsFirstKiss;
  if kiss =? 1 then
    if has error CEC_ERROR_ACK then setIsFirstKiss skip 0
    else retry_send
  else retry_send.

Definition irq_receive (status : Z) : M (cec D) unit :=
  when (has status CEC_STATUS_RECV_SOMSG)
    (modify (fun s => s <| isReceiving := 1 |> <| indexOfRecvBuf := 0 |>
                        <| recvBuf := replicate 16 0 |>));;
  v ← cec_read_data;
  b ← gets recvBuf; i ← gets indexOfRecvBuf;
  b ← lift (aset b i (u8 v));
  modify (fun s => s <| recvBuf := b |>);;
  cec_acknowledge;;
  modify (fun s => s <| indexOfRecvBuf := i + 1 |>);;
  when (has status CEC_STATUS_RECV_EOMSG)
    (modify (fun s => s <| isReceiving := 0 |>);;
     n ← gets indexOfRecvBuf; parseRawMessage skip n recvBuf).

Definition irq_transmit (status : Z) : M (cec D) unit :=
  if has status CEC_STATUS_SEND_EOMSG then
    modify (fun s => s <| isSending := 0 |>);;
    cec_acknowledge;;
    n ← gets indexOfSendBuf; parseRawMessage skip n sendBuf
  else
    b ← gets sendBuf; i ← gets indexOfSendBuf;
    v ← lift (aget b i);
    cec_write_data v;;
    modify (fun s => s <| indexOfSendBuf := i + 1 |>);;
    n ← gets sizeOfSendBuf;
    if i + 1 =? n then cec_acknowledge_eom else cec_acknowledge.

Definition cec_interrupt : M (cec D) unit :=
  status ← cec_get_status;
  error ← cec_get_error;
  if has status CEC_STATUS_RECV_ERR then cec_acknowledge
  else if has status CEC_STATUS_SEND_ERR then irq_send_error status error
  else if has status CEC_STATUS_RECV_BTF then irq_receive status
  else if has status CEC_STATUS_SEND_BTF then irq_transmit status
  else skip.
End irq.

(** ** cec_proc.c *)

(** sscanf of a hexadecimal number of at most [width] digits: [None] when there
    is none. *)
Definition isspace (c : Z) : bool := (c =? 32) || ((9 <=? c) && (c <=? 13)).
Definition xdigit (c : Z) : option Z :=
  if (48 <=? c) && (c <=? 57) then Some (c - 48)
  else if (97 <=? c) && (c <=? 102) then Some (c - 87)
  else if (65 <=? c) && (c <=? 70) then Some (c - 55)
  else None.
Fixpoint xdigits (width : nat) (acc : Z) (s : list Z) : Z :=
  match width, s with
  | S w, c :: s => match xdigit c with Some d => xdigits w (acc * 16 + d) s | None => acc end
  | _, _ => acc
  end.
Fixpoint sscanf_x (width : nat) (s : list Z) : option Z :=
  match s with
  | c :: t => if isspace c then sscanf_x width t
              else match xdigit c with Some _ => Some (xdigits width 0 s) | None => None end
  | [] => None
  end.

(** "%01x" of one hexadecimal digit, and an address as "a.b.c.d\n" *)
Definition hexchar (d : Z) : Z := if d <? 10 then 48 + d else 87 + d.
Definition print_address (p : Z) : list Z :=
  [hexchar ((p ≫ 12) .& 0xf); 46; hexchar ((p ≫ 8) .& 0xf); 46;
   hexchar ((p ≫ 4) .& 0xf); 46; hexchar ((p ≫ 0) .& 0xf); 10].
(** "%1d" of a number below 100 *)
Definition print_small (n : Z) : list Z :=
  if n <? 10 then [48 + n] else [48 + n / 10; 48 + n mod 10].

(** The legend of the eight columns of event_poll. *)
Definition event_columns : list string :=
  ["||||||||-> Event 8"; "|||||||-> Event 7"; "||||||-> Event 6"; "|||||-> Event 5";
   "||||-> Event 4"; "|||-> Standby Requested"; "||-> Active Source"; "|-> Discovery"]%string.
Definition event_legend : list Z := concat (map (fun t => chars t ++ [10]) event_columns).

Section proc.
Context {D : Type} `{CecHw D} `{CecBuild}.
Variable delay : M (cec D) unit.

Definition PAGE_SIZE := 4096.

(** PW_INIT and PW_EXIT around [body]: [page] is false when no page could be
    had, [fault] when the copy from the user fails. *)
Definition proc_write (page fault : bool) (buf : list Z) (body : M (cec D) unit) : M (cec D) Z :=
  let count := Z.of_nat (length buf) in
  if page then
    if PAGE_SIZE <? count then faulty OutOfBounds
    else if fault then mret (- EFAULT) else body;; mret count
  else mret count.

(** for (i = 0; (i + 2) < pageLen; i += 3): the groups of three characters. *)
Fixpoint hex_groups (page : list Z) : M (cec D) unit :=
  match page with
  | c0 :: c1 :: _ :: rest =>
      n ← gets sizeOfInputBuffer;
      b ← gets inputBuffer;
      old ← lift (aget b n);
      modify (fun s => s <| sizeOfInputBuffer := n + 1 |>);;
      b ← lift (aset b n (match sscanf_x 2 [c0; c1] with Some v => u8 v | None => old end));
      modify (fun s => s <| inputBuffer := b |>);;
      hex_groups rest
  | _ => skip
  end.

Definition proc_cec_send_write (page fault : bool) (buf : list Z) : M (cec D) Z :=
  proc_write page fault buf (
    modify (fun s => s <| inputBuffer := replicate 255 0 |> <| sizeOfInputBuffer := 0 |>);;
    hex_groups buf;;
    n ← gets sizeOfInputBuffer; b ← gets inputBuffer;
    sendMessage delay n b).

Definition proc_cecaddress_read : M (cec D) (list Z) :=
  p ← getPhysicalAddress; mret (print_address p).

Definition proc_activesource_read : M (cec D) (list Z) :=
  p ← getActiveSource;
  modify (fun s => s <| eventActiveSource := 0 |>);;
  mret (print_address p).

Definition proc_standby_read : M (cec D) (list Z) :=
  modify (fun s => s <| eventStandby := 0 |>);; mret [10].

Definition proc_event_poll_read : M (cec D) (list Z) :=
  gets (fun s => print_small (eventDiscovery s) ++ print_small (eventActiveSource s) ++
                 print_small (eventStandby s) ++ chars "00000" ++ [10] ++ event_legend).

Definition proc_onetouchplay_write (page fault : bool) (buf : list Z) : M (cec D) Z :=
  proc_write page fault buf (sendOneTouchPlay delay).

Definition proc_systemstandby_write (page fault : bool) (buf : list Z) : M (cec D) Z :=
  proc_write page fault buf (
    let deviceId :=
      match buf with
      | c :: _ => if (48 <=? c) && (c <=? 102) then default DEVICE_TYPE_TV (sscanf_x 1 buf)
                  else DEVICE_TYPE_TV
      | [] => DEVICE_TYPE_TV
      end in
    sendSystemStandby delay deviceId).
End proc.

(** ** cec_main.c *)

Section main.
Context {D : Type} `{CecHw D} `{CecBuild}.
Variable delay : M (cec D) unit.

(** The interrupt line, the proc files and the input device are registered with
    the kernel; input_init only sets the key repeat there. *)
Definition cec_init : M (cec D) Z :=
  cec_internal_init;;
  startTask;;
  active ← gets activemode;
  (if truthy active then skip else init_dev;; skip);;
  cec_worker_init delay;;
  mret 0.

Definition cec_exit : M (cec D) unit :=
  endTask delay;; cec_internal_exit.
End main.

(** ** Interrupts as events *)

(** What the registers show when the interrupt is raised. *)
Record irq_event := Irq { ev_status : Z; ev_error : Z; ev_rx : Z }.

Definition show (e : irq_event) (d : tap) : tap :=
  Tap (<[CECBaseAddress + CEC_CONTROL := ev_status e]>
        (<[CECBaseAddress + CEC_STATUS_ERROR := ev_error e]>
          (<[CECBaseAddress + CEC_RX := ev_rx e]> (regs d)))) (address d) (log d).

Section events.
Context `{CecBuild}.
Implicit Types s : cec tap.

Definition interrupt (e : irq_event) : M (cec tap) unit :=
  modify (fun s => s <| hw := show e (hw s) |>);; cec_interrupt.

Fixpoint interrupts (es : list irq_event) : M (cec tap) unit :=
  match es with
  | [] => skip
  | e :: es => interrupt e;; interrupts es
  end.

(** The interrupts of a message of the bytes [m] arriving, [first] for the
    byte that starts it. *)
Fixpoint arriving (first : bool) (m : list Z) : list irq_event :=
  match m with
  | [] => []
  | b :: m =>
      Irq (CEC_STATUS_RECV_BTF .| (if first then CEC_STATUS_RECV_SOMSG else 0)
           .| (match m with [] => CEC_STATUS_RECV_EOMSG | _ => 0 end)) 0 b
      :: arriving false m
  end.

(** A write to the control register. *)
Definition ctl (v : Z) : Z * Z := (CECBaseAddress + CEC_CONTROL, v).
Definition txd (v : Z) : Z * Z := (CECBaseAddress + CEC_TX, v).

Definition logged s (l : list (Z * Z)) : cec tap :=
  s <| hw := Tap (regs (hw s)) (address (hw s)) (log (hw s) ++ l) |>.

Lemma show_status e d :
  default 0 (regs (show e d) !! (CECBaseAddress + CEC_CONTROL)) = ev_status e.
Proof. unfold show. simpl. by rewrite lookup_insert_eq. Qed.
Lemma show_error e d :
  default 0 (regs (show e d) !! (CECBaseAddress + CEC_STATUS_ERROR)) = ev_error e.
Proof. unfold show. simpl. by rewrite lookup_insert_ne, lookup_insert_eq by done. Qed.
Lemma show_rx e d : default 0 (regs (show e d) !! (CECBaseAddress + CEC_RX)) = ev_rx e.
Proof. unfold show. simpl. by rewrite !lookup_insert_ne, lookup_insert_eq by done. Qed.

(** The handler dispatches on the status byte of the event. *)
Lemma interrupt_dispatch e s :
  is_u8 (ev_status e) -> is_u8 (ev_error e) ->
  interrupt e s =
  (if has (ev_status e) CEC_STATUS_RECV_ERR then cec_acknowledge
   else if has (ev_status e) CEC_STATUS_SEND_ERR then irq_send_error (ev_status e) (ev_error e)
   else if has (ev_status e) CEC_STATUS_RECV_BTF then irq_receive (ev_status e)
   else if has (ev_status e) CEC_STATUS_SEND_BTF then irq_transmit (ev_status e)
   else skip) (s <| hw := show e (hw s) |>).
Proof.
  intros Hs He. unfold interrupt. erewrite M_bind_run by done. unfold cec_interrupt.
  assert (Hlow : forall v, is_u8 v -> u32 v .& 0xFF = v).
  { intros v Hv. unfold is_u8 in Hv. unfold u32. rewrite Z.mod_small by lia.
    change 0xFF with (Z.ones 8). rewrite Z.land_ones, Z.mod_small by lia. done. }
  erewrite M_bind_run.
  2: { unfold cec_get_status, cec_read_register_u32, mbind, M_bind. cbn [mmio_rd tap_hw cec_mmio tap_mmio].
       simpl hw. rewrite show_status, Hlow by done. reflexivity. }
  erewrite M_bind_run.
  2: { unfold cec_get_error, cec_read_register_u32, mbind, M_bind. cbn [mmio_rd tap_hw cec_mmio tap_mmio].
       simpl hw. rewrite show_error, Hlow by done. reflexivity. }
  reflexivity.
Qed.

(** *** Reception *)

(** The state after the byte [v] of a message has been stored and
    acknowledged. *)
Definition received s (v : Z) : cec tap :=
  logged (s <| recvBuf := <[Z.to_nat (indexOfRecvBuf s) := v]> (recvBuf s) |>
            <| indexOfRecvBuf := indexOfRecvBuf s + 1 |>) [ctl 0].

Definition restarted s : cec tap :=
  s <| isReceiving := 1 |> <| indexOfRecvBuf := 0 |> <| recvBuf := replicate 16 0 |>.

Lemma irq_receive_byte st v s :
  let s0 := if has st CEC_STATUS_RECV_SOMSG then restarted s else s in
  default 0 (regs (hw s) !! (CECBaseAddress + CEC_RX)) = v -> is_u8 v ->
  length (recvBuf s0) = 16%nat -> 0 <= indexOfRecvBuf s0 < 16 ->
  irq_receive st s =
  (if has st CEC_STATUS_RECV_EOMSG then
     fun s => parseRawMessage skip (indexOfRecvBuf s) recvBuf (s <| isReceiving := 0 |>)
   else skip) (received s0 v).
Proof.
  intros s0 Hv Hu8 Hl Hi. unfold irq_receive.
  rewrite (M_bind_run _ _ _ tt s0) by (unfold s0, when; by destruct (has st _)).
  erewrite M_bind_run.
  2: { unfold cec_read_data, cec_read_register_u32. cbn [mmio_rd tap_hw cec_mmio tap_mmio].
       assert (hw s0 = hw s) as -> by (unfold s0; by destruct (has st _)).
       rewrite Hv. reflexivity. }
  do 2 erewrite M_bind_run by done.
  assert (Hu : u8 (u32 v) = v).
  { unfold is_u8 in Hu8. unfold u8, u32. rewrite (Z.mod_small v (2 ^ 32)), Z.mod_small by lia. done. }
  rewrite Hu. erewrite M_bind_run.
  2: { apply lift_run, aset_in. simpl. lia. }
  do 3 erewrite M_bind_run by done. unfold when.
  destruct (has st CEC_STATUS_RECV_EOMSG); [|].
  - do 2 erewrite M_bind_run by done. unfold received, logged. f_equal.
    unfold s0. by destruct (has st _).
  - unfold received, logged, skip, mret, M_ret. do 2 f_equal. unfold s0. by destruct (has st _).
Qed.

(** Only the receive buffer and the device changed. *)
Definition rx_frame s s1 : Prop :=
  address (hw s1) = address (hw s) /\
  s1 = s <| hw := hw s1 |> <| recvBuf := recvBuf s1 |>
         <| indexOfRecvBuf := indexOfRecvBuf s1 |> <| isReceiving := isReceiving s1 |>.

Lemma rx_frame_trans s1 s2 s3 : rx_frame s1 s2 -> rx_frame s2 s3 -> rx_frame s1 s3.
Proof.
  intros [A1 F1] [A2 F2]. split; [congruence|]. rewrite F2 at 1. rewrite F1 at 1. done.
Qed.

(** [s1] is [s] after the last of the bytes [m] has been stored, [n] bytes
    having been acknowledged since [s]. *)
Definition complete s s1 (m : list Z) (n : nat) : Prop :=
  recvBuf s1 = m ++ replicate (16 - length m) 0 /\
  indexOfRecvBuf s1 = Z.of_nat (length m) /\ isReceiving s1 = 0 /\
  log (hw s1) = log (hw s) ++ replicate n (ctl 0) /\ rx_frame s s1.

Lemma insert_next (m : list Z) b :
  (length m < 16)%nat ->
  <[length m := b]> (m ++ replicate (16 - length m) 0)
  = (m ++ [b]) ++ replicate (16 - length (m ++ [b])) 0.
Proof.
  intros Hl. rewrite insert_app_r_alt by lia. rewrite Nat.sub_diag.
  replace (16 - length m)%nat with (S (16 - length (m ++ [b])))%nat
    by (rewrite length_app; simpl; lia).
  by rewrite <- app_assoc.
Qed.

Lemma receive_rest m : forall (first : bool) prefix s,
  m <> [] -> Forall is_u8 m -> (length prefix + length m <= 16)%nat ->
  (if first then prefix = []
   else recvBuf s = prefix ++ replicate (16 - length prefix) 0 /\
        indexOfRecvBuf s = Z.of_nat (length prefix)) ->
  exists s1, complete s s1 (prefix ++ m) (length m) /\
    interrupts (arriving first m) s =
    parseRawMessage skip (Z.of_nat (length (prefix ++ m))) recvBuf s1.
Proof.
  induction m as [|b m IH]; intros first prefix s Hne Hu8 Hl Hs; [done|].
  apply Forall_cons_1 in Hu8 as [Hb Hu8]. simpl in Hl.
  cbn [arriving interrupts]. set (st := _ .| _ .| _).
  set (e := Irq st 0 b).
  set (s' := s <| hw := show e (hw s) |>).
  set (s0 := if first then restarted s' else s').
  assert (Hs0 : recvBuf s0 = prefix ++ replicate (16 - length prefix) 0 /\
                indexOfRecvBuf s0 = Z.of_nat (length prefix)).
  { unfold s0. destruct first; [subst prefix; done|exact Hs]. }
  destruct Hs0 as [Hbuf Hidx].
  assert (Hst : is_u8 st /\ has st CEC_STATUS_RECV_ERR = false /\ has st CEC_STATUS_SEND_ERR = false
    /\ has st CEC_STATUS_RECV_BTF = true /\ has st CEC_STATUS_RECV_SOMSG = first
    /\ has st CEC_STATUS_RECV_EOMSG = match m with [] => true | _ => false end).
  { unfold st. destruct first, m; by vm_compute. }
  destruct Hst as (Hst8&E1&E2&E3&E4&E5).
  assert (Hstep : interrupt e s =
    (if match m with [] => true | _ => false end then
       fun s => parseRawMessage skip (indexOfRecvBuf s) recvBuf (s <| isReceiving := 0 |>)
     else skip) (received s0 b)).
  { rewrite interrupt_dispatch by done. cbn [ev_status ev_error e]. rewrite E1, E2, E3.
    rewrite (irq_receive_byte st b); [|apply show_rx|done|..].
    - rewrite E4, E5. unfold s0, s'. by destruct first.
    - rewrite E4. fold s'. fold s0. rewrite Hbuf, length_app, length_replicate. lia.
    - rewrite E4. fold s'. fold s0. lia. }
  assert (Hrecv : recvBuf (received s0 b) = (prefix ++ [b]) ++ replicate (16 - length (prefix ++ [b])) 0
    /\ indexOfRecvBuf (received s0 b) = Z.of_nat (length (prefix ++ [b]))).
  { unfold received, logged. simpl. rewrite Hbuf, Hidx, Nat2Z.id.
    rewrite insert_next by lia. split; [done|]. rewrite length_app. simpl. lia. }
  destruct Hrecv as [Hrb Hri].
  assert (Hfr : rx_frame s (received s0 b)).
  { unfold received, logged, s0, s'. by destruct first. }
  destruct m as [|b' m'].
  - cbn [arriving interrupts]. rewrite M_bind_skip, Hstep. rewrite Hri.
    eexists. split; [|reflexivity]. unfold complete.
    change (recvBuf (_ <| isReceiving := 0 |>)) with (recvBuf (received s0 b)).
    change (indexOfRecvBuf (_ <| isReceiving := 0 |>)) with (indexOfRecvBuf (received s0 b)).
    rewrite Hrb, Hri. split_and!; [done|done|done| |].
    + unfold received, logged, s0, s'. by destruct first.
    + eapply rx_frame_trans; [exact Hfr|]. done.
  - destruct (IH false (prefix ++ [b]) (received s0 b)) as (s1&(C1&C2&C3&C4&C5)&E);
      [done|done|rewrite length_app; simpl in *; lia|done|].
    assert (Happ : (prefix ++ [b]) ++ b' :: m' = prefix ++ b :: b' :: m') by by rewrite <- app_assoc.
    rewrite Happ in C1, C2, E. exists s1. split.
    + split_and!; [done|done|done| |by eapply rx_frame_trans].
      rewrite C4. unfold received, logged, s0, s'. destruct first; simpl; by rewrite <- app_assoc.
    + rewrite <- E. erewrite M_bind_run; [done|]. rewrite Hstep. done.
Qed.

(** The frame of a message in the ring: address, length, data. *)
Definition ring_frame (m : list Z) : list Z :=
  match m with [] => [] | a :: d => a :: Z.of_nat (length d) :: d end.

(** The answer to GIVE_PHYSICAL_ADDRESS is queued if the transmitter is idle. *)
Definition reported s : cec tap :=
  let p := stmhdmiio_get_cec_address (hw s) .& 0xffff in
  if isSending s =? 0
  then queued s 5 (responseBuffer [header_to s BROADCAST; REPORT_PHYSICAL_ADDRESS; addr_hi p; addr_lo p; deviceType s])
         DEFAULT_RETRY_COUNT
  else s.

Lemma report_run s : length (sendBuf s) = 16%nat -> sendReportPhysicalAddress skip s = Ok (tt, reported s).
Proof.
  intros Hs. unfold sendReportPhysicalAddress, getPhysicalAddress, getDeviceType, respond, header, getLogicalDeviceType.
  do 2 erewrite M_bind_run by done. erewrite M_bind_run by (by erewrite M_bind_run by done).
  by rewrite sendMessage_irq by done.
Qed.

(** What a parsed message does to the transmitter in passive mode. *)
Lemma parseMessage_transmitter src dst len op l s nm s' :
  activemode s = 0 -> length (sendBuf s) = 16%nat ->
  parseMessage skip src dst len (op :: l) s = Ok (nm, s') ->
  tx s' = tx (if op =? GIVE_PHYSICAL_ADDRESS then reported s else s).
Proof.
  intros Ha Hs E. destruct (Z.eqb_spec op GIVE_PHYSICAL_ADDRESS) as [->|Hop].
  - revert E. unfold_message. erewrite M_bind_run by (apply lift_run; by apply aget_Ok). switch_to.
    erewrite M_bind_run by (by apply lift_run). rewrite (M_bind_run _ _ _ _ _ (report_run s Hs)). by intros [= _ <-].
  - apply parseMessage_passive in E as [_ Htx]; [by apply Htx|].
    rewrite (proj2 (aget_Ok (op :: l) 0 op)) by done. congruence.
Qed.

(** A parsed message in passive mode ends up in the ring. *)
Lemma parseRawMessage_passive m s op :
  activemode s = 0 -> length (sendBuf s) = 16%nat -> ring_ok s ->
  (2 <= length m <= 16)%nat -> m !! 1%nat = Some op ->
  recvBuf s = m ++ replicate (16 - length m) 0 ->
  ring_room s (Z.of_nat (length m) + 1) ->
  if unterminated (tail (recvBuf s)) then parseRawMessage skip (Z.of_nat (length m)) recvBuf s = Fault OutOfBounds
  else exists s', parseRawMessage skip (Z.of_nat (length m)) recvBuf s = Ok (tt, s') /\
    ring_ok s' /\ ring_contents s' = ring_contents s ++ ring_frame m /\
    tx s' = tx (if op =? GIVE_PHYSICAL_ADDRESS then reported s else s).
Proof.
  intros Ha Hsb Hring Hm Hop Hrb Hroom.
  destruct m as [|a [|op' d]]; [simpl in Hm; lia..|]. injection Hop as ->.
  assert (Hl : length (tail (recvBuf s)) = 15%nat).
  { rewrite Hrb. simpl. rewrite length_app, length_replicate. simpl in Hm. lia. }
  unfold parseRawMessage. erewrite M_bind_run by done.
  erewrite M_bind_run by (apply lift_run; rewrite Hrb; by apply aget_Ok).
  assert (Hdl : u8 (Z.of_nat (length (a :: op :: d)) - 1) = Z.of_nat (length (op :: d))).
  { unfold u8. simpl in Hm |- *. rewrite Z.mod_small; lia. }
  rewrite Hdl. unfold CEC_MAX_DATA_LEN.
  destruct (Z.ltb_spec 15 (Z.of_nat (length (op :: d)))); [simpl in *; lia|].
  destruct (Z.ltb_spec 0 (Z.of_nat (length (op :: d)))); [|simpl in *; lia].
  destruct (unterminated (tail (recvBuf s))) eqn:Htext; [by apply M_bind_fault, parseMessage_overrun|].
  destruct (parseMessage_answers (a ≫ 4) (a .& 0x0F) (Z.of_nat (length (op :: d)))
    (tail (recvBuf s)) Hl Htext s Hsb) as (nm&s1&E&_).
  erewrite M_bind_run by exact E.
  apply parseMessage_rx in E as Hrx. unfold same_rx, rx_part in Hrx.
  injection Hrx as R1 R2 R3 R4 R5.
  assert (Htx : tx s1 = tx (if op =? GIVE_PHYSICAL_ADDRESS then reported s else s)).
  { rewrite Hrb in E. exact (parseMessage_transmitter _ _ _ op _ s nm s1 Ha Hsb E). }
  clear E. erewrite M_bind_run by done. rewrite R2, Ha. cbn [truthy Z.eqb negb when].
  erewrite M_bind_run by done. unfold AddMessageToBuffer. rewrite R1, Hrb.
  erewrite M_bind_run by (apply lift_run; by apply aget_Ok). rewrite Hdl.
  set (rest := replicate (16 - length (a :: op :: d)) 0).
  erewrite M_bind_run.
  2: { apply lift_run, aslice_Ok. split_and!; [lia|lia| |reflexivity].
       rewrite length_app. simpl. lia. }
  assert (Hd : take (Z.to_nat (Z.of_nat (length (op :: d)))) (drop (Z.to_nat 1) ((a :: op :: d) ++ rest))
    = op :: d).
  { rewrite Nat2Z.id. change (drop (Z.to_nat 1) ((a :: op :: d) ++ rest)) with ((op :: d) ++ rest).
    by rewrite take_app_length. }
  rewrite Hd.
  destruct (AddMessageBuffer_spec s1 (CECMessage a (Z.of_nat (length (op :: d))) (op :: d)))
    as (s'&EA&Hok&Hc&Hfr).
  - unfold ring_ok in *. by rewrite R3, R4, R5.
  - done.
  - unfold ring_room in *. rewrite R4, R5. cbn [msg_length].
    replace (Z.of_nat (length (op :: d)) + 2) with (Z.of_nat (length (a :: op :: d)) + 1)
      by (simpl; lia). done.
  - exists s'. split; [done|]. split; [done|]. split.
    + rewrite Hc. unfold ring_contents. rewrite R3, R4, R5. done.
    + transitivity (tx s1); [by rewrite Hfr|done].
Qed.

(** *** Transmission *)

(** The interrupts of a transmission of [n] further bytes, and of its end. *)
Definition byte_done : irq_event := Irq CEC_STATUS_SEND_BTF 0 0.
Definition message_done : irq_event := Irq (CEC_STATUS_SEND_BTF .| CEC_STATUS_SEND_EOMSG) 0 0.

(** What is written for the bytes after the first: each byte, acknowledged
    with the end-of-message mark on the last one. *)
Fixpoint wire (rest : list Z) : list (Z * Z) :=
  match rest with
  | [] => []
  | b :: rest => txd b :: ctl (match rest with [] => 2 | _ => 0 end) :: wire rest
  end.

(** Only the device and the position in the send buffer changed. *)
Definition tx_frame s s1 : Prop :=
  address (hw s1) = address (hw s) /\
  s1 = s <| hw := hw s1 |> <| indexOfSendBuf := indexOfSendBuf s1 |>.

Lemma u32_byte b : is_u8 b -> u32 b = b.
Proof. unfold is_u8, u32. intros. rewrite Z.mod_small; lia. Qed.

Lemma transmit_byte s b :
  sendBuf s !! Z.to_nat (indexOfSendBuf s) = Some b -> 0 <= indexOfSendBuf s -> is_u8 b ->
  exists s1, interrupt byte_done s = Ok (tt, s1) /\ tx_frame s s1 /\
    indexOfSendBuf s1 = indexOfSendBuf s + 1 /\
    log (hw s1) = log (hw s) ++
      [txd b; ctl (if indexOfSendBuf s + 1 =? sizeOfSendBuf s then 2 else 0)].
Proof.
  intros Hb Hi Hu. rewrite interrupt_dispatch by done. cbn [ev_status ev_error byte_done].
  change (has CEC_STATUS_SEND_BTF CEC_STATUS_RECV_ERR) with false.
  change (has CEC_STATUS_SEND_BTF CEC_STATUS_SEND_ERR) with false.
  change (has CEC_STATUS_SEND_BTF CEC_STATUS_RECV_BTF) with false.
  change (has CEC_STATUS_SEND_BTF CEC_STATUS_SEND_BTF) with true. cbv iota.
  unfold irq_transmit. change (has CEC_STATUS_SEND_BTF CEC_STATUS_SEND_EOMSG) with false. cbv iota.
  do 2 erewrite M_bind_run by done.
  erewrite M_bind_run by (apply lift_run; by apply aget_Ok).
  do 3 erewrite M_bind_run by done. simpl (sizeOfSendBuf _). rewrite u32_byte by done.
  change (indexOfSendBuf (s <| hw := show byte_done (hw s) |>)) with (indexOfSendBuf s).
  destruct (indexOfSendBuf s + 1 =? sizeOfSendBuf s);
    (eexists; split; [reflexivity|]; split; [done|]; split; [done|]; simpl; by rewrite <- app_assoc).
Qed.

Lemma transmit_rest rest : forall pre junk s,
  sendBuf s = pre ++ rest ++ junk -> indexOfSendBuf s = Z.of_nat (length pre) ->
  sizeOfSendBuf s = Z.of_nat (length (pre ++ rest)) -> Forall is_u8 rest ->
  exists s1, interrupts (replicate (length rest) byte_done) s = Ok (tt, s1) /\ tx_frame s s1 /\
    indexOfSendBuf s1 = sizeOfSendBuf s /\ log (hw s1) = log (hw s) ++ wire rest.
Proof.
  induction rest as [|b rest IH]; intros pre junk s Hbuf Hidx Hsz Hu.
  - exists s. rewrite app_nil_r in *. cbn [interrupts replicate length wire].
    split; [done|]. split; [split; [done|by destruct s]|]. split; [lia|done].
  - apply Forall_cons_1 in Hu as [Hb Hu].
    destruct (transmit_byte s b) as (s1&E&Hf&Hi1&Hlog); [|lia|done|].
    { rewrite Hbuf, Hidx, Nat2Z.id. simpl app. by apply list_lookup_middle. }
    destruct Hf as [A1 F1].
    destruct (IH (pre ++ [b]) junk s1) as (s2&E2&[A2 F2]&Hi2&Hlog2); [| | |done|].
    + rewrite F1. simpl. rewrite Hbuf. by rewrite <- app_assoc.
    + rewrite Hi1, Hidx, length_app. simpl. lia.
    + rewrite F1. simpl. rewrite Hsz, <- app_assoc. done.
    + exists s2. cbn [length replicate interrupts]. erewrite M_bind_run by done. split; [done|].
      split; [split; [congruence|rewrite F2 at 1; rewrite F1 at 1; done]|].
      split; [rewrite Hi2, F1; done|]. rewrite Hlog2, Hlog, <- app_assoc. cbn [wire app].
      do 3 f_equal. rewrite Hidx, Hsz, length_app.
      destruct rest; [rewrite (proj2 (Z.eqb_eq _ _)) by (simpl; lia)
                     |rewrite (proj2 (Z.eqb_neq _ _)) by (simpl; lia)]; done.
Qed.

Lemma interrupts_app es1 es2 s : interrupts (es1 ++ es2) s = (interrupts es1;; interrupts es2) s.
Proof.
  revert s. induction es1 as [|e es1 IH]; intros s; [done|]. cbn [interrupts app].
  unfold mbind, M_bind. destruct (interrupt e s) as [[[] s']|]; [|done]. apply IH.
Qed.

Lemma transmit_end s :
  exists s1, interrupt message_done s = parseRawMessage skip (indexOfSendBuf s) sendBuf s1 /\
    s1 = s <| hw := hw s1 |> <| isSending := 0 |> /\
    address (hw s1) = address (hw s) /\ log (hw s1) = log (hw s) ++ [ctl 0].
Proof.
  rewrite interrupt_dispatch by done. cbn [ev_status ev_error message_done].
  set (st := CEC_STATUS_SEND_BTF .| CEC_STATUS_SEND_EOMSG).
  change (has st CEC_STATUS_RECV_ERR) with false. change (has st CEC_STATUS_SEND_ERR) with false.
  change (has st CEC_STATUS_RECV_BTF) with false. change (has st CEC_STATUS_SEND_BTF) with true.
  cbv iota. unfold irq_transmit. change (has st CEC_STATUS_SEND_EOMSG) with true. cbv iota.
  do 3 erewrite M_bind_run by done. eexists. split; [reflexivity|]. done.
Qed.

(** The worker task starts the transmission that has been queued. *)
Lemma cec_task_start_sending s :
  sendCommand s = 1 -> notEndTask s = 1 ->
  exists s1, cec_task skip s = Ok (Running, s1) /\
    s1 = s <| sendCommand := 0 |> <| sendCommandWithDelay := u8 (sendCommandWithDelay s - 1) |>
           <| hw := hw s1 |> /\ address (hw s1) = address (hw s) /\
    log (hw s1) = log (hw s) ++ [ctl (if sizeOfSendBuf s =? 1 then 3 else 1)].
Proof.
  intros Hc Hn. unfold cec_task. erewrite M_bind_run by done. rewrite Hc. cbn [Z.leb Z.compare].
  do 2 erewrite M_bind_run by done. simpl (notEndTask _). rewrite Hn. cbn [Z.eqb].
  do 2 erewrite M_bind_run by done.
  rewrite (M_bind_run _ _ _ tt (s <| sendCommand := 0 |>
    <| sendCommandWithDelay := u8 (sendCommandWithDelay s - 1) |>));
    [|unfold when; by case_match].
  erewrite M_bind_run by done. simpl (sizeOfSendBuf _).
  destruct (sizeOfSendBuf s =? 1); (eexists; split; [reflexivity|]; done).
Qed.

Lemma transmission len buf s :
  isSending s = 0 -> sendCommand s = 0 -> notEndTask s = 1 -> length (sendBuf s) = 16%nat ->
  is_u8 (logicalDeviceType s) -> Forall is_u8 buf -> Z.of_nat (length buf) = len -> 1 <= len <= 16 ->
  let h := header_to s (default 0 (head buf)) in
  exists s1,
    (sendMessage skip len buf;; cec_task skip;;
     interrupts (replicate (pred (length buf)) byte_done ++ [message_done])) s
    = parseRawMessage skip len sendBuf s1 /\
    isSending s1 = 0 /\ sendBuf s1 = (h :: tail buf) ++ drop (length buf) (sendBuf s) /\
    log (hw s1) = log (hw s) ++ [(CECBaseAddress + CEC_ADDRESS, logicalDeviceType s); txd h;
      ctl (if len =? 1 then 3 else 1)] ++ wire (tail buf) ++ [ctl 0].
Proof.
  intros Hs Hc Hn Hl Hldt Hu Hlen Hr h.
  destruct buf as [|b0 rest]; [simpl in Hlen; lia|].
  apply Forall_cons_1 in Hu as [Hb0 Hu]. simpl in Hlen.
  set (s0 := queued s len (b0 :: rest) DEFAULT_RETRY_COUNT).
  erewrite M_bind_run; [|rewrite sendMessage_irq, Hs; [reflexivity|done|lia|simpl; lia]].
  cbn [Z.eqb]. fold s0.
  destruct (cec_task_start_sending s0) as (s1&E1&F1&A1&L1); [simpl; lia|done|].
  erewrite M_bind_run by done.
  assert (Hbuf : sendBuf s1 = [h] ++ rest ++ drop (length (b0 :: rest)) (sendBuf s)).
  { rewrite F1. unfold s0, queued. simpl. replace (Z.to_nat len) with (S (length rest)) by lia.
    simpl. by rewrite firstn_all. }
  destruct (transmit_rest rest [h] (drop (length (b0 :: rest)) (sendBuf s)) s1)
    as (s2&E2&[A2 F2]&I2&L2); [done|by rewrite F1| |done|].
  { rewrite F1. simpl. lia. }
  rewrite interrupts_app. cbn [length Nat.pred]. erewrite M_bind_run by done.
  cbn [interrupts]. rewrite M_bind_skip.
  destruct (transmit_end s2) as (s3&E3&F3&A3&L3). exists s3. rewrite E3, I2.
  split; [by rewrite F1|]. split; [by rewrite F3|]. split.
  - rewrite F3. simpl. rewrite F2. simpl. by rewrite Hbuf.
  - rewrite L3, L2, L1. unfold s0, queued. simpl.
    assert (Hu2 : u32 (logicalDeviceType s) = logicalDeviceType s) by (by apply u32_byte).
    rewrite Hu2, u32_byte by auto with drv. rewrite <- !app_assoc. done.
Qed.

(** *** Retransmission *)

(** An interrupt that reports a transmission error. *)
Definition send_failed (e : irq_event) : Prop :=
  is_u8 (ev_status e) /\ is_u8 (ev_error e) /\
  has (ev_status e) CEC_STATUS_RECV_ERR = false /\ has (ev_status e) CEC_STATUS_SEND_ERR = true.

(** The bytes put in the transmit register. *)
Definition txs (l : list (Z * Z)) : list Z :=
  omap (fun '(a, v) => if a =? CECBaseAddress + CEC_TX then Some v else None) l.

Lemma txs_app l1 l2 : txs (l1 ++ l2) = txs l1 ++ txs l2.
Proof. apply omap_app. Qed.

(** The send buffer holds a message of this box: its header names it. *)
Definition own_message s (h : Z) : Prop :=
  length (sendBuf s) = 16%nat /\ 1 <= sizeOfSendBuf s <= 16 /\ is_u8 (logicalDeviceType s) /\
  exists rest, sendBuf s = h :: rest /\ h = header_to s h.

Lemma header_again s x : header_to s (header_to s x) = header_to s x.
Proof.
  unfold header_to, u8. do 2 f_equal. rewrite Z.shiftl_mul_pow2 by lia.
  change 0xF with (Z.ones 4). rewrite !Z.land_ones by lia.
  rewrite <- Z.land_ones, <- (Z.land_ones _ 8), <- Z.land_assoc by lia.
  change (Z.land (Z.ones 8) (Z.ones 4)) with (Z.ones 4). rewrite Z.land_ones by lia.
  change (2 ^ 4) with 16. rewrite Z.add_comm, Z.mod_add by lia. by rewrite Z.mod_mod.
Qed.

Lemma resend_own s h r :
  own_message s h -> isSending s = 0 ->
  exists s1, resend skip r s = Ok (0, s1) /\ isSending s1 = 1 /\ retries s1 = u8 r /\
    sendBuf s1 = sendBuf s /\ own_message s1 h /\ isFirstKiss s1 = isFirstKiss s /\
    log (hw s1) = log (hw s) ++ [(CECBaseAddress + CEC_ADDRESS, logicalDeviceType s); txd h].
Proof.
  intros (Hl&Hsz&Hldt&rest&Hb&Hh) Hs. rewrite resend_idle by done. eexists. split; [done|].
  assert (Hh' : u8 ((logicalDeviceType s ≪ 4) + (h .& 0x0F)) = h) by (symmetry; exact Hh).
  assert (Hbuf : sendBuf (queued s (sizeOfSendBuf s) (sendBuf s) r) = sendBuf s).
  { unfold queued. simpl. rewrite Hb. cbn [hd_error tail default from_option id]. rewrite Hh'.
    by rewrite firstn_skipn. }
  split; [done|]. split; [done|]. split; [done|]. split; [|split; [done|]].
  - split; [by rewrite Hbuf|]. split; [done|]. split; [done|]. exists rest. by rewrite Hbuf.
  - assert (is_u8 h) by (rewrite Hh; apply is_u8_u8).
    unfold queued. simpl. rewrite Hb. cbn [hd_error default from_option id].
    rewrite Hh', !u32_byte by done. by rewrite <- app_assoc.
Qed.

Lemma send_error_step e s h :
  send_failed e -> own_message s h -> isFirstKiss s <> 1 -> 0 <= retries s < 2 ^ 8 ->
  exists s1 l, interrupt e s = Ok (tt, s1) /\ sendBuf s1 = sendBuf s /\ own_message s1 h /\
    isFirstKiss s1 = isFirstKiss s /\ log (hw s1) = log (hw s) ++ l /\
    if 0 <? retries s
    then isSending s1 = 1 /\ retries s1 = retries s - 1 /\ txs l = [h]
    else isSending s1 = 0 /\ retries s1 = retries s /\ txs l = [].
Proof.
  intros (H1&H2&H3&H4) Hown Hk Hr. rewrite interrupt_dispatch, H3, H4 by done.
  unfold irq_send_error.
  assert (exists v, (if has (ev_status e) CEC_STATUS_SEND_EOMSG then cec_acknowledge_eom
    else cec_acknowledge) (s <| hw := show e (hw s) |>)
    = Ok (tt, logged (s <| hw := show e (hw s) |>) [ctl v])) as [v Hv].
  { destruct (has (ev_status e) CEC_STATUS_SEND_EOMSG); [exists 2|exists 0]; reflexivity. }
  rewrite (M_bind_run _ _ _ _ _ Hv). do 2 erewrite M_bind_run by done.
  simpl (isFirstKiss _). rewrite (proj2 (Z.eqb_neq _ _) Hk).
  unfold retry_send. erewrite M_bind_run by done. simpl (retries _). unfold when.
  match goal with |- context [resend _ _;; _] => idtac end.
  set (s0 := set isSending 0 _).
  destruct (Z.ltb_spec 0 (retries s)).
  - destruct (resend_own s0 h (retries s - 1)) as (s1&E&?&Hret&?&?&?&Hlog); [done|done|].
    erewrite M_bind_run by done. exists s1. eexists.
    split; [done|]. split; [done|]. split; [done|]. split; [done|].
    split; [rewrite Hlog; simpl; rewrite <- app_assoc; reflexivity|].
    split; [done|]. split; [|done]. rewrite Hret. unfold u8. rewrite Z.mod_small; lia.
  - eexists s0, [ctl v]. done.
Qed.

Lemma send_errors es : forall s h,
  Forall send_failed es -> own_message s h -> isFirstKiss s <> 1 -> 0 <= retries s < 2 ^ 8 ->
  exists s1 l, interrupts es s = Ok (tt, s1) /\ sendBuf s1 = sendBuf s /\
    log (hw s1) = log (hw s) ++ l /\
    txs l = replicate (min (length es) (Z.to_nat (retries s))) h /\
    isSending s1 = match es with
                   | [] => isSending s
                   | _ => if Z.of_nat (length es) <=? retries s then 1 else 0
                   end.
Proof.
  induction es as [|e es IH]; intros s h Hes Hown Hk Hr.
  { exists s, []. by rewrite app_nil_r. }
  apply Forall_cons_1 in Hes as [He Hes].
  destruct (send_error_step e s h) as (s1&l1&E1&B1&O1&K1&L1&Hcase); [done..|].
  cbn [interrupts]. erewrite M_bind_run by done.
  destruct (IH s1 h) as (s2&l2&E2&B2&L2&T2&S2); [done|done|congruence| |].
  { destruct (Z.ltb_spec 0 (retries s)); lia. }
  exists s2, (l1 ++ l2). split; [done|]. split; [congruence|].
  split; [by rewrite L2, L1, app_assoc|]. rewrite txs_app, T2, S2. cbn [length].
  destruct (Z.ltb_spec 0 (retries s)); destruct Hcase as (Hs1&Hr1&Hl1); rewrite Hl1, Hr1.
  - replace (Z.to_nat (retries s)) with (S (Z.to_nat (retries s - 1))) by lia. split; [done|].
    rewrite Hs1. destruct es as [|e' es']; cbn [length] in *.
    + destruct (Z.leb_spec (Z.of_nat 1) (retries s)); [done|lia].
    + destruct (Z.leb_spec (Z.of_nat (S (length es'))) (retries s - 1)),
        (Z.leb_spec (Z.of_nat (S (S (length es')))) (retries s)); done || lia.
  - replace (Z.to_nat (retries s)) with 0%nat by lia. rewrite !Nat.min_0_r. split; [done|].
    rewrite Hs1. destruct es as [|e' es']; cbn [length] in *.
    + destruct (Z.leb_spec (Z.of_nat 1) (retries s)); [lia|done].
    + destruct (Z.leb_spec (Z.of_nat (S (length es'))) (retries s)),
        (Z.leb_spec (Z.of_nat (S (S (length es')))) (retries s)); done || lia.
Qed.
End events.

(** ** Hexadecimal text written to /proc/stb/cec/send *)

Section hex.
Context {D : Type} `{CecHw D} `{CecBuild}.
Implicit Types s : cec D.

(** Each byte as two digits and a separator. *)
Definition hex_text (m : list Z) : list Z :=
  concat (map (fun b => [hexchar (b / 16); hexchar (b mod 16); 32]) m).

Lemma sscanf_hex b : is_u8 b -> sscanf_x 2 [hexchar (b / 16); hexchar (b mod 16)] = Some b.
Proof. intros Hb. by_bytes b Hb. Qed.

Lemma insert_zeros (pre : list Z) b n :
  (length pre < n)%nat ->
  <[length pre := b]> (pre ++ replicate (n - length pre) 0)
  = (pre ++ [b]) ++ replicate (n - length (pre ++ [b])) 0.
Proof.
  intros Hl. rewrite insert_app_r_alt by lia. rewrite Nat.sub_diag.
  replace (n - length pre)%nat with (S (n - length (pre ++ [b])))%nat
    by (rewrite length_app; simpl; lia).
  by rewrite <- app_assoc.
Qed.

Lemma hex_groups_spec m : forall pre s,
  Forall is_u8 m -> (length pre + length m <= 255)%nat ->
  inputBuffer s = pre ++ replicate (255 - length pre) 0 ->
  sizeOfInputBuffer s = Z.of_nat (length pre) ->
  hex_groups (hex_text m) s =
  Ok (tt, s <| inputBuffer := (pre ++ m) ++ replicate (255 - length (pre ++ m)) 0 |>
            <| sizeOfInputBuffer := Z.of_nat (length (pre ++ m)) |>).
Proof.
  induction m as [|b m IH]; intros pre s Hu Hl Hb Hn.
  { rewrite app_nil_r, <- Hb, <- Hn. cbn. by destruct s. }
  apply Forall_cons_1 in Hu as [Hb8 Hu]. simpl in Hl.
  change (hex_text (b :: m)) with
    (hexchar (b / 16) :: hexchar (b mod 16) :: 32 :: hex_text m). cbn [hex_groups].
  do 2 erewrite M_bind_run by done. rewrite Hn, Hb.
  assert (Hlen : Z.of_nat (length (pre ++ replicate (255 - length pre) 0)) = 255)
    by (rewrite length_app, length_replicate; lia).
  destruct (aget_in (pre ++ replicate (255 - length pre) 0) (Z.of_nat (length pre))) as [old Hold];
    [lia|].
  erewrite M_bind_run by (by apply lift_run). erewrite M_bind_run by done.
  rewrite sscanf_hex by done.
  erewrite M_bind_run by (apply lift_run, aset_in; lia). erewrite M_bind_run by done.
  rewrite Nat2Z.id, insert_zeros by lia.
  assert (Hub : u8 b = b) by (unfold u8, is_u8 in *; rewrite Z.mod_small; lia). rewrite Hub.
  rewrite (IH (pre ++ [b])); [|done|rewrite length_app; simpl; lia|done|].
  - rewrite <- (app_assoc pre [b] m). by destruct s.
  - simpl. rewrite length_app. simpl. lia.
Qed.

Lemma hex_text_length m : Z.of_nat (length (hex_text m)) = 3 * Z.of_nat (length m).
Proof. unfold hex_text. induction m as [|b m IH]; [done|]. simpl in *. lia. Qed.

Lemma proc_send_hex delay m s :
  isSending s = 0 -> length (sendBuf s) = 16%nat -> Forall is_u8 m -> (1 <= length m <= 16)%nat ->
  exists s', proc_cec_send_write delay true false (hex_text m) s = Ok (3 * Z.of_nat (length m), s') /\
    tx s' = tx (queued s (Z.of_nat (length m)) m DEFAULT_RETRY_COUNT).
Proof.
  intros Hs Hl Hu Hm. unfold proc_cec_send_write, proc_write. rewrite hex_text_length.
  unfold PAGE_SIZE. destruct (Z.ltb_spec 4096 (3 * Z.of_nat (length m))); [lia|].
  eexists. erewrite M_bind_run; last first.
  { erewrite M_bind_run by done.
    erewrite M_bind_run by (apply (hex_groups_spec m []); [done|simpl; lia|done|done]).
    do 2 erewrite M_bind_run by done. unfold sendMessage. simpl (inputBuffer _).
    erewrite M_bind_run; [reflexivity|].
    apply sendMessageWithRetry_idle; [done|done|simpl; lia|].
    simpl. rewrite length_app. lia. }
  split; [done|]. destruct m as [|b m]; [simpl in Hm; lia|]. 
  assert (Ht : forall x z, take (Z.to_nat (Z.of_nat (length (b :: m)))) (x :: m ++ z)
    = take (Z.to_nat (Z.of_nat (length (b :: m)))) (x :: m)).
  { intros x z. rewrite Nat2Z.id. simpl. by rewrite take_app_length, firstn_all. }
  unfold queued, tx. cbn -[Z.to_nat Z.of_nat take drop length Z.land Z.shiftl].
  by rewrite Ht.
Qed.
End hex.

(** ** Claiming a logical address *)

Section claim.
Context `{CecBuild}.

(** The addresses of each type of device, in the order they are tried. *)
Definition candidates (t : Z) : list Z :=
  if t =? DEVICE_TYPE_REC then [DEVICE_TYPE_REC1; DEVICE_TYPE_REC2]
  else if t =? DEVICE_TYPE_STB then [DEVICE_TYPE_STB1; DEVICE_TYPE_STB2; DEVICE_TYPE_STB3]
  else if t =? DEVICE_TYPE_DVD then [DEVICE_TYPE_DVD1; DEVICE_TYPE_DVD2; DEVICE_TYPE_DVD3]
  else [].

(** The start of the driver on a bus where [k] pings in turn are acknowledged
    by another device. *)
Fixpoint claims (k : nat) : M (cec tap) unit :=
  match k with
  | O => cec_init skip;; cec_task skip;; skip
  | S k => claims k;; interrupt message_done;; cec_task skip;; skip
  end.

(** Nobody answers the ping. *)
Definition unclaimed : irq_event := Irq CEC_STATUS_SEND_ERR CEC_ERROR_ACK 0.
End claim.

(** ** Properties *)

(** C34. Reassembly: the interrupts of a message of 1 to 16 bytes arriving byte
    by byte leave exactly its bytes, zero padded, in the receive buffer, each
    acknowledged once, and hand the message to the interpreter once, after the
    last byte; nothing else of the driver changed meanwhile. *)
Theorem cec_reassembly `{CecBuild} (s : cec tap) m :
  (1 <= length m <= 16)%nat -> Forall is_u8 m ->
  exists s1, interrupts (arriving true m) s = parseRawMessage skip (Z.of_nat (length m)) recvBuf s1 /\
    recvBuf s1 = m ++ replicate (16 - length m) 0 /\
    log (hw s1) = log (hw s) ++ replicate (length m) (ctl 0) /\
    s1 = s <| hw := hw s1 |> <| recvBuf := recvBuf s1 |>
           <| indexOfRecvBuf := Z.of_nat (length m) |> <| isReceiving := 0 |>.
Proof.
  intros Hl Hu. destruct (receive_rest m true [] s) as (s1&(C1&C2&C3&C4&[C5 C6])&E);
    [by destruct m; simpl in *; [lia|]|done|simpl; lia|done|].
  exists s1. rewrite C2, C3 in C6. done.
Qed.

Lemma cec_reassembly_witness :
  let _ := demo_build in
  exists s1, interrupts (arriving true [0x04; GIVE_OSD_NAME]) demo_active =
    parseRawMessage skip 2 recvBuf s1 /\ log (hw s1) = [ctl 0; ctl 0].
Proof.
  intros b. destruct (cec_reassembly demo_active [0x04; GIVE_OSD_NAME]) as (s1&E&_&L&_);
    [simpl; lia|by repeat constructor|]. exists s1. split; [exact E|exact L].
Defined.

(** C3. End to end in passive mode: a message of 2 to 16 bytes arriving byte by
    byte, for which the ring has room, becomes one frame (address, length, data)
    at the end of the bytes the device file will deliver. The bus sees each byte
    acknowledged and nothing else, unless the message is GIVE_PHYSICAL_ADDRESS
    and the transmitter is idle: then the box's address and the header of the
    answer follow. A text without a NUL is copied past the buffer and nothing
    arrives. *)
Theorem cec_receive_delivers `{CecBuild} (s : cec tap) m op :
  activemode s = 0 -> length (sendBuf s) = 16%nat -> ring_ok s ->
  (2 <= length m <= 16)%nat -> m !! 1%nat = Some op -> Forall is_u8 m ->
  ring_room s (Z.of_nat (length m) + 1) ->
  if unterminated (tail (m ++ replicate (16 - length m) 0))
  then interrupts (arriving true m) s = Fault OutOfBounds
  else exists s', interrupts (arriving true m) s = Ok (tt, s') /\
    ring_contents s' = ring_contents s ++ ring_frame m /\
    log (hw s') = log (hw s) ++ replicate (length m) (ctl 0) ++
      (if (op =? GIVE_PHYSICAL_ADDRESS) && (isSending s =? 0)
       then [(CECBaseAddress + CEC_ADDRESS, u32 (logicalDeviceType s));
             (CECBaseAddress + CEC_TX, u32 (header_to s BROADCAST))]
       else []).
Proof.
  intros Ha Hs Hr Hl Hop Hu Hroom.
  destruct (receive_rest m true [] s) as (s1&(C1&_&_&C4&[C5 C6])&E);
    [by destruct m; simpl in *; [lia|]|done|simpl; lia|done|].
  rewrite app_nil_l in C1, E. rewrite E, <- C1.
  assert (P := parseRawMessage_passive m s1 op). rewrite C6 in P at 1 2 3.
  specialize (P Ha Hs Hr Hl Hop C1). rewrite C6 in P at 1. specialize (P Hroom).
  destruct (unterminated _); [done|]. destruct P as (s'&E'&_&Hc&Htx).
  exists s'. split; [done|]. split; [rewrite Hc, C6; done|].
  apply (f_equal (fun t => log t.1.1.1.1.1.1)) in Htx. cbn in Htx. rewrite Htx, app_assoc, <- C4.
  assert (isSending s1 = isSending s /\ logicalDeviceType s1 = logicalDeviceType s) as [I1 I2] by (by rewrite C6).
  destruct (op =? GIVE_PHYSICAL_ADDRESS); cbn [andb]; [|by rewrite app_nil_r].
  unfold reported. rewrite I1. destruct (isSending s =? 0); [|by rewrite app_nil_r].
  change (log (hw (queued s1 5 (responseBuffer (header_to s1 BROADCAST :: ?l)) ?r))) with
    ((log (hw s1) ++ [(CECBaseAddress + CEC_ADDRESS, u32 (logicalDeviceType s1))]) ++
     [(CECBaseAddress + CEC_TX, u32 (header_to s1 (header_to s1 BROADCAST)))]).
  rewrite header_again. unfold header_to. by rewrite I2, <- app_assoc.
Qed.

Lemma cec_receive_delivers_witness :
  let _ := demo_build in
  let s := demo_active <| activemode := 0 |> in
  (exists s', interrupts (arriving true [0x04; STANDBY]) s = Ok (tt, s') /\
    ring_contents s' = [0x04; 1; STANDBY]) /\
  (exists s', interrupts (arriving true [0x04; GIVE_PHYSICAL_ADDRESS]) s = Ok (tt, s') /\
    ring_contents s' = [0x04; 1; GIVE_PHYSICAL_ADDRESS] /\ length (log (hw s')) = 4%nat).
Proof.
  intros b s.
  assert (Hr : ring_ok s) by (repeat split; vm_compute; congruence).
  assert (Hroom : ring_room s 3) by (left; vm_compute; congruence).
  split.
  - destruct (cec_receive_delivers s [0x04; STANDBY] STANDBY eq_refl eq_refl Hr ltac:(simpl; lia) eq_refl
      ltac:(by repeat constructor) Hroom) as (s'&E&C&_).
    exists s'. split; [exact E|]. rewrite C. reflexivity.
  - destruct (cec_receive_delivers s [0x04; GIVE_PHYSICAL_ADDRESS] GIVE_PHYSICAL_ADDRESS eq_refl eq_refl Hr
      ltac:(simpl; lia) eq_refl ltac:(by repeat constructor) Hroom) as (s'&E&C&L).
    exists s'. split; [exact E|]. rewrite C, L. split; reflexivity.
Defined.

(** C19. Transmission: queueing a message of 1 to 16 bytes, the worker task's
    start and the interrupts of its transmission put on the bus the header
    (the box's own address and the destination) and then exactly the remaining
    bytes in order, with the end-of-message mark on the last one (on the header
    itself for a ping); the transmitter is free afterwards. *)
Theorem cec_transmission `{CecBuild} (s : cec tap) len buf :
  isSending s = 0 -> sendCommand s = 0 -> notEndTask s = 1 -> length (sendBuf s) = 16%nat ->
  is_u8 (logicalDeviceType s) -> Forall is_u8 buf -> Z.of_nat (length buf) = len -> 1 <= len <= 16 ->
  let h := header_to s (default 0 (head buf)) in
  exists s1,
    (sendMessage skip len buf;; cec_task skip;;
     interrupts (replicate (pred (length buf)) byte_done ++ [message_done])) s
    = parseRawMessage skip len sendBuf s1 /\
    isSending s1 = 0 /\ sendBuf s1 = (h :: tail buf) ++ drop (length buf) (sendBuf s) /\
    log (hw s1) = log (hw s) ++ [(CECBaseAddress + CEC_ADDRESS, logicalDeviceType s); txd h;
      ctl (if len =? 1 then 3 else 1)] ++ wire (tail buf) ++ [ctl 0].
Proof. apply transmission. Qed.

Lemma cec_transmission_witness :
  let _ := demo_build in
  exists s1, (sendMessage skip 3 [0x00; 0x82; 0x21];; cec_task skip;;
     interrupts [byte_done; byte_done; message_done]) demo_active = parseRawMessage skip 3 sendBuf s1 /\
    txs (log (hw s1)) = [0x40; 0x82; 0x21].
Proof.
  intros b. destruct (cec_transmission demo_active 3 [0x00; 0x82; 0x21]) as (s1&E&_&_&L);
    [reflexivity|reflexivity|reflexivity|reflexivity|done|by repeat constructor|reflexivity|lia|].
  exists s1. split; [exact E|]. rewrite L. reflexivity.
Defined.

(** C22. Retries are bounded: a message of which every transmission fails is put
    on the bus again exactly [retries] times, always with the same header and
    contents, and then the transmitter is given free. *)
Theorem cec_retries_bounded `{CecBuild} (s : cec tap) h es :
  Forall send_failed es -> own_message s h -> isFirstKiss s <> 1 -> isSending s = 1 ->
  0 <= retries s < 2 ^ 8 ->
  exists s1 l, interrupts es s = Ok (tt, s1) /\ sendBuf s1 = sendBuf s /\
    log (hw s1) = log (hw s) ++ l /\
    txs l = replicate (min (length es) (Z.to_nat (retries s))) h /\
    isSending s1 = (if Z.of_nat (length es) <=? retries s then 1 else 0).
Proof.
  intros Hes Ho Hk Hs Hr. destruct (send_errors es s h) as (s1&l&H1&H2&H3&H4&H5); [done..|].
  exists s1, l. split; [done|]. split; [done|]. split; [done|]. split; [done|]. rewrite H5.
  destruct es; [|done]. destruct (Z.leb_spec (Z.of_nat (length (A := irq_event) [])) (retries s));
    [done|simpl in *; lia].
Qed.

Lemma cec_retries_bounded_witness :
  let _ := demo_build in
  let s := queued demo_active 2 [0x00; IMAGE_VIEW_ON] DEFAULT_RETRY_COUNT in
  exists s1 l, interrupts (replicate 5 (Irq CEC_STATUS_SEND_ERR CEC_ERROR_ACK 0)) s = Ok (tt, s1) /\
    log (hw s1) = log (hw s) ++ l /\ txs l = [0x40; 0x40; 0x40] /\ isSending s1 = 0.
Proof.
  intros b s.
  destruct (cec_retries_bounded s 0x40 (replicate 5 (Irq CEC_STATUS_SEND_ERR CEC_ERROR_ACK 0)))
    as (s1&l&H1&_&H3&H4&H5).
  - repeat constructor; vm_compute; congruence.
  - split; [reflexivity|]. split; [split; vm_compute; congruence|]. split; [done|].
    eexists. split; reflexivity.
  - discriminate.
  - reflexivity.
  - split; vm_compute; congruence.
  - exists s1, l. split; [exact H1|]. split; [exact H3|]. split; [exact H4|exact H5].
Defined.

(** C35. The box claims a logical address: when [k] addresses of its device type
    in turn are in use (their pings are acknowledged), the box has pinged the
    first [k + 1] of them in order and keeps the first one nobody answers for. *)
Theorem cec_address_claim `{CecBuild} t k a addr name :
  candidates t !! k = Some a ->
  exists s s', claims k (cec_boot (Tap ∅ addr []) 0 name t) = Ok (tt, s) /\
    txs (log (hw s)) = map (fun x => 17 * x) (take (S k) (candidates t)) /\
    interrupt unclaimed s = Ok (tt, s') /\
    logicalDeviceType s' = a /\ isFirstKiss s' = 0 /\ isSending s' = 0.
Proof.
  intros Hk. assert (Hc : t = DEVICE_TYPE_REC \/ t = DEVICE_TYPE_STB \/ t = DEVICE_TYPE_DVD).
  { unfold candidates in Hk. repeat case_match; try lia; done. }
  destruct H as [[] bx]; destruct Hc as [->|[->| ->]];
    destruct k as [|[|[|[|k]]]]; try discriminate Hk; injection Hk as <-;
    (eexists _, _; split; [vm_compute; reflexivity|]; split; [vm_compute; reflexivity|];
     split; [vm_compute; reflexivity|]; vm_compute; done).
Qed.

Lemma cec_address_claim_witness :
  let _ := demo_build in
  exists s s', claims 1 (cec_boot (Tap ∅ 0x1000 []) 0 [] DEVICE_TYPE_DVD) = Ok (tt, s) /\
    interrupt unclaimed s = Ok (tt, s') /\ logicalDeviceType s' = DEVICE_TYPE_DVD2.
Proof.
  intros b. destruct (cec_address_claim DEVICE_TYPE_DVD 1 DEVICE_TYPE_DVD2 0x1000 [] eq_refl)
    as (s&s'&H1&_&H2&H3&_). exists s, s'. split; [exact H1|]. split; [exact H2|exact H3].
Defined.

(** When every address of its type is in use, the box falls back to the
    unregistered address and then looks for the next entry past the end of the
    table of choices. *)
Theorem cec_address_exhausted `{CecBuild} t addr name :
  candidates t <> [] ->
  claims (length (candidates t)) (cec_boot (Tap ∅ addr []) 0 name t) = Fault OutOfBounds.
Proof.
  intros Hk. assert (Hc : t = DEVICE_TYPE_REC \/ t = DEVICE_TYPE_STB \/ t = DEVICE_TYPE_DVD).
  { unfold candidates in Hk. repeat case_match; try lia; done. }
  destruct H as [[] bx]; destruct Hc as [->|[->| ->]]; vm_compute; reflexivity.
Qed.

Lemma cec_address_exhausted_witness :
  let _ := demo_build in
  claims 3 (cec_boot (Tap ∅ 0x1000 []) 0 [] DEVICE_TYPE_STB) = Fault OutOfBounds.
Proof. intros b. exact (cec_address_exhausted DEVICE_TYPE_STB 0x1000 [] ltac:(done)). Defined.

(** Hexadecimal text written to stb/cec/send is a faithful encoding: the
    text of 1 to 16 bytes queues the message of exactly these bytes. *)
Theorem cec_hex_roundtrip {D : Type} `{CecHw D} `{CecBuild} delay (s : cec D) m :
  isSending s = 0 -> length (sendBuf s) = 16%nat -> Forall is_u8 m -> (1 <= length m <= 16)%nat ->
  exists s', proc_cec_send_write delay true false (hex_text m) s = Ok (3 * Z.of_nat (length m), s') /\
    tx s' = tx (queued s (Z.of_nat (length m)) m DEFAULT_RETRY_COUNT).
Proof. apply proc_send_hex. Qed.

Lemma cec_hex_roundtrip_witness :
  let _ := demo_build in
  exists s', proc_cec_send_write skip true false (chars "0f 36 ") demo_active = Ok (6, s') /\
    tx s' = tx (queued demo_active 2 [0x0f; 0x36] DEFAULT_RETRY_COUNT).
Proof.
  intros b. exact (cec_hex_roundtrip skip demo_active [0x0f; 0x36] eq_refl eq_refl
    ltac:(by repeat constructor) ltac:(simpl; lia)).
Defined.
