(* ===== verification/Pti.v ===== *)
(** * Packet transport interface (pti/pti_main.c)

    The demultiplexer's half-word memory, the DMA ring shared with the firmware,
    the work queue between the polling timer and the injector thread, the
    injector itself, and the table of PIDs the firmware collects. The build is
    the one with __TDT__ defined. *)
From S2P Require Import Prelude.

(** ** pti.h *)

Definition PTI_IRAM_BASE := 0xC000.
Definition PTI_DRAM_BASE := 0x8000.
Definition PTI_DMA_0_BASE := 0x1000.
Definition PTI_DMA_0_TOP := 0x1004.
Definition PTI_DMA_0_WRITE := 0x1008.
Definition PTI_DMA_0_READ := 0x100C.
Definition PTI_DMA_0_SETUP := 0x1010.
Definition PTI_DMA_0_STATUS := 0x1018.
Definition PTI_DMA_ENABLE := 0x101C.
Definition PTI_DMA_PTI3_PROG := 0x107C.
Definition PTI_DMA_DONE := 1.
Definition PTI_MODE := 0x0030.
Definition PTI_MODE_ENABLE := 1.
Definition PTI_IIF_FIFO_COUNT := 0x2000.
Definition PTI_IIF_FIFO_FULL := 128.
Definition PTI_IIF_FIFO_ENABLE := 0x2008.
Definition PTI_IIF_SYNC_LOCK := 0x2014.
Definition PTI_IIF_SYNC_DROP := 0x2018.
Definition PTI_IIF_SYNC_CONFIG := 0x201C.
Definition PTI_IIF_SYNC_PERIOD := 0x2020.

Definition TAG_COUNT := 4.
Definition AUX_COUNT := 20.
Definition HEADER_SIZE := 6.
Definition PACKET_SIZE := 194.
Definition PACKET_SIZE_WO_HEADER := 188.
Definition PTI_BUFFER_SIZE := 194 * 4096.
Definition SLOT_HANDLE_OFFSET := 20000.
Definition QUEUE_SIZE := 400.
Definition SLOT_COUNT := 32.

(** The variables of the firmware (TCASM_LableMap in tc_code.h). *)
Definition sym_packet_size := 32772.
Definition sym_header_size := 32776.
Definition sym_num_pids := 32810.
Definition sym_psize := 32814.
Definition sym_pread := 32818.
Definition sym_discard := 32822.
Definition sym_pidtable := 32826.
Definition sym_pwrite := 32958.

(** ** State *)

Record tSlot := Slot { Handle : Z; inUse : Z; tcIndex : Z; pid : Z }.

Definition eta_tSlot (s : tSlot) : tSlot := Slot (Handle s) (inUse s) (tcIndex s) (pid s).
#[export] Instance set_Handle : Setter Handle := ltac:(setter eta_tSlot Handle).
#[export] Instance set_inUse : Setter inUse := ltac:(setter eta_tSlot inUse).
#[export] Instance set_tcIndex : Setter tcIndex := ltac:(setter eta_tSlot tcIndex).
#[export] Instance set_pid : Setter pid := ltac:(setter eta_tSlot pid).

(** An entry of the work queue. *)
Record work := Work { offset : Z; count : Z }.

(** One call of demultiplex_dvb_packets: the demultiplexer, the auxiliary
    buffer (by its tag), its bytes and the number of packets. *)
Record injection := Inject { to_demux : Z; from_tag : Z; bytes : list Z; packets : Z }.

(** struct pti_internal with the file-level variables; [injected] records the
    calls of the demultiplexer callback, oldest first. *)
Record pti (D : Type) := mkPti {
  io : D;
  pti_io : Z; back_phys : Z;
  demux : list (option Z); demux_tag : list Z;
  err_count : Z; back_buffer : list Z;
  loop_count : Z; loop_count2 : Z; packet_count : Z;
  vSlots : list tSlot;
  workQueue : list work; workSem : Z; readIndex : Z; writeIndex : Z;
  dma_0_buffer_base : Z; dma_0_buffer_top : Z; dma_0_buffer_rp : Z;
  injected : list injection
}.
Arguments mkPti {D} _ _ _ _ _ _ _ _ _ _ _ _ _ _ _ _ _ _ _.
Arguments io {D} _.
Arguments pti_io {D} _.
Arguments back_phys {D} _.
Arguments demux {D} _.
Arguments demux_tag {D} _.
Arguments err_count {D} _.
Arguments back_buffer {D} _.
Arguments loop_count {D} _.
Arguments loop_count2 {D} _.
Arguments packet_count {D} _.
Arguments vSlots {D} _.
Arguments workQueue {D} _.
Arguments workSem {D} _.
Arguments readIndex {D} _.
Arguments writeIndex {D} _.
Arguments dma_0_buffer_base {D} _.
Arguments dma_0_buffer_top {D} _.
Arguments dma_0_buffer_rp {D} _.
Arguments injected {D} _.

Definition eta_pti {D : Type} (s : pti D) : pti D :=
  mkPti (io s) (pti_io s) (back_phys s) (demux s) (demux_tag s) (err_count s)
    (back_buffer s) (loop_count s) (loop_count2 s) (packet_count s) (vSlots s)
    (workQueue s) (workSem s) (readIndex s) (writeIndex s) (dma_0_buffer_base s)
    (dma_0_buffer_top s) (dma_0_buffer_rp s) (injected s).

Section pti_setters.
Context {D : Type}.
#[export] Instance set_io : Setter (@io D) := ltac:(setter (@eta_pti D) (@io D)).
#[export] Instance set_pti_io : Setter (@pti_io D) := ltac:(setter (@eta_pti D) (@pti_io D)).
#[export] Instance set_back_phys : Setter (@back_phys D) := ltac:(setter (@eta_pti D) (@back_phys D)).
#[export] Instance set_demux : Setter (@demux D) := ltac:(setter (@eta_pti D) (@demux D)).
#[export] Instance set_demux_tag : Setter (@demux_tag D) := ltac:(setter (@eta_pti D) (@demux_tag D)).
#[export] Instance set_err_count : Setter (@err_count D) := ltac:(setter (@eta_pti D) (@err_count D)).
#[export] Instance set_back_buffer : Setter (@back_buffer D) := ltac:(setter (@eta_pti D) (@back_buffer D)).
#[export] Instance set_loop_count : Setter (@loop_count D) := ltac:(setter (@eta_pti D) (@loop_count D)).
#[export] Instance set_loop_count2 : Setter (@loop_count2 D) := ltac:(setter (@eta_pti D) (@loop_count2 D)).
#[export] Instance set_packet_count : Setter (@packet_count D) := ltac:(setter (@eta_pti D) (@packet_count D)).
#[export] Instance set_vSlots : Setter (@vSlots D) := ltac:(setter (@eta_pti D) (@vSlots D)).
#[export] Instance set_workQueue : Setter (@workQueue D) := ltac:(setter (@eta_pti D) (@workQueue D)).
#[export] Instance set_workSem : Setter (@workSem D) := ltac:(setter (@eta_pti D) (@workSem D)).
#[export] Instance set_readIndex : Setter (@readIndex D) := ltac:(setter (@eta_pti D) (@readIndex D)).
#[export] Instance set_writeIndex : Setter (@writeIndex D) := ltac:(setter (@eta_pti D) (@writeIndex D)).
#[export] Instance set_dma_0_buffer_base : Setter (@dma_0_buffer_base D) := ltac:(setter (@eta_pti D) (@dma_0_buffer_base D)).
#[export] Instance set_dma_0_buffer_top : Setter (@dma_0_buffer_top D) := ltac:(setter (@eta_pti D) (@dma_0_buffer_top D)).
#[export] Instance set_dma_0_buffer_rp : Setter (@dma_0_buffer_rp D) := ltac:(setter (@eta_pti D) (@dma_0_buffer_rp D)).
#[export] Instance set_injected : Setter (@injected D) := ltac:(setter (@eta_pti D) (@injected D)).
End pti_setters.

(** SPARK7162 boxes route tags to demultiplexers through demux_tag. *)
Class PtiBuild := spark7162 : bool.

Section pti.
Context {D : Type} `{Mmio D} `{PtiBuild}.

Definition readl (a : Z) : M (pti D) Z := fun s =>
  let (v, d) := mmio_rd (pti_io s + a) (io s) in Ok (u32 v, s <| io := d |>).
Definition writel (v a : Z) : M (pti D) unit :=
  modify (fun s => s <| io := mmio_wr (pti_io s + a) (u32 v) (io s) |>).

(** A half-word of the device, by its offset: the word that holds it is read. *)
Definition PtiRead (a : Z) : M (pti D) Z :=
  w ← readl (a .& Z.lnot 3);
  mret (if truthy (a .& 2) then w ≫ 16 else w .& 0xffff).

Definition PtiWrite (a value : Z) : M (pti D) unit :=
  old_value ← readl (a .& Z.lnot 3);
  if truthy (a .& 2)
  then writel ((old_value .& 0x0000ffff) .| (u16 value ≪ 16)) (a .& Z.lnot 3)
  else writel ((old_value .& 0xffff0000) .| u16 value) (a .& Z.lnot 3).

(** *internal->num_pids, a signed short, and internal->pidtable[i] *)
Definition num_pids : M (pti D) Z := v ← PtiRead sym_num_pids; mret (s16 v).
Definition pidtable (i : Z) : M (pti D) Z := PtiRead (sym_pidtable + 2 * i).

(** ** DMA *)

Definition stpti_setup_dma : M (pti D) unit :=
  p ← gets back_phys;
  writel p PTI_DMA_0_BASE;;
  writel p PTI_DMA_0_WRITE;;
  writel p PTI_DMA_0_READ;;
  writel (p + PTI_BUFFER_SIZE - 1) PTI_DMA_0_TOP;;
  modify (fun s => s <| dma_0_buffer_base := p |>
                     <| dma_0_buffer_top := u32 (p + PTI_BUFFER_SIZE) |>
                     <| dma_0_buffer_rp := p |>);;
  writel 0x8 PTI_DMA_0_SETUP.

Definition stpti_start_dma : M (pti D) unit :=
  e ← readl PTI_DMA_ENABLE;
  writel (e .| 0x1) PTI_DMA_ENABLE;;
  PtiWrite sym_pread 0;;
  PtiWrite sym_pwrite 0;;
  PtiWrite sym_discard 0;;
  modify (fun s => s <| loop_count := 0 |> <| loop_count2 := 0 |> <| packet_count := 0 |>).

(** while ( *pti->pwrite != *pti->psize + 2) ... *)
Fixpoint stop_pwrite (fuel : nat) : M (pti D) unit :=
  w ← PtiRead sym_pwrite;
  z ← PtiRead sym_psize;
  if w =? z + 2 then skip
  else match fuel with
  | O => faulty Diverges
  | S fuel =>
      z ← PtiRead sym_psize; PtiWrite sym_pwrite (z + 2);;
      z ← PtiRead sym_psize; PtiWrite sym_pwrite (z + 2);;
      stop_pwrite fuel
  end.

(** while ((status & PTI_DMA_DONE) && loop_count < 100), [n] rounds left *)
Fixpoint wait_dma_done (n : nat) : M (pti D) unit :=
  v ← readl PTI_DMA_0_STATUS;
  if truthy (v .& PTI_DMA_DONE)
  then match n with O => skip | S n => wait_dma_done n end
  else skip.

Definition stpti_stop_dma : M (pti D) unit :=
  PtiWrite sym_pread 0;;
  stop_pwrite 100;;
  e ← readl PTI_DMA_ENABLE;
  writel (e .| 0x1) PTI_DMA_ENABLE;;
  writel PTI_DMA_DONE PTI_DMA_0_STATUS;;
  wait_dma_done 100;;
  e ← readl PTI_DMA_ENABLE;
  writel (e .& Z.lnot 0x1) PTI_DMA_ENABLE.

Definition stpti_reset_dma : M (pti D) unit := stpti_stop_dma;; stpti_setup_dma.

(** workQueue[writeIndex] = {offset, count}; advance; up(&workSem) *)
Definition post_work (o c : Z) : M (pti D) unit :=
  i ← gets writeIndex;
  q ← gets workQueue;
  q ← lift (aset q i (Work (s32 o) (s32 c)));
  modify (fun s => s <| workQueue := q |> <| writeIndex := Z.rem (i + 1) QUEUE_SIZE |>
                     <| workSem := workSem s + 1 |>).

(** The ring part of process_pti_dma: what has been written since the last
    time is handed to the injector. *)
Definition poll_ring (pti_wp : Z) : M (pti D) unit :=
  base ← gets dma_0_buffer_base;
  top ← gets dma_0_buffer_top;
  rp0 ← gets dma_0_buffer_rp;
  rp ← (if (rp0 .& Z.lnot 0xf) =? (top .& Z.lnot 0xf)
        then modify (fun s => s <| dma_0_buffer_rp := base |>);; mret base else mret rp0);
  '(num_packets, buffer_round) ←
    (if rp <=? pti_wp then mret (u32 (pti_wp - rp) / PACKET_SIZE, false)
     else modify (fun s => s <| loop_count2 := u32 (loop_count2 s + 1) |> <| packet_count := 0 |>);;
          mret (u32 ((top - rp) + (pti_wp - base)) / PACKET_SIZE, true));
  when (truthy num_packets) (
    pread ← PtiRead sym_pread;
    when (negb (truthy pread)) (
      modify (fun s => s <| loop_count := u32 (loop_count s + 1) |>
                         <| packet_count := u32 (packet_count s + num_packets) |>);;
      writel pti_wp PTI_DMA_0_READ;;
      PtiWrite sym_pread num_packets;;
      (if buffer_round : bool then
         let num_packets1 := u32 (top - rp) / PACKET_SIZE in
         post_work (rp - base) num_packets1;;
         post_work 0 (num_packets - num_packets1)
       else post_work (rp - base) num_packets);;
      modify (fun s => s <| dma_0_buffer_rp := pti_wp |>))).

Definition process_pti_dma : M (pti D) unit :=
  wp ← readl PTI_DMA_0_WRITE;
  base ← gets dma_0_buffer_base;
  let pti_wp := u32 (wp - u32 (wp - base) mod PACKET_SIZE) in
  pti_status ← readl PTI_IIF_FIFO_COUNT;
  when (truthy (pti_status .& PTI_IIF_FIFO_FULL))
    (modify (fun s => s <| err_count := s32 (err_count s + 1) |>));;
  d ← PtiRead sym_discard;
  if truthy d then
    modify (fun s => s <| err_count := s32 (err_count s + 1) |>);;
    stpti_reset_dma;;
    stpti_start_dma
  else poll_ring pti_wp.

(** ** The injector thread *)

(** The demultiplexer of a tag, if there is one. *)
Definition demux_of (tag : Z) : M (pti D) (option Z) :=
  if spark7162 then
    t ← gets demux_tag; t ← lift (aget t tag); d ← gets demux; lift (aget d t)
  else d ← gets demux; lift (aget d tag).

(** demultiplex_dvb_packets(demux, auxbuf[tag], count) *)
Definition demultiplex_dvb_packets (d tag : Z) (b : list Z) (n : Z) : M (pti D) unit :=
  modify (fun s => s <| injected := injected s ++ [Inject d tag b n] |>).

(** The local pTo and count1 of a tag: the bytes of auxbuf[tag] before pTo, and
    count1[tag]. *)
Definition aux : Type := list Z * Z.

(** One packet at [from]: it is copied without its header to the buffer of its
    tag, which is injected when it is full. *)
Definition sort_packet (from : Z) (auxs : list aux) : M (pti D) (list aux) :=
  b ← gets back_buffer;
  h ← lift (aget b from);
  let tag := (h ≫ 2) .& 0xf in
  d ← (if tag <? TAG_COUNT then demux_of tag else mret None);
  match d with
  | None => mret auxs
  | Some d =>
      '(pTo, count1) ← lift (aget auxs tag);
      payload ← lift (aslice b (from + HEADER_SIZE) PACKET_SIZE_WO_HEADER);
      if PACKET_SIZE_WO_HEADER * AUX_COUNT <? Z.of_nat (length pTo) + PACKET_SIZE_WO_HEADER
      then faulty OutOfBounds
      else
        let pTo := pTo ++ payload in
        let count1 := count1 + 1 in
        if AUX_COUNT <=? count1 then
          demultiplex_dvb_packets d tag pTo count1;;
          lift (aset auxs tag ([], 0))
        else lift (aset auxs tag (pTo, count1))
  end.

Fixpoint sort_packets (n : nat) (from : Z) (auxs : list aux) : M (pti D) (list aux) :=
  match n with
  | O => mret auxs
  | S n => auxs ← sort_packet from auxs; sort_packets n (from + PACKET_SIZE) auxs
  end.

(** inject remainders if any *)
Fixpoint inject_remainders (tag : Z) (auxs : list aux) : M (pti D) unit :=
  match auxs with
  | [] => skip
  | (pTo, count1) :: auxs =>
      (if 0 <? count1 then
         d ← demux_of tag;
         match d with
         | Some d => demultiplex_dvb_packets d tag pTo count1
         | None => skip
         end
       else skip);;
      inject_remainders (tag + 1) auxs
  end.

Definition inject_work (w : work) : M (pti D) unit :=
  auxs ← sort_packets (Z.to_nat (count w)) (offset w) (replicate 4 ([], 0));
  inject_remainders 0 auxs.

(** One round of the thread's loop. It is started by pti_hal_init, which does
    not start without a demultiplexer function. *)
Inductive injector_state := Waiting | Overflow | Worked.

Definition stream_injector : M (pti D) injector_state :=
  c ← gets workSem;
  if c <=? 0 then mret Waiting
  else
    modify (fun s => s <| workSem := c - 1 |>);;
    w ← gets writeIndex;
    r ← gets readIndex;
    if w =? r then mret Overflow
    else
      q ← gets workQueue;
      i ← lift (aget q r);
      inject_work i;;
      modify (fun s => s <| readIndex := Z.rem (r + 1) QUEUE_SIZE |>);;
      mret Worked.

(** ** Slots and PIDs *)

Definition get_slot (i : Z) : M (pti D) tSlot := t ← gets vSlots; lift (aget t i).
Definition put_slot (i : Z) (x : tSlot) : M (pti D) unit :=
  t ← gets vSlots; t ← lift (aset t i x); modify (fun s => s <| vSlots := t |>).

(** for (i = 0; i < 32; i++): the slot of the moved entry gets the TC index
    [t], [n] rounds left. *)
Fixpoint move_index (n : nat) (i t : Z) : M (pti D) unit :=
  match n with
  | O => skip
  | S n =>
      k ← num_pids;
      x ← get_slot i;
      if k =? tcIndex x then put_slot i (x <| tcIndex := t |>)
      else move_index n (i + 1) t
  end.

Definition pti_hal_slot_clear_pid (session_handle slot_handle : Z) : M (pti D) Z :=
  let i := slot_handle - SLOT_HANDLE_OFFSET in
  x ← get_slot i;
  if (tcIndex x <? 0) || (pid x =? 0xffff) then mret (-1)
  else
    k ← num_pids;
    v ← pidtable (k - 1);
    PtiWrite (sym_pidtable + 2 * tcIndex x) v;;
    k ← num_pids;
    PtiWrite sym_num_pids (k - 1);;
    move_index 32 0 (tcIndex x);;
    x ← get_slot i;
    put_slot i (x <| tcIndex := -1 |>);;
    modify (fun s => s <| err_count := 0 |>);;
    mret 0.

Definition pti_hal_slot_free (session_handle slot_handle : Z) : M (pti D) Z :=
  let i := slot_handle - SLOT_HANDLE_OFFSET in
  x ← get_slot i;
  (if negb (tcIndex x =? -1) then pti_hal_slot_clear_pid session_handle slot_handle else mret 0);;
  x ← get_slot i;
  put_slot i (x <| inUse := 0 |> <| pid := 0xffff |> <| tcIndex := -1 |>);;
  modify (fun s => s <| err_count := 0 |>);;
  mret 0.

(** for (vLoop = 0; vLoop < *num_pids; vLoop++): is [p] collected already? *)
Fixpoint collecting (fuel : nat) (i p : Z) : M (pti D) bool :=
  match fuel with
  | O => faulty Diverges
  | S fuel =>
      k ← num_pids;
      if i <? k then
        v ← pidtable i;
        if u16 v =? u16 p then mret true else collecting fuel (i + 1) p
      else mret false
  end.

(** The loop over the slots of pti_hal_slot_set_pid. *)
Fixpoint assign_pid (n : nat) (i slot_handle p : Z) : M (pti D) Z :=
  match n with
  | O => mret (-1)
  | S n =>
      x ← get_slot i;
      if Handle x =? slot_handle then
        if inUse x =? 1 then
          k ← num_pids;
          put_slot i (x <| pid := p |> <| tcIndex := k |>);;
          PtiWrite (sym_pidtable + 2 * k) p;;
          k ← num_pids;
          PtiWrite sym_num_pids (k + 1);;
          mret 0
        else mret (-1)
      else assign_pid n (i + 1) slot_handle p
  end.

(** num_pids is a short: its loop ends within 2^15 rounds. *)
Definition pti_hal_slot_set_pid (session_handle slot_handle p : Z) : M (pti D) Z :=
  let p := u16 p in
  c ← collecting (Z.to_nat 32769) 0 p;
  if (c : bool) then mret (-1) else assign_pid 32 0 slot_handle p.

Fixpoint new_slot (n : nat) (i : Z) : M (pti D) Z :=
  match n with
  | O => mret (-1)
  | S n =>
      x ← get_slot i;
      if inUse x =? 0 then
        put_slot i (x <| inUse := 1 |> <| tcIndex := -1 |>);; mret (Handle x)
      else new_slot n (i + 1)
  end.

Definition pti_hal_get_new_slot_handle : M (pti D) Z := new_slot 32 0.

(** ** Sources *)

(** The last tag routed to [session] that has a demultiplexer, from [i] on. *)
Fixpoint old_source (n : nat) (i session best : Z) : M (pti D) Z :=
  match n with
  | O => mret best
  | S n =>
      d ← gets demux; d ← lift (aget d i);
      t ← gets demux_tag; t ← lift (aget t i);
      old_source n (i + 1) session
        (match d with Some _ => if t =? session then i else best | None => best end)
  end.

Definition pti_hal_set_source (session_handle source : Z) : M (pti D) Z :=
  if spark7162 then
    t ← gets demux_tag;
    old_session ← lift (aget t source);
    if old_session =? session_handle then mret 1
    else
      old ← old_source 4 0 session_handle (-1);
      t ← lift (aset t source session_handle);
      t ← (if -1 <? old then lift (aset t old old_session) else mret t);
      modify (fun s => s <| demux_tag := t |>);;
      mret 1
  else mret 1.

Definition pti_hal_get_new_session_handle (source d : Z) : M (pti D) Z :=
  (if (0 <=? source) && (source <? TAG_COUNT) then
     l ← gets demux; l ← lift (aset l source (Some d));
     modify (fun s => s <| demux := l |>);;
     if spark7162 then
       t ← gets demux_tag; t ← lift (aset t source source);
       modify (fun s => s <| demux_tag := t |>)
     else skip
   else skip);;
  mret source.

(** ** Initialisation *)

(** writel(image[n / 4], base + n) for the words of [image] in order *)
Fixpoint load_image (image : list Z) (a : Z) : M (pti D) unit :=
  match image with
  | [] => skip
  | w :: image => writel w a;; load_image image (a + 4)
  end.

Definition pti_slots : list tSlot :=
  map (fun i => Slot (SLOT_HANDLE_OFFSET + Z.of_nat i) 0 (-1) 0xffff) (seq 0 32).

(** The transport controller: its program and data are loaded and it is
    started. [code] and [data] are the firmware image of tc_code.h. *)
Definition start_tc (code data : list Z) : M (pti D) unit :=
  writel 0x1 PTI_DMA_PTI3_PROG;;
  load_image code PTI_IRAM_BASE;;
  load_image data PTI_DRAM_BASE;;
  PtiWrite sym_packet_size PACKET_SIZE;;
  PtiWrite sym_header_size HEADER_SIZE;;
  writel 0x0 PTI_IIF_SYNC_LOCK;;
  writel 0x0 PTI_IIF_SYNC_DROP;;
  writel PACKET_SIZE PTI_IIF_SYNC_PERIOD;;
  writel 0x0 PTI_IIF_SYNC_CONFIG;;
  writel 0x1 PTI_IIF_FIFO_ENABLE;;
  writel PTI_MODE_ENABLE PTI_MODE;;
  PtiWrite sym_psize (PTI_BUFFER_SIZE / PACKET_SIZE - 2);;
  PtiWrite sym_num_pids 0.

(** The memory of the driver is allocated beforehand. *)
(** [demultiplex]: the caller provides a demultiplexing function. *)
Definition pti_hal_init (demultiplex : bool) (code data : list Z) : M (pti D) unit :=
  if negb demultiplex then skip else
  modify (fun s => s <| demux := replicate 4 None |> <| demux_tag := [0; 1; 2; 3] |>
                     <| err_count := 0 |>);;
  start_tc code data;;
  stpti_setup_dma;;
  stpti_reset_dma;;
  stpti_start_dma;;
  modify (fun s => s <| vSlots := pti_slots |> <| workSem := 0 |>).
End pti.

(** ** The device memory

    Firmware variables are memory: what is written is read back. *)

Abbreviation ram := (gmap Z Z).
#[export] Instance ram_mmio : Mmio ram := {|
  mmio_rd a m := (default 0 (m !! a), m);
  mmio_wr a v m := <[a := v]> m
|}.

Section memory.
Context `{PtiBuild}.
Implicit Types s : pti ram.

Definition word_at s (a : Z) : Z := u32 (default 0 (io s !! (pti_io s + a))).
(** The half-word at the even offset [a]. *)
Definition half s (a : Z) : Z :=
  let w := word_at s (a .& Z.lnot 3) in if truthy (a .& 2) then w ≫ 16 else w .& 0xffff.
Definition put_half s (a v : Z) : pti ram :=
  let w := word_at s (a .& Z.lnot 3) in
  s <| io := <[pti_io s + (a .& Z.lnot 3) :=
         u32 (if truthy (a .& 2) then (w .& 0x0000ffff) .| (u16 v ≪ 16)
              else (w .& 0xffff0000) .| u16 v)]> (io s) |>.

Lemma readl_ram a s : readl a s = Ok (word_at s a, s).
Proof. unfold readl. cbn. do 2 f_equal. by destruct s. Qed.

Lemma PtiRead_ram a s : PtiRead a s = Ok (half s a, s).
Proof. unfold PtiRead. by erewrite M_bind_run by apply readl_ram. Qed.

Lemma PtiWrite_ram a v s : PtiWrite a v s = Ok (tt, put_half s a v).
Proof.
  unfold PtiWrite, put_half. erewrite M_bind_run by apply readl_ram.
  by destruct (truthy (a .& 2)).
Qed.

Lemma align a : a .& Z.lnot 3 = 4 * (a / 4).
Proof.
  change 3 with (Z.ones 2). rewrite <- Z.ldiff_land, Z.ldiff_ones_r by lia.
  rewrite Z.shiftl_mul_pow2, Z.shiftr_div_pow2 by lia. change (2 ^ 2) with 4. lia.
Qed.

Lemma odd_half a : Z.even a = true -> truthy (a .& 2) = true <-> a mod 4 = 2.
Proof.
  intros He. apply Zeven_bool_iff, Zeven_ex in He as [k ->].
  assert ((2 * k) .& 2 = 2 * (k mod 2)) as ->.
  { replace (2 * k) with (Z.shiftl k 1) by (rewrite Z.shiftl_mul_pow2; lia).
    change (Z.shiftl k 1 .& 2) with (Z.shiftl k 1 .& Z.shiftl (Z.ones 1) 1).
    rewrite <- Z.shiftl_land, Z.land_ones, Z.shiftl_mul_pow2 by lia. change (2 ^ 1) with 2. lia. }
  unfold truthy. pose proof (Z.mod_pos_bound k 2 ltac:(lia)).
  assert ((2 * k) mod 4 = 2 * (k mod 2)) as ->.
  { change 4 with (2 * 2). rewrite Z.mul_mod_distr_l by lia. done. }
  destruct (Z.eqb_spec (2 * (k mod 2)) 0); simpl; lia.
Qed.

Lemma bits_hi w v : 0 <= w < 2 ^ 32 -> 0 <= v < 2 ^ 16 ->
  0 <= (w .& 0xffff) .| (v ≪ 16) < 2 ^ 32 /\
  ((w .& 0xffff) .| (v ≪ 16)) ≫ 16 = v /\ ((w .& 0xffff) .| (v ≪ 16)) .& 0xffff = w .& 0xffff.
Proof.
  intros Hw Hv. change 0xffff with (Z.ones 16).
  assert (Hlow : ((w .& Z.ones 16) .| (v ≪ 16)) = v * 2 ^ 16 + w mod 2 ^ 16).
  { rewrite lor_disjoint.
    - rewrite Z.land_ones, Z.shiftl_mul_pow2 by lia. lia.
    - rewrite <- Z.land_assoc, (Z.land_comm (Z.ones 16)).
      rewrite Z.land_ones, Z.shiftl_mul_pow2, Z.mod_mul by lia. by rewrite Z.land_0_r. }
  rewrite Hlow. pose proof (Z.mod_pos_bound w (2 ^ 16) ltac:(lia)). split; [lia|]. split.
  - rewrite Z.shiftr_div_pow2, Z.div_add_l, Z.div_small by lia. lia.
  - rewrite !Z.land_ones by lia. rewrite Z.add_comm, Z.mod_add by lia. by rewrite Z.mod_mod.
Qed.

Lemma bits_lo w v : 0 <= w < 2 ^ 32 -> 0 <= v < 2 ^ 16 ->
  0 <= (w .& 0xffff0000) .| v < 2 ^ 32 /\
  ((w .& 0xffff0000) .| v) ≫ 16 = w ≫ 16 /\ ((w .& 0xffff0000) .| v) .& 0xffff = v.
Proof.
  intros Hw Hv.
  assert (Hhi : w .& 0xffff0000 = (w / 2 ^ 16) * 2 ^ 16).
  { change 0xffff0000 with (Z.ones 16 ≪ 16).
    rewrite <- (Z.shiftl_mul_pow2 (w / 2 ^ 16)), <- Z.shiftr_div_pow2 by lia.
    apply Z.bits_inj'. intros n Hn. rewrite Z.land_spec.
    destruct (decide (n < 16)).
    - rewrite !Z.shiftl_spec_low by lia. by rewrite andb_false_r.
    - rewrite !Z.shiftl_spec, Z.shiftr_spec by lia. replace (n - 16 + 16) with n by lia.
      destruct (decide (n < 32)).
      + rewrite Z.ones_spec_low by lia. by rewrite andb_true_r.
      + rewrite (Z.bits_above_log2 w n); [done|lia|].
        destruct (decide (w = 0)); [subst; simpl; lia|]. apply Z.log2_lt_pow2; [lia|].
        apply Z.lt_le_trans with (2 ^ 32); [lia|]. apply Z.pow_le_mono_r; lia. }
  assert (Hl : ((w .& 0xffff0000) .| v) = (w / 2 ^ 16) * 2 ^ 16 + v).
  { rewrite Hhi. apply lor_disjoint.
    rewrite <- (Z.mod_small v (2 ^ 16)) by lia. rewrite <- Z.land_ones by lia.
    rewrite (Z.land_comm v), Z.land_assoc, Z.land_ones, Z.mod_mul by lia. done. }
  rewrite Hl. assert (0 <= w / 2 ^ 16 < 2 ^ 16).
  { split; [apply Z.div_pos; lia|apply Z.div_lt_upper_bound; lia]. }
  split; [lia|]. split.
  - rewrite !Z.shiftr_div_pow2 by lia. rewrite Z.div_add_l, (Z.div_small v) by lia. lia.
  - change 0xffff with (Z.ones 16). rewrite Z.land_ones by lia.
    rewrite Z.add_comm, Z.mod_add, Z.mod_small by lia. done.
Qed.

Lemma word_bound s a : 0 <= word_at s a < 2 ^ 32.
Proof. apply Z.mod_pos_bound. lia. Qed.

Lemma even_mod4 a : Z.even a = true -> a mod 4 = 0 \/ a mod 4 = 2.
Proof.
  intros He. apply Zeven_bool_iff, Zeven_ex in He as [k ->].
  change 4 with (2 * 2). rewrite Z.mul_mod_distr_l by lia.
  pose proof (Z.mod_pos_bound k 2 ltac:(lia)). lia.
Qed.

Lemma word_put s a v :
  word_at (put_half s a v) (a .& Z.lnot 3) =
  let w := word_at s (a .& Z.lnot 3) in
  u32 (u32 (if truthy (a .& 2) then (w .& 0x0000ffff) .| (u16 v ≪ 16)
            else (w .& 0xffff0000) .| u16 v)).
Proof. unfold word_at at 1. unfold put_half. cbn [io set set_io pti_io]. rewrite lookup_insert_eq. done. Qed.

(** A half-word write changes that half-word and nothing else. *)
Lemma half_put s a b v :
  Z.even a = true -> Z.even b = true ->
  half (put_half s a v) b = if a =? b then u16 v else half s b.
Proof.
  intros Ha Hb.
  pose proof (odd_half a Ha) as Oa. pose proof (odd_half b Hb) as Ob.
  pose proof (even_mod4 a Ha) as Ma. pose proof (even_mod4 b Hb) as Mb.
  pose proof (Z.div_mod a 4 ltac:(lia)). pose proof (Z.div_mod b 4 ltac:(lia)).
  assert (Hv : 0 <= u16 v < 2 ^ 16) by (apply Z.mod_pos_bound; lia).
  pose proof (word_bound s (a .& Z.lnot 3)) as Hw.
  destruct (bits_hi _ _ Hw Hv) as (B1&B2&B3). destruct (bits_lo _ _ Hw Hv) as (B4&B5&B6).
  destruct (decide (a / 4 = b / 4)) as [Hq|Hq].
  - unfold half. assert (Hal : b .& Z.lnot 3 = a .& Z.lnot 3) by (rewrite !align; lia).
    rewrite Hal, word_put.
    set (w := word_at s (a .& Z.lnot 3)) in *.
    assert (Hu : forall x, 0 <= x < 2 ^ 32 -> u32 (u32 x) = x).
    { intros x Hx. unfold u32. rewrite (Z.mod_small x) by lia. apply Z.mod_small. lia. }
    destruct (truthy (a .& 2)), (truthy (b .& 2)), (Z.eqb_spec a b);
      rewrite Hu by done; try (rewrite ?B2, ?B3, ?B5, ?B6; reflexivity); exfalso; intuition lia.
  - rewrite (proj2 (Z.eqb_neq a b)) by (intros ->; done). unfold half, word_at, put_half. simpl.
    rewrite lookup_insert_ne; [done|]. rewrite !align. lia.
Qed.

Lemma half_bound s a : 0 <= half s a < 2 ^ 16.
Proof.
  unfold half. pose proof (word_bound s (a .& Z.lnot 3)). case_match.
  - rewrite Z.shiftr_div_pow2 by lia.
    split; [apply Z.div_pos; lia|apply Z.div_lt_upper_bound; lia].
  - change 0xffff with (Z.ones 16). rewrite Z.land_ones by lia. apply Z.mod_pos_bound. lia.
Qed.

(** Every field but the memory. *)
Lemma put_half_frame s a v : put_half s a v = s <| io := io (put_half s a v) |>.
Proof. done. Qed.
End memory.

(** ** The PID table as a list of slots *)

Section pids.
Context `{PtiBuild}.
Implicit Types (s : pti ram) (l : list (nat * Z)).

(** [l] lists, in the order of the firmware's table, the slots that collect a
    PID and the PIDs. *)
Definition entry_ok s (k i : nat) (p : Z) : Prop :=
  exists x, vSlots s !! i = Some x /\ tcIndex x = Z.of_nat k /\ pid x = p /\ inUse x = 1 /\
    half s (sym_pidtable + 2 * Z.of_nat k) = p /\ p <> 0xffff.

Record pid_table s l : Prop := {
  pt_slots : length (vSlots s) = 32%nat;
  pt_handles : forall i x, vSlots s !! i = Some x -> Handle x = SLOT_HANDLE_OFFSET + Z.of_nat i;
  pt_num : half s sym_num_pids = Z.of_nat (length l);
  pt_nodup : NoDup l.*1;
  pt_pids : NoDup l.*2;
  pt_entries : forall k i p, l !! k = Some (i, p) -> entry_ok s k i p;
  pt_index : forall i x, vSlots s !! i = Some x ->
    tcIndex x = -1 \/ exists k p, tcIndex x = Z.of_nat k /\ l !! k = Some (i, p)
}.

Lemma nodup_below (f : list nat) n : NoDup f -> Forall (fun i => (i < n)%nat) f -> (length f <= n)%nat.
Proof.
  intros Hd Hf. transitivity (length (seq 0 n)); [|by rewrite length_seq].
  apply submseteq_length, NoDup_submseteq; [done|].
  intros i Hi. apply elem_of_seq. apply list_elem_of_lookup in Hi as [k Hk].
  apply (Forall_lookup_1 _ _ _ _ Hf) in Hk. lia.
Qed.

Lemma pt_slot_lt s l i : pid_table s l -> i ∈ l.*1 -> (i < 32)%nat.
Proof.
  intros T ([j p]&->&Hj)%list_elem_of_fmap. apply list_elem_of_lookup in Hj as [k Hk].
  destruct (pt_entries _ _ T _ _ _ Hk) as (x&Hx&_). rewrite <- (pt_slots _ _ T).
  by eapply lookup_lt_Some.
Qed.

Lemma pt_length s l : pid_table s l -> (length l <= 32)%nat.
Proof.
  intros T. rewrite <- (length_fmap fst l). apply nodup_below; [apply (pt_nodup _ _ T)|].
  apply Forall_lookup_2. intros k i Hk. eapply pt_slot_lt; [done|]. by eapply list_elem_of_lookup_2.
Qed.

Lemma pt_length_free s l i :
  pid_table s l -> (i < 32)%nat -> i ∉ l.*1 -> (length l < 32)%nat.
Proof.
  intros T Hi Hn. rewrite <- (length_fmap fst l). apply (nodup_below (i :: l.*1) 32).
  - apply NoDup_cons_2; [done|apply (pt_nodup _ _ T)].
  - apply Forall_cons_2; [done|]. apply Forall_lookup_2. intros k j Hk.
    eapply pt_slot_lt; [done|]. by eapply list_elem_of_lookup_2.
Qed.

Lemma num_pids_run s l : pid_table s l -> num_pids s = Ok (Z.of_nat (length l), s).
Proof.
  intros T. unfold num_pids. erewrite M_bind_run by apply PtiRead_ram.
  pose proof (pt_length _ _ T). rewrite (pt_num _ _ T). unfold mret, M_ret. do 2 f_equal.
  unfold s16, u16. rewrite Z.mod_small by lia. case_match; lia.
Qed.

Lemma pidtable_run s k : pidtable k s = Ok (half s (sym_pidtable + 2 * k), s).
Proof. apply PtiRead_ram. Qed.

Lemma even_pid k : Z.even (sym_pidtable + 2 * k) = true.
Proof. by rewrite Z.even_add_mul_2. Qed.

Lemma get_slot_run s i x : vSlots s !! i = Some x -> get_slot (Z.of_nat i) s = Ok (x, s).
Proof.
  intros Hx. unfold get_slot. erewrite M_bind_run by done. apply lift_run, aget_Ok.
  split; [lia|]. by rewrite Nat2Z.id.
Qed.

Lemma put_slot_run s i x :
  (i < length (vSlots s))%nat ->
  put_slot (Z.of_nat i) x s = Ok (tt, s <| vSlots := <[i := x]> (vSlots s) |>).
Proof.
  intros Hi. unfold put_slot. erewrite M_bind_run by done.
  erewrite M_bind_run by (apply lift_run, aset_in; lia). by rewrite Nat2Z.id.
Qed.

(** The duplicate test sees exactly the PIDs of the table. *)
Lemma collecting_run s l p : forall fuel k,
  pid_table s l -> 0 <= p < 2 ^ 16 -> (k <= length l)%nat -> (length l - k < fuel)%nat ->
  collecting fuel (Z.of_nat k) p s = Ok (bool_decide (p ∈ drop k l.*2), s).
Proof.
  intros fuel. induction fuel as [|fuel IH]; intros k T Hp Hk Hf; [lia|]. cbn [collecting].
  erewrite M_bind_run by (by apply num_pids_run).
  destruct (Z.ltb_spec (Z.of_nat k) (Z.of_nat (length l))).
  - destruct (lookup_lt_is_Some_2 l k) as [[i q] Hq]; [lia|].
    destruct (pt_entries _ _ T _ _ _ Hq) as (x&_&_&_&_&Hh&_).
    erewrite M_bind_run by apply pidtable_run. rewrite Hh.
    pose proof (half_bound s (sym_pidtable + 2 * Z.of_nat k)) as Hb. rewrite Hh in Hb.
    rewrite (drop_S l.*2 q k) by (by rewrite list_lookup_fmap, Hq).
    unfold u16. rewrite !Z.mod_small by lia. destruct (Z.eqb_spec q p) as [->|Hne].
    + rewrite bool_decide_true by left. done.
    + replace (Z.of_nat k + 1) with (Z.of_nat (S k)) by lia. rewrite IH by (done || lia).
      unfold mret, M_ret. do 2 f_equal. apply bool_decide_ext. rewrite elem_of_cons. intuition congruence.
  - rewrite drop_ge by (rewrite length_fmap; lia). rewrite bool_decide_false; [done|].
    apply not_elem_of_nil.
Qed.

(** The handle finds its slot. *)
Lemma assign_pid_at s l i x p : forall n j,
  pid_table s l -> vSlots s !! i = Some x -> (j <= i < j + n)%nat ->
  assign_pid n (Z.of_nat j) (SLOT_HANDLE_OFFSET + Z.of_nat i) p s =
  assign_pid (S (n - S (i - j))) (Z.of_nat i) (SLOT_HANDLE_OFFSET + Z.of_nat i) p s.
Proof.
  intros n. induction n as [|n IH]; intros j T Hx Hj; [lia|].
  destruct (decide (j = i)) as [->|Hne].
  { replace (S n - S (i - i))%nat with n by lia. done. }
  destruct (lookup_lt_is_Some_2 (vSlots s) j) as [y Hy].
  { apply lookup_lt_Some in Hx. lia. }
  transitivity (assign_pid n (Z.of_nat (S j)) (SLOT_HANDLE_OFFSET + Z.of_nat i) p s).
  - cbn [assign_pid]. erewrite M_bind_run by (by apply get_slot_run).
    rewrite (pt_handles _ _ T _ _ Hy), (proj2 (Z.eqb_neq _ _)) by (unfold SLOT_HANDLE_OFFSET; lia).
    by replace (Z.of_nat j + 1) with (Z.of_nat (S j)) by lia.
  - rewrite IH by (done || lia). do 2 f_equal. lia.
Qed.

(** What a successful assignment leaves. *)
Definition with_pid s l (i : nat) (x : tSlot) (p : Z) : pti ram :=
  put_half (put_half (s <| vSlots := <[i := x <| pid := p |> <| tcIndex := Z.of_nat (length l) |>]>
                           (vSlots s) |>)
              (sym_pidtable + 2 * Z.of_nat (length l)) p)
    sym_num_pids (Z.of_nat (length l) + 1).

Lemma with_pid_half s l i x p a :
  Z.even a = true ->
  half (with_pid s l i x p) a =
  if sym_num_pids =? a then u16 (Z.of_nat (length l) + 1)
  else if sym_pidtable + 2 * Z.of_nat (length l) =? a then u16 p else half s a.
Proof.
  intros Ha. unfold with_pid. rewrite !half_put by (done || apply even_pid). done.
Qed.

Lemma with_pid_table s l i x p :
  pid_table s l -> vSlots s !! i = Some x -> tcIndex x = -1 -> inUse x = 1 -> i ∉ l.*1 ->
  0 <= p < 0xffff -> p ∉ l.*2 -> pid_table (with_pid s l i x p) (l ++ [(i, p)]).
Proof.
  intros T Hx Ht Hu Hi Hp Hd. set (x' := x <| pid := p |> <| tcIndex := Z.of_nat (length l) |>).
  assert (Hv : vSlots (with_pid s l i x p) = <[i := x']> (vSlots s)) by done.
  pose proof (lookup_lt_Some _ _ _ Hx) as Hlt.
  assert (Hlen : (length l < 32)%nat).
  { eapply pt_length_free; [done| |done]. by rewrite <- (pt_slots _ _ T). }
  assert (Hother : forall k, (k < length l)%nat ->
    half (with_pid s l i x p) (sym_pidtable + 2 * Z.of_nat k) = half s (sym_pidtable + 2 * Z.of_nat k)).
  { intros k Hk. rewrite with_pid_half by apply even_pid. unfold sym_num_pids, sym_pidtable.
    rewrite !(proj2 (Z.eqb_neq _ _)) by lia. done. }
  constructor.
  - rewrite Hv, length_insert. apply (pt_slots _ _ T).
  - intros j y. rewrite Hv. intros [(->&<-&_)|[_ Hy]]%list_lookup_insert_Some.
    + apply (pt_handles _ _ T _ _ Hx).
    + apply (pt_handles _ _ T _ _ Hy).
  - rewrite with_pid_half by done. rewrite Z.eqb_refl, length_app. unfold u16.
    rewrite Z.mod_small by lia. simpl. lia.
  - rewrite fmap_app. apply list.NoDup_app. split; [apply (pt_nodup _ _ T)|]. split.
    + intros j Hj ->%list_elem_of_singleton. done.
    + apply NoDup_singleton.
  - rewrite fmap_app. apply list.NoDup_app. split; [apply (pt_pids _ _ T)|]. split.
    + intros j Hj ->%list_elem_of_singleton. done.
    + apply NoDup_singleton.
  - intros k j q [Hk|[Hk Hq]]%lookup_app_Some.
    + destruct (pt_entries _ _ T _ _ _ Hk) as (y&Hy&H1&H2&H3&H4&H5).
      exists y. pose proof (lookup_lt_Some _ _ _ Hk).
      assert (j <> i).
      { intros ->. apply Hi. apply list_elem_of_fmap. exists (i, q). split; [done|].
        by eapply list_elem_of_lookup_2. }
      rewrite Hv, list_lookup_insert_ne by congruence.
      split; [done|]. split; [done|]. split; [done|]. split; [done|]. by rewrite Hother.
    + apply list_lookup_singleton_Some in Hq as [Hk0 [= <- <-]].
      assert (k = length l) as -> by lia. exists x'.
      rewrite Hv, list_lookup_insert_eq by done. split; [done|]. split; [done|]. split; [done|].
      split; [done|]. rewrite with_pid_half by apply even_pid.
      rewrite (proj2 (Z.eqb_neq _ _)) by (unfold sym_num_pids, sym_pidtable; lia).
      rewrite Z.eqb_refl. unfold u16. rewrite Z.mod_small by lia. lia.
  - intros j y. rewrite Hv. intros [(->&<-&_)|[Hne Hy]]%list_lookup_insert_Some.
    + right. exists (length l), p. split; [done|]. by apply list_lookup_middle.
    + destruct (pt_index _ _ T _ _ Hy) as [?|(k&q&?&Hk)]; [by left|]. right. exists k, q.
      split; [done|]. by apply lookup_app_l_Some.
Qed.

Lemma set_pid_spec s l i x h p :
  pid_table s l -> vSlots s !! i = Some x -> tcIndex x = -1 -> inUse x = 1 ->
  0 <= p < 0xffff ->
  if bool_decide (p ∈ l.*2)
  then pti_hal_slot_set_pid h (SLOT_HANDLE_OFFSET + Z.of_nat i) p s = Ok (-1, s)
  else pti_hal_slot_set_pid h (SLOT_HANDLE_OFFSET + Z.of_nat i) p s = Ok (0, with_pid s l i x p).
Proof.
  intros T Hx Ht Hu Hp. unfold pti_hal_slot_set_pid.
  assert (Hpp : u16 p = p) by (unfold u16; rewrite Z.mod_small; lia). rewrite Hpp.
  pose proof (pt_length _ _ T) as Hlen. pose proof (lookup_lt_Some _ _ _ Hx) as Hlt.
  rewrite (pt_slots _ _ T) in Hlt.
  pose proof (collecting_run s l p (Z.to_nat 32769) 0 T ltac:(lia) ltac:(lia) ltac:(lia)) as Hc.
  rewrite drop_0 in Hc. rewrite (M_bind_run _ _ _ _ _ Hc). case_bool_decide; [done|].
  change 0 with (Z.of_nat 0) at 1. rewrite (assign_pid_at s l i x p) by (done || lia).
  cbn [assign_pid]. erewrite M_bind_run by (by apply get_slot_run).
  rewrite (pt_handles _ _ T _ _ Hx), Z.eqb_refl, Hu. cbn [Z.eqb Pos.eqb].
  erewrite M_bind_run by (by apply num_pids_run).
  erewrite M_bind_run by (apply put_slot_run; by rewrite (pt_slots _ _ T)).
  erewrite M_bind_run by apply PtiWrite_ram.
  erewrite M_bind_run.
  2: { unfold num_pids. erewrite M_bind_run by apply PtiRead_ram.
       rewrite half_put, (proj2 (Z.eqb_neq _ _))
         by (apply even_pid || done || (unfold sym_num_pids, sym_pidtable; lia)).
       change (half (s <| vSlots := _ |>) sym_num_pids) with (half s sym_num_pids).
       rewrite (pt_num _ _ T). reflexivity. }
  erewrite M_bind_run by apply PtiWrite_ram. unfold with_pid, mret, M_ret.
  assert (Hs : s16 (Z.of_nat (length l)) = Z.of_nat (length l)).
  { unfold s16, u16. rewrite Z.mod_small by lia. case_match; lia. }
  by rewrite Hs.
Qed.

(** The last entry takes the place of entry [k]. *)
Definition swap_remove (k : nat) l : list (nat * Z) :=
  match l !! pred (length l) with
  | Some z => take (pred (length l)) (<[k := z]> l)
  | None => l
  end.

Lemma swap_remove_lookup k l e z :
  l !! k = Some e -> l !! pred (length l) = Some z -> forall j y,
  swap_remove k l !! j = Some y <->
  (j < pred (length l))%nat /\ ((j = k /\ y = z) \/ (j <> k /\ l !! j = Some y)).
Proof.
  intros Hk Hz j y. unfold swap_remove. rewrite Hz. pose proof (lookup_lt_Some _ _ _ Hk).
  rewrite lookup_take_Some. destruct (decide (j = k)) as [->|Hne].
  - rewrite list_lookup_insert_eq by done. split; [intros [[= ->] ?]; auto|].
    intros [? [[_ ->]|[? _]]]; done.
  - rewrite list_lookup_insert_ne by done. split; [intros [? ?]; auto|].
    intros [? [[? _]|[_ ?]]]; done.
Qed.

(** Nothing but the entry is lost. *)
Lemma swap_remove_perm k l e : l !! k = Some e -> (e :: swap_remove k l) ≡ₚ l.
Proof.
  intros Hk. pose proof (lookup_lt_Some _ _ _ Hk) as Hlt. unfold swap_remove.
  destruct (lookup_lt_is_Some_2 l (pred (length l))) as [z Hz]; [lia|]. rewrite Hz.
  assert (Hl : l = take (pred (length l)) l ++ [z]).
  { rewrite <- (take_drop (pred (length l)) l) at 1. by rewrite (drop_S _ _ _ Hz), drop_ge by lia. }
  set (A := take (pred (length l)) l) in *.
  destruct (decide (k = pred (length l))) as [->|Hne].
  - rewrite take_insert_ge by lia. fold A. assert (e = z) as -> by congruence.
    clearbody A; rewrite Hl. apply Permutation_cons_append.
  - rewrite take_insert_lt by lia. fold A.
    assert (Hk' : A !! k = Some e) by (unfold A; rewrite lookup_take_lt by lia; done).
    rewrite insert_take_drop by (unfold A; rewrite length_take; lia).
    clearbody A. rewrite Hl. rewrite <- (take_drop_middle _ _ _ Hk') at 3.
    rewrite <- Permutation_cons_append, <- !Permutation_middle. apply perm_swap.
Qed.

(** What clearing entry [k], of slot [i], leaves: [j] is the slot of the last
    entry, [v] its PID. *)
Definition without_pid s l (k i j : nat) (xi xj : tSlot) (v : Z) : pti ram :=
  (put_half (put_half s (sym_pidtable + 2 * Z.of_nat k) v) sym_num_pids (Z.of_nat (length l) - 1))
    <| vSlots := <[i := xi <| tcIndex := -1 |>]>
                   (<[j := xj <| tcIndex := Z.of_nat k |>]> (vSlots s)) |>
    <| err_count := 0 |>.

Lemma without_pid_half s l k i j xi xj v a :
  Z.even a = true ->
  half (without_pid s l k i j xi xj v) a =
  if sym_num_pids =? a then u16 (Z.of_nat (length l) - 1)
  else if sym_pidtable + 2 * Z.of_nat k =? a then u16 v else half s a.
Proof.
  intros Ha.
  transitivity (half (put_half (put_half s (sym_pidtable + 2 * Z.of_nat k) v) sym_num_pids
    (Z.of_nat (length l) - 1)) a); [done|].
  rewrite !half_put by (done || apply even_pid). done.
Qed.

Lemma lookup_fst_inj l k k' i p p' :
  NoDup l.*1 -> l !! k = Some (i, p) -> l !! k' = Some (i, p') -> k = k'.
Proof.
  intros Hd H1 H2. eapply NoDup_lookup; [exact Hd| |]; rewrite list_lookup_fmap.
  - by rewrite H1.
  - by rewrite H2.
Qed.

Lemma without_pid_table s l k i j p v xi xj :
  pid_table s l -> l !! k = Some (i, p) -> l !! pred (length l) = Some (j, v) ->
  vSlots s !! i = Some xi -> vSlots s !! j = Some xj ->
  pid_table (without_pid s l k i j xi xj v) (swap_remove k l).
Proof.
  intros T Hk Hz Hxi Hxj. set (s' := without_pid s l k i j xi xj v).
  pose proof (lookup_lt_Some _ _ _ Hk) as Hkl. pose proof (pt_length _ _ T) as Hlen.
  pose proof (swap_remove_lookup k l (i, p) (j, v) Hk Hz) as Hsr.
  destruct (pt_entries _ _ T _ _ _ Hk) as (xi'&Hxi'&Hi1&Hi2&Hi3&Hi4&Hi5).
  destruct (pt_entries _ _ T _ _ _ Hz) as (xj'&Hxj'&Hj1&Hj2&Hj3&Hj4&Hj5). simplify_eq.
  assert (Hv : vSlots s' = <[i := xi <| tcIndex := -1 |>]>
    (<[j := xj <| tcIndex := Z.of_nat k |>]> (vSlots s))) by done.
  assert (Hij : i = j <-> k = pred (length l)).
  { split; [intros ->; by eapply lookup_fst_inj; [apply (pt_nodup _ _ T)|..]|].
    intros ->. congruence. }
  assert (Hvb : 0 <= pid xj < 2 ^ 16) by (rewrite <- Hj4; apply half_bound).
  constructor.
  - rewrite Hv, !length_insert. apply (pt_slots _ _ T).
  - intros n y. rewrite Hv. intros [(->&<-&_)|[_ [(->&<-&_)|[_ Hy]]%list_lookup_insert_Some]]%list_lookup_insert_Some.
    + apply (pt_handles _ _ T _ _ Hxi).
    + apply (pt_handles _ _ T _ _ Hxj).
    + apply (pt_handles _ _ T _ _ Hy).
  - unfold s'. rewrite without_pid_half by done. rewrite Z.eqb_refl.
    unfold u16. rewrite Z.mod_small by lia.
    pose proof (Permutation_length (swap_remove_perm k l _ Hk)) as Hp. simpl in Hp. lia.
  - eapply (NoDup_cons_1_2 i). change (NoDup ((i, pid xi) :: swap_remove k l).*1).
    rewrite swap_remove_perm by done. apply (pt_nodup _ _ T).
  - eapply (NoDup_cons_1_2 (pid xi)). change (NoDup ((i, pid xi) :: swap_remove k l).*2).
    rewrite swap_remove_perm by done. apply (pt_pids _ _ T).
  - intros k' n q. rewrite Hsr. intros [Hk' [[-> [= -> ->]]|[Hne Hq]]].
    + exists (xj <| tcIndex := Z.of_nat k |>). rewrite Hv.
      rewrite list_lookup_insert_ne by (intros Heq; apply Hij in Heq; lia).
      rewrite list_lookup_insert_eq by (by eapply lookup_lt_Some).
      split; [done|]. split; [done|]. split; [done|]. split; [done|]. split; [|done].
      unfold s'. rewrite without_pid_half by apply even_pid.
      rewrite (proj2 (Z.eqb_neq _ _)) by (unfold sym_num_pids, sym_pidtable; lia).
      rewrite Z.eqb_refl. unfold u16. rewrite Z.mod_small; lia.
    + destruct (pt_entries _ _ T _ _ _ Hq) as (y&Hy&Y1&Y2&Y3&Y4&Y5). exists y. rewrite Hv.
      rewrite !list_lookup_insert_ne.
      2: { intros ->. apply (lookup_fst_inj l _ _ _ _ _ (pt_nodup _ _ T) Hz) in Hq. lia. }
      2: { intros ->. apply (lookup_fst_inj l _ _ _ _ _ (pt_nodup _ _ T) Hk) in Hq. lia. }
      split; [done|]. split; [done|]. split; [done|]. split; [done|]. split; [|done].
      unfold s'. rewrite without_pid_half by apply even_pid.
      rewrite !(proj2 (Z.eqb_neq _ _)) by (unfold sym_num_pids, sym_pidtable; lia). done.
  - intros n y. rewrite Hv. intros [(->&<-&_)|[Hn [(->&<-&_)|[Hn2 Hy]]%list_lookup_insert_Some]]%list_lookup_insert_Some.
    + by left.
    + right. exists k, (pid xj). split; [done|]. apply Hsr. split; [|by left].
      assert (k <> pred (length l)) by (intros ?%Hij; done). lia.
    + destruct (pt_index _ _ T _ _ Hy) as [?|(k'&q&?&Hk')]; [by left|]. right. exists k', q.
      split; [done|]. apply Hsr. pose proof (lookup_lt_Some _ _ _ Hk').
      assert (k' <> k) by (intros ->; congruence).
      assert (k' <> pred (length l)) by (intros ->; congruence). split; [lia|]. by right.
Qed.

(** move_index stops at the slot [j] whose TC index is the number of PIDs. *)
Lemma move_index_at s m j x t : forall n a,
  half s sym_num_pids = m -> 0 <= m < 2 ^ 15 -> length (vSlots s) = 32%nat ->
  vSlots s !! j = Some x -> tcIndex x = m ->
  (forall j' y, (a <= j' < j)%nat -> vSlots s !! j' = Some y -> tcIndex y <> m) ->
  (a <= j < a + n)%nat ->
  move_index n (Z.of_nat a) t s = Ok (tt, s <| vSlots := <[j := x <| tcIndex := t |>]> (vSlots s) |>).
Proof.
  intros n. induction n as [|n IH]; intros a Hm Hmb Hl Hx Ht Hother Ha; [lia|]. cbn [move_index].
  erewrite M_bind_run.
  2: { unfold num_pids. erewrite M_bind_run by apply PtiRead_ram. rewrite Hm. reflexivity. }
  assert (Hs : s16 m = m) by (unfold s16, u16; rewrite Z.mod_small by lia; case_match; lia).
  rewrite Hs. destruct (decide (a = j)) as [->|Hne].
  - erewrite M_bind_run by (by apply get_slot_run). rewrite Ht, Z.eqb_refl.
    apply put_slot_run. by eapply lookup_lt_Some.
  - pose proof (lookup_lt_Some _ _ _ Hx).
    destruct (lookup_lt_is_Some_2 (vSlots s) a) as [y Hy]; [lia|].
    erewrite M_bind_run by (by apply get_slot_run).
    rewrite (proj2 (Z.eqb_neq _ _)) by (intros Heq; apply (Hother a y); [lia|done|done]).
    replace (Z.of_nat a + 1) with (Z.of_nat (S a)) by lia.
    apply IH; try done; [|lia]. intros j' y' Hj'. apply Hother. lia.
Qed.

Lemma clear_pid_spec s l k i p h :
  pid_table s l -> l !! k = Some (i, p) ->
  exists xi j v xj, l !! pred (length l) = Some (j, v) /\ vSlots s !! i = Some xi /\
    vSlots s !! j = Some xj /\
    pti_hal_slot_clear_pid h (SLOT_HANDLE_OFFSET + Z.of_nat i) s =
    Ok (0, without_pid s l k i j xi xj v).
Proof.
  intros T Hk. pose proof (lookup_lt_Some _ _ _ Hk) as Hkl. pose proof (pt_length _ _ T) as Hlen.
  destruct (lookup_lt_is_Some_2 l (pred (length l))) as [[j v] Hz]; [lia|].
  destruct (pt_entries _ _ T _ _ _ Hk) as (xi&Hxi&Hi1&Hi2&Hi3&Hi4&Hi5).
  destruct (pt_entries _ _ T _ _ _ Hz) as (xj&Hxj&Hj1&Hj2&Hj3&Hj4&Hj5).
  exists xi, j, v, xj. split; [done|]. split; [done|]. split; [done|].
  unfold pti_hal_slot_clear_pid.
  replace (SLOT_HANDLE_OFFSET + Z.of_nat i - SLOT_HANDLE_OFFSET) with (Z.of_nat i) by lia.
  erewrite M_bind_run by (by apply get_slot_run). rewrite Hi1, Hi2.
  destruct (Z.ltb_spec (Z.of_nat k) 0); [lia|]. rewrite (proj2 (Z.eqb_neq p 0xffff)) by done.
  cbn [orb]. erewrite M_bind_run by (by apply num_pids_run).
  erewrite M_bind_run by apply pidtable_run.
  replace (Z.of_nat (length l) - 1) with (Z.of_nat (pred (length l))) by lia. rewrite Hj4.
  erewrite M_bind_run by apply PtiWrite_ram.
  set (s1 := put_half s (sym_pidtable + 2 * Z.of_nat k) v).
  assert (Hn1 : num_pids s1 = Ok (Z.of_nat (length l), s1)).
  { unfold num_pids. erewrite M_bind_run by apply PtiRead_ram. unfold s1.
    rewrite half_put, (proj2 (Z.eqb_neq _ _)), (pt_num _ _ T)
      by (apply even_pid || done || (unfold sym_num_pids, sym_pidtable; lia)).
    unfold mret, M_ret. do 2 f_equal. unfold s16, u16. rewrite Z.mod_small by lia. case_match; lia. }
  rewrite (M_bind_run _ _ _ _ _ Hn1). erewrite M_bind_run by apply PtiWrite_ram.
  set (s2 := put_half s1 sym_num_pids (Z.of_nat (length l) - 1)).
  pose proof (move_index_at s2 (Z.of_nat (pred (length l))) j xj (Z.of_nat k) 32 0) as Hmove.
  erewrite M_bind_run; last first.
  { change 0 with (Z.of_nat 0). apply Hmove.
    - unfold s2. rewrite half_put, Z.eqb_refl by done. unfold u16. rewrite Z.mod_small; lia.
    - lia.
    - apply (pt_slots _ _ T).
    - done.
    - done.
    - intros j' y Hj' Hy Heq. destruct (pt_index _ _ T _ _ Hy) as [?|(k'&q&Hk'&Hq)]; [lia|].
      assert (k' = pred (length l)) as -> by lia. rewrite Hz in Hq. injection Hq as <- <-. lia.
    - apply lookup_lt_Some in Hxj. rewrite (pt_slots _ _ T) in Hxj. lia. }
  set (s3 := s2 <| vSlots := _ |>).
  assert (exists y, vSlots s3 !! i = Some y /\ y <| tcIndex := -1 |> = xi <| tcIndex := -1 |>)
    as (y&Hy&Heq).
  { unfold s3. cbn [vSlots set set_vSlots]. destruct (decide (i = j)) as [->|Hne].
    - rewrite list_lookup_insert_eq by (by eapply lookup_lt_Some). eexists. split; [done|].
      by simplify_eq.
    - rewrite list_lookup_insert_ne by done. by exists xi. }
  erewrite M_bind_run by (by apply get_slot_run).
  erewrite M_bind_run by (apply put_slot_run; by eapply lookup_lt_Some).
  erewrite M_bind_run by done. unfold mret, M_ret. rewrite Heq. done.
Qed.

(** A slot that collects nothing cannot be cleared. *)
Lemma clear_pid_none s l i x h :
  pid_table s l -> vSlots s !! i = Some x -> tcIndex x = -1 ->
  pti_hal_slot_clear_pid h (SLOT_HANDLE_OFFSET + Z.of_nat i) s = Ok (-1, s).
Proof.
  intros T Hx Ht. unfold pti_hal_slot_clear_pid.
  replace (SLOT_HANDLE_OFFSET + Z.of_nat i - SLOT_HANDLE_OFFSET) with (Z.of_nat i) by lia.
  erewrite M_bind_run by (by apply get_slot_run). by rewrite Ht.
Qed.

(** A slot outside the table may change as long as it stays outside. *)
Lemma slot_update_table s l i x x' e :
  pid_table s l -> vSlots s !! i = Some x -> i ∉ l.*1 -> Handle x' = Handle x -> tcIndex x' = -1 ->
  pid_table (s <| vSlots := <[i := x']> (vSlots s) |> <| err_count := e |>) l.
Proof.
  intros T Hx Hi Hh Ht. set (s' := s <| vSlots := _ |> <| err_count := _ |>).
  assert (Hhalf : forall a, half s' a = half s a) by done.
  constructor; rewrite ?Hhalf; [..|intros k j p Hk|].
  - cbn [vSlots s' set set_vSlots set_err_count]. rewrite length_insert. apply (pt_slots _ _ T).
  - intros j y [(->&<-&_)|[_ Hy]]%list_lookup_insert_Some.
    + rewrite Hh. apply (pt_handles _ _ T _ _ Hx).
    + apply (pt_handles _ _ T _ _ Hy).
  - apply (pt_num _ _ T).
  - apply (pt_nodup _ _ T).
  - apply (pt_pids _ _ T).
  - destruct (pt_entries _ _ T _ _ _ Hk) as (y&Hy&Hrest). exists y. split; [|exact Hrest].
    cbn [vSlots s' set set_vSlots set_err_count]. rewrite list_lookup_insert_ne; [done|].
    intros ->. apply Hi, list_elem_of_fmap. exists (j, p). split; [done|].
    by eapply list_elem_of_lookup_2.
  - intros j y [(->&<-&_)|[_ Hy]]%list_lookup_insert_Some; [by left|].
    apply (pt_index _ _ T _ _ Hy).
Qed.

(** What the clients of the slots do. *)
Inductive pid_op := NewSlot | SetPid (i : nat) (p : Z) | ClearPid (i : nat) | FreeSlot (i : nat).

Definition run_op (op : pid_op) : M (pti ram) Z :=
  match op with
  | NewSlot => pti_hal_get_new_slot_handle
  | SetPid i p => pti_hal_slot_set_pid 1 (SLOT_HANDLE_OFFSET + Z.of_nat i) p
  | ClearPid i => pti_hal_slot_clear_pid 1 (SLOT_HANDLE_OFFSET + Z.of_nat i)
  | FreeSlot i => pti_hal_slot_free 1 (SLOT_HANDLE_OFFSET + Z.of_nat i)
  end.

(** A PID is only set on a slot in use that collects nothing yet. *)
Definition allowed s (op : pid_op) : Prop :=
  match op with
  | NewSlot => True
  | SetPid i p => 0 <= p < 0xffff /\ exists x, vSlots s !! i = Some x /\ inUse x = 1 /\ tcIndex x = -1
  | ClearPid i | FreeSlot i => (i < 32)%nat
  end.

(** What happens to the table, and the result. *)
Definition spec_op l (op : pid_op) (r : Z) (l' : list (nat * Z)) : Prop :=
  match op with
  | NewSlot => l' = l
  | SetPid i p => if bool_decide (p ∈ l.*2) then r = -1 /\ l' = l else r = 0 /\ l' = l ++ [(i, p)]
  | ClearPid i => ((i ∉ l.*1) /\ r = -1 /\ l' = l) \/ (r = 0 /\ exists p, ((i, p) :: l') ≡ₚ l)
  | FreeSlot i => r = 0 /\ (((i ∉ l.*1) /\ l' = l) \/ exists p, ((i, p) :: l') ≡ₚ l)
  end.

Lemma slot_cases s l i :
  pid_table s l -> (i < 32)%nat -> exists x, vSlots s !! i = Some x /\
    ((tcIndex x = -1 /\ i ∉ l.*1) \/ exists k p, l !! k = Some (i, p) /\ tcIndex x = Z.of_nat k).
Proof.
  intros T Hi. destruct (lookup_lt_is_Some_2 (vSlots s) i) as [x Hx]; [by rewrite (pt_slots _ _ T)|].
  exists x. split; [done|]. destruct (pt_index _ _ T _ _ Hx) as [Ht|(k&p&Ht&Hk)]; [left|right; eauto].
  split; [done|]. intros ([j p]&->&Hj)%list_elem_of_fmap. apply list_elem_of_lookup in Hj as [k Hk].
  destruct (pt_entries _ _ T _ _ _ Hk) as (y&Hy&Hyt&_). simpl in Hx. simplify_eq. lia.
Qed.

Lemma new_slot_spec s l : forall n a, pid_table s l -> (a + n = 32)%nat ->
  exists r s', new_slot n (Z.of_nat a) s = Ok (r, s') /\ pid_table s' l.
Proof.
  intros n. induction n as [|n IH]; intros a T Ha; [by eexists _, _|].
  destruct (slot_cases s l a T) as (x&Hx&Hc); [lia|]. cbn [new_slot].
  erewrite M_bind_run by (by apply get_slot_run). destruct (Z.eqb_spec (inUse x) 0).
  - erewrite M_bind_run by (apply put_slot_run; by eapply lookup_lt_Some).
    eexists _, _. split; [done|].
    assert (Hi : a ∉ l.*1).
    { destruct Hc as [[_ ?]|(k&p&Hk&_)]; [done|]. destruct (pt_entries _ _ T _ _ _ Hk) as (y&Hy&_&_&Hu&_).
      simplify_eq. lia. }
    assert (T' : pid_table (s <| vSlots := <[a := x <| inUse := 1 |> <| tcIndex := -1 |>]> (vSlots s) |>
      <| err_count := err_count s |>) l) by (by apply (slot_update_table s l a x)).
    by destruct s.
  - replace (Z.of_nat a + 1) with (Z.of_nat (S a)) by lia. apply IH; [done|lia].
Qed.

Lemma clear_table s l k i p :
  pid_table s l -> l !! k = Some (i, p) ->
  exists s', pti_hal_slot_clear_pid 1 (SLOT_HANDLE_OFFSET + Z.of_nat i) s = Ok (0, s') /\
    pid_table s' (swap_remove k l).
Proof.
  intros T Hk. destruct (clear_pid_spec s l k i p 1 T Hk) as (xi&j&v&xj&Hz&Hxi&Hxj&E).
  eexists. split; [exact E|]. by eapply without_pid_table.
Qed.

Lemma run_op_spec s l op :
  pid_table s l -> allowed s op ->
  exists r s' l', run_op op s = Ok (r, s') /\ pid_table s' l' /\ spec_op l op r l'.
Proof.
  intros T Hal. destruct op as [|i p|i|i]; cbn [run_op spec_op allowed] in *.
  - destruct (new_slot_spec s l 32 0 T) as (r&s'&E&T'); [lia|]. exists r, s', l. done.
  - destruct Hal as (Hp&x&Hx&Hu&Ht).
    pose proof (set_pid_spec s l i x 1 p T Hx Ht Hu Hp) as E. case_bool_decide as Hd.
    + exists (-1), s, l. done.
    + exists 0. eexists _, (l ++ [(i, p)]). split; [exact E|]. split; [|done].
      apply with_pid_table; try done. destruct (slot_cases s l i T) as (y&Hy&[[_ ?]|(k&q&_&Hk)]);
        [apply lookup_lt_Some in Hx; by rewrite (pt_slots _ _ T) in Hx|done|]. simplify_eq. lia.
  - destruct (slot_cases s l i T Hal) as (x&Hx&[[Ht Hn]|(k&p&Hk&Ht)]).
    + exists (-1), s, l. rewrite (clear_pid_none s l i x) by done. split; [done|]. split; [done|]. by left.
    + destruct (clear_table s l k i p T Hk) as (s'&E&T'). exists 0, s', (swap_remove k l).
      split; [done|]. split; [done|]. right. split; [done|]. exists p. by apply swap_remove_perm.
  - destruct (slot_cases s l i T Hal) as (x&Hx&Hc).
    assert (exists s1 l1, pid_table s1 l1 /\ (i ∉ l1.*1) /\
      (((i ∉ l.*1) /\ l1 = l) \/ exists p, ((i, p) :: l1) ≡ₚ l) /\
      (if negb (tcIndex x =? -1) then pti_hal_slot_clear_pid 1 (SLOT_HANDLE_OFFSET + Z.of_nat i)
       else mret 0) s = Ok (0, s1)) as (s1&l1&T1&Hn1&Hl1&E1).
    { destruct Hc as [[Ht Hn]|(k&p&Hk&Ht)].
      - exists s, l. rewrite Ht. split; [done|]. split; [done|]. split; [by left|done].
      - destruct (clear_table s l k i p T Hk) as (s'&E&T'). exists s', (swap_remove k l).
        split; [done|]. pose proof (swap_remove_perm k l _ Hk) as Hp. split.
        + pose proof (pt_nodup _ _ T) as Hd. rewrite <- Hp in Hd. by apply NoDup_cons_1_1 in Hd.
        + split; [right; by exists p|].
          rewrite (proj2 (Z.eqb_neq _ _)) by lia. done. }
    destruct (slot_cases s1 l1 i T1 Hal) as (y&Hy&Hyc).
    unfold pti_hal_slot_free.
    replace (SLOT_HANDLE_OFFSET + Z.of_nat i - SLOT_HANDLE_OFFSET) with (Z.of_nat i) by lia.
    erewrite M_bind_run by (by apply get_slot_run). rewrite (M_bind_run _ _ _ _ _ E1).
    erewrite M_bind_run by (by apply get_slot_run).
    erewrite M_bind_run by (apply put_slot_run; by eapply lookup_lt_Some).
    erewrite M_bind_run by done. eexists 0, _, l1. split; [done|]. split; [|done].
    by apply (slot_update_table s1 l1 i y).
Qed.
End pids.

(** ** What the injector delivers *)

Section inject.
Context {D : Type} `{Mmio D} `{PtiBuild}.
Implicit Types s : pti D.

(** The demultiplexer a tag is routed to. *)
Definition route s (t : nat) : option Z :=
  if spark7162
  then match demux_tag s !! t with
       | Some k => if k <? 0 then None else default None (demux s !! Z.to_nat k)
       | None => None
       end
  else default None (demux s !! t).

(** The routing tables have their four entries, in range. *)
Definition routes_ok s : Prop :=
  length (demux s) = 4%nat /\ length (demux_tag s) = 4%nat /\
  Forall (fun k => 0 <= k < 4) (demux_tag s).

Definition tag_at s (from : Z) : Z := (default 0 (back_buffer s !! Z.to_nat from) ≫ 2) .& 0xf.
Definition payload_at s (from : Z) : list Z := seg (back_buffer s) (from + HEADER_SIZE) (from + PACKET_SIZE).

(** The starts of [n] packets from [from] on. *)
Definition starts (from : Z) (n : nat) : list Z :=
  map (fun k => from + PACKET_SIZE * Z.of_nat k) (seq 0 n).

(** The payload a tag is due from these packets. *)
Definition due s (t : nat) (fs : list Z) : list Z :=
  match route s t with
  | Some _ => concat (map (payload_at s) (filter (fun f => tag_at s f = Z.of_nat t) fs))
  | None => []
  end.

(** The bytes injected from the buffer of a tag. *)
Definition sent (t : nat) (l : list injection) : list Z :=
  concat (map bytes (filter (fun i => from_tag i = Z.of_nat t) l)).

(** Every injection is of 1 to 20 whole packets, to the demultiplexer of its
    tag. *)
Definition injection_ok s (i : injection) : Prop :=
  1 <= packets i <= AUX_COUNT /\ Z.of_nat (length (bytes i)) = PACKET_SIZE_WO_HEADER * packets i /\
  exists t : nat, from_tag i = Z.of_nat t /\ route s t = Some (to_demux i).

Definition aux_ok (a : aux) : Prop :=
  0 <= a.2 < AUX_COUNT /\ Z.of_nat (length a.1) = PACKET_SIZE_WO_HEADER * a.2.

Lemma demux_of_run s (t : nat) : routes_ok s -> (t < 4)%nat -> demux_of (Z.of_nat t) s = Ok (route s t, s).
Proof.
  intros (H1&H2&H3) Ht. unfold demux_of, route.
  assert (Hget : forall i, 0 <= i < 4 -> aget (demux s) i = Ok (default None (demux s !! Z.to_nat i))).
  { intros i Hi. apply aget_Ok. split; [lia|].
    destruct (lookup_lt_is_Some_2 (demux s) (Z.to_nat i)) as [d Hd]; [lia|]. by rewrite Hd. }
  destruct spark7162.
  - destruct (lookup_lt_is_Some_2 (demux_tag s) t) as [k Hk]; [lia|]. rewrite Hk.
    pose proof (Forall_lookup_1 _ _ _ _ H3 Hk) as Hb. cbn beta in Hb.
    destruct (Z.ltb_spec k 0); [lia|].
    erewrite M_bind_run by done.
    erewrite M_bind_run by (apply lift_run, aget_Ok; split; [lia|by rewrite Nat2Z.id]).
    erewrite M_bind_run by done. by apply lift_run, Hget.
  - erewrite M_bind_run by done. apply lift_run. rewrite Hget by lia. by rewrite Nat2Z.id.
Qed.

Lemma due_cons s t f fs :
  due s t (f :: fs) =
  (if bool_decide (tag_at s f = Z.of_nat t) && bool_decide (is_Some (route s t))
   then payload_at s f else []) ++ due s t fs.
Proof.
  unfold due. destruct (route s t) as [d|] eqn:Hr.
  - rewrite (bool_decide_true (is_Some _)) by eauto. rewrite andb_true_r.
    rewrite filter_cons. case_decide as Hd; case_bool_decide; done.
  - rewrite (bool_decide_false (is_Some _)) by (intros [? ?]; done). by rewrite andb_false_r.
Qed.

Lemma sent_app t l1 l2 : sent t (l1 ++ l2) = sent t l1 ++ sent t l2.
Proof. unfold sent. by rewrite list.filter_app, map_app, concat_app. Qed.

Lemma sent_one t d g b n : sent t [Inject d (Z.of_nat g) b n] = if decide (t = g) then b else [].
Proof.
  unfold sent. rewrite filter_cons. simpl. case_decide; case_decide; try lia; simpl; by rewrite ?app_nil_r.
Qed.

(** The bytes waiting in the buffer of a tag. *)
Definition held (t : nat) (auxs : list aux) : list Z := default [] (fst <$> auxs !! t).

Definition auxs_ok (auxs : list aux) : Prop := length auxs = 4%nat /\ Forall aux_ok auxs.

Lemma held_insert t t' a auxs :
  (t < length auxs)%nat -> held t' (<[t := a]> auxs) = if decide (t' = t) then a.1 else held t' auxs.
Proof.
  intros Hl. unfold held. case_decide as Hd; [subst|].
  - by rewrite list_lookup_insert_eq.
  - by rewrite list_lookup_insert_ne.
Qed.

Lemma auxs_ok_insert t a auxs : auxs_ok auxs -> aux_ok a -> auxs_ok (<[t := a]> auxs).
Proof.
  intros [H1 H2] Ha. split; [by rewrite length_insert|]. by apply Forall_insert.
Qed.

Lemma payload_length s from :
  0 <= from -> from + PACKET_SIZE <= Z.of_nat (length (back_buffer s)) ->
  Z.of_nat (length (payload_at s from)) = PACKET_SIZE_WO_HEADER.
Proof.
  intros H1 H2. unfold payload_at. rewrite seg_length; unfold HEADER_SIZE, PACKET_SIZE,
    PACKET_SIZE_WO_HEADER in *; lia.
Qed.

Lemma due_one s t from :
  due s t [from] = if bool_decide (tag_at s from = Z.of_nat t) && bool_decide (is_Some (route s t))
                   then payload_at s from else [].
Proof. rewrite due_cons. unfold due at 1. destruct (route s t); simpl; by rewrite app_nil_r. Qed.

(** The demultiplexer a packet is sorted to. *)
Definition packet_route s (from : Z) : option Z :=
  if tag_at s from <? TAG_COUNT then route s (Z.to_nat (tag_at s from)) else None.

Lemma sort_packet_route s from auxs :
  routes_ok s -> 0 <= from -> from + PACKET_SIZE <= Z.of_nat (length (back_buffer s)) ->
  sort_packet from auxs s =
  match packet_route s from with
  | None => Ok (auxs, s)
  | Some d =>
      ('(pTo, count1) ← lift (aget auxs (tag_at s from));
       payload ← lift (aslice (back_buffer s) (from + HEADER_SIZE) PACKET_SIZE_WO_HEADER);
       if PACKET_SIZE_WO_HEADER * AUX_COUNT <? Z.of_nat (length pTo) + PACKET_SIZE_WO_HEADER
       then faulty OutOfBounds
       else if AUX_COUNT <=? count1 + 1 then
         demultiplex_dvb_packets d (tag_at s from) (pTo ++ payload) (count1 + 1);;
         lift (aset auxs (tag_at s from) ([], 0))
       else lift (aset auxs (tag_at s from) (pTo ++ payload, count1 + 1))) s
  end.
Proof.
  intros Hr Hf Hb. unfold sort_packet, packet_route. erewrite M_bind_run by done.
  destruct (lookup_lt_is_Some_2 (back_buffer s) (Z.to_nat from)) as [h Hh];
    [unfold PACKET_SIZE in Hb; lia|].
  erewrite M_bind_run by (apply lift_run, aget_Ok; split; [lia|done]).
  assert ((h ≫ 2) .& 0xf = tag_at s from) as -> by (unfold tag_at; by rewrite Hh).
  assert (0 <= tag_at s from) by apply nibble_lo.
  destruct (Z.ltb_spec (tag_at s from) TAG_COUNT) as [Hlt|Hge]; [|by rewrite (M_bind_run _ _ _ None s)].
  rewrite (M_bind_run _ _ _ (route s (Z.to_nat (tag_at s from))) s); [by case_match|].
  rewrite <- (Z2Nat.id (tag_at s from)) at 1 by done. apply demux_of_run; [done|].
  unfold TAG_COUNT in Hlt. lia.
Qed.

(** A packet with a demultiplexer goes to the buffer of its tag. *)
Lemma sort_packet_kept s from auxs d :
  routes_ok s -> auxs_ok auxs -> 0 <= from ->
  from + PACKET_SIZE <= Z.of_nat (length (back_buffer s)) -> packet_route s from = Some d ->
  exists (t : nat) pTo c, (t < 4)%nat /\ tag_at s from = Z.of_nat t /\ route s t = Some d /\
    held t auxs = pTo /\ 0 <= c < AUX_COUNT /\ Z.of_nat (length pTo) = PACKET_SIZE_WO_HEADER * c /\
    sort_packet from auxs s =
      if AUX_COUNT <=? c + 1
      then Ok (<[t := ([], 0)]> auxs,
               s <| injected := injected s ++ [Inject d (Z.of_nat t) (pTo ++ payload_at s from) (c + 1)] |>)
      else Ok (<[t := (pTo ++ payload_at s from, c + 1)]> auxs, s).
Proof.
  intros Hr [Hal HaF] Hf Hb Hd. rewrite sort_packet_route, Hd by done. unfold packet_route in Hd.
  assert (Htb : 0 <= tag_at s from) by apply nibble_lo.
  destruct (Z.ltb_spec (tag_at s from) TAG_COUNT) as [Hlt|]; [|done]. unfold TAG_COUNT in Hlt.
  set (t := Z.to_nat (tag_at s from)) in *. assert (Ht : tag_at s from = Z.of_nat t) by (unfold t; lia).
  destruct (lookup_lt_is_Some_2 auxs t) as [[pTo c] Hc]; [lia|].
  pose proof (Forall_lookup_1 _ _ _ _ HaF Hc) as [Hc1 Hc2]. simpl in Hc1, Hc2.
  exists t, pTo, c. split; [lia|]. split; [done|]. split; [done|].
  split; [unfold held, aux in *; by rewrite Hc|]. split; [done|]. split; [done|].
  erewrite M_bind_run by (apply lift_run, aget_Ok; split; [lia|done]). cbv beta iota.
  rewrite (M_bind_run _ _ _ (payload_at s from) s).
  2: { apply lift_run, aslice_Ok. unfold HEADER_SIZE, PACKET_SIZE_WO_HEADER, PACKET_SIZE, payload_at, seg in *.
       split_and!; [lia|lia|lia|]. unfold PACKET_SIZE, HEADER_SIZE. do 2 f_equal. lia. }
  unfold PACKET_SIZE_WO_HEADER, AUX_COUNT in *.
  destruct (Z.ltb_spec (188 * 20) (Z.of_nat (length pTo) + 188)); [lia|].
  destruct (Z.leb_spec 20 (c + 1)); [erewrite M_bind_run by done|]; erewrite lift_run by (apply aset_in; lia);
    by rewrite Ht, Nat2Z.id.
Qed.

Lemma sort_packet_spec s from auxs :
  routes_ok s -> auxs_ok auxs -> 0 <= from ->
  from + PACKET_SIZE <= Z.of_nat (length (back_buffer s)) ->
  exists auxs' l, sort_packet from auxs s = Ok (auxs', s <| injected := injected s ++ l |>) /\
    auxs_ok auxs' /\ Forall (injection_ok s) l /\
    forall t, (t < 4)%nat -> sent t l ++ held t auxs' = held t auxs ++ due s t [from].
Proof.
  intros Hr Ha Hf Hb. destruct (packet_route s from) as [d|] eqn:Hd.
  - destruct (sort_packet_kept s from auxs d Hr Ha Hf Hb Hd) as (t0&pTo&c&Ht0&Htag&Hroute&Hheld&Hc&Hl&->).
    pose proof (payload_length s from Hf Hb) as Hpl. destruct Ha as [Hal HaF].
    assert (Hmine : forall t, (t < 4)%nat -> due s t [from] = if decide (t = t0) then payload_at s from else []).
    { intros t Ht. rewrite due_one. case_decide as He.
      - subst t. rewrite Hroute, bool_decide_true, (bool_decide_true (is_Some _)) by (done || eauto). done.
      - rewrite bool_decide_false by lia. done. }
    destruct (Z.leb_spec AUX_COUNT (c + 1)).
    + eexists _, _. split; [reflexivity|]. split; [apply auxs_ok_insert; [done|by split]|]. split.
      * apply Forall_singleton. split; [simpl; lia|]. split; [simpl; rewrite length_app; lia|by exists t0].
      * intros t Ht. rewrite held_insert, Hmine, sent_one by lia.
        case_decide; [subst t|]; simpl; by rewrite ?Hheld, ?app_nil_r.
    + eexists _, []. rewrite app_nil_r. split; [by destruct s|].
      split; [apply auxs_ok_insert; [done|]; split; simpl; [lia|rewrite length_app; lia]|].
      split; [done|]. intros t Ht. rewrite held_insert, Hmine by lia.
      case_decide; [subst t|]; simpl; by rewrite ?Hheld, ?app_nil_r.
  - exists auxs, []. rewrite app_nil_r. split; [rewrite sort_packet_route, Hd by done; by destruct s|].
    split; [done|]. split; [done|]. intros t Ht. rewrite due_one. unfold packet_route in Hd.
    case_bool_decide as He; [|by rewrite app_nil_r].
    rewrite He, (proj2 (Z.ltb_lt _ _)), Nat2Z.id in Hd by (unfold TAG_COUNT; lia). rewrite Hd.
    rewrite bool_decide_false by (intros [? ?]; done). by rewrite app_nil_r.
Qed.

Lemma due_app s t l1 l2 : due s t (l1 ++ l2) = due s t l1 ++ due s t l2.
Proof.
  unfold due. destruct (route s t); [|done]. by rewrite list.filter_app, map_app, concat_app.
Qed.

Lemma starts_S from n : starts from (S n) = from :: starts (from + PACKET_SIZE) n.
Proof.
  unfold starts. cbn [seq map]. f_equal; [lia|]. rewrite <- seq_shift, map_map.
  apply map_ext. intros k. lia.
Qed.

Lemma sort_packets_spec : forall n s from auxs,
  routes_ok s -> auxs_ok auxs -> 0 <= from ->
  from + PACKET_SIZE * Z.of_nat n <= Z.of_nat (length (back_buffer s)) ->
  exists auxs' l, sort_packets n from auxs s = Ok (auxs', s <| injected := injected s ++ l |>) /\
    auxs_ok auxs' /\ Forall (injection_ok s) l /\
    forall t, (t < 4)%nat -> sent t l ++ held t auxs' = held t auxs ++ due s t (starts from n).
Proof.
  induction n as [|n IH]; intros s from auxs Hr Ha Hf Hb; cbn [sort_packets].
  - exists auxs, []. split; [rewrite app_nil_r; by destruct s|]. split; [done|]. split; [done|].
    intros t _. unfold due. by destruct (route s t); rewrite ?app_nil_r.
  - assert (Hp : PACKET_SIZE = 194) by done.
    destruct (sort_packet_spec s from auxs Hr Ha Hf) as (a1&l1&E1&Ha1&Hl1&Hs1); [nia|].
    rewrite (M_bind_run _ _ _ _ _ E1).
    destruct (IH (s <| injected := injected s ++ l1 |>) (from + PACKET_SIZE) a1)
      as (a2&l2&E2&Ha2&Hl2&Hs2); [done|done|nia|simpl; nia|].
    exists a2, (l1 ++ l2). split; [rewrite E2, app_assoc; by destruct s|]. split; [done|].
    split; [by apply Forall_app|]. intros t Ht.
    rewrite starts_S, sent_app, <- app_assoc. rewrite Hs2, app_assoc, Hs1 by done.
    change (from :: starts (from + PACKET_SIZE) n) with ([from] ++ starts (from + PACKET_SIZE) n).
    by rewrite due_app, app_assoc.
Qed.

Lemma aux_zero a : aux_ok a -> a.2 <= 0 -> a.1 = [].
Proof. intros [H1 H2] Hz. apply nil_length_inv. assert (a.2 = 0) as He by lia. rewrite He in H2. lia. Qed.

Lemma inject_remainders_spec : forall auxs s (g : nat),
  routes_ok s -> Forall aux_ok auxs -> (g + length auxs <= 4)%nat ->
  (forall t, route s (g + t) = None -> held t auxs = []) ->
  exists l, inject_remainders (Z.of_nat g) auxs s = Ok (tt, s <| injected := injected s ++ l |>) /\
    Forall (injection_ok s) l /\ (forall t, (t < g)%nat -> sent t l = []) /\
    forall t, sent (g + t) l = held t auxs.
Proof.
  induction auxs as [|[pTo c] auxs IH]; intros s g Hr Ha Hg Hn; cbn [inject_remainders].
  - exists []. rewrite app_nil_r. split; [by destruct s|]. done.
  - apply Forall_cons_1 in Ha as [Ha1 Ha]. cbn [length] in Hg.
    assert (exists l1, (if 0 <? c then d ← demux_of (Z.of_nat g);
        match d with Some d => demultiplex_dvb_packets d (Z.of_nat g) pTo c | None => skip end
        else skip) s = Ok (tt, s <| injected := injected s ++ l1 |>) /\ Forall (injection_ok s) l1 /\
        forall t, sent t l1 = if decide (t = g) then pTo else []) as (l1&E1&Hl1&Hs1).
    { destruct (Z.ltb_spec 0 c).
      - erewrite M_bind_run by (apply demux_of_run; [done|lia]). destruct (route s g) as [d|] eqn:Hd.
        + exists [Inject d (Z.of_nat g) pTo c]. split; [done|]. destruct Ha1 as [Hc Hlen]. simpl in Hc, Hlen.
          split; [|intros t; apply sent_one]. apply Forall_singleton. split; [simpl; lia|].
          split; [done|]. by exists g.
        + exists []. rewrite app_nil_r. split; [by destruct s|]. split; [done|]. intros t.
          assert (pTo = []) as -> by (apply (Hn 0%nat); by rewrite Nat.add_0_r). by case_decide.
      - exists []. rewrite app_nil_r. split; [by destruct s|]. split; [done|]. intros t.
        pose proof (aux_zero _ Ha1 ltac:(done)) as Hz. simpl in Hz. subst. by case_decide. }
    rewrite (M_bind_run _ _ _ _ _ E1). replace (Z.of_nat g + 1) with (Z.of_nat (S g)) by lia.
    destruct (IH (s <| injected := injected s ++ l1 |>) (S g)) as (l2&E2&Hl2&Hb2&Hs2); [done|done|lia| |].
    { intros t Ht. apply (Hn (S t)). by rewrite Nat.add_succ_r. }
    exists (l1 ++ l2). split; [rewrite E2, app_assoc; by destruct s|]. split; [by apply Forall_app|].
    split.
    + intros t Ht. rewrite sent_app, Hs1, Hb2 by lia. case_decide; [lia|done].
    + intros [|t]; rewrite sent_app, Hs1.
      * rewrite Nat.add_0_r, Hb2 by lia. rewrite decide_True by done. by rewrite app_nil_r.
      * rewrite decide_False by lia. rewrite Nat.add_succ_r. apply Hs2.
Qed.

(** A work of the queue lies in the buffer. *)
Definition work_ok s (w : work) : Prop :=
  0 <= offset w /\ 0 <= count w /\ offset w + PACKET_SIZE * count w <= Z.of_nat (length (back_buffer s)).

Definition work_starts (w : work) : list Z := starts (offset w) (Z.to_nat (count w)).

Lemma inject_work_spec s w :
  routes_ok s -> work_ok s w ->
  exists l, inject_work w s = Ok (tt, s <| injected := injected s ++ l |>) /\
    Forall (injection_ok s) l /\ forall t, (t < 4)%nat -> sent t l = due s t (work_starts w).
Proof.
  intros Hr (Ho&Hc&Hb).
  assert (Ha : auxs_ok (replicate 4 ([], 0))) by (split; [done|by apply Forall_replicate]).
  destruct (sort_packets_spec (Z.to_nat (count w)) s (offset w) _ Hr Ha Ho) as (a&l1&E1&Ha1&Hl1&Hs1);
    [by rewrite Z2Nat.id|].
  assert (Hnil : forall t, (t < 4)%nat -> held t (replicate 4 ([], 0)) = [])
    by (intros t Ht; unfold held, aux; by rewrite lookup_replicate_2).
  unfold inject_work. rewrite (M_bind_run _ _ _ _ _ E1). destruct Ha1 as [Hlen Ha1].
  destruct (inject_remainders_spec a (s <| injected := injected s ++ l1 |>) 0) as (l2&E2&Hl2&_&Hs2);
    [done|done|lia| |].
  { intros t Ht. destruct (decide (t < 4)%nat) as [Hlt|Hge].
    - pose proof (Hs1 t Hlt) as He. rewrite Hnil in He by done. unfold due in He.
      change (route s t = None) in Ht. rewrite Ht in He. by apply app_eq_nil in He as [_ ?].
    - unfold held. unfold aux in *; by rewrite lookup_ge_None_2 by lia. }
  exists (l1 ++ l2). split; [change 0 with (Z.of_nat 0); rewrite E2, app_assoc; by destruct s|].
  split; [by apply Forall_app|]. intros t Ht. rewrite sent_app. cbn [Nat.add] in Hs2.
  rewrite Hs2, Hs1, Hnil by done. done.
Qed.
End inject.

(** ** The work queue

    A ring of 400 works between the timer and the thread: a queue as long as
    fewer than 400 are waiting. *)

Section queue.
Context {D : Type} `{Mmio D} `{PtiBuild}.
Implicit Types s : pti D.

(** The queue holds the works [q], oldest first. *)
Record pending s (q : list work) : Prop := {
  pn_size : length (workQueue s) = 400%nat;
  pn_read : 0 <= readIndex s < QUEUE_SIZE;
  pn_room : Z.of_nat (length q) < QUEUE_SIZE;
  pn_write : writeIndex s = (readIndex s + Z.of_nat (length q)) mod QUEUE_SIZE;
  pn_sem : workSem s = Z.of_nat (length q);
  pn_works : forall k w, q !! k = Some w ->
    workQueue s !! Z.to_nat ((readIndex s + Z.of_nat k) mod QUEUE_SIZE) = Some w
}.

Definition posted s (w : work) : pti D :=
  s <| workQueue := <[Z.to_nat (writeIndex s) := w]> (workQueue s) |>
    <| writeIndex := Z.rem (writeIndex s + 1) QUEUE_SIZE |> <| workSem := workSem s + 1 |>.

Lemma ring_shift r a b : (r + a) mod QUEUE_SIZE = (r + b) mod QUEUE_SIZE ->
  0 <= a < QUEUE_SIZE -> 0 <= b < QUEUE_SIZE -> a = b.
Proof.
  unfold QUEUE_SIZE. intros He Ha Hb. pose proof (Z.div_mod (r + a) 400). pose proof (Z.div_mod (r + b) 400).
  assert (a - b = 400 * ((r + a) / 400 - (r + b) / 400)) by lia. nia.
Qed.

Lemma ring_step r a : 0 <= r -> 0 <= a ->
  Z.rem ((r + a) mod QUEUE_SIZE + 1) QUEUE_SIZE = (r + (a + 1)) mod QUEUE_SIZE.
Proof.
  intros Hr Ha. unfold QUEUE_SIZE. pose proof (Z.mod_pos_bound (r + a) 400).
  rewrite Z.rem_mod_nonneg by lia. rewrite Z.add_mod_idemp_l by lia. f_equal. lia.
Qed.

Lemma post_work_run s q o c :
  pending s q -> post_work o c s = Ok (tt, posted s (Work (s32 o) (s32 c))).
Proof.
  intros P. unfold post_work. erewrite M_bind_run by done. erewrite M_bind_run by done.
  assert (0 <= writeIndex s < 400)
    by (rewrite (pn_write _ _ P); apply Z.mod_pos_bound; done).
  erewrite M_bind_run by (apply lift_run, aset_in; rewrite (pn_size _ _ P); lia). done.
Qed.

Lemma posted_pending s q w :
  pending s q -> Z.of_nat (length q) + 1 < QUEUE_SIZE -> pending (posted s w) (q ++ [w]).
Proof.
  intros P Hroom. assert (HQ : QUEUE_SIZE = 400) by done.
  assert (Hw : 0 <= writeIndex s < 400) by (rewrite (pn_write _ _ P); apply Z.mod_pos_bound; done).
  pose proof (pn_read _ _ P). constructor; cbn; rewrite ?length_app; cbn [length].
  - rewrite length_insert. apply (pn_size _ _ P).
  - done.
  - lia.
  - rewrite (pn_write _ _ P), ring_step by lia. f_equal. lia.
  - rewrite (pn_sem _ _ P). lia.
  - intros k x Hk. apply lookup_app_Some in Hk as [Hk|[Hge Hk]].
    + rewrite list_lookup_insert_ne; [by apply (pn_works _ _ P)|].
      rewrite (pn_write _ _ P). apply lookup_lt_Some in Hk. intros He. apply Z2Nat.inj in He;
        [|apply Z.mod_pos_bound; lia..]. apply ring_shift in He; lia.
    + apply list_lookup_singleton_Some in Hk as [Hk ->].
      assert (k = length q) as -> by lia. rewrite <- (pn_write _ _ P).
      apply list_lookup_insert_eq. rewrite (pn_size _ _ P). lia.
Qed.

Lemma stream_injector_spec s w q :
  pending s (w :: q) -> routes_ok s -> work_ok s w ->
  exists l, stream_injector s = Ok (Worked, s <| workSem := workSem s - 1 |> <| injected := injected s ++ l |>
      <| readIndex := Z.rem (readIndex s + 1) QUEUE_SIZE |>) /\
    Forall (injection_ok s) l /\ forall t, (t < 4)%nat -> sent t l = due s t (work_starts w).
Proof.
  intros P Hr Hw. unfold stream_injector. erewrite M_bind_run by done.
  pose proof (pn_sem _ _ P) as Hsem. pose proof (pn_room _ _ P) as Hroom. cbn [length] in Hsem, Hroom.
  pose proof (pn_read _ _ P) as Hread.
  destruct (Z.leb_spec (workSem s) 0); [lia|].
  erewrite M_bind_run by done. erewrite M_bind_run by done. erewrite M_bind_run by done.
  change (writeIndex (s <| workSem := _ |>)) with (writeIndex s).
  change (readIndex (s <| workSem := _ |>)) with (readIndex s).
  destruct (Z.eqb_spec (writeIndex s) (readIndex s)) as [He|_].
  { rewrite (pn_write _ _ P) in He.
    rewrite <- (Z.mod_small (readIndex s) QUEUE_SIZE) in He at 2 by done.
    rewrite <- (Z.add_0_r (readIndex s)) in He at 2. apply ring_shift in He; cbn [length] in *; lia. }
  erewrite M_bind_run by done.
  assert (Hk : workQueue s !! Z.to_nat (readIndex s) = Some w).
  { rewrite <- (Z.mod_small (readIndex s) QUEUE_SIZE), <- (Z.add_0_r (readIndex s)) by done.
    by apply (pn_works _ _ P 0). }
  erewrite M_bind_run by (apply lift_run, aget_Ok; split; [lia|exact Hk]).
  destruct (inject_work_spec (s <| workSem := workSem s - 1 |>) w) as (l&E&Hl&Hs); [done..|].
  rewrite (M_bind_run _ _ _ _ _ E). erewrite M_bind_run by done. exists l. split; [done|]. done.
Qed.

Lemma popped_pending s w q x :
  pending s (w :: q) ->
  pending (s <| workSem := workSem s - 1 |> <| injected := x |>
             <| readIndex := Z.rem (readIndex s + 1) QUEUE_SIZE |>) q.
Proof.
  intros P. pose proof (pn_read _ _ P) as Hr. pose proof (pn_room _ _ P) as Hroom.
  assert (HQ : QUEUE_SIZE = 400) by done.
  assert (Hrd : Z.rem (readIndex s + 1) QUEUE_SIZE = (readIndex s + 1) mod QUEUE_SIZE)
    by (apply Z.rem_mod_nonneg; lia).
  constructor; cbn; rewrite ?Hrd; cbn [length] in *.
  - apply (pn_size _ _ P).
  - apply Z.mod_pos_bound. lia.
  - lia.
  - rewrite (pn_write _ _ P), Z.add_mod_idemp_l by lia. f_equal. cbn [length]. lia.
  - rewrite (pn_sem _ _ P). cbn [length]. lia.
  - intros k y Hk. rewrite Z.add_mod_idemp_l by lia.
    replace (readIndex s + 1 + Z.of_nat k) with (readIndex s + Z.of_nat (S k)) by lia.
    by apply (pn_works _ _ P (S k)).
Qed.

(** The thread, until it waits, [n] rounds at most. *)
Fixpoint run_injector (n : nat) : M (pti D) injector_state :=
  match n with
  | O => faulty Diverges
  | S n => r ← stream_injector;
           match r with Waiting => mret Waiting | _ => run_injector n end
  end.

Lemma run_injector_spec : forall q s,
  pending s q -> routes_ok s -> Forall (work_ok s) q ->
  exists l s', run_injector (S (length q)) s = Ok (Waiting, s') /\ pending s' [] /\
    injected s' = injected s ++ l /\ Forall (injection_ok s) l /\
    forall t, (t < 4)%nat -> sent t l = due s t (concat (map work_starts q)).
Proof.
  induction q as [|w q IH]; intros s P Hr Hw.
  - exists [], s. pose proof (pn_sem _ _ P) as Hsem. cbn [length] in Hsem.
    split; [|split; [done|split; [by rewrite app_nil_r|split; [done|]]]].
    + cbn [run_injector length]. unfold stream_injector.
      rewrite (M_bind_run _ _ _ Waiting s); [done|]. erewrite M_bind_run by done. by rewrite Hsem.
    + intros t _. unfold due. by destruct (route s t).
  - apply Forall_cons_1 in Hw as [Hw1 Hw].
    destruct (stream_injector_spec s w q P Hr Hw1) as (l1&E1&Hl1&Hs1).
    destruct (IH _ (popped_pending s w q (injected s ++ l1) P)) as (l2&s'&E2&P2&Hi2&Hl2&Hs2); [done|done|].
    exists (l1 ++ l2), s'. cbn [length run_injector] in E2 |- *. rewrite (M_bind_run _ _ _ _ _ E1).
    split; [exact E2|]. split; [done|]. split; [by rewrite Hi2, app_assoc|].
    split; [by apply Forall_app|]. intros t Ht.
    cbn [map concat]. rewrite sent_app, Hs1, Hs2, due_app by done. done.
Qed.

Lemma run_injector_mono n n' s s' :
  (n <= n')%nat -> run_injector n s = Ok (Waiting, s') -> run_injector n' s = Ok (Waiting, s').
Proof.
  intros Hle. revert n' s Hle. induction n as [|n IH]; intros [|n'] s Hle E; [done..|lia|].
  cbn [run_injector] in *. unfold mbind, M_bind in *. destruct (stream_injector s) as [[r s1]|e]; [|done].
  destruct r; [done|apply IH; [lia|done]..].
Qed.
End queue.

(** ** Polling the DMA ring *)

Section ring.
Context `{PtiBuild}.
Implicit Types s : pti ram.

(** The ring of 4096 packets lies at [b] and has been read up to packet [k]. *)
Record ring_at s (b k : Z) : Prop := {
  rg_base : dma_0_buffer_base s = b;
  rg_top : dma_0_buffer_top s = b + PTI_BUFFER_SIZE;
  rg_rp : dma_0_buffer_rp s = b + PACKET_SIZE * k;
  rg_phys : 0 <= b /\ b + PTI_BUFFER_SIZE < 2 ^ 32;
  rg_pos : 0 <= k <= 4096
}.

(** What the injector works on. *)
Definition same_streams s s' : Prop :=
  back_buffer s' = back_buffer s /\ demux s' = demux s /\ demux_tag s' = demux_tag s /\
  injected s' = injected s.

(** The works for the packets from [k] to [m] of the ring. *)
Definition works (k m : Z) : list work :=
  if k =? m then []
  else if k <? m then [Work (PACKET_SIZE * k) (m - k)]
  else [Work (PACKET_SIZE * k) (4096 - k); Work 0 m].

Lemma align16 x : x .& Z.lnot 0xf = 16 * (x / 16).
Proof.
  change 0xf with (Z.ones 4). rewrite <- Z.ldiff_land, Z.ldiff_ones_r by lia.
  rewrite Z.shiftl_mul_pow2, Z.shiftr_div_pow2 by lia. change (2 ^ 4) with 16. lia.
Qed.

(** Only the end of the ring is taken for its end. *)
Lemma at_top b k : 0 <= k <= 4096 ->
  ((b + PACKET_SIZE * k) .& Z.lnot 0xf =? (b + PTI_BUFFER_SIZE) .& Z.lnot 0xf) = (k =? 4096).
Proof.
  intros Hk. rewrite !align16. unfold PACKET_SIZE, PTI_BUFFER_SIZE.
  destruct (Z.eqb_spec k 4096) as [->|Hne]; [by apply Z.eqb_refl|]. apply Z.eqb_neq. intros He.
  pose proof (Z.div_mod (b + 194 * k) 16). pose proof (Z.div_mod (b + 194 * 4096) 16).
  pose proof (Z.mod_pos_bound (b + 194 * k) 16). pose proof (Z.mod_pos_bound (b + 194 * 4096) 16). lia.
Qed.

Lemma u32_packets n : 0 <= n <= 4096 -> u32 (PACKET_SIZE * n) / PACKET_SIZE = n.
Proof.
  intros Hn. unfold u32, PACKET_SIZE. rewrite Z.mod_small by lia.
  rewrite Z.mul_comm. apply Z.div_mul. lia.
Qed.

(** The part of poll_ring after the read pointer is known. *)
Lemma post_works_spec s b k m q :
  ring_at s b k -> 0 <= k < 4096 -> 0 <= m < 4096 -> k <> m ->
  pending s q -> Z.of_nat (length q) + 2 < QUEUE_SIZE ->
  exists s', (if m <? k then
       post_work (b + PACKET_SIZE * k - b) (u32 (b + PTI_BUFFER_SIZE - (b + PACKET_SIZE * k)) / PACKET_SIZE);;
       post_work 0 (4096 - k + m - u32 (b + PTI_BUFFER_SIZE - (b + PACKET_SIZE * k)) / PACKET_SIZE)
     else post_work (b + PACKET_SIZE * k - b) (m - k)) s = Ok (tt, s') /\
    pending s' (q ++ works k m) /\ same_streams s s' /\ io s' = io s /\
    dma_0_buffer_base s' = b /\ dma_0_buffer_top s' = b + PTI_BUFFER_SIZE.
Proof.
  intros R Hk Hm Hne P Hq.
  replace (b + PTI_BUFFER_SIZE - (b + PACKET_SIZE * k)) with (PACKET_SIZE * (4096 - k))
    by (unfold PTI_BUFFER_SIZE, PACKET_SIZE; lia).
  rewrite u32_packets by lia.
  replace (b + PACKET_SIZE * k - b) with (PACKET_SIZE * k) by lia.
  replace (4096 - k + m - (4096 - k)) with m by lia.
  unfold works. rewrite (proj2 (Z.eqb_neq k m)) by done.
  assert (Hs : s32 (PACKET_SIZE * k) = PACKET_SIZE * k) by (apply s32_small; unfold PACKET_SIZE; lia).
  destruct (Z.ltb_spec m k) as [Hlt|Hge].
  - rewrite (proj2 (Z.ltb_ge k m)) by lia.
    erewrite M_bind_run by (by eapply post_work_run). rewrite Hs, !s32_small by lia.
    pose proof (posted_pending _ _ (Work (PACKET_SIZE * k) (4096 - k)) P ltac:(lia)) as P1.
    erewrite post_work_run by exact P1. rewrite !s32_small by lia. eexists. split; [done|].
    split; [|split; [done|split; [done|split; [apply (rg_base _ _ _ R)|apply (rg_top _ _ _ R)]]]].
    change [?x; ?y] with ([x] ++ [y]). rewrite app_assoc. apply posted_pending; [done|].
    rewrite length_app. simpl. lia.
  - rewrite (proj2 (Z.ltb_lt k m)) by lia.
    erewrite post_work_run by exact P. rewrite Hs, !s32_small by lia. eexists. split; [done|].
    split; [|split; [done|split; [done|split; [apply (rg_base _ _ _ R)|apply (rg_top _ _ _ R)]]]].
    apply posted_pending; [done|lia].
Qed.

(** The polling of a ring whose read pointer has been brought into it. *)
Definition poll_rest (pti_wp base top rp : Z) : M (pti ram) unit :=
  '(num_packets, buffer_round) ←
    (if rp <=? pti_wp then mret (u32 (pti_wp - rp) / PACKET_SIZE, false)
     else modify (fun s => s <| loop_count2 := u32 (loop_count2 s + 1) |> <| packet_count := 0 |>);;
          mret (u32 ((top - rp) + (pti_wp - base)) / PACKET_SIZE, true));
  when (truthy num_packets) (
    pread ← PtiRead sym_pread;
    when (negb (truthy pread)) (
      modify (fun s => s <| loop_count := u32 (loop_count s + 1) |>
                         <| packet_count := u32 (packet_count s + num_packets) |>);;
      writel pti_wp PTI_DMA_0_READ;;
      PtiWrite sym_pread num_packets;;
      (if buffer_round : bool then
         let num_packets1 := u32 (top - rp) / PACKET_SIZE in
         post_work (rp - base) num_packets1;;
         post_work 0 (num_packets - num_packets1)
       else post_work (rp - base) num_packets);;
      modify (fun s => s <| dma_0_buffer_rp := pti_wp |>))).

Lemma poll_ring_wraps s b k pti_wp :
  ring_at s b k ->
  exists k', 0 <= k' < 4096 /\ k' = k mod 4096 /\ ring_at (s <| dma_0_buffer_rp := b + PACKET_SIZE * k' |>) b k' /\
    poll_ring pti_wp s = poll_rest pti_wp b (b + PTI_BUFFER_SIZE) (b + PACKET_SIZE * k')
      (s <| dma_0_buffer_rp := b + PACKET_SIZE * k' |>).
Proof.
  intros [Hb Ht Hr Hp Hk]. unfold poll_ring. do 3 erewrite M_bind_run by done.
  rewrite Hb, Ht, Hr, at_top by done. destruct (Z.eqb_spec k 4096) as [->|Hne].
  - exists 0. split; [lia|]. split; [done|]. rewrite Z.mul_0_r, Z.add_0_r.
    split; [constructor; cbn; rewrite ?Z.mul_0_r, ?Z.add_0_r; (done || lia)|].
    erewrite (M_bind_run _ _ _ b) by (by erewrite M_bind_run). done.
  - exists k. split; [lia|]. rewrite Z.mod_small by lia. split; [done|].
    split; [constructor; cbn; (done || lia)|].
    erewrite (M_bind_run _ _ _ (b + PACKET_SIZE * k)) by done. rewrite <- Hr. by destruct s.
Qed.

Lemma poll_rest_spec s b k m q :
  ring_at s b k -> 0 <= k < 4096 -> 0 <= m < 4096 -> half s sym_pread = 0 ->
  pending s q -> Z.of_nat (length q) + 2 < QUEUE_SIZE ->
  exists s', poll_rest (b + PACKET_SIZE * m) b (b + PTI_BUFFER_SIZE) (b + PACKET_SIZE * k) s = Ok (tt, s') /\
    ring_at s' b m /\ pending s' (q ++ works k m) /\ same_streams s s'.
Proof.
  intros R Hk Hm Hpr P Hq. unfold poll_rest.
  set (s1 := if m <? k then s <| loop_count2 := u32 (loop_count2 s + 1) |> <| packet_count := 0 |> else s).
  set (n := if m <? k then 4096 - k + m else m - k).
  erewrite (M_bind_run _ _ _ (n, m <? k) s1).
  2: { subst n s1. destruct (Z.leb_spec (b + PACKET_SIZE * k) (b + PACKET_SIZE * m)) as [Hle|Hgt];
         unfold PACKET_SIZE in Hle || unfold PACKET_SIZE in Hgt.
       - rewrite (proj2 (Z.ltb_ge m k)) by lia.
         replace (b + PACKET_SIZE * m - (b + PACKET_SIZE * k)) with (PACKET_SIZE * (m - k)) by lia.
         by rewrite u32_packets by lia.
       - rewrite (proj2 (Z.ltb_lt m k)) by lia. erewrite M_bind_run by done.
         replace (b + PTI_BUFFER_SIZE - (b + PACKET_SIZE * k) + (b + PACKET_SIZE * m - b))
           with (PACKET_SIZE * (4096 - k + m)) by (unfold PTI_BUFFER_SIZE, PACKET_SIZE; lia).
         by rewrite u32_packets by lia. }
  cbv beta iota.
  assert (R1 : ring_at s1 b k /\ pending s1 q /\ same_streams s s1 /\ half s1 sym_pread = 0).
  { subst s1. destruct (m <? k); (split; [by destruct R|split; [by destruct P|done]]). }
  destruct R1 as (R1&P1&S1&H1).
  destruct (decide (k = m)) as [->|Hne].
  { subst n s1. rewrite Z.ltb_irrefl, Z.sub_diag. exists s. split; [done|]. split; [done|].
    unfold works. rewrite Z.eqb_refl, app_nil_r. done. }
  assert (Hn : truthy n = true).
  { subst n. unfold truthy. destruct (Z.ltb_spec m k); apply negb_true_iff, Z.eqb_neq; lia. }
  rewrite Hn. cbv beta iota delta [when]. erewrite M_bind_run by apply PtiRead_ram. rewrite H1.
  change (negb (truthy 0)) with true. cbv beta iota.
  do 2 erewrite M_bind_run by done. erewrite M_bind_run by apply PtiWrite_ram.
  match goal with |- context [Ok _ = _] => idtac | |- exists s', (?mm ≫= ?f) ?s2 = _ /\ _ =>
    assert (R2 : ring_at s2 b k) by (by destruct R1);
    assert (P2 : pending s2 q) by (by destruct P1);
    destruct (post_works_spec s2 b k m q R2 Hk Hm Hne P2 Hq) as (s3&E3&P3&S3&_&B3&T3);
    assert (E3' : mm s2 = Ok (tt, s3))
  end.
  { rewrite <- E3. subst n. by destruct (m <? k). }
  rewrite (M_bind_run _ _ _ _ _ E3'). eexists. split; [reflexivity|]. split; [|split].
  - destruct R. by constructor; [..|lia].
  - by destruct P3.
  - destruct S1 as (?&?&?&?), S3 as (?&?&?&?). unfold same_streams. cbn in *. by split_and!; etrans.
Qed.

Lemma poll_ring_spec s b k m q :
  ring_at s b k -> 0 <= m < 4096 -> half s sym_pread = 0 ->
  pending s q -> Z.of_nat (length q) + 2 < QUEUE_SIZE ->
  exists s', poll_ring (b + PACKET_SIZE * m) s = Ok (tt, s') /\
    ring_at s' b m /\ pending s' (q ++ works (k mod 4096) m) /\ same_streams s s'.
Proof.
  intros R Hm Hpr P Hq. destruct (poll_ring_wraps s b k (b + PACKET_SIZE * m) R) as (k'&Hk&<-&R'&->).
  exact (poll_rest_spec _ b k' m q R' Hk Hm Hpr ltac:(by destruct P) Hq).
Qed.

(** The packets of the ring from [k] to [m], by their offsets in the buffer. *)
Definition ring_packets (k m : Z) : list Z :=
  map (fun i => PACKET_SIZE * ((k + Z.of_nat i) mod 4096)) (seq 0 (Z.to_nat ((m - k) mod 4096))).

Lemma starts_ring k (n : nat) : 0 <= k -> k + Z.of_nat n <= 4096 ->
  starts (PACKET_SIZE * k) n = map (fun i => PACKET_SIZE * ((k + Z.of_nat i) mod 4096)) (seq 0 n).
Proof.
  intros Hk Hn. unfold starts. apply map_ext_in. intros i Hi%in_seq.
  rewrite Z.mod_small by lia. lia.
Qed.

Lemma map_seq_from {A} (f : nat -> A) a n : map f (seq a n) = map (fun i => f (a + i)%nat) (seq 0 n).
Proof.
  revert f. induction a as [|a IH]; intros f; [done|]. by rewrite <- seq_shift, map_map, IH.
Qed.

Lemma works_packets k m : 0 <= k < 4096 -> 0 <= m < 4096 ->
  concat (map work_starts (works k m)) = ring_packets k m.
Proof.
  intros Hk Hm. unfold works, ring_packets. destruct (Z.eqb_spec k m) as [->|Hne]; [by rewrite Z.sub_diag|].
  destruct (Z.ltb_spec k m); cbn [map concat work_starts offset count]; rewrite app_nil_r.
  - unfold work_starts. cbn [offset count]. rewrite Z.mod_small, starts_ring by lia. done.
  - unfold work_starts. cbn [offset count]. change 0 with (PACKET_SIZE * 0) at 1.
    rewrite !starts_ring by lia.
    replace ((m - k) mod 4096) with ((4096 - k) + m)
      by (rewrite <- (Z.mod_add (m - k) 1) by lia; rewrite Z.mod_small; lia).
    rewrite (Z2Nat.inj_add (4096 - k) m) by lia. rewrite seq_app, map_app. f_equal.
    cbn [Nat.add]. rewrite (map_seq_from _ (Z.to_nat (4096 - k))). apply map_ext_in. intros i Hi%in_seq.
    replace (k + Z.of_nat (Z.to_nat (4096 - k) + i)) with (0 + Z.of_nat i + 1 * 4096) by lia.
    rewrite (Z.mod_add _ 1) by lia. done.
Qed.

Lemma works_ok s k m : Z.of_nat (length (back_buffer s)) = PTI_BUFFER_SIZE ->
  0 <= k < 4096 -> 0 <= m < 4096 -> Forall (work_ok s) (works k m).
Proof.
  intros Hl Hk Hm. unfold works, work_ok. rewrite Hl. unfold PTI_BUFFER_SIZE, PACKET_SIZE.
  destruct (Z.eqb_spec k m); [done|]. destruct (Z.ltb_spec k m); repeat constructor; cbn; lia.
Qed.

Lemma works_length k m : (length (works k m) <= 2)%nat.
Proof. unfold works. destruct (k =? m), (k <? m); simpl; lia. Qed.

Lemma process_pti_dma_spec s b k q :
  let wp := word_at s PTI_DMA_0_WRITE in
  ring_at s b k -> b <= wp < b + PTI_BUFFER_SIZE ->
  half s sym_discard = 0 -> half s sym_pread = 0 ->
  pending s q -> Z.of_nat (length q) + 2 < QUEUE_SIZE ->
  exists s', process_pti_dma s = Ok (tt, s') /\ ring_at s' b ((wp - b) / PACKET_SIZE) /\
    pending s' (q ++ works (k mod 4096) ((wp - b) / PACKET_SIZE)) /\ same_streams s s'.
Proof.
  intros wp R Hwp Hd Hr P Hq. unfold process_pti_dma.
  erewrite M_bind_run by apply readl_ram. erewrite M_bind_run by done. fold wp. rewrite (rg_base _ _ _ R).
  pose proof (rg_phys _ _ _ R) as Hph. set (m := (wp - b) / PACKET_SIZE).
  assert (Hm : 0 <= m < 4096).
  { unfold m, PACKET_SIZE, PTI_BUFFER_SIZE in *. split; [apply Z.div_pos; lia|apply Z.div_lt_upper_bound; lia]. }
  assert (u32 (wp - u32 (wp - b) mod PACKET_SIZE) = b + PACKET_SIZE * m) as ->.
  { unfold m, u32. rewrite (Z.mod_small (wp - b)) by (unfold PTI_BUFFER_SIZE in *; lia).
    pose proof (Z.div_mod (wp - b) PACKET_SIZE ltac:(done)) as He.
    pose proof (Z.mod_pos_bound (wp - b) PACKET_SIZE ltac:(done)).
    rewrite Z.mod_small; [lia|]. unfold PACKET_SIZE, PTI_BUFFER_SIZE in *. lia. }
  erewrite M_bind_run by apply readl_ram.
  set (s1 := if truthy (word_at s PTI_IIF_FIFO_COUNT .& PTI_IIF_FIFO_FULL)
             then s <| err_count := s32 (err_count s + 1) |> else s).
  rewrite (M_bind_run _ _ _ tt s1) by (subst s1; by destruct (truthy _)).
  erewrite M_bind_run by apply PtiRead_ram.
  assert (H1 : half s1 sym_discard = 0 /\ half s1 sym_pread = 0 /\ ring_at s1 b k /\ pending s1 q /\
    same_streams s s1).
  { subst s1. destruct (truthy _); (split; [done|split; [done|split; [by destruct R|split; [by destruct P|done]]]]). }
  destruct H1 as (Hd1&Hr1&R1&P1&(S1&S2&S3&S4)). rewrite Hd1. change (truthy 0) with false. cbv iota.
  destruct (poll_ring_spec s1 b k m q R1 Hm Hr1 P1 Hq) as (s2&E&R2&P2&(T1&T2&T3&T4)). exists s2.
  split; [exact E|]. split; [done|]. split; [done|]. unfold same_streams. by split_and!; etrans.
Qed.

(** C2. The packets the demultiplexer's firmware has put in the ring since the
    last poll all reach their demultiplexers: after one poll and the injector
    thread's work, the bytes injected for each of the four tags are, in order,
    the payloads of that tag's packets between the old and the new read
    pointer, wrap-around included, and every call passes 1 to 20 whole packets
    to the demultiplexer routed to the tag. *)
Theorem pti_delivers s b k :
  let wp := word_at s PTI_DMA_0_WRITE in
  ring_at s b k -> b <= wp < b + PTI_BUFFER_SIZE ->
  half s sym_discard = 0 -> half s sym_pread = 0 ->
  pending s [] -> routes_ok s -> Z.of_nat (length (back_buffer s)) = PTI_BUFFER_SIZE ->
  exists l s', (process_pti_dma;; run_injector 3) s = Ok (Waiting, s') /\
    injected s' = injected s ++ l /\ Forall (injection_ok s) l /\
    forall t, (t < 4)%nat -> sent t l = due s t (ring_packets (k mod 4096) ((wp - b) / PACKET_SIZE)).
Proof.
  intros wp R Hwp Hd Hr P Hro Hl.
  destruct (process_pti_dma_spec s b k [] R Hwp Hd Hr P) as (s1&E1&R1&P1&(S1&S2&S3&S4)); [done|].
  fold wp in R1, P1. set (m := (wp - b) / PACKET_SIZE) in *. cbn [app] in P1.
  assert (Hk : 0 <= k mod 4096 < 4096) by (apply Z.mod_pos_bound; lia).
  assert (Hm : 0 <= m < 4096).
  { unfold m, PACKET_SIZE, PTI_BUFFER_SIZE in *. split; [apply Z.div_pos; lia|apply Z.div_lt_upper_bound; lia]. }
  assert (Hro1 : routes_ok s1) by (unfold routes_ok; by rewrite S2, S3).
  assert (Hroute : forall t, route s1 t = route s t) by (intros t; unfold route; by rewrite S2, S3).
  destruct (run_injector_spec _ _ P1 Hro1) as (l&s2&E2&P2&I2&F2&D2); [apply works_ok; rewrite ?S1; done|].
  exists l, s2. split; [|split; [by rewrite I2, S4|split]].
  - rewrite (M_bind_run _ _ _ _ _ E1). apply run_injector_mono with (2 := E2).
    pose proof (works_length (k mod 4096) m). lia.
  - eapply Forall_impl; [|exact F2]. intros i (H1&H2&t&H3&H4). split; [done|]. split; [done|].
    exists t. by rewrite <- Hroute.
  - intros t Ht. rewrite D2, works_packets by done. unfold due. rewrite Hroute.
    unfold payload_at, tag_at. by rewrite S1.
Qed.
End ring.

(** ** Initialisation *)

Section init.
Context `{PtiBuild}.
Implicit Types s : pti ram.

Definition wrote s (a v : Z) : pti ram := s <| io := <[pti_io s + a := u32 v]> (io s) |>.

Lemma writel_ram v a s : writel v a s = Ok (tt, wrote s a v).
Proof. done. Qed.

(** The registers are below the memory of the firmware. *)
Lemma half_wrote s a v b : 0 <= a < 0x8000 -> 0x8000 <= b -> half (wrote s a v) b = half s b.
Proof.
  intros Ha Hb. unfold half. assert (word_at (wrote s a v) (b .& Z.lnot 3) = word_at s (b .& Z.lnot 3)) as ->.
  { unfold word_at, wrote. cbn. rewrite lookup_insert_ne; [done|]. rewrite align.
    pose proof (Z.div_mod b 4 ltac:(lia)). pose proof (Z.mod_pos_bound b 4 ltac:(lia)). lia. }
  done.
Qed.

(** The firmware variables but those of [l] are unchanged, and nothing but the
    memory is changed. *)
Definition memory_step s s' (l : list Z) : Prop :=
  s' = s <| io := io s' |> /\
  forall b, 0x8000 <= b -> Z.even b = true -> b ∉ l -> half s' b = half s b.

Lemma memory_step_trans s1 s2 s3 l : memory_step s1 s2 l -> memory_step s2 s3 l -> memory_step s1 s3 l.
Proof.
  intros [E1 H1] [E2 H2]. split.
  - rewrite E2, E1. done.
  - intros b Hb He Hl. by rewrite H2, H1.
Qed.

Lemma memory_step_wrote s a v l : 0 <= a < 0x8000 -> memory_step s (wrote s a v) l.
Proof. intros Ha. split; [done|]. intros b Hb _ _. by apply half_wrote. Qed.

Lemma memory_step_put s a v l : Z.even a = true -> a ∈ l -> memory_step s (put_half s a v) l.
Proof.
  intros Ha Hl. split; [done|]. intros b _ He Hb. rewrite half_put by done.
  destruct (Z.eqb_spec a b); [by subst|done].
Qed.

Lemma stop_pwrite_spec s :
  half s sym_psize + 2 < 2 ^ 16 ->
  exists s', stop_pwrite 100 s = Ok (tt, s') /\ memory_step s s' [sym_pwrite].
Proof.
  intros Hz. change 100%nat with (S 99). remember 99%nat as n. cbn [stop_pwrite].
  do 2 erewrite M_bind_run by apply PtiRead_ram.
  destruct (Z.eqb_spec (half s sym_pwrite) (half s sym_psize + 2)); [exists s; by repeat split; destruct s|].
  erewrite M_bind_run by apply PtiRead_ram. erewrite M_bind_run by apply PtiWrite_ram.
  erewrite M_bind_run by apply PtiRead_ram. erewrite M_bind_run by apply PtiWrite_ram.
  pose proof (half_bound s sym_psize) as Hb.
  assert (Hps : forall s v, half (put_half s sym_pwrite v) sym_psize = half s sym_psize)
    by (intros; by rewrite half_put).
  rewrite Hps. set (v := half s sym_psize + 2).
  exists (put_half (put_half s sym_pwrite v) sym_pwrite v). split.
  - subst n. cbn [stop_pwrite]. do 2 erewrite M_bind_run by apply PtiRead_ram. rewrite !Hps, half_put by done.
    cbn [Z.eqb Pos.eqb sym_pwrite]. unfold u16, v. rewrite Z.mod_small by lia. by rewrite Z.eqb_refl.
  - eapply memory_step_trans; apply memory_step_put; (reflexivity || apply list_elem_of_here).
Qed.

Lemma wait_dma_done_ram n s : wait_dma_done n s = Ok (tt, s).
Proof.
  induction n as [|n IH]; cbn [wait_dma_done]; erewrite M_bind_run by apply readl_ram; by destruct (truthy _).
Qed.

(** Stopping the DMA ends. *)
Lemma stpti_stop_dma_spec s :
  half s sym_psize + 2 < 2 ^ 16 ->
  exists s', stpti_stop_dma s = Ok (tt, s') /\ memory_step s s' [sym_pread; sym_pwrite].
Proof.
  intros Hz. unfold stpti_stop_dma. erewrite M_bind_run by apply PtiWrite_ram.
  destruct (stop_pwrite_spec (put_half s sym_pread 0)) as (s1&E1&H1 & H2); [by rewrite half_put|].
  rewrite (M_bind_run _ _ _ _ _ E1). erewrite M_bind_run by apply readl_ram.
  do 2 erewrite M_bind_run by apply writel_ram. erewrite M_bind_run by apply wait_dma_done_ram.
  erewrite M_bind_run by apply readl_ram. rewrite writel_ram. eexists. split; [done|].
  do 3 (eapply memory_step_trans; [|apply memory_step_wrote; unfold PTI_DMA_ENABLE, PTI_DMA_0_STATUS; lia]).
  eapply memory_step_trans; [apply (memory_step_put s sym_pread 0); [reflexivity|apply list_elem_of_here]|].
  split; [done|]. intros b Hb He Hl. apply H2; [exact Hb|exact He|].
  intros Hin. apply Hl. by apply list_elem_of_further.
Qed.

Lemma load_image_ram : forall image a s,
  exists m, load_image image a s = Ok (tt, s <| io := m |>).
Proof.
  induction image as [|w image IH]; intros a s; cbn [load_image].
  - exists (io s). by destruct s.
  - erewrite M_bind_run by apply writel_ram. destruct (IH (a + 4) (wrote s a w)) as [m E].
    exists m. by rewrite E.
Qed.

Lemma stpti_setup_dma_spec s :
  exists s1 v, stpti_setup_dma s = Ok (tt, wrote (s1 <| dma_0_buffer_base := back_phys s |>
      <| dma_0_buffer_top := u32 (back_phys s + PTI_BUFFER_SIZE) |>
      <| dma_0_buffer_rp := back_phys s |>) PTI_DMA_0_SETUP v) /\ memory_step s s1 [].
Proof.
  unfold stpti_setup_dma. erewrite M_bind_run by done. do 4 erewrite M_bind_run by apply writel_ram.
  erewrite M_bind_run by done. rewrite writel_ram. eexists _, _. split; [reflexivity|].
  do 3 (eapply memory_step_trans; [|by apply memory_step_wrote]). by apply memory_step_wrote.
Qed.

(** The state of the driver once it is set up, but for the slots. *)
Record dma_ready s (b : Z) : Prop := {
  rd_ring : ring_at s b 0;
  rd_pread : half s sym_pread = 0;
  rd_discard : half s sym_discard = 0;
  rd_num : half s sym_num_pids = 0;
  rd_psize : half s sym_psize = 4094
}.

Lemma reset_start_spec s :
  half s sym_psize = 4094 -> half s sym_num_pids = 0 ->
  0 <= back_phys s -> back_phys s + PTI_BUFFER_SIZE < 2 ^ 32 ->
  exists s', (stpti_reset_dma;; stpti_start_dma) s = Ok (tt, s') /\ dma_ready s' (back_phys s) /\
    s' = s <| io := io s' |> <| dma_0_buffer_base := back_phys s |>
      <| dma_0_buffer_top := back_phys s + PTI_BUFFER_SIZE |> <| dma_0_buffer_rp := back_phys s |>
      <| loop_count := 0 |> <| loop_count2 := 0 |> <| packet_count := 0 |>.
Proof.
  intros Hz Hn Hp1 Hp2. destruct (stpti_stop_dma_spec s) as (s1&E1&F1&M1); [rewrite Hz; lia|].
  destruct (stpti_setup_dma_spec s1) as (s2&v&E2&F2&M2).
  assert (Hb : back_phys s1 = back_phys s) by (by rewrite F1).
  rewrite Hb in E2. unfold u32 in E2. rewrite (Z.mod_small (back_phys s + _)) in E2
    by (unfold PTI_BUFFER_SIZE in *; lia).
  erewrite M_bind_run.
  2: { unfold stpti_reset_dma. rewrite (M_bind_run _ _ _ _ _ E1). exact E2. }
  match goal with |- context [stpti_start_dma ?x] => set (s3 := x) end.
  assert (M3 : forall b, 0x8000 <= b -> Z.even b = true -> b ∉ [sym_pread; sym_pwrite] -> half s3 b = half s b).
  { intros b B1 B2 B3. unfold s3. rewrite half_wrote by done. etrans; [|by apply M1].
    apply M2; [done..|]. apply not_elem_of_nil. }
  unfold stpti_start_dma. erewrite M_bind_run by apply readl_ram. erewrite M_bind_run by apply writel_ram.
  do 3 erewrite M_bind_run by apply PtiWrite_ram.
  match goal with |- context [modify _ ?x] => set (s4 := x) end.
  assert (M4 : forall b, 0x8000 <= b -> Z.even b = true ->
    half s4 b = if (b =? sym_discard) || (b =? sym_pwrite) || (b =? sym_pread) then 0 else half s3 b).
  { intros b B1 B2. unfold s4. rewrite !half_put, half_wrote by done.
    rewrite (Z.eqb_sym b sym_discard), (Z.eqb_sym b sym_pwrite), (Z.eqb_sym b sym_pread).
    by destruct (sym_discard =? b), (sym_pwrite =? b), (sym_pread =? b). }
  eexists. split; [reflexivity|]. split.
  - constructor; [|apply M4; done..| |].
    + constructor; cbn; rewrite ?F2, ?F1; try done. unfold PACKET_SIZE. cbn. lia.
    + change (half s4 sym_num_pids = 0). rewrite M4 by done. rewrite <- Hn. apply M3; [done..|].
      by intros [Hx|[Hx|[]]]%list_elem_of_In.
    + change (half s4 sym_psize = 4094). rewrite M4 by done. rewrite <- Hz. apply M3; [done..|].
      by intros [Hx|[Hx|[]]]%list_elem_of_In.
  - unfold s4, s3, wrote, put_half. rewrite F2, F1. reflexivity.
Qed.

(** The driver's variables before it is initialised. *)
Record fresh s : Prop := {
  fr_phys : 0 <= back_phys s /\ back_phys s + PTI_BUFFER_SIZE < 2 ^ 32;
  fr_queue : length (workQueue s) = 400%nat;
  fr_index : readIndex s = 0 /\ writeIndex s = 0
}.

Lemma empty_table s : vSlots s = pti_slots -> half s sym_num_pids = 0 -> pid_table s [].
Proof.
  intros Hs Hn. assert (Hx : forall i x, vSlots s !! i = Some x ->
    x = Slot (SLOT_HANDLE_OFFSET + Z.of_nat i) 0 (-1) 0xffff).
  { rewrite Hs. unfold pti_slots. intros i x Hi.
    change (map ?f ?l) with (f <$> l) in Hi. apply list_lookup_fmap_Some in Hi as (j&->&Hj).
    by apply lookup_seq in Hj as [-> _]. }
  constructor; [by rewrite Hs|..].
  - by intros i x ->%Hx.
  - done.
  - apply NoDup_nil_2.
  - apply NoDup_nil_2.
  - done.
  - intros i x ->%Hx. by left.
Qed.

Lemma start_tc_spec s code data :
  exists s', start_tc code data s = Ok (tt, s') /\ s' = s <| io := io s' |> /\
    half s' sym_psize = 4094 /\ half s' sym_num_pids = 0.
Proof.
  unfold start_tc. erewrite M_bind_run by apply writel_ram.
  destruct (load_image_ram code PTI_IRAM_BASE (wrote s PTI_DMA_PTI3_PROG 0x1)) as [m1 E1].
  rewrite (M_bind_run _ _ _ _ _ E1). set (s1 := _ <| io := m1 |>).
  destruct (load_image_ram data PTI_DRAM_BASE s1) as [m2 E2].
  rewrite (M_bind_run _ _ _ _ _ E2). set (s2 := s1 <| io := m2 |>).
  do 2 erewrite M_bind_run by apply PtiWrite_ram. do 6 erewrite M_bind_run by apply writel_ram.
  erewrite M_bind_run by apply PtiWrite_ram. rewrite PtiWrite_ram.
  eexists. split; [reflexivity|]. split; [reflexivity|]. split; rewrite !half_put by done; done.
Qed.

End init.

(** ** Properties and examples *)

Section properties.
Context `{PtiBuild}.
Implicit Types s : pti ram.

(** A client's calls with their results. *)
Inductive calls : pti ram -> list (pid_op * Z) -> pti ram -> Prop :=
| calls_nil s : calls s [] s
| calls_cons s op r s1 tr s2 :
    allowed s op -> run_op op s = Ok (r, s1) -> calls s1 tr s2 -> calls s ((op, r) :: tr) s2.

(** The same calls on the table of collected PIDs. *)
Inductive spec_calls : list (nat * Z) -> list (pid_op * Z) -> list (nat * Z) -> Prop :=
| spec_calls_nil l : spec_calls l [] l
| spec_calls_cons l op r l1 tr l2 :
    spec_op l op r l1 -> spec_calls l1 tr l2 -> spec_calls l ((op, r) :: tr) l2.

(** C15. The table of PIDs the firmware collects is kept consistently with the
    slots: over any sequence of calls that set a PID only on a used slot
    without one, the device's table and the slots' indices always stand for a
    list of slots with distinct PIDs, changed by each call as the abstract
    operation says (a PID is added once, a clear removes exactly its slot's
    entry, moving the last one into its place), and no call faults. *)
Theorem pti_pids_refine s l tr s' :
  pid_table s l -> calls s tr s' ->
  (exists l', spec_calls l tr l' /\ pid_table s' l') /\
  forall op, allowed s' op -> exists r s'', run_op op s' = Ok (r, s'').
Proof.
  intros T C. enough (exists l', spec_calls l tr l' /\ pid_table s' l') as (l'&C'&T').
  { split; [by exists l'|]. intros op Hop. destruct (run_op_spec s' l' op T' Hop) as (r&s2&_&E&_). eauto. }
  revert l T. induction C as [s|s op r s1 tr s2 Hop E C IH]; intros l T.
  - exists l. split; [constructor|done].
  - destruct (run_op_spec s l op T Hop) as (r'&s1'&l1&E'&T1&Sp). rewrite E in E'. injection E' as <- <-.
    destruct (IH l1 T1) as (l'&C'&T'). exists l'. split; [by econstructor|done].
Qed.

(** A half-word written to the device is read back, and no other half-word
    changes, though only whole words can be written. *)
Theorem pti_halfword s a v :
  Z.even a = true ->
  exists s', PtiWrite a v s = Ok (tt, s') /\ PtiRead a s' = Ok (u16 v, s') /\
    forall b, Z.even b = true -> b <> a -> exists w, PtiRead b s = Ok (w, s) /\ PtiRead b s' = Ok (w, s').
Proof.
  intros Ha. exists (put_half s a v). split; [apply PtiWrite_ram|]. split.
  - rewrite PtiRead_ram, half_put by done. by rewrite Z.eqb_refl.
  - intros b Hb Hne. exists (half s b). split; [apply PtiRead_ram|].
    rewrite PtiRead_ram, half_put by done. by rewrite (proj2 (Z.eqb_neq a b)) by done.
Qed.

(** While the firmware has not acknowledged the last read, a poll leaves
    the packets in the ring for a later one: nothing is posted and the read
    pointer stays at its packet. *)
Theorem pti_poll_waits s b k :
  let wp := word_at s PTI_DMA_0_WRITE in
  ring_at s b k -> half s sym_discard = 0 -> half s sym_pread <> 0 ->
  exists s', process_pti_dma s = Ok (tt, s') /\ ring_at s' b (k mod 4096) /\
    workQueue s' = workQueue s /\ workSem s' = workSem s /\ writeIndex s' = writeIndex s.
Proof.
  intros wp R Hd Hr. unfold process_pti_dma.
  erewrite M_bind_run by apply readl_ram. erewrite M_bind_run by done.
  erewrite M_bind_run by apply readl_ram.
  set (s1 := if truthy (word_at s PTI_IIF_FIFO_COUNT .& PTI_IIF_FIFO_FULL)
             then s <| err_count := s32 (err_count s + 1) |> else s).
  rewrite (M_bind_run _ _ _ tt s1) by (subst s1; by destruct (truthy _)).
  erewrite M_bind_run by apply PtiRead_ram.
  assert (H1 : half s1 sym_discard = 0 /\ half s1 sym_pread <> 0 /\ ring_at s1 b k /\
    workQueue s1 = workQueue s /\ workSem s1 = workSem s /\ writeIndex s1 = writeIndex s).
  { subst s1. destruct (truthy _); (split; [done|split; [done|split; [by destruct R|done]]]). }
  destruct H1 as (Hd1&Hr1&R1&W1&W2&W3). rewrite Hd1. change (truthy 0) with false. cbv iota.
  match goal with |- context [poll_ring ?w] =>
    destruct (poll_ring_wraps s1 b k w R1) as (k'&Hk&Hk'&R2&->) end.
  rewrite <- Hk'. unfold poll_rest.
  match goal with |- exists s', (?m ≫= _) ?x = _ /\ _ => set (s2 := x) in *;
    assert (exists n r l p, m s2 = Ok ((n, r), s2 <| loop_count2 := l |> <| packet_count := p |>))
      as (n&r&lc&pc&E) end.
  { case_match; [by eexists _, _, (loop_count2 s2), (packet_count s2)|].
    erewrite M_bind_run by done. by eexists _, _, _, _. }
  rewrite (M_bind_run _ _ _ _ _ E). cbv beta iota. exists (s2 <| loop_count2 := lc |> <| packet_count := pc |>).
  split; [|split; [by destruct R2|by rewrite <- W1, <- W2, <- W3]].
  unfold when. destruct (truthy n); [|done]. erewrite M_bind_run by apply PtiRead_ram.
  change (half (s2 <| loop_count2 := lc |> <| packet_count := pc |>) sym_pread) with (half s1 sym_pread).
  assert (truthy (half s1 sym_pread) = true) as -> by (unfold truthy; by apply negb_true_iff, Z.eqb_neq). done.
Qed.
End properties.

(** A driver with a demultiplexer for tag 2, and its memory as [m]. *)
Definition demo_driver (m : ram) : pti ram :=
  mkPti m 0 0x1000 [None; None; Some 7; None] [0; 1; 2; 3] 0
    (replicate (Z.to_nat PTI_BUFFER_SIZE) 8) 0 0 0 pti_slots (replicate 400 (Work 0 0)) 0 0 0
    0x1000 (0x1000 + PTI_BUFFER_SIZE) 0x1000 [].

Lemma demo_ring m : ring_at (demo_driver m) 0x1000 0.
Proof. by repeat constructor. Qed.

Lemma demo_pending m : pending (demo_driver m) [].
Proof. by constructor. Qed.

Lemma demo_routes m : routes_ok (demo_driver m).
Proof. split; [done|]. split; [done|]. repeat constructor; lia. Qed.

Definition demo_write : ram := {[ PTI_DMA_0_WRITE := 0x1000 + 194 * 3 + 5 ]}.

Lemma pti_delivers_witness :
  let s := demo_driver demo_write in
  exists l s', (@process_pti_dma ram _;; @run_injector ram false 3) s = Ok (Waiting, s') /\
    injected s' = injected s ++ l /\ Forall (@injection_ok ram false s) l /\
    forall t, (t < 4)%nat -> sent t l = @due ram false s t (ring_packets 0 3).
Proof.
  intros s. refine (@pti_delivers false s 0x1000 0 (demo_ring _) _ _ _ (demo_pending _) (demo_routes _) _).
  - split; vm_compute; [intros [=]|reflexivity].
  - reflexivity.
  - reflexivity.
  - change (Z.of_nat (length (replicate (Z.to_nat PTI_BUFFER_SIZE) 8)) = PTI_BUFFER_SIZE).
    rewrite list.length_replicate. apply Z2Nat.id. unfold PTI_BUFFER_SIZE. lia.
Defined.

Lemma pti_poll_waits_witness :
  let s := demo_driver (<[32816 := 0x30000]> demo_write) in
  exists s', process_pti_dma s = Ok (tt, s') /\ ring_at s' 0x1000 0 /\
    workQueue s' = workQueue s /\ workSem s' = workSem s /\ writeIndex s' = writeIndex s.
Proof.
  intros s. refine (@pti_poll_waits s 0x1000 0 (demo_ring _) _ _).
  - reflexivity.
  - vm_compute. intros [=].
Defined.


Lemma pti_halfword_witness :
  exists s', PtiWrite sym_pread 70000 (demo_driver empty) = Ok (tt, s') /\
    PtiRead sym_pread s' = Ok (4464, s') /\
    forall b, Z.even b = true -> b <> sym_pread ->
      exists w, PtiRead b (demo_driver empty) = Ok (w, demo_driver empty) /\ PtiRead b s' = Ok (w, s').
Proof. exact (@pti_halfword (demo_driver empty) sym_pread 70000 eq_refl). Defined.

(** The calls [ops] in order, with their results and the driver at the end. *)
Fixpoint run_ops (ops : list pid_op) (s : pti ram) : option (list Z * pti ram) :=
  match ops with
  | [] => Some ([], s)
  | op :: ops =>
      match run_op op s with
      | Ok (r, s1) => match run_ops ops s1 with Some (rs, s2) => Some (r :: rs, s2) | None => None end
      | Fault _ => None
      end
  end.

(** A driver without its packet buffer, which these calls do not use. *)
Definition demo_slots : pti ram := (demo_driver empty) <| back_buffer := [] |>.

Definition demo_ops : list pid_op := [NewSlot; NewSlot; SetPid 0 100; SetPid 1 200; ClearPid 0].

Lemma demo_calls :
  exists s', calls demo_slots (zip demo_ops [20000; 20001; 0; 0; 0]) s' /\ map tcIndex (take 2 (vSlots s')) = [-1; 0].
Proof.
  eexists. split.
  - repeat (eapply calls_cons; [|vm_compute; reflexivity|]); [..|apply calls_nil]; cbn [allowed]; try done;
      try (split; [done|]; eexists; split; [vm_compute; reflexivity|done]); lia.
  - vm_compute. reflexivity.
Qed.

Lemma pti_pids_refine_witness :
  exists s', calls demo_slots (zip demo_ops [20000; 20001; 0; 0; 0]) s' /\
    (exists l', spec_calls [] (zip demo_ops [20000; 20001; 0; 0; 0]) l' /\ pid_table s' l') /\
    forall op, allowed s' op -> exists r s'', run_op op s' = Ok (r, s'').
Proof.
  destruct demo_calls as (s'&C&_). exists s'. split; [exact C|].
  refine (@pti_pids_refine demo_slots [] _ s' _ C). by apply empty_table.
Defined.

(** Setting a second PID on a slot that has one is accepted and orphans the
    first table entry: after the slot's PID is cleared no slot has an index,
    yet the firmware still collects the first PID, setting it anywhere is
    refused as collected already, and freeing the slot does not remove it. *)
Theorem pti_set_pid_twice :
  exists s', run_ops [NewSlot; SetPid 0 100; SetPid 0 200; ClearPid 0; FreeSlot 0; NewSlot; SetPid 0 100] demo_slots
      = Some ([20000; 0; 0; 0; 0; 20000; -1], s') /\
    PtiRead sym_num_pids s' = Ok (1, s') /\ PtiRead sym_pidtable s' = Ok (100, s') /\
    Forall (fun x => tcIndex x = -1) (vSlots s').
Proof.
  eexists. split; [vm_compute; reflexivity|]. split; [vm_compute; reflexivity|].
  split; [vm_compute; reflexivity|]. vm_compute. by repeat constructor.
Qed.
