(* ===== verification/Avs.v ===== *)
(** * Audio/video switch drivers: the common part (avs/avs_core.h)

    The control commands of the device file, the I2C bus the chips hang on and
    the caller's memory. *)
From S2P Require Export Prelude.

Definition AVS_MUTE := 1.
Definition AVS_UNMUTE := 0.
Definition AVSIOSET := 0x1000.
Definition AVSIOGET := 0x2000.
Definition AVSIOSVSW1 := 1 .| AVSIOSET.
Definition AVSIOSVSW2 := 2 .| AVSIOSET.
Definition AVSIOSVSW3 := 3 .| AVSIOSET.
Definition AVSIOSASW1 := 4 .| AVSIOSET.
Definition AVSIOSASW2 := 5 .| AVSIOSET.
Definition AVSIOSASW3 := 6 .| AVSIOSET.
Definition AVSIOSVOL := 7 .| AVSIOSET.
Definition AVSIOSMUTE := 8 .| AVSIOSET.
Definition AVSIOSFBLK := 9 .| AVSIOSET.
Definition AVSIOSFNC := 10 .| AVSIOSET.
Definition AVSIOSYCM := 11 .| AVSIOSET.
Definition AVSIOSZCD := 12 .| AVSIOSET.
Definition AVSIOSLOG1 := 13 .| AVSIOSET.
Definition AVSIOSLOG2 := 14 .| AVSIOSET.
Definition AVSIOSLOG3 := 15 .| AVSIOSET.
Definition AVSIOSLOG4 := 16 .| AVSIOSET.
Definition AVSIOGVSW1 := 17 .| AVSIOGET.
Definition AVSIOGVSW2 := 18 .| AVSIOGET.
Definition AVSIOGVSW3 := 19 .| AVSIOGET.
Definition AVSIOGASW1 := 20 .| AVSIOGET.
Definition AVSIOGASW2 := 21 .| AVSIOGET.
Definition AVSIOGASW3 := 22 .| AVSIOGET.
Definition AVSIOGVOL := 23 .| AVSIOGET.
Definition AVSIOGMUTE := 24 .| AVSIOGET.
Definition AVSIOGFBLK := 25 .| AVSIOGET.
Definition AVSIOGFNC := 26 .| AVSIOGET.
Definition AVSIOGYCM := 27 .| AVSIOGET.
Definition AVSIOGZCD := 28 .| AVSIOGET.
Definition AVSIOGLOG1 := 29 .| AVSIOGET.
Definition AVSIOGLOG2 := 30 .| AVSIOGET.
Definition AVSIOGLOG3 := 31 .| AVSIOGET.
Definition AVSIOGLOG4 := 32 .| AVSIOGET.
Definition AVSIOGSTATUS := 33 .| AVSIOGET.
Definition AVSIOGTYPE := 34 .| AVSIOGET.
Definition AVSIOSSCARTPIN8 := 35 .| AVSIOSET.
Definition AVSIOGSCARTPIN8 := 36 .| AVSIOGET.
Definition AVSIOSTANDBY := 99 .| AVSIOSET.
Definition SAAIOSENC := 4.
Definition SAAIOSMODE := 5.
Definition SAAIOSWSS := 10.
Definition SAAIOSSRCSEL := 11.
Definition SAA_MODE_RGB := 0.
Definition SAA_MODE_FBAS := 1.
Definition SAA_MODE_SVIDEO := 2.
Definition SAA_MODE_COMPONENT := 3.
Definition SAA_NTSC := 0.
Definition SAA_PAL := 1.
Definition SAA_PAL_M := 2.
Definition SAA_WSS_43F := 0.
Definition SAA_WSS_169F := 7.
Definition SAA_WSS_OFF := 8.
Definition SAA_SRC_ENC := 0.
Definition SAA_SRC_SCART := 1.

Definition EFAULT := 14.
Definition EINVAL := 22.

(** The bus: sending bytes to the chip gives a number of bytes or an error;
    receiving a byte gives the same and the byte. *)
Class I2c (D : Type) := {
  i2c_master_send : list Z -> D -> Z * D;
  i2c_master_recv : D -> (Z * Z) * D
}.

(** The memory an ioctl's argument points to: its value, unless it cannot be
    read, and whether it can be written. *)
Record user_ptr := UserPtr { readable : option Z; writable : bool }.

(** What a command returns, and what it stored through its argument. *)
Definition reply : Type := Z * option Z.

Definition put_user (val : Z) (arg : user_ptr) : reply :=
  if writable arg then (0, Some val) else (- EFAULT, None).
