(* ===== verification/Stv6412.v ===== *)
(** * The STV6412 audio/video switch (avs/stv6412.c)

    Its seven registers as bit fields, the message that sends them, the set and
    get functions, mute and standby with their saved values, and the command
    dispatch of the device file and of other drivers. *)
From S2P Require Import Avs.

(** ** Registers *)

(** struct s_stv6412_data, a line per byte. *)
Record s_stv6412_data := Regs {
  svm : Z; t_vol_c : Z; t_vol_x : Z; t_stereo : Z;
  tc_asc : Z; c_ag : Z; v_asc : Z; res1 : Z; v_stereo : Z;
  t_vsc : Z; t_cm : Z; v_vsc : Z; v_cm : Z;
  fblk : Z; rgb_vsc : Z; rgb_gain : Z; rgb_tri : Z;
  t_rcos : Z; r_ac : Z; r_tfc : Z; v_cgc : Z; v_coc : Z; res2 : Z; slb : Z; it_enable : Z;
  e_rcsc : Z; v_rcsc : Z; e_aig : Z; t_sb : Z; v_sb : Z;
  e_in : Z; v_in : Z; t_in : Z; a_in : Z; v_out : Z; c_out : Z; t_out : Z; r_out : Z
}.

Definition eta_regs (s : s_stv6412_data) : s_stv6412_data :=
  Regs (svm s) (t_vol_c s) (t_vol_x s) (t_stereo s) (tc_asc s) (c_ag s) (v_asc s)
    (res1 s) (v_stereo s) (t_vsc s) (t_cm s) (v_vsc s) (v_cm s) (fblk s) (rgb_vsc s)
    (rgb_gain s) (rgb_tri s) (t_rcos s) (r_ac s) (r_tfc s) (v_cgc s) (v_coc s) (res2 s)
    (slb s) (it_enable s) (e_rcsc s) (v_rcsc s) (e_aig s) (t_sb s) (v_sb s) (e_in s)
    (v_in s) (t_in s) (a_in s) (v_out s) (c_out s) (t_out s) (r_out s).
#[export] Instance set_svm : Setter svm := ltac:(setter eta_regs svm).
#[export] Instance set_t_vol_c : Setter t_vol_c := ltac:(setter eta_regs t_vol_c).
#[export] Instance set_t_vol_x : Setter t_vol_x := ltac:(setter eta_regs t_vol_x).
#[export] Instance set_t_stereo : Setter t_stereo := ltac:(setter eta_regs t_stereo).
#[export] Instance set_tc_asc : Setter tc_asc := ltac:(setter eta_regs tc_asc).
#[export] Instance set_c_ag : Setter c_ag := ltac:(setter eta_regs c_ag).
#[export] Instance set_v_asc : Setter v_asc := ltac:(setter eta_regs v_asc).
#[export] Instance set_res1 : Setter res1 := ltac:(setter eta_regs res1).
#[export] Instance set_v_stereo : Setter v_stereo := ltac:(setter eta_regs v_stereo).
#[export] Instance set_t_vsc : Setter t_vsc := ltac:(setter eta_regs t_vsc).
#[export] Instance set_t_cm : Setter t_cm := ltac:(setter eta_regs t_cm).
#[export] Instance set_v_vsc : Setter v_vsc := ltac:(setter eta_regs v_vsc).
#[export] Instance set_v_cm : Setter v_cm := ltac:(setter eta_regs v_cm).
#[export] Instance set_fblk : Setter fblk := ltac:(setter eta_regs fblk).
#[export] Instance set_rgb_vsc : Setter rgb_vsc := ltac:(setter eta_regs rgb_vsc).
#[export] Instance set_rgb_gain : Setter rgb_gain := ltac:(setter eta_regs rgb_gain).
#[export] Instance set_rgb_tri : Setter rgb_tri := ltac:(setter eta_regs rgb_tri).
#[export] Instance set_t_rcos : Setter t_rcos := ltac:(setter eta_regs t_rcos).
#[export] Instance set_r_ac : Setter r_ac := ltac:(setter eta_regs r_ac).
#[export] Instance set_r_tfc : Setter r_tfc := ltac:(setter eta_regs r_tfc).
#[export] Instance set_v_cgc : Setter v_cgc := ltac:(setter eta_regs v_cgc).
#[export] Instance set_v_coc : Setter v_coc := ltac:(setter eta_regs v_coc).
#[export] Instance set_res2 : Setter res2 := ltac:(setter eta_regs res2).
#[export] Instance set_slb : Setter slb := ltac:(setter eta_regs slb).
#[export] Instance set_it_enable : Setter it_enable := ltac:(setter eta_regs it_enable).
#[export] Instance set_e_rcsc : Setter e_rcsc := ltac:(setter eta_regs e_rcsc).
#[export] Instance set_v_rcsc : Setter v_rcsc := ltac:(setter eta_regs v_rcsc).
#[export] Instance set_e_aig : Setter e_aig := ltac:(setter eta_regs e_aig).
#[export] Instance set_t_sb : Setter t_sb := ltac:(setter eta_regs t_sb).
#[export] Instance set_v_sb : Setter v_sb := ltac:(setter eta_regs v_sb).
#[export] Instance set_e_in : Setter e_in := ltac:(setter eta_regs e_in).
#[export] Instance set_v_in : Setter v_in := ltac:(setter eta_regs v_in).
#[export] Instance set_t_in : Setter t_in := ltac:(setter eta_regs t_in).
#[export] Instance set_a_in : Setter a_in := ltac:(setter eta_regs a_in).
#[export] Instance set_v_out : Setter v_out := ltac:(setter eta_regs v_out).
#[export] Instance set_c_out : Setter c_out := ltac:(setter eta_regs c_out).
#[export] Instance set_t_out : Setter t_out := ltac:(setter eta_regs t_out).
#[export] Instance set_r_out : Setter r_out := ltac:(setter eta_regs r_out).

(** The bit fields of each byte, lowest first, with their widths. *)
Definition layout (d : s_stv6412_data) : list (list (Z * Z)) :=
  [[(1, svm d); (5, t_vol_c d); (1, t_vol_x d); (1, t_stereo d)];
   [(3, tc_asc d); (1, c_ag d); (2, v_asc d); (1, res1 d); (1, v_stereo d)];
   [(3, t_vsc d); (1, t_cm d); (3, v_vsc d); (1, v_cm d)];
   [(2, fblk d); (2, rgb_vsc d); (3, rgb_gain d); (1, rgb_tri d)];
   [(1, t_rcos d); (1, r_ac d); (1, r_tfc d); (1, v_cgc d); (1, v_coc d); (1, res2 d); (1, slb d); (1, it_enable d)];
   [(1, e_rcsc d); (1, v_rcsc d); (2, e_aig d); (2, t_sb d); (2, v_sb d)];
   [(1, e_in d); (1, v_in d); (1, t_in d); (1, a_in d); (1, v_out d); (1, c_out d); (1, t_out d); (1, r_out d)]].

Fixpoint pack_byte (l : list (Z * Z)) : Z :=
  match l with [] => 0 | (w, x) :: l => x .| (pack_byte l ≪ w) end.

(** The struct in memory. *)
Definition pack (d : s_stv6412_data) : list Z := map pack_byte (layout d).

(** An assignment to a bit field keeps its low bits. *)
Definition bits (w x : Z) : Z := x mod 2 ^ w.

(** ** State *)

(** The file's variables: stv6412_data, tmpstv6412_data, stv6412_s_old_src, the
    values kept by mute (the globals tc_asc and v_asc, 0xff when not muted) and
    t_stnby; [io] is the bus. *)
Record avs (D : Type) := Avs {
  io : D;
  data : s_stv6412_data;
  tmpdata : s_stv6412_data;
  s_old_src : Z;
  mute_tc : Z;
  mute_v : Z;
  t_stnby : Z
}.
Arguments Avs {D} _ _ _ _ _ _ _.
Arguments io {D} _.
Arguments data {D} _.
Arguments tmpdata {D} _.
Arguments s_old_src {D} _.
Arguments mute_tc {D} _.
Arguments mute_v {D} _.
Arguments t_stnby {D} _.

Definition eta_avs {D : Type} (s : avs D) : avs D :=
  Avs (io s) (data s) (tmpdata s) (s_old_src s) (mute_tc s) (mute_v s) (t_stnby s).

Section avs_setters.
Context {D : Type}.
#[export] Instance set_io : Setter (@io D) := ltac:(setter (@eta_avs D) (@io D)).
#[export] Instance set_data : Setter (@data D) := ltac:(setter (@eta_avs D) (@data D)).
#[export] Instance set_tmpdata : Setter (@tmpdata D) := ltac:(setter (@eta_avs D) (@tmpdata D)).
#[export] Instance set_s_old_src : Setter (@s_old_src D) := ltac:(setter (@eta_avs D) (@s_old_src D)).
#[export] Instance set_mute_tc : Setter (@mute_tc D) := ltac:(setter (@eta_avs D) (@mute_tc D)).
#[export] Instance set_mute_v : Setter (@mute_v D) := ltac:(setter (@eta_avs D) (@mute_v D)).
#[export] Instance set_t_stnby : Setter (@t_stnby D) := ltac:(setter (@eta_avs D) (@t_stnby D)).
End avs_setters.

(** The boxes the code distinguishes: FS9000, HL101, VIP1_V1 and IPBOX9900
    ([Trick]), IPBOX99, ADB_BOX and the others. *)
Inductive avs_box := Trick | Ipbox99 | Adb_box | Other_box.
#[export] Instance avs_box_eq_dec : EqDecision avs_box.
Proof. solve_decision. Defined.
Class AvsBuild := the_box : avs_box.

Section stv6412.
Context {D : Type} `{I2c D} `{AvsBuild}.

Definition assign (f : s_stv6412_data -> s_stv6412_data) : M (avs D) unit :=
  modify (fun s => s <| data := f (data s) |>).

Definition i2c_send (b : list Z) : M (avs D) Z := fun s =>
  let (n, d) := i2c_master_send b (io s) in Ok (n, s <| io := d |>).

Definition stv6412_set : M (avs D) Z :=
  if bool_decide (the_box = Trick) then
    i2c_send [0x00; 0x40; 0x09; 0x11; 0x84; 0x84; 0x25; 0x08; 0x21; 0xc0];; mret 0
  else
    d ← gets data;
    n ← i2c_send (0 :: pack d);
    if 8 =? n then mret 0 else mret (- EFAULT).

(** A command that is refused. *)
Definition refused : M (avs D) Z := mret (- EINVAL).

Definition stv6412_set_volume (vol : Z) : M (avs D) Z :=
  if bool_decide (the_box = Adb_box) then stv6412_set
  else
    let c := vol in
    let c := if c =? 63 then 62 else c in
    let c := if c =? 0 then 1 else c in
    if (63 <? c) || (c <? 0) then refused
    else assign (fun d => d <| t_vol_c := bits 5 (Z.quot c 2) |>);; stv6412_set.

Definition stv6412_set_mute (type : Z) : M (avs D) Z :=
  if (type <? AVS_UNMUTE) || (AVS_MUTE <? type) then refused
  else
    t ← gets mute_tc;
    (if type =? AVS_MUTE then
       when (t =? 0xff) (
         d ← gets data;
         modify (fun s => s <| mute_tc := tc_asc d |> <| mute_v := v_asc d |>);;
         assign (fun d => d <| tc_asc := 0 |> <| v_asc := 0 |>))
     else
       when (negb (t =? 0xff)) (
         v ← gets mute_v;
         assign (fun d => d <| tc_asc := bits 3 t |> <| v_asc := bits 2 v |>);;
         modify (fun s => s <| mute_tc := 0xff |> <| mute_v := 0xff |>)));;
    stv6412_set.

Definition stv6412_set_vsw (sw type : Z) : M (avs D) Z :=
  if (type <? 0) || (4 <? type) then refused
  else if sw =? 0 then assign (fun d => d <| v_vsc := bits 3 type |>);; stv6412_set
  else if sw =? 1 then
    if (type <? 0) || (2 <? type) then refused
    else assign (fun d => d <| rgb_vsc := bits 2 type |>);; stv6412_set
  else if sw =? 2 then assign (fun d => d <| t_vsc := bits 3 type |>);; stv6412_set
  else refused.

Definition stv6412_set_asw (sw type : Z) : M (avs D) Z :=
  if sw =? 0 then
    if (type <=? 0) || (3 <? type) then refused
    else
      v ← gets mute_v;
      (if v =? 0xff then assign (fun d => d <| v_asc := bits 2 type |>)
       else modify (fun s => s <| mute_v := u8 type |>));;
      stv6412_set
  else if (sw =? 1) || (sw =? 2) then
    if (type <=? 0) || (4 <? type) then refused
    else
      t ← gets mute_tc;
      (if t =? 0xff then assign (fun d => d <| tc_asc := bits 3 type |>)
       else modify (fun s => s <| mute_tc := u8 type |>));;
      stv6412_set
  else refused.

Definition stv6412_set_t_sb (type : Z) : M (avs D) Z :=
  if (type <? 0) || (3 <? type) then refused
  else assign (fun d => d <| t_sb := bits 2 type |>);; stv6412_set.

Definition stv6412_set_wss (vol : Z) : M (avs D) Z :=
  if vol =? SAA_WSS_43F then assign (fun d => d <| t_sb := 3 |>);; stv6412_set
  else if vol =? SAA_WSS_169F then assign (fun d => d <| t_sb := 2 |>);; stv6412_set
  else if vol =? SAA_WSS_OFF then assign (fun d => d <| t_sb := 0 |>);; stv6412_set
  else refused.

Definition stv6412_set_fblk (type : Z) : M (avs D) Z :=
  if (type <? 0) || (3 <? type) then refused
  else assign (fun d => d <| fblk := bits 2 type |>);; stv6412_set.

Definition stv6412_get_status : M (avs D) Z := fun s =>
  let '((n, byte), d) := i2c_master_recv (io s) in
  Ok (if negb (1 =? n) then -1 else u8 byte, s <| io := d |>).

Definition stv6412_get_volume : M (avs D) Z :=
  d ← gets data; let c := t_vol_c d in mret (if truthy c then c * 2 else c).

Definition stv6412_get_mute : M (avs D) Z :=
  t ← gets mute_tc; v ← gets mute_v;
  mret (if (t =? 0xff) && (v =? 0xff) then 0 else 1).

Definition stv6412_get_fblk : M (avs D) Z := d ← gets data; mret (fblk d).
Definition stv6412_get_t_sb : M (avs D) Z := d ← gets data; mret (t_sb d).

Definition stv6412_get_vsw (sw : Z) : M (avs D) Z :=
  d ← gets data;
  if sw =? 0 then mret (v_vsc d)
  else if sw =? 1 then mret (rgb_vsc d)
  else if sw =? 2 then mret (t_vsc d)
  else refused.

Definition stv6412_get_asw (sw : Z) : M (avs D) Z :=
  d ← gets data; t ← gets mute_tc; v ← gets mute_v;
  if sw =? 0 then mret (if v =? 0xff then v_asc d else v)
  else if (sw =? 1) || (sw =? 2) then mret (if t =? 0xff then tc_asc d else t)
  else refused.

Definition stv6412_set_encoder (vol : Z) : M (avs D) Z := mret 0.

(** A video source for the TV: kept for later while the AUX input is on. *)
Definition choose_source (src fb : Z) : M (avs D) Z :=
  d ← gets data;
  (if t_vsc d =? 4 then modify (fun s => s <| s_old_src := src |>)
   else assign (fun d => d <| t_vsc := src |>));;
  assign (fun d => d <| fblk := fb |>);;
  stv6412_set.

Definition stv6412_set_mode (val : Z) : M (avs D) Z :=
  if val =? SAA_MODE_RGB then choose_source 1 1
  else if val =? SAA_MODE_FBAS then choose_source 1 0
  else if val =? SAA_MODE_SVIDEO then choose_source 2 0
  else refused.

Definition stv6412_src_sel (src : Z) : M (avs D) Z :=
  if src =? SAA_SRC_ENC then
    o ← gets s_old_src;
    assign (fun d => d <| t_vsc := bits 3 o |> <| v_vsc := bits 3 o |> <| tc_asc := 1 |> <| v_asc := 1 |>);;
    stv6412_set
  else if src =? SAA_SRC_SCART then
    modify (fun s => s <| s_old_src := t_vsc (data s) |>);;
    (if bool_decide (the_box = Adb_box) then skip
     else assign (fun d => d <| t_vsc := 4 |> <| v_vsc := 0 |> <| tc_asc := 2 |> <| v_asc := 0 |>));;
    stv6412_set
  else refused.

Definition stv6412_standby (type : Z) : M (avs D) Z :=
  if (type <? 0) || (1 <? type) then refused
  else
    t ← gets t_stnby;
    if type =? 1 then
      if t =? 0 then
        modify (fun s => s <| tmpdata := data s |>);;
        assign (fun d => d <| e_in := 1 |> <| v_in := 1 |> <| t_in := 1 |> <| a_in := 1 |>
                             <| v_out := 1 |> <| c_out := 1 |> <| t_out := 1 |> <| r_out := 1 |>);;
        modify (fun s => s <| t_stnby := 1 |>);;
        stv6412_set
      else refused
    else if t =? 1 then
      modify (fun s => s <| data := tmpdata s |> <| t_stnby := 0 |>);;
      stv6412_set
    else refused.

(** ** Commands *)

Definition scartPin8Table : list Z := [0; 2; 3].
Definition scartPin8Table_reverse : list Z := [0; 0; 1; 2].

(** The box has no fast blanking control. *)
Definition no_fblk : bool := bool_decide (the_box = Trick \/ the_box = Ipbox99).

(** The commands that set a value; [fb] is the handling of AVSIOSFBLK. *)
Definition set_command (cmd val : Z) (fb : M (avs D) Z) : M (avs D) Z :=
  if cmd =? AVSIOSVSW1 then stv6412_set_vsw 0 val
  else if cmd =? AVSIOSVSW2 then stv6412_set_vsw 1 val
  else if cmd =? AVSIOSVSW3 then stv6412_set_vsw 2 val
  else if cmd =? AVSIOSASW1 then stv6412_set_asw 0 val
  else if cmd =? AVSIOSASW2 then stv6412_set_asw 1 val
  else if cmd =? AVSIOSASW3 then stv6412_set_asw 2 val
  else if cmd =? AVSIOSVOL then stv6412_set_volume val
  else if cmd =? AVSIOSMUTE then stv6412_set_mute val
  else if cmd =? AVSIOSFBLK then fb
  else if cmd =? AVSIOSSCARTPIN8 then t ← lift (aget scartPin8Table val); stv6412_set_t_sb t
  else if cmd =? AVSIOSFNC then stv6412_set_t_sb val
  else if cmd =? AVSIOSTANDBY then stv6412_standby val
  else refused.

Definition some_of (m : M (avs D) Z) : M (avs D) (option Z) := v ← m; mret (Some v).

(** The commands that get a value, [None] for an unknown one; [fb] is the
    handling of AVSIOGFBLK. *)
Definition get_command (cmd : Z) (fb : M (avs D) Z) : M (avs D) (option Z) :=
  if cmd =? AVSIOGVSW1 then some_of (stv6412_get_vsw 0)
  else if cmd =? AVSIOGVSW2 then some_of (stv6412_get_vsw 1)
  else if cmd =? AVSIOGVSW3 then some_of (stv6412_get_vsw 2)
  else if cmd =? AVSIOGASW1 then some_of (stv6412_get_asw 0)
  else if cmd =? AVSIOGASW2 then some_of (stv6412_get_asw 1)
  else if cmd =? AVSIOGASW3 then some_of (stv6412_get_asw 2)
  else if cmd =? AVSIOGVOL then some_of (stv6412_get_volume)
  else if cmd =? AVSIOGMUTE then some_of (stv6412_get_mute)
  else if cmd =? AVSIOGFBLK then some_of (fb)
  else if cmd =? AVSIOGSCARTPIN8 then
    some_of (t ← stv6412_get_t_sb; lift (aget scartPin8Table_reverse t))
  else if cmd =? AVSIOGFNC then some_of (stv6412_get_t_sb)
  else if cmd =? AVSIOGSTATUS then some_of (stv6412_get_status)
  else mret None.

Definition saa_command (cmd val : Z) : M (avs D) Z :=
  if cmd =? SAAIOSMODE then stv6412_set_mode val
  else if cmd =? SAAIOSENC then stv6412_set_encoder val
  else if cmd =? SAAIOSWSS then stv6412_set_wss val
  else if cmd =? SAAIOSSRCSEL then stv6412_src_sel val
  else refused.

(** A command that stores nothing through its argument. *)
Definition returns (m : M (avs D) Z) : M (avs D) reply := r ← m; mret (r, None).

Definition stv6412_command (cmd : Z) (arg : user_ptr) : M (avs D) reply :=
  if truthy (cmd .& AVSIOSET) then
    match readable arg with
    | None => mret (- EFAULT, None)
    | Some val => returns (set_command cmd val (if no_fblk then mret (-1) else stv6412_set_fblk val))
    end
  else if truthy (cmd .& AVSIOGET) then
    v ← get_command cmd (if no_fblk then mret 0 else stv6412_get_fblk);
    mret (match v with None => (- EINVAL, None) | Some val => put_user val arg end)
  else
    match readable arg with
    | None => mret (- EFAULT, None)
    | Some val => returns (saa_command cmd val)
    end.

(** The same from another driver: the argument is the value, or points to the
    caller's variable. *)
Definition stv6412_command_kernel (cmd arg : Z) : M (avs D) reply :=
  if truthy (cmd .& AVSIOSET) then returns (set_command cmd arg (stv6412_set_fblk arg))
  else if truthy (cmd .& AVSIOGET) then
    v ← get_command cmd stv6412_get_fblk;
    mret (match v with None => (- EINVAL, None) | Some val => (0, Some val) end)
  else returns (saa_command cmd arg).

Definition zero_regs : s_stv6412_data :=
  Regs 0 0 0 0 0 0 0 0 0 0 0 0 0 0 0 0 0 0 0 0 0 0 0 0 0 0 0 0 0 0 0 0 0 0 0 0 0 0.

Definition stv6412_init : M (avs D) Z :=
  assign (fun _ => zero_regs <| t_vol_c := 0 |> <| v_asc := 1 |> <| tc_asc := 1 |> <| v_vsc := 1 |>
    <| t_vsc := 1 |> <| rgb_tri := 1 |> <| rgb_vsc := 1 |> <| fblk := 2 |> <| t_rcos := 1 |>
    <| res2 := 1 |> <| t_sb := 3 |> <| v_sb := 0 |> <| a_in := 0 |>);;
  modify (fun s => s <| s_old_src := 1 |> <| mute_tc := 0xff |> <| mute_v := 0xff |>);;
  stv6412_set.
End stv6412.

(** ** The message *)

Definition in_width (w x : Z) : Prop := 0 <= x < 2 ^ w.

(** Every field fits its width. *)
Definition regs_ok (d : s_stv6412_data) : Prop :=
  Forall (Forall (fun '(w, x) => in_width w x)) (layout d).

Lemma pack_byte_cons w x l : 0 <= w -> in_width w x -> pack_byte ((w, x) :: l) = x + 2 ^ w * pack_byte l.
Proof.
  intros Hw Hx. cbn [pack_byte]. rewrite Z.shiftl_mul_pow2 by done.
  assert (Hd : x .& (pack_byte l * 2 ^ w) = 0).
  { rewrite <- Z.shiftl_mul_pow2 by done. apply Z.bits_inj'. intros n Hn. rewrite Z.land_spec, Z.bits_0.
    destruct (decide (n < w)); [by rewrite Z.shiftl_spec_low, andb_false_r by lia|].
    by rewrite <- (Z.mod_small x (2 ^ w) Hx), Z.mod_pow2_bits_high by lia. }
  pose proof (Z.add_lor_land x (pack_byte l * 2 ^ w)). lia.
Qed.

Definition widths (l : list (Z * Z)) : list Z := map fst l.
Definition fields_ok (l : list (Z * Z)) : Prop := Forall (fun '(w, x) => in_width w x) l.

Lemma pack_byte_inj : forall l1 l2,
  widths l1 = widths l2 -> Forall (fun w => 0 <= w) (widths l1) -> fields_ok l1 -> fields_ok l2 ->
  pack_byte l1 = pack_byte l2 -> l1 = l2.
Proof.
  induction l1 as [|[w x] l1 IH]; intros [|[w2 y] l2] Hw Hp H1 H2 He; [done..|].
  injection Hw as <- Hw. apply Forall_cons_1 in Hp as [Hw0 Hp]. cbn [fst] in Hw0.
  apply Forall_cons_1 in H1 as [Hx H1]. apply Forall_cons_1 in H2 as [Hy H2].
  rewrite !pack_byte_cons in He by done. unfold in_width in *.
  assert (0 < 2 ^ w) by (apply Z.pow_pos_nonneg; lia).
  assert (x = y) as -> by (pose proof (Z.mod_small x (2 ^ w) Hx) as <-; pose proof (Z.mod_small y (2 ^ w) Hy) as <-;
    rewrite <- (Z.mod_add x (pack_byte l1) (2 ^ w)), <- (Z.mod_add y (pack_byte l2) (2 ^ w)) by lia; f_equal; lia).
  f_equal. apply IH; [done..|]. nia.
Qed.

Lemma sum_nonneg ws : Forall (fun w => 0 <= w) ws -> 0 <= foldr Z.add 0 ws.
Proof. induction 1; cbn; lia. Qed.

Lemma pack_byte_bound : forall l,
  Forall (fun w => 0 <= w) (widths l) -> fields_ok l -> 0 <= pack_byte l < 2 ^ (foldr Z.add 0 (widths l)).
Proof.
  induction l as [|[w x] l IH]; intros Hw Hf; [cbn; lia|].
  apply Forall_cons_1 in Hw as [Hw0 Hw]. apply Forall_cons_1 in Hf as [Hx Hf]. cbn [fst] in Hw0.
  specialize (IH Hw Hf). rewrite pack_byte_cons by done. cbn [widths map fst foldr] in *.
  pose proof (sum_nonneg _ Hw) as Hs. unfold widths in Hs.
  rewrite Z.pow_add_r by done. unfold in_width in Hx. fold (widths l) in *.
  set (S := 2 ^ foldr Z.add 0 (widths l)) in *. set (P := pack_byte l) in *.
  assert (2 ^ w * P <= 2 ^ w * (S - 1)) by (apply Z.mul_le_mono_nonneg_l; lia). nia.
Qed.

Lemma pack_inj : forall L1 L2,
  map widths L1 = map widths L2 -> Forall (fun ws => Forall (fun w => 0 <= w) ws) (map widths L1) ->
  Forall fields_ok L1 -> Forall fields_ok L2 -> map pack_byte L1 = map pack_byte L2 -> L1 = L2.
Proof.
  induction L1 as [|l1 L1 IH]; intros [|l2 L2] Hw Hp H1 H2 He; [done..|].
  injection Hw as Hw1 Hw. injection He as He1 He. apply Forall_cons_1 in Hp as [Hp1 Hp].
  apply Forall_cons_1 in H1 as [Hf1 H1]. apply Forall_cons_1 in H2 as [Hf2 H2].
  f_equal; [by apply pack_byte_inj|by apply IH].
Qed.

Lemma pack_bytes : forall L,
  Forall (fun ws => Forall (fun w => 0 <= w) ws /\ foldr Z.add 0 ws = 8) (map widths L) ->
  Forall fields_ok L -> Forall is_u8 (map pack_byte L).
Proof.
  induction L as [|l L IH]; intros Hw Hf; [constructor|].
  apply Forall_cons_1 in Hw as [[Hw1 H8] Hw]. apply Forall_cons_1 in Hf as [Hf1 Hf].
  constructor; [|by apply IH]. pose proof (pack_byte_bound l Hw1 Hf1) as Hb. by rewrite H8 in Hb.
Qed.

(** The seven bytes on the bus are bytes and determine every register
    field: two settings that send the same message are the same setting. *)
Theorem stv_message_determines d1 d2 :
  regs_ok d1 -> regs_ok d2 ->
  Forall is_u8 (pack d1) /\ length (pack d1) = 7%nat /\ (pack d1 = pack d2 -> d1 = d2).
Proof.
  intros H1 H2. split; [|split; [done|]].
  - apply pack_bytes; [|done]. apply (bool_decide_unpack _). vm_compute. exact I.
  - intros He. assert (Hl : layout d1 = layout d2).
    { refine (pack_inj (layout d1) (layout d2) _ _ H1 H2 He); [reflexivity|].
      apply (bool_decide_unpack _). vm_compute. exact I. }
    destruct d1, d2. cbn in Hl. by simplify_eq.
Qed.

(** ** What a command changes *)

Section effects.
Context {D : Type} `{I2c D} `{AvsBuild}.
Implicit Types s : avs D.

(** A change of the registers. *)
Definition regs s (f : s_stv6412_data -> s_stv6412_data) : avs D := s <| data := f (data s) |>.

(** The accepted commands with their values, and the variables just before the
    registers are sent. *)
Inductive changes s : Z -> Z -> avs D -> Prop :=
| ch_vcr_video v : 0 <= v <= 4 -> changes s AVSIOSVSW1 v (regs s (set v_vsc v))
| ch_rgb_video v : 0 <= v <= 2 -> changes s AVSIOSVSW2 v (regs s (set rgb_vsc v))
| ch_tv_video v : 0 <= v <= 4 -> changes s AVSIOSVSW3 v (regs s (set t_vsc v))
| ch_vcr_audio v : 1 <= v <= 3 -> mute_v s = 0xff -> changes s AVSIOSASW1 v (regs s (set v_asc v))
| ch_vcr_later v : 1 <= v <= 3 -> mute_v s <> 0xff -> changes s AVSIOSASW1 v (s <| mute_v := v |>)
| ch_tv_audio c v : c = AVSIOSASW2 \/ c = AVSIOSASW3 -> 1 <= v <= 4 -> mute_tc s = 0xff ->
    changes s c v (regs s (set tc_asc v))
| ch_tv_later c v : c = AVSIOSASW2 \/ c = AVSIOSASW3 -> 1 <= v <= 4 -> mute_tc s <> 0xff ->
    changes s c v (s <| mute_tc := v |>)
| ch_volume v : the_box <> Adb_box -> 0 <= v <= 63 -> changes s AVSIOSVOL v (regs s (set t_vol_c (v / 2)))
| ch_volume_adb v : the_box = Adb_box -> changes s AVSIOSVOL v s
| ch_mute : mute_tc s = 0xff ->
    changes s AVSIOSMUTE AVS_MUTE ((regs s (fun d => d <| tc_asc := 0 |> <| v_asc := 0 |>))
      <| mute_tc := tc_asc (data s) |> <| mute_v := v_asc (data s) |>)
| ch_muted : mute_tc s <> 0xff -> changes s AVSIOSMUTE AVS_MUTE s
| ch_unmute : mute_tc s <> 0xff ->
    changes s AVSIOSMUTE AVS_UNMUTE
      ((regs s (fun d => d <| tc_asc := bits 3 (mute_tc s) |> <| v_asc := bits 2 (mute_v s) |>))
        <| mute_tc := 0xff |> <| mute_v := 0xff |>)
| ch_unmuted : mute_tc s = 0xff -> changes s AVSIOSMUTE AVS_UNMUTE s
| ch_blanking v : 0 <= v <= 3 -> changes s AVSIOSFBLK v (regs s (set fblk v))
| ch_pin8 v t : scartPin8Table !! Z.to_nat v = Some t -> 0 <= v -> changes s AVSIOSSCARTPIN8 v (regs s (set t_sb t))
| ch_function v : 0 <= v <= 3 -> changes s AVSIOSFNC v (regs s (set t_sb v))
| ch_standby : t_stnby s = 0 ->
    changes s AVSIOSTANDBY 1 ((regs s (fun d => d <| e_in := 1 |> <| v_in := 1 |> <| t_in := 1 |> <| a_in := 1 |>
      <| v_out := 1 |> <| c_out := 1 |> <| t_out := 1 |> <| r_out := 1 |>)) <| tmpdata := data s |> <| t_stnby := 1 |>)
| ch_wake : t_stnby s = 1 -> changes s AVSIOSTANDBY 0 (s <| data := tmpdata s |> <| t_stnby := 0 |>)
| ch_wide v t : (v, t) ∈ [(SAA_WSS_43F, 3); (SAA_WSS_169F, 2); (SAA_WSS_OFF, 0)] ->
    changes s SAAIOSWSS v (regs s (set t_sb t))
| ch_mode v src fb : (v, src, fb) ∈ [(SAA_MODE_RGB, 1, 1); (SAA_MODE_FBAS, 1, 0); (SAA_MODE_SVIDEO, 2, 0)] ->
    t_vsc (data s) <> 4 -> changes s SAAIOSMODE v (regs s (fun d => d <| t_vsc := src |> <| fblk := fb |>))
| ch_mode_later v src fb : (v, src, fb) ∈ [(SAA_MODE_RGB, 1, 1); (SAA_MODE_FBAS, 1, 0); (SAA_MODE_SVIDEO, 2, 0)] ->
    t_vsc (data s) = 4 -> changes s SAAIOSMODE v ((regs s (set fblk fb)) <| s_old_src := src |>)
| ch_encoder_source : changes s SAAIOSSRCSEL SAA_SRC_ENC
    (regs s (fun d => d <| t_vsc := bits 3 (s_old_src s) |> <| v_vsc := bits 3 (s_old_src s) |>
      <| tc_asc := 1 |> <| v_asc := 1 |>))
| ch_scart_source : the_box <> Adb_box -> changes s SAAIOSSRCSEL SAA_SRC_SCART
    ((regs s (fun d => d <| t_vsc := 4 |> <| v_vsc := 0 |> <| tc_asc := 2 |> <| v_asc := 0 |>))
      <| s_old_src := t_vsc (data s) |>)
| ch_scart_adb : the_box = Adb_box -> changes s SAAIOSSRCSEL SAA_SRC_SCART (s <| s_old_src := t_vsc (data s) |>).

(** No accepted command. *)
Definition rejected s (cmd val : Z) : Prop := forall s1, ~ changes s cmd val s1.

(** The result of a command that changes nothing: an error, except for SAAIOSENC,
    which is accepted and ignored. *)
Definition idle_result (cmd r : Z) : Prop := r < 0 \/ (cmd = SAAIOSENC /\ r = 0).

(** A function that makes one accepted change and sends the registers, or
    changes nothing when there is none to make. *)
Definition one_change s (cmd val : Z) (m : M (avs D) Z) : Prop :=
  (rejected s cmd val /\ exists r, idle_result cmd r /\ m s = Ok (r, s)) \/
  (exists s1, changes s cmd val s1 /\ m s = stv6412_set s1).

Lemma one_refused s c v : rejected s c v -> one_change s c v refused.
Proof. intros Hr. left. split; [done|]. exists (- EINVAL). split; [by left|done]. Qed.

(** Shows that no accepted command fits. *)
Ltac reject :=
  let C := fresh "C" in
  intros ? C; inversion C; clear C; subst;
    try match goal with E : _ = _ \/ _ = _ |- _ => destruct E as [E|E]; try discriminate E; try (subst; discriminate) end;
    try discriminate; try congruence; try lia;
    try match goal with E : _ ∈ _ |- _ => apply list_elem_of_In in E; cbn in E; intuition congruence end.

Lemma one_sent s c v f s1 m :
  m = (f;; stv6412_set) -> f s = Ok (tt, s1) -> changes s c v s1 -> one_change s c v m.
Proof. intros -> Hf Hc. right. exists s1. split; [done|]. unfold mbind, M_bind. by rewrite Hf. Qed.

Lemma bits_small w x : 0 <= x < 2 ^ w -> bits w x = x.
Proof. apply Z.mod_small. Qed.

Lemma u8_small x : 0 <= x < 2 ^ 8 -> u8 x = x.
Proof. apply Z.mod_small. Qed.

(** Splits the conditions of a set function, down to its accepted branches. *)
Ltac conditions :=
  repeat first
    [ apply one_refused; reject; fail
    | match goal with
      | |- context [bool_decide ?P] => destruct (decide P); [rewrite (bool_decide_true P) by done|rewrite (bool_decide_false P) by done]
      | |- context [?a <? ?b] => destruct (Z.ltb_spec a b); cbn [orb andb negb]
      | |- context [?a <=? ?b] => destruct (Z.leb_spec a b); cbn [orb andb negb]
      end ].

(** Runs a set function to the point where the registers are sent. *)
Ltac run_to_set :=
  eexists; split;
    [|unfold mbind, M_bind, gets, modify, assign, when, skip, mret, M_ret; cbv beta iota;
      repeat match goal with
        | E : ?a = ?b |- context [?a =? ?b] => rewrite E, Z.eqb_refl
        | E : ?a <> ?b |- context [?a =? ?b] => rewrite (proj2 (Z.eqb_neq a b) E)
        end; reflexivity].
Ltac run_to_send := right; run_to_set.

(** The accepted branch: the change is a constructor of [changes]. *)
Ltac accepted := run_to_send; rewrite ?bits_small, ?u8_small by lia; constructor; (done || lia || eauto).

Ltac on_list H := apply list_elem_of_In in H; repeat (destruct H as [H|H]; [injection H as <- <-|]); [..|destruct H].

Lemma set_vsw_change s c v sw :
  (c, sw) ∈ [(AVSIOSVSW1, 0); (AVSIOSVSW2, 1); (AVSIOSVSW3, 2)] -> one_change s c v (stv6412_set_vsw sw v).
Proof.
  intros Hc. unfold stv6412_set_vsw. on_list Hc; cbn [Z.eqb Pos.eqb]; conditions; accepted.
Qed.

Lemma set_asw_run s c v sw :
  (c, sw) ∈ [(AVSIOSASW1, 0); (AVSIOSASW2, 1); (AVSIOSASW3, 2)] ->
  1 <= v -> v <= (if sw =? 0 then 3 else 4) ->
  exists s1, changes s c v s1 /\ stv6412_set_asw sw v s = stv6412_set s1.
Proof.
  intros Hc H1 H2. unfold stv6412_set_asw. rewrite (proj2 (Z.leb_gt v 0)) by lia. cbn [orb].
  destruct (decide (mute_v s = 0xff)), (decide (mute_tc s = 0xff));
    on_list Hc; cbn in H2; cbn [Z.eqb Pos.eqb orb]; rewrite (proj2 (Z.ltb_ge _ v)) by lia;
    run_to_set; rewrite ?bits_small, ?u8_small by lia; constructor; (done || lia || eauto).
Qed.

Lemma set_asw_change s c v sw :
  (c, sw) ∈ [(AVSIOSASW1, 0); (AVSIOSASW2, 1); (AVSIOSASW3, 2)] -> one_change s c v (stv6412_set_asw sw v).
Proof.
  intros Hc. destruct (decide (1 <= v /\ v <= (if sw =? 0 then 3 else 4))) as [[H1 H2]|Hv].
  - right. by apply set_asw_run.
  - unfold stv6412_set_asw. on_list Hc; cbn in Hv; cbn [Z.eqb Pos.eqb orb]; conditions; lia.
Qed.

Lemma set_volume_run s v : the_box <> Adb_box -> 0 <= v <= 63 ->
  stv6412_set_volume v s = stv6412_set (regs s (set t_vol_c (v / 2))).
Proof.
  intros Hb Hv. unfold stv6412_set_volume. rewrite bool_decide_false by done.
  destruct (Z.eqb_spec v 63) as [->|]; [done|]. destruct (Z.eqb_spec v 0) as [->|]; [done|].
  rewrite (proj2 (Z.ltb_ge 63 v)), (proj2 (Z.ltb_ge v 0)) by lia. cbn [orb].
  rewrite Z.quot_div_nonneg, bits_small; [done|split; [apply Z.div_pos|apply Z.div_lt_upper_bound]; lia|lia..].
Qed.

Lemma set_volume_refused s v : the_box <> Adb_box -> ~ 0 <= v <= 63 ->
  stv6412_set_volume v s = Ok (- EINVAL, s).
Proof.
  intros Hb Hv. unfold stv6412_set_volume. rewrite bool_decide_false by done.
  do 2 (rewrite (proj2 (Z.eqb_neq v _)) by lia).
  destruct (Z.ltb_spec 63 v); [done|]. by rewrite (proj2 (Z.ltb_lt v 0)) by lia.
Qed.

Lemma set_volume_change s v : one_change s AVSIOSVOL v (stv6412_set_volume v).
Proof.
  destruct (decide (the_box = Adb_box)) as [Hb|Hb].
  - unfold stv6412_set_volume. rewrite bool_decide_true by done. right. exists s. split; [by constructor|done].
  - destruct (decide (0 <= v <= 63)) as [Hv|Hv].
    + right. eexists. split; [|by apply set_volume_run]. by constructor.
    + left. split; [reject|]. exists (- EINVAL). split; [by left|]. by apply set_volume_refused.
Qed.

Lemma set_mute_run s v : v = 0 \/ v = 1 ->
  exists s1, changes s AVSIOSMUTE v s1 /\ stv6412_set_mute v s = stv6412_set s1.
Proof.
  intros Hv. unfold stv6412_set_mute.
  destruct (decide (mute_tc s = 0xff)) as [Ht|Ht], Hv as [->| ->]; cbn [Z.ltb Z.compare Pos.compare Pos.compare_cont
    orb AVS_UNMUTE AVS_MUTE Z.eqb Pos.eqb]; run_to_set; by constructor.
Qed.

Lemma set_mute_change s v : one_change s AVSIOSMUTE v (stv6412_set_mute v).
Proof.
  destruct (decide (v = 0 \/ v = 1)) as [Hv|Hv]; [right; by apply set_mute_run|].
  unfold stv6412_set_mute, AVS_UNMUTE, AVS_MUTE. conditions. lia.
Qed.

Lemma set_fblk_change s v : one_change s AVSIOSFBLK v (stv6412_set_fblk v).
Proof. unfold stv6412_set_fblk. conditions; accepted. Qed.

Lemma set_fnc_change s v : one_change s AVSIOSFNC v (stv6412_set_t_sb v).
Proof. unfold stv6412_set_t_sb. conditions; accepted. Qed.

Lemma set_pin8_change s v : 0 <= v <= 2 ->
  one_change s AVSIOSSCARTPIN8 v (t ← lift (aget scartPin8Table v); stv6412_set_t_sb t).
Proof.
  intros Hv. right. destruct (lookup_lt_is_Some_2 scartPin8Table (Z.to_nat v)) as [t Ht]; [simpl; lia|].
  exists (regs s (set t_sb t)). split; [constructor; [done|lia]|].
  erewrite M_bind_run by (apply lift_run, aget_Ok; split; [lia|exact Ht]).
  assert (t = 0 \/ t = 2 \/ t = 3) as [->|[->| ->]]; [|reflexivity..].
  apply list_elem_of_lookup_2, list_elem_of_In in Ht. simpl in Ht. intuition.
Qed.

Lemma standby_run s : t_stnby s = 0 ->
  exists s1, changes s AVSIOSTANDBY 1 s1 /\ stv6412_standby 1 s = stv6412_set s1 /\
    tmpdata s1 = data s /\ t_stnby s1 = 1.
Proof.
  intros Ht. eexists. split; [by apply ch_standby|]. split; [|done]. unfold stv6412_standby.
  cbn [Z.ltb Z.compare Pos.compare Pos.compare_cont orb Z.eqb Pos.eqb].
  unfold mbind, M_bind, gets. rewrite Ht. reflexivity.
Qed.

Lemma wake_run s : t_stnby s = 1 ->
  exists s1, changes s AVSIOSTANDBY 0 s1 /\ stv6412_standby 0 s = stv6412_set s1 /\
    data s1 = tmpdata s /\ t_stnby s1 = 0.
Proof.
  intros Ht. eexists. split; [by apply ch_wake|]. split; [|done]. unfold stv6412_standby.
  cbn [Z.ltb Z.compare Pos.compare Pos.compare_cont orb Z.eqb Pos.eqb].
  unfold mbind, M_bind, gets. rewrite Ht. reflexivity.
Qed.

Lemma standby_change s v : one_change s AVSIOSTANDBY v (stv6412_standby v).
Proof.
  destruct (decide (v = 1 /\ t_stnby s = 0)) as [[-> Ht]|H1].
  { right. destruct (standby_run s Ht) as (s1&C&E&_). by exists s1. }
  destruct (decide (v = 0 /\ t_stnby s = 1)) as [[-> Ht]|H2].
  { right. destruct (wake_run s Ht) as (s1&C&E&_). by exists s1. }
  unfold stv6412_standby. conditions. left. split; [reject|]. exists (- EINVAL). split; [by left|].
  erewrite M_bind_run by done.
  destruct (Z.eqb_spec v 1); (rewrite (proj2 (Z.eqb_neq _ _)) by (intros ?; first [apply H1|apply H2]; lia)); done.
Qed.

Lemma set_wss_change s v : one_change s SAAIOSWSS v (stv6412_set_wss v).
Proof.
  unfold stv6412_set_wss.
  destruct (Z.eqb_spec v SAA_WSS_43F) as [->|]; [run_to_send; constructor; apply list_elem_of_In; simpl; auto|].
  destruct (Z.eqb_spec v SAA_WSS_169F) as [->|]; [run_to_send; constructor; apply list_elem_of_In; simpl; auto|].
  destruct (Z.eqb_spec v SAA_WSS_OFF) as [->|]; [run_to_send; constructor; apply list_elem_of_In; simpl; auto|].
  apply one_refused; reject.
Qed.

Lemma choose_source_change s v src fb :
  (v, src, fb) ∈ [(SAA_MODE_RGB, 1, 1); (SAA_MODE_FBAS, 1, 0); (SAA_MODE_SVIDEO, 2, 0)] ->
  one_change s SAAIOSMODE v (choose_source src fb).
Proof.
  intros Hv. unfold choose_source. destruct (decide (t_vsc (data s) = 4)) as [Ht|Ht]; run_to_send;
    [exact (ch_mode_later s v src fb Hv Ht)|exact (ch_mode s v src fb Hv Ht)].
Qed.

Lemma set_mode_change s v : one_change s SAAIOSMODE v (stv6412_set_mode v).
Proof.
  unfold stv6412_set_mode.
  destruct (Z.eqb_spec v SAA_MODE_RGB) as [->|]; [apply choose_source_change, list_elem_of_In; simpl; auto|].
  destruct (Z.eqb_spec v SAA_MODE_FBAS) as [->|]; [apply choose_source_change, list_elem_of_In; simpl; auto|].
  destruct (Z.eqb_spec v SAA_MODE_SVIDEO) as [->|]; [apply choose_source_change, list_elem_of_In; simpl; auto|].
  apply one_refused; reject.
Qed.

Lemma src_sel_change s v : one_change s SAAIOSSRCSEL v (stv6412_src_sel v).
Proof.
  unfold stv6412_src_sel.
  destruct (Z.eqb_spec v SAA_SRC_ENC) as [->|]; [run_to_send; apply ch_encoder_source|].
  destruct (Z.eqb_spec v SAA_SRC_SCART) as [->|]; [|apply one_refused; reject].
  destruct (decide (the_box = Adb_box)) as [Hb|Hb].
  - rewrite bool_decide_true by done. run_to_send. by apply ch_scart_adb.
  - rewrite bool_decide_false by done. run_to_send. by apply ch_scart_source.
Qed.

(** The values SCARTPIN8 has an entry for. *)
Definition in_table (cmd val : Z) : Prop := cmd = AVSIOSSCARTPIN8 -> 0 <= val <= 2.

Lemma set_command_change s c v fb :
  truthy (c .& AVSIOSET) = true -> in_table c v -> (c = AVSIOSFBLK -> one_change s AVSIOSFBLK v fb) ->
  one_change s c v (set_command c v fb).
Proof.
  intros Hset Hp Hf. unfold set_command.
  repeat match goal with
  | |- one_change _ _ _ (if ?a =? ?b then _ else _) => destruct (Z.eqb_spec a b) as [->|]
  end; try (apply set_vsw_change, list_elem_of_In; simpl; auto; fail);
    try (apply set_asw_change, list_elem_of_In; simpl; auto; fail).
  - apply set_volume_change.
  - apply set_mute_change.
  - by apply Hf.
  - by apply set_pin8_change, Hp.
  - apply set_fnc_change.
  - apply standby_change.
  - apply one_refused; reject.
Qed.

Lemma saa_command_change s c v : truthy (c .& AVSIOSET) = false -> one_change s c v (saa_command c v).
Proof.
  intros Hset.
  unfold saa_command.
  repeat match goal with
  | |- one_change _ _ _ (if ?a =? ?b then _ else _) => destruct (Z.eqb_spec a b) as [->|]
  end.
  - apply set_mode_change.
  - left. split; [reject|]. exists 0. split; [by right|done].
  - apply set_wss_change.
  - apply src_sel_change.
  - apply one_refused; reject.
Qed.

(** The variables keep to their ranges, and mute keeps both or no source. *)
Record state_ok s : Prop := {
  so_data : regs_ok (data s);
  so_tmp : regs_ok (tmpdata s);
  so_src : in_width 3 (s_old_src s);
  so_both : mute_tc s = 0xff <-> mute_v s = 0xff;
  so_tc : mute_tc s = 0xff \/ in_width 3 (mute_tc s);
  so_v : mute_v s = 0xff \/ in_width 2 (mute_v s);
  so_standby : t_stnby s = 0 \/ t_stnby s = 1
}.

Ltac fields_ok :=
  repeat match goal with H : Forall _ (_ :: _) |- _ => apply Forall_cons_1 in H as [? H] end;
  repeat (apply Forall_cons_2; [|]); try apply Forall_nil_2; try assumption;
  try (unfold in_width, bits in *; (lia || (apply Z.mod_pos_bound; lia))).

Lemma volume_width v : 0 <= v <= 63 -> in_width 5 (v / 2).
Proof. intros Hv. split; [apply Z.div_pos|apply Z.div_lt_upper_bound]; lia. Qed.

Lemma table_width i t : scartPin8Table !! i = Some t -> in_width 2 t.
Proof.
  intros [<-|[<-|[<-|[]]]]%list_elem_of_lookup_2%list_elem_of_In; by split.
Qed.

Lemma changes_regs_ok s c v s1 : changes s c v s1 -> state_ok s -> regs_ok (data s1).
Proof.
  intros C [Hd Ht Hs _ _ _ _]. destruct C; try exact Hd; try exact Ht; unfold regs_ok, layout in *; cbn in *;
    try match goal with Hv : _ ∈ _ |- _ => on_list Hv end;
    try match goal with Hv : _ !! _ = Some _ |- _ => apply table_width in Hv end;
    try match goal with Hv : 0 <= ?v <= 63 |- _ => pose proof (volume_width v Hv) end;
    fields_ok.
Qed.

Lemma sources_width d : regs_ok d -> in_width 3 (tc_asc d) /\ in_width 2 (v_asc d) /\ in_width 3 (t_vsc d).
Proof.
  intros Hd. unfold regs_ok, layout in Hd.
  repeat match goal with H : Forall _ (_ :: _) |- _ => apply Forall_cons_1 in H as [? H] end. done.
Qed.

Lemma changes_ok s c v s1 : changes s c v s1 -> state_ok s -> state_ok s1.
Proof.
  intros C O. pose proof (changes_regs_ok _ _ _ _ C O) as Hr. destruct O as [Hd Ht Hs Hb H3 H4 H5].
  pose proof (sources_width _ Hd) as Hreg.
  destruct Hreg as (G1&G2&G3). unfold in_width in *.
  assert (Hm : forall x, 0 <= x < 2 ^ 3 -> x <> 0xff) by lia.
  destruct C; (constructor; [exact Hr|first [exact Ht|exact Hd]|first [exact Hs|exact G3|idtac]|..]); clear Hr Ht Hd;
    cbn; try match goal with Hv : _ ∈ _ |- _ => on_list Hv end; unfold in_width; try lia.
Qed.

(** What goes to the chip: the registers from subaddress 0 on; some boxes have a
    fixed message instead, sent whatever was chosen. *)
Definition message (d : s_stv6412_data) : list Z :=
  if bool_decide (the_box = Trick) then [0x00; 0x40; 0x09; 0x11; 0x84; 0x84; 0x25; 0x08; 0x21; 0xc0] else 0 :: pack d.

Definition sent s1 s' (r : Z) : Prop :=
  exists n d, i2c_master_send (message (data s1)) (io s1) = (n, d) /\ s' = s1 <| io := d |> /\
    r = if bool_decide (the_box = Trick) || (8 =? n) then 0 else - EFAULT.

Lemma set_sends s : exists r s', stv6412_set s = Ok (r, s') /\ sent s s' r.
Proof.
  unfold stv6412_set, sent, message, i2c_send, mbind, M_bind, gets.
  case_bool_decide; destruct (i2c_master_send _ _) as [n d] eqn:E; cbn [orb];
    [|destruct (8 =? n) eqn:Hn]; eexists _, _; (split; [reflexivity|]); exists n, d; rewrite ?Hn; done.
Qed.

Lemma sent_ok s1 s' r : sent s1 s' r -> state_ok s1 -> state_ok s'.
Proof. intros (n&d&_&->&_) []. by constructor. Qed.

Lemma set_ends s : exists r d, stv6412_set s = Ok (r, s <| io := d |>).
Proof.
  unfold stv6412_set, i2c_send, mbind, M_bind, gets. case_bool_decide; destruct (i2c_master_send _ _) as [n d].
  - by exists 0, d.
  - exists (if 8 =? n then 0 else - EFAULT), d. by destruct (8 =? n).
Qed.

(** The commands that do not get a value. *)
Definition is_set (cmd : Z) : bool := truthy (cmd .& AVSIOSET) || negb (truthy (cmd .& AVSIOGET)).

Lemma kernel_change s c v :
  is_set c = true -> in_table c v ->
  exists m, one_change s c v m /\ stv6412_command_kernel c v = returns m.
Proof.
  intros Hc Hp. unfold is_set in Hc. unfold stv6412_command_kernel. destruct (truthy (c .& AVSIOSET)) eqn:Hset.
  - eexists. split; [|reflexivity]. apply set_command_change; [done|done|]. intros _. apply set_fblk_change.
  - cbn [orb] in Hc. apply negb_true_iff in Hc. rewrite Hc. eexists. split; [|reflexivity].
    by apply saa_command_change.
Qed.

Lemma ioctl_change s c v arg :
  is_set c = true -> in_table c v -> readable arg = Some v -> (no_fblk = true -> c <> AVSIOSFBLK) ->
  exists m, one_change s c v m /\ stv6412_command c arg = returns m.
Proof.
  intros Hc Hp Ha Hf. unfold is_set in Hc. unfold stv6412_command. rewrite Ha. destruct (truthy (c .& AVSIOSET)) eqn:Hset.
  - eexists. split; [|reflexivity]. apply set_command_change; [done|done|].
    intros ->. destruct no_fblk; [by destruct Hf|apply set_fblk_change].
  - cbn [orb] in Hc. apply negb_true_iff in Hc. rewrite Hc. eexists. split; [|reflexivity].
    by apply saa_command_change.
Qed.

Lemma returns_run s m r s' : m s = Ok (r, s') -> returns m s = Ok ((r, None), s').
Proof. intros E. unfold returns. by rewrite (M_bind_run _ _ _ _ _ E). Qed.

Lemma kernel_step s c v :
  is_set c = true -> in_table c v ->
  exists r s', stv6412_command_kernel c v s = Ok ((r, None), s') /\
    (s' = s \/ exists s1 d, changes s c v s1 /\ s' = s1 <| io := d |>).
Proof.
  intros Hc Hp. destruct (kernel_change s c v Hc Hp) as (m&[(_&r&_&E)|(s1&C&E)]&->).
  - exists r, s. split; [by apply returns_run|by left].
  - destruct (set_ends s1) as (r&d&E2). exists r, (s1 <| io := d |>).
    split; [apply returns_run; by rewrite E, E2|right; by exists s1, d].
Qed.

(** A sequence of commands from other drivers, with their results. *)
Fixpoint run_kernel (l : list (Z * Z)) : M (avs D) (list Z) :=
  match l with
  | [] => mret []
  | (c, v) :: l => '(r, _) ← stv6412_command_kernel c v; rs ← run_kernel l; mret (r :: rs)
  end.

(** Commands that set a value, with a known pin 8 mode. *)
Definition setting (cv : Z * Z) : Prop := is_set cv.1 = true /\ in_table cv.1 cv.2.

(** A property kept by every accepted change holds after any sequence. *)
Lemma run_kernel_inv (P : avs D -> Prop) (Q : Z -> Prop) :
  (forall s d, P s -> P (s <| io := d |>)) ->
  (forall s c v s1, Q c -> P s -> changes s c v s1 -> P s1) ->
  forall l s, Forall setting l -> Forall (fun cv => Q cv.1) l -> P s ->
  exists rs s', run_kernel l s = Ok (rs, s') /\ P s'.
Proof.
  intros Hio Hstep. induction l as [|[c v] l IH]; intros s Hl HQ Hs; cbn [run_kernel]; [by exists [], s|].
  apply Forall_cons_1 in Hl as [[Hc Hv] Hl]. apply Forall_cons_1 in HQ as [HQ1 HQ].
  destruct (kernel_step s c v Hc Hv) as (r&s1&E&Hs1). rewrite (M_bind_run _ _ _ _ _ E).
  destruct (IH s1 Hl HQ) as (rs&s'&E'&Hs').
  { destruct Hs1 as [->|(s2&d&C&->)]; [done|]. apply Hio. by eapply Hstep. }
  exists (r :: rs), s'. split; [|done]. by rewrite (M_bind_run _ _ _ _ _ E').
Qed.

Lemma run_kernel_app l1 l2 s rs1 s1 rs2 s2 :
  run_kernel l1 s = Ok (rs1, s1) -> run_kernel l2 s1 = Ok (rs2, s2) ->
  run_kernel (l1 ++ l2) s = Ok (rs1 ++ rs2, s2).
Proof.
  revert s rs1. induction l1 as [|[c v] l1 IH]; intros s rs1 E1 E2; cbn [run_kernel app] in *.
  - by injection E1 as <- <-.
  - apply M_bind_Ok in E1 as ([r o]&s3&Ec&E1). apply M_bind_Ok in E1 as (rs&s4&El&E1). injection E1 as <- <-.
    rewrite (M_bind_run _ _ _ _ _ Ec). by rewrite (M_bind_run _ _ _ _ _ (IH _ _ El E2)).
Qed.

(** AVSIOSFBLK is not handled on the boxes without fast blanking. *)
Lemma ioctl_fblk s v arg : no_fblk = true -> readable arg = Some v -> stv6412_command AVSIOSFBLK arg s = Ok ((-1, None), s).
Proof. intros Hf Ha. unfold stv6412_command. rewrite Ha, Hf. reflexivity. Qed.

(** The table for SCART pin 8 is read outside. *)
Lemma ioctl_pin8_overrun s v arg : ~ 0 <= v <= 2 -> readable arg = Some v ->
  stv6412_command AVSIOSSCARTPIN8 arg s = Fault OutOfBounds.
Proof.
  intros Hv Ha. unfold stv6412_command. rewrite Ha.
  change (truthy (AVSIOSSCARTPIN8 .& AVSIOSET)) with true. cbv iota. apply M_bind_fault.
  change (set_command AVSIOSSCARTPIN8 v ?fb) with (t ← lift (aget scartPin8Table v); stv6412_set_t_sb t).
  apply M_bind_fault. unfold lift. destruct (Z.ltb_spec v 0).
  - unfold aget. by rewrite (proj2 (Z.ltb_lt v 0)).
  - rewrite aget_oob; [done|simpl; lia].
Qed.


(** A command has the same effect and result from another driver as from
    the device file with a valid argument, on boxes that support fast
    blanking. *)
Theorem stv_kernel_same s cmd v :
  the_box = Other_box \/ the_box = Adb_box ->
  stv6412_command cmd (UserPtr (Some v) true) s = stv6412_command_kernel cmd v s.
Proof.
  intros Hb. unfold stv6412_command, stv6412_command_kernel. cbn [readable].
  assert (no_fblk = false) as -> by (apply bool_decide_eq_false; intros [E|E]; destruct Hb; congruence). done.
Qed.

(** The volume read back is the volume set rounded down to an even number,
    for every volume from 0 to 63; other volumes are refused. *)
Theorem stv_volume s v :
  the_box <> Adb_box ->
  if (0 <=? v) && (v <=? 63)
  then exists r s', stv6412_set_volume v s = Ok (r, s') /\ stv6412_get_volume s' = Ok (2 * (v / 2), s')
  else stv6412_set_volume v s = Ok (- EINVAL, s).
Proof.
  intros Hb. destruct (Z.leb_spec 0 v), (Z.leb_spec v 63); cbn [andb]; [|(apply set_volume_refused; [done|lia])..].
  rewrite set_volume_run by done. destruct (set_ends (regs s (set t_vol_c (v / 2)))) as (r&d&E).
  eexists r, _. split; [exact E|]. unfold stv6412_get_volume. erewrite M_bind_run by done. cbn.
  unfold truthy, mret, M_ret. destruct (Z.eqb_spec (v / 2) 0) as [->|]; [done|]. cbn. do 2 f_equal. lia.
Qed.
End effects.

(** ** Sound *)

Section sound.
Context {D : Type} `{I2c D} `{AvsBuild}.
Implicit Types s : avs D.

(** The chosen audio sources of the TV and VCR outputs, and whether they are
    muted. *)
Record sound := Sound { tv : Z; vcr : Z; muted : bool }.

Definition sound_of s : sound :=
  if mute_tc s =? 0xff then Sound (tc_asc (data s)) (v_asc (data s)) false
  else Sound (mute_tc s) (mute_v s) true.

(** What a command means for them. *)
Definition sound_step (a : sound) (cv : Z * Z) : sound :=
  let (cmd, val) := cv in
  if (cmd =? AVSIOSASW1) && (1 <=? val) && (val <=? 3) then Sound (tv a) val (muted a)
  else if ((cmd =? AVSIOSASW2) || (cmd =? AVSIOSASW3)) && (1 <=? val) && (val <=? 4)
  then Sound val (vcr a) (muted a)
  else if (cmd =? AVSIOSMUTE) && (val =? AVS_MUTE) then Sound (tv a) (vcr a) true
  else if (cmd =? AVSIOSMUTE) && (val =? AVS_UNMUTE) then Sound (tv a) (vcr a) false
  else a.

(** A muted chip has no source. *)
Definition sound_ok s : Prop :=
  state_ok s /\ (muted (sound_of s) = true -> tc_asc (data s) = 0 /\ v_asc (data s) = 0).

(** SAAIOSSRCSEL and AVSIOSTANDBY write the source registers directly. *)
Definition keeps_sound (cmd : Z) : Prop := cmd <> SAAIOSSRCSEL /\ cmd <> AVSIOSTANDBY.

(** Decides the comparisons of constants. *)
Ltac constants :=
  repeat match goal with
  | |- context [?a =? ?b] => let t := eval vm_compute in (a =? b) in
      lazymatch t with true => change (a =? b) with true | false => change (a =? b) with false end; cbn [andb orb]
  end.

(** Brings what is known of the kept sources into the goal. *)
Ltac kept Hb :=
  try match goal with
  | E : mute_v ?s = 0xff |- _ => pose proof (proj2 Hb E)
  | E : mute_v ?s <> 0xff |- _ => assert (mute_tc s <> 0xff) by (intros Q; apply E, Hb, Q)
  end;
  repeat match goal with
  | E : mute_tc ?s = _ |- _ => rewrite E in *; clear E
  | E : mute_tc ?s <> _ |- _ => rewrite (proj2 (Z.eqb_neq _ _) E) in *; clear E
  end.

Lemma changes_muted s c v s1 :
  keeps_sound c -> changes s c v s1 -> state_ok s ->
  (muted (sound_of s) = true -> tc_asc (data s) = 0 /\ v_asc (data s) = 0) ->
  muted (sound_of s1) = true -> tc_asc (data s1) = 0 /\ v_asc (data s1) = 0.
Proof.
  intros [K1 K2] C O. destruct O as [Hd _ _ Hb Ht Hv _]. unfold sound_of.
  destruct C; cbn; rewrite ?Z.eqb_refl; cbn; intros Hm; try exact Hm; try done;
    kept Hb; cbn in *; try done; try (case_match; done).
Qed.

Lemma changes_step s c v s1 :
  keeps_sound c -> changes s c v s1 -> state_ok s -> sound_of s1 = sound_step (sound_of s) (c, v).
Proof.
  intros [K1 K2] C O. assert (G : mute_tc s <> 0xff -> in_width 3 (mute_tc s) /\ in_width 2 (mute_v s)).
  { intros Hne. destruct (so_tc s O) as [?|?]; [done|]. split; [done|].
    destruct (so_v s O) as [E|?]; [|done]. by apply (so_both s O) in E. }
  destruct O as [Hd _ _ Hb _ _ _]. unfold sound_of, sound_step.
  destruct C; try done; try match goal with E : _ = _ \/ _ = _ |- _ => destruct E as [-> | ->] end; constants;
    try match goal with E : 1 <= ?v <= ?n |- context [1 <=? ?v] =>
      rewrite (proj2 (Z.leb_le 1 v)), (proj2 (Z.leb_le v n)) by lia end; cbn.
  all: try match goal with E : 1 <= ?v <= 4 |- context [?v =? 255] => rewrite (proj2 (Z.eqb_neq v 255)) by lia end.
  all: try match goal with E : mute_tc ?s <> 255 |- _ => destruct (G E) as [G1 G2]; rewrite ?bits_small by done end.
  all: clear G; pose proof (sources_width _ Hd) as (W1&W2&W3); unfold in_width in *;
    try match goal with |- context [tc_asc (data ?s) =? 255] =>
      rewrite (proj2 (Z.eqb_neq (tc_asc (data s)) 255)) by lia end; kept Hb; cbn; try done.
Qed.

(** The commands for the sources, with values that are accepted. *)
Definition sound_cmd (cmd val : Z) : bool :=
  (cmd =? AVSIOSASW1) && (1 <=? val) && (val <=? 3) ||
  ((cmd =? AVSIOSASW2) || (cmd =? AVSIOSASW3)) && (1 <=? val) && (val <=? 4) ||
  (cmd =? AVSIOSMUTE) && ((val =? AVS_MUTE) || (val =? AVS_UNMUTE)).

Lemma sound_step_other a c v : sound_cmd c v = false -> sound_step a (c, v) = a.
Proof.
  unfold sound_cmd, sound_step. intros Hf.
  destruct (_ && _ && _), (_ && _ && _), (_ =? AVSIOSMUTE), (v =? AVS_MUTE), (v =? AVS_UNMUTE); done.
Qed.

Lemma kernel_set c v : truthy (c .& AVSIOSET) = true ->
  stv6412_command_kernel c v = returns (set_command c v (stv6412_set_fblk v)).
Proof. intros Hc. unfold stv6412_command_kernel. by rewrite Hc. Qed.

Lemma sound_cmd_run s c v :
  sound_cmd c v = true ->
  exists m s1, stv6412_command_kernel c v = returns m /\ changes s c v s1 /\ m s = stv6412_set s1.
Proof.
  unfold sound_cmd. intros [[((Hc%Z.eqb_eq&H1%Z.leb_le)%andb_true_iff&H2%Z.leb_le)%andb_true_iff
    |((Hc%orb_true_iff&H1%Z.leb_le)%andb_true_iff&H2%Z.leb_le)%andb_true_iff]%orb_true_iff
    |(Hc%Z.eqb_eq&Hv%orb_true_iff)%andb_true_iff]%orb_true_iff.
  - subst c. exists (stv6412_set_asw 0 v). edestruct (set_asw_run s AVSIOSASW1 v 0) as (s1&C&E);
      [apply list_elem_of_In; simpl; auto|done..|]. by exists s1.
  - destruct Hc as [Hc|Hc]; apply Z.eqb_eq in Hc; subst c.
    + exists (stv6412_set_asw 1 v). edestruct (set_asw_run s AVSIOSASW2 v 1) as (s1&C&E);
        [apply list_elem_of_In; simpl; auto|done..|]. by exists s1.
    + exists (stv6412_set_asw 2 v). edestruct (set_asw_run s AVSIOSASW3 v 2) as (s1&C&E);
        [apply list_elem_of_In; simpl; auto|done..|]. by exists s1.
  - subst c. exists (stv6412_set_mute v). edestruct (set_mute_run s v) as (s1&C&E); [|by exists s1].
    destruct Hv as [Hv|Hv]; apply Z.eqb_eq in Hv; subst v; [by right|by left].
Qed.

Lemma sound_ok_io s d : sound_ok s -> sound_ok (s <| io := d |>).
Proof. intros [[] Hm]. split; [by constructor|exact Hm]. Qed.

Lemma changed_sound s c v s1 m :
  keeps_sound c -> sound_ok s -> changes s c v s1 -> m s = stv6412_set s1 ->
  exists r s', returns m s = Ok ((r, None), s') /\ sound_ok s' /\ sound_of s' = sound_step (sound_of s) (c, v).
Proof.
  intros K [O Hm] C E. destruct (set_ends s1) as (r&d&E2). exists r, (s1 <| io := d |>).
  split; [apply returns_run; by rewrite E|]. split; [|exact (changes_step s c v s1 K C O)].
  apply sound_ok_io. split; [by eapply changes_ok|by eapply changes_muted].
Qed.

Lemma kernel_sound s c v :
  keeps_sound c -> is_set c = true -> in_table c v -> sound_ok s ->
  exists r s', stv6412_command_kernel c v s = Ok ((r, None), s') /\ sound_ok s' /\
    sound_of s' = sound_step (sound_of s) (c, v).
Proof.
  intros K Hc Hv Hs. destruct (sound_cmd c v) eqn:Hsc.
  - destruct (sound_cmd_run s c v Hsc) as (m&s1&->&C&E). by eapply changed_sound.
  - destruct (kernel_change s c v Hc Hv) as (m&[(_&r&_&E)|(s1&C&E)]&->); [|by eapply changed_sound].
    exists r, s. split; [by apply returns_run|]. split; [done|]. by rewrite sound_step_other.
Qed.

Lemma run_sound : forall l s,
  Forall setting l -> Forall (fun cv => keeps_sound cv.1) l -> sound_ok s ->
  exists rs s', run_kernel l s = Ok (rs, s') /\ sound_ok s' /\ sound_of s' = foldl sound_step (sound_of s) l.
Proof.
  induction l as [|[c v] l IH]; intros s Hl HK Hs; cbn [run_kernel]; [by exists [], s|].
  apply Forall_cons_1 in Hl as [[Hc Hv] Hl]. apply Forall_cons_1 in HK as [HK1 HK].
  destruct (kernel_sound s c v) as (r&s1&E&Hs1&Ha1); [done..|]. rewrite (M_bind_run _ _ _ _ _ E).
  destruct (IH s1) as (rs&s2&E2&Hs2&Ha2); [done..|].
  exists (r :: rs), s2. split; [by rewrite (M_bind_run _ _ _ _ _ E2)|]. split; [done|]. by rewrite Ha2, Ha1.
Qed.

(** The source registers, and what the get functions report of them. *)
Lemma sound_selected s : sound_ok s ->
  (tc_asc (data s), v_asc (data s)) =
  (if muted (sound_of s) then (0, 0) else (tv (sound_of s), vcr (sound_of s))).
Proof.
  intros [O Hm]. unfold sound_of in *. destruct (Z.eqb_spec (mute_tc s) 0xff); cbn [tv vcr muted] in *; [done|].
  by destruct Hm as [-> ->].
Qed.

Lemma sound_read_back s : sound_ok s ->
  stv6412_get_asw 1 s = Ok (tv (sound_of s), s) /\ stv6412_get_asw 0 s = Ok (vcr (sound_of s), s) /\
  stv6412_get_mute s = Ok (if muted (sound_of s) then 1 else 0, s).
Proof.
  intros [O _]. pose proof (so_both s O) as Hb.
  unfold stv6412_get_asw, stv6412_get_mute. do 8 erewrite M_bind_run by done. cbn [Z.eqb Pos.eqb orb].
  unfold sound_of. destruct (Z.eqb_spec (mute_tc s) 0xff) as [Ht|Ht]; cbn [tv vcr muted].
  - by rewrite (proj1 Hb Ht).
  - assert (mute_v s <> 0xff) as Hv by (intros Q; by apply Ht, Hb). by rewrite (proj2 (Z.eqb_neq _ _) Hv).
Qed.

(** A command that reports success has sent the registers. *)
Lemma kernel_sent s c v s' :
  is_set c = true -> in_table c v -> c <> SAAIOSENC ->
  stv6412_command_kernel c v s = Ok ((0, None), s') -> exists s1, sent s1 s' 0.
Proof.
  intros Hc Hv He E. destruct (kernel_change s c v Hc Hv) as (m&[(_&r&Hr&Em)|(s1&C&Em)]&Ek); rewrite Ek in E.
  - rewrite (returns_run _ _ _ _ Em) in E. injection E as -> _. destruct Hr as [?|[? _]]; [lia|done].
  - destruct (set_sends s1) as (r&s2&E2&S). rewrite <- Em in E2. rewrite (returns_run _ _ _ _ E2) in E.
    injection E as -> ->. by exists s1.
Qed.

(** The chip at the end of the bus: its registers, which a message it takes
    completely loads from the subaddress in the first byte on. *)
Class Chip (D : Type) `{I2c D} := {
  registers : D -> list Z;
  registers_load b d : length b = 7%nat -> fst (i2c_master_send (0 :: b) d) = 8 ->
    registers (snd (i2c_master_send (0 :: b) d)) = b
}.

(** The audio sources that registers of the chip select for TV and VCR. *)
Definition plays (regs : list Z) : Z * Z :=
  match regs with _ :: b :: _ => (b .& 7, (b ≫ 4) .& 3) | _ => (0, 0) end.

Lemma second_byte tc ag v rest : in_width 3 tc -> in_width 1 ag -> in_width 2 v ->
  let b := tc + 2 ^ 3 * (ag + 2 ^ 1 * (v + 2 ^ 2 * rest)) in b .& 7 = tc /\ (b ≫ 4) .& 3 = v.
Proof.
  intros H1 H2 H3 b. unfold in_width in *. change (b .& 7) with (b .& Z.ones 3). change ((b ≫ 4) .& 3) with ((b ≫ 4) .& Z.ones 2).
  rewrite !Z.land_ones, Z.shiftr_div_pow2 by lia. subst b.
  change (2 ^ 1) with 2 in *. change (2 ^ 2) with 4 in *. change (2 ^ 3) with 8 in *. change (2 ^ 4) with 16.
  split; Z.div_mod_to_equations; lia.
Qed.

Lemma plays_pack d : regs_ok d -> plays (pack d) = (tc_asc d, v_asc d).
Proof.
  intros Hd. unfold regs_ok, layout in Hd.
  repeat match goal with H : Forall _ (_ :: _) |- _ => apply Forall_cons_1 in H as [? H] end.
  unfold plays, pack, layout. cbn [map]. rewrite 3!(pack_byte_cons _ _ (_ :: _)) by (done || lia).
  edestruct second_byte as [-> ->]; done.
Qed.

Lemma sent_plays `{!Chip D} s1 s' :
  the_box <> Trick -> regs_ok (data s') -> sent s1 s' 0 ->
  plays (registers (io s')) = (tc_asc (data s'), v_asc (data s')).
Proof.
  intros Hb Hd (n&d&E&->&Hr). unfold message in E. rewrite bool_decide_false in E, Hr by done. cbn [orb] in Hr.
  destruct (Z.eqb_spec 8 n) as [<-|]; [|done]. rewrite <- (plays_pack _ Hd). cbn.
  pose proof (registers_load (pack (data s1)) (io s1) eq_refl) as L. rewrite E in L. cbn [fst snd] in L. by rewrite L.
Qed.


Lemma standby_command v fb : set_command AVSIOSTANDBY v fb = stv6412_standby v.
Proof. reflexivity. Qed.

(** C39. Leaving standby restores exactly the registers there were when it was
    entered, whatever was set in between. *)
Theorem stv_standby_restores l s :
  t_stnby s = 0 -> Forall setting l -> Forall (fun cv => cv.1 <> AVSIOSTANDBY) l ->
  exists rs s', run_kernel ((AVSIOSTANDBY, 1) :: l ++ [(AVSIOSTANDBY, 0)]) s = Ok (rs, s') /\
    data s' = data s /\ t_stnby s' = 0.
Proof.
  intros Ht Hl HN.
  destruct (standby_run s Ht) as (s0&_&E0&T0&B0). destruct (set_ends s0) as (r&d&E0').
  set (s1 := s0 <| io := d |>).
  assert (E1 : stv6412_command_kernel AVSIOSTANDBY 1 s = Ok ((r, None), s1)).
  { rewrite kernel_set, standby_command by reflexivity. apply returns_run. by rewrite E0. }
  destruct (run_kernel_inv (fun s' => tmpdata s' = data s /\ t_stnby s' = 1) (fun c => c <> AVSIOSTANDBY))
    with (l := l) (s := s1) as (rs&s2&E2&G1&G2); try done.
  { intros s' c v s2 Hc G' C. destruct C; done. }
  destruct (wake_run s2 G2) as (s4&_&E4&T4&B4). destruct (set_ends s4) as (r3&d3&E4').
  set (s3 := s4 <| io := d3 |>).
  assert (E3 : stv6412_command_kernel AVSIOSTANDBY 0 s2 = Ok ((r3, None), s3)).
  { rewrite kernel_set, standby_command by reflexivity. apply returns_run. by rewrite E4. }
  exists (r :: rs ++ [r3]), s3. split; [|split; [cbn; by rewrite T4|done]]. cbn [run_kernel].
  rewrite (M_bind_run _ _ _ _ _ E1). erewrite M_bind_run; [reflexivity|].
  apply (run_kernel_app l [(AVSIOSTANDBY, 0)] s1 rs s2 [r3] s3 E2).
  cbn [run_kernel]. by rewrite (M_bind_run _ _ _ _ _ E3).
Qed.

Lemma pin8_command v fb :
  set_command AVSIOSSCARTPIN8 v fb = (t ← lift (aget scartPin8Table v); stv6412_set_t_sb t).
Proof. reflexivity. Qed.

(** The status of SCART pin 8 read back is the one set, for the three
    statuses there are; any other value reads outside the table on the stack,
    as the argument is not checked. *)
Theorem stv_pin8 s v :
  if (0 <=? v) && (v <=? 2)
  then exists r s', stv6412_command_kernel AVSIOSSCARTPIN8 v s = Ok ((r, None), s') /\
    stv6412_command_kernel AVSIOGSCARTPIN8 0 s' = Ok ((0, Some v), s')
  else stv6412_command_kernel AVSIOSSCARTPIN8 v s = Fault OutOfBounds.
Proof.
  destruct (Z.leb_spec 0 v), (Z.leb_spec v 2); cbn [andb].
  - assert (exists t, scartPin8Table !! Z.to_nat v = Some t /\ aget scartPin8Table_reverse t = Ok v /\
      forall s, stv6412_set_t_sb t s = stv6412_set (regs s (set t_sb t))) as (t&Ht&Hr&Hrun).
    { assert (v = 0 \/ v = 1 \/ v = 2) as [->|[->| ->]] by lia; eexists; by split_and!. }
    destruct (set_ends (regs s (set t_sb t))) as (r&d&E). eexists r, _. split.
    + rewrite kernel_set, pin8_command by reflexivity. apply returns_run.
      erewrite M_bind_run by (by apply lift_run, aget_Ok). by rewrite Hrun, E.
    + unfold stv6412_command_kernel. change (truthy (AVSIOGSCARTPIN8 .& AVSIOSET)) with false.
      change (truthy (AVSIOGSCARTPIN8 .& AVSIOGET)) with true. cbv iota.
      set (s' := (regs s (set t_sb t)) <| io := d |>).
      rewrite (M_bind_run _ _ _ (Some v) s'); [reflexivity|].
      change (some_of (t ← stv6412_get_t_sb; lift (aget scartPin8Table_reverse t)) s' = Ok (Some v, s')).
      unfold some_of. rewrite (M_bind_run _ _ _ v s'); [reflexivity|]. unfold stv6412_get_t_sb.
      rewrite (M_bind_run _ _ _ t s') by done. by apply lift_run.
  - rewrite kernel_set, pin8_command by reflexivity. unfold returns.
    rewrite (M_bind_fault _ _ _ OutOfBounds); [done|]. rewrite (M_bind_fault _ _ _ OutOfBounds); [done|].
    unfold lift. rewrite aget_oob; [done|simpl; lia].
  - rewrite kernel_set, pin8_command by reflexivity. unfold returns.
    rewrite (M_bind_fault _ _ _ OutOfBounds); [done|]. rewrite (M_bind_fault _ _ _ OutOfBounds); [done|].
    unfold lift, aget. by rewrite (proj2 (Z.ltb_lt v 0)).
  - lia.
Qed.
End sound.

(** ** Examples *)

(** A bus that takes every message and remembers it. *)
#[export] Instance bus : I2c (list (list Z)) := {|
  i2c_master_send b d := (Z.of_nat (length b), d ++ [b]);
  i2c_master_recv d := ((1, 0), d)
|}.

Definition start : avs (list (list Z)) := Avs [] zero_regs zero_regs 0 0 0 0.

(** The driver after stv6412_init. *)
Definition ready : avs (list (list Z)) :=
  match @stv6412_init _ _ Other_box start with Ok (_, s) => s | Fault _ => start end.

Lemma ready_ok : state_ok ready.
Proof.
  split; try (apply (bool_decide_unpack _); vm_compute; exact I); vm_compute; intuition discriminate.
Qed.

(** The results and final registers of a sequence of commands. *)
Definition outcome (l : list (Z * Z)) : option (list Z * s_stv6412_data) :=
  match @run_kernel _ _ Other_box l ready with Ok (rs, s) => Some (rs, data s) | Fault _ => None end.

(** Selecting the SCART input twice in a row overwrites the remembered
    source with the AUX mode itself, so that selecting the encoder afterwards
    leaves the TV on the SCART input; selected once, the encoder comes back. *)
Theorem stv_scart_twice :
  (exists rs d, outcome [(SAAIOSSRCSEL, SAA_SRC_SCART); (SAAIOSSRCSEL, SAA_SRC_ENC)] = Some (rs, d) /\ t_vsc d = 1) /\
  (exists rs d, outcome [(SAAIOSSRCSEL, SAA_SRC_SCART); (SAAIOSSRCSEL, SAA_SRC_SCART); (SAAIOSSRCSEL, SAA_SRC_ENC)]
     = Some (rs, d) /\ rs = [0; 0; 0] /\ t_vsc d = 4).
Proof. split; eexists _, _; (split; [vm_compute; reflexivity|]); done. Qed.

(** Selecting a source while muted makes the chip audible though the driver
    still reports it as muted. *)
Theorem stv_source_unmutes :
  exists rs s, @run_kernel _ _ Other_box [(AVSIOSMUTE, AVS_MUTE); (SAAIOSSRCSEL, SAA_SRC_SCART)] ready = Ok (rs, s) /\
    tc_asc (data s) = 2 /\ stv6412_get_mute s = Ok (1, s).
Proof. eexists _, _. split; [vm_compute; reflexivity|]. by split. Qed.

Lemma stv_message_determines_witness :
  Forall is_u8 (pack (data ready)) /\ length (pack (data ready)) = 7%nat /\
    (pack (data ready) = pack (data ready) -> data ready = data ready).
Proof. exact (stv_message_determines (data ready) (data ready) (so_data _ ready_ok) (so_data _ ready_ok)). Defined.


Lemma stv_kernel_same_witness :
  @stv6412_command _ _ Other_box AVSIOSVOL (UserPtr (Some 40) true) ready =
  @stv6412_command_kernel _ _ Other_box AVSIOSVOL 40 ready.
Proof. exact (@stv_kernel_same _ _ Other_box ready AVSIOSVOL 40 (or_introl eq_refl)). Defined.

Lemma stv_volume_witness :
  exists r s', @stv6412_set_volume _ _ Other_box 41 ready = Ok (r, s') /\ stv6412_get_volume s' = Ok (40, s').
Proof. refine (@stv_volume _ _ Other_box ready 41 _). intros [=]. Defined.

Definition demo_sound : list (Z * Z) := [(AVSIOSMUTE, 1); (AVSIOSASW2, 3); (AVSIOSMUTE, 0)].

(** The chip behind that bus has the registers of the last message. *)
Lemma bus_loads (b : list Z) (d : list (list Z)) : tail (last (d ++ [0 :: b]) []) = b.
Proof. by rewrite last_last. Qed.
#[export] Instance bus_chip : Chip (list (list Z)) := {|
  registers d := tail (last d []); registers_load b d _ _ := bus_loads b d
|}.


Lemma stv_standby_restores_witness :
  exists rs s', @run_kernel _ _ Other_box [(AVSIOSTANDBY, 1); (AVSIOSVOL, 10); (AVSIOSTANDBY, 0)] ready = Ok (rs, s') /\
    data s' = data ready /\ t_stnby s' = 0.
Proof.
  refine (@stv_standby_restores _ _ Other_box [(AVSIOSVOL, 10)] ready _ _ _).
  - reflexivity.
  - apply Forall_cons_2; [split; [reflexivity|intros [=]]|apply Forall_nil_2].
  - apply Forall_cons_2; [intros [=]|apply Forall_nil_2].
Defined.
