(* ===== verification/SciState.v ===== *)
(** * Smart card reader: constants, control block and registers (smartcard/sci.h, sci_7111.h)

    The build is the one for the STx7111 boxes with one reader (sci_7111.h,
    without voltage control), under a kernel of at least 2.6.32. *)
From S2P Require Import Prelude Atr.

(** ** Constants *)

Definition SCI_BUFFER_SIZE := 0x400.
Definition SCI_CLK_GLOBAL := 100000000.
Definition CLOCK_ENABLE_MASK := 0x2.
Definition CLOCK_SOURCE_MASK := 0x1.
Definition CLOCK_SOURCE_GLOBAL := 0x0.
Definition SCI_UNKNOWN_CLASS := 0.
Definition SCI_CLASS_A := 1.
Definition SCI_CLASS_B := 2.
Definition SCI_CLASS_AB := 3.
Definition SCI_VCC_3 := 3.
Definition SCI_VCC_5 := 5.
Definition SCI_ATR_T := 0.
Definition SCI_ATR_F := 4500000.
Definition SCI_ATR_ETU := 372.
Definition SCI_ATR_WWT := 9600.
Definition SCI_ATR_CWT := 8203.
Definition SCI_ATR_BWT := 0.
Definition SCI_ATR_EGT := 0.
Definition SCI_ATR_CHECK := 1.
Definition SCI_ATR_P := 5.
Definition SCI_ATR_I := 50.
Definition SCI_ATR_U := SCI_CLASS_A.
Definition SCI_MAX_F := 80000000.
Definition SCI_MAX_ETU := 0xFFF.
Definition SCI_MAX_CWT := 0xFFFF.
Definition SCI_MAX_BWT := 0xFFFFFFFF.
Definition SCI_MAX_EGT := 0xFF.
Definition SCI_MIN_F := 1000000.
Definition SCI_MIN_ETU := 8.
Definition SCI_MIN_CWT := 12.
Definition SCI_MIN_BWT := 971.
Definition SCI_MIN_EGT := 0.
Definition SCI_SYNC := 0x00000001.
Definition SCI_CLOCK_STOP_DISABLED := 0.
Definition UNINVERT := 0x00.
Definition INVERT := 0x01.
Definition NO_DEFINED := 0xFF.
Definition PARITY_ODD := 0x20.
Definition GT_DEFAULT := 0x02.
Definition HW_FIFO_SIZE := 16.
Definition RX_FULL_IRQ := 0x01.
Definition TX_EMPTY_IRQ := 0x02.
Definition RX_FULL_TX_EMPTY_IRQ := 0x03.
Definition TX_HALF_EMPTY_IRQ := 0x04.
Definition MAX_ATR_LEN := 33.
Definition __STB_SYS_CLK := 63000000.
(** The boxes of this build have one reader. *)
Definition SCI_NUMBER_OF_CONTROLLERS := 1.
Definition SYS_CFG_BASE_ADDRESS := 0xFE001000.
Definition SYS_CFG5 := 0x114.
Definition SYS_CFG7 := 0x11C.
Definition SCI0_INT_RX_TX := 123.
Definition PIO0_BASE_ADDRESS := 0xfd020000.
Definition SCI0_BASE_ADDRESS := 0xfd048000.
Definition ASC0_BASE_ADDRESS := 0xfd030000.
Definition ASC0_BAUDRATE := 0x00.
Definition ASC0_TX_BUF := 0x004.
Definition ASC0_RX_BUF := 0x008.
Definition ASC0_CTRL := 0x00C.
Definition ASC0_INT_EN := 0x010.
Definition ASC0_STA := 0x014.
Definition ASC0_GUARDTIME := 0x018.
Definition ASC0_TX_RST := 0x020.
Definition ASC0_RX_RST := 0x024.
Definition PIO4_BASE_ADDRESS := 0xfd024000.
Definition SCI1_INT_RX_TX := 122.
Definition PIO1_BASE_ADDRESS := 0xfd021000.
Definition SCI1_BASE_ADDRESS := 0xfd049000.
Definition ASC1_BASE_ADDRESS := 0xfd031000.
Definition PIO3_BASE_ADDRESS := 0xfd023000.

Definition SCI_ERROR_OK := 0.
Definition SCI_ERROR_DRIVER_NOT_INITIALIZED := -1000.
Definition SCI_ERROR_CARD_NOT_PRESENT := -995.
Definition SCI_ERROR_CARD_NOT_ACTIVATED := -994.
Definition SCI_ERROR_PARAMETER_OUT_OF_RANGE := -989.
Definition SCI_ERROR_CLOCK_STOP_DISABLED := -987.
Definition SCI_ERROR_VCC_INVALID := -985.
Definition SCI_ERROR_SCI_INVALID := -984.

Definition SCI_CARD_NOT_PRESENT := 0.
Definition SCI_CARD_PRESENT := 1.
Definition SCI_WITHOUT_ATR := 0.
Definition SCI_ATR_READY := 1.

(** The table that turns a byte read with the wrong convention round. *)
Definition byte_invert_table : list Z :=
  [
   0xFF; 0x7F; 0xBF; 0x3F; 0xDF; 0x5F; 0x9F; 0x1F; 0xEF; 0x6F; 0xAF; 0x2F; 0xCF; 0x4F; 0x8F; 0x0F;
   0xF7; 0x77; 0xB7; 0x37; 0xD7; 0x57; 0x97; 0x17; 0xE7; 0x67; 0xA7; 0x27; 0xC7; 0x47; 0x87; 0x07;
   0xFB; 0x7B; 0xBB; 0x3B; 0xDB; 0x5B; 0x9B; 0x1B; 0xEB; 0x6B; 0xAB; 0x2B; 0xCB; 0x4B; 0x8B; 0x0B;
   0xF3; 0x73; 0xB3; 0x33; 0xD3; 0x53; 0x93; 0x13; 0xE3; 0x63; 0xA3; 0x23; 0xC3; 0x43; 0x83; 0x03;
   0xFD; 0x7D; 0xBD; 0x3D; 0xDD; 0x5D; 0x9D; 0x1D; 0xED; 0x6D; 0xAD; 0x2D; 0xCD; 0x4D; 0x8D; 0x0D;
   0xF5; 0x75; 0xB5; 0x35; 0xD5; 0x55; 0x95; 0x15; 0xE5; 0x65; 0xA5; 0x25; 0xC5; 0x45; 0x85; 0x05;
   0xF9; 0x79; 0xB9; 0x39; 0xD9; 0x59; 0x99; 0x19; 0xE9; 0x69; 0xA9; 0x29; 0xC9; 0x49; 0x89; 0x09;
   0xF1; 0x71; 0xB1; 0x31; 0xD1; 0x51; 0x91; 0x11; 0xE1; 0x61; 0xA1; 0x21; 0xC1; 0x41; 0x81; 0x01;
   0xFE; 0x7E; 0xBE; 0x3E; 0xDE; 0x5E; 0x9E; 0x1E; 0xEE; 0x6E; 0xAE; 0x2E; 0xCE; 0x4E; 0x8E; 0x0E;
   0xF6; 0x76; 0xB6; 0x36; 0xD6; 0x56; 0x96; 0x16; 0xE6; 0x66; 0xA6; 0x26; 0xC6; 0x46; 0x86; 0x06;
   0xFA; 0x7A; 0xBA; 0x3A; 0xDA; 0x5A; 0x9A; 0x1A; 0xEA; 0x6A; 0xAA; 0x2A; 0xCA; 0x4A; 0x8A; 0x0A;
   0xF2; 0x72; 0xB2; 0x32; 0xD2; 0x52; 0x92; 0x12; 0xE2; 0x62; 0xA2; 0x22; 0xC2; 0x42; 0x82; 0x02;
   0xFC; 0x7C; 0xBC; 0x3C; 0xDC; 0x5C; 0x9C; 0x1C; 0xEC; 0x6C; 0xAC; 0x2C; 0xCC; 0x4C; 0x8C; 0x0C;
   0xF4; 0x74; 0xB4; 0x34; 0xD4; 0x54; 0x94; 0x14; 0xE4; 0x64; 0xA4; 0x24; 0xC4; 0x44; 0x84; 0x04;
   0xF8; 0x78; 0xB8; 0x38; 0xD8; 0x58; 0x98; 0x18; 0xE8; 0x68; 0xA8; 0x28; 0xC8; 0x48; 0x88; 0x08;
   0xF0; 0x70; 0xB0; 0x30; 0xD0; 0x50; 0x90; 0x10; 0xE0; 0x60; 0xA0; 0x20; 0xC0; 0x40; 0x80; 0x00
  ].

Inductive BASE_ADDR :=
  | BASE_ADDRESS_SYSCFG | BASE_ADDRESS_PIO0 | BASE_ADDRESS_PIO1 | BASE_ADDRESS_PIO3
  | BASE_ADDRESS_PIO4 | BASE_ADDRESS_ASC0 | BASE_ADDRESS_ASC1 | BASE_ADDRESS_SCI0
  | BASE_ADDRESS_SCI1 | BASE_ADDRESS_FPGA.

(** ** State *)

Record SCI_MODES := mkModes { emv2000 : Z; dma : Z; man_act : Z; rw_mode : Z }.

Record SCI_PARAMETERS := mkParameters {
  p_T : Z; p_f : Z; p_ETU : Z; p_WWT : Z; p_CWT : Z; p_BWT : Z; p_EGT : Z;
  p_clock_stop_polarity : Z; p_check : Z; p_P : Z; p_I : Z; p_U : Z
}.


Definition eta_SCI_MODES (s : SCI_MODES) : SCI_MODES :=
  mkModes (emv2000 s) (dma s) (man_act s) (rw_mode s).
#[export] Instance set_emv2000 : Setter emv2000 := ltac:(setter eta_SCI_MODES emv2000).
#[export] Instance set_dma : Setter dma := ltac:(setter eta_SCI_MODES dma).
#[export] Instance set_man_act : Setter man_act := ltac:(setter eta_SCI_MODES man_act).
#[export] Instance set_rw_mode : Setter rw_mode := ltac:(setter eta_SCI_MODES rw_mode).


Definition eta_SCI_PARAMETERS (s : SCI_PARAMETERS) : SCI_PARAMETERS :=
  mkParameters (p_T s) (p_f s) (p_ETU s) (p_WWT s) (p_CWT s) (p_BWT s) (p_EGT s)
    (p_clock_stop_polarity s) (p_check s) (p_P s) (p_I s) (p_U s).
#[export] Instance set_p_T : Setter p_T := ltac:(setter eta_SCI_PARAMETERS p_T).
#[export] Instance set_p_f : Setter p_f := ltac:(setter eta_SCI_PARAMETERS p_f).
#[export] Instance set_p_ETU : Setter p_ETU := ltac:(setter eta_SCI_PARAMETERS p_ETU).
#[export] Instance set_p_WWT : Setter p_WWT := ltac:(setter eta_SCI_PARAMETERS p_WWT).
#[export] Instance set_p_CWT : Setter p_CWT := ltac:(setter eta_SCI_PARAMETERS p_CWT).
#[export] Instance set_p_BWT : Setter p_BWT := ltac:(setter eta_SCI_PARAMETERS p_BWT).
#[export] Instance set_p_EGT : Setter p_EGT := ltac:(setter eta_SCI_PARAMETERS p_EGT).
#[export] Instance set_p_clock_stop_polarity : Setter p_clock_stop_polarity := ltac:(setter eta_SCI_PARAMETERS p_clock_stop_polarity).
#[export] Instance set_p_check : Setter p_check := ltac:(setter eta_SCI_PARAMETERS p_check).
#[export] Instance set_p_P : Setter p_P := ltac:(setter eta_SCI_PARAMETERS p_P).
#[export] Instance set_p_I : Setter p_I := ltac:(setter eta_SCI_PARAMETERS p_I).
#[export] Instance set_p_U : Setter p_U := ltac:(setter eta_SCI_PARAMETERS p_U).

(** The control block of the box's card reader with the file-level variable
    sci_driver_init and the hardware.  p_read, p_write, CLK, sci_clock and
    base_address_fpga are never used and left out, thread only holds what
    kthread_run returned; pin handles are numbers, 0 for none. *)
Record sci (D : Type) := mkSci {
  io : D; sci_driver_init : Z; base_address_syscfg : Z; base_address_pio0 : Z;
  base_address_pio1 : Z; base_address_pio3 : Z; base_address_pio4 : Z;
  base_address_asc : Z; base_address_sci : Z; WWT : Z; ETU : Z; FI : Z; DI : Z;
  CLOCK : Z; card_detect : Z; error : Z; waiting : Z; sci_modes : SCI_MODES;
  sci_parameters : SCI_PARAMETERS; write_buf : list Z; read_buf : list Z;
  driver_inuse : Z; atr_status : Z; rx_rptr : Z; rx_wptr : Z; tx_rptr : Z;
  tx_wptr : Z; clk : Z; atr : ATR; atr_len : Z; atr_buf : list Z; byte_invert : Z;
  irq_mode : Z; sci_atr_class : Z; id_ : Z; pio_port : Z; rxd : Z; txd : Z; reset : Z;
  detect : Z; cmdvcc : Z; clock : Z; polling : Z
}.
Arguments mkSci {D} _ _ _ _ _ _ _ _ _ _ _ _ _ _ _ _ _ _ _ _ _ _ _ _ _ _ _ _ _ _ _ _ _ _ _ _ _ _ _ _ _ _ _.
Arguments io {D} _.
Arguments sci_driver_init {D} _.
Arguments base_address_syscfg {D} _.
Arguments base_address_pio0 {D} _.
Arguments base_address_pio1 {D} _.
Arguments base_address_pio3 {D} _.
Arguments base_address_pio4 {D} _.
Arguments base_address_asc {D} _.
Arguments base_address_sci {D} _.
Arguments WWT {D} _.
Arguments ETU {D} _.
Arguments FI {D} _.
Arguments DI {D} _.
Arguments CLOCK {D} _.
Arguments card_detect {D} _.
Arguments error {D} _.
Arguments waiting {D} _.
Arguments sci_modes {D} _.
Arguments sci_parameters {D} _.
Arguments write_buf {D} _.
Arguments read_buf {D} _.
Arguments driver_inuse {D} _.
Arguments atr_status {D} _.
Arguments rx_rptr {D} _.
Arguments rx_wptr {D} _.
Arguments tx_rptr {D} _.
Arguments tx_wptr {D} _.
Arguments clk {D} _.
Arguments atr {D} _.
Arguments atr_len {D} _.
Arguments atr_buf {D} _.
Arguments byte_invert {D} _.
Arguments irq_mode {D} _.
Arguments sci_atr_class {D} _.
Arguments id_ {D} _.
Arguments pio_port {D} _.
Arguments rxd {D} _.
Arguments txd {D} _.
Arguments reset {D} _.
Arguments detect {D} _.
Arguments cmdvcc {D} _.
Arguments clock {D} _.
Arguments polling {D} _.

Definition eta_sci {D : Type} (s : sci D) : sci D :=
  mkSci (io s) (sci_driver_init s) (base_address_syscfg s) (base_address_pio0 s)
    (base_address_pio1 s) (base_address_pio3 s) (base_address_pio4 s)
    (base_address_asc s) (base_address_sci s) (WWT s) (ETU s) (FI s) (DI s) (CLOCK s)
    (card_detect s) (error s) (waiting s) (sci_modes s) (sci_parameters s) (write_buf s)
    (read_buf s) (driver_inuse s) (atr_status s) (rx_rptr s) (rx_wptr s) (tx_rptr s)
    (tx_wptr s) (clk s) (atr s) (atr_len s) (atr_buf s) (byte_invert s) (irq_mode s)
    (sci_atr_class s) (id_ s) (pio_port s) (rxd s) (txd s) (reset s) (detect s)
    (cmdvcc s) (clock s) (polling s).

Section sci_setters.
Context {D : Type}.
#[export] Instance set_io : Setter (@io D) := ltac:(setter (@eta_sci D) (@io D)).
#[export] Instance set_sci_driver_init : Setter (@sci_driver_init D) := ltac:(setter (@eta_sci D) (@sci_driver_init D)).
#[export] Instance set_base_address_syscfg : Setter (@base_address_syscfg D) := ltac:(setter (@eta_sci D) (@base_address_syscfg D)).
#[export] Instance set_base_address_pio0 : Setter (@base_address_pio0 D) := ltac:(setter (@eta_sci D) (@base_address_pio0 D)).
#[export] Instance set_base_address_pio1 : Setter (@base_address_pio1 D) := ltac:(setter (@eta_sci D) (@base_address_pio1 D)).
#[export] Instance set_base_address_pio3 : Setter (@base_address_pio3 D) := ltac:(setter (@eta_sci D) (@base_address_pio3 D)).
#[export] Instance set_base_address_pio4 : Setter (@base_address_pio4 D) := ltac:(setter (@eta_sci D) (@base_address_pio4 D)).
#[export] Instance set_base_address_asc : Setter (@base_address_asc D) := ltac:(setter (@eta_sci D) (@base_address_asc D)).
#[export] Instance set_base_address_sci : Setter (@base_address_sci D) := ltac:(setter (@eta_sci D) (@base_address_sci D)).
#[export] Instance set_WWT : Setter (@WWT D) := ltac:(setter (@eta_sci D) (@WWT D)).
#[export] Instance set_ETU : Setter (@ETU D) := ltac:(setter (@eta_sci D) (@ETU D)).
#[export] Instance set_FI : Setter (@FI D) := ltac:(setter (@eta_sci D) (@FI D)).
#[export] Instance set_DI : Setter (@DI D) := ltac:(setter (@eta_sci D) (@DI D)).
#[export] Instance set_CLOCK : Setter (@CLOCK D) := ltac:(setter (@eta_sci D) (@CLOCK D)).
#[export] Instance set_card_detect : Setter (@card_detect D) := ltac:(setter (@eta_sci D) (@card_detect D)).
#[export] Instance set_error : Setter (@error D) := ltac:(setter (@eta_sci D) (@error D)).
#[export] Instance set_waiting : Setter (@waiting D) := ltac:(setter (@eta_sci D) (@waiting D)).
#[export] Instance set_sci_modes : Setter (@sci_modes D) := ltac:(setter (@eta_sci D) (@sci_modes D)).
#[export] Instance set_sci_parameters : Setter (@sci_parameters D) := ltac:(setter (@eta_sci D) (@sci_parameters D)).
#[export] Instance set_write_buf : Setter (@write_buf D) := ltac:(setter (@eta_sci D) (@write_buf D)).
#[export] Instance set_read_buf : Setter (@read_buf D) := ltac:(setter (@eta_sci D) (@read_buf D)).
#[export] Instance set_driver_inuse : Setter (@driver_inuse D) := ltac:(setter (@eta_sci D) (@driver_inuse D)).
#[export] Instance set_atr_status : Setter (@atr_status D) := ltac:(setter (@eta_sci D) (@atr_status D)).
#[export] Instance set_rx_rptr : Setter (@rx_rptr D) := ltac:(setter (@eta_sci D) (@rx_rptr D)).
#[export] Instance set_rx_wptr : Setter (@rx_wptr D) := ltac:(setter (@eta_sci D) (@rx_wptr D)).
#[export] Instance set_tx_rptr : Setter (@tx_rptr D) := ltac:(setter (@eta_sci D) (@tx_rptr D)).
#[export] Instance set_tx_wptr : Setter (@tx_wptr D) := ltac:(setter (@eta_sci D) (@tx_wptr D)).
#[export] Instance set_clk : Setter (@clk D) := ltac:(setter (@eta_sci D) (@clk D)).
#[export] Instance set_atr : Setter (@atr D) := ltac:(setter (@eta_sci D) (@atr D)).
#[export] Instance set_atr_len : Setter (@atr_len D) := ltac:(setter (@eta_sci D) (@atr_len D)).
#[export] Instance set_atr_buf : Setter (@atr_buf D) := ltac:(setter (@eta_sci D) (@atr_buf D)).
#[export] Instance set_byte_invert : Setter (@byte_invert D) := ltac:(setter (@eta_sci D) (@byte_invert D)).
#[export] Instance set_irq_mode : Setter (@irq_mode D) := ltac:(setter (@eta_sci D) (@irq_mode D)).
#[export] Instance set_sci_atr_class : Setter (@sci_atr_class D) := ltac:(setter (@eta_sci D) (@sci_atr_class D)).
#[export] Instance set_id_ : Setter (@id_ D) := ltac:(setter (@eta_sci D) (@id_ D)).
#[export] Instance set_pio_port : Setter (@pio_port D) := ltac:(setter (@eta_sci D) (@pio_port D)).
#[export] Instance set_rxd : Setter (@rxd D) := ltac:(setter (@eta_sci D) (@rxd D)).
#[export] Instance set_txd : Setter (@txd D) := ltac:(setter (@eta_sci D) (@txd D)).
#[export] Instance set_reset : Setter (@reset D) := ltac:(setter (@eta_sci D) (@reset D)).
#[export] Instance set_detect : Setter (@detect D) := ltac:(setter (@eta_sci D) (@detect D)).
#[export] Instance set_cmdvcc : Setter (@cmdvcc D) := ltac:(setter (@eta_sci D) (@cmdvcc D)).
#[export] Instance set_clock : Setter (@clock D) := ltac:(setter (@eta_sci D) (@clock D)).
#[export] Instance set_polling : Setter (@polling D) := ltac:(setter (@eta_sci D) (@polling D)).
End sci_setters.


(** The module's variables before initialisation: all zero. *)
Definition sci_boot {D} (d : D) : sci D :=
  {| io := d; sci_driver_init := 0; base_address_syscfg := 0; base_address_pio0 := 0;
     base_address_pio1 := 0; base_address_pio3 := 0; base_address_pio4 := 0;
     base_address_asc := 0; base_address_sci := 0; WWT := 0; ETU := 0; FI := 0; DI := 0;
     CLOCK := 0; card_detect := 0; error := 0; waiting := 0; sci_modes := mkModes 0 0 0 0;
     sci_parameters := mkParameters 0 0 0 0 0 0 0 0 0 0 0 0;
     write_buf := replicate (Z.to_nat SCI_BUFFER_SIZE) 0;
     read_buf := replicate (Z.to_nat SCI_BUFFER_SIZE) 0;
     driver_inuse := 0; atr_status := 0; rx_rptr := 0; rx_wptr := 0; tx_rptr := 0;
     tx_wptr := 0; clk := 0; atr := zero_ATR; atr_len := 0;
     atr_buf := replicate (Z.to_nat MAX_ATR_LEN) 0; byte_invert := 0; irq_mode := 0;
     sci_atr_class := 0; id_ := 0; pio_port := 0; rxd := 0; txd := 0; reset := 0;
     detect := 0; cmdvcc := 0; clock := 0; polling := 0 |}.

(** ** The hardware and the kernel services around it

    [ioremap] tells whether an address can be mapped.  A pin handle is what
    requesting the pin (port, number, direction) returned. *)
Inductive stpio_direction := STPIO_IN | STPIO_OUT | STPIO_ALT_OUT | STPIO_ALT_BIDIR.

Class SciHw (D : Type) := {
  sci_mmio :: Mmio D;
  ioremap : Z -> D -> bool;
  stpio_request_pin : Z -> Z -> stpio_direction -> D -> Z * D;
  stpio_free_pin : Z -> D -> D;
  stpio_set_pin : Z -> Z -> D -> D;
  stpio_get_pin : Z -> D -> Z;
  request_irq : Z -> D -> Z * D;
  free_irq : Z -> D -> D;
  disable_irq : Z -> D -> D;
  enable_irq : Z -> D -> D;
  kthread_run : D -> bool * D
}.
Section registers.
Context {D : Type} `{SciHw D}.

(** A kernel service that acts on the hardware and returns nothing. *)
Definition hw_do (f : D -> D) : M (sci D) unit := modify (fun s => s <| io := f (io s) |>).
Definition hw_call {A} (f : D -> A * D) : M (sci D) A := fun s =>
  let (a, d) := f (io s) in Ok (a, s <| io := d |>).

Definition checked_ioremap (a : Z) : M (sci D) bool := gets (fun s => ioremap a (io s)).
Definition ctrl_inl (a : Z) : M (sci D) Z :=
  v ← hw_call (mmio_rd a); mret (u32 v).
Definition ctrl_outl (v a : Z) : M (sci D) unit := hw_do (mmio_wr a (u32 v)).

(** The switch of the register functions: the base a register is relative to. *)
Definition base_of (b : BASE_ADDR) (s : sci D) : option Z :=
  match b with
  | BASE_ADDRESS_SYSCFG => Some (base_address_syscfg s)
  | BASE_ADDRESS_PIO0 => Some (base_address_pio0 s)
  | BASE_ADDRESS_PIO1 => Some (base_address_pio1 s)
  | BASE_ADDRESS_PIO3 => Some (base_address_pio3 s)
  | BASE_ADDRESS_PIO4 => Some (base_address_pio4 s)
  | BASE_ADDRESS_ASC0 | BASE_ADDRESS_ASC1 => Some (base_address_asc s)
  | BASE_ADDRESS_SCI0 | BASE_ADDRESS_SCI1 => Some (base_address_sci s)
  | BASE_ADDRESS_FPGA => None
  end.

(** Run [k] on the mapped address of a register; without a base or a mapping
    the function returns [none]. *)
Definition with_reg {A} (b : BASE_ADDR) (reg : Z) (none : A) (k : Z -> M (sci D) A)
    : M (sci D) A :=
  base ← gets (base_of b);
  match base with
  | None => mret none
  | Some base =>
      let reg_address := u32 (base + reg) in
      ok ← checked_ioremap reg_address;
      if (ok : bool) then k reg_address else mret none
  end.

Definition get_reg (b : BASE_ADDR) (reg : Z) : M (sci D) Z := with_reg b reg 0 ctrl_inl.

Definition set_reg (b : BASE_ADDR) (reg bits mask : Z) : M (sci D) unit :=
  with_reg b reg tt (fun a =>
    val ← ctrl_inl a; ctrl_outl (Z.ldiff val mask .| bits) a).

Definition set_reg_writeonly (b : BASE_ADDR) (reg bits : Z) : M (sci D) unit :=
  with_reg b reg tt (fun a => ctrl_outl bits a).

(** if (n == 0) f(ASC0, irq 0) else if (n == 1) f(ASC1, irq 1) else other: the
    two branches of the code differ in these names only, and the registers of
    the two controllers have the same offsets. *)
Definition on_controller {A} (n : Z) (f : BASE_ADDR -> Z -> M (sci D) A)
    (other : M (sci D) A) : M (sci D) A :=
  if n =? 0 then f BASE_ADDRESS_ASC0 SCI0_INT_RX_TX
  else if n =? 1 then f BASE_ADDRESS_ASC1 SCI1_INT_RX_TX
  else other.

Definition set_pin (pin : sci D -> Z) (v : Z) : M (sci D) unit :=
  p ← gets pin; hw_do (stpio_set_pin p v).

Definition set_serial_irq (type : Z) : M (sci D) unit :=
  n ← gets id_;
  on_controller n (fun asc _ =>
    if (type =? RX_FULL_IRQ) || (type =? TX_EMPTY_IRQ) || (type =? RX_FULL_TX_EMPTY_IRQ)
       || (type =? (TX_HALF_EMPTY_IRQ .| RX_FULL_TX_EMPTY_IRQ))
    then modify (fun s => s <| irq_mode := type |>);; set_reg asc ASC0_INT_EN type 0x1FF
    else skip) skip.
End registers.
