(* ===== verification/SciCtrl.v ===== *)
(** * Smart card reader: controller, clock and power (smartcard/sci_drv.c)

    Reset, voltage and clock of the card, initialisation of the control block
    and of the serial controller.  [delay ms] is what the rest of the system
    does to the driver during msleep(ms). *)
From S2P Require Import Prelude Atr SciState.

Section clock.
Context {D : Type} `{SciHw D}.

(** if (!map(a)) return 0; *)
Definition mapped (a : Z) (m : M (sci D) Z) : M (sci D) Z :=
  ok ← checked_ioremap a; if (ok : bool) then m else mret 0.

Definition SCI_n_CLK_CTRL : M (sci D) Z := gets (fun s => u32 (base_address_sci s + 4)).

Definition SCI_SetClockSource : M (sci D) Z :=
  mapped (SYS_CFG_BASE_ADDRESS + SYS_CFG7) (
    val ← ctrl_inl (SYS_CFG_BASE_ADDRESS + SYS_CFG7);
    let val := val .| 0x1B0 in
    let val := Z.ldiff val (1 ≪ 7) in
    let val := val .| (1 ≪ 8) in
    ctrl_outl val (SYS_CFG_BASE_ADDRESS + SYS_CFG7);;
    mapped (SYS_CFG_BASE_ADDRESS + SYS_CFG5) (
      val ← ctrl_inl (SYS_CFG_BASE_ADDRESS + SYS_CFG5);
      ctrl_outl (Z.ldiff val (1 ≪ 23)) (SYS_CFG_BASE_ADDRESS + SYS_CFG5);;
      a ← SCI_n_CLK_CTRL;
      mapped a (
        val ← ctrl_inl a; ctrl_outl (Z.ldiff val CLOCK_SOURCE_MASK) a;;
        val ← ctrl_inl a; ctrl_outl (val .| CLOCK_SOURCE_GLOBAL) a;;
        mret 1))).

Definition SCI_ClockEnable : M (sci D) Z :=
  a ← SCI_n_CLK_CTRL;
  mapped a (val ← ctrl_inl a; ctrl_outl (val .| CLOCK_ENABLE_MASK) a;; mret 1).

Definition SCI_ClockDisable : M (sci D) Z :=
  a ← SCI_n_CLK_CTRL;
  mapped a (val ← ctrl_inl a; ctrl_outl (val .| Z.lnot CLOCK_ENABLE_MASK) a;; mret 1).

(** The divider of the card clock for [clk] in units of 10 kHz. *)
Definition clock_divider (clk : Z) : res Z :=
  clkdiv ← udiv SCI_CLK_GLOBAL (u32 (20000 * u32 (clk - 1)));
  mret (if (0 <? clkdiv) && (clkdiv <? 0x1F) then clkdiv else 0x0e).

Definition SCI_Set_Clock : M (sci D) Z :=
  c ← gets clk;
  val ← lift (clock_divider c);
  a ← gets base_address_sci;
  mapped a (ctrl_outl val a;; mret 1).

(** The voltage is only noted: the boxes of this build do not control it. *)
Definition smartcard_voltage_config (vcc : Z) : M (sci D) Z :=
  n ← gets id_;
  on_controller n (fun _ _ =>
    if vcc =? SCI_VCC_3 then modify (fun s => s <| sci_atr_class := SCI_CLASS_B |>);; mret SCI_ERROR_OK
    else if vcc =? SCI_VCC_5 then
      modify (fun s => s <| sci_atr_class := SCI_CLASS_A |>);; mret SCI_ERROR_OK
    else modify (fun s => s <| sci_atr_class := SCI_CLASS_A |>);; mret SCI_ERROR_VCC_INVALID)
  (mret SCI_ERROR_SCI_INVALID).

Definition default_modes : SCI_MODES := mkModes 0 0 0 SCI_SYNC.
Definition default_parameters : SCI_PARAMETERS := {|
  p_T := SCI_ATR_T; p_f := SCI_ATR_F; p_ETU := SCI_ATR_ETU; p_WWT := SCI_ATR_WWT;
  p_CWT := SCI_ATR_CWT; p_BWT := SCI_ATR_BWT; p_EGT := SCI_ATR_EGT;
  p_clock_stop_polarity := SCI_CLOCK_STOP_DISABLED; p_check := SCI_ATR_CHECK;
  p_P := SCI_ATR_P; p_I := SCI_ATR_I; p_U := SCI_ATR_U |}.

Definition sci_cb_init : M (sci D) unit :=
  modify (fun s => s <| atr_status := SCI_WITHOUT_ATR |> <| waiting := 0 |>
    <| sci_modes := default_modes |> <| error := SCI_ERROR_OK |>
    <| sci_parameters := default_parameters |>
    <| DI := 0 |> <| FI := 0 |> <| ETU := 0 |> <| WWT := 0 |> <| CLOCK := 0 |>
    <| rx_rptr := 0 |> <| rx_wptr := 0 |> <| tx_rptr := 0 |> <| tx_wptr := 0 |>
    <| atr_len := 0 |> <| byte_invert := NO_DEFINED |>
    <| sci_atr_class := SCI_UNKNOWN_CLASS |>).

(** ASCx_TX_RST = ASCx_RX_RST = 0xFF *)
Definition fifo_reset (asc : BASE_ADDR) : M (sci D) unit :=
  set_reg_writeonly asc ASC0_TX_RST 0xFF;; set_reg_writeonly asc ASC0_RX_RST 0xFF.

(** Control word, baud rate and guard time of a card that starts to answer. *)
Definition asc_defaults (asc : BASE_ADDR) (bits mask : Z) : M (sci D) unit :=
  set_reg asc ASC0_CTRL bits mask;;
  set_reg asc ASC0_BAUDRATE 0x28B 0xFFFF;;
  set_reg asc ASC0_GUARDTIME GT_DEFAULT 0x1FF.
End clock.

Section sleeping.
Context {D : Type} `{SciHw D}.
Variable delay : Z -> M (sci D) unit.

Definition smartcard_clock_config (clock : Z) : M (sci D) Z :=
  modify (fun s => s <| clk := u32 clock |>);;
  ok ← SCI_Set_Clock;
  if ok =? 0 then mret SCI_ERROR_VCC_INVALID
  else delay 3;; mret SCI_ERROR_OK.

Definition smartcard_reset : M (sci D) unit :=
  n ← gets id_;
  on_controller n (fun asc irq =>
    hw_do (disable_irq irq);;
    set_pin cmdvcc 1;;
    set_pin reset 0;;
    delay 500;;
    set_pin cmdvcc 0;;
    delay 6;;
    modify (fun s => s <| rx_rptr := 0 |> <| rx_wptr := 0 |> <| tx_rptr := 0 |> <| tx_wptr := 0 |>);;
    delay 100;;
    fifo_reset asc;;
    set_serial_irq RX_FULL_IRQ;;
    hw_do (enable_irq irq);;
    when (n =? 0) (delay 20;; set_pin reset 1);;
    set_pin reset 1) skip.

Definition sci_hw_init : M (sci D) Z :=
  set_pin reset 0;;
  n ← gets id_;
  rc ← on_controller n (fun asc _ =>
         asc_defaults asc 0x2787 0x3FFF;;
         smartcard_voltage_config SCI_VCC_5;;
         mret SCI_ERROR_OK) (mret SCI_ERROR_DRIVER_NOT_INITIALIZED);
  smartcard_clock_config 357;;
  sci_cb_init;;
  on_controller n (fun asc _ => fifo_reset asc) skip;;
  mret rc.

(** SCI_CHECK_INIT_COND: a later test overrides an earlier one. *)
Definition SCI_CHECK_INIT_COND : M (sci D) Z :=
  i ← gets sci_driver_init;
  n ← gets id_;
  c ← gets card_detect;
  mret (if c =? SCI_CARD_NOT_PRESENT then SCI_ERROR_DRIVER_NOT_INITIALIZED
        else if SCI_NUMBER_OF_CONTROLLERS <=? n then SCI_ERROR_PARAMETER_OUT_OF_RANGE
        else if negb (i =? 1) then SCI_ERROR_CARD_NOT_PRESENT
        else SCI_ERROR_OK).

Definition sci_reset : M (sci D) Z :=
  rc ← SCI_CHECK_INIT_COND;
  if negb (rc =? SCI_ERROR_OK) then mret rc
  else set_pin cmdvcc 0;; smartcard_reset;; mret rc.
End sleeping.

Section status.
Context {D : Type}.

Definition sci_is_card_present : M (sci D) Z :=
  i ← gets sci_driver_init;
  if i =? 1 then c ← gets card_detect; mret (u8 c) else mret SCI_CARD_NOT_PRESENT.
Definition sci_is_card_activated : M (sci D) Z := sci_is_card_present.
Definition sci_deactivate : M (sci D) Z := mret SCI_ERROR_OK.
End status.
