(* ===== verification/SciIrq.v ===== *)
(** * Smart card reader: interrupt handler, read, write and poll (smartcard/sci_drv.c)

    The path of the bytes between the caller and the card: sci_write fills the
    transmit buffer, the interrupt handler moves bytes between the buffers and
    the serial controller, sci_read hands received bytes out. *)
From S2P Require Import Prelude Atr SciState SciCtrl.

(** ** The interrupt handler *)

Section irq.
Context {D : Type} `{SciHw D}.

(** if (sci->byte_invert == INVERT) byte_invert[b] *)
Definition with_convention (inv b : Z) : res Z :=
  if inv =? INVERT then aget byte_invert_table b else Ok b.

(** What the handler does with a byte it has read: the first byte of an answer
    tells the convention, then the byte is stored. *)
Definition rx_store (data : Z) : M (sci D) unit :=
  st ← gets atr_status;
  inv ← gets byte_invert;
  when (negb (st =? SCI_ATR_READY) && (inv =? NO_DEFINED))
    (if u8 data =? 0x03 then modify (fun s => s <| byte_invert := INVERT |>)
     else if u8 data =? 0x3B then modify (fun s => s <| byte_invert := UNINVERT |>)
     else skip);;
  inv ← gets byte_invert;
  data ← lift (with_convention inv (u8 data));
  b ← gets read_buf;
  p ← gets rx_rptr;
  b ← lift (aset b p data);
  modify (fun s => s <| read_buf := b |> <| rx_rptr := u16 (rx_rptr s + 1) |>).

Fixpoint red_read_loop (n : nat) : M (sci D) unit :=
  match n with
  | O => skip
  | S n =>
      i ← gets id_;
      on_controller i (fun asc _ => data ← get_reg asc ASC0_RX_BUF; rx_store data) skip;;
      red_read_loop n
  end.
Definition red_read : M (sci D) unit := red_read_loop 16.

(** set_reg(sci, ASC, INT_EN, sci->irq_mode, 0x1FF) *)
Definition unmask_irq (asc : BASE_ADDR) : M (sci D) unit :=
  mode ← gets irq_mode; set_reg asc ASC0_INT_EN mode 0x1FF.

(** do { ... } while (res & 0x1): [Some res] with the last status, [None] when
    an overrun made the handler return. *)
Fixpoint rx_loop (fuel : nat) (asc : BASE_ADDR) (res : Z) : M (sci D) (option Z) :=
  match fuel with
  | O => faulty Diverges
  | S fuel =>
      overrun ← (if truthy (res .& 0x1) then
                   if truthy (res .& 0x20) then red_read;; unmask_irq asc;; mret true
                   else data ← get_reg asc ASC0_RX_BUF; rx_store data;; mret false
                 else mret false);
      if (overrun : bool) then mret None
      else
        res ← get_reg asc ASC0_STA;
        if truthy (res .& 0x1) then rx_loop fuel asc res else mret (Some res)
  end.

(** for (i = 0; i < size; i++) *)
Fixpoint tx_bytes (size : nat) (asc : BASE_ADDR) : M (sci D) unit :=
  match size with
  | O => skip
  | S size =>
      inv ← gets byte_invert;
      w ← gets write_buf;
      p ← gets tx_wptr;
      b ← lift (aget w p);
      b ← lift (with_convention inv b);
      set_reg_writeonly asc ASC0_TX_BUF (u8 b);;
      modify (fun s => s <| tx_wptr := u16 (tx_wptr s + 1) |> <| rx_wptr := u16 (rx_wptr s + 1) |>);;
      tx_bytes size asc
  end.

(** Send what is left, at most [room] bytes; then back to receiving. *)
Definition tx_fill (asc : BASE_ADDR) (room : Z) : M (sci D) unit :=
  r ← gets tx_rptr;
  w ← gets tx_wptr;
  let size := u8 (if room <? r - w then room else r - w) in
  tx_bytes (Z.to_nat size) asc;;
  r ← gets tx_rptr;
  w ← gets tx_wptr;
  when (r =? w) (set_serial_irq RX_FULL_IRQ).

Definition ALL_IRQS := TX_HALF_EMPTY_IRQ .| RX_FULL_TX_EMPTY_IRQ.
Definition rx_active (mode : Z) : bool :=
  (mode =? RX_FULL_IRQ) || (mode =? RX_FULL_TX_EMPTY_IRQ) || (mode =? ALL_IRQS).
Definition tx_active (mode : Z) : bool :=
  (mode =? TX_EMPTY_IRQ) || (mode =? RX_FULL_TX_EMPTY_IRQ) || (mode =? ALL_IRQS).

(** The part of the handler that transmits. *)
Definition tx_part (asc : BASE_ADDR) (res : Z) : M (sci D) unit :=
  mode ← gets irq_mode;
  let not_full := negb ((res .& 0x200) =? 0x200) in
  if truthy (res .& TX_EMPTY_IRQ) && tx_active mode then
    when not_full (tx_fill asc HW_FIFO_SIZE)
  else if truthy (res .& TX_HALF_EMPTY_IRQ) && (mode =? ALL_IRQS) then
    when not_full (tx_fill asc (HW_FIFO_SIZE / 2))
  else skip.

(** Every round of the receive loop stores a byte, and the buffer has 1024. *)
Definition rx_fuel : nat := 1026.

(** sci_irq0_rx_tx_handler; sci_irq1_rx_tx_handler is the same text with the
    names of the second controller. *)
Definition sci_irq_rx_tx_handler (asc : BASE_ADDR) : M (sci D) unit :=
  set_reg asc ASC0_INT_EN 0x00 0x1FF;;
  res ← get_reg asc ASC0_STA;
  mode ← gets irq_mode;
  r ← (if truthy (res .& RX_FULL_IRQ) && rx_active mode then rx_loop rx_fuel asc res
       else mret (Some res));
  match r with
  | None => skip
  | Some res => tx_part asc res;; unmask_irq asc
  end.
End irq.

(** ** The device file *)

Definition EWOULDBLOCK := 11.
Definition POLLIN_POLLRDNORM := 0x41.

Section file.
Context {D : Type} `{SciHw D}.
Variable delay : Z -> M (sci D) unit.

Definition present_card (s : sci D) : bool := card_detect s =? SCI_CARD_PRESENT.

(** while (waiting) { if (nonblocking) return -EWOULDBLOCK; msleep(57); }: does
    the function return?  A wait longer than [fuel] rounds is [Diverges]. *)
Fixpoint wait_while (waiting : sci D -> bool) (nonblock : bool) (fuel : nat) : M (sci D) bool :=
  b ← gets waiting;
  if (b : bool) then
    if nonblock then mret true
    else match fuel with
         | O => faulty Diverges
         | S fuel => delay 57;; wait_while waiting nonblock fuel
         end
  else mret false.

Definition nothing_to_read (s : sci D) : bool :=
  (rx_rptr s <=? rx_wptr s) && present_card s
  || (irq_mode s =? RX_FULL_TX_EMPTY_IRQ) && present_card s.

Definition available (s : sci D) : Z := u32 (rx_rptr s - rx_wptr s).

(** do { msleep(10); ... } while (real_num_bytes < length && cnt_tmp < 100) *)
Fixpoint wait_more (n : nat) (length : Z) : M (sci D) Z :=
  match n with
  | O => gets available
  | S n =>
      delay 10;;
      r ← gets available;
      if r <? length then match n with O => mret r | _ => wait_more n length end else mret r
  end.

(** The result and the bytes copied to the caller. *)
Definition sci_read (fuel : nat) (nonblock : bool) (length : Z) : M (sci D) (Z * list Z) :=
  would_block ← wait_while nothing_to_read nonblock fuel;
  if (would_block : bool) then mret (- EWOULDBLOCK, [])
  else
    c ← gets present_card;
    if negb c then mret (0, [])
    else
      n ← gets available;
      n ← (if negb nonblock && (n <? length) then wait_more 100 length else mret n);
      let n := if length <? n then length else n in
      let n := if SCI_BUFFER_SIZE <? length then SCI_BUFFER_SIZE else n in
      b ← gets read_buf;
      w ← gets rx_wptr;
      out ← lift (aslice b w n);
      modify (fun s => s <| rx_wptr := u16 (rx_wptr s + n) |>);;
      r ← gets rx_rptr;
      w ← gets rx_wptr;
      when (w =? r) (modify (fun s => s <| rx_wptr := 0 |> <| rx_rptr := 0 |>);; delay 3);;
      mret (n, out).

(** [user]: the bytes of the caller's buffer that can be read. *)
Definition sci_write (fuel : nat) (nonblock : bool) (sci_id : Z) (user : list Z) (length : Z)
    : M (sci D) Z :=
  would_block ← wait_while (fun s => negb (tx_wptr s =? tx_rptr s) && present_card s) nonblock fuel;
  if (would_block : bool) then mret (- EWOULDBLOCK)
  else
    c ← gets present_card;
    if negb c then mret 0
    else
      on_controller sci_id (fun _ irq => hw_do (disable_irq irq)) skip;;
      let count := if length <=? SCI_BUFFER_SIZE then length else SCI_BUFFER_SIZE in
      let got := take (Z.to_nat count) user in
      modify (fun s => s <| write_buf :=
        got ++ drop (List.length got) (replicate (Z.to_nat SCI_BUFFER_SIZE) 0) |>);;
      on_controller sci_id (fun asc _ => fifo_reset asc) skip;;
      modify (fun s => s <| tx_rptr := u16 count |> <| tx_wptr := 0 |>
                         <| rx_rptr := 0 |> <| rx_wptr := 0 |>);;
      (if count <=? HW_FIFO_SIZE then set_serial_irq RX_FULL_TX_EMPTY_IRQ
       else set_serial_irq ALL_IRQS);;
      on_controller sci_id (fun _ irq => hw_do (enable_irq irq)) skip;;
      mret count.

Definition sci_poll : M (sci D) Z :=
  r ← gets rx_rptr; w ← gets rx_wptr;
  mret (if r =? w then 0 else POLLIN_POLLRDNORM).

(** The result with the index in read_buf and the number of bytes stored through
    the output pointers. *)
Definition sci_read_buf (num_bytes : Z) : M (sci D) (Z * option (Z * Z)) :=
  rc ← SCI_CHECK_INIT_COND;
  if negb (rc =? SCI_ERROR_OK) then mret (rc, None)
  else if num_bytes =? 0 then mret (SCI_ERROR_PARAMETER_OUT_OF_RANGE, None)
  else
    r ← gets rx_rptr;
    w ← gets rx_wptr;
    let n := if num_bytes <? u32 (r - w) then num_bytes else r - w in
    modify (fun s => s <| rx_wptr := u16 (rx_wptr s + n) |>);;
    mret (rc, Some (w, n)).
End file.
