(* ===== verification/SciParams.v ===== *)
(** * Smart card reader: communication parameters (smartcard/sci_params.c) *)
From S2P Require Import Prelude Atr SciState SciCtrl.

Definition MAIN_FREQ := 100000000.
Definition MAIN_FREQ_P1 := 1000.
Definition MAIN_FREQ_P2 := 100000.
Definition PW_2_16 := 65536.
Definition THRESHOLD_BAUDRATE := 19200.
Definition CLOCK_417 := 4166667.
Definition CLOCK_500 := 5000000.
Definition CLOCK_625 := 6250000.

(** ** Baud rate arithmetic *)

Definition ASC_baud_mode_0 (baud : Z) : res Z := udiv MAIN_FREQ (u32 (baud * 16)).
Definition ASC_baud_mode_1 (baud : Z) : res Z :=
  let tmp := u32 (baud * 16) in
  let tmp := tmp / MAIN_FREQ_P1 in
  let tmp := u32 (tmp * PW_2_16) in
  Ok (tmp / MAIN_FREQ_P2).

(** do { divisor++; frequency = CLK / (2 * divisor); } while (frequency > f) *)
Fixpoint find_frequency (fuel : nat) (divisor f : Z) : res Z :=
  match fuel with
  | O => Fault Diverges
  | S fuel =>
      let divisor := divisor + 1 in
      let frequency := __STB_SYS_CLK / (2 * divisor) in
      if f <? frequency then find_frequency fuel divisor f else Ok frequency
  end.

(** The frequency is 0 when the divisor exceeds half the system clock. *)
Definition divisor_fuel : nat := Z.to_nat 31500001.

Section params.
Context {D : Type} `{SciHw D}.
Variable delay : Z -> M (sci D) unit.
Implicit Types p : SCI_PARAMETERS.

Definition set_para (f : SCI_PARAMETERS -> SCI_PARAMETERS) : M (sci D) unit :=
  modify (fun s => s <| sci_parameters := f (sci_parameters s) |>).
Definition get_para (f : SCI_PARAMETERS -> Z) : M (sci D) Z := gets (fun s => f (sci_parameters s)).

Definition sci_atom_set_para_f p : M (sci D) unit :=
  frequency ← lift (find_frequency divisor_fuel 0 (p_f p));
  set_para (fun q => q <| p_f := frequency |>).

(** ASCx_CTRL bit 12 chooses the baud rate mode; then the divisor. *)
Definition set_mode_0 (asc : BASE_ADDR) (divisor : Z) : M (sci D) unit :=
  set_reg asc ASC0_CTRL 0 0x1000;; set_reg asc ASC0_BAUDRATE divisor 0xFFFF.
Definition set_mode_1 (asc : BASE_ADDR) (divisor : Z) : M (sci D) unit :=
  set_reg asc ASC0_CTRL 0x1000 0;; set_reg asc ASC0_BAUDRATE divisor 0xFFFF.

(** The same after the computation of the divisor, which follows the write to
    the control register in the code. *)
Definition calc_mode_0 (asc : BASE_ADDR) (baud : Z) : M (sci D) unit :=
  set_reg asc ASC0_CTRL 0 0x1000;;
  v ← lift (ASC_baud_mode_0 baud); set_reg asc ASC0_BAUDRATE v 0xFFFF.
Definition calc_mode_1 (asc : BASE_ADDR) (baud : Z) : M (sci D) unit :=
  set_reg asc ASC0_CTRL 0x1000 0;;
  v ← lift (ASC_baud_mode_1 baud); set_reg asc ASC0_BAUDRATE v 0xFFFF.

Definition by_controller (f : BASE_ADDR -> M (sci D) unit) : M (sci D) unit :=
  n ← gets id_; on_controller n (fun asc _ => f asc) skip.

Definition set_req_baud (req_baud : Z) : M (sci D) unit :=
  if THRESHOLD_BAUDRATE <? req_baud then by_controller (fun asc => calc_mode_1 asc req_baud)
  else by_controller (fun asc => calc_mode_0 asc req_baud).

Definition in_range (v lo hi : Z) : bool := (lo <=? v) && (v <=? hi).

Definition sci_set_para_ETU_table p : M (sci D) Z :=
  if in_range (p_ETU p) SCI_MIN_ETU SCI_MAX_ETU then
    c ← gets clk;
    etu ← get_para p_ETU;
    w ← gets WWT;
    (if (c =? 357) || (c =? 358) then
       if etu =? 372 then by_controller (fun asc => set_mode_0 asc 0x28B)
       else if etu =? 93 then by_controller (fun asc => set_mode_1 asc 0x193)
       else if etu =? 31 then by_controller (fun asc => set_mode_1 asc 0x4B8)
       else if in_range etu 360 384 then by_controller (fun asc => calc_mode_0 asc w)
       else by_controller (fun asc => calc_mode_1 asc w)
     else if (c =? 600) || (c =? 625) then
       if etu =? 625 then by_controller (fun asc => set_mode_0 asc 0x271)
       else
         let req_baud := if truthy w then w else 9600 in
         if in_range etu 611 635 then by_controller (fun asc => calc_mode_0 asc req_baud)
         else skip
     else skip);;
    mret SCI_ERROR_OK
  else mret SCI_ERROR_PARAMETER_OUT_OF_RANGE.

(** The clock a requested frequency in MHz stands for, where it has one. *)
Definition requested_clock (f : Z) : option Z :=
  if f =? 4 then Some CLOCK_417
  else if f =? 5 then Some CLOCK_500
  else if f =? 6 then Some CLOCK_625
  else None.

Definition sci_set_para_ETU p : M (sci D) Z :=
  if in_range (p_ETU p) SCI_MIN_ETU SCI_MAX_ETU then
    set_para (fun q => q <| p_ETU := p_ETU p |>);;
    c ← gets clk;
    etu ← get_para p_ETU;
    match (if (c =? 357) || (c =? 358) then requested_clock (p_f p) else None) with
    | Some clock =>
        req_baud ← lift (udiv clock etu);
        set_req_baud req_baud;;
        smartcard_reset delay;;
        mret SCI_ERROR_OK
    | None => sci_set_para_ETU_table p
    end
  else mret SCI_ERROR_PARAMETER_OUT_OF_RANGE.

Definition sci_set_para_T p : M (sci D) Z :=
  t ← get_para p_T;
  when ((p_T p =? 0) || (p_T p =? 1)) (when (negb (t =? p_T p)) (set_para (fun q => q <| p_T := p_T p |>)));;
  mret SCI_ERROR_OK.

Definition sci_set_para_f p : M (sci D) Z :=
  f ← get_para p_f;
  when (in_range (p_f p) (SCI_MIN_F / 1000000) (SCI_MAX_F / 1000000)
        && (p_f p <=? __STB_SYS_CLK / 2))
    (when (negb (f =? p_f p)) (sci_atom_set_para_f p));;
  mret SCI_ERROR_OK.

Definition sci_set_para_CWT p : M (sci D) Z :=
  t ← get_para p_CWT;
  when (in_range (p_CWT p) SCI_MIN_CWT SCI_MAX_CWT)
    (when (negb (t =? p_CWT p)) (set_para (fun q => q <| p_CWT := p_CWT p |>)));;
  mret SCI_ERROR_OK.

Definition sci_set_para_BWT p : M (sci D) Z :=
  t ← get_para p_BWT;
  when (in_range (p_BWT p) SCI_MIN_BWT SCI_MAX_BWT)
    (when (negb (t =? p_BWT p)) (set_para (fun q => q <| p_BWT := p_BWT p |>)));;
  mret SCI_ERROR_OK.

Definition sci_set_para_EGT p : M (sci D) Z :=
  if in_range (p_EGT p) SCI_MIN_EGT SCI_MAX_EGT then
    t ← get_para p_EGT;
    when (negb (t =? p_EGT p))
      (set_para (fun q => q <| p_EGT := p_EGT p |>);;
       set_reg BASE_ADDRESS_ASC0 ASC0_GUARDTIME (p_EGT p + GT_DEFAULT) 0x1FF);;
    mret SCI_ERROR_OK
  else mret SCI_ERROR_PARAMETER_OUT_OF_RANGE.

Definition sci_set_para_CLK_p p : M (sci D) Z :=
  t ← get_para p_clock_stop_polarity;
  let v := p_clock_stop_polarity p in
  when ((v =? 0) || (v =? 1))
    (when (negb (t =? v)) (set_para (fun q => q <| p_clock_stop_polarity := v |>)));;
  mret SCI_ERROR_OK.

(** The parameter check is examined and not stored. *)
Definition sci_set_para_check p : M (sci D) Z := mret SCI_ERROR_OK.

Definition sci_set_para_class p : M (sci D) Z :=
  set_para (fun q => q <| p_U := p_U p |>);;
  c ← gets sci_atr_class;
  let U := p_U p in
  if U =? SCI_CLASS_A then
    when ((c =? SCI_CLASS_B) || (c =? SCI_CLASS_AB)) (smartcard_voltage_config SCI_VCC_3;; skip);;
    mret SCI_ERROR_OK
  else if U =? SCI_CLASS_B then
    when ((c =? SCI_CLASS_A) || (c =? SCI_CLASS_AB)) (smartcard_voltage_config SCI_VCC_3;; skip);;
    mret SCI_ERROR_OK
  else if U =? SCI_CLASS_AB then
    when ((c =? SCI_CLASS_A) || (c =? SCI_CLASS_B)) (smartcard_voltage_config SCI_VCC_3;; skip);;
    mret SCI_ERROR_OK
  else if U =? SCI_UNKNOWN_CLASS then mret SCI_ERROR_OK
  else mret SCI_ERROR_PARAMETER_OUT_OF_RANGE.

(** Only the last return code survives. *)
Definition sci_set_para p : M (sci D) Z :=
  a ← gets atr_status;
  if negb (a =? SCI_ATR_READY) then mret SCI_ERROR_OK
  else
    n ← gets id_;
    if n <? SCI_NUMBER_OF_CONTROLLERS then
      sci_set_para_T p;;
      sci_set_para_f p;;
      sci_set_para_ETU p;;
      sci_set_para_CWT p;;
      sci_set_para_BWT p;;
      sci_set_para_EGT p;;
      sci_set_para_CLK_p p;;
      sci_set_para_check p;;
      rc ← sci_set_para_class p;
      set_para (fun q => q <| p_P := p_P p |>);;
      set_para (fun q => q <| p_I := p_I p |>);;
      mret rc
    else mret SCI_ERROR_PARAMETER_OUT_OF_RANGE.

Definition sci_set_parameters p : M (sci D) Z :=
  i ← gets sci_driver_init;
  if negb (i =? 1) then mret SCI_ERROR_DRIVER_NOT_INITIALIZED
  else
    n ← gets id_;
    if n <? SCI_NUMBER_OF_CONTROLLERS then
      c ← sci_is_card_activated;
      if c =? SCI_CARD_PRESENT then sci_set_para p
      else mret SCI_ERROR_CARD_NOT_ACTIVATED
    else mret SCI_ERROR_PARAMETER_OUT_OF_RANGE.

Definition sci_get_parameters : M (sci D) (Z * option SCI_PARAMETERS) :=
  rc ← SCI_CHECK_INIT_COND;
  if negb (rc =? SCI_ERROR_OK) then mret (rc, None)
  else q ← gets sci_parameters; mret (rc, Some q).
End params.
