(* ===== verification/SciCard.v ===== *)
(** * Smart card reader: answer to reset, ioctl, card detection, module (smartcard/sci_drv.c) *)
From S2P Require Import Prelude Atr SciState SciCtrl SciIrq SciParams.

(** ** ioctl numbers and arguments *)

(** _IOW(SCI_IOW_MAGIC, nr, type) for a type of [size] bytes. *)
Definition SCI_IOW (nr size : Z) : Z :=
  (1 ≪ 30) .| (size ≪ 16) .| (0x73 ≪ 8) .| nr.
Definition IOCTL_SET_RESET := SCI_IOW 1 4.
Definition IOCTL_SET_MODES := SCI_IOW 2 16.
Definition IOCTL_GET_MODES := SCI_IOW 3 16.
Definition IOCTL_SET_PARAMETERS := SCI_IOW 4 36.
Definition IOCTL_GET_PARAMETERS := SCI_IOW 5 36.
Definition IOCTL_SET_CLOCK_START := SCI_IOW 6 4.
Definition IOCTL_SET_CLOCK_STOP := SCI_IOW 7 4.
Definition IOCTL_GET_IS_CARD_PRESENT := SCI_IOW 8 4.
Definition IOCTL_GET_IS_CARD_ACTIVATED := SCI_IOW 9 4.
Definition IOCTL_SET_DEACTIVATE := SCI_IOW 10 4.
Definition IOCTL_SET_ATR_READY := SCI_IOW 11 4.
Definition IOCTL_GET_ATR_STATUS := SCI_IOW 12 4.
Definition IOCTL_SET_CLOCK := SCI_IOW 13 4.
Definition IOCTL_DUMP_REGS := SCI_IOW 20 4.
Definition IOCTL_SET_ONLY_RESET := SCI_IOW 100 4.

(** The caller's memory at the argument, as the command reads it. *)
Record sci_arg := SciArg { arg_parameters : SCI_PARAMETERS; arg_clock : Z }.

(** What a command copies to the caller. *)
Inductive sci_out :=
  | OutNothing
  | OutModes (m : SCI_MODES)
  | OutParameters (p : SCI_PARAMETERS)
  | OutLong (v : Z).

Definition ENODEV := 19.
Definition EBUSY := 16.
Definition EINVAL := 22.

Section card.
Context {D : Type} `{SciHw D}.
Variable delay : Z -> M (sci D) unit.

(** The static variable of GetParameterF and GetParameterD is overwritten by
    every call, so its value does not matter. *)
Definition parse_atr : M (sci D) unit :=
  a ← gets atr;
  f ← lift (GetParameterF 0 a);
  d ← lift (GetParameterD 0 a);
  c ← gets clk;
  let r := GetClockRate c in
  modify (fun s => s <| FI := f |> <| DI := d |> <| CLOCK := r |>);;
  w ← lift (udiv (u32 (r * (d / 1000000))) f);
  modify (fun s => s <| WWT := w |>);;
  e ← lift (udiv r w);
  modify (fun s => s <| ETU := e |>).

(** sci->read_buf[sci->rx_wptr + i] *)
Definition peek (i : Z) : M (sci D) Z :=
  b ← gets read_buf; w ← gets rx_wptr; lift (aget b (w + i)).

(** ATR_InitFromArray works on the record inside the control block. *)
Definition on_atr (m : M ATR Z) : M (sci D) Z := fun s =>
  match m (atr s) with Ok (c, a) => Ok (c, s <| atr := a |>) | Fault f => Fault f end.

(** Is the answer the one of a 3 V card? *)
Definition answer_of_class_b : M (sci D) bool :=
  b0 ← peek 0;
  if b0 =? 0x3F then
    b1 ← peek 1;
    if b1 =? 0xFD then b2 ← peek 2; mret (b2 =? 0x13) else mret false
  else mret false.

Definition check_atr : M (sci D) unit :=
  low ← answer_of_class_b;
  smartcard_voltage_config (if (low : bool) then SCI_VCC_3 else SCI_VCC_5);;
  modify (fun s => s <| atr_len := u8 (rx_rptr s) |>);;
  n ← gets atr_len;
  b ← gets read_buf;
  t ← gets atr_buf;
  t ← lift (amemcpy t 0 b 0 n);
  modify (fun s => s <| atr_buf := t |>);;
  on_atr (ATR_InitFromArray t n);;
  parse_atr.

(** rc = (sci_reset(sci) == SCI_ERROR_OK) ? 0 : -1 *)
Definition reset_rc : M (sci D) Z :=
  rc ← sci_reset delay; mret (if rc =? SCI_ERROR_OK then 0 else -1).

Definition detect_ATR : M (sci D) Z :=
  sci_hw_init delay;;
  n ← gets id_;
  on_controller n (fun asc _ =>
    asc_defaults asc 0 0x1000;;
    rc ← reset_rc;
    delay 1100;;
    b ← peek 0;
    c ← (if b =? 0x3B then mret true else b ← peek 0; mret (b =? 0x3F));
    if (c : bool) then mret rc
    else
      modify (fun s => s <| read_buf := replicate (Z.to_nat SCI_BUFFER_SIZE) 0 |>);;
      smartcard_clock_config delay 625;;
      set_reg asc ASC0_BAUDRATE 0x271 0xFFFF;;
      modify (fun s => s <| sci_parameters := (sci_parameters s) <| p_ETU := 372 |> |>);;
      rc ← reset_rc;
      delay 750;;
      mret rc) (mret (-1)).

(** ** Modes and clock *)

Definition sci_set_modes (p : SCI_MODES) : M (sci D) Z :=
  i ← gets sci_driver_init;
  if negb (i =? 1) then mret SCI_ERROR_DRIVER_NOT_INITIALIZED
  else
    n ← gets id_;
    if n <? SCI_NUMBER_OF_CONTROLLERS then
      let flag v := (v =? 0) || (v =? 1) in
      let modes f := modify (fun s => s <| sci_modes := f (sci_modes s) |>) in
      when (flag (emv2000 p)) (modes (fun m => m <| emv2000 := emv2000 p |>));;
      when (flag (man_act p)) (modes (fun m => m <| man_act := man_act p |>));;
      when (rw_mode p <? 4) (modes (fun m => m <| rw_mode := rw_mode p |>));;
      mret (if flag (emv2000 p) && flag (dma p) && flag (man_act p) && (rw_mode p <? 4)
            then SCI_ERROR_OK else SCI_ERROR_PARAMETER_OUT_OF_RANGE)
    else mret SCI_ERROR_PARAMETER_OUT_OF_RANGE.

Definition sci_get_modes : M (sci D) (Z * option SCI_MODES) :=
  i ← gets sci_driver_init;
  if negb (i =? 1) then mret (SCI_ERROR_DRIVER_NOT_INITIALIZED, None)
  else
    n ← gets id_;
    if n <? SCI_NUMBER_OF_CONTROLLERS then
      m ← gets sci_modes; mret (SCI_ERROR_OK, Some m)
    else mret (SCI_ERROR_PARAMETER_OUT_OF_RANGE, None).

(** The common tests of sci_clock_stop and sci_clock_start. *)
Definition when_activated (m : M (sci D) Z) : M (sci D) Z :=
  i ← gets sci_driver_init;
  if negb (i =? 1) then mret SCI_ERROR_DRIVER_NOT_INITIALIZED
  else
    n ← gets id_;
    if n <? SCI_NUMBER_OF_CONTROLLERS then
      a ← sci_is_card_activated;
      if a =? 1 then m else mret SCI_ERROR_CARD_NOT_ACTIVATED
    else mret SCI_ERROR_PARAMETER_OUT_OF_RANGE.

Definition sci_clock_stop : M (sci D) Z :=
  when_activated (
    p ← gets (fun s => p_clock_stop_polarity (sci_parameters s));
    if negb (p =? SCI_CLOCK_STOP_DISABLED) then SCI_ClockDisable;; mret SCI_ERROR_OK
    else mret SCI_ERROR_CLOCK_STOP_DISABLED).

Definition sci_clock_start : M (sci D) Z :=
  when_activated (SCI_ClockEnable;; mret SCI_ERROR_OK).

(** ** Device file *)

Definition sci_open (minor : Z) : M (sci D) Z :=
  if minor <? SCI_NUMBER_OF_CONTROLLERS then
    u ← gets driver_inuse;
    if u =? 0 then modify (fun s => s <| driver_inuse := u32 (driver_inuse s + 1) |>);; mret 0
    else mret (- EBUSY)
  else mret (- ENODEV).

Definition sci_close (minor : Z) : M (sci D) Z :=
  if minor <? SCI_NUMBER_OF_CONTROLLERS then
    u ← gets driver_inuse;
    rc ← (if 0 <? u then modify (fun s => s <| driver_inuse := driver_inuse s - 1 |>);; mret 0
          else mret (- EINVAL));
    set_pin cmdvcc 1;;
    mret rc
  else mret (- ENODEV).

(** The odd parity of inverse convention cards, or the even one. *)
Definition set_parity (sci_id : Z) : M (sci D) unit :=
  inv ← gets byte_invert;
  if inv =? INVERT then on_controller sci_id (fun asc _ => set_reg asc ASC0_CTRL PARITY_ODD 0) skip
  else if inv =? UNINVERT then
    on_controller sci_id (fun asc _ => set_reg asc ASC0_CTRL 0 PARITY_ODD) skip
  else skip.

Definition ioctl_reset (sci_id : Z) : M (sci D) Z :=
  c ← gets present_card;
  if negb c then mret (-1)
  else
    rc ← detect_ATR;
    check_atr;;
    set_parity sci_id;;
    w ← gets WWT;
    when (truthy rc || negb (truthy w)) (set_pin cmdvcc 1);;
    mret rc.

Definition ok_or_fail (rc : Z) : Z := if rc =? SCI_ERROR_OK then 0 else -1.

(** Copy [v] out when the function succeeded. *)
Definition give {A} (out : A -> sci_out) (r : Z * option A) : sci_out :=
  match r with
  | (rc, Some v) => if rc =? SCI_ERROR_OK then out v else OutNothing
  | (_, None) => OutNothing
  end.

(** [stack]: what the uninitialised variable sci_mode holds; IOCTL_SET_MODES
    reads the caller's modes into another variable. *)
Definition sci_ioctl (stack : SCI_MODES) (sci_id ioctl_num : Z) (arg : sci_arg)
    : M (sci D) (Z * sci_out) :=
  if SCI_NUMBER_OF_CONTROLLERS <=? sci_id then mret (-1, OutNothing)
  else
    let silent (m : M (sci D) Z) := rc ← m; mret (rc, OutNothing) in
    let code (m : M (sci D) Z) := rc ← m; mret (ok_or_fail rc, OutNothing) in
    let cmd n := ioctl_num =? n in
    if cmd IOCTL_SET_ONLY_RESET then
      c ← gets present_card;
      if negb c then mret (-1, OutNothing) else smartcard_reset delay;; mret (0, OutNothing)
    else if cmd IOCTL_SET_RESET then silent (ioctl_reset sci_id)
    else if cmd IOCTL_SET_MODES then sci_set_modes stack;; mret (0, OutNothing)
    else if cmd IOCTL_GET_MODES then r ← sci_get_modes; mret (0, give OutModes r)
    else if cmd IOCTL_SET_PARAMETERS then
      let p := arg_parameters arg in
      rc ← sci_set_parameters delay p;
      if rc =? SCI_ERROR_OK then
        smartcard_clock_config delay (if p_f p =? 3 then 357 else p_f p * 100);;
        mret (0, OutNothing)
      else mret (-1, OutNothing)
    else if cmd IOCTL_GET_PARAMETERS then
      r ← sci_get_parameters; mret (ok_or_fail r.1, give OutParameters r)
    else if cmd IOCTL_SET_CLOCK then code (smartcard_clock_config delay (arg_clock arg))
    else if cmd IOCTL_SET_CLOCK_START then code sci_clock_start
    else if cmd IOCTL_SET_CLOCK_STOP then code sci_clock_stop
    else if cmd IOCTL_GET_IS_CARD_PRESENT || cmd IOCTL_GET_IS_CARD_ACTIVATED then
      c ← sci_is_card_present; mret (0, OutLong c)
    else if cmd IOCTL_SET_DEACTIVATE then code sci_deactivate
    else if cmd IOCTL_SET_ATR_READY then
      modify (fun s => s <| atr_status := SCI_ATR_READY |>);; mret (0, OutNothing)
    else if cmd IOCTL_GET_ATR_STATUS then a ← gets atr_status; mret (0, OutLong a)
    else if cmd IOCTL_DUMP_REGS then mret (0, OutNothing)
    else mret (-1, OutNothing).

(** ** Card detection *)

(** sci->read_buf, sci->write_buf = 0 and all pointers with them *)
Definition clear_buffers : M (sci D) unit :=
  modify (fun s => s <| read_buf := replicate (Z.to_nat SCI_BUFFER_SIZE) 0 |>
                     <| rx_rptr := 0 |> <| rx_wptr := 0 |>
                     <| write_buf := replicate (Z.to_nat SCI_BUFFER_SIZE) 0 |>
                     <| tx_rptr := 0 |> <| tx_wptr := 0 |>).

Definition sci_detect_change : M (sci D) unit :=
  delay 8;;
  c ← gets card_detect;
  if c =? SCI_CARD_NOT_PRESENT then
    modify (fun s => s <| atr_status := SCI_WITHOUT_ATR |>);;
    set_pin cmdvcc 1;;
    sci_hw_init delay;;
    clear_buffers;;
    set_serial_irq RX_FULL_IRQ
  else sci_hw_init delay;; set_pin cmdvcc 0.

(** One pass of the loop of the detection thread; the argument and result are
    last_status. *)
Definition sci_detect_pass (last_status : Z) : M (sci D) Z :=
  p ← gets detect;
  status ← gets (fun s => stpio_get_pin p (io s));
  last ← (if negb (status =? last_status) then
            modify (fun s => s <| card_detect :=
              if truthy status then SCI_CARD_PRESENT else SCI_CARD_NOT_PRESENT |>);;
            sci_detect_change;;
            mret status
          else mret last_status);
  delay 10;;
  mret last.

(** The thread's beginning and its end. *)
Definition sci_detect_start : M (sci D) unit :=
  modify (fun s => s <| polling := 1 |>);; set_pin cmdvcc 1.
Definition sci_detect_end : M (sci D) unit := modify (fun s => s <| polling := 1 |>).

(** ** Initialisation and exit *)

Definition free_pin (pin : sci D -> Z) (clear : sci D -> sci D) : M (sci D) unit :=
  p ← gets pin;
  when (negb (p =? 0)) (hw_do (stpio_free_pin p);; modify clear).

(** while (!sci->polling) msleep(1); *)
Fixpoint wait_thread (fuel : nat) : M (sci D) unit :=
  p ← gets polling;
  if truthy p then skip
  else match fuel with
       | O => faulty Diverges
       | S fuel => delay 1;; wait_thread fuel
       end.

Definition sci_exit (fuel : nat) : M (sci D) unit :=
  p ← gets polling;
  when (truthy p) (modify (fun s => s <| polling := 0 |>));;
  wait_thread fuel;;
  hw_do (free_irq SCI0_INT_RX_TX);;
  SCI_ClockDisable;;
  delay 10;;
  p ← gets cmdvcc;
  when (negb (p =? 0)) (set_pin cmdvcc 1);;
  free_pin cmdvcc (fun s => s <| cmdvcc := 0 |>);;
  free_pin detect (fun s => s <| detect := 0 |>);;
  free_pin reset (fun s => s <| reset := 0 |>);;
  free_pin clock (fun s => s <| clock := 0 |>);;
  free_pin rxd (fun s => s <| rxd := 0 |>);;
  free_pin txd (fun s => s <| txd := 0 |>);;
  modify (fun s => s <| sci_driver_init := 0 |>).

Definition request_pin (number : Z) (dir : stpio_direction) : M (sci D) Z :=
  port ← gets pio_port; hw_call (stpio_request_pin port number dir).

Definition SCI_IO_init : M (sci D) Z :=
  p ← request_pin 0 STPIO_ALT_BIDIR; modify (fun s => s <| txd := p |>);;
  p ← request_pin 1 STPIO_IN; modify (fun s => s <| rxd := p |>);;
  p ← request_pin 3 STPIO_ALT_OUT; modify (fun s => s <| clock := p |>);;
  p ← request_pin 4 STPIO_OUT; modify (fun s => s <| reset := p |>);;
  p ← request_pin 7 STPIO_IN; modify (fun s => s <| detect := p |>);;
  p ← request_pin 5 STPIO_OUT; modify (fun s => s <| cmdvcc := p |>);;
  ok ← SCI_SetClockSource;
  if ok =? 0 then mret 0
  else ok ← SCI_ClockEnable; mret (if ok =? 0 then 0 else 1).

Definition sci_irq_install : M (sci D) Z :=
  n ← gets id_;
  on_controller n (fun _ irq => r ← hw_call (request_irq irq); mret (if r <? 0 then -1 else 0))
    (mret (-1)).

(** The loop body of sci_init for the one reader, then sci_driver_init = 1. *)
Definition sci_init (fuel : nat) : M (sci D) Z :=
  modify (fun s => s <| base_address_pio0 := PIO0_BASE_ADDRESS |>
    <| base_address_asc := ASC0_BASE_ADDRESS |> <| base_address_sci := SCI0_BASE_ADDRESS |>
    <| base_address_pio4 := PIO4_BASE_ADDRESS |> <| pio_port := 0 |>);;
  asc_defaults BASE_ADDRESS_ASC0 0x2787 0x3FFF;;
  modify (fun s => s <| base_address_syscfg := SYS_CFG_BASE_ADDRESS |>
    <| driver_inuse := 0 |> <| id_ := 0 |>);;
  set_serial_irq RX_FULL_IRQ;;
  ok ← SCI_IO_init;
  bad ← (if ok =? 0 then mret true else r ← sci_irq_install; mret (r <? 0));
  if (bad : bool) then sci_exit fuel;; mret SCI_ERROR_DRIVER_NOT_INITIALIZED
  else
    rc ← sci_hw_init delay;
    if negb (rc =? SCI_ERROR_OK) then sci_exit fuel;; mret SCI_ERROR_DRIVER_NOT_INITIALIZED
    else
      t ← hw_call kthread_run;
      if negb t then mret SCI_ERROR_DRIVER_NOT_INITIALIZED
      else modify (fun s => s <| sci_driver_init := 1 |>);; mret SCI_ERROR_OK.
End card.
