(* ===== verification/SciFrame.v ===== *)
(** * Smart card reader: what register and pin accesses leave alone

    Registers, pins and the clock of the card only touch the hardware; so they
    end on every hardware and keep every relation that does not look at it. *)
From S2P Require Import Prelude Atr SciState SciCtrl SciIrq SciParams SciCard.

Section frame.
Context {D : Type} `{SciHw D}.
Context (R : relation (sci D)) `{!PreOrder R}.
Hypothesis io_free : forall s d, R s (s <| io := d |>).

Lemma ends_do f : ends R (hw_do f).
Proof. unfold hw_do. ends. apply io_free. Qed.
Lemma ends_call {A} (f : D -> A * D) : ends R (hw_call f).
Proof.
  intros s. unfold runs, hw_call. destruct (f (io s)) as [a d]. exists a, (s <| io := d |>).
  split; [done|apply io_free].
Qed.
#[local] Hint Resolve ends_do ends_call : ends.
Lemma ends_set_pin p v : ends R (set_pin p v).
Proof. unfold set_pin. ends. Qed.
Lemma ends_inl a : ends R (ctrl_inl a).
Proof. unfold ctrl_inl. ends. Qed.
Lemma ends_outl v a : ends R (ctrl_outl v a).
Proof. apply ends_do. Qed.
#[local] Hint Resolve ends_set_pin ends_inl ends_outl : ends.

Lemma ends_with_reg {A} b r (none : A) (k : Z -> M (sci D) A) :
  (forall a, ends R (k a)) -> ends R (with_reg b r none k).
Proof. intros Hk. unfold with_reg, checked_ioremap. ends. destruct a; ends. Qed.
Lemma ends_set_reg b r bits mask : ends R (set_reg b r bits mask).
Proof. apply ends_with_reg. intros. ends. Qed.
Lemma ends_set_reg_writeonly b r bits : ends R (set_reg_writeonly b r bits).
Proof. apply ends_with_reg. intros. ends. Qed.
#[local] Hint Resolve ends_set_reg ends_set_reg_writeonly : ends.

Lemma ends_on_controller {A} n (f : BASE_ADDR -> Z -> M (sci D) A) other :
  (forall b i, ends R (f b i)) -> ends R other -> ends R (on_controller n f other).
Proof. intros Hf Ho. unfold on_controller. ends; apply Hf. Qed.
Lemma ends_fifo_reset asc : ends R (fifo_reset asc).
Proof. unfold fifo_reset. ends. Qed.
Lemma ends_asc_defaults b bits mask : ends R (asc_defaults b bits mask).
Proof. unfold asc_defaults. ends. Qed.
Lemma ends_serial_irq t :
  (forall s, R s (s <| irq_mode := t |>)) -> ends R (set_serial_irq t).
Proof.
  intros Ht. unfold set_serial_irq. ends. apply ends_on_controller; [intros b i|]; ends. apply Ht.
Qed.

Lemma ends_mapped a (m : M (sci D) Z) : ends R m -> ends R (mapped a m).
Proof. intros Hm. unfold mapped, checked_ioremap. ends. Qed.
#[local] Hint Extern 2 (ends _ (mapped _ _)) => apply ends_mapped; ends : ends.
Lemma ends_clock_source : ends R SCI_SetClockSource.
Proof. unfold SCI_SetClockSource, SCI_n_CLK_CTRL. ends. Qed.
Lemma ends_clock_enable : ends R SCI_ClockEnable.
Proof. unfold SCI_ClockEnable, SCI_n_CLK_CTRL. ends. Qed.
End frame.
