(* ===== verification/SciLine.v ===== *)
(** * Smart card reader: bytes on the card's line

    A concrete serial controller on the card's single data line, where every
    byte sent is received back, and what the interrupt handler of [SciIrq] does
    to it: reception, transmission, a whole interrupt. *)
From S2P Require Import Prelude Atr SciState SciCtrl SciIrq.

(** ** The line *)

(** [rx_fifo]: bytes received and not read yet; [tx_flags]: the status bits
    other than bit 0; [sent]: all bytes written to the transmitter. *)
Record line := Line {
  rx_fifo : list Z; tx_flags : Z; sent : list Z;
  line_regs : gmap Z Z; line_pins : gmap Z Z
}.
Definition eta_line (d : line) : line :=
  Line (rx_fifo d) (tx_flags d) (sent d) (line_regs d) (line_pins d).
#[export] Instance set_rx_fifo : Setter rx_fifo := ltac:(setter eta_line rx_fifo).
#[export] Instance set_tx_flags : Setter tx_flags := ltac:(setter eta_line tx_flags).
#[export] Instance set_sent : Setter sent := ltac:(setter eta_line sent).
#[export] Instance set_line_regs : Setter line_regs := ltac:(setter eta_line line_regs).
#[export] Instance set_line_pins : Setter line_pins := ltac:(setter eta_line line_pins).

Definition STA := ASC0_BASE_ADDRESS + ASC0_STA.
Definition RX_BUF := ASC0_BASE_ADDRESS + ASC0_RX_BUF.
Definition TX_BUF := ASC0_BASE_ADDRESS + ASC0_TX_BUF.
Definition RX_RST := ASC0_BASE_ADDRESS + ASC0_RX_RST.

Definition status (d : line) : Z :=
  tx_flags d .| (match rx_fifo d with [] => 0 | _ => 1 end).

Definition line_rd (a : Z) (d : line) : Z * line :=
  if a =? STA then (status d, d)
  else if a =? RX_BUF then
    match rx_fifo d with [] => (0, d) | b :: r => (b, d <| rx_fifo := r |>) end
  else (default 0 (line_regs d !! a), d).

Definition line_wr (a v : Z) (d : line) : line :=
  if a =? TX_BUF then d <| sent := sent d ++ [v] |> <| rx_fifo := rx_fifo d ++ [v] |>
  else if a =? RX_RST then d <| rx_fifo := [] |>
  else d <| line_regs := <[a := v]> (line_regs d) |>.

#[export] Instance line_mmio : Mmio line := {| mmio_rd := line_rd; mmio_wr := line_wr |}.
#[export] Instance line_hw : SciHw line := {|
  sci_mmio := line_mmio;
  ioremap _ _ := true;
  stpio_request_pin port number _ d := (8 * port + number + 1, d);
  stpio_free_pin _ d := d;
  stpio_set_pin p v d := d <| line_pins := <[p := v]> (line_pins d) |>;
  stpio_get_pin p d := default 0 (line_pins d !! p);
  request_irq _ d := (0, d);
  free_irq _ d := d;
  disable_irq _ d := d;
  enable_irq _ d := d;
  kthread_run d := (true, d)
|}.

(** ** Conventions *)

Definition decode (inv b : Z) : Z :=
  if inv =? INVERT then nth (Z.to_nat b) byte_invert_table 0 else b.

Lemma table_u8 b : is_u8 b -> 0 <= nth (Z.to_nat b) byte_invert_table 0 < 2 ^ 8.
Proof. intros Hb. by_bytes b Hb. Qed.

Lemma decode_u8 inv b : is_u8 b -> is_u8 (decode inv b).
Proof. intros Hb. unfold decode. destruct (inv =? INVERT); [|done]. by apply table_u8. Qed.

Lemma decode_decode inv b : is_u8 b -> decode inv (decode inv b) = b.
Proof.
  intros Hb. unfold decode. destruct (inv =? INVERT); [|done]. by_bytes b Hb.
Qed.

Lemma map_decode_decode inv bs :
  Forall is_u8 bs -> map (fun b => decode inv (decode inv b)) bs = bs.
Proof. induction 1 as [|b bs Hb _ IH]; [done|]. simpl. by rewrite IH, decode_decode. Qed.

Lemma map_decode_u8 inv bs : Forall is_u8 bs -> Forall is_u8 (map (decode inv) bs).
Proof. induction 1; constructor; [by apply decode_u8|done]. Qed.

(** The table reverses the bits of a byte and complements them, as the parser
    of the answer does for an inverse convention card. *)
Lemma byte_invert_spec b :
  is_u8 b -> nth (Z.to_nat b) byte_invert_table 0 = u8 (Z.lnot (INVERT_BYTE b)).
Proof. intros Hb. by_bytes b Hb. Qed.

Lemma u32_u8 b : is_u8 b -> u32 b = b.
Proof. intros Hb. apply Z.mod_small. unfold is_u8 in Hb. lia. Qed.

Lemma table_ok b : is_u8 b -> aget byte_invert_table b = Ok (nth (Z.to_nat b) byte_invert_table 0).
Proof. intros Hb. by_bytes b Hb. Qed.

Lemma with_convention_ok inv b : is_u8 b -> with_convention inv b = Ok (decode inv b).
Proof.
  intros Hb. unfold with_convention, decode. destruct (inv =? INVERT); [|done]. by apply table_ok.
Qed.

(** ** Register accesses *)

Section accesses.
Implicit Types s : sci line.

Definition at_asc0 s : Prop := base_address_asc s = ASC0_BASE_ADDRESS.
(** The value of a register of the serial controller. *)
Definition reg s (r : Z) : Z := default 0 (line_regs (io s) !! (ASC0_BASE_ADDRESS + r)).
Definition put_reg s (r v : Z) : sci line :=
  s <| io := (io s) <| line_regs := <[ASC0_BASE_ADDRESS + r := v]> (line_regs (io s)) |> |>.
(** Only registers without side effects differ. *)
Definition regs_only s s' : Prop := exists f, s' = s <| io := (io s) <| line_regs := f |> |>.

Lemma regs_only_put s r v : regs_only s (put_reg s r v).
Proof. by eexists. Qed.
Lemma regs_only_refl s : regs_only s s.
Proof. exists (line_regs (io s)). by destruct s as [[] ?]. Qed.
Lemma regs_only_trans s1 s2 s3 : regs_only s1 s2 -> regs_only s2 s3 -> regs_only s1 s3.
Proof. intros [f ->] [g ->]. by exists g. Qed.

(** A register of the serial controller that is neither STA nor a FIFO. *)
Definition plain_reg (r : Z) : bool := bool_decide (r ∈ [ASC0_BAUDRATE; ASC0_CTRL; ASC0_INT_EN; ASC0_GUARDTIME; ASC0_TX_RST]).

Lemma plain_reg_cases r :
  plain_reg r = true ->
  u32 (ASC0_BASE_ADDRESS + r) = ASC0_BASE_ADDRESS + r /\
  (ASC0_BASE_ADDRESS + r =? STA) = false /\ (ASC0_BASE_ADDRESS + r =? RX_BUF) = false /\
  (ASC0_BASE_ADDRESS + r =? TX_BUF) = false /\ (ASC0_BASE_ADDRESS + r =? RX_RST) = false.
Proof.
  unfold plain_reg. rewrite bool_decide_eq_true. intros Hr.
  repeat (apply elem_of_cons in Hr as [->|Hr]; [by vm_compute|]). by apply elem_of_nil in Hr.
Qed.

Lemma with_asc0 {A} s r (none : A) k :
  at_asc0 s -> with_reg BASE_ADDRESS_ASC0 r none k s = k (u32 (ASC0_BASE_ADDRESS + r)) s.
Proof.
  intros Ha. unfold with_reg, mbind, M_bind, gets, checked_ioremap. cbn [base_of]. by rewrite Ha.
Qed.

Lemma set_reg_line s r bits mask :
  at_asc0 s -> plain_reg r = true ->
  set_reg BASE_ADDRESS_ASC0 r bits mask s =
  Ok (tt, put_reg s r (u32 (Z.ldiff (u32 (reg s r)) mask .| bits))).
Proof.
  intros Ha Hr. apply plain_reg_cases in Hr as (Hu & H1 & H2 & H3 & H4).
  unfold set_reg. rewrite with_asc0, Hu by done.
  unfold ctrl_inl, ctrl_outl, hw_call, hw_do, put_reg, reg, mbind, M_bind, mret, M_ret, modify.
  cbn [mmio_rd mmio_wr sci_mmio line_hw line_mmio]. unfold line_rd, line_wr.
  rewrite H1, H2. simpl. by rewrite H3, H4.
Qed.

Lemma get_sta_line s :
  at_asc0 s -> get_reg BASE_ADDRESS_ASC0 ASC0_STA s = Ok (u32 (status (io s)), s).
Proof.
  intros Ha. unfold get_reg. rewrite with_asc0 by done.
  unfold ctrl_inl, hw_call, mbind, M_bind, mret, M_ret. by destruct s as [[] ?].
Qed.

Lemma get_rx_line s b bs :
  at_asc0 s -> rx_fifo (io s) = b :: bs -> is_u8 b ->
  get_reg BASE_ADDRESS_ASC0 ASC0_RX_BUF s = Ok (b, s <| io := (io s) <| rx_fifo := bs |> |>).
Proof.
  intros Ha Hb Hu. unfold get_reg. rewrite with_asc0 by done.
  unfold ctrl_inl, hw_call, mbind, M_bind, mret, M_ret.
  cbn [mmio_rd sci_mmio line_hw line_mmio]. unfold line_rd.
  change (u32 _ =? STA) with false. change (u32 _ =? RX_BUF) with true. cbv iota.
  rewrite Hb. by rewrite u32_u8.
Qed.

Lemma put_tx_line s b :
  at_asc0 s -> is_u8 b ->
  set_reg_writeonly BASE_ADDRESS_ASC0 ASC0_TX_BUF b s =
  Ok (tt, s <| io := (io s) <| sent := sent (io s) ++ [b] |> <| rx_fifo := rx_fifo (io s) ++ [b] |> |>).
Proof.
  intros Ha Hu. unfold set_reg_writeonly. rewrite with_asc0 by done.
  unfold ctrl_outl, hw_do, modify. cbn [mmio_wr sci_mmio line_hw line_mmio]. unfold line_wr.
  change (u32 _ =? TX_BUF) with true. cbv iota. by rewrite u32_u8.
Qed.

Lemma fifo_reset_line s :
  at_asc0 s ->
  fifo_reset BASE_ADDRESS_ASC0 s =
  Ok (tt, let s' := put_reg s ASC0_TX_RST 0xFF in s' <| io := (io s') <| rx_fifo := [] |> |>).
Proof.
  intros Ha. unfold fifo_reset, set_reg_writeonly. unfold mbind at 1, M_bind at 1.
  rewrite with_asc0 by done. unfold ctrl_outl at 1, hw_do at 1, modify at 1.
  rewrite with_asc0 by done. unfold ctrl_outl, hw_do, modify.
  cbn [mmio_wr sci_mmio line_hw line_mmio]. unfold line_wr. reflexivity.
Qed.

Lemma set_serial_irq_line s t :
  at_asc0 s -> id_ s = 0 -> t ∈ [RX_FULL_IRQ; TX_EMPTY_IRQ; RX_FULL_TX_EMPTY_IRQ; ALL_IRQS] ->
  exists s', set_serial_irq t s = Ok (tt, s') /\ regs_only (s <| irq_mode := t |>) s'.
Proof.
  intros Ha Hi Ht. unfold set_serial_irq. rewrite (M_bind_run _ _ _ _ _ eq_refl), Hi.
  unfold on_controller. cbn [Z.eqb].
  replace (_ || _) with true.
  2: { repeat (apply elem_of_cons in Ht as [->|Ht]; [done|]). by apply elem_of_nil in Ht. }
  erewrite M_bind_run by done. rewrite set_reg_line by done.
  eexists. split; [done|]. apply regs_only_put.
Qed.
End accesses.

(** ** Reception *)

Section receive.
Implicit Types s : sci line.

(** The convention after byte [b] of the wire. *)
Definition conv s b : Z :=
  if negb (atr_status s =? SCI_ATR_READY) && (byte_invert s =? NO_DEFINED) then
    if b =? 0x03 then INVERT else if b =? 0x3B then UNINVERT else byte_invert s
  else byte_invert s.
Definition store1 s b : sci line :=
  s <| byte_invert := conv s b |>
    <| read_buf := <[Z.to_nat (rx_rptr s) := decode (conv s b) b]> (read_buf s) |>
    <| rx_rptr := rx_rptr s + 1 |>.
Definition stored s bs : sci line := foldl store1 s bs.
Definition drop_fifo s : sci line := s <| io := (io s) <| rx_fifo := [] |> |>.

(** Room for [n] more bytes in the receive buffer. *)
Definition room s (n : nat) : Prop :=
  length (read_buf s) = 1024%nat /\ 0 <= rx_rptr s /\ rx_rptr s + Z.of_nat n <= 1024.

Lemma rx_store_ok s b : is_u8 b -> room s 1 -> rx_store b s = Ok (tt, store1 s b).
Proof.
  intros Hb (Hl & Hp & Hr). unfold rx_store.
  do 2 (erewrite M_bind_run by done). rewrite (u8_id b Hb).
  erewrite (M_bind_run _ _ s tt (s <| byte_invert := conv s b |>)).
  2: { unfold conv, when. destruct s; simpl. repeat (destruct (_ && _) || destruct (_ =? _)); done. }
  erewrite M_bind_run by done.
  erewrite M_bind_run by (apply lift_run; by apply with_convention_ok).
  do 2 (erewrite M_bind_run by done).
  erewrite M_bind_run by (apply lift_run; apply aset_in; simpl; lia).
  unfold modify, store1. simpl. unfold u16. by rewrite Z.mod_small by lia.
Qed.

(** The receive loop stores past the buffer when a byte too many arrives. *)
Lemma rx_store_full s b :
  is_u8 b -> length (read_buf s) = 1024%nat -> 1024 <= rx_rptr s ->
  rx_store b s = Fault OutOfBounds.
Proof.
  intros Hb Hl Hp. unfold rx_store.
  do 2 (erewrite M_bind_run by done). rewrite (u8_id b Hb).
  erewrite (M_bind_run _ _ s tt (s <| byte_invert := conv s b |>)).
  2: { unfold conv, when. destruct s; simpl. repeat (destruct (_ && _) || destruct (_ =? _)); done. }
  erewrite M_bind_run by done.
  erewrite M_bind_run by (apply lift_run; by apply with_convention_ok).
  do 2 (erewrite M_bind_run by done). apply M_bind_fault. simpl.
  unfold lift, aset. destruct (Z.ltb_spec (rx_rptr s) (Z.of_nat (length (read_buf s)))); [lia|].
  by rewrite andb_false_r.
Qed.

(** The status bits the line raises: transmitter empty, half empty. *)
Definition flags_ok (f : Z) : Prop := f ∈ [0; 2; 4; 6].
Lemma flags_cases (P : Z -> Prop) :
  P 0 -> P 2 -> P 4 -> P 6 -> forall f, flags_ok f -> P f.
Proof.
  intros ???? f Hf. unfold flags_ok in Hf. rewrite !elem_of_cons, elem_of_nil in Hf.
  by destruct Hf as [->|[->|[->|[->|[]]]]].
Qed.

Lemma status_bits f :
  flags_ok f -> truthy ((f .| 1) .& 1) = true /\ truthy ((f .| 1) .& 0x20) = false /\
  truthy (f .& 1) = false /\ u32 (f .| 1) = f .| 1 /\ u32 (f .| 0) = f.
Proof. revert f. by apply flags_cases. Qed.

Lemma rx_loop_ok f bs : flags_ok f -> forall s b fuel,
  at_asc0 s -> tx_flags (io s) = f -> rx_fifo (io s) = b :: bs -> Forall is_u8 (b :: bs) ->
  room s (S (length bs)) -> (length bs < fuel)%nat ->
  rx_loop fuel BASE_ADDRESS_ASC0 (f .| 1) s = Ok (Some f, stored (drop_fifo s) (b :: bs)).
Proof.
  intros Hf. destruct (status_bits f Hf) as (B1 & B2 & B3 & B4 & B5).
  induction bs as [|b' bs IH]; intros s b fuel Ha Hfl Hb [Hu Hus]%Forall_cons_1 Hr Hfu;
    (destruct fuel as [|fuel]; [simpl in Hfu; lia|]); cbn [rx_loop];
    rewrite B1, B2;
    (erewrite M_bind_run by
      (erewrite M_bind_run by (by eapply get_rx_line);
       erewrite M_bind_run by (apply rx_store_ok; [done|destruct Hr as (?&?&?); split_and!; simpl in *; [done|lia|lia]]);
       reflexivity)); cbv iota;
    (erewrite M_bind_run by (by apply get_sta_line));
    unfold status; simpl (tx_flags _); simpl (rx_fifo _); rewrite Hfl.
  - rewrite B5, B3. done.
  - rewrite B4, B1. rewrite (IH _ b'); [done|done|done|done|done| |simpl in *; lia].
    destruct Hr as (?&?&?). split_and!; simpl in *; [by rewrite length_insert|lia|lia].
Qed.
End receive.

(** ** Transmission *)

Section transmit.
Implicit Types s : sci line.

(** [bs] taken from the transmit buffer and sent, and heard on the line. *)
Definition pushed s bs : sci line :=
  let w := map (decode (byte_invert s)) bs in
  s <| io := (io s) <| sent := sent (io s) ++ w |> <| rx_fifo := rx_fifo (io s) ++ w |> |>
    <| tx_wptr := tx_wptr s + Z.of_nat (length bs) |>
    <| rx_wptr := rx_wptr s + Z.of_nat (length bs) |>.

Lemma pushed_cons s b bs : pushed (pushed s [b]) bs = pushed s (b :: bs).
Proof.
  unfold pushed. simpl. rewrite <- !app_assoc, <- !Z.add_assoc.
  replace (Z.of_nat 1 + Z.of_nat (length bs)) with (Z.of_nat (S (length bs))) by lia. done.
Qed.

Lemma pushed_nil s : pushed s [] = s.
Proof.
  unfold pushed. destruct s as [[] ?]. simpl. by rewrite !app_nil_r, !Z.add_0_r.
Qed.

Definition sendable s (n : nat) : Prop :=
  at_asc0 s /\ Forall is_u8 (write_buf s) /\ 0 <= tx_wptr s /\
  tx_wptr s + Z.of_nat n <= Z.of_nat (length (write_buf s)) /\ Z.of_nat (length (write_buf s)) <= 1024 /\
  0 <= rx_wptr s /\ rx_wptr s + Z.of_nat n < 2 ^ 16.

Lemma tx_bytes_ok n : forall s, sendable s n ->
  tx_bytes n BASE_ADDRESS_ASC0 s =
  Ok (tt, pushed s (seg (write_buf s) (tx_wptr s) (tx_wptr s + Z.of_nat n))).
Proof.
  induction n as [|n IH]; intros s (Ha & Hu & Hw & Hn & Hl & Hrw & Hrn); cbn [tx_bytes].
  { rewrite Z.add_0_r, seg_nil, pushed_nil. done. }
  destruct (aget_in (write_buf s) (tx_wptr s)) as [b Hb]; [lia|].
  assert (Hbu : is_u8 b) by by eapply aget_Forall.
  do 3 (erewrite M_bind_run by done).
  erewrite M_bind_run by (by apply lift_run).
  erewrite M_bind_run by (apply lift_run; by apply with_convention_ok).
  rewrite u8_id by by apply decode_u8.
  erewrite M_bind_run by (apply put_tx_line; [done|by apply decode_u8]).
  erewrite M_bind_run by done. cbv beta.
  match goal with |- tx_bytes n _ ?x = _ => replace x with (pushed s [b]) end.
  2: { unfold pushed, u16. simpl. rewrite !Z.mod_small by lia. done. }
  rewrite IH.
  2: { unfold sendable, pushed. simpl. split_and!; [done|done|lia|lia|lia|lia|lia]. }
  do 2 f_equal. simpl (write_buf _). simpl (tx_wptr (pushed _ _)).
  rewrite pushed_cons. f_equal. change (b :: ?l) with ([b] ++ l).
  rewrite <- (seg_one _ _ _ Hb), seg_app by lia. f_equal. lia.
Qed.

(** How many of [rem] bytes an interrupt with status [f] sends in [mode]. *)
Definition tx_runs (f mode : Z) : bool :=
  truthy (f .& TX_EMPTY_IRQ) && tx_active mode || truthy (f .& TX_HALF_EMPTY_IRQ) && (mode =? ALL_IRQS).
Definition tx_chunk (f mode rem : Z) : Z :=
  if truthy (f .& TX_EMPTY_IRQ) && tx_active mode then Z.min HW_FIFO_SIZE rem
  else if truthy (f .& TX_HALF_EMPTY_IRQ) && (mode =? ALL_IRQS) then Z.min (HW_FIFO_SIZE / 2) rem
  else 0.

(** The transmitting half of the handler. *)
Definition tx_next (f : Z) s : sci line :=
  let rem := tx_rptr s - tx_wptr s in
  let n := tx_chunk f (irq_mode s) rem in
  let s' := pushed s (seg (write_buf s) (tx_wptr s) (tx_wptr s + n)) in
  if tx_runs f (irq_mode s) && (n =? rem) then s' <| irq_mode := RX_FULL_IRQ |> else s'.

(** A state between interrupts. *)
Record linked s : Prop := {
  l_asc : at_asc0 s;
  l_id : id_ s = 0;
  l_flags : flags_ok (tx_flags (io s));
  l_fifo : Forall is_u8 (rx_fifo (io s));
  l_rbuf : length (read_buf s) = 1024%nat;
  l_wbuf : length (write_buf s) = 1024%nat;
  l_wu8 : Forall is_u8 (write_buf s);
  l_tx : 0 <= tx_wptr s <= tx_rptr s /\ tx_rptr s <= 1024;
  l_rx : 0 <= rx_rptr s <= 1024;
  l_rxw : 0 <= rx_wptr s <= 1024 + tx_wptr s;
  l_mode : rx_active (irq_mode s) = true
}.

Lemma tx_chunk_bounds f mode rem : 0 <= rem -> 0 <= tx_chunk f mode rem <= rem.
Proof.
  intros Hr. unfold tx_chunk, HW_FIFO_SIZE. change (16 / 2) with 8.
  destruct (_ && _); [lia|]. destruct (_ && _); lia.
Qed.

Lemma tx_fill_ok s room :
  linked s -> room = 16 \/ room = 8 ->
  let rem := tx_rptr s - tx_wptr s in
  let n := Z.min room rem in
  let s1 := pushed s (seg (write_buf s) (tx_wptr s) (tx_wptr s + n)) in
  exists s', tx_fill BASE_ADDRESS_ASC0 room s = Ok (tt, s') /\
    regs_only (if n =? rem then s1 <| irq_mode := RX_FULL_IRQ |> else s1) s'.
Proof.
  intros L Hroom rem n s1. pose proof (l_tx s L). pose proof (l_rxw s L). pose proof (l_wbuf s L) as Hwl.
  unfold tx_fill. do 2 (erewrite M_bind_run by done). cbv zeta.
  replace (u8 _) with n.
  2: { unfold n, rem. rewrite u8_id; [|unfold is_u8; destruct (Z.ltb_spec room (tx_rptr s - tx_wptr s)); lia].
       destruct (Z.ltb_spec room (tx_rptr s - tx_wptr s)); lia. }
  erewrite M_bind_run.
  2: { apply tx_bytes_ok. unfold sendable. rewrite Hwl.
       split_and!; [apply L|apply L|lia|lia|lia|lia|lia]. }
  rewrite Z2Nat.id by lia. fold s1. do 2 (erewrite M_bind_run by done). cbv beta.
  assert (Hw : tx_wptr s1 = tx_wptr s + n).
  { unfold s1, pushed. simpl. rewrite seg_length by lia. lia. }
  change (tx_rptr s1) with (tx_rptr s). rewrite Hw.
  destruct (Z.eqb_spec n rem) as [->|Hne].
  - replace (_ =? _) with true by (symmetry; apply Z.eqb_eq; unfold rem; lia). unfold when.
    apply set_serial_irq_line; [apply L|apply L|].
    by left.
  - replace (_ =? _) with false by (symmetry; apply Z.eqb_neq; unfold rem in *; lia). unfold when.
    eexists. split; [done|]. apply regs_only_refl.
Qed.

Lemma tx_part_ok s f :
  linked s -> flags_ok f ->
  exists s', tx_part BASE_ADDRESS_ASC0 f s = Ok (tt, s') /\ regs_only (tx_next f s) s'.
Proof.
  intros L Hf. unfold tx_part. erewrite M_bind_run by done.
  replace (negb _) with true by (symmetry; revert f Hf; by apply flags_cases).
  unfold tx_next, tx_runs, tx_chunk.
  destruct (truthy (f .& TX_EMPTY_IRQ) && tx_active (irq_mode s)); simpl orb; cbv iota.
  { apply tx_fill_ok; [done|by left]. }
  destruct (truthy (f .& TX_HALF_EMPTY_IRQ) && _); cbv iota.
  { apply tx_fill_ok; [done|by right]. }
  rewrite Z.add_0_r, seg_nil, pushed_nil. eexists. split; [done|]. apply regs_only_refl.
Qed.
End transmit.

(** ** A whole interrupt *)

(** What becomes true on the line before an interrupt: the bytes that arrived
    from the card and the transmitter's state. *)
Record line_event := Event { arrives : list Z; ev_flags : Z }.

Definition show_event (e : line_event) (s : sci line) : sci line :=
  s <| io := (io s) <| rx_fifo := rx_fifo (io s) ++ arrives e |> <| tx_flags := ev_flags e |> |>.

Definition line_interrupt (e : line_event) : M (sci line) unit :=
  modify (show_event e);; sci_irq_rx_tx_handler BASE_ADDRESS_ASC0.
Fixpoint line_interrupts (es : list line_event) : M (sci line) unit :=
  match es with
  | [] => skip
  | e :: es => line_interrupt e;; line_interrupts es
  end.

Section interrupt.
Implicit Types s : sci line.

Definition irq_next s : sci line :=
  tx_next (tx_flags (io s)) (stored (drop_fifo s) (rx_fifo (io s))).

Lemma regs_only_stored bs : forall s s', regs_only s s' -> regs_only (stored s bs) (stored s' bs).
Proof.
  induction bs as [|b bs IH]; intros s s' H; [done|]. apply (IH (store1 s b)).
  destruct H as [f ->]. by exists f.
Qed.
Lemma regs_only_drop s s' : regs_only s s' -> regs_only (drop_fifo s) (drop_fifo s').
Proof. intros [f ->]. by exists f. Qed.
Lemma regs_only_tx_next f s s' : regs_only s s' -> regs_only (tx_next f s) (tx_next f s').
Proof. intros [g ->]. exists g. unfold tx_next. simpl. by destruct (_ && _). Qed.
Lemma regs_only_irq_next s s' : regs_only s s' -> regs_only (irq_next s) (irq_next s').
Proof.
  intros H. unfold irq_next.
  replace (tx_flags (io s')) with (tx_flags (io s)) by (by destruct H as [f ->]).
  replace (rx_fifo (io s')) with (rx_fifo (io s)) by (by destruct H as [f ->]).
  by apply regs_only_tx_next, regs_only_stored, regs_only_drop.
Qed.

Lemma linked_regs s s' : regs_only s s' -> linked s -> linked s'.
Proof. intros [f ->] []. by constructor. Qed.
Lemma linked_drop s : linked s -> linked (drop_fifo s).
Proof. intros []. by constructor. Qed.
Lemma linked_stored bs : forall s,
  linked s -> room s (length bs) -> linked (stored s bs).
Proof.
  induction bs as [|b bs IH]; intros s L Hr; [done|]. simpl. apply IH.
  - destruct Hr as (?&?&?), L. simpl in *. constructor; simpl; try done; [by rewrite length_insert|lia].
  - destruct Hr as (?&?&?). simpl in *. split_and!; simpl; [by rewrite length_insert|lia|lia].
Qed.

Lemma irq_handler_ok s :
  linked s -> room s (length (rx_fifo (io s))) ->
  exists s', sci_irq_rx_tx_handler BASE_ADDRESS_ASC0 s = Ok (tt, s') /\ regs_only (irq_next s) s'.
Proof.
  intros L Hr. unfold sci_irq_rx_tx_handler.
  erewrite M_bind_run by (apply set_reg_line; [apply L|done]).
  set (s1 := put_reg s _ _).
  assert (R1 : regs_only s s1) by apply regs_only_put.
  assert (L1 : linked s1) by by eapply linked_regs.
  erewrite M_bind_run by (apply get_sta_line; apply L1).
  erewrite M_bind_run by done. change (irq_mode s1) with (irq_mode s). rewrite (l_mode s L), andb_true_r.
  pose proof (l_flags s L) as Hf. destruct (status_bits _ Hf) as (B1 & B2 & B3 & B4 & B5).
  assert (E : exists s2, regs_only (stored (drop_fifo s) (rx_fifo (io s))) s2 /\ linked s2 /\
    (if truthy (u32 (status (io s1)) .& RX_FULL_IRQ)
     then rx_loop rx_fuel BASE_ADDRESS_ASC0 (u32 (status (io s1)))
     else mret (Some (u32 (status (io s1))))) s1 = Ok (Some (tx_flags (io s)), s2)).
  { unfold status, RX_FULL_IRQ. change (rx_fifo (io s1)) with (rx_fifo (io s)).
    change (tx_flags (io s1)) with (tx_flags (io s)). pose proof (l_fifo s L) as Hu.
    destruct (rx_fifo (io s)) as [|b bs] eqn:Eb.
    - rewrite B5, B3. exists s1. split_and!; [|done|done].
      replace (stored (drop_fifo s) []) with s; [done|].
      unfold stored, drop_fifo. simpl. rewrite <- Eb. by destruct s as [[] ?].
    - rewrite B4, B1. eexists. split_and!; [| |apply rx_loop_ok; [done|apply L1|done|by unfold s1|done|done|]].
      + by apply regs_only_stored, regs_only_drop.
      + by apply linked_stored; [apply linked_drop|].
      + destruct Hr as (?&?&?). unfold rx_fuel. simpl length in *. lia. }
  destruct E as (s2 & R2 & L2 & E2). erewrite M_bind_run by exact E2.
  destruct (tx_part_ok s2 _ L2 Hf) as (s3 & E3 & R3). erewrite M_bind_run by exact E3.
  unfold unmask_irq. erewrite M_bind_run by done.
  rewrite set_reg_line; [|by destruct R3 as [? ->]; unfold tx_next; destruct (_ && _); apply L2|done].
  eexists. split; [done|].
  eapply regs_only_trans; [|apply regs_only_put]. eapply regs_only_trans; [|exact R3].
  by apply regs_only_tx_next.
Qed.
End interrupt.
