(* ===== verification/SciExchange.v ===== *)
(** * Smart card reader: sending a message and reading the reply

    The buffers and the line of [SciLine] as the caller sees them, the
    interrupt handler as a step of that view, and what sci_write, the interrupts
    and sci_read together do. *)
From S2P Require Import Prelude Atr SciState SciCtrl SciIrq SciLine.

(** ** The line as the caller sees it

    [w_heard]: everything received and not discarded, echoes included;
    [w_pending]: what is still to be sent; [w_sent]: what has been; [w_skip]: how
    many received bytes are not for the caller; [w_mode]: the enabled interrupts. *)
Record wire := Wire {
  w_heard : list Z; w_pending : list Z; w_sent : list Z; w_skip : Z; w_mode : Z
}.

Definition wire_of (s : sci line) : wire := {|
  w_heard := take (Z.to_nat (rx_rptr s)) (read_buf s) ++ map (decode (byte_invert s)) (rx_fifo (io s));
  w_pending := seg (write_buf s) (tx_wptr s) (tx_rptr s);
  w_sent := sent (io s); w_skip := rx_wptr s; w_mode := irq_mode s |}.

(** Send [n] of the pending bytes; the card's line echoes them. *)
Definition wire_send (inv : Z) (n : nat) (mode : Z) (w : wire) : wire := {|
  w_heard := w_heard w ++ take n (w_pending w); w_pending := drop n (w_pending w);
  w_sent := w_sent w ++ map (decode inv) (take n (w_pending w));
  w_skip := w_skip w + Z.of_nat n; w_mode := mode |}.

Definition wire_hear (inv : Z) (bs : list Z) (w : wire) : wire :=
  Wire (w_heard w ++ map (decode inv) bs) (w_pending w) (w_sent w) (w_skip w) (w_mode w).

Definition wire_step (inv : Z) (e : line_event) (w : wire) : wire :=
  let rem := Z.of_nat (length (w_pending w)) in
  let n := tx_chunk (ev_flags e) (w_mode w) rem in
  wire_send inv (Z.to_nat n)
    (if tx_runs (ev_flags e) (w_mode w) && (n =? rem) then RX_FULL_IRQ else w_mode w)
    (wire_hear inv (arrives e) w).

Section refine.
Implicit Types s : sci line.

(** The convention of the card is known. *)
Definition settled s : Prop := atr_status s = SCI_ATR_READY \/ byte_invert s <> NO_DEFINED.
Definition same_card s s' : Prop :=
  byte_invert s' = byte_invert s /\ atr_status s' = atr_status s /\ card_detect s' = card_detect s /\
  tx_rptr s' = tx_rptr s.

Lemma same_card_trans s1 s2 s3 : same_card s1 s2 -> same_card s2 s3 -> same_card s1 s3.
Proof. unfold same_card. intuition congruence. Qed.
Lemma settled_same s s' : same_card s s' -> settled s -> settled s'.
Proof. intros (H1&H2&_). unfold settled. by rewrite H1, H2. Qed.

Lemma conv_settled s b : settled s -> conv s b = byte_invert s.
Proof.
  intros Hs. unfold conv. destruct (Z.eqb_spec (atr_status s) SCI_ATR_READY); [done|].
  destruct (Z.eqb_spec (byte_invert s) NO_DEFINED); [|done]. by destruct Hs.
Qed.

Lemma stored_settled bs : forall s,
  settled s -> room s (length bs) ->
  stored s bs = s <| read_buf := read_buf (stored s bs) |>
                  <| rx_rptr := rx_rptr s + Z.of_nat (length bs) |> /\
  take (Z.to_nat (rx_rptr s + Z.of_nat (length bs))) (read_buf (stored s bs)) =
  take (Z.to_nat (rx_rptr s)) (read_buf s) ++ map (decode (byte_invert s)) bs /\
  length (read_buf (stored s bs)) = 1024%nat.
Proof.
  induction bs as [|b bs IH]; intros s Hs (Hl & Hp & Hr).
  - simpl. rewrite Z.add_0_r, app_nil_r. by destruct s.
  - simpl in Hr. unfold stored. simpl.
    assert (Hs1 : settled (store1 s b)).
    { unfold settled. simpl. by rewrite conv_settled. }
    destruct (IH (store1 s b) Hs1) as (E & T & L).
    { split_and!; simpl; [by rewrite length_insert|lia|lia]. }
    unfold stored in *. simpl in T. rewrite conv_settled in T by done.
    replace (rx_rptr s + Z.of_nat (S (length bs))) with (rx_rptr s + 1 + Z.of_nat (length bs)) by lia.
    split_and!; [|rewrite T|done].
    + rewrite E at 1. unfold store1. rewrite conv_settled by done. by destruct s.
    + rewrite Z2Nat.inj_add, Nat.add_1_r by lia.
      erewrite take_S_r by (apply list_lookup_insert_eq; lia).
      by rewrite take_insert_ge, <- app_assoc by lia.
Qed.

(** Reception moves bytes into the buffer: the caller's view stays. *)
Lemma wire_stored s :
  settled s -> room s (length (rx_fifo (io s))) ->
  let s' := stored (drop_fifo s) (rx_fifo (io s)) in
  wire_of s' = wire_of s /\ same_card s s' /\ rx_fifo (io s') = [] /\
  take (Z.to_nat (rx_rptr s')) (read_buf s') = w_heard (wire_of s).
Proof.
  intros Hs Hr s'. destruct (stored_settled (rx_fifo (io s)) (drop_fifo s) Hs Hr) as (E & T & L).
  fold s' in E, T, L. simpl in T.
  assert (H : rx_rptr s' = rx_rptr s + Z.of_nat (length (rx_fifo (io s))) /\ rx_fifo (io s') = [] /\
    byte_invert s' = byte_invert s /\ write_buf s' = write_buf s /\ tx_wptr s' = tx_wptr s /\
    same_card s s' /\ sent (io s') = sent (io s) /\ rx_wptr s' = rx_wptr s /\ irq_mode s' = irq_mode s).
  { rewrite E. by split_and!. }
  destruct H as (H1&H2&H3&H4&H5&H6&H7&H8&H9).
  assert (H10 : tx_rptr s' = tx_rptr s) by apply H6.
  split_and!; [|done|done|by rewrite H1, T].
  unfold wire_of. rewrite H1, H2, H3, H4, H5, H7, H8, H9, H10, T. simpl. by rewrite app_nil_r.
Qed.

(** Transmission sends a part of what is pending and the line echoes it. *)
Lemma wire_tx_next s f :
  linked s ->
  let rem := tx_rptr s - tx_wptr s in
  let n := tx_chunk f (irq_mode s) rem in
  let mode := if tx_runs f (irq_mode s) && (n =? rem) then RX_FULL_IRQ else irq_mode s in
  wire_of (tx_next f s) = wire_send (byte_invert s) (Z.to_nat n) mode (wire_of s) /\
  linked (tx_next f s) /\ same_card s (tx_next f s) /\
  rx_rptr (tx_next f s) = rx_rptr s /\ read_buf (tx_next f s) = read_buf s /\
  0 <= n <= rem /\ rem = Z.of_nat (length (w_pending (wire_of s))).
Proof.
  intros L rem n mode. pose proof (l_tx s L) as [Ht1 Ht2]. pose proof (l_wbuf s L) as Hwl.
  pose proof (tx_chunk_bounds f (irq_mode s) rem ltac:(unfold rem; lia)) as Hn. fold n in Hn.
  set (bs := seg (write_buf s) (tx_wptr s) (tx_wptr s + n)).
  assert (Hbs : length bs = Z.to_nat n) by (unfold bs; rewrite seg_length by (rewrite ?Hwl; unfold rem in *; lia); lia).
  assert (Hp : w_pending (wire_of s) = bs ++ seg (write_buf s) (tx_wptr s + n) (tx_rptr s)).
  { simpl. unfold bs. rewrite seg_app; [done|lia|unfold rem in *; lia]. }
  assert (E : tx_next f s = (pushed s bs) <| irq_mode := mode |>).
  { unfold tx_next, mode. fold rem n bs. destruct (_ && _); [done|]. by destruct s. }
  assert (Hu : Forall is_u8 bs) by (apply Forall_take, Forall_drop; apply L).
  rewrite E. split_and!; try done; try lia.
  - unfold wire_send. rewrite Hp, <- Hbs, take_app_length, drop_app_length.
    unfold wire_of, pushed. simpl. rewrite !Hbs, Z2Nat.id, map_app, map_map by lia. f_equal.
    rewrite <- app_assoc. do 2 f_equal.
    by apply map_decode_decode.
  - pose proof (l_rxw s L). destruct L. constructor; simpl; rewrite ?Hbs, ?Z2Nat.id by lia; try done; try lia.
    + apply Forall_app. split; [done|]. by apply map_decode_u8.
    + unfold mode. by destruct (_ && _).
  - simpl. rewrite seg_length by lia. unfold rem in *. lia.
Qed.

Lemma wire_regs s s' : regs_only s s' -> wire_of s' = wire_of s /\ same_card s s'.
Proof. by intros [f ->]. Qed.

Definition event_ok (e : line_event) : Prop := flags_ok (ev_flags e) /\ Forall is_u8 (arrives e).

(** An interrupt is a step of the line; afterwards everything received before
    its own transmission is in the buffer. *)
Lemma line_interrupt_refines e s :
  linked s -> settled s -> event_ok e ->
  (length (w_heard (wire_of s)) + length (arrives e) <= 1024)%nat ->
  exists s', line_interrupt e s = Ok (tt, s') /\ linked s' /\ same_card s s' /\
    wire_of s' = wire_step (byte_invert s) e (wire_of s) /\
    take (Z.to_nat (rx_rptr s')) (read_buf s') =
      w_heard (wire_hear (byte_invert s) (arrives e) (wire_of s)) /\
    Z.to_nat (rx_rptr s') = (length (w_heard (wire_of s)) + length (arrives e))%nat.
Proof.
  intros L Hs [Hf Hu] Hlen. set (s1 := show_event e s).
  assert (Hh : length (w_heard (wire_of s)) = (Z.to_nat (rx_rptr s) + length (rx_fifo (io s)))%nat).
  { pose proof (l_rx s L). pose proof (l_rbuf s L). simpl.
    rewrite length_app, length_take, length_map. lia. }
  assert (L1 : linked s1).
  { destruct L. constructor; simpl; try done. by apply Forall_app. }
  assert (R1 : room s1 (length (rx_fifo (io s1)))).
  { pose proof (l_rx s L). pose proof (l_rbuf s L). split_and!; simpl; [done|lia|].
    rewrite length_app. lia. }
  destruct (irq_handler_ok s1 L1 R1) as (s4 & E4 & G4).
  set (s2 := stored (drop_fifo s1) (rx_fifo (io s1))).
  assert (L2 : linked s2) by (apply linked_stored; [by apply linked_drop|done]).
  destruct (wire_stored s1 Hs R1) as (W2 & C2 & F2 & T2). fold s2 in W2, C2, F2, T2.
  destruct (wire_tx_next s2 (tx_flags (io s1)) L2) as (W3 & L3 & C3 & P3 & B3 & Hn & Hrem).
  destruct (wire_regs _ _ G4) as [W4 C4].
  assert (W1 : wire_of s1 = wire_hear (byte_invert s) (arrives e) (wire_of s)).
  { unfold wire_of, wire_hear. simpl. by rewrite map_app, app_assoc. }
  assert (T4 : take (Z.to_nat (rx_rptr s4)) (read_buf s4) = w_heard (wire_of s1)).
  { rewrite <- T2, <- P3, <- B3. unfold irq_next in G4. fold s2 in G4. by destruct G4 as [? ->]. }
  exists s4. split_and!.
  - unfold line_interrupt. by erewrite M_bind_run by done.
  - by eapply linked_regs.
  - eapply same_card_trans; [|exact C4]. eapply same_card_trans; [exact C2|exact C3].
  - rewrite W4. unfold irq_next. fold s2. rewrite W3.
    assert (Hinv : byte_invert s2 = byte_invert s) by apply C2.
    assert (Hm : irq_mode s2 = w_mode (wire_of s)).
    { change (w_mode (wire_of s2) = w_mode (wire_of s)). by rewrite W2, W1. }
    rewrite Hrem, Hinv, Hm, W2, W1. reflexivity.
  - by rewrite T4, W1.
  - pose proof (l_rbuf s4 ltac:(by eapply linked_regs)). pose proof (l_rx s4 ltac:(by eapply linked_regs)).
    apply (f_equal length) in T4. rewrite length_take, W1 in T4.
    unfold wire_hear in T4. cbn [w_heard] in T4. rewrite length_app, length_map in T4. lia.
Qed.

Fixpoint wire_steps (inv : Z) (es : list line_event) (w : wire) : wire :=
  match es with [] => w | e :: es => wire_steps inv es (wire_step inv e w) end.

(** Everything the line will have carried after the events. *)
Definition traffic (es : list line_event) (w : wire) : nat :=
  length (w_heard w) + length (w_pending w) + length (concat (map arrives es)).

Lemma traffic_step inv e es w : traffic es (wire_step inv e w) = traffic (e :: es) w.
Proof.
  unfold traffic. simpl. rewrite !length_app, length_map, length_take, length_drop.
  lia.
Qed.

Lemma line_interrupts_refine es : forall s,
  linked s -> settled s -> Forall event_ok es -> (traffic es (wire_of s) <= 1024)%nat ->
  exists s', line_interrupts es s = Ok (tt, s') /\ linked s' /\ same_card s s' /\
    wire_of s' = wire_steps (byte_invert s) es (wire_of s).
Proof.
  induction es as [|e es IH]; intros s L Hs He Ht; simpl line_interrupts.
  { exists s. by split_and!. }
  apply Forall_cons_1 in He as [He Hes].
  destruct (line_interrupt_refines e s L Hs He) as (s1 & E1 & L1 & C1 & W1 & _).
  { unfold traffic in Ht. cbn [map concat] in Ht. rewrite length_app in Ht. lia. }
  destruct (IH s1 L1 (settled_same _ _ C1 Hs) Hes) as (s2 & E2 & L2 & C2 & W2).
  { by rewrite W1, traffic_step. }
  exists s2. split_and!; [by erewrite M_bind_run by done|done|by eapply same_card_trans|].
  by rewrite W2, W1, (proj1 C1).
Qed.
End refine.

(** ** Draining the transmit buffer *)

(** An interrupt that finds no card byte and a transmitter that can take bytes
    in the interrupt mode [mode]. *)
Definition tx_event (mode : Z) (e : line_event) : Prop :=
  arrives e = [] /\ flags_ok (ev_flags e) /\
  (truthy (ev_flags e .& TX_EMPTY_IRQ) = true \/
   truthy (ev_flags e .& TX_HALF_EMPTY_IRQ) = true /\ mode = ALL_IRQS).

Lemma wire_send_send inv a b m1 m2 w :
  wire_send inv b m2 (wire_send inv a m1 w) = wire_send inv (a + b) m2 w.
Proof.
  unfold wire_send. simpl.
  by rewrite <- !app_assoc, <- map_app, take_take_drop, drop_drop, Nat2Z.inj_add, Z.add_assoc.
Qed.

Lemma wire_send_0 inv w : wire_send inv 0 (w_mode w) w = w.
Proof.
  unfold wire_send. rewrite take_0, drop_0. simpl. rewrite !app_nil_r, Z.add_0_r. by destruct w.
Qed.

Lemma wire_hear_nil inv w : wire_hear inv [] w = w.
Proof. unfold wire_hear. simpl. rewrite app_nil_r. by destruct w. Qed.

(** A transmitting interrupt sends at least eight bytes, or all. *)
Lemma wire_step_tx inv mode e w :
  tx_event mode e -> w_mode w = mode -> mode = RX_FULL_TX_EMPTY_IRQ \/ mode = ALL_IRQS ->
  exists n, (n <= length (w_pending w))%nat /\ (n = length (w_pending w) \/ 8 <= n)%nat /\
    wire_step inv e w = wire_send inv n (if (n =? length (w_pending w))%nat then RX_FULL_IRQ else mode) w.
Proof.
  intros (Ha & Hf & Hr) Hw Hm. unfold wire_step. rewrite Ha, wire_hear_nil, Hw.
  set (rem := length (w_pending w)).
  assert (R : tx_runs (ev_flags e) mode = true /\
    (tx_chunk (ev_flags e) mode (Z.of_nat rem) = Z.min 16 (Z.of_nat rem) \/
     tx_chunk (ev_flags e) mode (Z.of_nat rem) = Z.min 8 (Z.of_nat rem))).
  { unfold tx_runs, tx_chunk. destruct Hr as [->|[-> ->]].
    - destruct Hm as [->| ->]; (split; [done|by left]).
    - destruct (truthy _ && _); (split; [done|]); [by left|by right]. }
  destruct R as [-> R]. exists (Z.to_nat (tx_chunk (ev_flags e) mode (Z.of_nat rem))).
  split_and!; [lia|lia|]. simpl andb. f_equal.
  destruct (Z.eqb_spec (tx_chunk (ev_flags e) mode (Z.of_nat rem)) (Z.of_nat rem)) as [->|Hne].
  - by rewrite Nat2Z.id, Nat.eqb_refl.
  - destruct (Nat.eqb_spec (Z.to_nat (tx_chunk (ev_flags e) mode (Z.of_nat rem))) rem); [lia|done].
Qed.

Lemma wire_step_idle inv e w :
  arrives e = [] -> w_mode w = RX_FULL_IRQ -> wire_step inv e w = w.
Proof.
  intros Ha Hw. unfold wire_step. rewrite Ha, wire_hear_nil, Hw.
  unfold tx_chunk, tx_runs. change (tx_active RX_FULL_IRQ) with false.
  change (RX_FULL_IRQ =? ALL_IRQS) with false. rewrite !andb_false_r. simpl andb.
  rewrite <- Hw. apply wire_send_0.
Qed.

Lemma wire_steps_idle inv es w :
  Forall (fun e => arrives e = []) es -> w_mode w = RX_FULL_IRQ -> wire_steps inv es w = w.
Proof.
  intros He Hw. induction He as [|e es Ha _ IH]; [done|]. simpl. by rewrite wire_step_idle.
Qed.

Lemma wire_drain inv mode es : forall w,
  mode = RX_FULL_TX_EMPTY_IRQ \/ mode = ALL_IRQS -> w_mode w = mode ->
  Forall (tx_event mode) es -> (0 < length es)%nat ->
  (length (w_pending w) <= 8 * length es)%nat ->
  wire_steps inv es w = wire_send inv (length (w_pending w)) RX_FULL_IRQ w.
Proof.
  induction es as [|e es IH]; intros w Hm Hw He Hn Hl; [simpl in Hn; lia|].
  apply Forall_cons_1 in He as [He Hes]. simpl.
  destruct (wire_step_tx inv mode e w He Hw Hm) as (n & Hn1 & Hn2 & ->).
  destruct (Nat.eqb_spec n (length (w_pending w))) as [->|Hne].
  - apply wire_steps_idle; [|done]. eapply Forall_impl; [|exact Hes]. by intros ? [? _].
  - simpl in Hl. rewrite IH; [|done|done|done| |].
    + rewrite wire_send_send. f_equal. simpl. rewrite length_drop. lia.
    + destruct es; simpl in *; lia.
    + simpl. rewrite length_drop. lia.
Qed.

(** Hearing the card while nothing is pending. *)
Lemma wire_steps_hear inv es : forall w,
  w_mode w = RX_FULL_IRQ ->
  wire_steps inv es w = wire_hear inv (concat (map arrives es)) w.
Proof.
  induction es as [|e es IH]; intros w Hw; simpl; [by rewrite wire_hear_nil|].
  assert (E : wire_step inv e w = wire_hear inv (arrives e) w).
  { unfold wire_step. rewrite Hw. unfold tx_chunk, tx_runs.
    change (tx_active RX_FULL_IRQ) with false. change (RX_FULL_IRQ =? ALL_IRQS) with false.
    rewrite !andb_false_r. simpl andb. cbv iota.
    change RX_FULL_IRQ with (w_mode (wire_hear inv (arrives e) w)) || rewrite <- Hw.
    apply (wire_send_0 inv (wire_hear inv (arrives e) w)). }
  rewrite E, IH by done. unfold wire_hear. simpl. by rewrite map_app, app_assoc.
Qed.

(** ** Writing and reading *)

Section caller.
Implicit Types s : sci line.

(** Nothing waits to be sent and the card is in the reader. *)
Definition idle s : Prop := tx_wptr s = tx_rptr s /\ card_detect s = SCI_CARD_PRESENT.

Definition write_mode (n : nat) : Z :=
  if Z.of_nat n <=? HW_FIFO_SIZE then RX_FULL_TX_EMPTY_IRQ else ALL_IRQS.

Lemma wait_while_false delay waiting nonblock fuel s :
  waiting s = false -> wait_while delay waiting nonblock fuel s = Ok (false, s).
Proof.
  intros Hw. destruct fuel; simpl; unfold mbind, M_bind, gets; by rewrite Hw.
Qed.

Lemma sci_write_line delay fuel nonblock m s :
  linked s -> idle s -> Forall is_u8 m -> (0 < length m <= 1024)%nat ->
  exists s', sci_write delay fuel nonblock 0 m (Z.of_nat (length m)) s =
      Ok (Z.of_nat (length m), s') /\
    linked s' /\ byte_invert s' = byte_invert s /\ atr_status s' = atr_status s /\
    card_detect s' = card_detect s /\
    wire_of s' = Wire [] m (sent (io s)) 0 (write_mode (length m)).
Proof.
  intros L [Hi Hc] Hu Hm. unfold sci_write.
  erewrite M_bind_run by (apply wait_while_false; by rewrite Hi, Z.eqb_refl). cbv iota.
  erewrite M_bind_run by done. unfold present_card. rewrite Hc.
  change (negb (SCI_CARD_PRESENT =? SCI_CARD_PRESENT)) with false. cbv iota.
  erewrite M_bind_run by done. cbv zeta.
  replace (Z.of_nat (length m) <=? SCI_BUFFER_SIZE) with true
    by (symmetry; apply Z.leb_le; unfold SCI_BUFFER_SIZE; lia).
  rewrite Nat2Z.id, firstn_all.
  erewrite M_bind_run by done.
  unfold on_controller at 1. simpl (0 =? 0). cbv iota.
  erewrite M_bind_run by (apply fifo_reset_line; apply L).
  erewrite M_bind_run by done.
  match goal with |- context [((if _ then _ else _);; _) ?x] => set (s1 := x) end.
  destruct (set_serial_irq_line s1 (write_mode (length m))) as (s2 & E2 & R2).
  { apply L. } { apply L. }
  { unfold write_mode. destruct (_ <=? _); [right; right; by left|right; right; right; by left]. }
  erewrite (M_bind_run _ _ s1 tt s2) by (rewrite <- E2; unfold write_mode; by destruct (_ <=? _)).
  erewrite M_bind_run by done.
  exists s2. split; [by destruct s2|].
  assert (Hw : (write_buf s1) = m ++ drop (length m) (replicate 1024 0)) by done.
  assert (Hwl : length (write_buf s1) = 1024%nat).
  { rewrite Hw, length_app, length_drop, length_replicate. lia. }
  assert (Htx : tx_rptr s1 = Z.of_nat (length m)) by (simpl; unfold u16; rewrite Z.mod_small; lia).
  destruct (wire_regs _ _ R2) as [W2 C2].
  split_and!; [|by destruct R2 as [? ->]..|].
  - eapply linked_regs; [exact R2|]. destruct L. constructor; try done.
    + change (Forall is_u8 (write_buf s1)). rewrite Hw. apply Forall_app. split; [done|].
      by apply Forall_drop, Forall_replicate.
    + split; [|change (tx_rptr s1 <= 1024); lia]. change (0 <= 0 <= tx_rptr s1). lia.
    + change (rx_active (write_mode (length m)) = true). unfold write_mode. by destruct (_ <=? _).
  - change (wire_of s2 = Wire [] m (sent (io s)) 0 (write_mode (length m))). rewrite W2.
    unfold wire_of. f_equal. change (seg (write_buf s1) 0 (tx_rptr s1) = m).
    rewrite Htx, seg_0, Nat2Z.id, Hw. by rewrite take_app_length.
Qed.

(** The received bytes the caller has not read, when nothing is on its way in. *)
Definition unread s : list Z := seg (read_buf s) (rx_wptr s) (rx_rptr s).

(** Reads of [ls] bytes each without blocking, one after the other. *)
Fixpoint reads (ls : list nat) : M (sci line) (list Z) :=
  match ls with
  | [] => mret []
  | l :: ls =>
      r ← sci_read (fun _ => skip) 0 true (Z.of_nat l);
      rest ← reads ls;
      mret (r.2 ++ rest)
  end.

Definition readable_state s : Prop :=
  card_detect s = SCI_CARD_PRESENT /\ irq_mode s = RX_FULL_IRQ /\
  length (read_buf s) = 1024%nat /\ 0 <= rx_wptr s <= rx_rptr s /\ rx_rptr s <= 1024.

Lemma sci_read_line l s :
  readable_state s -> (0 < l <= 1024)%nat ->
  exists n s', sci_read (fun _ => skip) 0 true (Z.of_nat l) s = Ok ((n, take l (unread s)), s') /\
    readable_state s' /\ unread s' = drop l (unread s) /\
    n = (if rx_wptr s <? rx_rptr s then Z.of_nat (length (take l (unread s))) else - EWOULDBLOCK).
Proof.
  intros (Hc & Hm & Hl & Hw & Hr) Hl'. unfold sci_read.
  assert (Hn : nothing_to_read s = (rx_rptr s <=? rx_wptr s)).
  { unfold nothing_to_read, present_card. rewrite Hc, Hm.
    change (SCI_CARD_PRESENT =? SCI_CARD_PRESENT) with true.
    change (RX_FULL_IRQ =? RX_FULL_TX_EMPTY_IRQ) with false. by rewrite andb_true_r, orb_false_r. }
  destruct (Z.ltb_spec (rx_wptr s) (rx_rptr s)) as [Hlt|Hge].
  2: { assert (Hu : unread s = []) by (unfold unread; replace (rx_rptr s) with (rx_wptr s) by lia; apply seg_nil).
       rewrite Hu, take_nil, drop_nil. exists (- EWOULDBLOCK), s. split_and!; try done.
       erewrite M_bind_run; [|simpl; unfold mbind at 1, M_bind at 1, gets at 1; rewrite Hn;
         replace (rx_rptr s <=? rx_wptr s) with true by (symmetry; by apply Z.leb_le); reflexivity].
       done. }
  erewrite M_bind_run by (apply wait_while_false; rewrite Hn; by apply Z.leb_gt). cbv iota.
  erewrite M_bind_run by done. unfold present_card. rewrite Hc.
  change (negb (SCI_CARD_PRESENT =? SCI_CARD_PRESENT)) with false. cbv iota.
  do 2 (erewrite M_bind_run by done). cbv zeta. unfold available, u32.
  rewrite (Z.mod_small (rx_rptr s - rx_wptr s)) by lia. simpl andb. cbv iota.
  replace (SCI_BUFFER_SIZE <? Z.of_nat l) with false
    by (symmetry; apply Z.ltb_ge; unfold SCI_BUFFER_SIZE; lia).
  set (n := if Z.of_nat l <? rx_rptr s - rx_wptr s then Z.of_nat l else rx_rptr s - rx_wptr s).
  assert (Hn' : n = Z.min (Z.of_nat l) (rx_rptr s - rx_wptr s)).
  { unfold n. destruct (Z.ltb_spec (Z.of_nat l) (rx_rptr s - rx_wptr s)); lia. }
  do 2 (erewrite M_bind_run by done).
  assert (Hout : aslice (read_buf s) (rx_wptr s) n = Ok (take l (unread s))).
  { apply aslice_Ok. split_and!; [lia|lia|lia|]. unfold unread, seg. rewrite take_take. f_equal. lia. }
  erewrite M_bind_run by (by apply lift_run).
  do 3 (erewrite M_bind_run by done). simpl (rx_wptr _). simpl (rx_rptr _).
  assert (Hlen : length (take l (unread s)) = Z.to_nat n).
  { rewrite length_take. unfold unread. rewrite seg_length by lia. lia. }
  unfold u16. rewrite Z.mod_small by lia.
  assert (Hu : drop l (unread s) = seg (read_buf s) (rx_wptr s + n) (rx_rptr s)).
  { destruct (Z.le_gt_cases (rx_rptr s - rx_wptr s) (Z.of_nat l)).
    - replace n with (rx_rptr s - rx_wptr s) by lia.
      replace (rx_wptr s + (rx_rptr s - rx_wptr s)) with (rx_rptr s) by lia. rewrite seg_nil.
      apply drop_ge. unfold unread. rewrite seg_length by lia. lia.
    - unfold unread. rewrite <- (seg_app _ (rx_wptr s) (rx_wptr s + n)) by lia.
      rewrite drop_app_ge; rewrite seg_length by lia; [|lia].
      replace (l - _)%nat with 0%nat by lia. done. }
  destruct (Z.eqb_spec (rx_wptr s + n) (rx_rptr s)) as [He|Hne]; unfold when.
  - exists n, (s <| rx_wptr := 0 |> <| rx_rptr := 0 |>).
    rewrite Hu, He, seg_nil, Hlen, Z2Nat.id by lia.
    split_and!; [by destruct s|unfold readable_state; simpl; lia|done|done].
  - exists n, (s <| rx_wptr := rx_wptr s + n |>).
    rewrite Hu, Hlen, Z2Nat.id by lia.
    split_and!; [by destruct s|unfold readable_state; simpl; lia|done|done].
Qed.

Lemma reads_line ls : forall s,
  readable_state s -> Forall (fun l => (0 < l <= 1024)%nat) ls ->
  exists s', reads ls s = Ok (take (sum_list ls) (unread s), s').
Proof.
  induction ls as [|l ls IH]; intros s Hs Hls; simpl; [by rewrite take_0; eexists|].
  apply Forall_cons_1 in Hls as [Hl Hls].
  destruct (sci_read_line l s Hs Hl) as (n & s1 & E1 & R1 & U1 & _).
  destruct (IH s1 R1 Hls) as (s2 & E2).
  exists s2. rewrite (M_bind_run _ _ _ _ _ E1), (M_bind_run _ _ _ _ _ E2).
  unfold mret, M_ret. simpl. by rewrite U1, take_take_drop.
Qed.
End caller.

Section overrun.
Implicit Types s : sci line.

Lemma rx_loop_full f bs : flags_ok f -> forall s b fuel,
  at_asc0 s -> tx_flags (io s) = f -> rx_fifo (io s) = b :: bs -> Forall is_u8 (b :: bs) ->
  length (read_buf s) = 1024%nat -> 0 <= rx_rptr s <= 1024 ->
  1024 < rx_rptr s + Z.of_nat (length (b :: bs)) -> 1024 - rx_rptr s < Z.of_nat fuel ->
  rx_loop fuel BASE_ADDRESS_ASC0 (f .| 1) s = Fault OutOfBounds.
Proof.
  intros Hf. destruct (status_bits f Hf) as (B1 & B2 & B3 & B4 & B5).
  induction bs as [|b' bs IH]; intros s b fuel Ha Hfl Hb [Hu Hus]%Forall_cons_1 Hl Hp Hn Hfu;
    (destruct fuel as [|fuel]; [lia|]); cbn [rx_loop]; rewrite B1, B2.
  - apply M_bind_fault. erewrite M_bind_run by (by eapply get_rx_line).
    apply M_bind_fault, rx_store_full; [done|done|]. simpl in *. lia.
  - destruct (Z.le_gt_cases 1024 (rx_rptr s)) as [Hge|Hlt].
    { apply M_bind_fault. erewrite M_bind_run by (by eapply get_rx_line).
      apply M_bind_fault. by apply rx_store_full. }
    erewrite M_bind_run by
      (erewrite M_bind_run by (by eapply get_rx_line);
       erewrite M_bind_run by (apply rx_store_ok; [done|split_and!; simpl; [done|lia|lia]]);
       reflexivity). cbv iota.
    erewrite M_bind_run by (by apply get_sta_line).
    unfold status. simpl (tx_flags _). simpl (rx_fifo _). rewrite Hfl, B4, B1.
    apply (IH _ b'); try done; simpl in *; [by rewrite length_insert|lia|lia|lia].
Qed.

Lemma irq_handler_full s :
  linked s -> 1024 < rx_rptr s + Z.of_nat (length (rx_fifo (io s))) ->
  sci_irq_rx_tx_handler BASE_ADDRESS_ASC0 s = Fault OutOfBounds.
Proof.
  intros L Hn. unfold sci_irq_rx_tx_handler.
  erewrite M_bind_run by (apply set_reg_line; [apply L|done]).
  set (s1 := put_reg s _ _).
  erewrite M_bind_run by (apply get_sta_line; apply L).
  erewrite M_bind_run by done. change (irq_mode s1) with (irq_mode s). rewrite (l_mode s L), andb_true_r.
  destruct (status_bits _ (l_flags s L)) as (B1 & B2 & B3 & B4 & B5).
  apply M_bind_fault. unfold status, RX_FULL_IRQ. change (rx_fifo (io s1)) with (rx_fifo (io s)).
  change (tx_flags (io s1)) with (tx_flags (io s)).
  pose proof (l_fifo s L) as Hu. pose proof (l_rx s L) as Hrx.
  destruct (rx_fifo (io s)) as [|b bs] eqn:Eb; [simpl in Hn; lia|].
  rewrite B4, B1. apply (rx_loop_full _ bs (l_flags s L) s1 b); try done; try apply L.
  unfold rx_fuel. simpl (rx_rptr _). lia.
Qed.

(** C27. The receive buffer holds 1024 bytes and nothing stops the handler
    there: an interrupt is served, and leaves exactly the bytes heard so far in
    the buffer, if and only if no more than 1024 bytes have arrived since the
    caller last emptied it; with one more the handler writes past the buffer. *)
Theorem sci_rx_bound e s :
  linked s -> settled s -> event_ok e ->
  let heard := w_heard (wire_hear (byte_invert s) (arrives e) (wire_of s)) in
  if (length heard <=? 1024)%nat then
    (exists s', line_interrupt e s = Ok (tt, s') /\
      take (Z.to_nat (rx_rptr s')) (read_buf s') = heard)
  else line_interrupt e s = Fault OutOfBounds.
Proof.
  intros L Hs He heard.
  assert (Hl : length heard = (length (w_heard (wire_of s)) + length (arrives e))%nat).
  { unfold heard, wire_hear. cbn [w_heard]. by rewrite length_app, length_map. }
  destruct (Nat.leb_spec (length heard) 1024).
  - destruct (line_interrupt_refines e s L Hs He) as (s' & E & _ & _ & _ & T & _); [lia|].
    by exists s'.
  - unfold line_interrupt. erewrite M_bind_run by done. apply irq_handler_full.
    + destruct L, He. constructor; simpl; try done. by apply Forall_app.
    + pose proof (l_rx s L). pose proof (l_rbuf s L).
      unfold wire_of in Hl. cbn [w_heard] in Hl. rewrite length_app, length_take, length_map in Hl.
      simpl. rewrite length_app. lia.
Qed.
End overrun.

Section exchange.
Implicit Types s : sci line.

Lemma line_interrupts_rx es : forall s,
  linked s -> settled s -> irq_mode s = RX_FULL_IRQ -> Forall event_ok es -> es <> [] ->
  (length (w_heard (wire_of s)) + length (concat (map arrives es)) <= 1024)%nat ->
  exists s', line_interrupts es s = Ok (tt, s') /\ linked s' /\ same_card s s' /\
    irq_mode s' = RX_FULL_IRQ /\ rx_wptr s' = rx_wptr s /\
    take (Z.to_nat (rx_rptr s')) (read_buf s') =
      w_heard (wire_of s) ++ map (decode (byte_invert s)) (concat (map arrives es)).
Proof.
  induction es as [|e es IH]; intros s L Hs Hm He Hne Hl; [done|]. clear Hne.
  apply Forall_cons_1 in He as [He Hes]. cbn [map concat] in Hl. rewrite length_app in Hl.
  destruct (line_interrupt_refines e s L Hs He) as (s1 & E1 & L1 & C1 & W1 & T1 & _); [lia|].
  rewrite (wire_steps_hear _ [e] (wire_of s) Hm : wire_step _ _ _ = _) in W1.
  simpl concat in W1. rewrite app_nil_r in W1.
  assert (Hm1 : irq_mode s1 = RX_FULL_IRQ) by (change (w_mode (wire_of s1) = RX_FULL_IRQ); by rewrite W1).
  assert (Hw1 : rx_wptr s1 = rx_wptr s) by (change (w_skip (wire_of s1) = rx_wptr s); by rewrite W1).
  destruct es as [|e' es].
  - exists s1. split_and!; [simpl; by erewrite M_bind_run by done|done|done|done|done|].
    rewrite T1. simpl. by rewrite app_nil_r.
  - destruct (IH s1 L1 (settled_same _ _ C1 Hs) Hm1 Hes) as (s2 & E2 & L2 & C2 & M2 & R2 & T2); [done| |].
    { rewrite W1. unfold wire_hear. cbn [w_heard]. rewrite length_app, length_map. lia. }
    exists s2. split_and!; [|done|by eapply same_card_trans|done|congruence|].
    + cbn [line_interrupts]. erewrite M_bind_run by exact E1. exact E2.
    + rewrite T2, W1, (proj1 C1). unfold wire_hear. cbn [w_heard map concat].
      by rewrite !map_app, <- !app_assoc.
Qed.

(** Writing a message and the transmit interrupts that follow. *)
Lemma write_and_send delay m es s :
  linked s -> settled s -> idle s -> Forall is_u8 m -> (0 < length m <= 1024)%nat ->
  Forall (tx_event (write_mode (length m))) es -> (length m <= 8 * length es)%nat ->
  exists s1 s2, sci_write delay 0 true 0 m (Z.of_nat (length m)) s = Ok (Z.of_nat (length m), s1) /\
    line_interrupts es s1 = Ok (tt, s2) /\ linked s2 /\ settled s2 /\
    byte_invert s2 = byte_invert s /\ card_detect s2 = SCI_CARD_PRESENT /\
    wire_of s2 = Wire m [] (sent (io s) ++ map (decode (byte_invert s)) m)
                   (Z.of_nat (length m)) RX_FULL_IRQ.
Proof.
  intros L Hs Hi Hu Hm He Hl.
  destruct (sci_write_line delay 0 true m s L Hi Hu Hm) as (s1 & E1 & L1 & B1 & A1 & D1 & W1).
  assert (S1 : settled s1) by (unfold settled; by rewrite A1, B1).
  assert (Hq : concat (map arrives es) = []).
  { clear -He. induction He as [|e es [Ha _] _ IH]; [done|]. simpl. by rewrite Ha. }
  destruct (line_interrupts_refine es s1 L1 S1) as (s2 & E2 & L2 & C2 & W2).
  { eapply Forall_impl; [|exact He]. intros e (Ha & Hf & _). split; [done|]. rewrite Ha. constructor. }
  { unfold traffic. rewrite W1, Hq. simpl. lia. }
  assert (Hmode : write_mode (length m) = RX_FULL_TX_EMPTY_IRQ \/ write_mode (length m) = ALL_IRQS).
  { unfold write_mode. destruct (_ <=? _); auto. }
  rewrite (wire_drain _ (write_mode (length m))) in W2; [|done|by rewrite W1|done|lia|by rewrite W1].
  exists s1, s2. split_and!; [done|done|done|by eapply settled_same| | |].
  - by rewrite (proj1 C2).
  - rewrite (proj1 (proj2 (proj2 C2))), D1. apply Hi.
  - rewrite W2, W1. unfold wire_send. simpl. by rewrite take_ge, drop_ge, B1 by done.
Qed.

(** C16. A message is always sent: after sci_write of up to 1024 bytes to an
    idle reader, any interrupts that find the transmitter ready, at least one per
    eight bytes, put exactly these bytes on the line, in order and in the
    convention of the card, after which nothing is pending and only reception
    is enabled. *)
Theorem sci_transmits delay m es s :
  linked s -> settled s -> idle s -> Forall is_u8 m -> (0 < length m <= 1024)%nat ->
  Forall (tx_event (write_mode (length m))) es -> (length m <= 8 * length es)%nat ->
  exists s1 s2, sci_write delay 0 true 0 m (Z.of_nat (length m)) s = Ok (Z.of_nat (length m), s1) /\
    line_interrupts es s1 = Ok (tt, s2) /\
    sent (io s2) = sent (io s) ++ map (decode (byte_invert s)) m /\
    tx_wptr s2 = tx_rptr s2 /\ irq_mode s2 = RX_FULL_IRQ.
Proof.
  intros L Hs Hi Hu Hm He Hl.
  destruct (write_and_send delay m es s L Hs Hi Hu Hm He Hl) as (s1 & s2 & E1 & E2 & L2 & _ & _ & _ & W2).
  exists s1, s2. split_and!; [done|done|by apply (f_equal w_sent) in W2| |by apply (f_equal w_mode) in W2].
  apply (f_equal w_pending) in W2. apply (f_equal length) in W2. simpl in W2.
  pose proof (l_tx s2 L2). pose proof (l_wbuf s2 L2). rewrite seg_length in W2 by lia. lia.
Qed.

End exchange.

(** ** Examples *)

(** A reader with an inverse convention card that has answered. *)
Definition inverse_reader : sci line :=
  (sci_boot (Line [] 6 [] ∅ ∅)) <| base_address_asc := ASC0_BASE_ADDRESS |>
    <| card_detect := SCI_CARD_PRESENT |> <| byte_invert := INVERT |> <| irq_mode := RX_FULL_IRQ |>.

Lemma inverse_reader_ok : linked inverse_reader /\ settled inverse_reader /\ idle inverse_reader.
Proof.
  split; [|split; [by right|done]].
  constructor; try done; [right; right; right; by left|by apply Forall_replicate].
Qed.

Definition example_message : list Z := [0xA0; 0xA4; 0x00].
Definition example_sends : list line_event := [Event [] 2].
(** The reply 0x90 0x00 in two interrupts, as it appears on the wire. *)
Definition example_reply : list line_event := [Event [0xF6] 6; Event [0xFF] 6].


Lemma example_sends_ok : Forall (tx_event (write_mode 3)) example_sends.
Proof. repeat constructor. Qed.
Lemma example_reply_ok : Forall event_ok example_reply.
Proof.
  repeat apply Forall_cons_2; [..|constructor];
    (split; [right; right; right; by left|by repeat apply Forall_cons_2; [..|constructor]]).
Qed.
Lemma example_message_ok : Forall is_u8 example_message.
Proof. repeat apply Forall_cons_2; [..|constructor]; done. Qed.

Lemma sci_transmits_witness :
  exists s1 s2,
    sci_write (fun _ => skip) 0 true 0 example_message 3 inverse_reader = Ok (3, s1) /\
    line_interrupts example_sends s1 = Ok (tt, s2) /\
    sent (io s2) = [0xFA; 0xDA; 0xFF] /\ tx_wptr s2 = tx_rptr s2 /\ irq_mode s2 = RX_FULL_IRQ.
Proof.
  destruct inverse_reader_ok as (L & S & I).
  apply (sci_transmits (fun _ => skip) example_message example_sends inverse_reader L S I
           example_message_ok).
  - simpl. lia.
  - apply example_sends_ok.
  - simpl. lia.
Defined.


(** The 1025th byte. *)
Definition full_reader : sci line := inverse_reader <| rx_rptr := 1024 |>.

Lemma linked_rx_rptr s n : linked s -> 0 <= n <= 1024 -> linked (s <| rx_rptr := n |>).
Proof. intros [] Hn. by constructor. Qed.
Lemma full_reader_ok : linked full_reader /\ settled full_reader.
Proof.
  destruct inverse_reader_ok as (L & S & _). unfold full_reader. revert L S.
  generalize inverse_reader. intros s L S. split; [|done]. by apply linked_rx_rptr.
Qed.
Lemma last_event_ok : event_ok (Event [0xFF] 6).
Proof. split; [right; right; right; by left|by repeat apply Forall_cons_2; [..|constructor]]. Qed.
Lemma full_reader_heard :
  Nat.leb (length (w_heard (wire_hear (byte_invert full_reader) [0xFF] (wire_of full_reader)))) 1024 = false.
Proof. vm_compute. reflexivity. Qed.

Lemma sci_rx_bound_witness :
  line_interrupt (Event [0xFF] 6) full_reader = Fault OutOfBounds.
Proof.
  destruct full_reader_ok as [L S].
  pose proof (sci_rx_bound (Event [0xFF] 6) full_reader L S last_event_ok) as H.
  cbv zeta in H. cbn [arrives] in H. rewrite full_reader_heard in H. exact H.
Defined.
