(* ===== verification/SciInit.v ===== *)
(** * Smart card reader: initialisation, power and reset

    What sci_hw_init, sci_reset and the bring-up of the driver do to the reader
    on the line of [SciLine]. *)
From S2P Require Import Prelude Atr SciState SciCtrl SciIrq SciParams SciCard SciFrame SciLine SciExchange.

Section power.
Implicit Types s : sci line.

(** Only registers without side effects and pins differ. *)
Definition hw_only s s' : Prop :=
  exists f p, s' = s <| io := (io s) <| line_regs := f |> <| line_pins := p |> |>.

Lemma hw_only_refl s : hw_only s s.
Proof. exists (line_regs (io s)), (line_pins (io s)). by destruct s as [[] ?]. Qed.
Lemma hw_only_trans s1 s2 s3 : hw_only s1 s2 -> hw_only s2 s3 -> hw_only s1 s3.
Proof. intros (f & p & ->) (g & q & ->). by exists g, q. Qed.
Lemma regs_only_hw s s' : regs_only s s' -> hw_only s s'.
Proof. intros [f ->]. by exists f, (line_pins (io s)). Qed.
Lemma hw_only_fun (g : sci line -> sci line) s s' :
  (forall f p, g (s <| io := (io s) <| line_regs := f |> <| line_pins := p |> |>) =
     (g s) <| io := (io (g s)) <| line_regs := f |> <| line_pins := p |> |>) ->
  hw_only s s' -> hw_only (g s) (g s').
Proof. intros Hg (f & p & ->). rewrite Hg. by exists f, p. Qed.

(** The reader of an initialised driver with a card in it. *)
Record installed s : Prop := {
  i_linked : linked s;
  i_sci : base_address_sci s = SCI0_BASE_ADDRESS;
  i_init : sci_driver_init s = 1;
  i_card : card_detect s = SCI_CARD_PRESENT;
  i_abuf : length (atr_buf s) = 33%nat;
  i_atr : atr_shape (atr s)
}.

(** The facts about a state that register and pin accesses need and keep. *)
Definition wired s : Prop :=
  at_asc0 s /\ id_ s = 0 /\ base_address_sci s = SCI0_BASE_ADDRESS.
Definition ready s : Prop := sci_driver_init s = 1 /\ card_detect s = SCI_CARD_PRESENT.

Lemma wired_hw s s' : hw_only s s' -> wired s -> wired s'.
Proof. by intros (f & p & ->). Qed.

Lemma runs_set_pin p v s (Q : unit -> sci line -> Prop) :
  (forall s', hw_only s s' -> line_pins (io s') = <[p s := v]> (line_pins (io s)) -> Q tt s') ->
  runs (set_pin p v) s Q.
Proof.
  intros HQ. eapply runs_eq; [reflexivity|]. apply HQ; [|done].
  by exists (line_regs (io s)), (<[p s := v]> (line_pins (io s))).
Qed.

Lemma runs_set_reg r bits mask s (Q : unit -> sci line -> Prop) :
  wired s -> plain_reg r = true ->
  (forall s', hw_only s s' -> line_pins (io s') = line_pins (io s) -> Q tt s') ->
  runs (set_reg BASE_ADDRESS_ASC0 r bits mask) s Q.
Proof.
  intros Hs Hr HQ. eapply runs_eq; [apply set_reg_line; [apply Hs|done]|].
  apply HQ; [|done]. apply regs_only_hw, regs_only_put.
Qed.

Lemma runs_asc_defaults bits mask s (Q : unit -> sci line -> Prop) :
  wired s -> (forall s', hw_only s s' -> line_pins (io s') = line_pins (io s) -> Q tt s') ->
  runs (asc_defaults BASE_ADDRESS_ASC0 bits mask) s Q.
Proof.
  intros Hs HQ. unfold asc_defaults.
  runs_step. apply runs_set_reg; [done|done|]. intros s1 H1 P1.
  runs_step. apply runs_set_reg; [by eapply wired_hw|done|]. intros s2 H2 P2.
  apply runs_set_reg; [do 2 (eapply wired_hw; [eassumption|]); done|done|]. intros s3 H3 P3.
  apply HQ; [|congruence]. eapply hw_only_trans; [|exact H3]. by eapply hw_only_trans.
Qed.

Lemma runs_set_clock c s (Q : Z -> sci line -> Prop) :
  wired s -> clk s = c -> u32 (20000 * u32 (c - 1)) <> 0 ->
  (forall s', hw_only s s' -> line_pins (io s') = line_pins (io s) -> Q 1 s') ->
  runs SCI_Set_Clock s Q.
Proof.
  intros (Ha & _ & Hs) Hc Hne HQ. unfold SCI_Set_Clock, mapped.
  runs_step. apply runs_gets. rewrite Hc. runs_step. eapply runs_lift.
  { unfold clock_divider, udiv. apply Z.eqb_neq in Hne. by rewrite Hne. }
  runs_step. apply runs_gets. runs_step. unfold checked_ioremap. apply runs_gets.
  cbn [ioremap line_hw]. runs_step. unfold ctrl_outl, hw_do. apply runs_modify. runs_step.
  rewrite Hs. cbn [mmio_wr sci_mmio line_hw line_mmio]. unfold line_wr.
  change (SCI0_BASE_ADDRESS =? TX_BUF) with false. change (SCI0_BASE_ADDRESS =? RX_RST) with false.
  apply HQ; [|done]. apply regs_only_hw. by eexists.
Qed.

Lemma runs_fifo_reset s (Q : unit -> sci line -> Prop) :
  wired s -> (forall s', hw_only (drop_fifo s) s' -> line_pins (io s') = line_pins (io s) -> Q tt s') ->
  runs (fifo_reset BASE_ADDRESS_ASC0) s Q.
Proof.
  intros Hs HQ. eapply runs_eq; [apply fifo_reset_line, Hs|]. cbv zeta. apply HQ; [|done].
  apply regs_only_hw. by eexists.
Qed.
(** ** Power up and reset *)

Definition cb_of s : sci line := match sci_cb_init s with Ok (_, s') => s' | Fault _ => s end.
Definition init_of (c : Z) s : sci line :=
  drop_fifo (cb_of (s <| sci_atr_class := SCI_CLASS_A |> <| clk := c |>)).
Definition ptrs0 s : sci line :=
  s <| rx_rptr := 0 |> <| rx_wptr := 0 |> <| tx_rptr := 0 |> <| tx_wptr := 0 |>.
Definition reset_of s : sci line := (drop_fifo (ptrs0 s)) <| irq_mode := RX_FULL_IRQ |>.

Lemma hw_only_ptrs0 s s' : hw_only s s' -> hw_only (drop_fifo (ptrs0 s)) (drop_fifo (ptrs0 s')).
Proof.
  apply (hw_only_fun (fun s => drop_fifo (ptrs0 s))). intros f p. vm_compute. reflexivity.
Qed.
Lemma hw_only_rx s s' :
  hw_only s s' -> hw_only (s <| irq_mode := RX_FULL_IRQ |>) (s' <| irq_mode := RX_FULL_IRQ |>).
Proof.
  apply (hw_only_fun (fun s => s <| irq_mode := RX_FULL_IRQ |>)). intros f p. vm_compute. reflexivity.
Qed.
Lemma hw_only_reset_of s s' : hw_only s s' -> hw_only (reset_of s) (reset_of s').
Proof. intros H. by apply hw_only_rx, hw_only_ptrs0. Qed.

(** Nothing happens to the driver during the short sleeps. *)
Variable delay : Z -> M (sci line) unit.
Hypothesis quiet : forall ms, ms <> 1100 -> delay ms = skip.

Lemma runs_clock_config c s (Q : Z -> sci line -> Prop) :
  wired s -> u32 c = c -> u32 (20000 * u32 (c - 1)) <> 0 ->
  (forall s', hw_only (s <| clk := c |>) s' -> line_pins (io s') = line_pins (io s) -> Q SCI_ERROR_OK s') ->
  runs (smartcard_clock_config delay c) s Q.
Proof.
  intros Hs Hc Hne HQ. unfold smartcard_clock_config. rewrite Hc.
  runs_step. apply runs_modify. runs_step.
  apply (runs_set_clock c); [done|done|done|]. intros s' H P.
  cbn [Z.eqb]. runs_step. rewrite quiet by done. apply runs_skip, runs_ret. by apply HQ.
Qed.

Lemma runs_hw_init s (Q : Z -> sci line -> Prop) :
  wired s ->
  (forall s', hw_only (init_of 357 s) s' ->
    line_pins (io s') = <[reset s := 0]> (line_pins (io s)) -> Q 0 s') ->
  runs (sci_hw_init delay) s Q.
Proof.
  intros Hs HQ. unfold sci_hw_init.
  runs_step. apply runs_set_pin. intros s1 H1 P1.
  runs_step. apply runs_gets. assert (W1 : wired s1) by by eapply wired_hw.
  rewrite (proj1 (proj2 W1)). cbn [on_controller Z.eqb].
  runs_step. runs_step. apply runs_asc_defaults; [done|]. intros s2 H2 P2.
  assert (W2 : wired s2) by by eapply wired_hw.
  runs_step. unfold smartcard_voltage_config. runs_step. apply runs_gets.
  rewrite (proj1 (proj2 W2)). change (SCI_VCC_5 =? SCI_VCC_3) with false.
  change (SCI_VCC_5 =? SCI_VCC_5) with true. cbn [on_controller Z.eqb].
  runs_step. apply runs_modify. do 2 apply runs_ret.
  runs_step. apply runs_clock_config; [done|done|done|]. intros s3 H3 P3.
  runs_step. eapply runs_eq; [reflexivity|]. cbv beta.
  runs_step. apply runs_fifo_reset.
  { eapply (wired_hw _ _ H3). exact W2. }
  intros s4 H4 P4. apply runs_ret. apply HQ.
  2: { rewrite <- P1, <- P2. transitivity (line_pins (io s3)); [exact P4|exact P3]. }
  eapply hw_only_trans; [|exact H4]. unfold init_of.
  apply (hw_only_fun (fun s => drop_fifo (cb_of s))); [done|].
  eapply hw_only_trans; [|exact H3].
  apply (hw_only_fun (fun s => s <| sci_atr_class := SCI_CLASS_A |> <| clk := 357 |>)); [done|].
  by eapply hw_only_trans.
Qed.

Lemma runs_smartcard_reset s (Q : unit -> sci line -> Prop) :
  wired s -> cmdvcc s <> reset s ->
  (forall s', hw_only (reset_of s) s' -> line_pins (io s') !! cmdvcc s = Some 0 -> Q tt s') ->
  runs (smartcard_reset delay) s Q.
Proof.
  intros Hs Hne HQ. unfold smartcard_reset. runs_step. apply runs_gets.
  rewrite (proj1 (proj2 Hs)). cbn [on_controller Z.eqb].
  runs_step. eapply runs_eq; [reflexivity|]. cbv beta.
  replace (s <| io := disable_irq SCI0_INT_RX_TX (io s) |>) with s by by destruct s.
  runs_step. apply runs_set_pin. intros s1 H1 _.
  runs_step. apply runs_set_pin. intros s2 H2 _.
  runs_step. rewrite quiet by done. apply runs_skip.
  runs_step. apply runs_set_pin. intros s3 H3 P3.
  runs_step. rewrite quiet by done. apply runs_skip.
  runs_step. apply runs_modify. fold (ptrs0 s3). runs_step. rewrite quiet by done. apply runs_skip.
  assert (H03 : hw_only s s3) by (eapply hw_only_trans; [exact H1|by eapply hw_only_trans]).
  runs_step. apply runs_fifo_reset; [by apply (wired_hw _ _ H03)|]. intros s4 H4 P4.
  assert (H04 : hw_only (drop_fifo (ptrs0 s)) s4).
  { eapply hw_only_trans; [|exact H4]. exact (hw_only_ptrs0 _ _ H03). }
  assert (W4 : wired s4) by by apply (wired_hw _ _ H04).
  destruct (set_serial_irq_line s4 RX_FULL_IRQ) as (s5 & E5 & R5); [apply W4|apply W4|by left|].
  runs_step. eapply runs_eq; [exact E5|]. cbv beta.
  runs_step. eapply runs_eq; [reflexivity|]. cbv beta.
  replace (s5 <| io := enable_irq SCI0_INT_RX_TX (io s5) |>) with s5 by by destruct s5.
  runs_step. unfold when. runs_step. rewrite quiet by done. apply runs_skip.
  apply runs_set_pin. intros s6 H6 P6.
  apply runs_set_pin. intros s7 H7 P7. apply HQ.
  - eapply hw_only_trans; [|exact H7]. eapply hw_only_trans; [|exact H6].
    eapply hw_only_trans; [|by apply regs_only_hw].
    exact (hw_only_rx _ _ H04).
  - assert (K : reset s5 = reset s /\ reset s6 = reset s /\ cmdvcc s2 = cmdvcc s).
    { destruct H6 as (?&?&->), R5 as [? ->], H04 as (?&?&->), H2 as (?&?&->), H1 as (?&?&->). done. }
    destruct K as (K5 & K6 & K2).
    rewrite P7, P6, K5, K6, !lookup_insert_ne by done.
    assert (P5 : line_pins (io s5) = line_pins (io s4)) by (by destruct R5 as [? ->]).
    rewrite P5, P4. change (line_pins (io s3) !! cmdvcc s = Some 0).
    by rewrite P3, K2, lookup_insert_eq.
Qed.

Lemma check_init_ok s : wired s -> ready s -> SCI_CHECK_INIT_COND s = Ok (SCI_ERROR_OK, s).
Proof.
  intros (_ & Hi & _) [Hd Hc]. unfold SCI_CHECK_INIT_COND.
  do 3 (erewrite M_bind_run by done). by rewrite Hi, Hd, Hc.
Qed.

(** A whole sci_reset of a card in the reader. *)
Lemma runs_reset_rc s (Q : Z -> sci line -> Prop) :
  wired s -> ready s -> cmdvcc s <> reset s ->
  (forall s', hw_only (reset_of s) s' -> line_pins (io s') !! cmdvcc s = Some 0 -> Q 0 s') ->
  runs (reset_rc delay) s Q.
Proof.
  intros Hs Hr Hne HQ. unfold reset_rc, sci_reset. do 2 runs_step.
  eapply runs_eq; [by apply check_init_ok|]. cbv beta.
  change (negb (SCI_ERROR_OK =? SCI_ERROR_OK)) with false. cbv iota.
  runs_step. apply runs_set_pin. intros s1 H1 P1.
  assert (K : cmdvcc s1 = cmdvcc s /\ reset s1 = reset s) by (by destruct H1 as (?&?&->)).
  runs_step. apply runs_smartcard_reset; [by eapply wired_hw|by destruct K as [-> ->]|].
  intros s2 H2 P2. do 2 apply runs_ret. apply HQ; [|by rewrite <- (proj1 K)].
  eapply hw_only_trans; [|exact H2]. by apply hw_only_reset_of.
Qed.
End power.

(** ** Bringing the driver up *)

Section bring_up.
Implicit Types s : sci line.

Definition bases s : sci line :=
  s <| base_address_pio0 := PIO0_BASE_ADDRESS |>
    <| base_address_asc := ASC0_BASE_ADDRESS |> <| base_address_sci := SCI0_BASE_ADDRESS |>
    <| base_address_pio4 := PIO4_BASE_ADDRESS |> <| pio_port := 0 |>.
Definition numbered s : sci line :=
  s <| base_address_syscfg := SYS_CFG_BASE_ADDRESS |> <| driver_inuse := 0 |> <| id_ := 0 |>.
Definition pinned s : sci line :=
  s <| txd := 1 |> <| rxd := 2 |> <| clock := 4 |> <| reset := 5 |> <| detect := 8 |> <| cmdvcc := 6 |>.
Definition receiving s : sci line := s <| irq_mode := RX_FULL_IRQ |>.

(** An address outside the serial controller's FIFOs and status. *)
Definition plain_address (a : Z) : bool :=
  negb (a =? STA) && negb (a =? RX_BUF) && negb (a =? TX_BUF) && negb (a =? RX_RST).

Lemma plain_address_cases a :
  plain_address a = true ->
  (a =? STA) = false /\ (a =? RX_BUF) = false /\ (a =? TX_BUF) = false /\ (a =? RX_RST) = false.
Proof. unfold plain_address. rewrite !andb_true_iff, !negb_true_iff. tauto. Qed.

Lemma runs_inl a s (Q : Z -> sci line -> Prop) :
  plain_address a = true -> (forall v, Q v s) -> runs (ctrl_inl a) s Q.
Proof.
  intros Ha HQ. apply plain_address_cases in Ha as (H1 & H2 & _).
  unfold ctrl_inl. runs_step. eapply runs_eq; [|apply runs_ret, HQ].
  unfold hw_call. cbn [mmio_rd sci_mmio line_hw line_mmio]. unfold line_rd.
  rewrite H1, H2. by destruct s.
Qed.

Lemma runs_outl v a s (Q : unit -> sci line -> Prop) :
  plain_address a = true ->
  (forall s', hw_only s s' -> line_pins (io s') = line_pins (io s) -> Q tt s') ->
  runs (ctrl_outl v a) s Q.
Proof.
  intros Ha HQ. apply plain_address_cases in Ha as (_ & _ & H3 & H4).
  unfold ctrl_outl, hw_do. apply runs_modify. cbn [mmio_wr sci_mmio line_hw line_mmio].
  unfold line_wr. rewrite H3, H4. apply HQ; [|done]. apply regs_only_hw. by eexists.
Qed.
Lemma runs_request n dir s (Q : Z -> sci line -> Prop) :
  pio_port s = 0 -> Q (n + 1) s -> runs (request_pin n dir) s Q.
Proof.
  intros Hp HQ. unfold request_pin. runs_step. apply runs_gets. rewrite Hp.
  eapply runs_eq; [|exact HQ]. unfold hw_call. cbn [stpio_request_pin line_hw].
  by destruct s.
Qed.

Lemma runs_mapped a m s (Q : Z -> sci line -> Prop) : runs m s Q -> runs (mapped a m) s Q.
Proof. intros Hm. unfold mapped. runs_step. unfold checked_ioremap. by apply runs_gets. Qed.

(** A register is read, changed and written back. *)
Lemma runs_update a (f : Z -> Z) k s (Q : Z -> sci line -> Prop) :
  plain_address a = true ->
  (forall s', hw_only s s' -> line_pins (io s') = line_pins (io s) -> runs k s' Q) ->
  runs (val ← ctrl_inl a; ctrl_outl (f val) a;; k) s Q.
Proof.
  intros Ha HQ. runs_step. apply runs_inl; [done|]. intros v.
  runs_step. by apply runs_outl.
Qed.

Lemma runs_clock_control s (Q : Z -> sci line -> Prop) :
  base_address_sci s = SCI0_BASE_ADDRESS -> Q (SCI0_BASE_ADDRESS + 4) s ->
  runs SCI_n_CLK_CTRL s Q.
Proof. intros Hs HQ. unfold SCI_n_CLK_CTRL. apply runs_gets. by rewrite Hs. Qed.

Lemma runs_io_init s (Q : Z -> sci line -> Prop) :
  base_address_sci s = SCI0_BASE_ADDRESS -> pio_port s = 0 ->
  (forall s', hw_only (pinned s) s' -> line_pins (io s') = line_pins (io s) -> Q 1 s') ->
  runs SCI_IO_init s Q.
Proof.
  intros Hb Hp HQ. unfold SCI_IO_init.
  do 6 (runs_step; apply runs_request; [exact Hp|]; runs_step; apply runs_modify).
  fold (pinned s). runs_step. unfold SCI_SetClockSource.
  apply runs_mapped. apply (runs_update _ (fun v => Z.ldiff (v .| 0x1B0) (1 ≪ 7) .| (1 ≪ 8))); [done|].
  intros s1 H1 P1. apply runs_mapped.
  apply (runs_update _ (fun v => Z.ldiff v (1 ≪ 23))); [done|]. intros s2 H2 P2.
  assert (H02 : hw_only (pinned s) s2) by by eapply hw_only_trans.
  runs_step. apply runs_clock_control; [by destruct H02 as (?&?&->)|].
  apply runs_mapped. apply (runs_update _ (fun v => Z.ldiff v CLOCK_SOURCE_MASK)); [done|].
  intros s3 H3 P3. apply (runs_update _ (fun v => v .| CLOCK_SOURCE_GLOBAL)); [done|].
  intros s4 H4 P4. apply runs_ret. cbn [Z.eqb]. runs_step. unfold SCI_ClockEnable.
  assert (H04 : hw_only (pinned s) s4).
  { eapply hw_only_trans; [exact H02|]. by eapply hw_only_trans. }
  runs_step. apply runs_clock_control; [by destruct H04 as (?&?&->)|].
  apply runs_mapped. apply (runs_update _ (fun v => v .| CLOCK_ENABLE_MASK)); [done|].
  intros s5 H5 P5. do 2 apply runs_ret. apply HQ; [by eapply hw_only_trans|].
  rewrite P5, P4, P3, P2. exact P1.
Qed.

Lemma wired_pinned s : wired s -> wired (pinned s).
Proof. by intros (?&?&?). Qed.
Lemma wired_receiving s : wired s -> wired (receiving s).
Proof. by intros (?&?&?). Qed.
Lemma wired_bases s : id_ s = 0 -> wired (bases s) /\ wired (numbered (bases s)).
Proof. done. Qed.

(** The driver's state after sci_init, up to registers and pins. *)
Definition initialised s : sci line :=
  (init_of 357 (pinned (receiving (numbered (bases s))))) <| sci_driver_init := 1 |>.

Lemma runs_init fuel s (Q : Z -> sci line -> Prop) :
  id_ s = 0 ->
  (forall s', hw_only (initialised s) s' -> line_pins (io s') = <[5 := 0]> (line_pins (io s)) ->
    Q SCI_ERROR_OK s') ->
  runs (sci_init (fun _ => skip) fuel) s Q.
Proof.
  intros Hi HQ. unfold sci_init. runs_step. apply runs_modify. fold (bases s).
  destruct (wired_bases s Hi) as [W Wn].
  runs_step. apply runs_asc_defaults; [done|]. intros s1 H1 P1.
  runs_step. apply runs_modify. fold (numbered s1).
  assert (H01 : hw_only (numbered (bases s)) (numbered s1)).
  { revert H1. apply hw_only_fun. intros f p. vm_compute. reflexivity. }
  assert (W1 : wired (numbered s1)) by (exact (wired_hw _ _ H01 Wn)).
  destruct (set_serial_irq_line (numbered s1) RX_FULL_IRQ) as (s2 & E2 & R2);
    [apply W1|apply W1|by left|].
  runs_step. eapply runs_eq; [exact E2|]. cbv beta.
  assert (H02 : hw_only (receiving (numbered (bases s))) s2).
  { eapply hw_only_trans; [|by apply regs_only_hw]. by apply hw_only_rx. }
  assert (W2 : wired s2) by (eapply (wired_hw _ _ H02), wired_receiving, Wn).
  assert (P2 : line_pins (io s2) = line_pins (io s)) by (by destruct R2 as [? ->]).
  runs_step. apply runs_io_init; [apply W2|by destruct H02 as (?&?&->)|].
  intros s3 H3 P3. cbn [Z.eqb].
  assert (H03 : hw_only (pinned (receiving (numbered (bases s)))) s3).
  { eapply hw_only_trans; [|exact H3]. revert H02. apply hw_only_fun. intros f p. vm_compute. reflexivity. }
  assert (W3 : wired s3) by (eapply (wired_hw _ _ H03), wired_pinned, wired_receiving, Wn).
  runs_step. runs_step. unfold sci_irq_install. runs_step. apply runs_gets.
  rewrite (proj1 (proj2 W3)). cbn [on_controller Z.eqb]. runs_step.
  apply (runs_eq _ _ 0 s3); [by destruct s3|]. do 2 apply runs_ret. cbn [Z.ltb Z.compare].
  runs_step. apply runs_hw_init; [done|done|]. intros s4 H4 P4.
  change (negb (0 =? SCI_ERROR_OK)) with false. cbv iota.
  runs_step. apply (runs_eq _ _ true s4); [by destruct s4|]. cbn [negb].
  runs_step. apply runs_modify. apply runs_ret. apply HQ.
  - unfold initialised. apply (hw_only_fun (fun s => s <| sci_driver_init := 1 |>)).
    { intros f p. vm_compute. reflexivity. }
    eapply hw_only_trans; [|exact H4]. revert H03.
    apply (hw_only_fun (init_of 357)). intros f p. vm_compute. reflexivity.
  - assert (K : reset s3 = 5) by (by destruct H3 as (?&?&->)).
    change (line_pins (io s4) = <[5 := 0]> (line_pins (io s))). by rewrite P4, P3, P2, K.
Qed.
(** What initialisation relies on in the control block, and what it sets up. *)
Definition blank s : Prop :=
  flags_ok (tx_flags (io s)) /\ length (read_buf s) = 1024%nat /\ length (write_buf s) = 1024%nat /\
  Forall is_u8 (write_buf s) /\ length (atr_buf s) = 33%nat /\ atr_shape (atr s).
Definition set_up s : Prop :=
  wired s /\ blank s /\ irq_mode s = RX_FULL_IRQ /\ sci_driver_init s = 1 /\
  reset s = 5 /\ cmdvcc s = 6 /\ detect s = 8.

Lemma blank_boot d : flags_ok (tx_flags d) -> blank (sci_boot d).
Proof.
  intros Hf. split_and!; [done|apply length_replicate|apply length_replicate| |apply length_replicate|].
  - apply Forall_replicate. unfold is_u8. lia.
  - split_and!; [done| |done]. by apply Forall_replicate.
Qed.

Lemma set_up_hw s s' : hw_only s s' -> set_up s -> set_up s'.
Proof. by intros (f & p & ->). Qed.
Lemma set_up_init s : set_up s -> set_up (init_of 357 s).
Proof. by intros ((?&?&?)&(?&?&?&?&?&?)&?&?&?&?&?). Qed.
Lemma set_up_initialised s : id_ s = 0 -> blank s -> set_up (initialised s).
Proof.
  intros Hi Hb. unfold initialised.
  assert (H : forall x, wired x -> blank x ->
    set_up ((init_of 357 (pinned (receiving x))) <| sci_driver_init := 1 |>)).
  { by intros x (?&?&?) (?&?&?&?&?&?). }
  apply H; [by apply wired_bases|done].
Qed.

(** A reader with a card, after sci_hw_init. *)
Lemma set_up_installed s s' :
  set_up s -> card_detect s = SCI_CARD_PRESENT -> hw_only (init_of 357 s) s' ->
  installed s' /\ cmdvcc s' <> reset s' /\ unread s' = [] /\ cmdvcc s' = 6.
Proof.
  intros ((?&?&?)&(?&?&?&?&?&?)&Hm&?&Hr&Hv&?) Hc (f & p & ->).
  assert (Hrv : cmdvcc s <> reset s) by (rewrite Hr, Hv; done).
  split_and!; [|exact Hrv|by vm_compute|exact Hv].
  constructor; try done. constructor; try done; simpl; try lia.
  change (rx_active (irq_mode s) = true). by rewrite Hm.
Qed.

(** A pass of the detection thread that finds a card. *)
Lemma runs_detect_pass v s (Q : Z -> sci line -> Prop) :
  set_up s -> line_pins (io s) !! 8 = Some v -> v <> 0 ->
  (forall s', hw_only (init_of 357 (s <| card_detect := SCI_CARD_PRESENT |>)) s' ->
    line_pins (io s') !! 6 = Some 0 -> Q v s') ->
  runs (sci_detect_pass (fun _ => skip) 0) s Q.
Proof.
  intros Hs Hp Hv HQ. unfold sci_detect_pass. do 2 (runs_step; apply runs_gets).
  assert (Hd : detect s = 8) by apply Hs.
  assert (E : stpio_get_pin (detect s) (io s) = v).
  { cbn [stpio_get_pin line_hw]. by rewrite Hd, Hp. }
  rewrite E. destruct (Z.eqb_spec v 0); [done|]. cbn [negb]. unfold truthy.
  destruct (Z.eqb_spec v 0); [done|]. cbn [negb].
  runs_step. runs_step. apply runs_modify.
  set (s1 := s <| card_detect := SCI_CARD_PRESENT |>) in *.
  runs_step. unfold sci_detect_change. runs_step. apply runs_skip. runs_step. apply runs_gets.
  change (card_detect s1 =? SCI_CARD_NOT_PRESENT) with false. cbv iota.
  runs_step. apply runs_hw_init; [done|apply Hs|]. intros s2 H2 _.
  apply runs_set_pin. intros s3 H3 P3.
  assert (K : cmdvcc s2 = 6) by (destruct H2 as (?&?&->); apply Hs).
  apply runs_ret. runs_step. apply runs_skip. apply runs_ret.
  apply HQ; [by eapply hw_only_trans|]. by rewrite P3, K, lookup_insert_eq.
Qed.
End bring_up.

(** C26. Bringing the driver up: loading the module on a box whose serial
    controller is in any state, and one pass of the detection thread with a card
    in the slot, succeed and leave the reader installed: initialised, with
    pointers and buffers in bounds, listening for the card, which is powered. *)
Theorem sci_bring_up (d : line) fuel v :
  flags_ok (tx_flags d) -> line_pins d !! 8 = Some v -> v <> 0 ->
  exists s, (rc ← sci_init (fun _ => skip) fuel; sci_detect_start;;
      last ← sci_detect_pass (fun _ => skip) 0; mret (rc, last)) (sci_boot d) =
    Ok ((SCI_ERROR_OK, v), s) /\
  installed s /\ cmdvcc s <> reset s /\ unread s = [] /\
  line_pins (io s) !! cmdvcc s = Some 0.
Proof.
  intros Hf Hp Hv.
  apply (runs_value (fun s => installed s /\ cmdvcc s <> reset s /\ unread s = [] /\
    line_pins (io s) !! cmdvcc s = Some 0)).
  runs_step. apply runs_init; [done|]. intros s1 H1 P1.
  assert (S1 : set_up s1).
  { apply (set_up_hw _ _ H1). apply set_up_initialised; [done|by apply blank_boot]. }
  runs_step. unfold sci_detect_start. runs_step. apply runs_modify.
  apply runs_set_pin. intros s2 H2 P2.
  assert (S2 : set_up s2) by by apply (set_up_hw _ _ H2).
  assert (K : cmdvcc s1 = 6) by apply S1.
  runs_step. apply (runs_detect_pass v); [done| |done|].
  { change (cmdvcc (s1 <| polling := 1 |>)) with (cmdvcc s1) in P2. rewrite K in P2.
    rewrite P2, lookup_insert_ne by done. change (line_pins (io s1) !! 8 = Some v).
    by rewrite P1, lookup_insert_ne. }
  intros s3 H3 P3. apply runs_ret. split; [done|].
  destruct (set_up_installed (s2 <| card_detect := SCI_CARD_PRESENT |>) s3) as (?&?&?&K3);
    [by destruct S2 as ((?&?&?)&(?&?&?&?&?&?)&?&?&?&?&?)|done|done|].
  split_and!; [done..|by rewrite K3].
Qed.

Lemma sci_bring_up_witness :
  exists s, (rc ← sci_init (fun _ => skip) 0; sci_detect_start;;
      last ← sci_detect_pass (fun _ => skip) 0; mret (rc, last))
      (sci_boot (Line [0xAB] 6 [] ∅ {[8 := 1]})) = Ok ((SCI_ERROR_OK, 1), s) /\
  installed s /\ cmdvcc s <> reset s /\ unread s = [] /\ line_pins (io s) !! cmdvcc s = Some 0.
Proof.
  apply (sci_bring_up (Line [0xAB] 6 [] ∅ {[8 := 1]}) 0 1); [|done|done].
  right; right; right; by left.
Defined.

(** ** A failed initialisation *)

Section failed.
Context {D : Type} `{SciHw D}.
Implicit Types s : sci D.

(** The detection thread has not been started and the reader is the first. *)
Definition unstarted s : Prop := polling s = 0 /\ id_ s = 0.
Definition unstarted_kept s s' : Prop := unstarted s -> unstarted s'.
#[export] Instance unstarted_kept_preorder : PreOrder unstarted_kept.
Proof. split; [by intros s Hs|intros s1 s2 s3 H1 H2 Hs; by apply H2, H1]. Qed.

Lemma unstarted_io s d : unstarted_kept s (s <| io := d |>).
Proof. by intros []. Qed.

Lemma unstarted_then_fault {A B} (m : M (sci D) A) (k : A -> M (sci D) B) f s :
  ends unstarted_kept m -> unstarted s -> (forall a s', unstarted s' -> k a s' = Fault f) ->
  (m ≫= k) s = Fault f.
Proof.
  intros Hm Hs Hk. destruct (Hm s) as (a & s' & E & Hs').
  rewrite (M_bind_run _ _ _ _ _ E). by apply Hk, Hs'.
Qed.

Lemma unstarted_io_init : ends unstarted_kept SCI_IO_init.
Proof.
  unfold SCI_IO_init, request_pin.
  ends; first [by intros []|apply (ends_call _ unstarted_io)|
    apply (ends_clock_source _ unstarted_io)|apply (ends_clock_enable _ unstarted_io)].
Qed.

(** Nobody starts the thread while the driver sleeps. *)
Variable delay : Z -> M (sci D) unit.
Hypothesis delay_ends : forall ms, ends unstarted_kept (delay ms).

Lemma wait_thread_hangs fuel : forall s, unstarted s -> wait_thread delay fuel s = Fault Diverges.
Proof.
  induction fuel as [|fuel IH]; intros s [Hp Hi]; simpl; rewrite (M_bind_run _ _ _ _ _ eq_refl), Hp;
    change (truthy 0) with false; cbv iota; [done|].
  eapply unstarted_then_fault; [apply delay_ends|done|]. intros _. apply IH.
Qed.

Lemma sci_exit_hangs fuel s : unstarted s -> sci_exit delay fuel s = Fault Diverges.
Proof.
  intros [Hp Hi]. unfold sci_exit. rewrite (M_bind_run _ _ _ _ _ eq_refl), Hp.
  change (truthy 0) with false. rewrite (M_bind_run _ _ s tt s) by done.
  apply M_bind_fault. by apply wait_thread_hangs.
Qed.

(** The interrupt cannot be had. *)
Hypothesis no_irq : forall irq (d : D), (request_irq irq d).1 < 0.

Lemma sci_irq_install_fails s :
  unstarted s -> exists r s', sci_irq_install s = Ok (r, s') /\ r < 0 /\ unstarted s'.
Proof.
  intros [Hp Hi]. unfold sci_irq_install. rewrite (M_bind_run _ _ _ _ _ eq_refl), Hi.
  cbn [on_controller Z.eqb]. unfold mbind, M_bind, hw_call.
  pose proof (no_irq SCI0_INT_RX_TX (io s)) as Hn. destruct (request_irq _ _) as [r d]. simpl in Hn.
  apply Z.ltb_lt in Hn. rewrite Hn. by exists (-1), (s <| io := d |>).
Qed.
End failed.

(** C40. Loading the module when the interrupt line is taken never returns,
    whatever the hardware does: the error path calls sci_exit, which waits for
    the detection thread to say that it has ended, and that thread is only
    created later. *)
Theorem sci_init_hangs {D} `{SciHw D} delay (d : D) fuel :
  (forall ms, ends unstarted_kept (delay ms)) -> (forall irq (d : D), (request_irq irq d).1 < 0) ->
  sci_init delay fuel (sci_boot d) = Fault Diverges.
Proof.
  intros Hd Hn. unfold sci_init.
  apply (unstarted_then_fault _ _ _ _); [apply ends_modify; by intros ? []|done|intros _ s1 H1].
  apply (unstarted_then_fault _ _ _ _); [apply (ends_asc_defaults _ unstarted_io)|done|intros _ s2 H2].
  apply (unstarted_then_fault _ _ _ _); [apply ends_modify; by intros ? []|done|intros _ s3 H3].
  apply (unstarted_then_fault _ _ _ _);
    [apply (ends_serial_irq _ unstarted_io); by intros ? []|done|intros _ s4 H4].
  apply (unstarted_then_fault _ _ _ _); [apply unstarted_io_init|done|intros ok s5 H5].
  assert (B : exists s6, (if ok =? 0 then mret true else r ← sci_irq_install; mret (r <? 0)) s5 =
    Ok (true, s6) /\ unstarted s6).
  { destruct (ok =? 0); [by exists s5|].
    destruct (sci_irq_install_fails Hn s5 H5) as (r & s6 & E & Hr & H6). exists s6. split; [|done].
    rewrite (M_bind_run _ _ _ _ _ E). apply Z.ltb_lt in Hr. by rewrite Hr. }
  destruct B as (s6 & E6 & H6). rewrite (M_bind_run _ _ _ _ _ E6).
  apply M_bind_fault. by apply sci_exit_hangs.
Qed.

(** A box where another driver has the interrupt line. *)
Definition busy_box : SciHw unit := {|
  sci_mmio := {| mmio_rd _ d := (0, d); mmio_wr _ _ d := d |};
  ioremap _ _ := true;
  stpio_request_pin port number _ d := (8 * port + number + 1, d);
  stpio_free_pin _ d := d;
  stpio_set_pin _ _ d := d;
  stpio_get_pin _ d := 0;
  request_irq _ d := (-16, d);
  free_irq _ d := d;
  disable_irq _ d := d;
  enable_irq _ d := d;
  kthread_run d := (true, d)
|}.

Lemma sci_init_hangs_witness :
  sci_init (H := busy_box) (fun _ => skip) 1000 (sci_boot tt) = Fault Diverges.
Proof.
  apply (sci_init_hangs (H := busy_box) (fun _ => skip) tt 1000).
  - intros ms. apply ends_skip, _.
  - intros irq d. reflexivity.
Defined.
