(* ===== verification/SciAnswer.v ===== *)
(** * Smart card reader: the reset command and the card's answer

    What IOCTL_SET_RESET does from the power cycle to the parsed record, with
    the answer of the card arriving over the line of [SciLine] while the driver
    sleeps, and with a card that stays silent. *)
From S2P Require Import Prelude Atr SciState SciCtrl SciIrq SciParams SciCard SciLine SciExchange SciInit.

Section reset.
Implicit Types s : sci line.

(** ** The answer arrives *)

(** What interrupts leave alone. *)
Definition frame s s' : Prop :=
  atr s' = atr s /\ atr_buf s' = atr_buf s /\ clk s' = clk s /\ line_pins (io s') = line_pins (io s) /\
  cmdvcc s' = cmdvcc s /\ base_address_sci s' = base_address_sci s /\
  sci_driver_init s' = sci_driver_init s /\ card_detect s' = card_detect s /\ atr_status s' = atr_status s.

Lemma frame_refl s : frame s s.
Proof. done. Qed.
Lemma frame_trans s1 s2 s3 : frame s1 s2 -> frame s2 s3 -> frame s1 s3.
Proof. unfold frame. intuition congruence. Qed.

Lemma frame_stored bs : forall s, frame s (stored s bs).
Proof.
  induction bs as [|b bs IH]; intros s; [apply frame_refl|]. exact (IH (store1 s b)).
Qed.

Lemma frame_irq_next s s' : regs_only (irq_next s) s' -> frame s s'.
Proof.
  intros [f ->]. pose proof (frame_stored (rx_fifo (io s)) (drop_fifo s)) as H.
  unfold irq_next, tx_next. by destruct (_ && _).
Qed.

Lemma line_interrupt_frame e s :
  linked s -> event_ok e -> (length (w_heard (wire_of s)) + length (arrives e) <= 1024)%nat ->
  exists s', line_interrupt e s = Ok (tt, s') /\ regs_only (irq_next (show_event e s)) s' /\ frame s s'.
Proof.
  intros L [Hf Hu] Hl. destruct (irq_handler_ok (show_event e s)) as (s' & E & R).
  - destruct L. constructor; simpl; try done. by apply Forall_app.
  - pose proof (l_rx s L). pose proof (l_rbuf s L). simpl in Hl.
    rewrite length_app, length_take, length_map in Hl.
    split_and!; simpl; [done|lia|rewrite length_app; lia].
  - exists s'. split_and!; [unfold line_interrupt; by erewrite M_bind_run by done|done|].
    exact (frame_irq_next (show_event e s) s' R).
Qed.

Lemma line_interrupts_frame es : forall s s',
  linked s -> settled s -> Forall event_ok es -> (traffic es (wire_of s) <= 1024)%nat ->
  line_interrupts es s = Ok (tt, s') -> frame s s'.
Proof.
  induction es as [|e es IH]; intros s s' L Hs He Ht E; [by injection E as <-|].
  apply Forall_cons_1 in He as [He Hes]. simpl in E.
  assert (Hl : (length (w_heard (wire_of s)) + length (arrives e) <= 1024)%nat).
  { unfold traffic in Ht. cbn [map concat] in Ht. rewrite length_app in Ht. lia. }
  destruct (line_interrupt_refines e s L Hs He Hl) as (s1 & E1 & L1 & C1 & W1 & _).
  destruct (line_interrupt_frame e s L He Hl) as (s1' & E1' & _ & F1).
  rewrite E1 in E1'. injection E1' as <-. rewrite (M_bind_run _ _ _ _ _ E1) in E.
  apply (frame_trans _ s1); [done|]. apply (IH s1); try done; [by eapply settled_same|].
  by rewrite W1, traffic_step.
Qed.

(** A card starts its answer in one of the two conventions. *)
Definition convention (b0 : Z) : Z := if b0 =? 0x03 then INVERT else UNINVERT.

(** The reader waits for an answer. *)
Definition awaiting s : Prop :=
  linked s /\ byte_invert s = NO_DEFINED /\ atr_status s = SCI_WITHOUT_ATR /\
  irq_mode s = RX_FULL_IRQ /\ rx_rptr s = 0 /\ rx_wptr s = 0 /\ tx_wptr s = tx_rptr s /\
  rx_fifo (io s) = [].

(** The first byte settles the convention: from then on everything is as if it
    had been known before. *)
Lemma first_byte b0 bs s :
  b0 = 0x3B \/ b0 = 0x03 -> byte_invert s = NO_DEFINED -> atr_status s = SCI_WITHOUT_ATR ->
  stored s (b0 :: bs) = stored (s <| byte_invert := convention b0 |>) (b0 :: bs).
Proof.
  intros Hb Hi Ha. 
  change (stored (store1 s b0) bs = stored (store1 (s <| byte_invert := convention b0 |>) b0) bs).
  f_equal. unfold store1.
  assert (E : conv s b0 = convention b0).
  { unfold conv, convention. rewrite Ha, Hi. by destruct Hb as [-> | ->]. }
  assert (E' : conv (s <| byte_invert := convention b0 |>) b0 = convention b0).
  { apply conv_settled. right. unfold convention. by destruct (_ =? _). }
  by rewrite E, E'.
Qed.

(** The state after the bytes [w] of an answer have come in. *)
Definition answered (inv : Z) (w : list Z) s : Prop :=
  linked s /\ byte_invert s = inv /\ irq_mode s = RX_FULL_IRQ /\ rx_wptr s = 0 /\
  w_pending (wire_of s) = [] /\ w_heard (wire_of s) = map (decode inv) w /\
  rx_rptr s = Z.of_nat (length w) /\ take (length w) (read_buf s) = map (decode inv) w.

Lemma convention_settled b0 s : byte_invert s = convention b0 -> settled s.
Proof. intros H. right. rewrite H. unfold convention. by destruct (_ =? _). Qed.

(** The first interrupt of an answer does what it would do if the convention
    had been known. *)
Lemma first_interrupt e b0 bs s :
  awaiting s -> event_ok e -> arrives e = b0 :: bs -> b0 = 0x3B \/ b0 = 0x03 ->
  (length (arrives e) <= 1024)%nat ->
  exists t s', line_interrupt e (s <| byte_invert := convention b0 |>) = Ok (tt, t) /\
    line_interrupt e s = Ok (tt, s') /\ regs_only t s' /\ frame s s'.
Proof.
  intros (L & Hi & Hst & Hm & Hr & Hw & Htx & Hf) He Ha Hb Hlen.
  assert (L0 : linked (s <| byte_invert := convention b0 |>)) by (destruct L; by constructor).
  assert (H0 : w_heard (wire_of s) = []) by (simpl; by rewrite Hr, Hf).
  destruct (line_interrupt_frame e s L He ltac:(rewrite H0; simpl; lia)) as (s1 & E1 & R1 & F1).
  destruct (line_interrupt_frame e _ L0 He ltac:(simpl; rewrite Hr, Hf; simpl; lia)) as (t & E & R & _).
  exists t, s1. split_and!; [done|done| |done].
  assert (Heq : irq_next (show_event e s) = irq_next (show_event e (s <| byte_invert := convention b0 |>))).
  { unfold irq_next. f_equal. simpl. rewrite Hf, Ha. simpl app.
    by rewrite (first_byte b0 bs (drop_fifo (show_event e s)) Hb Hi Hst). }
  rewrite Heq in R1. destruct R as [f ->], R1 as [g ->]. by exists g.
Qed.

Lemma first_event e b0 bs s :
  awaiting s -> event_ok e -> arrives e = b0 :: bs -> b0 = 0x3B \/ b0 = 0x03 ->
  (length (arrives e) <= 1024)%nat ->
  exists s', line_interrupt e s = Ok (tt, s') /\ answered (convention b0) (arrives e) s' /\ frame s s'.
Proof.
  intros Hs He Ha Hb Hlen.
  destruct (first_interrupt e b0 bs s Hs He Ha Hb Hlen) as (t & s1 & E & E1 & R & F).
  exists s1. split_and!; [done| |done].
  destruct Hs as (L & Hi & Hst & Hm & Hr & Hw & Htx & Hf).
  set (s0 := s <| byte_invert := convention b0 |>) in *.
  assert (L0 : linked s0) by (destruct L; by constructor).
  assert (H0 : w_heard (wire_of s0) = []) by (simpl; by rewrite Hr, Hf).
  destruct (line_interrupt_refines e s0 L0 (convention_settled b0 s0 eq_refl) He
    ltac:(rewrite H0; simpl; lia)) as (t' & E' & L1 & C1 & W1 & T1 & P1).
  rewrite E in E'. injection E' as <-.
  rewrite (wire_steps_hear _ [e] (wire_of s0) Hm : wire_step _ _ _ = _) in W1.
  simpl concat in W1. rewrite app_nil_r in W1.
  destruct (wire_regs _ _ R) as [W2 C2]. rewrite W1 in W2.
  unfold wire_hear in W2, T1. rewrite H0 in W2, T1, P1. cbn [w_heard app length Nat.add] in *.
  pose proof (l_rx t L1).
  split_and!; [by eapply linked_regs|by rewrite (proj1 C2), (proj1 C1)| | | | |
    destruct R as [f ->]; simpl; lia|].
  - transitivity (w_mode (wire_of s0)); [exact (f_equal w_mode W2)|exact Hm].
  - transitivity (w_skip (wire_of s0)); [exact (f_equal w_skip W2)|exact Hw].
  - rewrite W2. simpl. rewrite Htx. apply seg_nil.
  - by rewrite W2.
  - rewrite <- P1. destruct R as [f ->]. exact T1.
Qed.

(** The interrupts of an answer rebuild it in the receive buffer, decoded. *)
Lemma answer_received e es b0 bs s :
  awaiting s -> Forall event_ok (e :: es) -> arrives e = b0 :: bs -> b0 = 0x3B \/ b0 = 0x03 ->
  let wire := concat (map arrives (e :: es)) in
  (length wire <= 1024)%nat ->
  exists s', line_interrupts (e :: es) s = Ok (tt, s') /\ linked s' /\
    byte_invert s' = convention b0 /\ rx_wptr s' = 0 /\ rx_rptr s' = Z.of_nat (length wire) /\
    take (length wire) (read_buf s') = map (decode (convention b0)) wire /\ frame s s'.
Proof.
  intros Hs [He Hes]%Forall_cons_1 Ha Hb wire Hlen.
  assert (Hwire : wire = arrives e ++ concat (map arrives es)) by done.
  rewrite Hwire, length_app in Hlen.
  destruct (first_event e b0 bs s Hs He Ha Hb ltac:(lia))
    as (s1 & E1 & (L1 & B1 & M1 & Z1 & P1 & H1 & R1 & T1) & F1).
  cbn [line_interrupts]. destruct es as [|e' es].
  { exists s1. rewrite Hwire. simpl concat. rewrite app_nil_r.
    split_and!; try done. by erewrite M_bind_run by exact E1. }
  pose proof (convention_settled b0 s1 B1) as S1.
  destruct (line_interrupts_rx (e' :: es) s1 L1 S1 M1 Hes) as (s2 & E2 & L2 & C2 & M2 & R2 & T2);
    [done|rewrite H1, length_map; lia|].
  rewrite H1, B1, <- map_app, <- Hwire in T2.
  pose proof (l_rx s2 L2). pose proof (l_rbuf s2 L2).
  assert (Hn : Z.to_nat (rx_rptr s2) = length wire).
  { apply (f_equal length) in T2. rewrite length_take, length_map, Hwire, length_app in T2.
    rewrite Hwire, length_app. lia. }
  exists s2. split_and!; [|done|by rewrite (proj1 C2)|congruence|lia|by rewrite <- Hn|].
  - erewrite M_bind_run by exact E1. exact E2.
  - apply (frame_trans _ s1); [done|]. apply (line_interrupts_frame (e' :: es)); try done.
    unfold traffic. rewrite H1, P1, length_map. change (length []) with 0%nat. lia.
Qed.
(** The card answers during the sleep of 1100 ms after a reset. *)
Definition card_answers (es : list line_event) (ms : Z) : M (sci line) unit :=
  if ms =? 1100 then line_interrupts es else skip.
Lemma card_answers_quiet es ms : ms <> 1100 -> card_answers es ms = skip.
Proof. unfold card_answers. by destruct (Z.eqb_spec ms 1100). Qed.

(** ** From the power cycle to the bytes of the answer *)

Lemma awaiting_reset s s' :
  linked s -> hw_only (reset_of (init_of 357 s)) s' -> awaiting s'.
Proof.
  intros [] (f & p & ->). split_and!; try reflexivity.
  constructor; try assumption; try (by constructor); simpl; lia.
Qed.

(** What detect_ATR leaves when the card has answered with [bytes] at clock [c]. *)
Record detected (c inv : Z) (bytes : list Z) s s' : Prop := {
  d_wired : wired s';
  d_clk : clk s' = c;
  d_atr : atr s' = atr s;
  d_abuf : atr_buf s' = atr_buf s;
  d_inv : byte_invert s' = inv;
  d_wptr : rx_wptr s' = 0;
  d_rptr : rx_rptr s' = Z.of_nat (length bytes);
  d_rbuf : take (length bytes) (read_buf s') = bytes;
  d_len : length (read_buf s') = 1024%nat;
  d_vcc : cmdvcc s' = cmdvcc s;
  d_power : line_pins (io s') !! cmdvcc s = Some 0
}.

Lemma peek_first x l s :
  rx_wptr s = 0 -> (exists n, take (S n) (read_buf s) = x :: l) -> peek 0 s = Ok (x, s).
Proof.
  intros Hw (n & Ht). unfold peek. do 2 (erewrite M_bind_run by done). apply lift_run.
  rewrite Hw. destruct (read_buf s) as [|y r]; [done|]. by injection Ht as -> _.
Qed.

(** detect_ATR after the first reset. *)
Definition after_reset (delay : Z -> M (sci line) unit) : M (sci line) Z :=
  delay 1100;;
  b ← peek 0;
  c ← (if b =? 0x3B then mret true else b ← peek 0; mret (b =? 0x3F));
  if (c : bool) then mret 0
  else
    modify (fun s => s <| read_buf := replicate (Z.to_nat SCI_BUFFER_SIZE) 0 |>);;
    smartcard_clock_config delay 625;;
    set_reg BASE_ADDRESS_ASC0 ASC0_BAUDRATE 0x271 0xFFFF;;
    modify (fun s => s <| sci_parameters := (sci_parameters s) <| p_ETU := 372 |> |>);;
    rc ← reset_rc delay;
    delay 750;;
    mret rc.

Lemma runs_first_reset delay s (Q : Z -> sci line -> Prop) :
  (forall ms, ms <> 1100 -> delay ms = skip) ->
  installed s -> cmdvcc s <> reset s ->
  (forall s', hw_only (reset_of (init_of 357 s)) s' -> line_pins (io s') !! cmdvcc s = Some 0 ->
    runs (after_reset delay) s' Q) ->
  runs (detect_ATR delay) s Q.
Proof.
  intros Hq I Hne HQ. assert (W : wired s /\ ready s) by (destruct I as [[]]; by split_and!).
  destruct W as [W Rdy].
  unfold detect_ATR. runs_step. apply runs_hw_init; [done|done|]. intros s1 H1 _.
  assert (W1 : wired s1) by (eapply wired_hw; [exact H1|exact W]).
  runs_step. apply runs_gets. rewrite (proj1 (proj2 W1)). cbn [on_controller Z.eqb].
  runs_step. apply runs_asc_defaults; [done|]. intros s2 H2 _.
  assert (H12 : hw_only (init_of 357 s) s2) by by eapply hw_only_trans.
  assert (K2 : cmdvcc s2 = cmdvcc s /\ reset s2 = reset s) by (by destruct H12 as (?&?&->)).
  runs_step. apply runs_reset_rc; [done|by eapply wired_hw|by destruct H12 as (?&?&->)|
    by destruct K2 as [-> ->]|]. intros s3 H3 P3.
  apply HQ; [|by rewrite <- (proj1 K2)]. eapply hw_only_trans; [|exact H3]. by apply hw_only_reset_of.
Qed.

Lemma runs_detect e es b0 bs s (Q : Z -> sci line -> Prop) :
  installed s -> cmdvcc s <> reset s ->
  Forall event_ok (e :: es) -> arrives e = b0 :: bs -> b0 = 0x3B \/ b0 = 0x03 ->
  let wire := concat (map arrives (e :: es)) in
  (length wire <= 1024)%nat ->
  (forall s', detected 357 (convention b0) (map (decode (convention b0)) wire) s s' -> Q 0 s') ->
  runs (detect_ATR (card_answers (e :: es))) s Q.
Proof.
  intros I Hne He Ha Hb wire Hlen HQ.
  apply runs_first_reset; [apply card_answers_quiet|done|done|]. intros s3 H03 P3. unfold after_reset.
  destruct (answer_received e es b0 bs s3) as (s4 & E4 & L4 & B4 & Z4 & R4 & T4 & F4);
    [by eapply awaiting_reset; [apply I|]|done|done|done|done|].
  runs_step. eapply runs_eq; [exact E4|]. cbv beta. fold wire in R4, T4.
  assert (Hfirst : peek 0 s4 = Ok (decode (convention b0) b0, s4)).
  { apply (peek_first _ (map (decode (convention b0)) (bs ++ concat (map arrives es)))); [done|].
    exists (pred (length wire)). unfold wire in *. cbn [map concat] in *. rewrite Ha in *. simpl in *.
    by rewrite T4. }
  assert (D : detected 357 (convention b0) (map (decode (convention b0)) wire) s s4).
  { destruct F4 as (F1 & F2 & F3 & F4 & F5 & F6 & F7 & F8 & F9).
    assert (K3 : atr s3 = atr s /\ atr_buf s3 = atr_buf s /\ clk s3 = 357 /\ cmdvcc s3 = cmdvcc s /\
      wired s3).
    { destruct H03 as (?&?&->), I as [[]]. by split_and!. }
    destruct K3 as (K31 & K32 & K33 & K34 & (_ & _ & K35)).
    constructor; rewrite ?length_map; try congruence; try apply L4.
    split_and!; [apply L4|apply L4|congruence]. }
  runs_step. eapply runs_eq; [exact Hfirst|]. cbv beta.
  runs_step. apply (runs_conseq _ _ (fun c s' => c = true /\ s' = s4)).
  - destruct Hb as [-> | ->]; [by apply runs_ret|].
    change (decode (convention 0x03) 0x03 =? 0x3B) with false. cbv iota.
    runs_step. eapply runs_eq; [exact Hfirst|]. by apply runs_ret.
  - intros c s' [-> ->]. apply runs_ret. by apply HQ.
Qed.

(** ** A silent card *)

(** The part of [detected] that does not speak about clock and power. *)
Definition heard_nothing s s' : Prop :=
  wired s' /\ ready s' /\ atr s' = atr s /\ atr_buf s' = atr_buf s /\ byte_invert s' = NO_DEFINED /\
  rx_wptr s' = 0 /\ rx_rptr s' = 0 /\ length (read_buf s') = 1024%nat /\
  cmdvcc s' = cmdvcc s /\ reset s' = reset s.

Lemma heard_nothing_hw s s1 s2 : hw_only s1 s2 -> heard_nothing s s1 -> heard_nothing s s2.
Proof. by intros (f & p & ->). Qed.
Lemma heard_nothing_start s : installed s -> heard_nothing s (reset_of (init_of 357 s)).
Proof. intros [[] ?]. by split_and!. Qed.
Lemma heard_nothing_retry s s1 :
  heard_nothing s s1 ->
  heard_nothing s (s1 <| read_buf := replicate (Z.to_nat SCI_BUFFER_SIZE) 0 |> <| clk := 625 |>).
Proof. intros ((?&?&?)&?&?&?&?&?&?&?&?&?). by split_and!. Qed.
Lemma heard_nothing_etu s s1 v :
  heard_nothing s s1 ->
  heard_nothing s (s1 <| sci_parameters := (sci_parameters s1) <| p_ETU := v |> |>).
Proof. by intros ((?&?&?)&?&?&?&?&?&?&?&?&?). Qed.
Lemma heard_nothing_reset s s1 : heard_nothing s s1 -> heard_nothing s (reset_of s1).
Proof. by intros ((?&?&?)&?&?&?&?&?&?&?&?&?). Qed.

Lemma heard_nothing_detected c s s' :
  heard_nothing s s' -> clk s' = c -> line_pins (io s') !! cmdvcc s = Some 0 ->
  detected c NO_DEFINED [] s s'.
Proof. intros (?&?&?&?&?&?&?&?&?&?) ??. by constructor. Qed.

Lemma peek_some i s :
  rx_wptr s = 0 -> length (read_buf s) = 1024%nat -> 0 <= i < 1024 -> exists b, peek i s = Ok (b, s).
Proof.
  intros Hw Hl Hi. destruct (aget_in (read_buf s) i) as [b Hb]; [lia|]. exists b.
  unfold peek. do 2 (erewrite M_bind_run by done). apply lift_run. by rewrite Hw.
Qed.

(** Whether the first attempt is taken for an answer depends on the byte that
    happens to be in the buffer. *)
Lemma runs_detect_silent s (Q : Z -> sci line -> Prop) :
  installed s -> cmdvcc s <> reset s ->
  (forall c s', c = 357 \/ c = 625 -> detected c NO_DEFINED [] s s' -> Q 0 s') ->
  runs (detect_ATR (fun _ => skip)) s Q.
Proof.
  intros I Hne HQ. apply runs_first_reset; [done|done|done|]. intros s1 H1 P1.
  assert (N1 : heard_nothing s s1) by (eapply heard_nothing_hw, heard_nothing_start; done).
  assert (C1 : clk s1 = 357) by (by destruct H1 as (?&?&->)).
  destruct N1 as (W1&R1&?&?&?&Hw&?&Hl&?&?) eqn:EN.
  destruct (peek_some 0 s1 Hw Hl ltac:(lia)) as [b Hb].
  unfold after_reset. runs_step. apply runs_skip. runs_step. eapply runs_eq; [exact Hb|]. cbv beta.
  runs_step. apply (runs_conseq _ _ (fun _ s' => s' = s1)).
  { destruct (b =? 0x3B); [by apply runs_ret|]. runs_step. eapply runs_eq; [exact Hb|]. by apply runs_ret. }
  intros [] s' ->.
  { apply runs_ret. apply (HQ 357); [by left|]. by apply heard_nothing_detected. }
  runs_step. apply runs_modify. set (s2 := s1 <| read_buf := _ |>).
  runs_step. apply runs_clock_config; [done|exact W1|done|done|]. intros s3 H3 _.
  assert (N3 : heard_nothing s s3) by (apply (heard_nothing_hw _ _ _ H3), heard_nothing_retry; done).
  assert (C3 : clk s3 = 625) by (by destruct H3 as (?&?&->)).
  runs_step. apply runs_set_reg; [apply N3|done|]. intros s4 H4 _.
  assert (N4 : heard_nothing s s4) by by apply (heard_nothing_hw _ _ _ H4).
  assert (C4 : clk s4 = 625) by (by destruct H4 as (?&?&->)).
  runs_step. apply runs_modify. set (s5 := s4 <| sci_parameters := _ |>).
  assert (N5 : heard_nothing s s5) by by apply heard_nothing_etu.
  destruct N5 as (W5&R5&?&?&?&?&?&?&V5&S5) eqn:EN5.
  runs_step. apply runs_reset_rc; [done|done|done|by rewrite V5, S5|]. intros s6 H6 P6.
  runs_step. apply runs_skip. apply runs_ret. apply (HQ 625); [by right|].
  apply heard_nothing_detected; [by apply (heard_nothing_hw _ _ _ H6), heard_nothing_reset| |].
  - assert (C6 : clk s6 = clk s5) by (by destruct H6 as (?&?&->)). by rewrite C6.
  - by rewrite <- V5.
Qed.
End reset.

(** ** Parsing the answer *)

Section parse.
Implicit Types s : sci line.

(** parse_atr divides by the clock rate conversion factor and by the rate it
    computes: it works exactly when the card names usable factors. *)
Definition usable (f d : Z) : bool := negb (f =? 0) && (1000000 <=? d).

Lemma wwt_pos r f d :
  usable f d = true -> 2048 <= r -> 0 <= f <= 2048 -> 0 < r * (d / 1000000) / f.
Proof.
  unfold usable. intros [Hf Hd]%andb_true_iff Hr Hfr. apply negb_true_iff, Z.eqb_neq in Hf.
  apply Z.leb_le in Hd. pose proof (Z.div_le_mono 1000000 d 1000000 ltac:(lia) Hd) as H.
  change (1000000 / 1000000) with 1 in H. apply Z.div_str_pos. split; [lia|]. nia.
Qed.

(** The card's clock rates in Hz. *)
Definition clock_rate (r : Z) : Prop := 2048 <= r /\ r * 64 < 2 ^ 32.

Lemma parse_atr_ok s r f d :
  GetClockRate (clk s) = r -> clock_rate r ->
  GetParameterF 0 (atr s) = Ok f -> GetParameterD 0 (atr s) = Ok d ->
  0 <= f <= 2048 -> 0 <= d <= 64000000 ->
  let w := r * (d / 1000000) / f in
  parse_atr s =
  if usable f d then
    Ok (tt, s <| FI := f |> <| DI := d |> <| CLOCK := r |> <| WWT := w |> <| ETU := r / w |>)
  else Fault DivByZero.
Proof.
  intros Hc [Hr1 Hr2] Hf Hd Hfr Hdr w. unfold parse_atr. erewrite M_bind_run by done.
  erewrite M_bind_run by (by apply lift_run). erewrite M_bind_run by (by apply lift_run).
  erewrite M_bind_run by done. rewrite Hc. cbv zeta.
  erewrite M_bind_run by done.
  pose proof (Z.div_pos d 1000000 ltac:(lia) ltac:(lia)) as Hq.
  pose proof (Z.div_le_mono d 64000000 1000000 ltac:(lia) ltac:(lia)) as Hq2.
  change (64000000 / 1000000) with 64 in Hq2.
  unfold u32. rewrite Z.mod_small by nia. unfold udiv, usable.
  destruct (Z.eqb_spec f 0) as [->|Hf0]; [done|]. cbn [negb andb].
  erewrite M_bind_run by done. erewrite M_bind_run by done. fold w.
  destruct (Z.leb_spec 1000000 d) as [Hd1|Hd1].
  - assert (Hw : 0 < w).
    { apply wwt_pos; [|done|done]. unfold usable. apply Z.leb_le in Hd1. rewrite Hd1.
      by destruct (Z.eqb_spec f 0). }
    destruct (Z.eqb_spec w 0); [lia|]. by erewrite M_bind_run by done.
  - unfold w. rewrite (Z.div_small d 1000000) by lia. by rewrite Z.mul_0_r, Z.div_0_l.
Qed.

(** The copy of the answer the parser gets. *)
Lemma copy_answer (t b : list Z) bytes :
  length t = 33%nat -> (length bytes <= 33)%nat -> take (length bytes) b = bytes ->
  amemcpy t 0 b 0 (Z.of_nat (length bytes)) = Ok (bytes ++ drop (length bytes) t).
Proof.
  intros Ht Hl Hb. assert (Hbl : (length bytes <= length b)%nat).
  { rewrite <- Hb at 1. rewrite length_take. lia. }
  apply amemcpy_Ok. split_and!; try lia.
  by rewrite Z.add_0_l, Nat2Z.id, drop_0, Hb, take_0.
Qed.

(** The state from which the answer is parsed. *)
Definition checked (low : bool) bytes (a : ATR) s : sci line :=
  s <| sci_atr_class := if low then SCI_CLASS_B else SCI_CLASS_A |>
    <| atr_len := u8 (rx_rptr s) |>
    <| atr_buf := bytes ++ drop (length bytes) (atr_buf s) |> <| atr := a |>.

Lemma voltage_line low s :
  id_ s = 0 ->
  smartcard_voltage_config (if low : bool then SCI_VCC_3 else SCI_VCC_5) s =
  Ok (SCI_ERROR_OK, s <| sci_atr_class := if low then SCI_CLASS_B else SCI_CLASS_A |>).
Proof.
  intros Hi. unfold smartcard_voltage_config. erewrite M_bind_run by done. rewrite Hi. by destruct low.
Qed.

Lemma class_line s :
  rx_wptr s = 0 -> length (read_buf s) = 1024%nat ->
  exists low, answer_of_class_b s = Ok (low, s).
Proof.
  intros Hw Hl. assert (P : forall i, 0 <= i < 1024 -> exists b, peek i s = Ok (b, s)).
  { intros i Hi. destruct (aget_in (read_buf s) i) as [b Hb]; [lia|]. exists b.
    unfold peek. do 2 (erewrite M_bind_run by done). apply lift_run. by rewrite Hw. }
  destruct (P 0) as [b0 H0], (P 1) as [b1 H1], (P 2) as [b2 H2]; try lia.
  unfold answer_of_class_b. erewrite M_bind_run by done.
  destruct (b0 =? 0x3F); [|by eexists]. erewrite M_bind_run by done.
  destruct (b1 =? 0xFD); [|by eexists]. erewrite M_bind_run by done. by eexists.
Qed.

(** check_atr on the bytes of an answer. *)
Lemma check_atr_eq bytes s :
  id_ s = 0 -> rx_wptr s = 0 -> rx_rptr s = Z.of_nat (length bytes) -> (length bytes <= 255)%nat ->
  length (read_buf s) = 1024%nat -> length (atr_buf s) = 33%nat ->
  take (length bytes) (read_buf s) = bytes ->
  exists low, check_atr s =
    if (33 <? length bytes)%nat then Fault OutOfBounds
    else match ATR_InitFromArray bytes (Z.of_nat (length bytes)) (atr s) with
         | Fault f => Fault f
         | Ok (_, a) => parse_atr (checked low bytes a s)
         end.
Proof.
  intros Hi Hw Hr Hl Hb Ha Ht. destruct (class_line s Hw Hb) as [low Hlow]. exists low.
  unfold check_atr. erewrite M_bind_run by exact Hlow. erewrite M_bind_run by by apply voltage_line.
  do 4 (erewrite M_bind_run by done).
  match goal with |- (lift (amemcpy _ _ _ _ ?n) ≫= _) _ = _ => replace n with (Z.of_nat (length bytes)) end.
  2: { simpl. rewrite Hr. symmetry. apply u8_id. unfold is_u8. lia. }
  destruct (Nat.ltb_spec 33 (length bytes)) as [Hlt|Hge].
  - apply M_bind_fault. unfold lift. change (atr_buf _) with (atr_buf s).
    change (read_buf _) with (read_buf s).
    destruct (amemcpy (atr_buf s) 0 (read_buf s) 0 (Z.of_nat (length bytes))) as [|x] eqn:E.
    + apply amemcpy_Ok in E. lia.
    + unfold amemcpy, aslice, mbind, res_bind in E. repeat case_match; congruence.
  - erewrite M_bind_run by (apply lift_run; by apply copy_answer).
    erewrite M_bind_run by done. unfold mbind at 1, M_bind at 1, on_atr.
    change (atr _) with (atr s) at 1. rewrite ATR_InitFromArray_prefix.
    destruct (ATR_InitFromArray bytes (Z.of_nat (length bytes)) (atr s)) as [[c a]|]; [|done].
    reflexivity.
Qed.

(** ** The reset command *)

(** The odd parity bit of the control register follows the convention, once
    there is one. *)
Definition parity_follows s : Prop :=
  byte_invert s = INVERT \/ byte_invert s = UNINVERT ->
  Z.testbit (reg s ASC0_CTRL) 5 = (byte_invert s =? INVERT).

Lemma parity_line s :
  wired s -> exists s', set_parity 0 s = Ok (tt, s') /\ regs_only s s' /\ parity_follows s'.
Proof.
  intros (Ha & _). unfold set_parity. erewrite M_bind_run by done.
  assert (T : forall v, Z.testbit (reg (put_reg s ASC0_CTRL (u32 v)) ASC0_CTRL) 5 = Z.testbit v 5).
  { intros v. unfold reg, put_reg. simpl line_regs. rewrite lookup_insert_eq.
    exact (Z.mod_pow2_bits_low v 32 5 ltac:(lia)). }
  destruct (byte_invert s =? INVERT) eqn:Hi; [|destruct (byte_invert s =? UNINVERT) eqn:Hu];
    cbn [on_controller Z.eqb].
  - rewrite set_reg_line by done. eexists. split_and!; [done|apply regs_only_put|intros _].
    rewrite T, Z.lor_spec, orb_true_r. by symmetry.
  - rewrite set_reg_line by done. eexists. split_and!; [done|apply regs_only_put|intros _].
    rewrite T, Z.lor_spec, Z.ldiff_spec, andb_false_r. by symmetry.
  - exists s. split_and!; [done|apply regs_only_refl|]. intros [H|H]; rewrite H in *; discriminate.
Qed.

(** After the parse: parity, and power off only without a work waiting time. *)
Lemma reset_tail s :
  wired s -> 0 < WWT s ->
  exists s', (set_parity 0;; w ← gets WWT;
      when (truthy 0 || negb (truthy w)) (set_pin cmdvcc 1);; mret 0) s = Ok (0, s') /\
    regs_only s s' /\ parity_follows s'.
Proof.
  intros Hs Hw. destruct (parity_line s Hs) as (s' & E & R & T). exists s'. split_and!; [|done..].
  erewrite M_bind_run by exact E. rewrite (M_bind_run _ _ _ _ _ eq_refl).
  assert (H : WWT s' = WWT s) by (by destruct R as [? ->]).
  unfold truthy. rewrite H. destruct (Z.eqb_spec (WWT s) 0); [lia|done].
Qed.

Lemma convention_invert b0 :
  b0 = 0x3B \/ b0 = 0x03 -> (convention b0 =? INVERT) = (b0 =? 0x03).
Proof. by intros [-> | ->]. Qed.

Lemma sci_ioctl_reset delay stack arg s :
  sci_ioctl delay stack 0 IOCTL_SET_RESET arg s =
  (rc ← ioctl_reset delay 0; mret (rc, OutNothing)) s.
Proof. reflexivity. Qed.

(** The reset command after a successful detect_ATR. *)
Lemma reset_outcome delay stack arg s c inv r bytes s1 :
  installed s -> detect_ATR delay s = Ok (0, s1) -> detected c inv bytes s s1 ->
  GetClockRate c = r -> clock_rate r -> (length bytes <= 255)%nat ->
  let outcome := sci_ioctl delay stack 0 IOCTL_SET_RESET arg s in
  if (33 <? length bytes)%nat then outcome = Fault OutOfBounds
  else match ATR_InitFromArray bytes (Z.of_nat (length bytes)) (atr s) with
  | Fault f => outcome = Fault f
  | Ok (_, a) =>
      exists f d, GetParameterF 0 a = Ok f /\ GetParameterD 0 a = Ok d /\
      if usable f d then
        exists s', outcome = Ok ((0, OutNothing), s') /\ atr s' = a /\ unread s' = bytes /\
          byte_invert s' = inv /\ parity_follows s' /\
          WWT s' = r * (d / 1000000) / f /\ ETU s' = r / WWT s' /\
          line_pins (io s') !! cmdvcc s = Some 0
      else outcome = Fault DivByZero
  end.
Proof.
  intros I E1 D Hc Hrate Hlen outcome. pose proof (d_wired _ _ _ _ _ D) as W1.
  destruct (check_atr_eq bytes s1) as [low E2];
    [apply W1|apply D|apply D|lia|apply D|rewrite (d_abuf _ _ _ _ _ D); apply I|apply D|].
  assert (EO : outcome = (rc ← (check_atr;; set_parity 0;; w ← gets WWT;
      when (truthy 0 || negb (truthy w)) (set_pin cmdvcc 1);; mret 0); mret (rc, OutNothing)) s1).
  { unfold outcome. rewrite sci_ioctl_reset. unfold ioctl_reset, mbind at 1, M_bind at 1.
    assert (Hp : present_card s = true) by (unfold present_card; by rewrite (i_card s I)).
    rewrite (M_bind_run _ _ _ _ _ eq_refl), Hp. cbn [negb]. by rewrite (M_bind_run _ _ _ _ _ E1). }
  rewrite EO. clear outcome EO.
  destruct (33 <? length bytes)%nat; [by do 2 apply M_bind_fault|].
  rewrite (d_atr _ _ _ _ _ D) in E2.
  destruct (ATR_InitFromArray bytes (Z.of_nat (length bytes)) (atr s)) as [[v a]|] eqn:EA;
    [|by do 2 apply M_bind_fault].
  pose proof (ATR_InitFromArray_shape _ _ _ _ _ EA (i_atr s I)) as Hs.
  destruct (ATR_factors a Hs) as (f & d & Hf & Hd & Hfr & Hdr).
  exists f, d. split_and!; [done|done|].
  assert (HG : GetClockRate (clk (checked low bytes a s1)) = r).
  { by rewrite (d_clk _ _ _ _ _ D : clk (checked low bytes a s1) = c). }
  rewrite (parse_atr_ok _ r f d HG Hrate Hf Hd Hfr Hdr) in E2.
  destruct (usable f d) eqn:Hu; [|by do 2 apply M_bind_fault].
  set (w := r * (d / 1000000) / f) in *. cbv zeta in E2.
  match type of E2 with _ = Ok (_, ?x) => set (s2 := x) in * end.
  destruct (reset_tail s2) as (s3 & E3 & R3 & T3);
    [exact W1|exact (wwt_pos r f d Hu (proj1 Hrate) Hfr)|].
  exists s3. split.
  { rewrite (M_bind_run _ _ s1 0 s3); [done|]. by rewrite (M_bind_run _ _ _ _ _ E2). }
  destruct R3 as [g ->]. split_and!; try done; try apply D.
  unfold unread. change (seg (read_buf s1) (rx_wptr s1) (rx_rptr s1) = bytes).
  rewrite (d_wptr _ _ _ _ _ D), seg_0, (d_rptr _ _ _ _ _ D), Nat2Z.id. apply D.
Qed.

(** C4. The reset command and a card that answers: whatever the 1 to 255 bytes
    of the answer, and however they are spread over interrupts, the command's
    outcome is determined by what ATR_InitFromArray makes of the decoded bytes.
    More than 33 bytes overrun the control block's copy; a parser overrun, and
    conversion factors the card may not name, fault; otherwise the command
    succeeds, the parsed record is stored, the caller can read exactly the
    decoded answer, convention, parity, rates and power are set accordingly. The
    parser's own verdict is ignored. *)
Theorem sci_answer e es b0 bs stack arg s :
  installed s -> cmdvcc s <> reset s ->
  Forall event_ok (e :: es) -> arrives e = b0 :: bs -> b0 = 0x3B \/ b0 = 0x03 ->
  let wire := concat (map arrives (e :: es)) in
  let bytes := map (decode (convention b0)) wire in
  let outcome := sci_ioctl (card_answers (e :: es)) stack 0 IOCTL_SET_RESET arg s in
  (length wire <= 255)%nat ->
  if (33 <? length bytes)%nat then outcome = Fault OutOfBounds
  else match ATR_InitFromArray bytes (Z.of_nat (length bytes)) (atr s) with
  | Fault f => outcome = Fault f
  | Ok (_, a) =>
      exists f d, GetParameterF 0 a = Ok f /\ GetParameterD 0 a = Ok d /\
      if usable f d then
        exists s', outcome = Ok ((0, OutNothing), s') /\ atr s' = a /\ unread s' = bytes /\
          byte_invert s' = convention b0 /\ Z.testbit (reg s' ASC0_CTRL) 5 = (b0 =? 0x03) /\
          WWT s' = 3571200 * (d / 1000000) / f /\ ETU s' = 3571200 / WWT s' /\
          line_pins (io s') !! cmdvcc s = Some 0
      else outcome = Fault DivByZero
  end.
Proof.
  intros I Hne He Ha Hb wire bytes outcome Hlen.
  assert (R : runs (detect_ATR (card_answers (e :: es))) s
                (fun rc s' => rc = 0 /\ detected 357 (convention b0) bytes s s')).
  { apply (runs_detect e es b0 bs); try done. eapply Nat.le_trans; [exact Hlen|]. lia. }
  destruct R as (rc & s1 & E1 & -> & D). pose proof (length_map (decode (convention b0)) wire) as Hbl.
  fold bytes in Hbl.
  pose proof (reset_outcome _ stack arg s 357 _ 3571200 bytes s1 I E1 D eq_refl
    ltac:(split; lia) ltac:(lia)) as H. cbv zeta in H. fold outcome in H.
  destruct (33 <? length bytes)%nat; [done|].
  destruct (ATR_InitFromArray bytes (Z.of_nat (length bytes)) (atr s)) as [[v a]|]; [|done].
  destruct H as (f & d & Hf & Hd & H). exists f, d. split_and!; [done|done|].
  destruct (usable f d); [|done]. destruct H as (s' & E & Hs & Hu & Hi & Hp & H).
  exists s'. split_and!; try done; [|apply H..].
  rewrite Hp, Hi; [by apply convention_invert|]. rewrite Hi. unfold convention.
  destruct (_ =? _); auto.
Qed.

(** The reset command and a card that stays silent: the command tells the
    caller that it succeeded. The card stays powered, there is nothing to read,
    no convention is known, and what the control block and the rates say of the
    card comes from the record an earlier card left behind. *)
Theorem sci_silent_card stack arg s :
  installed s -> cmdvcc s <> reset s ->
  let outcome := sci_ioctl (fun _ => skip) stack 0 IOCTL_SET_RESET arg s in
  exists f d, GetParameterF 0 (atr s) = Ok f /\ GetParameterD 0 (atr s) = Ok d /\
  if usable f d then
    exists s', outcome = Ok ((0, OutNothing), s') /\ atr s' = atr s /\ unread s' = [] /\
      byte_invert s' = NO_DEFINED /\ line_pins (io s') !! cmdvcc s = Some 0
  else outcome = Fault DivByZero.
Proof.
  intros I Hne outcome.
  assert (R : runs (detect_ATR (fun _ => skip)) s (fun rc s' => rc = 0 /\
    exists c, (c = 357 \/ c = 625) /\ detected c NO_DEFINED [] s s')).
  { apply runs_detect_silent; [done|done|]. intros c s' Hc D. split; [done|]. by exists c. }
  destruct R as (rc & s1 & E1 & -> & c & Hc & D).
  assert (Hr : clock_rate (GetClockRate c)).
  { destruct Hc as [-> | ->]; (split; [by apply Z.leb_le|by apply Z.ltb_lt]). }
  pose proof (reset_outcome _ stack arg s c _ _ [] s1 I E1 D eq_refl Hr ltac:(simpl; lia)) as H.
  change (33 <? length [])%nat with false in H. cbv zeta iota in H. fold outcome in H.
  change (ATR_InitFromArray [] (Z.of_nat (length [])) (atr s)) with
    (@Ok (Z * ATR) (ATR_MALFORMED, atr s)) in H. cbv iota beta in H.
  destruct H as (f & d & Hf & Hd & H). exists f, d. split_and!; [done|done|].
  destruct (usable f d); [|done]. destruct H as (s' & E & Hs & Hu & Hi & _ & _ & _ & Hp).
  by exists s'.
Qed.
End parse.

(** ** Example *)

(** A reader waiting for a card, and a card that answers with the inverse
    convention: 3F 65 25 00 2C 09 69 90 00, in two interrupts. *)
Definition idle_reader : sci line :=
  inverse_reader <| base_address_sci := SCI0_BASE_ADDRESS |> <| sci_driver_init := 1 |>
    <| reset := 5 |> <| cmdvcc := 6 |>.
Definition example_answer : list Z := [0x3F; 0x65; 0x25; 0x00; 0x2C; 0x09; 0x69; 0x90; 0x00].
Definition answer_events : list line_event :=
  [Event [0x03] 6; Event [0x59; 0x5B; 0xFF; 0xCB; 0x6F; 0x69; 0xF6; 0xFF] 6].
Definition example_record : ATR :=
  match ATR_InitFromArray example_answer 9 zero_ATR with Ok (_, a) => a | Fault _ => zero_ATR end.

Lemma example_decoded : map (decode INVERT) (concat (map arrives answer_events)) = example_answer.
Proof. vm_compute. reflexivity. Qed.
Lemma example_parsed : ATR_InitFromArray example_answer 9 zero_ATR = Ok (ATR_OK, example_record).
Proof. vm_compute. reflexivity. Qed.
Lemma example_factors :
  GetParameterF 0 example_record = Ok 372 /\ GetParameterD 0 example_record = Ok 1000000.
Proof. vm_compute. split; reflexivity. Qed.

Lemma installed_of s :
  linked s -> card_detect s = SCI_CARD_PRESENT -> length (atr_buf s) = 33%nat -> atr_shape (atr s) ->
  installed (s <| base_address_sci := SCI0_BASE_ADDRESS |> <| sci_driver_init := 1 |>
    <| reset := 5 |> <| cmdvcc := 6 |>).
Proof. intros [] ???. by constructor. Qed.
Lemma idle_reader_ok : installed idle_reader /\ cmdvcc idle_reader <> reset idle_reader.
Proof.
  split; [|done]. destruct inverse_reader_ok as (L & _). apply installed_of; [done|done|done|].
  split_and!; [done| |done]. by apply Forall_replicate.
Qed.
Lemma answer_events_ok : Forall event_ok answer_events.
Proof.
  repeat apply Forall_cons_2; [..|constructor];
    (split; [right; right; right; by left|by repeat apply Forall_cons_2; [..|constructor]]).
Qed.

(** What the theorem says about an answer with the bytes of the example. *)
Lemma example_outcome inv b0 bytes (outcome : res ((Z * sci_out) * sci line))
    (s : sci line) :
  (if (33 <? length bytes)%nat then outcome = Fault OutOfBounds
  else match ATR_InitFromArray bytes (Z.of_nat (length bytes)) (atr s) with
  | Fault f => outcome = Fault f
  | Ok (_, a) =>
      exists f d, GetParameterF 0 a = Ok f /\ GetParameterD 0 a = Ok d /\
      if usable f d then
        exists s', outcome = Ok ((0, OutNothing), s') /\ atr s' = a /\ unread s' = bytes /\
          byte_invert s' = inv /\ Z.testbit (reg s' ASC0_CTRL) 5 = b0 /\
          WWT s' = 3571200 * (d / 1000000) / f /\ ETU s' = 3571200 / WWT s' /\
          line_pins (io s') !! cmdvcc s = Some 0
      else outcome = Fault DivByZero
  end) ->
  bytes = example_answer -> atr s = zero_ATR -> cmdvcc s = 6 ->
  exists s', outcome = Ok ((0, OutNothing), s') /\ atr s' = example_record /\
    unread s' = example_answer /\ byte_invert s' = inv /\ Z.testbit (reg s' ASC0_CTRL) 5 = b0 /\
    WWT s' = 9600 /\ ETU s' = 372 /\ line_pins (io s') !! 6 = Some 0.
Proof.
  intros H -> Ha Hv. change (33 <? length example_answer)%nat with false in H. rewrite Ha in H.
  change (Z.of_nat (length example_answer)) with 9 in H. rewrite example_parsed in H.
  destruct H as (f & d & Hf & Hd & H). destruct example_factors as [Ef Ed].
  rewrite Ef in Hf. rewrite Ed in Hd. injection Hf as <-. injection Hd as <-.
  destruct H as (s' & E & Hr & Hu & Hi & Hp & Hw & He & Hpw). exists s'.
  rewrite Hw in He. rewrite Hv in Hpw. by split_and!.
Qed.

Lemma idle_reader_atr : atr idle_reader = zero_ATR.
Proof. reflexivity. Qed.
Lemma answer_events_length : (length (concat (map arrives answer_events)) <= 255)%nat.
Proof. apply Nat.leb_le. reflexivity. Qed.

Lemma sci_answer_witness :
  exists s', sci_ioctl (card_answers answer_events) default_modes 0 IOCTL_SET_RESET
      (SciArg default_parameters 0) idle_reader = Ok ((0, OutNothing), s') /\
    atr s' = example_record /\ unread s' = example_answer /\ byte_invert s' = convention 0x03 /\
    Z.testbit (reg s' ASC0_CTRL) 5 = (0x03 =? 0x03) /\ WWT s' = 9600 /\ ETU s' = 372 /\
    line_pins (io s') !! 6 = Some 0.
Proof.
  destruct idle_reader_ok as [I Hne].
  refine (example_outcome (convention 0x03) (0x03 =? 0x03)
    (map (decode (convention 0x03)) (concat (map arrives answer_events)))
    (sci_ioctl (card_answers answer_events) default_modes 0 IOCTL_SET_RESET
      (SciArg default_parameters 0) idle_reader) idle_reader (sci_answer (Event [0x03] 6)
    [Event [0x59; 0x5B; 0xFF; 0xCB; 0x6F; 0x69; 0xF6; 0xFF] 6] 0x03 [] default_modes
    (SciArg default_parameters 0) idle_reader I Hne answer_events_ok eq_refl (or_intror eq_refl)
    answer_events_length) example_decoded idle_reader_atr eq_refl).
Defined.

Lemma silent_outcome (outcome : res ((Z * sci_out) * sci line)) (s : sci line) :
  (exists f d, GetParameterF 0 (atr s) = Ok f /\ GetParameterD 0 (atr s) = Ok d /\
  if usable f d then
    exists s', outcome = Ok ((0, OutNothing), s') /\ atr s' = atr s /\ unread s' = [] /\
      byte_invert s' = NO_DEFINED /\ line_pins (io s') !! cmdvcc s = Some 0
  else outcome = Fault DivByZero) ->
  atr s = zero_ATR -> cmdvcc s = 6 ->
  exists s', outcome = Ok ((0, OutNothing), s') /\ unread s' = [] /\
    byte_invert s' = NO_DEFINED /\ line_pins (io s') !! 6 = Some 0.
Proof.
  intros (f & d & Hf & Hd & H) Ha Hv. rewrite Ha in Hf, Hd.
  assert (E : GetParameterF 0 zero_ATR = Ok 372 /\ GetParameterD 0 zero_ATR = Ok 1000000).
  { vm_compute. split; reflexivity. }
  destruct E as [Ef Ed]. rewrite Ef in Hf. rewrite Ed in Hd. injection Hf as <-. injection Hd as <-.
  destruct H as (s' & E & _ & Hu & Hi & Hp). exists s'. rewrite Hv in Hp. by split_and!.
Qed.

Lemma sci_silent_card_witness :
  exists s', sci_ioctl (fun _ => skip) default_modes 0 IOCTL_SET_RESET (SciArg default_parameters 0)
      idle_reader = Ok ((0, OutNothing), s') /\ unread s' = [] /\
    byte_invert s' = NO_DEFINED /\ line_pins (io s') !! 6 = Some 0.
Proof.
  destruct idle_reader_ok as [I Hne].
  refine (silent_outcome (sci_ioctl (fun _ => skip) default_modes 0 IOCTL_SET_RESET
      (SciArg default_parameters 0) idle_reader) idle_reader
    (sci_silent_card default_modes (SciArg default_parameters 0) idle_reader I Hne)
    idle_reader_atr eq_refl).
Defined.
