(* ===== verification/SciInv.v ===== *)
(** * Smart card reader: the invariant of the control block

    What every operation of the driver preserves, on any hardware and with
    anything happening while it sleeps, and what follows for the interrupt
    handler. *)
From S2P Require Import Prelude Atr SciState SciCtrl SciIrq SciParams SciCard SciFrame SciLine.

#[local] Arguments replicate : simpl never.

(** ** The invariant *)

Record good_parameters (p : SCI_PARAMETERS) : Prop := {
  gp_T : 0 <= p_T p <= 1;
  gp_ETU : 0 <= p_ETU p <= SCI_MAX_ETU;
  gp_CWT : 0 <= p_CWT p <= SCI_MAX_CWT;
  gp_BWT : 0 <= p_BWT p <= SCI_MAX_BWT;
  gp_EGT : 0 <= p_EGT p <= SCI_MAX_EGT;
  gp_stop : 0 <= p_clock_stop_polarity p <= 1
}.

Definition good_modes (m : SCI_MODES) : Prop :=
  0 <= emv2000 m <= 1 /\ 0 <= man_act m <= 1 /\ rw_mode m < 4.

(** Interrupts off, receiving, sending up to a FIFO, sending more. *)
Definition good_irq (mode : Z) : Prop := mode = 0 \/ mode = 1 \/ mode = 3 \/ mode = 7.

Section invariant.
Context {D : Type}.
Implicit Types s : sci D.

Record good s : Prop := {
  g_rbuf : length (read_buf s) = 1024%nat;
  g_ru8 : Forall is_u8 (read_buf s);
  g_wbuf : length (write_buf s) = 1024%nat;
  g_wu8 : Forall is_u8 (write_buf s);
  g_abuf : length (atr_buf s) = 33%nat;
  g_alen : is_u8 (atr_len s);
  g_atr : atr_shape (atr s);
  g_tx : 0 <= tx_wptr s <= tx_rptr s /\ tx_rptr s <= 1024;
  g_rx : 0 <= rx_rptr s <= 1024;
  g_rxw : is_u16 (rx_wptr s);
  g_irq : good_irq (irq_mode s);
  g_inv : byte_invert s = UNINVERT \/ byte_invert s = INVERT \/ byte_invert s = NO_DEFINED;
  g_inuse : 0 <= driver_inuse s <= 1;
  g_card : card_detect s = SCI_CARD_NOT_PRESENT \/ card_detect s = SCI_CARD_PRESENT;
  g_status : atr_status s = SCI_WITHOUT_ATR \/ atr_status s = SCI_ATR_READY;
  g_class : 0 <= sci_atr_class s <= 2;
  g_id : id_ s = 0;
  g_para : good_parameters (sci_parameters s);
  g_modes : good_modes (sci_modes s)
}.

Definition kept s s' : Prop := good s -> good s'.
#[export] Instance kept_preorder : PreOrder kept.
Proof. split; [by intros s H|intros s1 s2 s3 H1 H2 H; by apply H2, H1]. Qed.

Lemma zeroes n : Forall is_u8 (replicate n 0).
Proof. apply Forall_replicate. unfold is_u8. lia. Qed.

Lemma good_boot d : good (sci_boot d).
Proof.
  constructor; simpl; try (unfold is_u8, is_u16; lia); try (by left);
    try apply zeroes; try apply length_replicate.
  - split_and!; [done| |done]. by apply Forall_replicate.
  - constructor; split; by apply Z.leb_le.
  - split_and!; (by apply Z.leb_le) || (by apply Z.ltb_lt).
Qed.
End invariant.

(** Closes [kept s (f s)] where [f] changes other fields, or to values in range. *)
Ltac kept :=
  let H := fresh in
  intros H; destruct H; constructor; simpl; try assumption; auto with drv;
  try (unfold is_u8, is_u16, good_irq, SCI_CLASS_A, SCI_CLASS_B, SCI_UNKNOWN_CLASS in *; lia).

Section operations.
Context {D : Type} `{SciHw D}.
Implicit Types s : sci D.

Lemma is_u16_u16 x : is_u16 (u16 x).
Proof. unfold is_u16, u16. apply Z.mod_pos_bound. lia. Qed.
#[local] Hint Resolve is_u16_u16 : drv.

(** ** Registers, pins, clock and power *)

Lemma kept_io s d : kept s (s <| io := d |>).
Proof. kept. Qed.

Lemma do_kept f : keeps (@kept D) (hw_do f).
Proof. apply ends_keeps, (ends_do _ kept_io). Qed.
Lemma call_kept {A} (f : D -> A * D) : keeps (@kept D) (hw_call f).
Proof. apply ends_keeps, (ends_call _ kept_io). Qed.
Lemma set_pin_kept p v : keeps (@kept D) (set_pin p v).
Proof. apply ends_keeps, (ends_set_pin _ kept_io). Qed.
Lemma inl_kept a : keeps (@kept D) (ctrl_inl a).
Proof. apply ends_keeps, (ends_inl _ kept_io). Qed.
Lemma outl_kept v a : keeps (@kept D) (ctrl_outl v a).
Proof. apply do_kept. Qed.
Lemma get_reg_kept b r : keeps (@kept D) (get_reg b r).
Proof. apply ends_keeps, ends_with_reg; [apply _|]. intros. apply (ends_inl _ kept_io). Qed.
Lemma set_reg_kept b r bits mask : keeps (@kept D) (set_reg b r bits mask).
Proof. apply ends_keeps, (ends_set_reg _ kept_io). Qed.
Lemma set_reg_writeonly_kept b r bits : keeps (@kept D) (set_reg_writeonly b r bits).
Proof. apply ends_keeps, (ends_set_reg_writeonly _ kept_io). Qed.
#[local] Hint Resolve do_kept call_kept set_pin_kept inl_kept outl_kept get_reg_kept set_reg_kept
  set_reg_writeonly_kept : keeps.

Lemma on_controller_kept {A} n (f : BASE_ADDR -> Z -> M (sci D) A) other :
  (forall b i, keeps (@kept D) (f b i)) -> keeps (@kept D) other -> keeps (@kept D) (on_controller n f other).
Proof. intros Hf Ho. unfold on_controller. keeps; apply Hf. Qed.

Lemma set_serial_irq_kept t :
  t = RX_FULL_IRQ \/ t = RX_FULL_TX_EMPTY_IRQ \/ t = ALL_IRQS -> keeps (@kept D) (set_serial_irq t).
Proof.
  intros Ht. unfold set_serial_irq. keeps. apply on_controller_kept; [intros b i|]; keeps.
  intros []; constructor; simpl; try assumption. unfold good_irq.
  destruct Ht as [-> |[-> | ->]]; [by right; left|by right; right; left|by do 3 right].
Qed.
#[local] Hint Extern 2 (keeps _ (set_serial_irq _)) => apply set_serial_irq_kept; auto : keeps.
#[local] Hint Extern 2 (keeps _ (on_controller _ _ _)) =>
  apply on_controller_kept; [intros|]; keeps; kept : keeps.

Lemma mapped_kept a (m : M (sci D) Z) : keeps (@kept D) m -> keeps (@kept D) (mapped a m).
Proof. intros Hm. unfold mapped, checked_ioremap. keeps. Qed.
#[local] Hint Resolve mapped_kept : keeps.
#[local] Hint Extern 2 (keeps _ (mapped _ _)) => apply mapped_kept; keeps : keeps.
Lemma SCI_ClockEnable_kept : keeps (@kept D) SCI_ClockEnable.
Proof. apply ends_keeps, (ends_clock_enable _ kept_io). Qed.
Lemma SCI_ClockDisable_kept : keeps (@kept D) SCI_ClockDisable.
Proof. unfold SCI_ClockDisable, SCI_n_CLK_CTRL. keeps. Qed.
Lemma SCI_SetClockSource_kept : keeps (@kept D) SCI_SetClockSource.
Proof. apply ends_keeps, (ends_clock_source _ kept_io). Qed.
Lemma SCI_Set_Clock_kept : keeps (@kept D) SCI_Set_Clock.
Proof. unfold SCI_Set_Clock. keeps. Qed.
Lemma fifo_reset_kept asc : keeps (@kept D) (fifo_reset asc).
Proof. apply ends_keeps, (ends_fifo_reset _ kept_io). Qed.
Lemma asc_defaults_kept asc bits mask : keeps (@kept D) (asc_defaults asc bits mask).
Proof. apply ends_keeps, (ends_asc_defaults _ kept_io). Qed.
Lemma voltage_kept v : keeps (@kept D) (smartcard_voltage_config v).
Proof. unfold smartcard_voltage_config. keeps. Qed.
Lemma sci_cb_init_kept : keeps (@kept D) sci_cb_init.
Proof.
  unfold sci_cb_init. keeps. kept.
  - constructor; split; by apply Z.leb_le.
  - split_and!; (by apply Z.leb_le) || (by apply Z.ltb_lt).
Qed.
Lemma init_cond_kept : keeps (@kept D) SCI_CHECK_INIT_COND.
Proof. unfold SCI_CHECK_INIT_COND. keeps. Qed.
Lemma card_present_kept : keeps (@kept D) sci_is_card_present.
Proof. unfold sci_is_card_present. keeps. Qed.
#[local] Hint Resolve SCI_ClockEnable_kept SCI_ClockDisable_kept SCI_SetClockSource_kept
  SCI_Set_Clock_kept fifo_reset_kept asc_defaults_kept voltage_kept sci_cb_init_kept
  init_cond_kept card_present_kept : keeps.

(** ** Reception and transmission *)

Lemma table_bytes : Forall is_u8 byte_invert_table.
Proof. unfold byte_invert_table. repeat apply Forall_cons_2; [unfold is_u8; lia..|constructor]. Qed.

Lemma with_convention_u8 inv b r : with_convention inv b = Ok r -> is_u8 b -> is_u8 r.
Proof.
  unfold with_convention. destruct (inv =? INVERT); [|by intros [= ->]].
  intros (_ & H1)%aget_Ok _. exact (Forall_lookup_1 _ _ _ _ table_bytes H1).
Qed.

(** Storing a byte keeps the length of the buffer, and only succeeds inside. *)
Lemma rx_push_kept inv data :
  keeps (@kept D) (data ← lift (with_convention inv (u8 data));
    b ← gets read_buf; p ← gets rx_rptr; b ← lift (aset b p data);
    modify (fun s => s <| read_buf := b |> <| rx_rptr := u16 (rx_rptr s + 1) |>)).
Proof.
  intros s a s' E Hs. apply M_bind_Ok in E as (c & ? & (? & Hc & [= <- <-])%lift_Ok & E).
  apply with_convention_u8 in Hc; [|apply is_u8_u8].
  do 2 rewrite (M_bind_run _ _ _ _ _ eq_refl) in E.
  apply M_bind_Ok in E as (b & ? & (? & Hb & [= <- <-])%lift_Ok & [= <- <-]).
  apply aset_Ok in Hb as [Hp ->]. revert Hs. kept; [by rewrite length_insert|by apply Forall_insert|].
  unfold u16. rewrite Z.mod_small by lia. lia.
Qed.

Lemma rx_store_kept data : keeps (@kept D) (rx_store data).
Proof.
  unfold rx_store. do 3 (apply keeps_bind; [apply _|keeps; kept|intros ?]).
  apply keeps_bind; [apply _|keeps|intros inv]. apply rx_push_kept.
Qed.
#[local] Hint Resolve rx_store_kept : keeps.
Lemma red_read_kept : keeps (@kept D) red_read.
Proof. unfold red_read. generalize 16%nat. intros n. induction n; simpl; keeps. Qed.
Lemma unmask_kept asc : keeps (@kept D) (unmask_irq asc).
Proof. unfold unmask_irq. keeps. Qed.
#[local] Hint Resolve red_read_kept unmask_kept : keeps.
Lemma rx_loop_kept asc fuel : forall res, keeps (@kept D) (rx_loop fuel asc res).
Proof. induction fuel; intros res; simpl; keeps. Qed.
#[local] Hint Resolve rx_loop_kept : keeps.

(** Register accesses end and only touch the hardware. *)
Definition io_only s s' : Prop := exists d, s' = s <| io := d |>.

Lemma io_only_good s s' : io_only s s' -> good s -> good s'.
Proof. intros [d ->]. kept. Qed.

#[local] Instance io_only_preorder : PreOrder io_only.
Proof.
  split; [intros s; exists (io s); by destruct s|]. intros s1 s2 s3 [d ->] [e ->]. by exists e.
Qed.
Lemma io_only_io s d : io_only s (s <| io := d |>).
Proof. by exists d. Qed.

Lemma runs_serial_irq t s (Q : unit -> sci D -> Prop) :
  good s -> t = RX_FULL_IRQ \/ t = RX_FULL_TX_EMPTY_IRQ \/ t = ALL_IRQS ->
  (forall s', io_only (s <| irq_mode := t |>) s' -> Q tt s') -> runs (set_serial_irq t) s Q.
Proof.
  intros Hs Ht HQ. unfold set_serial_irq. runs_step. apply runs_gets. rewrite (g_id s Hs).
  cbn [on_controller Z.eqb]. replace (_ || _) with true by by destruct Ht as [-> |[-> | ->]].
  runs_step. apply runs_modify.
  eapply runs_conseq; [apply (ends_set_reg io_only io_only_io)|by intros []].
Qed.

Lemma with_convention_in inv b : is_u8 b -> exists r, with_convention inv b = Ok r /\ is_u8 r.
Proof.
  intros Hb. assert (E : exists r, with_convention inv b = Ok r).
  { unfold with_convention. destruct (inv =? INVERT); [|by exists b]. by apply aget_in. }
  destruct E as [r E]. exists r. split; [done|]. by eapply with_convention_u8.
Qed.

(** The bytes between the transmit pointers can always be sent. *)
Lemma runs_tx_bytes asc n : forall s (Q : unit -> sci D -> Prop),
  good s -> tx_wptr s + Z.of_nat n <= tx_rptr s ->
  (forall s', good s' -> tx_rptr s' = tx_rptr s -> tx_wptr s' = tx_wptr s + Z.of_nat n -> Q tt s') ->
  runs (tx_bytes n asc) s Q.
Proof.
  induction n as [|n IH]; intros s Q Hs Hn HQ; simpl; [apply runs_skip, HQ; [done|done|lia]|].
  pose proof (g_tx s Hs) as Htx. pose proof (g_wbuf s Hs) as Hwb.
  destruct (aget_in (write_buf s) (tx_wptr s)) as [b Hb]; [lia|].
  destruct (with_convention_in (byte_invert s) b) as (c & Hc & _).
  { by apply (aget_Forall _ _ _ _ (g_wu8 s Hs) Hb). }
  do 3 (runs_step; apply runs_gets). runs_step. apply (runs_lift _ _ _ _ Hb).
  runs_step. apply (runs_lift _ _ _ _ Hc). eapply runs_ends;
    [apply (ends_set_reg_writeonly io_only io_only_io)|intros _ s1 H1].
  assert (G1 : good s1) by by eapply io_only_good.
  assert (K : tx_rptr s1 = tx_rptr s /\ tx_wptr s1 = tx_wptr s) by (by destruct H1 as [d ->]).
  destruct K as [Kr Kw]. runs_step. apply runs_modify.
  assert (Hu : u16 (tx_wptr s1 + 1) = tx_wptr s + 1).
  { rewrite Kw. unfold u16. apply Z.mod_small. lia. }
  apply IH; simpl; rewrite ?Kr, ?Hu; [|lia|].
  - revert G1. kept.
  - intros s' G' Hr Hw. apply HQ; [done|done|lia].
Qed.

Lemma runs_tx_fill asc n s (Q : unit -> sci D -> Prop) :
  good s -> 0 <= n < 256 -> (forall s', good s' -> Q tt s') -> runs (tx_fill asc n) s Q.
Proof.
  intros Hs Hn HQ. pose proof (g_tx s Hs) as Htx. unfold tx_fill. do 2 (runs_step; apply runs_gets).
  set (size := if n <? tx_rptr s - tx_wptr s then n else tx_rptr s - tx_wptr s).
  assert (Hz : 0 <= size < 256 /\ size <= tx_rptr s - tx_wptr s).
  { unfold size. destruct (Z.ltb_spec n (tx_rptr s - tx_wptr s)); lia. }
  unfold u8. rewrite (Z.mod_small size) by (change (2 ^ 8) with 256; lia). clearbody size.
  runs_step. apply runs_tx_bytes; [done|lia|]. intros s1 G1 _ _.
  do 2 (runs_step; apply runs_gets). unfold when. destruct (_ =? _); [|by apply runs_skip, HQ].
  apply runs_serial_irq; [done|by left|]. intros s2 H2. apply HQ.
  apply (io_only_good _ _ H2). revert G1. kept. by right; left.
Qed.

Lemma runs_tx_part asc res s (Q : unit -> sci D -> Prop) :
  good s -> (forall s', good s' -> Q tt s') -> runs (tx_part asc res) s Q.
Proof.
  intros Hs HQ. unfold tx_part. runs_step. apply runs_gets. cbv zeta. unfold when.
  repeat (case_match; [try (apply runs_tx_fill; [done|done|done])|]); by apply runs_skip, HQ.
Qed.
Lemma tx_part_kept asc res : keeps (@kept D) (tx_part asc res).
Proof.
  intros s a s' E Hs. apply (runs_inv _ _ _ _ (fun _ => good) (runs_tx_part asc res s _ Hs (fun _ G => G)) E).
Qed.
#[local] Hint Resolve tx_part_kept : keeps.
Lemma irq_handler_kept asc : keeps (@kept D) (sci_irq_rx_tx_handler asc).
Proof. unfold sci_irq_rx_tx_handler. keeps. destruct a2; keeps. Qed.

(** ** Operations that sleep *)

Variable delay : Z -> M (sci D) unit.
Hypothesis delay_kept : forall ms, keeps (@kept D) (delay ms).

Lemma wait_while_kept waiting nonblock fuel : keeps (@kept D) (wait_while delay waiting nonblock fuel).
Proof. induction fuel; simpl; keeps. Qed.
#[local] Hint Resolve wait_while_kept : keeps.
Lemma wait_more_kept n length : keeps (@kept D) (wait_more delay n length).
Proof. induction n as [|n IH]; simpl; keeps. destruct n; keeps. Qed.
#[local] Hint Resolve wait_more_kept : keeps.
Lemma sci_read_kept fuel nonblock length : keeps (@kept D) (sci_read delay fuel nonblock length).
Proof. unfold sci_read. keeps; kept. Qed.

Lemma sci_write_kept fuel nonblock id user length :
  Forall is_u8 user -> 0 <= length -> keeps (@kept D) (sci_write delay fuel nonblock id user length).
Proof.
  intros Hu Hl. unfold sci_write. cbv zeta.
  set (count := if length <=? SCI_BUFFER_SIZE then length else SCI_BUFFER_SIZE).
  assert (Hc : 0 <= count <= 1024).
  { unfold count, SCI_BUFFER_SIZE. destruct (Z.leb_spec length 0x400); lia. }
  assert (Hn : u16 count = count) by (unfold u16; apply Z.mod_small; lia).
  rewrite Hn. clearbody count. keeps; [|kept].
  set (got := take (Z.to_nat count) user).
  assert (Hg : (List.length got <= 1024)%nat) by (unfold got; rewrite length_take; lia).
  kept; [rewrite length_app, length_drop, length_replicate; unfold SCI_BUFFER_SIZE; lia|].
  apply Forall_app. split; [by apply Forall_take|apply Forall_drop, zeroes].
Qed.
Lemma sci_poll_kept : keeps (@kept D) sci_poll.
Proof. unfold sci_poll. keeps. Qed.
Lemma sci_read_buf_kept n : keeps (@kept D) (sci_read_buf n).
Proof. unfold sci_read_buf. keeps. kept. Qed.
#[local] Hint Resolve sci_poll_kept sci_read_buf_kept sci_read_kept irq_handler_kept : keeps.

(** ** Clock, reset and parameters *)

Lemma clock_config_kept c : keeps (@kept D) (smartcard_clock_config delay c).
Proof. unfold smartcard_clock_config. keeps. kept. Qed.
Lemma smartcard_reset_kept : keeps (@kept D) (smartcard_reset delay).
Proof. unfold smartcard_reset. keeps. Qed.
#[local] Hint Resolve clock_config_kept smartcard_reset_kept : keeps.
Lemma hw_init_kept : keeps (@kept D) (sci_hw_init delay).
Proof. unfold sci_hw_init. keeps. Qed.
Lemma sci_reset_kept : keeps (@kept D) (sci_reset delay).
Proof. unfold sci_reset. keeps. Qed.
#[local] Hint Resolve hw_init_kept sci_reset_kept : keeps.

Lemma set_para_kept f :
  (forall p, good_parameters p -> good_parameters (f p)) -> keeps (@kept D) (set_para f).
Proof. intros Hf. unfold set_para. keeps. kept. Qed.

(** A parameter is only stored when it is in range. *)
Ltac para :=
  apply set_para_kept; intros q Hq; destruct Hq; constructor; simpl; try assumption.

Lemma get_para_kept f : keeps (@kept D) (get_para f).
Proof. unfold get_para. keeps. Qed.
#[local] Hint Resolve get_para_kept : keeps.
Lemma by_controller_kept f : (forall asc, keeps (@kept D) (f asc)) -> keeps (@kept D) (by_controller f).
Proof. intros Hf. unfold by_controller. keeps. Qed.
#[local] Hint Extern 2 (keeps _ (by_controller _)) => apply by_controller_kept; intros ?; keeps : keeps.
Lemma set_mode_0_kept asc d : keeps (@kept D) (set_mode_0 asc d).
Proof. unfold set_mode_0. keeps. Qed.
Lemma set_mode_1_kept asc d : keeps (@kept D) (set_mode_1 asc d).
Proof. unfold set_mode_1. keeps. Qed.
Lemma calc_mode_0_kept asc d : keeps (@kept D) (calc_mode_0 asc d).
Proof. unfold calc_mode_0. keeps. Qed.
Lemma calc_mode_1_kept asc d : keeps (@kept D) (calc_mode_1 asc d).
Proof. unfold calc_mode_1. keeps. Qed.
#[local] Hint Resolve set_mode_0_kept set_mode_1_kept calc_mode_0_kept calc_mode_1_kept : keeps.
Lemma set_req_baud_kept b : keeps (@kept D) (set_req_baud b).
Proof. unfold set_req_baud. keeps. Qed.
Lemma ETU_table_kept p : keeps (@kept D) (sci_set_para_ETU_table p).
Proof. unfold sci_set_para_ETU_table. keeps. Qed.
#[local] Hint Resolve set_req_baud_kept ETU_table_kept : keeps.

(** The common form of the setters. *)
Lemma guarded_kept f b (k : Z -> M (sci D) unit) :
  (b = true -> forall t, keeps (@kept D) (k t)) ->
  keeps (@kept D) (t ← get_para f; when b (k t);; mret SCI_ERROR_OK).
Proof.
  intros Hk. apply keeps_bind; [apply _|keeps|intros t]. apply keeps_bind; [apply _| |intros; keeps].
  destruct b; [by apply Hk|apply keeps_skip; apply _].
Qed.

Lemma in_range_true v lo hi : in_range v lo hi = true -> lo <= v <= hi.
Proof. unfold in_range. intros [?%Z.leb_le ?%Z.leb_le]%andb_true_iff. done. Qed.

Lemma set_T_kept p : keeps (@kept D) (sci_set_para_T p).
Proof.
  unfold sci_set_para_T. apply guarded_kept. intros E t. keeps. para.
  apply orb_true_iff in E as [E%Z.eqb_eq|E%Z.eqb_eq]; lia.
Qed.
Lemma set_f_kept p : keeps (@kept D) (sci_set_para_f p).
Proof. unfold sci_set_para_f, sci_atom_set_para_f. keeps. para. Qed.
Lemma set_ETU_kept p : keeps (@kept D) (sci_set_para_ETU delay p).
Proof.
  unfold sci_set_para_ETU. destruct (in_range _ _ _) eqn:E; [|keeps]. apply in_range_true in E.
  keeps; [para; unfold SCI_MIN_ETU in E; lia|]. destruct (if _ : bool then _ else _); keeps.
Qed.
Lemma set_CWT_kept p : keeps (@kept D) (sci_set_para_CWT p).
Proof.
  unfold sci_set_para_CWT. apply guarded_kept. intros E%in_range_true t. keeps. para.
  unfold SCI_MIN_CWT in E. lia.
Qed.
Lemma set_BWT_kept p : keeps (@kept D) (sci_set_para_BWT p).
Proof.
  unfold sci_set_para_BWT. apply guarded_kept. intros E%in_range_true t. keeps. para.
  unfold SCI_MIN_BWT in E. lia.
Qed.
Lemma set_EGT_kept p : keeps (@kept D) (sci_set_para_EGT p).
Proof.
  unfold sci_set_para_EGT. destruct (in_range _ _ _) eqn:E; [|keeps]. apply in_range_true in E.
  keeps. by para.
Qed.
Lemma set_CLK_kept p : keeps (@kept D) (sci_set_para_CLK_p p).
Proof.
  unfold sci_set_para_CLK_p. cbv zeta. apply guarded_kept. intros E t. keeps. para.
  apply orb_true_iff in E as [E%Z.eqb_eq|E%Z.eqb_eq]; lia.
Qed.
Lemma set_class_kept p : keeps (@kept D) (sci_set_para_class p).
Proof. unfold sci_set_para_class. keeps. para. Qed.
#[local] Hint Resolve set_T_kept set_f_kept set_ETU_kept set_CWT_kept set_BWT_kept set_EGT_kept
  set_CLK_kept set_class_kept : keeps.
Lemma sci_set_para_kept p : keeps (@kept D) (sci_set_para delay p).
Proof. unfold sci_set_para, sci_set_para_check. keeps; para. Qed.
#[local] Hint Resolve sci_set_para_kept : keeps.
Lemma set_parameters_kept p : keeps (@kept D) (sci_set_parameters delay p).
Proof. unfold sci_set_parameters, sci_is_card_activated. keeps. Qed.
Lemma get_parameters_kept : keeps (@kept D) sci_get_parameters.
Proof. unfold sci_get_parameters. keeps. Qed.
#[local] Hint Resolve set_parameters_kept get_parameters_kept : keeps.

(** ** The answer to reset *)

Lemma parse_atr_kept : keeps (@kept D) parse_atr.
Proof. unfold parse_atr. keeps; kept. Qed.
Lemma peek_kept i : keeps (@kept D) (peek i).
Proof. unfold peek. keeps. Qed.
#[local] Hint Resolve parse_atr_kept peek_kept : keeps.
Lemma class_b_kept : keeps (@kept D) answer_of_class_b.
Proof. unfold answer_of_class_b. keeps. Qed.

Lemma on_atr_kept b n : keeps (@kept D) (on_atr (ATR_InitFromArray b n)).
Proof.
  intros s a s'. unfold on_atr. destruct (ATR_InitFromArray b n (atr s)) as [[c r]|] eqn:E; [|done].
  intros [= <- <-]. kept. by eapply ATR_InitFromArray_shape.
Qed.
#[local] Hint Resolve class_b_kept on_atr_kept : keeps.

Lemma copy_atr_kept {A} b n (k : list Z -> M (sci D) A) :
  (forall t, keeps (@kept D) (k t)) ->
  keeps (@kept D) (t ← gets atr_buf; t ← lift (amemcpy t 0 b 0 n);
    modify (fun s => s <| atr_buf := t |>);; k t).
Proof.
  intros Hk s a s' E Hs. rewrite (M_bind_run _ _ _ _ _ eq_refl) in E.
  apply M_bind_Ok in E as (t & ? & (? & Ht & [= <- <-])%lift_Ok & E).
  apply amemcpy_length in Ht. rewrite (M_bind_run _ _ _ _ _ eq_refl) in E.
  apply (Hk _ _ _ _ E). revert Hs. kept.
Qed.

Lemma check_atr_kept : keeps (@kept D) check_atr.
Proof.
  unfold check_atr. do 2 (apply keeps_bind; [apply _|keeps|intros _ || intros low]).
  apply keeps_bind; [apply _|keeps; kept|intros _].
  do 2 (apply keeps_bind; [apply _|keeps|intros ?]). apply copy_atr_kept. intros t. keeps.
Qed.
Lemma reset_rc_kept : keeps (@kept D) (reset_rc delay).
Proof. unfold reset_rc. keeps. Qed.
#[local] Hint Resolve check_atr_kept reset_rc_kept : keeps.

Lemma clear_read_buf_kept :
  keeps (@kept D) (modify (fun s => s <| read_buf := replicate (Z.to_nat SCI_BUFFER_SIZE) 0 |>)).
Proof. keeps. kept. apply zeroes. Qed.
Lemma set_etu_kept :
  keeps (@kept D) (modify (fun s => s <| sci_parameters := (sci_parameters s) <| p_ETU := 372 |> |>)).
Proof.
  keeps. kept. destruct g_para0. constructor; simpl; try assumption. split; by apply Z.leb_le.
Qed.
#[local] Hint Resolve clear_read_buf_kept set_etu_kept : keeps.
Lemma detect_ATR_kept : keeps (@kept D) (detect_ATR delay).
Proof.
  unfold detect_ATR. apply keeps_bind; [apply _|keeps|intros _].
  apply keeps_bind; [apply _|keeps|intros n]. apply on_controller_kept; [intros asc _|keeps].
  do 5 (apply keeps_bind; [apply _|keeps|intros ?]). apply keeps_if; [keeps|].
  apply keeps_bind; [apply _|apply clear_read_buf_kept|intros _].
  do 2 (apply keeps_bind; [apply _|keeps|intros _]).
  apply keeps_bind; [apply _|apply set_etu_kept|intros _]. keeps.
Qed.
#[local] Hint Resolve detect_ATR_kept : keeps.

(** ** Modes, device file, ioctl *)

Lemma modes_kept b f :
  (forall m, b = true -> good_modes m -> good_modes (f m)) ->
  keeps (@kept D) (when b (modify (fun s => s <| sci_modes := f (sci_modes s) |>))).
Proof.
  intros Hf. destruct b; [|apply keeps_skip; apply _]. unfold when. keeps. kept.
Qed.

Lemma set_modes_kept p : keeps (@kept D) (sci_set_modes p).
Proof.
  assert (F : forall v, (v =? 0) || (v =? 1) = true -> 0 <= v <= 1).
  { intros v [E%Z.eqb_eq|E%Z.eqb_eq]%orb_true_iff; lia. }
  unfold sci_set_modes. cbv zeta. apply keeps_bind; [apply _|keeps|intros i].
  apply keeps_if; [keeps|]. apply keeps_bind; [apply _|keeps|intros n].
  apply keeps_if; [|keeps].
  apply keeps_bind; [apply _|apply modes_kept; intros m E%F Hm; unfold good_modes in *; simpl; tauto|intros _].
  apply keeps_bind; [apply _|apply modes_kept; intros m E%F Hm; unfold good_modes in *; simpl; tauto|intros _].
  apply keeps_bind; [apply _|apply modes_kept; intros m E%Z.ltb_lt Hm;
    unfold good_modes in *; simpl; tauto|intros _].
  keeps.
Qed.
Lemma get_modes_kept : keeps (@kept D) sci_get_modes.
Proof. unfold sci_get_modes. keeps. Qed.
Lemma when_activated_kept m : keeps (@kept D) m -> keeps (@kept D) (when_activated m).
Proof. intros Hm. unfold when_activated, sci_is_card_activated. keeps. Qed.
Lemma clock_stop_kept : keeps (@kept D) sci_clock_stop.
Proof. apply when_activated_kept. keeps. Qed.
Lemma clock_start_kept : keeps (@kept D) sci_clock_start.
Proof. apply when_activated_kept. keeps. Qed.
#[local] Hint Resolve set_modes_kept get_modes_kept clock_stop_kept clock_start_kept : keeps.

Lemma sci_open_kept minor : keeps (@kept D) (sci_open minor).
Proof.
  unfold sci_open. apply keeps_if; [|keeps]. intros s a s' E.
  rewrite (M_bind_run _ _ _ _ _ eq_refl) in E. destruct (Z.eqb_spec (driver_inuse s) 0) as [H0|];
    injection E as _ <-; [|reflexivity].
  kept. rewrite H0. change (u32 (0 + 1)) with 1. lia.
Qed.
Lemma sci_close_kept minor : keeps (@kept D) (sci_close minor).
Proof.
  unfold sci_close. apply keeps_if; [|keeps]. intros s a s' E.
  assert (T : forall rc : Z, keeps (@kept D) (set_pin cmdvcc 1;; mret rc)) by (intros rc; keeps).
  rewrite (M_bind_run _ _ _ _ _ eq_refl) in E.
  destruct (Z.ltb_spec 0 (driver_inuse s)); rewrite (M_bind_run _ _ _ _ _ eq_refl) in E;
    intros Hs; apply (T _ _ _ _ E); [|done].
  revert Hs. kept.
Qed.
Lemma set_parity_kept n : keeps (@kept D) (set_parity n).
Proof. unfold set_parity. keeps. Qed.
#[local] Hint Resolve sci_open_kept sci_close_kept set_parity_kept : keeps.
Lemma ioctl_reset_kept n : keeps (@kept D) (ioctl_reset delay n).
Proof. unfold ioctl_reset. keeps. Qed.
#[local] Hint Resolve ioctl_reset_kept : keeps.
Lemma sci_ioctl_kept stack n num arg : keeps (@kept D) (sci_ioctl delay stack n num arg).
Proof. unfold sci_ioctl, sci_deactivate. cbv zeta. keeps. kept. Qed.

(** ** Card detection, initialisation and exit *)

Lemma clear_buffers_kept : keeps (@kept D) clear_buffers.
Proof. unfold clear_buffers. keeps. kept; apply zeroes. Qed.
#[local] Hint Resolve clear_buffers_kept sci_ioctl_kept : keeps.
Lemma detect_change_kept : keeps (@kept D) (sci_detect_change delay).
Proof. unfold sci_detect_change. keeps. kept. Qed.
#[local] Hint Resolve detect_change_kept : keeps.
Lemma detect_pass_kept last : keeps (@kept D) (sci_detect_pass delay last).
Proof. unfold sci_detect_pass. keeps. kept. destruct (truthy _); auto. Qed.
Lemma detect_start_kept : keeps (@kept D) sci_detect_start.
Proof. unfold sci_detect_start. keeps. kept. Qed.
Lemma detect_end_kept : keeps (@kept D) sci_detect_end.
Proof. unfold sci_detect_end. keeps. kept. Qed.
Lemma wait_thread_kept fuel : keeps (@kept D) (wait_thread delay fuel).
Proof. induction fuel; simpl; keeps. Qed.
#[local] Hint Resolve wait_thread_kept : keeps.
Lemma free_pin_kept p f : (forall s, kept s (f s)) -> keeps (@kept D) (free_pin p f).
Proof. intros Hf. unfold free_pin. keeps. apply Hf. Qed.
#[local] Hint Extern 2 (keeps _ (free_pin _ _)) => apply free_pin_kept; intros ?; kept : keeps.
Lemma sci_exit_kept fuel : keeps (@kept D) (sci_exit delay fuel).
Proof. unfold sci_exit. keeps; kept. Qed.
Lemma request_pin_kept n dir : keeps (@kept D) (request_pin n dir).
Proof. unfold request_pin. keeps. Qed.
#[local] Hint Resolve sci_exit_kept request_pin_kept : keeps.
Lemma io_init_kept : keeps (@kept D) SCI_IO_init.
Proof. unfold SCI_IO_init. keeps; kept. Qed.
Lemma irq_install_kept : keeps (@kept D) sci_irq_install.
Proof. unfold sci_irq_install. keeps. Qed.
#[local] Hint Resolve io_init_kept irq_install_kept : keeps.
Lemma sci_init_kept fuel : keeps (@kept D) (sci_init delay fuel).
Proof. unfold sci_init. keeps; kept. Qed.
End operations.

(** ** Interleavings

    An operation that sleeps lets the rest of the system run: other operations,
    interrupts and the hardware, some of which sleep in their turn. *)

Inductive sci_event (D : Type) :=
  | EvHardware (f : D -> D)
  | EvInterrupt (asc : BASE_ADDR)
  | EvInit (fuel : nat)
  | EvExit (fuel : nat)
  | EvThreadStart
  | EvThreadPass (last_status : Z)
  | EvThreadEnd
  | EvOpen (minor : Z)
  | EvClose (minor : Z)
  | EvRead (fuel : nat) (nonblock : bool) (length : Z)
  | EvWrite (fuel : nat) (nonblock : bool) (sci_id : Z) (user : list Z) (length : Z)
  | EvPoll
  | EvReadBuf (num_bytes : Z)
  | EvIoctl (stack : SCI_MODES) (sci_id ioctl_num : Z) (arg : sci_arg).
Arguments EvHardware {D} _.
Arguments EvInterrupt {D} _.
Arguments EvInit {D} _.
Arguments EvExit {D} _.
Arguments EvThreadStart {D}.
Arguments EvThreadPass {D} _.
Arguments EvThreadEnd {D}.
Arguments EvOpen {D} _.
Arguments EvClose {D} _.
Arguments EvRead {D} _ _ _.
Arguments EvWrite {D} _ _ _ _ _.
Arguments EvPoll {D}.
Arguments EvReadBuf {D} _.
Arguments EvIoctl {D} _ _ _ _.

(** What a caller writes are bytes, and their number is unsigned. *)
Definition event_fits {D} (e : sci_event D) : Prop :=
  match e with EvWrite _ _ _ user length => Forall is_u8 user /\ 0 <= length | _ => True end.

Section system.
Context {D : Type} `{SciHw D}.
Implicit Types s : sci D.

Definition run_event (delay : Z -> M (sci D) unit) (e : sci_event D) : M (sci D) unit :=
  match e with
  | EvHardware f => hw_do f
  | EvInterrupt asc => sci_irq_rx_tx_handler asc
  | EvInit fuel => sci_init delay fuel;; skip
  | EvExit fuel => sci_exit delay fuel
  | EvThreadStart => sci_detect_start
  | EvThreadPass last => sci_detect_pass delay last;; skip
  | EvThreadEnd => sci_detect_end
  | EvOpen minor => sci_open minor;; skip
  | EvClose minor => sci_close minor;; skip
  | EvRead fuel nonblock length => sci_read delay fuel nonblock length;; skip
  | EvWrite fuel nonblock id user length => sci_write delay fuel nonblock id user length;; skip
  | EvPoll => sci_poll;; skip
  | EvReadBuf n => sci_read_buf n;; skip
  | EvIoctl stack n num arg => sci_ioctl delay stack n num arg;; skip
  end.

Fixpoint run_events (delay : Z -> M (sci D) unit) (es : list (sci_event D)) : M (sci D) unit :=
  match es with [] => skip | e :: es => run_event delay e;; run_events delay es end.

(** What happens during the sleeps, [n] sleeps deep: [world k ms] are the events
    of a sleep of [ms] that has [k] more levels below it. *)
Fixpoint asleep (world : nat -> Z -> list (sci_event D)) (n : nat) (ms : Z) : M (sci D) unit :=
  match n with
  | O => skip
  | S n => run_events (asleep world n) (world n ms)
  end.

Inductive sci_step : relation (sci D) :=
  | step_event world n e s s' :
      (forall k ms, Forall event_fits (world k ms)) -> event_fits e ->
      run_event (asleep world n) e s = Ok (tt, s') -> sci_step s s'.

Lemma run_event_kept delay e :
  (forall ms, keeps (@kept D) (delay ms)) -> event_fits e -> keeps (@kept D) (run_event delay e).
Proof.
  intros Hd He. destruct e; simpl; try destruct He;
    try (apply keeps_bind; [apply _| |intros; apply keeps_skip; apply _]).
  all: auto using do_kept, irq_handler_kept, sci_init_kept, sci_exit_kept, detect_start_kept,
    detect_pass_kept, detect_end_kept, sci_open_kept, sci_close_kept, sci_read_kept, sci_write_kept,
    sci_poll_kept, sci_read_buf_kept, sci_ioctl_kept.
Qed.

Lemma run_events_kept delay es :
  (forall ms, keeps (@kept D) (delay ms)) -> Forall event_fits es -> keeps (@kept D) (run_events delay es).
Proof.
  intros Hd. induction 1 as [|e es He _ IH]; simpl; [apply keeps_skip; apply _|].
  apply keeps_bind; [apply _|by apply run_event_kept|done].
Qed.

Lemma asleep_kept world n :
  (forall k ms, Forall event_fits (world k ms)) -> forall ms, keeps (@kept D) (asleep world n ms).
Proof.
  intros Hw. induction n as [|n IH]; intros ms; simpl; [apply keeps_skip; apply _|].
  by apply run_events_kept.
Qed.

Lemma sci_step_kept s s' : sci_step s s' -> kept s s'.
Proof. intros [world n e s1 s2 Hw He E]. by apply (run_event_kept _ _ (asleep_kept world n Hw) He _ _ _ E). Qed.
End system.

(** C5. The invariant of the card reader: however the operations of the driver
    and of its users, the interrupts and the hardware follow each other, also
    while an operation sleeps, the buffers keep their sizes and hold bytes, the
    two positions in the transmit buffer stay inside it and in order, the
    receive position stays inside the receive buffer, and every other field
    stays among the values it is meant to take. So the transmitting half of the
    interrupt handler can run at any moment, whatever status it sees, without an
    access out of bounds. Of the position reads start from, rx_wptr, only the
    width is kept: the code lets it pass the received bytes and the buffer. *)
Theorem sci_invariant {D} `{SciHw D} (d : D) s :
  rtc sci_step (sci_boot d) s ->
  good s /\ forall asc res, exists s', tx_part asc res s = Ok (tt, s') /\ good s'.
Proof.
  intros R. assert (G : good s).
  { assert (K : kept (sci_boot d) s); [|exact (K (good_boot d))].
    induction R as [|s1 s2 s3 S1 _ IH]; [reflexivity|].
    transitivity s2; [by apply sci_step_kept|done]. }
  split; [done|]. intros asc res. apply (runs_value good).
  apply runs_tx_part; [done|]. by split.
Qed.

(** ** Example *)

(** The module is loaded; an interrupt comes in while the clock settles. *)
Definition example_box : line := Line [0x3B] 6 [] ∅ {[8 := 1]}.
Definition example_world (k : nat) (ms : Z) : list (sci_event line) :=
  if ms =? 3 then [EvInterrupt BASE_ADDRESS_ASC0] else [].
Definition after_init : sci line :=
  match run_event (asleep example_world 1) (EvInit 0) (sci_boot example_box) with
  | Ok (_, s) => s
  | Fault _ => sci_boot example_box
  end.

Lemma after_init_reached : sci_step (sci_boot example_box) after_init.
Proof.
  apply (step_event example_world 1 (EvInit 0)); [|done|vm_compute; reflexivity].
  intros k ms. unfold example_world. destruct (ms =? 3); by repeat constructor.
Qed.

Lemma sci_invariant_witness :
  good after_init /\ forall asc res, exists s', tx_part asc res after_init = Ok (tt, s') /\ good s'.
Proof. apply (sci_invariant example_box), rtc_once, after_init_reached. Defined.
