(* ===== verification/SciTune.v ===== *)
(** * Smart card reader: setting and reading the communication parameters

    Which of the parameters of IOCTL_SET_PARAMETERS take effect, for the
    functions of [SciParams] behind the ioctl of [SciCard]. *)
From S2P Require Import Prelude Atr SciState SciCtrl SciIrq SciParams SciCard SciFrame SciLine.

(** ** The frequency search *)

(** The divisor at which the search for a frequency of at most [f] stops. *)
Definition stop_divisor (f : Z) : Z := 31500000 / (f + 1) + 1.

Lemma stop_divisor_spec f k :
  0 <= f -> 0 < k -> (f <? __STB_SYS_CLK / (2 * k)) = (k <? stop_divisor f).
Proof.
  intros Hf Hk. unfold __STB_SYS_CLK, stop_divisor.
  rewrite <- Z.div_div by lia. change (63000000 / 2) with 31500000.
  pose proof (Z.div_mod 31500000 k ltac:(lia)) as E1.
  pose proof (Z.mod_pos_bound 31500000 k ltac:(lia)) as B1.
  pose proof (Z.div_mod 31500000 (f + 1) ltac:(lia)) as E2.
  pose proof (Z.mod_pos_bound 31500000 (f + 1) ltac:(lia)) as B2.
  set (a := 31500000 / k) in *. set (b := 31500000 / (f + 1)) in *.
  destruct (Z.ltb_spec f a), (Z.ltb_spec k (b + 1)); try done; nia.
Qed.

(** The search ends there, whatever fuel is left. *)
Lemma find_frequency_stop fuel : forall divisor f,
  0 <= f -> 0 <= divisor < stop_divisor f -> stop_divisor f <= divisor + Z.of_nat fuel ->
  find_frequency fuel divisor f = Ok (__STB_SYS_CLK / (2 * stop_divisor f)).
Proof.
  induction fuel as [|fuel IH]; intros divisor f Hf Hd Hfuel; simpl; [lia|].
  rewrite stop_divisor_spec by lia. destruct (Z.ltb_spec (divisor + 1) (stop_divisor f)).
  - apply IH; lia.
  - by replace (divisor + 1) with (stop_divisor f) by lia.
Qed.

(** For the frequencies the setter lets through the search, which counts in Hz,
    comes back with the number it was given, in MHz. *)
Lemma find_frequency_id f :
  1 <= f <= 80 -> find_frequency divisor_fuel 0 f = Ok f.
Proof.
  intros Hf. assert (Hb : 0 <= 31500000 / (f + 1) < 31500000).
  { split; [by apply Z.div_pos; lia|]. apply Z.div_lt; lia. }
  rewrite find_frequency_stop; unfold stop_divisor in *; [|lia|lia|unfold divisor_fuel; lia].
  f_equal. unfold __STB_SYS_CLK. rewrite <- Z.div_div by lia. change (63000000 / 2) with 31500000.
  pose proof (Z.div_mod 31500000 (f + 1) ltac:(lia)) as E2.
  pose proof (Z.mod_pos_bound 31500000 (f + 1) ltac:(lia)) as B2.
  set (b := 31500000 / (f + 1)) in *. symmetry. apply (Z.div_unique_pos _ _ _ (31500000 - (b + 1) * f)).
  - nia.
  - lia.
Qed.

(** ** What a setting does *)

Definition flag (v : Z) : bool := (v =? 0) || (v =? 1).
Definition pick (b : bool) (new old : Z) : Z := if b then new else old.

(** The parameters after asking for [p] in place of [q]: values out of range are
    passed over, the work waiting time and the check are never stored. *)
Definition effective (p q : SCI_PARAMETERS) : SCI_PARAMETERS := {|
  p_T := pick (flag (p_T p)) (p_T p) (p_T q);
  p_f := pick (in_range (p_f p) 1 80) (p_f p) (p_f q);
  p_ETU := pick (in_range (p_ETU p) SCI_MIN_ETU SCI_MAX_ETU) (p_ETU p) (p_ETU q);
  p_WWT := p_WWT q;
  p_CWT := pick (in_range (p_CWT p) SCI_MIN_CWT SCI_MAX_CWT) (p_CWT p) (p_CWT q);
  p_BWT := pick (in_range (p_BWT p) SCI_MIN_BWT SCI_MAX_BWT) (p_BWT p) (p_BWT q);
  p_EGT := pick (in_range (p_EGT p) SCI_MIN_EGT SCI_MAX_EGT) (p_EGT p) (p_EGT q);
  p_clock_stop_polarity :=
    pick (flag (p_clock_stop_polarity p)) (p_clock_stop_polarity p) (p_clock_stop_polarity q);
  p_check := p_check q;
  p_P := p_P p;
  p_I := p_I p;
  p_U := p_U p
|}.

Definition known_class (p : SCI_PARAMETERS) : bool := in_range (p_U p) 0 3.

Section setting.
Context {D : Type} `{SciHw D}.
Implicit Types s : sci D.
Implicit Types p q : SCI_PARAMETERS.

Definition quiet (ms : Z) : M (sci D) unit := skip.

(** What the setters look at and do not change. *)
Definition context s : Z * Z * Z * Z * Z :=
  (sci_driver_init s, id_ s, card_detect s, atr_status s, WWT s).
(** An answered card, whose parse set a work waiting time. *)
Definition active s : Prop :=
  exists w, context s = (1, 0, SCI_CARD_PRESENT, SCI_ATR_READY, w) /\ 0 < w < 2 ^ 28.

Definition settled s s' : Prop := context s' = context s /\ sci_parameters s' = sci_parameters s.
#[local] Instance settled_preorder : PreOrder settled.
Proof. split; [done|]. intros s1 s2 s3 [] []. split; congruence. Qed.
Lemma settled_io s d : settled s (s <| io := d |>).
Proof. done. Qed.
Lemma settled_active s s' : settled s s' -> active s -> active s'.
Proof. intros [E _] (w & Hw & Hr). exists w. by rewrite E. Qed.

(** ** Baud rates *)

Lemma ends_lift {A} (R : relation (sci D)) `{!PreOrder R} (r : res A) a : r = Ok a -> ends R (lift r).
Proof. intros E s. by apply (runs_lift _ a). Qed.

Lemma baud_nonzero b : 0 < b < 2 ^ 28 -> exists v, ASC_baud_mode_0 b = Ok v.
Proof.
  intros Hb. unfold ASC_baud_mode_0, udiv, u32. rewrite Z.mod_small by lia.
  destruct (Z.eqb_spec (b * 16) 0); [lia|by eexists].
Qed.

Lemma settled_set_reg b r bits mask : ends settled (set_reg b r bits mask).
Proof. apply (ends_set_reg _ settled_io). Qed.
#[local] Hint Resolve settled_set_reg : ends.
Lemma settled_set_mode_0 asc v : ends settled (set_mode_0 asc v).
Proof. unfold set_mode_0. ends. Qed.
Lemma settled_set_mode_1 asc v : ends settled (set_mode_1 asc v).
Proof. unfold set_mode_1. ends. Qed.
Lemma settled_calc_mode_0 asc b : 0 < b < 2 ^ 28 -> ends settled (calc_mode_0 asc b).
Proof.
  intros Hb. destruct (baud_nonzero b Hb) as [v Hv]. unfold calc_mode_0. ends.
  exact (ends_lift _ _ _ Hv).
Qed.
Lemma settled_calc_mode_1 asc b : ends settled (calc_mode_1 asc b).
Proof. unfold calc_mode_1. ends. exact (ends_lift _ _ _ eq_refl). Qed.
Lemma settled_by_controller f : (forall asc, ends settled (f asc)) -> ends settled (by_controller f).
Proof. intros Hf. unfold by_controller. ends. apply ends_on_controller; [intros|]; ends. Qed.

Lemma settled_quiet ms : ends settled (quiet ms).
Proof. apply ends_skip, _. Qed.
Lemma settled_do f : ends settled (hw_do f).
Proof. apply (ends_do _ settled_io). Qed.
Lemma settled_set_pin (pin : sci D -> Z) v : ends settled (set_pin pin v).
Proof. apply (ends_set_pin _ settled_io). Qed.
Lemma settled_fifo_reset asc : ends settled (fifo_reset asc).
Proof. apply (ends_fifo_reset _ settled_io). Qed.
Lemma settled_serial_irq t : ends settled (set_serial_irq t).
Proof. by apply (ends_serial_irq _ settled_io). Qed.
#[local] Hint Resolve settled_quiet settled_do settled_set_pin settled_fifo_reset
  settled_serial_irq : ends.
Lemma settled_reset : ends settled (smartcard_reset quiet).
Proof.
  unfold smartcard_reset. ends. apply ends_on_controller; [intros asc irq|]; ends. done.
Qed.

Lemma settled_req_baud b : 0 < b < 2 ^ 28 -> ends settled (set_req_baud b).
Proof.
  intros Hb. unfold set_req_baud. ends; apply settled_by_controller; intros asc;
    [apply settled_calc_mode_1|by apply settled_calc_mode_0].
Qed.
#[local] Hint Resolve settled_set_mode_0 settled_set_mode_1 settled_calc_mode_0 settled_calc_mode_1 : ends.
#[local] Hint Extern 2 (ends settled (by_controller _)) =>
  apply settled_by_controller; intros ?; eauto with ends : ends.

(** ** The setters *)

(** The table of divisors, for a card with a work waiting time. *)
Lemma runs_ETU_table p s (Q : Z -> sci D -> Prop) :
  active s -> (forall rc s', settled s s' -> Q rc s') -> runs (sci_set_para_ETU_table p) s Q.
Proof.
  intros (w & Hw & Hr) HQ. injection Hw as _ _ _ _ Hw. unfold sci_set_para_ETU_table.
  destruct (in_range _ _ _); [|by apply runs_ret, HQ]. unfold get_para.
  do 3 (runs_step; apply runs_gets). rewrite Hw. unfold truthy. destruct (Z.eqb_spec w 0); [lia|].
  eapply runs_ends; [|intros _ s' Hs'; by apply runs_ret, HQ]. ends.
Qed.

(** [sets g m]: the setter [m] applies [g] to the parameters of an active card,
    and changes nothing else it looks at. *)
Definition sets (g : SCI_PARAMETERS -> SCI_PARAMETERS) (m : M (sci D) Z) : Prop :=
  forall s (Q : Z -> sci D -> Prop), active s ->
  (forall rc s', context s' = context s -> sci_parameters s' = g (sci_parameters s) -> Q rc s') ->
  runs m s Q.

Lemma sets_guarded (f : SCI_PARAMETERS -> Z) (g : Z -> SCI_PARAMETERS -> SCI_PARAMETERS)
    (b : bool) (v : Z) :
  (forall q, g (f q) q = q) ->
  sets (fun q => if b then g v q else q)
    (t ← get_para f; when b (when (negb (t =? v)) (set_para (g v)));; mret SCI_ERROR_OK).
Proof.
  intros Hg s Q _ HQ. unfold get_para. runs_step. apply runs_gets. runs_step. unfold when.
  destruct b; [|by apply runs_skip, runs_ret, HQ].
  destruct (Z.eqb_spec (f (sci_parameters s)) v) as [<-|]; simpl.
  - apply runs_skip, runs_ret, HQ; [done|]. by rewrite Hg.
  - unfold set_para. apply runs_modify, runs_ret, HQ; done.
Qed.

Lemma sets_T p : sets (fun q => if flag (p_T p) then q <| p_T := p_T p |> else q) (sci_set_para_T p).
Proof. apply (sets_guarded p_T (fun v q => q <| p_T := v |>)). by intros []. Qed.
Lemma sets_CWT p :
  sets (fun q => if in_range (p_CWT p) SCI_MIN_CWT SCI_MAX_CWT then q <| p_CWT := p_CWT p |> else q)
    (sci_set_para_CWT p).
Proof. apply (sets_guarded p_CWT (fun v q => q <| p_CWT := v |>)). by intros []. Qed.
Lemma sets_BWT p :
  sets (fun q => if in_range (p_BWT p) SCI_MIN_BWT SCI_MAX_BWT then q <| p_BWT := p_BWT p |> else q)
    (sci_set_para_BWT p).
Proof. apply (sets_guarded p_BWT (fun v q => q <| p_BWT := v |>)). by intros []. Qed.
Lemma sets_stop p :
  sets (fun q => if flag (p_clock_stop_polarity p)
                 then q <| p_clock_stop_polarity := p_clock_stop_polarity p |> else q)
    (sci_set_para_CLK_p p).
Proof.
  apply (sets_guarded p_clock_stop_polarity (fun v q => q <| p_clock_stop_polarity := v |>)).
  by intros [].
Qed.

Lemma runs_atom_f p s (Q : unit -> sci D -> Prop) :
  1 <= p_f p <= 80 ->
  Q tt (s <| sci_parameters := (sci_parameters s) <| p_f := p_f p |> |>) ->
  runs (sci_atom_set_para_f p) s Q.
Proof.
  intros Hf HQ. unfold sci_atom_set_para_f. apply runs_bind.
  apply (runs_lift _ (p_f p)); [exact (find_frequency_id _ Hf)|]. by apply runs_modify.
Qed.

Lemma sets_f p :
  sets (fun q => if in_range (p_f p) 1 80 then q <| p_f := p_f p |> else q) (sci_set_para_f p).
Proof.
  intros s Q _ HQ. pose proof (runs_atom_f p) as Hset. unfold sci_set_para_f, get_para.
  revert Hset. generalize (@sci_atom_set_para_f D p). intros set Hset.
  runs_step. apply runs_gets. runs_step.
  change (SCI_MIN_F / 1000000) with 1. change (SCI_MAX_F / 1000000) with 80.
  destruct (in_range (p_f p) 1 80) eqn:Hr; [|by apply runs_skip, runs_ret, HQ].
  assert (Hf : 1 <= p_f p <= 80).
  { unfold in_range in Hr. apply andb_true_iff in Hr as [?%Z.leb_le ?%Z.leb_le]. done. }
  change (__STB_SYS_CLK / 2) with 31500000.
  destruct (Z.leb_spec (p_f p) 31500000); [|lia]. cbn [andb when].
  destruct (Z.eqb_spec (p_f (sci_parameters s)) (p_f p)) as [E|]; cbn [negb when].
  - apply runs_skip, runs_ret, HQ; [done|]. rewrite <- E. by destruct (sci_parameters s).
  - apply Hset; [done|]. by apply runs_ret, HQ.
Qed.

Lemma sets_EGT p :
  sets (fun q => if in_range (p_EGT p) SCI_MIN_EGT SCI_MAX_EGT then q <| p_EGT := p_EGT p |> else q)
    (sci_set_para_EGT p).
Proof.
  intros s Q _ HQ. unfold sci_set_para_EGT. destruct (in_range _ _ _); [|by apply runs_ret, HQ].
  runs_step. unfold get_para. apply runs_gets. runs_step. unfold when.
  destruct (Z.eqb_spec (p_EGT (sci_parameters s)) (p_EGT p)) as [E|]; cbn [negb].
  - apply runs_skip, runs_ret, HQ; [done|]. rewrite <- E. by destruct (sci_parameters s).
  - runs_step. apply runs_modify. eapply runs_conseq; [apply settled_set_reg|].
    intros _ s' [E1 E2]. by apply runs_ret, HQ.
Qed.

Lemma sets_ETU p :
  sets (fun q => if in_range (p_ETU p) SCI_MIN_ETU SCI_MAX_ETU then q <| p_ETU := p_ETU p |> else q)
    (sci_set_para_ETU quiet p).
Proof.
  intros s Q Ha HQ. unfold sci_set_para_ETU.
  destruct (in_range (p_ETU p) _ _) eqn:Hr; [|by apply runs_ret, HQ].
  assert (He : 8 <= p_ETU p <= 4095).
  { unfold in_range in Hr. apply andb_true_iff in Hr as [?%Z.leb_le ?%Z.leb_le]. done. }
  runs_step. apply runs_modify. unfold get_para. do 2 (runs_step; apply runs_gets).
  set (s1 := s <| sci_parameters := _ |>).
  assert (H1 : active s1) by exact Ha.
  assert (HQ1 : forall rc s', settled s1 s' -> Q rc s').
  { intros rc s' [E1 E2]. by apply HQ. }
  assert (Hclock : forall c, requested_clock (p_f p) = Some c -> 4166667 <= c <= 6250000).
  { unfold requested_clock, CLOCK_417, CLOCK_500, CLOCK_625.
    repeat (destruct (_ =? _)); intros c [= <-]; lia. }
  destruct (if _ : bool then requested_clock (p_f p) else None) as [c|] eqn:E;
    [|by apply runs_ETU_table].
  assert (Hc : 4166667 <= c <= 6250000) by (apply Hclock; by destruct (_ || _)).
  change (p_ETU (sci_parameters s1)) with (p_ETU p).
  assert (Hb : 0 < c / p_ETU p < 2 ^ 28).
  { split; [apply Z.div_str_pos; lia|]. apply Z.div_lt_upper_bound; lia. }
  runs_step. eapply (runs_lift _ (c / p_ETU p)).
  { unfold udiv. destruct (Z.eqb_spec (p_ETU p) 0); [lia|done]. }
  eapply runs_ends; [by apply settled_req_baud|]. intros _ s2 H2.
  eapply runs_ends; [apply settled_reset|]. intros _ s3 H3. apply runs_ret, HQ1. by etransitivity.
Qed.

Lemma runs_class p s (Q : Z -> sci D -> Prop) :
  (forall s', context s' = context s -> sci_parameters s' = (sci_parameters s) <| p_U := p_U p |> ->
    Q (if known_class p then SCI_ERROR_OK else SCI_ERROR_PARAMETER_OUT_OF_RANGE) s') ->
  runs (sci_set_para_class p) s Q.
Proof.
  intros HQ. unfold sci_set_para_class. cbv zeta. runs_step. apply runs_modify. runs_step. apply runs_gets.
  set (s1 := s <| sci_parameters := _ |>).
  assert (V : forall (b : bool), ends settled (when b (smartcard_voltage_config SCI_VCC_3;; skip))).
  { intros b. unfold smartcard_voltage_config. ends.
    apply ends_on_controller; [intros|]; ends; done. }
  assert (HQ1 : forall b (rc : Z),
    rc = (if known_class p then SCI_ERROR_OK else SCI_ERROR_PARAMETER_OUT_OF_RANGE) ->
    runs (when b (smartcard_voltage_config SCI_VCC_3;; skip);; mret rc) s1 Q).
  { intros b rc ->. eapply runs_ends; [apply V|]. intros _ s2 [E1 E2]. by apply runs_ret, HQ. }
  unfold known_class, in_range, SCI_CLASS_A, SCI_CLASS_B, SCI_CLASS_AB, SCI_UNKNOWN_CLASS in *.
  assert (K : p_U p = 0 \/ p_U p = 1 \/ p_U p = 2 \/ p_U p = 3 \/
    (p_U p < 0 \/ 3 < p_U p) /\ (0 <=? p_U p) && (p_U p <=? 3) = false).
  { destruct (Z.leb_spec 0 (p_U p)), (Z.leb_spec (p_U p) 3); simpl; lia. }
  assert (HQ0 : forall rc, rc = (if (0 <=? p_U p) && (p_U p <=? 3) then SCI_ERROR_OK
    else SCI_ERROR_PARAMETER_OUT_OF_RANGE) -> runs (mret rc) s1 Q).
  { intros rc ->. by apply runs_ret, HQ. }
  destruct K as [K|[K|[K|[K|K]]]];
    [rewrite K; cbn [Z.eqb Pos.eqb]; (apply HQ0 || apply HQ1); by rewrite K..|].
  destruct K as [K E]. destruct (Z.eqb_spec (p_U p) 1), (Z.eqb_spec (p_U p) 2),
    (Z.eqb_spec (p_U p) 3), (Z.eqb_spec (p_U p) 0); try lia. apply HQ0. by rewrite E.
Qed.

(** ** The whole setting *)

Lemma runs_sets {B} g m (k : M (sci D) B) s (Q : B -> sci D -> Prop) :
  sets g m -> active s ->
  (forall s', active s' -> context s' = context s -> sci_parameters s' = g (sci_parameters s) -> runs k s' Q) ->
  runs (m;; k) s Q.
Proof.
  intros Hm Ha HQ. runs_step. apply Hm; [done|]. intros rc s' E1 E2. apply HQ; [|done..].
  destruct Ha as (w & Hw & Hr). exists w. by rewrite E1.
Qed.

(** The steps of sci_set_para, one field each. *)
Lemma effective_steps p q0 q1 q2 q3 q4 q5 q6 q7 q8 :
  q1 = (if flag (p_T p) then q0 <| p_T := p_T p |> else q0) ->
  q2 = (if in_range (p_f p) 1 80 then q1 <| p_f := p_f p |> else q1) ->
  q3 = (if in_range (p_ETU p) SCI_MIN_ETU SCI_MAX_ETU then q2 <| p_ETU := p_ETU p |> else q2) ->
  q4 = (if in_range (p_CWT p) SCI_MIN_CWT SCI_MAX_CWT then q3 <| p_CWT := p_CWT p |> else q3) ->
  q5 = (if in_range (p_BWT p) SCI_MIN_BWT SCI_MAX_BWT then q4 <| p_BWT := p_BWT p |> else q4) ->
  q6 = (if in_range (p_EGT p) SCI_MIN_EGT SCI_MAX_EGT then q5 <| p_EGT := p_EGT p |> else q5) ->
  q7 = (if flag (p_clock_stop_polarity p)
        then q6 <| p_clock_stop_polarity := p_clock_stop_polarity p |> else q6) ->
  q8 = q7 <| p_U := p_U p |> ->
  q8 <| p_P := p_P p |> <| p_I := p_I p |> = effective p q0.
Proof.
  assert (P : forall (b : bool) (x y : SCI_PARAMETERS), (if b then x else y) =
    mkParameters (pick b (p_T x) (p_T y)) (pick b (p_f x) (p_f y)) (pick b (p_ETU x) (p_ETU y))
      (pick b (p_WWT x) (p_WWT y)) (pick b (p_CWT x) (p_CWT y)) (pick b (p_BWT x) (p_BWT y))
      (pick b (p_EGT x) (p_EGT y)) (pick b (p_clock_stop_polarity x) (p_clock_stop_polarity y))
      (pick b (p_check x) (p_check y)) (pick b (p_P x) (p_P y)) (pick b (p_I x) (p_I y))
      (pick b (p_U x) (p_U y))).
  { by intros [] [] []. }
  assert (I : forall b v, pick b v v = v) by by intros [].
  do 8 (let E := fresh "E" in intros E; rewrite ?P in E; cbn in E; rewrite ?I in E; subst).
  reflexivity.
Qed.

Definition class_code p : Z :=
  if known_class p then SCI_ERROR_OK else SCI_ERROR_PARAMETER_OUT_OF_RANGE.

Lemma runs_set_parameters p s (Q : Z -> sci D -> Prop) :
  active s ->
  (forall s', context s' = context s -> sci_parameters s' = effective p (sci_parameters s) ->
    Q (class_code p) s') ->
  runs (sci_set_parameters quiet p) s Q.
Proof.
  intros Ha HQ. pose proof Ha as (w & Hw & Hr). injection Hw as Hi Hn Hc Hst Hw.
  unfold sci_set_parameters. runs_step. apply runs_gets. rewrite Hi. cbn [negb Z.eqb Pos.eqb].
  runs_step. apply runs_gets. rewrite Hn.
  change (0 <? SCI_NUMBER_OF_CONTROLLERS) with true. cbv iota.
  unfold sci_is_card_activated, sci_is_card_present. do 2 runs_step. apply runs_gets.
  rewrite Hi. cbn [Z.eqb Pos.eqb]. runs_step. apply runs_gets. rewrite Hc. apply runs_ret.
  change (u8 SCI_CARD_PRESENT =? SCI_CARD_PRESENT) with true. cbv iota.
  unfold sci_set_para. runs_step. apply runs_gets. rewrite Hst.
  change (negb (SCI_ATR_READY =? SCI_ATR_READY)) with false. cbv iota.
  runs_step. apply runs_gets. rewrite Hn.
  change (0 <? SCI_NUMBER_OF_CONTROLLERS) with true. cbv iota.
  eapply runs_sets; [apply sets_T|done|intros s1 A1 C1 E1].
  eapply runs_sets; [apply sets_f|done|intros s2 A2 C2 E2].
  eapply runs_sets; [apply sets_ETU|done|intros s3 A3 C3 E3].
  eapply runs_sets; [apply sets_CWT|done|intros s4 A4 C4 E4].
  eapply runs_sets; [apply sets_BWT|done|intros s5 A5 C5 E5].
  eapply runs_sets; [apply sets_EGT|done|intros s6 A6 C6 E6].
  eapply runs_sets; [apply sets_stop|done|intros s7 A7 C7 E7].
  unfold sci_set_para_check. do 2 runs_step.
  runs_step. apply runs_class. intros s8 C8 E8. unfold set_para. runs_step. apply runs_modify.
  runs_step. apply runs_modify. apply runs_ret. apply HQ.
  - change (context s8 = context s). congruence.
  - exact (effective_steps p _ _ _ _ _ _ _ _ _ E1 E2 E3 E4 E5 E6 E7 E8).
Qed.

(** The clock of a frequency in MHz never divides by zero. *)
Lemma clock_of_frequency f :
  let c := if f =? 3 then 357 else f * 100 in u32 (20000 * u32 (u32 c - 1)) <> 0.
Proof.
  cbv zeta. destruct (f =? 3); [done|]. unfold u32.
  pose proof (Z.div_mod (f * 100) (2 ^ 32) ltac:(lia)) as E1.
  set (c := (f * 100) mod 2 ^ 32) in *. pose proof (Z.div_mod (c - 1) (2 ^ 32) ltac:(lia)) as E2.
  set (x := (c - 1) mod 2 ^ 32) in *. intros E3.
  apply Z.mod_divide in E3 as [k E3]; [|lia].
  set (a := f * 100 / 2 ^ 32) in *. set (b := (c - 1) / 2 ^ 32) in *. clearbody a b c x. lia.
Qed.

Lemma runs_clock c s (Q : Z -> sci D -> Prop) :
  u32 (20000 * u32 (u32 c - 1)) <> 0 ->
  (forall rc s', settled s s' -> Q rc s') -> runs (smartcard_clock_config quiet c) s Q.
Proof.
  intros Hc HQ. unfold smartcard_clock_config. runs_step. apply runs_modify. runs_step.
  unfold SCI_Set_Clock. runs_step. apply runs_gets. runs_step. eapply runs_lift.
  { unfold clock_divider, udiv. simpl clk. apply Z.eqb_neq in Hc. by rewrite Hc. }
  runs_step. apply runs_gets. unfold mapped, checked_ioremap. runs_step. apply runs_gets.
  destruct (ioremap _ _); [|apply runs_ret; by apply runs_ret, HQ].
  eapply runs_ends; [apply (ends_outl _ settled_io)|]. intros _ s2 H2. apply runs_ret.
  cbn [Z.eqb]. unfold quiet. runs_step. by apply runs_skip, runs_ret, HQ.
Qed.

Lemma get_parameters_active s :
  active s -> sci_get_parameters s = Ok ((SCI_ERROR_OK, Some (sci_parameters s)), s).
Proof.
  intros (w & Hw & _). injection Hw as Hi Hn Hc _ _. unfold sci_get_parameters.
  assert (E : SCI_CHECK_INIT_COND s = Ok (SCI_ERROR_OK, s)).
  { unfold SCI_CHECK_INIT_COND. do 3 (erewrite M_bind_run by done). by rewrite Hi, Hn, Hc. }
  by rewrite (M_bind_run _ _ _ _ _ E).
Qed.
End setting.

(** C28. Setting the parameters of an answered card and reading them back. The
    protocol, the frequency, the ETU, the character and block waiting times, the
    extra guard time and the clock stop polarity (0 or 1 only: 2, which sci.h
    names SCI_CLOCK_STOP_HIGH, is out of range) are those asked for when in
    range and the old ones otherwise; P, I and the voltage class are stored
    whatever they are; the work waiting time and the check stay the old ones
    whatever is asked, although sci_set_para_check announces to set the latter.
    Nothing of this shows in the result, which is 0 exactly for a known voltage
    class. The search for a frequency, however long, ends with the number it was
    given. *)
Theorem sci_parameters_roundtrip {D} `{SciHw D} stack (arg arg' : sci_arg) (s : sci D) :
  active s ->
  let p := arg_parameters arg in
  exists s', sci_ioctl quiet stack 0 IOCTL_SET_PARAMETERS arg s =
      Ok ((if known_class p then 0 else -1, OutNothing), s') /\
    sci_ioctl quiet stack 0 IOCTL_GET_PARAMETERS arg' s' =
      Ok ((0, OutParameters (effective p (sci_parameters s))), s').
Proof.
  intros Ha p.
  assert (R : runs (sci_ioctl quiet stack 0 IOCTL_SET_PARAMETERS arg) s (fun r s' =>
    r = (if known_class p then 0 else -1, OutNothing) /\ context s' = context s /\
    sci_parameters s' = effective p (sci_parameters s))).
  { change (runs (rc ← sci_set_parameters quiet p;
      if rc =? SCI_ERROR_OK then
        smartcard_clock_config quiet (if p_f p =? 3 then 357 else p_f p * 100);; mret (0, OutNothing)
      else mret (-1, OutNothing)) s (fun r s' =>
        r = (if known_class p then 0 else -1, OutNothing) /\ context s' = context s /\
        sci_parameters s' = effective p (sci_parameters s))).
    runs_step. apply runs_set_parameters; [done|]. intros s1 C1 E1. unfold class_code.
    destruct (known_class p); [|by apply runs_ret].
    change (SCI_ERROR_OK =? SCI_ERROR_OK) with true. cbv iota. runs_step.
    apply runs_clock; [apply clock_of_frequency|]. intros rc s2 [C2 E2]. apply runs_ret.
    split_and!; [done|congruence|congruence]. }
  destruct R as (r & s' & E & -> & C & P). exists s'. split; [exact E|].
  assert (Ha' : active s').
  { destruct Ha as (w & Hw & Hr). exists w. by rewrite C. }
  change ((r ← sci_get_parameters; mret (ok_or_fail r.1, give OutParameters r)) s' =
    Ok ((0, OutParameters (effective p (sci_parameters s))), s')).
  rewrite (M_bind_run _ _ _ _ _ (get_parameters_active s' Ha')). by rewrite P.
Qed.

(** ** Example *)

Definition answered_reader : sci line :=
  (sci_boot (Line [] 6 [] ∅ ∅)) <| sci_driver_init := 1 |> <| card_detect := SCI_CARD_PRESENT |>
    <| atr_status := SCI_ATR_READY |> <| WWT := 9600 |> <| sci_parameters := default_parameters |>.
(** T = 1 at 4 MHz; a character waiting time and a guard time out of range. *)
Definition example_request : SCI_PARAMETERS :=
  mkParameters 1 4 372 19200 5 15371 300 1 1 5 50 SCI_CLASS_A.
Definition example_settings : SCI_PARAMETERS :=
  mkParameters 1 4 372 9600 8203 15371 0 1 1 5 50 SCI_CLASS_A.

Lemma example_effective :
  effective example_request (sci_parameters answered_reader) = example_settings.
Proof. reflexivity. Qed.

Lemma sci_parameters_roundtrip_witness :
  exists s', sci_ioctl quiet default_modes 0 IOCTL_SET_PARAMETERS (SciArg example_request 0) answered_reader =
      Ok ((0, OutNothing), s') /\
    sci_ioctl quiet default_modes 0 IOCTL_GET_PARAMETERS (SciArg default_parameters 0) s' =
      Ok ((0, OutParameters example_settings), s').
Proof.
  destruct (sci_parameters_roundtrip default_modes (SciArg example_request 0)
    (SciArg default_parameters 0) answered_reader) as (s' & E1 & E2).
  - exists 9600. split; [reflexivity|lia].
  - exists s'. cbn [arg_parameters] in E2. rewrite example_effective in E2.
    split; [exact E1|exact E2].
Defined.
