(* ===== verification/TffpState.v ===== *)
(** * Topfield front panel: state, configuration and serial output
    (frontcontroller/tffp/frontpanel.c, frontpanel.h, tffp_config.c)

    The front processor of the TF7700 hangs on a serial controller.  This file
    has the file-level variables of the driver as a record, the hardware and
    kernel services it calls, the configuration in the EEPROM and the functions
    that send messages. *)
From S2P Require Export Prelude.

(** ** Constants *)

Definition LASTMINOR := 3.
Definition IOCTLMAGIC := 0x3a.
Definition FPSHUTDOWN := 0x20.
Definition FPSHUTDOWNACK := 0x31.
Definition FPGETDISPLAYCONTROL := 0x40.
Definition FPREQDATETIMENEW := 0x30.
Definition FPDATETIMENEW := 0x25.
Definition FPKEYPRESSFP := 0x51.
Definition FPKEYPRESS := 0x61.
Definition FPREQBOOTREASON := 0x80.
Definition FPBOOTREASON := 0x81.
Definition FPTIMERCLEAR := 0x72.
Definition FPREQTIMERNEW := 0x82.
Definition FPTIMERNEW := 0x83.
Definition FPTIMERSET := 0x84.
Definition FRONTPANEL_MINOR_FPC := 0.
Definition FRONTPANEL_MINOR_RC := 1.
Definition FRONTPANEL_MINOR_FPLARGE := 2.
Definition FRONTPANEL_MINOR_FPSMALL := 3.
Definition BUFFERSIZE := 256.
Definition KEYEMUTF7700 := 0.
Definition KEYEMUUFS910 := 1.
Definition KEYEMUTF7700LKP := 2.
Definition ASC3BaseAddress := 0xb8033000.
Definition ASC_BAUDRATE := 0x000.
Definition ASC_TX_BUFF := 0x004.
Definition ASC_RX_BUFF := 0x008.
Definition ASC_CTRL := 0x00c.
Definition ASC_INT_EN := 0x010.
Definition ASC_INT_STA := 0x014.
Definition ASC_TIMEOUT := 0x01c.
Definition ASC_TX_RST := 0x020.
Definition ASC_RX_RST := 0x024.
Definition ASC_INT_STA_RBF := 0x01.
Definition ASC_INT_STA_THE := 0x04.
Definition ASC_CTRL_FIFO_EN := 0x400.
Definition PIO5BaseAddress := 0xb8025000.
Definition PIO_CLR_PnC0 := 0x28.
Definition PIO_CLR_PnC1 := 0x38.
Definition PIO_SET_PnC1 := 0x34.
Definition PIO_SET_PnC2 := 0x44.
Definition EUSERS := 87.
Definition EINVAL := 22.
Definition EFAULT := 14.
Definition ENOTTY := 25.
Definition ENOMEM := 12.
Definition ERESTARTSYS := 512.

(** The bits of the display that show text; the others are icons. *)
Definition IconMask : list Z :=
  [0xff; 0xcf; 0xff; 0xff; 0xff; 0x7f; 0xfe; 0x3f; 0xff; 0xff; 0xff; 0xff; 0xff; 0xff; 0xff; 0xff;
   0xff; 0xff; 0xff; 0xff; 0xff; 0xff; 0xff; 0xff; 0xff; 0xfe; 0x00; 0x00; 0x00; 0x0f; 0xff; 0xff;
   0xff; 0xff; 0xff; 0xff; 0xff; 0xff; 0xff; 0xff; 0xff; 0xfc; 0x00; 0x03; 0xff; 0xff; 0xff; 0xff].

(** Keys of the remote control as the UFS910 names them. *)
Definition ufs910map : list Z :=
  [0x58; 0x59; 0x5b; 0x5a; 0xff; 0xff; 0x39; 0xff; 0xff; 0xff; 0xff; 0xff; 0x0d; 0x6e; 0x6f; 0x70;
   0x00; 0x01; 0x02; 0x03; 0x04; 0x05; 0x06; 0x07; 0x08; 0x09; 0x54; 0x4c; 0x55; 0x0f; 0xff; 0x5c;
   0xff; 0xff; 0xff; 0xff; 0xff; 0xff; 0xff; 0xff; 0xff; 0xff; 0xff; 0xff; 0xff; 0xff; 0xff; 0xff;
   0xff; 0xff; 0xff; 0xff; 0xff; 0xff; 0xff; 0xff; 0xff; 0xff; 0xff; 0xff; 0xff; 0xff; 0xff; 0xff;
   0xff; 0xff; 0xff; 0xff; 0xff; 0x21; 0x38; 0x3c; 0x20; 0xff; 0x31; 0x37; 0xff; 0x6d; 0xff; 0xff;
   0x11; 0xff; 0x10; 0xff; 0xff; 0xff; 0xff; 0xff; 0xff; 0xff; 0xff; 0xff; 0xff; 0xff; 0xff; 0xff;
   0xff; 0xff; 0xff; 0xff; 0xff; 0xff; 0xff; 0xff; 0xff; 0xff; 0xff; 0xff; 0xff; 0xff; 0xff; 0xff;
   0xff; 0xff; 0xff; 0xff; 0xff; 0xff; 0xff; 0xff; 0xff; 0xff; 0xff; 0xff; 0xff; 0xff; 0xff; 0xff]
  ++ replicate 128 0.
(** ** State *)

(** The times of the front panel and of the ioctl commands. *)
Record frontpanel_ioctl_time := mkTime {
  ft_year : Z; ft_month : Z; ft_day : Z; ft_dow : Z; ft_sdow : list Z;
  ft_hour : Z; ft_min : Z; ft_sec : Z; ft_now : Z
}.
Definition eta_frontpanel_ioctl_time (s : frontpanel_ioctl_time) : frontpanel_ioctl_time :=
  mkTime (ft_year s) (ft_month s) (ft_day s) (ft_dow s) (ft_sdow s) (ft_hour s)
    (ft_min s) (ft_sec s) (ft_now s).
#[export] Instance set_ft_year : Setter ft_year := ltac:(setter eta_frontpanel_ioctl_time ft_year).
#[export] Instance set_ft_month : Setter ft_month := ltac:(setter eta_frontpanel_ioctl_time ft_month).
#[export] Instance set_ft_day : Setter ft_day := ltac:(setter eta_frontpanel_ioctl_time ft_day).
#[export] Instance set_ft_dow : Setter ft_dow := ltac:(setter eta_frontpanel_ioctl_time ft_dow).
#[export] Instance set_ft_sdow : Setter ft_sdow := ltac:(setter eta_frontpanel_ioctl_time ft_sdow).
#[export] Instance set_ft_hour : Setter ft_hour := ltac:(setter eta_frontpanel_ioctl_time ft_hour).
#[export] Instance set_ft_min : Setter ft_min := ltac:(setter eta_frontpanel_ioctl_time ft_min).
#[export] Instance set_ft_sec : Setter ft_sec := ltac:(setter eta_frontpanel_ioctl_time ft_sec).
#[export] Instance set_ft_now : Setter ft_now := ltac:(setter eta_frontpanel_ioctl_time ft_now).


(** The bit fields of the configuration; [cfg_pad] is the unused last byte. *)
Record tTffpConfig := mkConfig {
  crc : Z; version : Z; brightness : Z; irFilter1 : Z; irFilter2 : Z; irFilter3 : Z;
  irFilter4 : Z; allCaps : Z; typematicDelay : Z; typematicRate : Z; scrollMode : Z;
  scrollPause : Z; scrollDelay : Z; gmtOffset : Z; cfg_pad : Z
}.
Definition eta_tTffpConfig (s : tTffpConfig) : tTffpConfig :=
  mkConfig (crc s) (version s) (brightness s) (irFilter1 s) (irFilter2 s) (irFilter3 s)
    (irFilter4 s) (allCaps s) (typematicDelay s) (typematicRate s) (scrollMode s)
    (scrollPause s) (scrollDelay s) (gmtOffset s) (cfg_pad s).
#[export] Instance set_crc : Setter crc := ltac:(setter eta_tTffpConfig crc).
#[export] Instance set_version : Setter version := ltac:(setter eta_tTffpConfig version).
#[export] Instance set_brightness : Setter brightness := ltac:(setter eta_tTffpConfig brightness).
#[export] Instance set_irFilter1 : Setter irFilter1 := ltac:(setter eta_tTffpConfig irFilter1).
#[export] Instance set_irFilter2 : Setter irFilter2 := ltac:(setter eta_tTffpConfig irFilter2).
#[export] Instance set_irFilter3 : Setter irFilter3 := ltac:(setter eta_tTffpConfig irFilter3).
#[export] Instance set_irFilter4 : Setter irFilter4 := ltac:(setter eta_tTffpConfig irFilter4).
#[export] Instance set_allCaps : Setter allCaps := ltac:(setter eta_tTffpConfig allCaps).
#[export] Instance set_typematicDelay : Setter typematicDelay := ltac:(setter eta_tTffpConfig typematicDelay).
#[export] Instance set_typematicRate : Setter typematicRate := ltac:(setter eta_tTffpConfig typematicRate).
#[export] Instance set_scrollMode : Setter scrollMode := ltac:(setter eta_tTffpConfig scrollMode).
#[export] Instance set_scrollPause : Setter scrollPause := ltac:(setter eta_tTffpConfig scrollPause).
#[export] Instance set_scrollDelay : Setter scrollDelay := ltac:(setter eta_tTffpConfig scrollDelay).
#[export] Instance set_gmtOffset : Setter gmtOffset := ltac:(setter eta_tTffpConfig gmtOffset).
#[export] Instance set_cfg_pad : Setter cfg_pad := ltac:(setter eta_tTffpConfig cfg_pad).


Record frontpanel_ioctl_scrollmode := mkScroll { sm_mode : Z; sm_pause : Z; sm_delay : Z }.
Definition eta_frontpanel_ioctl_scrollmode (s : frontpanel_ioctl_scrollmode) : frontpanel_ioctl_scrollmode :=
  mkScroll (sm_mode s) (sm_pause s) (sm_delay s).
#[export] Instance set_sm_mode : Setter sm_mode := ltac:(setter eta_frontpanel_ioctl_scrollmode sm_mode).
#[export] Instance set_sm_pause : Setter sm_pause := ltac:(setter eta_frontpanel_ioctl_scrollmode sm_pause).
#[export] Instance set_sm_delay : Setter sm_delay := ltac:(setter eta_frontpanel_ioctl_scrollmode sm_delay).


Inductive eScrollState :=
  SS_InitChars | SS_WaitPauseTimeout | SS_ScrollText | SS_WaitDelayTimeout | SS_ShortString.

(** The file-level variables and function-level statics of frontpanel.c and
    tffp_procfs.c with the hardware.  Of [FrontPanelOpen] the file handles, 0 for
    NULL.  Spinner_on is declared static in frontpanel.h, so each of the two C
    files has its own: [Spinner_on] and [proc_Spinner_on].  The text buffer b is
    only written for the log. *)
Record tffp (D : Type) := mkTffp {
  fp_io : D; FrontPanelOpen : list Z; save_bright : Z; DisplayBufferLED : list Z;
  DisplayBufferVFD : list Z; DisplayBufferVFDCurrent : list Z; RCVBuffer : list Z;
  RCVBufferStart : Z; RCVBufferEnd : Z; IconBlinkMode : list (list Z);
  DefaultTypematicDelay : Z; DefaultTypematicRate : Z; KeyBuffer : list Z;
  KeyBufferStart : Z; KeyBufferEnd : Z; KeyEmulationMode : Z; termAttributes : list Z;
  tffpConfig : tTffpConfig; gmtWakeupTime : Z; fptime : frontpanel_ioctl_time;
  FPREQDATETIMENEWPending : Z; FPREQTIMERNEWPending : Z; TypematicDelay : Z;
  TypematicRate : Z; ShutdownTypematicRate : Z; bootreason : Z; FPIRData : list Z;
  Segment_flag : list Z; Spinner_on : Z; Spinner_state : Z; Spinner_cntdown : Z;
  ScrollMode : frontpanel_ioctl_scrollmode; ScrollOnce : Z; ScrollState : eScrollState;
  Message : list Z; ScrollText : list Z; CurrentDelay : Z; msgStart : Z;
  DelayCounter : Z; TimerCounter : Z; rx_int_sem : Z; proc_Spinner_on : Z;
  symbol_circle : Z; symbol_timeshift : Z
}.
Arguments mkTffp {D} _ _ _ _ _ _ _ _ _ _ _ _ _ _ _ _ _ _ _ _ _ _ _ _ _ _ _ _ _ _ _ _ _ _ _ _ _ _ _ _ _ _ _ _.
Arguments fp_io {D} _.
Arguments FrontPanelOpen {D} _.
Arguments save_bright {D} _.
Arguments DisplayBufferLED {D} _.
Arguments DisplayBufferVFD {D} _.
Arguments DisplayBufferVFDCurrent {D} _.
Arguments RCVBuffer {D} _.
Arguments RCVBufferStart {D} _.
Arguments RCVBufferEnd {D} _.
Arguments IconBlinkMode {D} _.
Arguments DefaultTypematicDelay {D} _.
Arguments DefaultTypematicRate {D} _.
Arguments KeyBuffer {D} _.
Arguments KeyBufferStart {D} _.
Arguments KeyBufferEnd {D} _.
Arguments KeyEmulationMode {D} _.
Arguments termAttributes {D} _.
Arguments tffpConfig {D} _.
Arguments gmtWakeupTime {D} _.
Arguments fptime {D} _.
Arguments FPREQDATETIMENEWPending {D} _.
Arguments FPREQTIMERNEWPending {D} _.
Arguments TypematicDelay {D} _.
Arguments TypematicRate {D} _.
Arguments ShutdownTypematicRate {D} _.
Arguments bootreason {D} _.
Arguments FPIRData {D} _.
Arguments Segment_flag {D} _.
Arguments Spinner_on {D} _.
Arguments Spinner_state {D} _.
Arguments Spinner_cntdown {D} _.
Arguments ScrollMode {D} _.
Arguments ScrollOnce {D} _.
Arguments ScrollState {D} _.
Arguments Message {D} _.
Arguments ScrollText {D} _.
Arguments CurrentDelay {D} _.
Arguments msgStart {D} _.
Arguments DelayCounter {D} _.
Arguments TimerCounter {D} _.
Arguments rx_int_sem {D} _.
Arguments proc_Spinner_on {D} _.
Arguments symbol_circle {D} _.
Arguments symbol_timeshift {D} _.

Definition eta_tffp {D : Type} (s : tffp D) : tffp D :=
  mkTffp (fp_io s) (FrontPanelOpen s) (save_bright s) (DisplayBufferLED s)
    (DisplayBufferVFD s) (DisplayBufferVFDCurrent s) (RCVBuffer s) (RCVBufferStart s)
    (RCVBufferEnd s) (IconBlinkMode s) (DefaultTypematicDelay s)
    (DefaultTypematicRate s) (KeyBuffer s) (KeyBufferStart s) (KeyBufferEnd s)
    (KeyEmulationMode s) (termAttributes s) (tffpConfig s) (gmtWakeupTime s) (fptime s)
    (FPREQDATETIMENEWPending s) (FPREQTIMERNEWPending s) (TypematicDelay s)
    (TypematicRate s) (ShutdownTypematicRate s) (bootreason s) (FPIRData s)
    (Segment_flag s) (Spinner_on s) (Spinner_state s) (Spinner_cntdown s) (ScrollMode s)
    (ScrollOnce s) (ScrollState s) (Message s) (ScrollText s) (CurrentDelay s)
    (msgStart s) (DelayCounter s) (TimerCounter s) (rx_int_sem s) (proc_Spinner_on s)
    (symbol_circle s) (symbol_timeshift s).

Section tffp_setters.
Context {D : Type}.
#[export] Instance set_fp_io : Setter (@fp_io D) := ltac:(setter (@eta_tffp D) (@fp_io D)).
#[export] Instance set_FrontPanelOpen : Setter (@FrontPanelOpen D) := ltac:(setter (@eta_tffp D) (@FrontPanelOpen D)).
#[export] Instance set_save_bright : Setter (@save_bright D) := ltac:(setter (@eta_tffp D) (@save_bright D)).
#[export] Instance set_DisplayBufferLED : Setter (@DisplayBufferLED D) := ltac:(setter (@eta_tffp D) (@DisplayBufferLED D)).
#[export] Instance set_DisplayBufferVFD : Setter (@DisplayBufferVFD D) := ltac:(setter (@eta_tffp D) (@DisplayBufferVFD D)).
#[export] Instance set_DisplayBufferVFDCurrent : Setter (@DisplayBufferVFDCurrent D) := ltac:(setter (@eta_tffp D) (@DisplayBufferVFDCurrent D)).
#[export] Instance set_RCVBuffer : Setter (@RCVBuffer D) := ltac:(setter (@eta_tffp D) (@RCVBuffer D)).
#[export] Instance set_RCVBufferStart : Setter (@RCVBufferStart D) := ltac:(setter (@eta_tffp D) (@RCVBufferStart D)).
#[export] Instance set_RCVBufferEnd : Setter (@RCVBufferEnd D) := ltac:(setter (@eta_tffp D) (@RCVBufferEnd D)).
#[export] Instance set_IconBlinkMode : Setter (@IconBlinkMode D) := ltac:(setter (@eta_tffp D) (@IconBlinkMode D)).
#[export] Instance set_DefaultTypematicDelay : Setter (@DefaultTypematicDelay D) := ltac:(setter (@eta_tffp D) (@DefaultTypematicDelay D)).
#[export] Instance set_DefaultTypematicRate : Setter (@DefaultTypematicRate D) := ltac:(setter (@eta_tffp D) (@DefaultTypematicRate D)).
#[export] Instance set_KeyBuffer : Setter (@KeyBuffer D) := ltac:(setter (@eta_tffp D) (@KeyBuffer D)).
#[export] Instance set_KeyBufferStart : Setter (@KeyBufferStart D) := ltac:(setter (@eta_tffp D) (@KeyBufferStart D)).
#[export] Instance set_KeyBufferEnd : Setter (@KeyBufferEnd D) := ltac:(setter (@eta_tffp D) (@KeyBufferEnd D)).
#[export] Instance set_KeyEmulationMode : Setter (@KeyEmulationMode D) := ltac:(setter (@eta_tffp D) (@KeyEmulationMode D)).
#[export] Instance set_termAttributes : Setter (@termAttributes D) := ltac:(setter (@eta_tffp D) (@termAttributes D)).
#[export] Instance set_tffpConfig : Setter (@tffpConfig D) := ltac:(setter (@eta_tffp D) (@tffpConfig D)).
#[export] Instance set_gmtWakeupTime : Setter (@gmtWakeupTime D) := ltac:(setter (@eta_tffp D) (@gmtWakeupTime D)).
#[export] Instance set_fptime : Setter (@fptime D) := ltac:(setter (@eta_tffp D) (@fptime D)).
#[export] Instance set_FPREQDATETIMENEWPending : Setter (@FPREQDATETIMENEWPending D) := ltac:(setter (@eta_tffp D) (@FPREQDATETIMENEWPending D)).
#[export] Instance set_FPREQTIMERNEWPending : Setter (@FPREQTIMERNEWPending D) := ltac:(setter (@eta_tffp D) (@FPREQTIMERNEWPending D)).
#[export] Instance set_TypematicDelay : Setter (@TypematicDelay D) := ltac:(setter (@eta_tffp D) (@TypematicDelay D)).
#[export] Instance set_TypematicRate : Setter (@TypematicRate D) := ltac:(setter (@eta_tffp D) (@TypematicRate D)).
#[export] Instance set_ShutdownTypematicRate : Setter (@ShutdownTypematicRate D) := ltac:(setter (@eta_tffp D) (@ShutdownTypematicRate D)).
#[export] Instance set_bootreason : Setter (@bootreason D) := ltac:(setter (@eta_tffp D) (@bootreason D)).
#[export] Instance set_FPIRData : Setter (@FPIRData D) := ltac:(setter (@eta_tffp D) (@FPIRData D)).
#[export] Instance set_Segment_flag : Setter (@Segment_flag D) := ltac:(setter (@eta_tffp D) (@Segment_flag D)).
#[export] Instance set_Spinner_on : Setter (@Spinner_on D) := ltac:(setter (@eta_tffp D) (@Spinner_on D)).
#[export] Instance set_Spinner_state : Setter (@Spinner_state D) := ltac:(setter (@eta_tffp D) (@Spinner_state D)).
#[export] Instance set_Spinner_cntdown : Setter (@Spinner_cntdown D) := ltac:(setter (@eta_tffp D) (@Spinner_cntdown D)).
#[export] Instance set_ScrollMode : Setter (@ScrollMode D) := ltac:(setter (@eta_tffp D) (@ScrollMode D)).
#[export] Instance set_ScrollOnce : Setter (@ScrollOnce D) := ltac:(setter (@eta_tffp D) (@ScrollOnce D)).
#[export] Instance set_ScrollState : Setter (@ScrollState D) := ltac:(setter (@eta_tffp D) (@ScrollState D)).
#[export] Instance set_Message : Setter (@Message D) := ltac:(setter (@eta_tffp D) (@Message D)).
#[export] Instance set_ScrollText : Setter (@ScrollText D) := ltac:(setter (@eta_tffp D) (@ScrollText D)).
#[export] Instance set_CurrentDelay : Setter (@CurrentDelay D) := ltac:(setter (@eta_tffp D) (@CurrentDelay D)).
#[export] Instance set_msgStart : Setter (@msgStart D) := ltac:(setter (@eta_tffp D) (@msgStart D)).
#[export] Instance set_DelayCounter : Setter (@DelayCounter D) := ltac:(setter (@eta_tffp D) (@DelayCounter D)).
#[export] Instance set_TimerCounter : Setter (@TimerCounter D) := ltac:(setter (@eta_tffp D) (@TimerCounter D)).
#[export] Instance set_rx_int_sem : Setter (@rx_int_sem D) := ltac:(setter (@eta_tffp D) (@rx_int_sem D)).
#[export] Instance set_proc_Spinner_on : Setter (@proc_Spinner_on D) := ltac:(setter (@eta_tffp D) (@proc_Spinner_on D)).
#[export] Instance set_symbol_circle : Setter (@symbol_circle D) := ltac:(setter (@eta_tffp D) (@symbol_circle D)).
#[export] Instance set_symbol_timeshift : Setter (@symbol_timeshift D) := ltac:(setter (@eta_tffp D) (@symbol_timeshift D)).
End tffp_setters.

(** The module's variables when it is loaded. *)
Definition zero_time : frontpanel_ioctl_time := mkTime 0 0 0 0 [0; 0; 0; 0] 0 0 0 0.
Definition zero_config : tTffpConfig := mkConfig 0 0 0 0 0 0 0 0 0 0 0 0 0 0 0.
Definition tffp_boot {D} (d : D) : tffp D :=
  {| fp_io := d; FrontPanelOpen := [0; 0; 0; 0]; save_bright := 0;
     DisplayBufferLED := replicate 4 0; DisplayBufferVFD := replicate 48 0;
     DisplayBufferVFDCurrent := replicate 48 0; RCVBuffer := replicate 256 0;
     RCVBufferStart := 0; RCVBufferEnd := 0; IconBlinkMode := replicate 48 [0; 0; 0; 0];
     DefaultTypematicDelay := 3; DefaultTypematicRate := 1; KeyBuffer := replicate 256 0;
     KeyBufferStart := 0; KeyBufferEnd := 0; KeyEmulationMode := 1;
     termAttributes := replicate 36 0; tffpConfig := zero_config; gmtWakeupTime := 0;
     fptime := zero_time; FPREQDATETIMENEWPending := 0; FPREQTIMERNEWPending := 0;
     TypematicDelay := 0; TypematicRate := 0; ShutdownTypematicRate := 0; bootreason := 0;
     FPIRData := [0xa5; 0x00; 0x02; 0x34; 0x0a; 0x00; 0xa5; 0x01; 0x49; 0x00; 0x0a; 0x00;
                  0xa5; 0x02; 0x49; 0x99; 0x0a; 0x00; 0xa5; 0x03; 0x20; 0xdf; 0x0a; 0x00];
     Segment_flag := replicate 11 0; Spinner_on := 0; Spinner_state := 0;
     Spinner_cntdown := 0; ScrollMode := mkScroll 0 0 0; ScrollOnce := 1;
     ScrollState := SS_InitChars; Message := replicate 40 0; ScrollText := replicate 40 0;
     CurrentDelay := 0; msgStart := 0; DelayCounter := 0; TimerCounter := 0;
     rx_int_sem := 0; proc_Spinner_on := 0; symbol_circle := 0; symbol_timeshift := 0 |}.

(** ** The hardware and the kernel *)

(** Registers, the I2C bus of the EEPROM (a message that writes bytes, and one
    that writes an offset and reads back), and the kernel's registrations. *)
Class FpHw (D : Type) := {
  fp_mmio :: Mmio D;
  i2c_put : list Z -> D -> bool * D;
  i2c_get : Z -> Z -> D -> option (list Z) * D;
  do_gettimeofday : D -> Z;
  do_settimeofday : Z -> D -> D;
  fp_register_chrdev : D -> bool * D;
  fp_request_irq : D -> bool * D;
  fp_unregister : D -> D
}.

(** A broken-down time of the real time clock interface. *)
Record rtc_time := RtcTime {
  tm_sec : Z; tm_min : Z; tm_hour : Z; tm_mday : Z; tm_mon : Z; tm_year : Z
}.

(** Library functions of the kernel, and what is left on the stack where a
    local buffer is not initialised. *)
Class FpKernel := {
  crc16 : Z -> list Z -> Z;
  toupper : Z -> Z;
  mktime : Z -> Z -> Z -> Z -> Z -> Z -> Z;
  rtc_time_to_tm : Z -> rtc_time;
  simple_strtol : list Z -> Z;
  sscanf_d : list Z -> option Z;
  stack_junk : nat -> list Z
}.

(** A kernel service that acts on the hardware. *)
Definition fp_do {D} (f : D -> D) : M (tffp D) unit :=
  modify (fun s => s <| fp_io := f (fp_io s) |>).
Definition fp_call {D A} (f : D -> A * D) : M (tffp D) A := fun s =>
  let (a, d) := f (fp_io s) in Ok (a, s <| fp_io := d |>).

Section serial.
Context {D : Type} `{FpHw D} `{FpKernel}.

Definition fp_inl (a : Z) : M (tffp D) Z := fp_call (mmio_rd a).
Definition fp_outl (a v : Z) : M (tffp D) unit := fp_do (mmio_wr a v).

(** ** Sending *)

(** The status is polled until the transmitter has room, or Counter is 0. *)
Fixpoint wait_the (Counter : nat) : M (tffp D) unit :=
  match Counter with
  | O => skip
  | S Counter =>
      sta ← fp_inl (ASC3BaseAddress + ASC_INT_STA);
      if truthy (sta .& ASC_INT_STA_THE) then skip else wait_the Counter
  end.

Definition SendFPByte (Data : Z) : M (tffp D) unit :=
  wait_the (Z.to_nat 100000);;
  fp_outl (ASC3BaseAddress + ASC_TX_BUFF) (u8 Data).

(** for (i = 1; i <= (s[0] & 0x0f); i++), [n] rounds left *)
Fixpoint send_rest (n : nat) (i : Z) (s : list Z) : M (tffp D) unit :=
  match n with
  | O => skip
  | S n => b ← lift (aget s i); SendFPByte b;; send_rest n (i + 1) s
  end.

Definition SendFPString (s : list Z) : M (tffp D) unit :=
  SendFPByte 2;;
  cmd ← lift (aget s 0);
  SendFPByte cmd;;
  send_rest (Z.to_nat (cmd .& 0x0f)) 1 s;;
  SendFPByte 3.

(** The arguments go to the front of a buffer of 20 bytes. *)
Definition SendFPData (data : list Z) : M (tffp D) unit :=
  SendFPString (map u8 data ++ drop (length data) (stack_junk 20)).

(** ** Configuration *)

Definition EEPROM_ADDR := 0xa0 ≫ 1.
Definition TFFP_CFG_OFFSET := 0x80.
Definition TFFP_CFG_VERSION := 1.
Definition EEPROM_BURST_SIZE := 8.
Definition EEPROM_MAX_RETRIES := 10.

Definition defaultConfig : tTffpConfig :=
  {| crc := 0; gmtOffset := -1; version := 1; brightness := 3; irFilter1 := 1;
     irFilter2 := 0; irFilter3 := 0; irFilter4 := 1; allCaps := 1; typematicDelay := 3;
     typematicRate := 1; scrollMode := 1; scrollPause := 100; scrollDelay := 10; cfg_pad := 0 |}.

(** The structure in memory: three little-endian words of bit fields. *)
Definition config_bytes (c : tTffpConfig) : list Z :=
  [u8 (crc c); u8 (crc c ≫ 8); u8 (version c);
   u8 (brightness c .| (irFilter1 c ≪ 3) .| (irFilter2 c ≪ 4) .| (irFilter3 c ≪ 5)
       .| (irFilter4 c ≪ 6) .| (allCaps c ≪ 7));
   u8 (typematicDelay c); u8 (typematicRate c); u8 (scrollMode c); u8 (scrollPause c);
   u8 (scrollDelay c); u8 (gmtOffset c); u8 (gmtOffset c ≫ 8); u8 (cfg_pad c)].

Definition config_of_bytes (l : list Z) : tTffpConfig :=
  let at_ i := nth i l 0 in
  {| crc := at_ 0%nat .| (at_ 1%nat ≪ 8); version := at_ 2%nat;
     brightness := at_ 3%nat .& 7; irFilter1 := (at_ 3%nat ≫ 3) .& 1;
     irFilter2 := (at_ 3%nat ≫ 4) .& 1; irFilter3 := (at_ 3%nat ≫ 5) .& 1;
     irFilter4 := (at_ 3%nat ≫ 6) .& 1; allCaps := (at_ 3%nat ≫ 7) .& 1;
     typematicDelay := at_ 4%nat; typematicRate := at_ 5%nat; scrollMode := at_ 6%nat;
     scrollPause := at_ 7%nat; scrollDelay := at_ 8%nat;
     gmtOffset := s16 (at_ 9%nat .| (at_ 10%nat ≪ 8)); cfg_pad := at_ 11%nat |}.

(** [None] is the result -1. *)
Definition readEepromData (offset length : Z) : M (tffp D) (option (list Z)) :=
  fp_call (i2c_get offset length).

(** while (i2c_transfer(...) != 1) { j++; if (j > EEPROM_MAX_RETRIES) return -1; },
    [n] attempts left *)
Fixpoint write_burst (n : nat) (msg : list Z) : M (tffp D) bool :=
  match n with
  | O => mret false
  | S n => ok ← fp_call (i2c_put msg); if (ok : bool) then mret true else write_burst n msg
  end.

(** for (i = 0; i < length; i += EEPROM_BURST_SIZE), [n] rounds at most; the
    byte before a burst, sent already, takes its offset. *)
Fixpoint write_bursts (n : nat) (i offset length : Z) (buf : list Z) : M (tffp D) Z :=
  match n with
  | O => mret length
  | S n =>
      if i <? length then
        let len := 1 + (if EEPROM_BURST_SIZE <? length - i then EEPROM_BURST_SIZE else length - i) in
        buf ← lift (aset buf i (u8 (offset + i)));
        msg ← lift (aslice buf i len);
        ok ← write_burst (Z.to_nat (EEPROM_MAX_RETRIES + 1)) msg;
        if (ok : bool) then write_bursts n (i + EEPROM_BURST_SIZE) offset length buf else mret (-1)
      else mret length
  end.

Definition writeEepromData (offset length : Z) (pData : list Z) : M (tffp D) Z :=
  let length := if 256 <? length then 256 else length in
  buf ← lift (amemcpy (stack_junk 260) 1 pData 0 length);
  write_bursts 33 0 offset length buf.

Definition readTffpConfig : M (tffp D) Z :=
  d ← readEepromData TFFP_CFG_OFFSET 12;
  match d with
  | None => modify (fun s => s <| tffpConfig := defaultConfig |>);; mret (-1)
  | Some d =>
      let cfg := config_of_bytes d in
      if negb (version cfg =? TFFP_CFG_VERSION) || negb (crc16 0 (drop 2 d) =? crc cfg)
      then modify (fun s => s <| tffpConfig := defaultConfig |>);; mret (-1)
      else modify (fun s => s <| tffpConfig := cfg |>);; mret 0
  end.

Definition writeTffpConfig : M (tffp D) Z :=
  modify (fun s => s <| tffpConfig :=
    (tffpConfig s) <| crc := u16 (crc16 0 (drop 2 (config_bytes (tffpConfig s)))) |>
                   <| version := TFFP_CFG_VERSION |> |>);;
  c ← gets tffpConfig;
  r ← writeEepromData TFFP_CFG_OFFSET 12 (config_bytes c);
  mret (if r <? 0 then -1 else 0).
End serial.
