(* ===== verification/TffpDisplay.v ===== *)
(** * Topfield front panel: what the display shows (frontcontroller/tffp/frontpanel.c)

    Characters as segments of the small and the large display, the icons, the
    spinner, the text that scrolls, UTF-8, and the timer that puts them
    together. *)
From S2P Require Import Prelude TffpState.

(** ** Characters *)

Definition VFDSegmentMap7 : list Z :=
  [0; 0; 0; 0; 0; 0; 0; 0; 0; 0; 0; 0; 0; 0; 0; 0;
   0; 0; 0; 0; 0; 0; 0; 0; 0; 0; 0; 0; 0; 0; 0; 0;
   0; 0; 0; 0; 0; 0; 0; 0; 0; 0; 0; 0; 0; 0; 0; 0;
   0x3F; 0x06; 0x5B; 0x4F; 0x66; 0x6D; 0x7D; 0x27; 0x7F; 0x6F; 0; 0; 0; 0; 0; 0;
   0x77; 0x7C; 0x39; 0x5E; 0x79; 0x71; 0x3D; 0; 0x06; 0; 0x7A; 0x38; 0x49; 0x37; 0x3F; 0x73;
   0; 0x50; 0x6D; 0x78; 0x3E; 0; 0; 0; 0x6E; 0; 0; 0; 0; 0; 0; 0]
  ++ replicate 160 0.

Definition VFDSegmentMap14 : list Z :=
  [0; 0; 0; 0; 0; 0; 0; 0;
   0; 0; 0; 0; 0; 0; 0; 0;
   0; 0; 0; 0; 0; 0; 0; 0;
   0; 0; 0; 0; 0; 0; 0; 0;
   0; 0; 0x0202; 0; 0x1BC9; 0; 0; 0x0200;
   0x0C00; 0x2100; 0x3FC0; 0x12C0; 0x2000; 0x00C0; 0x4000; 0x2400;
   0x003F; 0x1200; 0x00DB; 0x00CF; 0x00E6; 0x018D; 0x00FD; 0x0007;
   0x00FF; 0x00EF; 0; 0; 0x2008; 0x00C8; 0x0808; 0;
   0; 0x00F7; 0x128F; 0x0039; 0x120F; 0x0079; 0x0071; 0x00BD;
   0x00F6; 0x1209; 0x001E; 0x0C70; 0x0038; 0x0536; 0x0936; 0x003F;
   0x00F3; 0x083F; 0x08F3; 0x00ED; 0x1201; 0x003E; 0x2430; 0x2836;
   0x2D00; 0x1500; 0x2409; 0x0039; 0x0900; 0x000F; 0x0120; 0x0008;
   0x0100; 0x1058; 0x00FC; 0x00D8; 0x00DE; 0x2058; 0; 0;
   0x00F4; 0x1000; 0; 0; 0; 0; 0; 0;
   0; 0; 0; 0; 0; 0; 0; 0x2814;
   0; 0; 0; 0; 0x1200; 0; 0; 0]
  ++ replicate 128 0.

Definition VFDSegmentMap17 : list Z :=
  [0; 0; 0; 0; 0; 0; 0; 0;
   0; 0; 0; 0; 0; 0; 0; 0;
   0; 0; 0; 0; 0; 0; 0; 0;
   0; 0; 0; 0; 0; 0; 0; 0;
   0; 0x0040A000; 0x00A01004; 0x015D6F00; 0x0E9C97BB; 0x02492488; 0x0A9291F1; 0x00801000;
   0x0A026000; 0x04210800; 0x009D5700; 0x009C9700; 0x00110100; 0x001C0700; 0x00000010; 0x00492400;
   0x0E6B24FF; 0x00889400; 0x0C3E0777; 0x0C3C073F; 0x023C078C; 0x0E1C07BB; 0x0E1E07FB; 0x0C20000F;
   0x0E3E07FF; 0x0E3C07BF; 0x00809000; 0x00811000; 0x00486400; 0x001C0730; 0x01090C00; 0x0E2C8687;
   0x0C32817F; 0x0E3E07CF; 0x0CAC963F; 0x0E0200F3; 0x0CA0903F; 0x0E1E07F3; 0x0E1E07C3; 0x0E0602FB;
   0x023E07CC; 0x0C889433; 0x0020003C; 0x025A65C0; 0x020200F0; 0x036A2CCC; 0x032A4CCC; 0x0E2200FF;
   0x0E3E07C7; 0x0E2240FF; 0x0E3E47C7; 0x0E1C07BB; 0x0C889403; 0x022200FC; 0x024B24C0; 0x022B44CC;
   0x01496C00; 0x0148AC00; 0x0C492433; 0x0A0200D1; 0x01084C00; 0x0420002E; 0x0E200087; 0x00000030;
   0x00801000; 0x001A8570; 0x021281D0; 0x00120150; 0x009A9550; 0x00130150; 0x0A1A05C1; 0x00044228;
   0x021A85C0; 0x0040A000; 0x00809010; 0x00C8F400; 0x00889420; 0x00168348; 0x00128140; 0x00128150;
   0x04AC9606; 0x0A9895A1; 0x001A0540; 0x00044220; 0x009C9720; 0x00028050; 0x00030040; 0x0003C048;
   0x001D4700; 0x00A4122C; 0x00190510; 0x04909122; 0x00889400; 0x08849211; 0x001C0700; 0;
   0; 0; 0; 0; 0; 0; 0; 0;
   0; 0; 0; 0; 0; 0; 0; 0;
   0; 0; 0; 0; 0; 0; 0; 0;
   0; 0; 0; 0; 0; 0; 0; 0;
   0; 0x0040A000; 0x0E8290F3; 0x021201F0; 0x0A901181; 0x015CAF00; 0x00809000; 0x0E1C07BB;
   0x00A01004; 0x0E0200F3; 0x001A8570; 0x00486400; 0x0C200007; 0; 0x0E3E47C7; 0x001C0700;
   0x01000800; 0x009C9730; 0x0C3E0777; 0x0C3C073F; 0x00402000; 0x02231204; 0x0AB8958D; 0x00080400;
   0x00110100; 0x00889400; 0x04C43202; 0x01090C00; 0x009A1578; 0; 0; 0;
   0; 0; 0; 0; 0x0001260F; 0; 0; 0;
   0; 0; 0; 0; 0; 0; 0; 0;
   0; 0; 0; 0; 0; 0; 0x0000077B; 0;
   0x0E6B24FF; 0; 0; 0; 0x0000007B; 0; 0; 0;
   0; 0; 0; 0; 0x00018511; 0; 0x0CBE9777; 0;
   0; 0; 0; 0; 0; 0; 0; 0;
   0; 0; 0; 0; 0; 0; 0x00008151; 0;
   0x0E6B24FF; 0; 0; 0; 0x00008051; 0x08889401; 0; 0].

Inductive DISPLAYTYPE := VFD_7 | VFD_14 | VFD_17.

(** ** Strings in arrays *)

(** The characters before the terminator; an array without one is overrun. *)
Fixpoint c_str (l : list Z) : res (list Z) :=
  match l with
  | [] => Fault OutOfBounds
  | c :: l => if c =? 0 then Ok [] else s ← c_str l; mret (c :: s)
  end.
Definition strlen (l : list Z) : res Z := s ← c_str l; mret (Z.of_nat (length s)).

(** The [n] bytes that strncpy writes. *)
Fixpoint strncpy (n : nat) (src : list Z) : res (list Z) :=
  match n with
  | O => Ok []
  | S n =>
      match src with
      | [] => Fault OutOfBounds
      | c :: src => if c =? 0 then Ok (replicate (S n) 0) else d ← strncpy n src; mret (c :: d)
      end
  end.

(** ** UTF-8 *)

(** if ( *Source ) Source++ *)
Definition past_byte (a : list Z) (Source : Z) : res Z :=
  c ← aget a Source; mret (if c =? 0 then Source else Source + 1).

(** A character at [Source] that does not fit: '*' goes to [Dest], then the
    byte at [Source] is read again to skip the rest of the character. *)
Definition utf_invalid (a : list Z) (Source Dest : Z) : res (list Z * Z) :=
  a ← aset a Dest 0x2a;
  c ← aget a Source;
  if c .& 0xe0 =? 0xc0 then mret (a, Source + 1)
  else if c .& 0xf0 =? 0xe0 then Source ← past_byte a (Source + 1); mret (a, Source)
  else if c .& 0xf8 =? 0xf0 then
    Source ← past_byte a (Source + 1); Source ← past_byte a Source; mret (a, Source)
  else mret (a, Source).

(** One round: the array and [Source] before the common increment. *)
Definition utf_char (a : list Z) (Source Dest : Z) : res (list Z * Z) :=
  c ← aget a Source;
  if 0xbf <? c then
    if 0xc3 <? c then utf_invalid a Source Dest
    else
      c2 ← aget a (Source + 1);
      a ← aset a Dest (((c .& 0x03) ≪ 6) .| (c2 .& 0x3f));
      mret (a, Source + 1)
  else a ← aset a Dest c; mret (a, Source).

Fixpoint utf_loop (fuel : nat) (a : list Z) (Source Dest : Z) : res (list Z * Z) :=
  match fuel with
  | O => Fault Diverges
  | S fuel =>
      c ← aget a Source;
      if c =? 0 then mret (a, Dest)
      else
        '(a, Source) ← utf_char a Source Dest;
        c ← aget a Source;
        if c =? 0 then utf_loop fuel a Source Dest
        else utf_loop fuel a (Source + 1) (Dest + 1)
  end.

(** Every round but the last moves [Source] forward. *)
Definition TranslateUTFString (s : list Z) : res (list Z) :=
  c ← aget s 0;
  if c =? 0 then mret s
  else '(a, Dest) ← utf_loop (S (S (length s))) s 0 0; aset a Dest 0.

(** ** Icon numbers *)

Definition FPICON_IRDOT := 0x00000001.
Definition FPICON_POWER := 0x00000002.
Definition FPICON_COLON := 0x00000004.
Definition FPICON_AM := 0x00000008.
Definition FPICON_PM := 0x00000010.
Definition FPICON_TIMER := 0x00000020.
Definition FPICON_AC3 := 0x00000040.
Definition FPICON_TIMESHIFT := 0x00000080.
Definition FPICON_TV := 0x00000100.
Definition FPICON_MUSIC := 0x00000200.
Definition FPICON_DISH := 0x00000400.
Definition FPICON_MP3 := 0x00000800.
Definition FPICON_TUNER1 := 0x00001000.
Definition FPICON_TUNER2 := 0x00002000.
Definition FPICON_REC := 0x00004000.
Definition FPICON_MUTE := 0x00008000.
Definition FPICON_PAUSE := 0x00010000.
Definition FPICON_FWD := 0x00020000.
Definition FPICON_RWD := 0x00040000.
Definition FPICON_xxx2 := 0x00080000.
Definition FPICON_PLAY := 0x00100000.
Definition FPICON_xxx4 := 0x00200000.
Definition FPICON_NETWORK := 0x00400000.
Definition FPICON_DOLBY := 0x00800000.
Definition FPICON_ATTN := 0x01000000.
Definition FPICON_DOLLAR := 0x02000000.
Definition FPICON_AUTOREWRIGHT := 0x04000000.
Definition FPICON_AUTOREWLEFT := 0x08000000.
Definition FPICON_CDCENTER := 0x00000001.
Definition FPICON_CD1 := 0x00000002.
Definition FPICON_CD2 := 0x00000004.
Definition FPICON_CD3 := 0x00000008.
Definition FPICON_CD4 := 0x00000010.
Definition FPICON_CD5 := 0x00000020.
Definition FPICON_CD6 := 0x00000040.
Definition FPICON_CD7 := 0x00000080.
Definition FPICON_CD8 := 0x00000100.
Definition FPICON_CD9 := 0x00000200.
Definition FPICON_CD10 := 0x00000400.
Definition FPICON_CD11 := 0x00000800.
Definition FPICON_CD12 := 0x00001000.
Definition FPICON_HDD := 0x00002000.
Definition FPICON_HDDFRAME := 0x00004000.
Definition FPICON_HDD1 := 0x00008000.
Definition FPICON_HDD2 := 0x00010000.
Definition FPICON_HDD3 := 0x00020000.
Definition FPICON_HDD4 := 0x00040000.
Definition FPICON_HDD5 := 0x00080000.
Definition FPICON_HDD6 := 0x00100000.
Definition FPICON_HDD7 := 0x00200000.
Definition FPICON_HDD8 := 0x00400000.
Definition FPICON_HDDFULL := 0x00800000.

Definition VFD_ICON_HD := 0x01.
Definition VFD_ICON_HDD := 0x02.
Definition VFD_ICON_LOCK := 0x03.
Definition VFD_ICON_BT := 0x04.
Definition VFD_ICON_MP3 := 0x05.
Definition VFD_ICON_MUSIC := 0x06.
Definition VFD_ICON_DD := 0x07.
Definition VFD_ICON_MAIL := 0x08.
Definition VFD_ICON_MUTE := 0x09.
Definition VFD_ICON_PLAY := 0x0a.
Definition VFD_ICON_PAUSE := 0x0b.
Definition VFD_ICON_FF := 0x0c.
Definition VFD_ICON_FR := 0x0d.
Definition VFD_ICON_REC := 0x0e.
Definition VFD_ICON_CLOCK := 0x0f.
Definition VFD_ICON_CD1 := 0x20.
Definition VFD_ICON_CD2 := 0x21.
Definition VFD_ICON_CD3 := 0x22.
Definition VFD_ICON_CD4 := 0x23.
Definition VFD_ICON_CD5 := 0x24.
Definition VFD_ICON_CD6 := 0x25.
Definition VFD_ICON_CD7 := 0x26.
Definition VFD_ICON_CD8 := 0x27.
Definition VFD_ICON_CD9 := 0x28.
Definition VFD_ICON_CD10 := 0x29.
Definition VFD_ICON_CDCENTER := 0x2f.
Definition VFD_ICON_HDD1 := 0x30.
Definition VFD_ICON_HDD_1 := 0x31.
Definition VFD_ICON_HDD_2 := 0x32.
Definition VFD_ICON_HDD_3 := 0x33.
Definition VFD_ICON_HDD_4 := 0x34.
Definition VFD_ICON_HDD_5 := 0x35.
Definition VFD_ICON_HDD_6 := 0x36.
Definition VFD_ICON_HDD_7 := 0x37.
Definition VFD_ICON_HDD_8 := 0x38.
Definition VFD_ICON_HDD_FRAME := 0x39.
Definition VFD_ICON_HDD_FULL := 0x3a.
Definition VFD_ICON_MP3_2 := 0x40.
Definition VFD_ICON_AC3 := 0x41.
Definition VFD_ICON_TIMESHIFT := 0x42.
Definition VFD_ICON_TV := 0x43.
Definition VFD_ICON_RADIO := 0x44.
Definition VFD_ICON_SAT := 0x45.
Definition VFD_ICON_REC2 := 0x46.
Definition VFD_ICON_RECONE := 0x47.
Definition VFD_ICON_RECTWO := 0x48.
Definition VFD_ICON_REWIND := 0x49.
Definition VFD_ICON_STEPBACK := 0x4a.
Definition VFD_ICON_PLAY2 := 0x4b.
Definition VFD_ICON_STEPFWD := 0x4c.
Definition VFD_ICON_FASTFWD := 0x4d.
Definition VFD_ICON_PAUSE2 := 0x4e.
Definition VFD_ICON_MUTE2 := 0x4f.
Definition VFD_ICON_REPEATL := 0x50.
Definition VFD_ICON_REPEATR := 0x51.
Definition VFD_ICON_DOLLAR := 0x52.
Definition VFD_ICON_ATTN := 0x53.
Definition VFD_ICON_DOLBY := 0x54.
Definition VFD_ICON_NETWORK := 0x55.
Definition VFD_ICON_AM := 0x56.
Definition VFD_ICON_TIMER := 0x57.
Definition VFD_ICON_PM := 0x58.
Definition VFD_ICON_DOT := 0x59.
Definition VFD_ICON_POWER := 0x5a.
Definition VFD_ICON_COLON := 0x5b.
Definition VFD_ICON_SPINNER := 0x5c.
Definition VFD_ICON_ALL := 0x7f.

Section display.
Context {D : Type} `{FpHw D} `{FpKernel}.

(** ** Sending the display *)

Definition send_block (Force : bool) (off : nat) : M (tffp D) unit :=
  v ← gets DisplayBufferVFD;
  c ← gets DisplayBufferVFDCurrent;
  let new := take 8 (drop off v) in
  when (Force || negb (bool_decide (new = take 8 (drop off c))))
    (SendFPString (0x99 :: Z.of_nat off :: new)).

Definition VFDSendToDisplay (Force : bool) : M (tffp D) unit :=
  send_block Force 0x00;; send_block Force 0x08;; send_block Force 0x10;;
  send_block Force 0x18;; send_block Force 0x20;; send_block Force 0x28;;
  modify (fun s => s <| DisplayBufferVFDCurrent := DisplayBufferVFD s |>).

Definition VFDClearBuffer : M (tffp D) unit :=
  modify (fun s => s <| DisplayBufferLED := replicate 4 0 |>
                     <| DisplayBufferVFD := replicate 48 0 |>
                     <| DisplayBufferVFDCurrent := replicate 48 0 |>);;
  SendFPData [0x91; 0x00].

Definition VFDInit : M (tffp D) unit :=
  fp_outl (PIO5BaseAddress + PIO_CLR_PnC0) 0x07;;
  fp_outl (PIO5BaseAddress + PIO_CLR_PnC1) 0x06;;
  fp_outl (PIO5BaseAddress + PIO_SET_PnC1) 0x01;;
  fp_outl (PIO5BaseAddress + PIO_SET_PnC2) 0x07;;
  fp_outl (ASC3BaseAddress + ASC_INT_EN) 0x00000000;;
  fp_outl (ASC3BaseAddress + ASC_CTRL) 0x00001589;;
  fp_outl (ASC3BaseAddress + ASC_TIMEOUT) 0x00000010;;
  fp_outl (ASC3BaseAddress + ASC_BAUDRATE) 0x000000c9;;
  fp_outl (ASC3BaseAddress + ASC_TX_RST) 0;;
  fp_outl (ASC3BaseAddress + ASC_RX_RST) 0;;
  VFDClearBuffer.

(** ** Digits *)

Definition VFDTranslateSegments (Character : Z) (DisplayType : DISPLAYTYPE) : res Z :=
  match DisplayType with
  | VFD_7 => aget VFDSegmentMap7 Character
  | VFD_14 => aget VFDSegmentMap14 Character
  | VFD_17 => aget VFDSegmentMap17 Character
  end.

(** DisplayBufferVFD[i] = f(DisplayBufferVFD[i]) *)
Definition vfd_put (i : Z) (f : Z -> Z) : M (tffp D) unit :=
  v ← gets DisplayBufferVFD;
  old ← lift (aget v i);
  v ← lift (aset v i (u8 (f old)));
  modify (fun s => s <| DisplayBufferVFD := v |>).

(** A digit of the small display; [s] are its segments. *)
Definition set_digit_14 (s Digit : Z) : M (tffp D) unit :=
    if Digit =? 0 then
      vfd_put 1 (fun old => (old .& 0xf0) .| ((s ≫ 12) .& 0x01) .| ((s ≫ 1) .& 0x02)
        .| ((s ≫ 2) .& 0x04) .| (s .& 0x08));;
      vfd_put 2 (fun old => ((s ≫ 8) .& 0x01) .| ((s ≫ 9) .& 0x02) .| ((s ≫ 3) .& 0x04)
        .| ((s ≪ 2) .& 0x08) .| ((s ≫ 3) .& 0x10) .| ((s ≫ 1) .& 0x20) .| ((s ≫ 5) .& 0x40)
        .| ((s ≫ 6) .& 0x80));;
      vfd_put 3 (fun old => (old .& 0x3f) .| ((s ≪ 6) .& 0x40) .| ((s ≫ 2) .& 0x80))
    else if Digit =? 1 then
      vfd_put 3 (fun old => (old .& 0xc0) .| ((s ≫ 11) .& 0x01) .| ((s ≫ 12) .& 0x02)
        .| ((s ≫ 10) .& 0x04) .| ((s ≪ 1) .& 0x08) .| (s .& 0x10) .| ((s ≪ 2) .& 0x20));;
      vfd_put 4 (fun old => (s .& 0x01) .| ((s ≫ 8) .& 0x02) .| ((s ≫ 6) .& 0x04)
        .| ((s ≫ 7) .& 0x08) .| ((s ≫ 1) .& 0x10) .| ((s ≪ 4) .& 0x20) .| ((s ≫ 1) .& 0x40)
        .| ((s ≪ 1) .& 0x80))
    else if Digit =? 2 then
      vfd_put 5 (fun old => (old .& 0x80) .| ((s ≫ 6) .& 0x01) .| ((s ≫ 10) .& 0x02)
        .| ((s ≫ 11) .& 0x04) .| ((s ≫ 9) .& 0x08) .| ((s ≪ 2) .& 0x10) .| ((s ≪ 1) .& 0x20)
        .| ((s ≪ 3) .& 0x40));;
      vfd_put 6 (fun old => (old .& 0x01) .| ((s ≪ 1) .& 0x02) .| ((s ≫ 7) .& 0x04)
        .| ((s ≫ 5) .& 0x08) .| ((s ≫ 6) .& 0x10) .| (s .& 0x20) .| ((s ≪ 5) .& 0x40)
        .| (s .& 0x80))
    else if Digit =? 3 then
      vfd_put 7 (fun old => (old .& 0xc0) .| ((s ≫ 11) .& 0x01) .| ((s ≫ 12) .& 0x02)
        .| ((s ≫ 10) .& 0x04) .| ((s ≪ 1) .& 0x08) .| (s .& 0x10) .| ((s ≪ 2) .& 0x20));;
      vfd_put 8 (fun old => (s .& 0x01) .| ((s ≫ 8) .& 0x02) .| ((s ≫ 6) .& 0x04)
        .| ((s ≫ 7) .& 0x08) .| ((s ≫ 1) .& 0x10) .| ((s ≪ 4) .& 0x20) .| ((s ≫ 1) .& 0x40)
        .| ((s ≪ 1) .& 0x80))
    else skip.

(** A digit of the large display. *)
Definition set_digit_17 (s Digit : Z) : M (tffp D) unit :=
    if Digit =? 0 then
      vfd_put 33 (fun old => (old .& 0xd5) .| ((s ≫ 5) .& 0x02) .| ((s ≫ 2) .& 0x08)
        .| ((s ≪ 1) .& 0x20));;
      vfd_put 34 (fun old => (old .& 0x55) .| ((s ≫ 13) .& 0x02) .| ((s ≫ 13) .& 0x08)
        .| ((s ≫ 10) .& 0x20) .| ((s ≪ 4) .& 0x80));;
      vfd_put 35 (fun old => (old .& 0x55) .| ((s ≫ 1) .& 0x02) .| ((s ≫ 7) .& 0x08)
        .| ((s ≫ 4) .& 0x20) .| ((s ≫ 1) .& 0x80));;
      vfd_put 36 (fun old => (old .& 0x55) .| ((s ≫ 11) .& 0x02) .| ((s ≫ 8) .& 0x08)
        .| ((s ≫ 8) .& 0x20) .| (s .& 0x80));;
      vfd_put 37 (fun old => (old .& 0x55) .| ((s ≪ 4) .& 0x20) .| ((s ≪ 7) .& 0x80))
    else if Digit =? 1 then
      vfd_put 17 (fun old => (old .& 0xd5) .| ((s ≫ 5) .& 0x02) .| ((s ≫ 2) .& 0x08)
        .| ((s ≪ 1) .& 0x20));;
      vfd_put 18 (fun old => (old .& 0x55) .| ((s ≫ 13) .& 0x02) .| ((s ≫ 13) .& 0x08)
        .| ((s ≫ 10) .& 0x20) .| ((s ≪ 4) .& 0x80));;
      vfd_put 19 (fun old => (old .& 0x55) .| ((s ≫ 1) .& 0x02) .| ((s ≫ 7) .& 0x08)
        .| ((s ≫ 4) .& 0x20) .| ((s ≫ 1) .& 0x80));;
      vfd_put 20 (fun old => (old .& 0x55) .| ((s ≫ 11) .& 0x02) .| ((s ≫ 8) .& 0x08)
        .| ((s ≫ 8) .& 0x20) .| (s .& 0x80));;
      vfd_put 21 (fun old => (old .& 0x55) .| ((s ≪ 4) .& 0x20) .| ((s ≪ 7) .& 0x80))
    else if Digit =? 2 then
      vfd_put 17 (fun old => (old .& 0xea) .| ((s ≫ 6) .& 0x01) .| ((s ≫ 3) .& 0x04)
        .| (s .& 0x10));;
      vfd_put 18 (fun old => (old .& 0xaa) .| ((s ≫ 14) .& 0x01) .| ((s ≫ 14) .& 0x04)
        .| ((s ≫ 11) .& 0x10) .| ((s ≪ 3) .& 0x40));;
      vfd_put 19 (fun old => (old .& 0xaa) .| ((s ≫ 2) .& 0x01) .| ((s ≫ 8) .& 0x04)
        .| ((s ≫ 5) .& 0x10) .| ((s ≫ 2) .& 0x40));;
      vfd_put 20 (fun old => (old .& 0xaa) .| ((s ≫ 12) .& 0x01) .| ((s ≫ 9) .& 0x04)
        .| ((s ≫ 9) .& 0x10) .| ((s ≫ 1) .& 0x40));;
      vfd_put 21 (fun old => (old .& 0xaf) .| ((s ≪ 3) .& 0x10) .| ((s ≪ 6) .& 0x40))
    else if Digit =? 3 then
      vfd_put 37 (fun old => (old .& 0xf5) .| ((s ≫ 4) .& 0x02) .| ((s ≫ 1) .& 0x08));;
      vfd_put 38 (fun old => (old .& 0x55) .| ((s ≫ 15) .& 0x02) .| ((s ≫ 12) .& 0x08)
        .| ((s ≪ 2) .& 0x20) .| ((s ≪ 1) .& 0x80));;
      vfd_put 39 (fun old => (old .& 0x55) .| ((s ≫ 9) .& 0x02) .| ((s ≫ 6) .& 0x08)
        .| ((s ≫ 3) .& 0x20) .| ((s ≫ 7) .& 0x80));;
      vfd_put 40 (fun old => (old .& 0x55) .| ((s ≫ 10) .& 0x02) .| ((s ≫ 10) .& 0x08)
        .| ((s ≫ 2) .& 0x20) .| ((s ≪ 5) .& 0x80));;
      vfd_put 41 (fun old => (old .& 0x57) .| ((s ≪ 2) .& 0x08) .| ((s ≪ 5) .& 0x20)
        .| ((s ≫ 5) .& 0x80))
    else if Digit =? 4 then
      vfd_put 37 (fun old => (old .& 0xfa) .| ((s ≫ 5) .& 0x01) .| ((s ≫ 2) .& 0x04));;
      vfd_put 38 (fun old => (old .& 0xaa) .| ((s ≫ 16) .& 0x01) .| ((s ≫ 13) .& 0x04)
        .| ((s ≪ 1) .& 0x10) .| (s .& 0x40));;
      vfd_put 39 (fun old => (old .& 0xaa) .| ((s ≫ 10) .& 0x01) .| ((s ≫ 7) .& 0x04)
        .| ((s ≫ 4) .& 0x10) .| ((s ≫ 8) .& 0x40));;
      vfd_put 40 (fun old => (old .& 0xaa) .| ((s ≫ 11) .& 0x01) .| ((s ≫ 11) .& 0x04)
        .| ((s ≫ 3) .& 0x10) .| ((s ≪ 4) .& 0x40));;
      vfd_put 41 (fun old => (old .& 0xab) .| ((s ≪ 1) .& 0x04) .| ((s ≪ 4) .& 0x10)
        .| ((s ≫ 6) .& 0x40))
    else if Digit =? 5 then
      vfd_put 21 (fun old => (old .& 0xf5) .| ((s ≫ 4) .& 0x02) .| ((s ≫ 1) .& 0x08));;
      vfd_put 22 (fun old => (old .& 0x55) .| ((s ≫ 15) .& 0x02) .| ((s ≫ 12) .& 0x08)
        .| ((s ≪ 2) .& 0x20) .| ((s ≪ 1) .& 0x80));;
      vfd_put 23 (fun old => (old .& 0x55) .| ((s ≫ 9) .& 0x02) .| ((s ≫ 6) .& 0x08)
        .| ((s ≫ 3) .& 0x20) .| ((s ≫ 7) .& 0x80));;
      vfd_put 24 (fun old => (old .& 0x55) .| ((s ≫ 10) .& 0x02) .| ((s ≫ 10) .& 0x08)
        .| ((s ≫ 2) .& 0x20) .| ((s ≪ 5) .& 0x80));;
      vfd_put 25 (fun old => (old .& 0x57) .| ((s ≪ 2) .& 0x08) .| ((s ≪ 5) .& 0x20)
        .| ((s ≫ 5) .& 0x80))
    else if Digit =? 6 then
      vfd_put 21 (fun old => (old .& 0xfa) .| ((s ≫ 5) .& 0x01) .| ((s ≫ 2) .& 0x04));;
      vfd_put 22 (fun old => (old .& 0xaa) .| ((s ≫ 16) .& 0x01) .| ((s ≫ 13) .& 0x04)
        .| ((s ≪ 1) .& 0x10) .| (s .& 0x40));;
      vfd_put 23 (fun old => (old .& 0xaa) .| ((s ≫ 10) .& 0x01) .| ((s ≫ 7) .& 0x04)
        .| ((s ≫ 4) .& 0x10) .| ((s ≫ 8) .& 0x40));;
      vfd_put 24 (fun old => (old .& 0xaa) .| ((s ≫ 11) .& 0x01) .| ((s ≫ 11) .& 0x04)
        .| ((s ≫ 3) .& 0x10) .| ((s ≪ 4) .& 0x40));;
      vfd_put 25 (fun old => (old .& 0xab) .| ((s ≪ 1) .& 0x04) .| ((s ≪ 4) .& 0x10)
        .| ((s ≫ 6) .& 0x40))
    else if Digit =? 7 then
      vfd_put 33 (fun old => (old .& 0xea) .| ((s ≫ 6) .& 0x01) .| ((s ≫ 3) .& 0x04)
        .| (s .& 0x10));;
      vfd_put 34 (fun old => (old .& 0xaa) .| ((s ≫ 14) .& 0x01) .| ((s ≫ 14) .& 0x04)
        .| ((s ≫ 11) .& 0x10) .| ((s ≪ 3) .& 0x40));;
      vfd_put 35 (fun old => (old .& 0xaa) .| ((s ≫ 2) .& 0x01) .| ((s ≫ 8) .& 0x04)
        .| ((s ≫ 5) .& 0x10) .| ((s ≫ 2) .& 0x40));;
      vfd_put 36 (fun old => (old .& 0xaa) .| ((s ≫ 12) .& 0x01) .| ((s ≫ 9) .& 0x04)
        .| ((s ≫ 9) .& 0x10) .| ((s ≫ 1) .& 0x40));;
      vfd_put 37 (fun old => (old .& 0xaf) .| ((s ≪ 3) .& 0x10) .| ((s ≪ 6) .& 0x40))
    else skip.

Definition VFDSetDisplayDigit (Character : Z) (DisplayType : DISPLAYTYPE) (Digit : Z)
    : M (tffp D) unit :=
  s ← lift (VFDTranslateSegments Character DisplayType);
  match DisplayType with
  | VFD_7 =>
      when (Digit <? 4)
        (v ← gets DisplayBufferLED;
         v ← lift (aset v Digit (u8 s));
         modify (fun s => s <| DisplayBufferLED := v |>))
  | VFD_14 => set_digit_14 s Digit
  | VFD_17 => set_digit_17 s Digit
  end.

(** for (j = 0; j < n; j++), [n] rounds left; [i] is the length of the string. *)
Fixpoint show_digits (t : DISPLAYTYPE) (n : nat) (j i : Z) (s : list Z) : M (tffp D) unit :=
  match n with
  | O => skip
  | S n =>
      c ← lift (if j <? i then aget s j else Ok 0x20);
      VFDSetDisplayDigit c t j;;
      show_digits t n (j + 1) i s
  end.

Definition VFDSetDisplaySmallString (s : list Z) : M (tffp D) unit :=
  i ← lift (strlen s);
  show_digits VFD_14 4 0 i s;;
  VFDSendToDisplay false.

(** while ( *c ) { *c = toupper( *c ); c++; } *)
Fixpoint upcase (s : list Z) : res (list Z) :=
  match s with
  | [] => Fault OutOfBounds
  | c :: s => if c =? 0 then Ok (c :: s) else s ← upcase s; mret (u8 (toupper c) :: s)
  end.

(** The string may be changed; the result is the array afterwards. *)
Definition VFDSetDisplayLargeString (s : list Z) : M (tffp D) (list Z) :=
  caps ← gets (fun s => allCaps (tffpConfig s));
  s ← lift (if truthy caps then upcase s else Ok s);
  i ← lift (strlen s);
  show_digits VFD_17 8 0 i s;;
  VFDSendToDisplay false;;
  mret s.

(** ** Icons *)

(** IconBlinkMode[Reg][k] = (IconBlinkMode[Reg][k] & j) | ((Mode & (1 << k)) ? i : 0) *)
Definition blink_bit (old i Mode k : Z) : Z :=
  (old .& Z.lxor i 0xff) .| (if truthy (Mode .& (1 ≪ k)) then i else 0).

Definition SetIconBits (Reg Bit Mode : Z) : M (tffp D) unit :=
  let i := u8 (1 ≪ Bit) in
  v ← gets IconBlinkMode;
  r ← lift (aget v Reg);
  v ← lift (aset v Reg [blink_bit (nth 0 r 0) i Mode 0; blink_bit (nth 1 r 0) i Mode 1;
                        blink_bit (nth 2 r 0) i Mode 2; blink_bit (nth 3 r 0) i Mode 3]);
  modify (fun s => s <| IconBlinkMode := v |>).

Definition VFDSetIcons (Icons1 Icons2 BlinkMode : Z) : M (tffp D) unit :=
  when (truthy (Icons1 .& FPICON_IRDOT)) (SetIconBits 1 4 BlinkMode);;
  when (truthy (Icons1 .& FPICON_POWER)) (SetIconBits 1 5 BlinkMode);;
  when (truthy (Icons1 .& FPICON_COLON)) (SetIconBits 5 7 BlinkMode);;
  when (truthy (Icons1 .& FPICON_PM)) (SetIconBits 6 0 BlinkMode);;
  when (truthy (Icons1 .& FPICON_TIMER)) (SetIconBits 7 6 BlinkMode);;
  when (truthy (Icons1 .& FPICON_AM)) (SetIconBits 7 7 BlinkMode);;
  when (truthy (Icons1 .& FPICON_AC3)) (SetIconBits 27 0 BlinkMode);;
  when (truthy (Icons1 .& FPICON_TIMESHIFT)) (SetIconBits 27 1 BlinkMode);;
  when (truthy (Icons1 .& FPICON_TV)) (SetIconBits 27 2 BlinkMode);;
  when (truthy (Icons1 .& FPICON_MUSIC)) (SetIconBits 27 3 BlinkMode);;
  when (truthy (Icons1 .& FPICON_DISH)) (SetIconBits 27 4 BlinkMode);;
  when (truthy (Icons1 .& FPICON_MP3)) (SetIconBits 28 7 BlinkMode);;
  when (truthy (Icons1 .& FPICON_TUNER1)) (SetIconBits 41 0 BlinkMode);;
  when (truthy (Icons1 .& FPICON_REC)) (SetIconBits 41 1 BlinkMode);;
  when (truthy (Icons1 .& FPICON_PAUSE)) (SetIconBits 42 1 BlinkMode);;
  when (truthy (Icons1 .& FPICON_FWD)) (SetIconBits 42 2 BlinkMode);;
  when (truthy (Icons1 .& FPICON_xxx2)) (SetIconBits 42 3 BlinkMode);;
  when (truthy (Icons1 .& FPICON_PLAY)) (SetIconBits 42 4 BlinkMode);;
  when (truthy (Icons1 .& FPICON_xxx4)) (SetIconBits 42 5 BlinkMode);;
  when (truthy (Icons1 .& FPICON_RWD)) (SetIconBits 42 6 BlinkMode);;
  when (truthy (Icons1 .& FPICON_TUNER2)) (SetIconBits 42 7 BlinkMode);;
  when (truthy (Icons1 .& FPICON_ATTN)) (SetIconBits 43 4 BlinkMode);;
  when (truthy (Icons1 .& FPICON_AUTOREWLEFT)) (SetIconBits 43 7 BlinkMode);;
  when (truthy (Icons1 .& FPICON_AUTOREWRIGHT)) (SetIconBits 43 6 BlinkMode);;
  when (truthy (Icons1 .& FPICON_DOLBY)) (SetIconBits 43 3 BlinkMode);;
  when (truthy (Icons1 .& FPICON_DOLLAR)) (SetIconBits 43 5 BlinkMode);;
  when (truthy (Icons1 .& FPICON_MUTE)) (SetIconBits 42 0 BlinkMode);;
  when (truthy (Icons1 .& FPICON_NETWORK)) (SetIconBits 43 2 BlinkMode);;
  when (truthy (Icons2 .& FPICON_CD12)) (SetIconBits 25 0 BlinkMode);;
  when (truthy (Icons2 .& FPICON_CDCENTER)) (SetIconBits 25 1 BlinkMode);;
  when (truthy (Icons2 .& FPICON_CD8)) (SetIconBits 26 0 BlinkMode);;
  when (truthy (Icons2 .& FPICON_CD7)) (SetIconBits 26 1 BlinkMode);;
  when (truthy (Icons2 .& FPICON_CD6)) (SetIconBits 26 2 BlinkMode);;
  when (truthy (Icons2 .& FPICON_CD5)) (SetIconBits 26 3 BlinkMode);;
  when (truthy (Icons2 .& FPICON_CD4)) (SetIconBits 26 4 BlinkMode);;
  when (truthy (Icons2 .& FPICON_CD3)) (SetIconBits 26 5 BlinkMode);;
  when (truthy (Icons2 .& FPICON_CD2)) (SetIconBits 26 6 BlinkMode);;
  when (truthy (Icons2 .& FPICON_CD1)) (SetIconBits 26 7 BlinkMode);;
  when (truthy (Icons2 .& FPICON_CD11)) (SetIconBits 27 5 BlinkMode);;
  when (truthy (Icons2 .& FPICON_CD10)) (SetIconBits 27 6 BlinkMode);;
  when (truthy (Icons2 .& FPICON_CD9)) (SetIconBits 27 7 BlinkMode);;
  when (truthy (Icons2 .& FPICON_HDD4)) (SetIconBits 28 0 BlinkMode);;
  when (truthy (Icons2 .& FPICON_HDD5)) (SetIconBits 28 1 BlinkMode);;
  when (truthy (Icons2 .& FPICON_HDD6)) (SetIconBits 28 2 BlinkMode);;
  when (truthy (Icons2 .& FPICON_HDD7)) (SetIconBits 28 3 BlinkMode);;
  when (truthy (Icons2 .& FPICON_HDD8)) (SetIconBits 28 4 BlinkMode);;
  when (truthy (Icons2 .& FPICON_HDDFRAME)) (SetIconBits 28 5 BlinkMode);;
  when (truthy (Icons2 .& FPICON_HDDFULL)) (SetIconBits 28 6 BlinkMode);;
  when (truthy (Icons2 .& FPICON_HDD)) (SetIconBits 29 4 BlinkMode);;
  when (truthy (Icons2 .& FPICON_HDD1)) (SetIconBits 29 5 BlinkMode);;
  when (truthy (Icons2 .& FPICON_HDD2)) (SetIconBits 29 6 BlinkMode);;
  when (truthy (Icons2 .& FPICON_HDD3)) (SetIconBits 29 7 BlinkMode).

Definition icon_switch (icon_nr onoff : Z) : M (tffp D) Z :=
  if icon_nr =? VFD_ICON_CD1 then
    SetIconBits 26 7 onoff;; SetIconBits 26 6 onoff;; mret 0
  else if icon_nr =? VFD_ICON_CD2 then
    SetIconBits 26 5 onoff;; mret 0
  else if icon_nr =? VFD_ICON_CD3 then
    SetIconBits 26 4 onoff;; mret 0
  else if icon_nr =? VFD_ICON_CD4 then
    SetIconBits 26 3 onoff;; mret 0
  else if icon_nr =? VFD_ICON_CD5 then
    SetIconBits 26 2 onoff;; mret 0
  else if icon_nr =? VFD_ICON_CD6 then
    SetIconBits 26 1 onoff;; SetIconBits 26 0 onoff;; mret 0
  else if icon_nr =? VFD_ICON_CD7 then
    SetIconBits 27 7 onoff;; mret 0
  else if icon_nr =? VFD_ICON_CD8 then
    SetIconBits 27 6 onoff;; mret 0
  else if icon_nr =? VFD_ICON_CD9 then
    SetIconBits 27 5 onoff;; mret 0
  else if icon_nr =? VFD_ICON_CD10 then
    SetIconBits 25 0 onoff;; mret 0
  else if icon_nr =? VFD_ICON_CDCENTER then
    SetIconBits 25 1 onoff;; mret 0
  else if (icon_nr =? VFD_ICON_HDD1) || (icon_nr =? VFD_ICON_HDD) then
    SetIconBits 29 4 onoff;; mret 0
  else if icon_nr =? VFD_ICON_HDD_1 then
    SetIconBits 29 5 onoff;; mret 0
  else if icon_nr =? VFD_ICON_HDD_2 then
    SetIconBits 29 6 onoff;; mret 0
  else if icon_nr =? VFD_ICON_HDD_3 then
    SetIconBits 29 7 onoff;; mret 0
  else if icon_nr =? VFD_ICON_HDD_4 then
    SetIconBits 28 0 onoff;; mret 0
  else if icon_nr =? VFD_ICON_HDD_5 then
    SetIconBits 28 1 onoff;; mret 0
  else if icon_nr =? VFD_ICON_HDD_6 then
    SetIconBits 28 2 onoff;; mret 0
  else if icon_nr =? VFD_ICON_HDD_7 then
    SetIconBits 28 3 onoff;; mret 0
  else if icon_nr =? VFD_ICON_HDD_8 then
    SetIconBits 28 4 onoff;; mret 0
  else if icon_nr =? VFD_ICON_HDD_FRAME then
    SetIconBits 28 5 onoff;; mret 0
  else if icon_nr =? VFD_ICON_HDD_FULL then
    SetIconBits 28 6 onoff;; mret 0
  else if (icon_nr =? VFD_ICON_MP3_2) || (icon_nr =? VFD_ICON_MP3) || (icon_nr =? 21) then
    SetIconBits 28 7 onoff;; mret 0
  else if icon_nr =? VFD_ICON_AC3 then
    SetIconBits 27 0 onoff;; mret 0
  else if icon_nr =? VFD_ICON_TIMESHIFT then
    SetIconBits 27 1 onoff;; mret 0
  else if icon_nr =? VFD_ICON_TV then
    SetIconBits 27 2 onoff;; mret 0
  else if (icon_nr =? VFD_ICON_RADIO) || (icon_nr =? VFD_ICON_MUSIC) then
    SetIconBits 27 3 onoff;; mret 0
  else if icon_nr =? VFD_ICON_SAT then
    SetIconBits 27 4 onoff;; mret 0
  else if (icon_nr =? VFD_ICON_REC2) || (icon_nr =? VFD_ICON_REC) || (icon_nr =? 30) then
    SetIconBits 41 1 onoff;; mret 0
  else if icon_nr =? VFD_ICON_RECONE then
    SetIconBits 41 0 onoff;; mret 0
  else if icon_nr =? VFD_ICON_RECTWO then
    SetIconBits 42 7 onoff;; mret 0
  else if (icon_nr =? VFD_ICON_REWIND) || (icon_nr =? VFD_ICON_FR) then
    SetIconBits 42 6 onoff;; mret 0
  else if icon_nr =? VFD_ICON_STEPBACK then
    SetIconBits 42 5 onoff;; mret 0
  else if (icon_nr =? VFD_ICON_PLAY2) || (icon_nr =? VFD_ICON_PLAY) || (icon_nr =? 26) then
    SetIconBits 42 4 onoff;; mret 0
  else if icon_nr =? VFD_ICON_STEPFWD then
    SetIconBits 42 3 onoff;; mret 0
  else if (icon_nr =? VFD_ICON_FASTFWD) || (icon_nr =? VFD_ICON_FF) then
    SetIconBits 42 2 onoff;; mret 0
  else if (icon_nr =? VFD_ICON_PAUSE2) || (icon_nr =? VFD_ICON_PAUSE) then
    SetIconBits 42 1 onoff;; mret 0
  else if (icon_nr =? VFD_ICON_MUTE2) || (icon_nr =? VFD_ICON_MUTE) then
    SetIconBits 42 0 onoff;; mret 0
  else if icon_nr =? VFD_ICON_REPEATL then
    SetIconBits 43 7 onoff;; mret 0
  else if icon_nr =? VFD_ICON_REPEATR then
    SetIconBits 43 6 onoff;; mret 0
  else if (icon_nr =? VFD_ICON_DOLLAR) || (icon_nr =? 19) then
    SetIconBits 43 5 onoff;; mret 0
  else if icon_nr =? VFD_ICON_ATTN then
    SetIconBits 43 4 onoff;; mret 0
  else if (icon_nr =? VFD_ICON_DOLBY) || (icon_nr =? VFD_ICON_DD) || (icon_nr =? 23) then
    SetIconBits 43 3 onoff;; mret 0
  else if (icon_nr =? VFD_ICON_NETWORK) || (icon_nr =? 17) then
    SetIconBits 43 2 onoff;; mret 0
  else if icon_nr =? VFD_ICON_AM then
    SetIconBits 7 7 onoff;; mret 0
  else if (icon_nr =? VFD_ICON_TIMER) || (icon_nr =? VFD_ICON_CLOCK) then
    SetIconBits 7 6 onoff;; mret 0
  else if icon_nr =? VFD_ICON_PM then
    SetIconBits 6 0 onoff;; mret 0
  else if icon_nr =? VFD_ICON_DOT then
    SetIconBits 1 4 onoff;; mret 0
  else if icon_nr =? VFD_ICON_POWER then
    SetIconBits 1 5 onoff;; mret 0
  else if icon_nr =? VFD_ICON_COLON then
    SetIconBits 5 7 onoff;; mret 0
  else if icon_nr =? VFD_ICON_SPINNER then
    modify (fun s => s <| Spinner_on := if truthy onoff then 1 else 0 |>);; mret 0
  else if icon_nr =? VFD_ICON_ALL then
    VFDSetIcons 0x0fffffff 0x00fffffff onoff;; mret 0
  else mret (- EINVAL).

(** memset(IconBlinkMode, 0, sizeof(IconBlinkMode)) *)
Definition clear_icons : M (tffp D) unit :=
  modify (fun s => s <| IconBlinkMode := replicate 48 [0; 0; 0; 0] |>).

(** ** Spinner *)

Definition CD_icons_onoff (onoff : Z) : M (tffp D) unit :=
  SetIconBits 26 7 onoff;; SetIconBits 26 6 onoff;; SetIconBits 26 5 onoff;;
  SetIconBits 26 4 onoff;; SetIconBits 26 3 onoff;; SetIconBits 26 2 onoff;;
  SetIconBits 26 1 onoff;; SetIconBits 26 0 onoff;; SetIconBits 27 7 onoff;;
  SetIconBits 27 6 onoff;; SetIconBits 27 5 onoff;; SetIconBits 25 0 onoff;;
  modify (fun s => s <| Segment_flag := replicate 11 (if truthy onoff then 1 else 0) |>).

(** switch (Spinner_state) *)
Definition spin_segment (state on_off : Z) : M (tffp D) unit :=
  if state =? 1 then SetIconBits 26 7 on_off;; SetIconBits 26 6 on_off
  else if state =? 2 then SetIconBits 26 5 on_off
  else if state =? 3 then SetIconBits 26 4 on_off
  else if state =? 4 then SetIconBits 26 3 on_off
  else if state =? 5 then SetIconBits 26 2 on_off
  else if state =? 6 then SetIconBits 26 1 on_off;; SetIconBits 26 0 on_off
  else if state =? 7 then SetIconBits 27 7 on_off
  else if state =? 8 then SetIconBits 27 6 on_off
  else if state =? 9 then SetIconBits 27 5 on_off
  else if state =? 10 then SetIconBits 25 0 on_off
  else skip.

(** The countdown has run out: the next segment changes. *)
Definition spin_step : M (tffp D) unit :=
  st ← gets Spinner_state;
  fl ← gets Segment_flag;
  f ← lift (aget fl st);
  spin_segment st (if truthy f then 0 else 0xf);;
  fl ← lift (aset fl st (if truthy f then 0 else 1));
  modify (fun s => s <| Segment_flag := fl |>
    <| Spinner_state := if st + 1 =? 11 then 1 else st + 1 |> <| Spinner_cntdown := 0 |>).

Definition SpinnerTimer : M (tffp D) unit :=
  st ← gets Spinner_state;
  on ← gets Spinner_on;
  when (negb (truthy st) && truthy on)
    (CD_icons_onoff 0;;
     modify (fun s => s <| Spinner_state := 1 |> <| Spinner_cntdown := 0 |>));;
  st ← gets Spinner_state;
  when (truthy st && negb (truthy on))
    (CD_icons_onoff 0;; modify (fun s => s <| Spinner_state := 0 |>));;
  when (truthy on)
    (c ← gets Spinner_cntdown;
     if 20 <=? c then spin_step
     else modify (fun s => s <| Spinner_cntdown := Spinner_cntdown s + 1 |>)).

(** ** Scrolling *)

Definition goto (st : eScrollState) : M (tffp D) unit :=
  modify (fun s => s <| ScrollState := st |>).

(** do { *d = *s; s++; d++; } while ( *d ), [n] rounds at most *)
Fixpoint shift_text (n : nat) (d : Z) (t : list Z) : res (list Z) :=
  match n with
  | O => Fault Diverges
  | S n =>
      c ← aget t (d + 1);
      t ← aset t d c;
      c ← aget t (d + 1);
      if c =? 0 then mret t else shift_text n (d + 1) t
  end.

(** CurrentDelay--; if (CurrentDelay == 0) ScrollState = SS_ScrollText *)
Definition count_delay : M (tffp D) unit :=
  modify (fun s => s <| CurrentDelay := s32 (CurrentDelay s - 1) |>);;
  c ← gets CurrentDelay;
  when (c =? 0) (goto SS_ScrollText).

Definition scroll_init : M (tffp D) unit :=
  m ← gets Message;
  t ← lift (strncpy 40 m);
  t ← lift (aset t 39 0);
  t ← VFDSetDisplayLargeString t;
  modify (fun s => s <| ScrollText := t |> <| CurrentDelay := sm_pause (ScrollMode s) |>);;
  n ← lift (strlen m);
  mode ← gets (fun s => sm_mode (ScrollMode s));
  once ← gets ScrollOnce;
  if n <=? 8 then goto SS_ShortString
  else if mode =? 0 then goto SS_ShortString
  else if mode =? 1 then
    if truthy once
    then goto SS_WaitPauseTimeout;; modify (fun s => s <| ScrollOnce := 0 |>)
    else goto SS_ShortString
  else if mode =? 2 then goto SS_WaitPauseTimeout
  else skip.

Definition scroll_text : M (tffp D) unit :=
  t ← gets ScrollText;
  c ← lift (aget t 0);
  if truthy c then
    t ← lift (shift_text 40 0 t);
    t ← VFDSetDisplayLargeString t;
    modify (fun s => s <| ScrollText := t |> <| CurrentDelay := sm_delay (ScrollMode s) |>);;
    goto SS_WaitDelayTimeout
  else goto SS_InitChars.

Definition ScrollTimer : M (tffp D) unit :=
  st ← gets ScrollState;
  match st with
  | SS_InitChars => scroll_init
  | SS_WaitPauseTimeout => count_delay
  | SS_ScrollText => scroll_text
  | SS_WaitDelayTimeout => count_delay
  | SS_ShortString => skip
  end.

(** while ((i > 0) && Message[i] == ' ') i--; *)
Fixpoint trim (i : nat) (m : list Z) : res nat :=
  match i with
  | O => Ok O
  | S j => c ← aget m (Z.of_nat i); if c =? 0x20 then trim j m else Ok i
  end.

Definition ShowText (text : list Z) : M (tffp D) unit :=
  m ← lift (strncpy 39 text);
  let m := m ++ [0] in
  n ← lift (strlen m);
  m ← lift (if 0 <? n
            then i ← trim (Z.to_nat (n - 1)) m; aset m (Z.of_nat i + 1) 0
            else Ok m);
  modify (fun s => s <| Message := m |> <| ScrollState := SS_InitChars |> <| ScrollOnce := 1 |>).

(** ** Timers *)

(** for (i = 0; i < 48; i++), [n] rounds left *)
Fixpoint refresh_icons (n : nat) (i : Z) : M (tffp D) unit :=
  match n with
  | O => skip
  | S n =>
      k ← gets DelayCounter;
      bl ← gets IconBlinkMode;
      r ← lift (aget bl i);
      b ← lift (aget r k);
      mask ← lift (aget IconMask i);
      vfd_put i (fun old => (old .& mask) .| b);;
      refresh_icons n (i + 1)
  end.

Definition FP_Timer : M (tffp D) unit :=
  refresh_icons 48 0;;
  VFDSendToDisplay false;;
  modify (fun s => s <| DelayCounter := (DelayCounter s + 1) .& 0x03 |>).

(** One tick of 10 ms; the timer starts itself again. *)
Definition HighRes_FP_Timer : M (tffp D) unit :=
  ScrollTimer;;
  SpinnerTimer;;
  c ← gets TimerCounter;
  if 24 <? c then FP_Timer;; modify (fun s => s <| TimerCounter := 0 |>)
  else modify (fun s => s <| TimerCounter := TimerCounter s + 1 |>).
End display.
