(* ===== verification/TffpTime.v ===== *)
(** * Topfield front panel: clock, calendar and timers (frontcontroller/tffp/frontpanel.c)

    Messages that set and ask for the time, the calendar, and the conversions
    between the panel's clock, system time and GMT. *)
From S2P Require Import Prelude TffpState TffpDisplay.

(** ** Calendar *)

Definition LEAPYEAR (year : Z) : bool :=
  (year mod 4 =? 0) && (negb (year mod 100 =? 0) || (year mod 400 =? 0)).
Definition YEARSIZE (year : Z) : Z := if LEAPYEAR year then 366 else 365.
Definition _ytab : list (list Z) :=
  [[31; 28; 31; 30; 31; 30; 31; 31; 30; 31; 30; 31];
   [31; 29; 31; 30; 31; 30; 31; 31; 30; 31; 30; 31]].

(** while (dayno >= YEARSIZE(year)) *)
Fixpoint find_year (fuel : nat) (dayno year : Z) : res (Z * Z) :=
  match fuel with
  | O => Fault Diverges
  | S fuel =>
      if YEARSIZE year <=? dayno then find_year fuel (dayno - YEARSIZE year) (year + 1)
      else mret (dayno, year)
  end.

(** while (dayno >= _ytab[LEAPYEAR(year)][fptime.month]) *)
Fixpoint find_month (fuel : nat) (dayno year month : Z) : res (Z * Z) :=
  match fuel with
  | O => Fault Diverges
  | S fuel =>
      tab ← aget _ytab (if LEAPYEAR year then 1 else 0);
      d ← aget tab month;
      if d <=? dayno then find_month fuel (dayno - d) year (month + 1) else mret (dayno, month)
  end.

(** 2^32 seconds are less than 137 years.  sdow and now are not written. *)
Definition gmtime (time : Z) : res frontpanel_ioctl_time :=
  let dayclock := u32 time mod 86400 in
  let dayno := u32 time / 86400 in
  '(rest, year) ← find_year 138 dayno 1970;
  '(rest, month) ← find_month 13 rest year 0;
  mret {| ft_year := u16 year; ft_month := month + 1; ft_day := rest + 1;
          ft_dow := (dayno + 4) mod 7; ft_sdow := [0; 0; 0; 0];
          ft_hour := dayclock / 3600; ft_min := dayclock mod 3600 / 60;
          ft_sec := dayclock mod 60; ft_now := 0 |}.

(** ** Messages *)

(** Year since 2000, month and day in 16 bits. *)
Definition pack_date (t : frontpanel_ioctl_time) : Z :=
  u16 ((((ft_year t - 2000) .& 0x7f) ≪ 9) .| ((ft_month t .& 0x0f) ≪ 5) .| (ft_day t .& 0x1f)).

Definition sdow_names : list (list Z) :=
  [[77; 111; 110; 0]; [84; 117; 101; 0]; [87; 101; 100; 0]; [84; 104; 117; 0];
   [70; 114; 105; 0]; [83; 97; 116; 0]; [83; 117; 110; 0]].

Section time.
Context {D : Type} `{FpHw D} `{FpKernel}.

(** GetBufferByte: the byte [Offset] behind the read position. *)
Definition GetBufferByte (Offset : Z) : M (tffp D) Z :=
  b ← gets RCVBuffer;
  e ← gets RCVBufferEnd;
  lift (aget b ((e + Offset) .& (BUFFERSIZE - 1))).

Definition VFDSetTime (t : frontpanel_ioctl_time) : M (tffp D) unit :=
  let w := pack_date t in
  SendFPString [FPDATETIMENEW; w ≫ 8; w .& 0xff; u8 (ft_hour t); u8 (ft_min t); u8 (ft_sec t)].

(** The last element of the array of six is not written. *)
Definition VFDSetTimer (t : frontpanel_ioctl_time) : M (tffp D) unit :=
  let w := pack_date t in
  SendFPString ([FPTIMERSET; w ≫ 8; w .& 0xff; u8 (ft_hour t); u8 (ft_min t)] ++ stack_junk 1).

Definition VFDClearTimers : M (tffp D) unit := SendFPData [FPTIMERCLEAR; 0xff; 0xff].

Definition InterpretDateTime : M (tffp D) unit :=
  b2 ← GetBufferByte 2; b3 ← GetBufferByte 3;
  let w := u16 ((b2 ≪ 8) .| b3) in
  b4 ← GetBufferByte 4;
  let dow := b4 ≫ 5 in
  name ← lift (aget sdow_names dow);
  b5 ← GetBufferByte 5; b6 ← GetBufferByte 6;
  let year := (w ≫ 9) + 2000 in
  let month := (w ≫ 5) .& 0x0f in
  let day := w .& 0x1f in
  let hour := b4 .& 0x1f in
  modify (fun s => s <| fptime := mkTime year month day dow name hour b5 b6
                                    (u32 (mktime year month day hour b5 b6)) |>
                     <| FPREQDATETIMENEWPending := 0 |>).

(** What the rest of the system does while a function waits for an answer. *)
Variable delay : M (tffp D) unit.

Definition VFDReqDateTime : M (tffp D) frontpanel_ioctl_time :=
  modify (fun s => s <| FPREQDATETIMENEWPending := 1 |>);;
  SendFPData [FPREQDATETIMENEW];;
  delay;;
  gets fptime.

Definition VFDReqTimerDateTime : M (tffp D) frontpanel_ioctl_time :=
  modify (fun s => s <| FPREQTIMERNEWPending := 1 |>);;
  SendFPData [FPREQTIMERNEW];;
  delay;;
  gets fptime.

(** ** GMT and local time: time_t is a signed 32 bit number *)

Definition gmt_offset : M (tffp D) Z := gets (fun s => gmtOffset (tffpConfig s)).

Definition vfdSetGmtWakeupTime (time : Z) : M (tffp D) unit :=
  modify (fun s => s <| gmtWakeupTime := time |>);;
  off ← gmt_offset;
  t ← lift (gmtime (s32 (time + off)));
  VFDSetTimer t.

Definition vfdSetGmtTime (time : Z) : M (tffp D) unit :=
  off ← gmt_offset;
  t ← lift (gmtime (s32 (time + off)));
  VFDSetTime t.

Definition vfdSetLocalTime (time : Z) : M (tffp D) unit :=
  t ← lift (gmtime time);
  VFDSetTime t.

Definition mktime_of (t : frontpanel_ioctl_time) : Z :=
  mktime (ft_year t) (ft_month t) (ft_day t) (ft_hour t) (ft_min t) (ft_sec t).

Definition vfdGetGmtTime : M (tffp D) Z :=
  t ← VFDReqDateTime;
  off ← gmt_offset;
  mret (s32 (s32 (mktime_of t) - off)).

Definition vfdGetLocalTime : M (tffp D) Z :=
  t ← VFDReqDateTime;
  mret (s32 (mktime_of t)).

(** Modified Julian date, hour, minute and second in five bytes; the products
    are of type int. *)
Definition vfdCalcuTime (time : list Z) : res Z :=
  t0 ← aget time 0; t1 ← aget time 1; t2 ← aget time 2; t3 ← aget time 3; t4 ← aget time 4;
  let mjd := u16 (((t0 .& 0xff) ≪ 8) + (t1 .& 0xff) - 40587) in
  mret (s32 (mjd * 86400 + (t2 .& 0xff) * 3600 + (t3 .& 0xff) * 60 + (t4 .& 0xff))).

(** ** Real time clock interface *)

Definition tm2time (tm : rtc_time) : Z :=
  s32 (mktime (tm_year tm + 1900) (tm_mon tm + 1) (tm_mday tm) (tm_hour tm) (tm_min tm) (tm_sec tm)).

Definition tffp_rtc_read_time : M (tffp D) (Z * rtc_time) :=
  t ← vfdGetGmtTime;
  mret (0, rtc_time_to_tm (u32 t)).

Definition tffp_rtc_set_time (tm : rtc_time) : M (tffp D) Z :=
  vfdSetGmtTime (s32 (u32 (tm2time tm)));;
  mret 0.

(** The alarm is not read back: the result is an error and, when the alarm is
    enabled, the time of number 0. *)
Definition tffp_rtc_read_alarm (enabled : bool) : Z * option rtc_time :=
  (- EINVAL, if enabled then Some (rtc_time_to_tm 0) else None).

Definition tffp_rtc_set_alarm (enabled : bool) (tm : rtc_time) : M (tffp D) Z :=
  vfdSetGmtWakeupTime (s32 (if enabled then u32 (tm2time tm) else 0));;
  mret 0.
End time.
