(* ===== verification/TffpInput.v ===== *)
(** * Topfield front panel: keys and received messages (frontcontroller/tffp/frontpanel.c)

    The ring of received bytes between the interrupt handler and the task, the
    interpretation of messages, typematic keys, and the ring of keys the remote
    control's device file reads. *)
From S2P Require Import Prelude TffpState TffpDisplay TffpTime.

Section input.
Context {D : Type} `{FpHw D} `{FpKernel}.

(** ** Keys *)

Definition AddKeyBuffer (Key : Z) : M (tffp D) unit :=
  st ← gets KeyBufferStart;
  e ← gets KeyBufferEnd;
  let tmp := (st + 1) .& 0xff in
  when (negb (tmp =? e))
    (b ← gets KeyBuffer;
     b ← lift (aset b st Key);
     modify (fun s => s <| KeyBuffer := b |> <| KeyBufferStart := tmp |>)).

Definition AddKeyToBuffer (Key : Z) (FrontPanel : bool) : M (tffp D) unit :=
  mode ← gets KeyEmulationMode;
  if (mode =? KEYEMUTF7700) || (mode =? KEYEMUTF7700LKP) then
    AddKeyBuffer (if FrontPanel then FPKEYPRESSFP else FPKEYPRESS);;
    AddKeyBuffer Key
  else if mode =? KEYEMUUFS910 then
    k ← lift (aget ufs910map Key);
    if k =? 0xff then skip else AddKeyBuffer k
  else skip.

(** A key of a message; [cmd] is the command byte. *)
Definition key_burst (cmd Key : Z) : M (tffp D) unit :=
  mode ← gets KeyEmulationMode;
  if mode =? KEYEMUTF7700LKP then AddKeyToBuffer Key (cmd =? FPKEYPRESSFP)
  else if Key .& 0x80 =? 0 then
    AddKeyToBuffer Key (cmd =? FPKEYPRESSFP);;
    modify (fun s => s <| TypematicDelay := DefaultTypematicDelay s |>
                       <| TypematicRate := DefaultTypematicRate s |>)
  else
    d ← gets TypematicDelay;
    if d =? 0 then
      r ← gets TypematicRate;
      if r =? 0 then
        AddKeyToBuffer (Key .& 0x7f) (cmd =? FPKEYPRESSFP);;
        modify (fun s => s <| TypematicRate := DefaultTypematicRate s |>)
      else modify (fun s => s <| TypematicRate := r - 1 |>)
    else modify (fun s => s <| TypematicDelay := d - 1 |>).

Definition InterpretKeyPresses : M (tffp D) unit :=
  Key ← GetBufferByte 2;
  cmd ← GetBufferByte 1;
  key_burst cmd Key.

(** The power key. *)
Definition on_shutdown : M (tffp D) unit :=
  mode ← gets KeyEmulationMode;
  if mode =? KEYEMUTF7700LKP then AddKeyBuffer FPKEYPRESSFP;; AddKeyBuffer 0x0c
  else
    r ← gets ShutdownTypematicRate;
    if r <? 1 then
      when (mode =? KEYEMUTF7700) (AddKeyBuffer FPKEYPRESSFP);;
      AddKeyBuffer 0x0c;;
      modify (fun s => s <| ShutdownTypematicRate := DefaultTypematicRate s |>)
    else modify (fun s => s <| ShutdownTypematicRate := r - 1 |>).

(** ** Messages *)

Definition InterpretBootReason : M (tffp D) unit :=
  r ← GetBufferByte 2; modify (fun s => s <| bootreason := r |>).

(** An unknown command is only logged. *)
Definition FPCommandInterpreter : M (tffp D) unit :=
  Cmd ← GetBufferByte 1;
  if Cmd =? FPSHUTDOWN then on_shutdown
  else if (Cmd =? FPDATETIMENEW) || (Cmd =? FPTIMERNEW) then InterpretDateTime
  else if Cmd =? FPBOOTREASON then InterpretBootReason
  else if (Cmd =? FPKEYPRESS) || (Cmd =? FPKEYPRESSFP) then
    r ← gets bootreason;
    when (truthy r)
      (modify (fun s => s <| bootreason := 0 |>);; VFDSetIcons FPICON_POWER 0x0 0x0);;
    SetIconBits 1 4 0x0f;;
    InterpretKeyPresses;;
    SetIconBits 1 4 0
  else skip.

(** ** The task *)

(** while ((i != RCVBufferStart) && (RCVBuffer[i] != 2)), [n] rounds at most *)
Fixpoint find_sot (n : nat) (i st : Z) (b : list Z) : res Z :=
  match n with
  | O => Fault Diverges
  | S n =>
      if i =? st then mret i
      else c ← aget b i; if c =? 2 then mret i else find_sot n ((i + 1) .& (BUFFERSIZE - 1)) st b
  end.

(** The spurious bytes from [j] to [i] as text of three characters each, zeros
    at the start left out, in an array of 256; [len] is the text's length. *)
Fixpoint log_spurious (n : nat) (j i len : Z) (b : list Z) : res unit :=
  match n with
  | O => Fault Diverges
  | S n =>
      if j =? i then mret tt
      else
        c ← aget b j;
        let len' := if truthy len || truthy c then len + 3 else len in
        if 255 <? len' then Fault OutOfBounds
        else log_spurious n ((j + 1) .& (BUFFERSIZE - 1)) i len' b
  end.

(** One round of while (dataAvailable); the result is dataAvailable. *)
Definition task_round : M (tffp D) bool :=
  st ← gets RCVBufferStart;
  e ← gets RCVBufferEnd;
  b ← gets RCVBuffer;
  i ← lift (find_sot 257 e st b);
  when (negb (e =? i))
    (lift (log_spurious 257 e i 0 b);; modify (fun s => s <| RCVBufferEnd := i |>));;
  if i =? st then mret false
  else
    let BuffSize := if st - i <? 0 then st - i + BUFFERSIZE else st - i in
    if 2 <? BuffSize then
      c ← GetBufferByte 1;
      let CmdLen := c .& 0x0f in
      if CmdLen + 3 <=? BuffSize then
        FPCommandInterpreter;;
        modify (fun s => s <| RCVBufferEnd := (RCVBufferEnd s + CmdLen + 3) .& (BUFFERSIZE - 1) |>);;
        mret true
      else mret false
    else mret false.

Fixpoint task_rounds (fuel : nat) : M (tffp D) unit :=
  match fuel with
  | O => faulty Diverges
  | S fuel => more ← task_round; if (more : bool) then task_rounds fuel else skip
  end.

(** One turn of the endless loop: without a count of the semaphore the task
    sleeps.  A message takes three bytes of the ring. *)
Definition fpTask : M (tffp D) unit :=
  n ← gets rx_int_sem;
  when (0 <? n)
    (modify (fun s => s <| rx_int_sem := rx_int_sem s - 1 |>);; task_rounds 87).

(** ** The interrupt handler *)

Definition rx_byte : M (tffp D) unit :=
  v ← fp_inl (ASC3BaseAddress + ASC_RX_BUFF);
  let c := u8 v in
  st ← gets RCVBufferStart;
  b ← gets RCVBuffer;
  b ← lift (aset b st c);
  modify (fun s => s <| RCVBuffer := b |>);;
  (if c =? 0x02 then modify (fun s => s <| msgStart := 1 |>)
   else
     m ← gets msgStart;
     when (truthy m && (c =? 0x20))
       (SendFPData [FPSHUTDOWNACK; 0x02];; SendFPData [FPGETDISPLAYCONTROL]);;
     modify (fun s => s <| msgStart := 0 |>));;
  modify (fun s => s <| RCVBufferStart := (RCVBufferStart s + 1) mod BUFFERSIZE |>).

(** The handler drains the receive buffer, whose depth is the hardware's; the
    result is dataArrived. *)
Fixpoint rx_drain (fuel : nat) : M (tffp D) bool :=
  match fuel with
  | O => faulty Diverges
  | S fuel =>
      sta ← fp_inl (ASC3BaseAddress + ASC_INT_STA);
      if truthy (sta .& ASC_INT_STA_RBF) then rx_byte;; rx_drain fuel;; mret true
      else mret false
  end.

Definition FP_interrupt (fuel : nat) : M (tffp D) unit :=
  dataArrived ← rx_drain fuel;
  when (dataArrived : bool) (modify (fun s => s <| rx_int_sem := rx_int_sem s + 1 |>)).
End input.
