(* ===== verification/TffpDev.v ===== *)
(** * Topfield front panel: device files, commands, proc files and module
    (frontcontroller/tffp/frontpanel.c, tffp_procfs.c)

    The four device files (control, remote control, large and small display),
    the ioctl commands of tffpctl and of enigma2, the proc files, loading and
    unloading. *)
From stdpp Require Import pretty.
From S2P Require Import Prelude TffpState TffpDisplay TffpTime TffpInput.

(** ** Command numbers *)

Definition VFDMAGIC := 0xc0425a00.
Definition VFDDISPLAYCHARS := 0xc0425a00.
Definition VFDBRIGHTNESS := 0xc0425a03.
Definition VFDDISPLAYWRITEONOFF := 0xc0425a05.
Definition VFDICONDISPLAYONOFF := 0xc0425a0a.
Definition VFDPOWEROFF := 0xc0425af5.
Definition VFDSETPOWERONTIME := 0xc0425af6.
Definition VFDGETWAKEUPMODE := 0xc0425af9.
Definition VFDGETTIME := 0xc0425afa.
Definition VFDSETTIME := 0xc0425afb.
Definition VFDREBOOT := 0xc0425afd.
Definition VFDDISPLAYCLR := 0xc0425b00.
Definition _FRONTPANELGETTIME := 0x00.
Definition _FRONTPANELSETTIME := 0x01.
Definition FRONTPANELSYNCSYSTIME := 0x40003a02.
Definition _FRONTPANELCLEARTIMER := 0x03.
Definition _FRONTPANELSETTIMER := 0x04.
Definition _FRONTPANELBRIGHTNESS := 0x05.
Definition _FRONTPANELIRFILTER1 := 0x06.
Definition _FRONTPANELIRFILTER2 := 0x07.
Definition _FRONTPANELIRFILTER3 := 0x08.
Definition _FRONTPANELIRFILTER4 := 0x09.
Definition _FRONTPANELPOWEROFF := 0x0a.
Definition _FRONTPANELBOOTREASON := 0x0b.
Definition _FRONTPANELCLEAR := 0x0c.
Definition _FRONTPANELTYPEMATICDELAY := 0x0d.
Definition _FRONTPANELTYPEMATICRATE := 0x0e.
Definition _FRONTPANELKEYEMULATION := 0x0f.
Definition _FRONTPANELREBOOT := 0x10.
Definition FRONTPANELSYNCFPTIME := 0x40003a11.
Definition FRONTPANELSETGMTOFFSET := 0x40003a12.
Definition _FRONTPANELRESEND := 0x13.
Definition _FRONTPANELALLCAPS := 0x14.
Definition _FRONTPANELSCROLLMODE := 0x15.
Definition _FRONTPANELICON := 0x20.
Definition _FRONTPANELSPINNER := 0x21.

(** Of the kernel: terminal attributes, and the number in a command. *)
Definition TCGETS := 0x5401.
Definition TCSETSF := 0x5404.
Definition TERMIOS_SIZE : nat := 36.
Definition _IOC_NR (cmd : Z) : Z := cmd .& 0xff.
Definition POLLIN_POLLRDNORM := 0x41.
Definition PAGE_SIZE := 4096.

(** ** The caller's memory *)

(** The argument of a command, the bytes that can be read where it points, and
    whether they can be written. *)
Record uarg := Uarg { u_val : Z; u_mem : list Z; u_writable : bool }.

(** Bytes that cannot be read keep their old value in the kernel's copy. *)
Definition copy_from_user (old : list Z) (a : uarg) : list Z :=
  let got := take (length old) (u_mem a) in got ++ drop (length got) old.
Definition copy_failed (n : nat) (a : uarg) : bool := (length (u_mem a) <? n)%nat.

(** What a command returns, and the bytes it writes to the caller. *)
Definition fp_reply : Type := Z * list Z.
Definition fp_returns {S} (v : Z) : M S fp_reply := mret (v, []).
Definition copy_to_user (bytes : list Z) (a : uarg) : fp_reply :=
  (0, if u_writable a then bytes else []).

Definition byte_at (l : list Z) (i : nat) : Z := nth i l 0.
Definition le16 (l : list Z) (i : nat) : Z := byte_at l i .| (byte_at l (S i) ≪ 8).
Definition le32 (l : list Z) (i : nat) : Z := le16 l i .| (le16 l (S (S i)) ≪ 16).
Definition bytes16 (x : Z) : list Z := [u8 x; u8 (x ≫ 8)].
Definition bytes32 (x : Z) : list Z := [u8 x; u8 (x ≫ 8); u8 (x ≫ 16); u8 (x ≫ 24)].

(** The layout of frontpanel_ioctl_time: 24 bytes, two of them padding. *)
Definition time_bytes (t : frontpanel_ioctl_time) : list Z :=
  bytes16 (ft_year t) ++ bytes16 (ft_month t) ++ bytes16 (ft_day t) ++ bytes16 (ft_dow t)
  ++ ft_sdow t ++ bytes16 (ft_hour t) ++ bytes16 (ft_min t) ++ bytes16 (ft_sec t) ++ [0; 0]
  ++ bytes32 (ft_now t).
Definition time_of_bytes (l : list Z) : frontpanel_ioctl_time :=
  {| ft_year := le16 l 0; ft_month := le16 l 2; ft_day := le16 l 4; ft_dow := le16 l 6;
     ft_sdow := take 4 (drop 8 l); ft_hour := le16 l 12; ft_min := le16 l 14;
     ft_sec := le16 l 16; ft_now := le32 l 20 |}.

Section dev.
Context {D : Type} `{FpHw D} `{FpKernel}.

(** ** Opening, writing, reading *)

Definition FrontPaneldev_open (minor filp : Z) : M (tffp D) Z :=
  f ← gets FrontPanelOpen;
  old ← lift (aget f minor);
  if negb (old =? 0) then mret (- EUSERS)
  else
    f ← lift (aset f minor filp);
    modify (fun s => s <| FrontPanelOpen := f |>);;
    mret 0.

Definition FrontPaneldev_close (minor : Z) : M (tffp D) Z :=
  f ← gets FrontPanelOpen;
  old ← lift (aget f minor);
  if old =? 0 then mret (- EUSERS)
  else
    f ← lift (aset f minor 0);
    modify (fun s => s <| FrontPanelOpen := f |>);;
    mret 0.

(** for (i = 0; i <= LASTMINOR; i++) if (FrontPanelOpen[i].fp == filp) *)
Fixpoint minor_from (i : Z) (l : list Z) (filp : Z) : option Z :=
  match l with
  | [] => None
  | f :: l => if f =? filp then Some i else minor_from (i + 1) l filp
  end.
Definition minor_of (filp : Z) : M (tffp D) (option Z) :=
  f ← gets FrontPanelOpen; mret (minor_from 0 f filp).

(** [user]: the bytes of the caller's buffer; [allocated]: kmalloc succeeds. *)
Definition FrontPaneldev_write (filp : Z) (user : list Z) (len : Z) (allocated : bool)
    : M (tffp D) Z :=
  i ← minor_of filp;
  match i with
  | None => mret 0
  | Some i =>
      if negb allocated then mret (-1)
      else
        let kernel_buf := copy_from_user (stack_junk (Z.to_nat len)) (Uarg 0 user false) in
        kernel_buf ← lift (aset kernel_buf (len - 1) 0);
        if (i =? FRONTPANEL_MINOR_FPC) || (i =? FRONTPANEL_MINOR_RC) then mret (-1)
        else if i =? FRONTPANEL_MINOR_FPLARGE then
          t ← lift (TranslateUTFString kernel_buf); ShowText t;; mret len
        else VFDSetDisplaySmallString kernel_buf;; mret len
  end.

Definition FrontPaneldev_poll : M (tffp D) Z :=
  st ← gets KeyBufferStart; e ← gets KeyBufferEnd;
  mret (if st =? e then 0 else POLLIN_POLLRDNORM).

(** sprintf("%02x") of a byte *)
Definition hex_digit (x : Z) : Z := if x <? 10 then 48 + x else 87 + x.
Definition hex2 (x : Z) : list Z := [hex_digit (x ≫ 4); hex_digit (x .& 0xf)].

(** KeyBuffer[KeyBufferEnd]; KeyBufferEnd = (KeyBufferEnd + 1) & 0xff; *)
Definition next_key : M (tffp D) Z :=
  b ← gets KeyBuffer;
  e ← gets KeyBufferEnd;
  k ← lift (aget b e);
  modify (fun s => s <| KeyBufferEnd := (KeyBufferEnd s + 1) .& 0xff |>);;
  mret k.

(** The bytes for the caller, by emulation mode. *)
Definition take_key : M (tffp D) (list Z) :=
  mode ← gets KeyEmulationMode;
  if (mode =? KEYEMUTF7700) || (mode =? KEYEMUTF7700LKP) then
    k1 ← next_key; k2 ← next_key; mret [k1; k2]
  else if mode =? KEYEMUUFS910 then k ← next_key; mret (hex2 k)
  else mret (stack_junk 2).

(** [delay]: what happens while the function waits; the wait ends by a signal
    when there is still no key.  [interrupted]: a signal comes while it waits
    for the semaphore of the device file. *)
Variable delay : M (tffp D) unit.

Definition no_key (s : tffp D) : bool := KeyBufferStart s =? KeyBufferEnd s.

Definition FrontPaneldev_read (filp : Z) (interrupted : bool) : M (tffp D) fp_reply :=
  i ← minor_of filp;
  match i with
  | None => fp_returns (- EUSERS)
  | Some i =>
      if negb (i =? FRONTPANEL_MINOR_RC) then fp_returns (- EUSERS)
      else
        empty ← gets no_key;
        when (empty : bool) delay;;
        empty ← gets no_key;
        if (empty : bool) then fp_returns (- ERESTARTSYS)
        else
          k ← take_key;
          if interrupted then fp_returns (- ERESTARTSYS) else mret (2, k)
  end.

(** ** Power, brightness, infrared *)

Definition VFDGetBootReason : M (tffp D) unit := SendFPData [FPREQBOOTREASON].
Definition VFDShutdown : M (tffp D) unit := SendFPData [0x21; 0x01].
Definition VFDReboot : M (tffp D) unit := SendFPData [0x31; 0x06].

Definition BrightData : list Z := [0x00; 0x01; 0x02; 0x08; 0x10; 0x20].
Definition VFDBrightness (Brightness : Z) : M (tffp D) unit :=
  when ((0 <=? Brightness) && (Brightness <? 6))
    (b ← lift (aget BrightData Brightness); SendFPData [0xa2; 0x08; b]).

Definition VFDSetIRMode (Mode OnOff : Z) : M (tffp D) unit :=
  when (Mode <? 4)
    (d ← gets FPIRData;
     b1 ← lift (aget d (Mode * 6 + 1));
     d ← lift (aset d (Mode * 6 + 1) (u8 ((b1 .& 0x0f) .| (OnOff ≪ 4))));
     b1 ← lift (aget d (Mode * 6 + 1)); b2 ← lift (aget d (Mode * 6 + 2));
     b3 ← lift (aget d (Mode * 6 + 3)); b4 ← lift (aget d (Mode * 6 + 4));
     d ← lift (aset d (Mode * 6 + 5) ((b1 + b2 + b3 + b4 - 1) .& 0xff));
     modify (fun s => s <| FPIRData := d |>);;
     m ← lift (aslice d (Mode * 6) (24 - Mode * 6));
     SendFPString m).

(** if (tffpConfig.field != v) { tffpConfig.field = v; writeTffpConfig(&tffpConfig); } *)
Definition save_config (same : bool) (f : tTffpConfig -> tTffpConfig) : M (tffp D) unit :=
  when (negb same)
    (modify (fun s => s <| tffpConfig := f (tffpConfig s) |>);; writeTffpConfig;; skip).
Definition save_field (get : tTffpConfig -> Z) (v : Z) (f : tTffpConfig -> tTffpConfig)
    : M (tffp D) unit :=
  old ← gets (fun s => get (tffpConfig s)); save_config (old =? v) f.

(** ** The commands of enigma2 *)

Definition spinner_off : M (tffp D) unit :=
  modify (fun s => s <| Spinner_on := 0 |>);; CD_icons_onoff 0.

Definition vfd_display_chars (a : uarg) : M (tffp D) fp_reply :=
  let vfdData := copy_from_user (stack_junk 66) a in
  let length := byte_at vfdData 65 in
  let length := if 63 <=? length then 63 else length in
  data ← lift (aset (take 64 (drop 1 vfdData)) length 0);
  data ← lift (TranslateUTFString data);
  ShowText data;;
  fp_returns 0.

Definition vfd_icon (tffp_data : list Z) : M (tffp D) fp_reply :=
  let icon_nr := s32 (le32 tffp_data 0) in
  let onoff := if truthy (le32 tffp_data 4) then 0xf else 0 in
  let icon_nr := if 256 <=? icon_nr then icon_nr ≫ 8 else icon_nr in
  r ← icon_switch icon_nr onoff;
  fp_returns r.

Definition vfd_brightness (tffp_data : list Z) : M (tffp D) fp_reply :=
  let level := s32 (le32 tffp_data 0) in
  let level := if level <? 0 then 0 else if 5 <? level then 5 else level in
  old ← gets save_bright;
  if level =? old then fp_returns 0
  else
    save_field brightness level (fun c => c <| brightness := level |>);;
    VFDBrightness level;;
    modify (fun s => s <| save_bright := level |>);;
    fp_returns 0.

Definition vfd_onoff (tffp_data : list Z) : M (tffp D) fp_reply :=
  let onoff := s32 (le32 tffp_data 0) in
  if onoff =? 0 then VFDBrightness 1;; fp_returns 0
  else if onoff =? 1 then b ← gets save_bright; VFDBrightness b;; fp_returns 0
  else fp_returns (- EINVAL).

(** The reason of the boot as fp_control wants it; one byte is copied. *)
Definition wakeup_mode (reason : Z) : Z :=
  if reason =? 2 then 3 else if reason =? 0 then 2 else 0.

(** The commands that first copy struct tffp_ioctl_data. *)
Definition wants_data (cmd : Z) : bool :=
  (cmd =? VFDICONDISPLAYONOFF) || (cmd =? VFDSETTIME) || (cmd =? VFDBRIGHTNESS)
  || (cmd =? VFDDISPLAYWRITEONOFF).

Definition vfd_ioctl (cmd : Z) (a : uarg) : M (tffp D) fp_reply :=
  let tffp_data := copy_from_user (stack_junk 8) a in
  if wants_data cmd && copy_failed 8 a then fp_returns (- EFAULT)
  else if cmd =? VFDDISPLAYCHARS then vfd_display_chars a
  else if cmd =? VFDICONDISPLAYONOFF then vfd_icon tffp_data
  else if cmd =? VFDBRIGHTNESS then vfd_brightness tffp_data
  else if cmd =? VFDDISPLAYWRITEONOFF then vfd_onoff tffp_data
  else if cmd =? VFDDISPLAYCLR then VFDClearBuffer;; spinner_off;; clear_icons;; fp_returns 0
  else if cmd =? VFDSETTIME then
    uTime ← lift (vfdCalcuTime (take 5 tffp_data)); vfdSetLocalTime uTime;; fp_returns 0
  else if cmd =? VFDGETTIME then
    uTime ← vfdGetLocalTime delay;
    mret (if u_writable a then (0, bytes32 uTime) else (- EFAULT, []))
  else if cmd =? VFDSETPOWERONTIME then
    vfdSetGmtWakeupTime (if copy_failed 4 a then 0 else s32 (le32 (u_mem a) 0));; fp_returns 0
  else if cmd =? VFDGETWAKEUPMODE then
    r ← gets bootreason; mret (copy_to_user [wakeup_mode r] a)
  else if cmd =? VFDREBOOT then spinner_off;; VFDReboot;; fp_returns 0
  else if cmd =? VFDPOWEROFF then
    spinner_off;; VFDClearBuffer;; clear_icons;; VFDShutdown;; fp_returns 0
  else if cmd =? 0x5305 then fp_returns 0
  else fp_returns (- EINVAL).

(** ** The commands of tffpctl *)

(** case _IOC_NR(FRONTPANELSETGMTOFFSET) *)
Definition set_gmt_offset (arg : Z) : M (tffp D) unit :=
  tv ← gets (fun s => do_gettimeofday (fp_io s));
  old ← gmt_offset;
  when (negb (u32 old =? arg) && (1072224000 <? tv))
    (newTime ← (if old =? -1 then mret tv
                else t ← VFDReqDateTime delay; mret (s32 (ft_now t - old)));
     modify (fun s => s <| tffpConfig := (tffpConfig s) <| gmtOffset := s16 arg |> |>);;
     vfdSetGmtTime newTime;;
     writeTffpConfig;;
     w ← gets gmtWakeupTime;
     when (truthy w) (vfdSetGmtWakeupTime w)).

(** copy_from_user into a local structure whose first byte is used. *)
Definition user_byte (a : uarg) : Z := byte_at (copy_from_user (stack_junk 1) a) 0.

Definition set_ir_filter (get : tTffpConfig -> Z) (put : Z -> tTffpConfig -> tTffpConfig) (Mode : Z)
    (a : uarg) : M (tffp D) unit :=
  when (truthy (u_val a))
    (let onoff := user_byte a in
     save_field get onoff (put (onoff mod 2));;
     VFDSetIRMode Mode onoff).

Definition copy_fptime (a : uarg) : M (tffp D) unit :=
  modify (fun s => s <| fptime := time_of_bytes (copy_from_user (time_bytes (fptime s)) a) |>).

Definition at_least_1 (x : Z) : Z := if x =? 0 then 1 else x.

Definition set_scroll_mode (a : uarg) : M (tffp D) unit :=
  m ← gets ScrollMode;
  let d := copy_from_user [sm_mode m; sm_pause m; sm_delay m] a in
  let m := mkScroll (byte_at d 0) (at_least_1 (byte_at d 1)) (at_least_1 (byte_at d 2)) in
  c ← gets tffpConfig;
  modify (fun s => s <| ScrollMode := m |>);;
  save_config ((sm_mode m =? scrollMode c) && (sm_delay m =? scrollDelay c)
               && (sm_pause m =? scrollPause c))
    (fun c => c <| scrollMode := sm_mode m |> <| scrollDelay := sm_delay m |>
                <| scrollPause := sm_pause m |>);;
  modify (fun s => s <| ScrollOnce := 1 |> <| ScrollState := SS_InitChars |>).

(** _FRONTPANELBRIGHTNESS reads the caller's memory directly. *)
Definition brightness_command (a : uarg) : M (tffp D) unit :=
  b ← lift (aget (u_mem a) 0);
  save_field brightness b (fun c => c <| brightness := b mod 8 |>);;
  VFDBrightness b.

Definition set_keyemulation (v : Z) : M (tffp D) unit :=
  modify (fun s => s <| KeyEmulationMode := v |> <| KeyBufferEnd := 0 |> <| KeyBufferStart := 0 |>).

Definition tffpctl_ioctl (nr : Z) (a : uarg) : M (tffp D) fp_reply :=
  let done (m : M (tffp D) unit) : M (tffp D) fp_reply := m;; fp_returns 0 in
  let given (m : M (tffp D) unit) : M (tffp D) fp_reply := done (when (truthy (u_val a)) m) in
  if nr =? _FRONTPANELGETTIME then
    t ← VFDReqDateTime delay; mret (copy_to_user (time_bytes t) a)
  else if nr =? _FRONTPANELSETTIME then
    copy_fptime a;; t ← gets fptime; VFDSetTime t;; VFDReqDateTime delay;; fp_returns 0
  else if nr =? _IOC_NR FRONTPANELSYNCFPTIME then
    done (tv ← gets (fun s => do_gettimeofday (fp_io s)); vfdSetGmtTime tv)
  else if nr =? _IOC_NR FRONTPANELSETGMTOFFSET then done (set_gmt_offset (u_val a))
  else if nr =? _IOC_NR FRONTPANELSYNCSYSTIME then
    done (t ← VFDReqDateTime delay; off ← gmt_offset;
          fp_do (do_settimeofday (s32 (ft_now t - off))))
  else if nr =? _FRONTPANELCLEARTIMER then done VFDClearTimers
  else if nr =? _FRONTPANELSETTIMER then
    done (copy_fptime a;; t ← gets fptime; VFDSetTimer t)
  else if nr =? _FRONTPANELIRFILTER1 then
    done (set_ir_filter irFilter1 (fun v c => c <| irFilter1 := v |>) 0 a)
  else if nr =? _FRONTPANELIRFILTER2 then
    done (set_ir_filter irFilter2 (fun v c => c <| irFilter2 := v |>) 1 a)
  else if nr =? _FRONTPANELIRFILTER3 then
    done (set_ir_filter irFilter3 (fun v c => c <| irFilter3 := v |>) 2 a)
  else if nr =? _FRONTPANELIRFILTER4 then
    done (set_ir_filter irFilter4 (fun v c => c <| irFilter4 := v |>) 3 a)
  else if nr =? _FRONTPANELBRIGHTNESS then given (brightness_command a)
  else if nr =? _FRONTPANELBOOTREASON then
    r ← gets bootreason; mret (copy_to_user [r] a)
  else if nr =? _FRONTPANELPOWEROFF then done VFDShutdown
  else if nr =? _FRONTPANELCLEAR then done (VFDClearBuffer;; clear_icons)
  else if nr =? _FRONTPANELTYPEMATICDELAY then
    let v := user_byte a in
    given (save_field typematicDelay v (fun c => c <| typematicDelay := v |>);;
           modify (fun s => s <| DefaultTypematicDelay := v |>))
  else if nr =? _FRONTPANELTYPEMATICRATE then
    let v := user_byte a in
    given (save_field typematicRate v (fun c => c <| typematicRate := v |>);;
           modify (fun s => s <| DefaultTypematicRate := v |>))
  else if nr =? _FRONTPANELKEYEMULATION then given (set_keyemulation (user_byte a))
  else if nr =? _FRONTPANELREBOOT then done VFDReboot
  else if nr =? _FRONTPANELRESEND then done (VFDSendToDisplay true)
  else if nr =? _FRONTPANELALLCAPS then
    let v := user_byte a in
    given (save_field allCaps v (fun c => c <| allCaps := v mod 2 |>))
  else if nr =? _FRONTPANELSCROLLMODE then given (set_scroll_mode a)
  else if nr =? _FRONTPANELICON then
    let d := copy_from_user (stack_junk 12) a in
    given (VFDSetIcons (le32 d 0) (le32 d 4) (byte_at d 8))
  else if nr =? _FRONTPANELSPINNER then
    let v := user_byte a in
    given (modify (fun s => s <| Spinner_on := if truthy v then 1 else 0 |>))
  else fp_returns (- ENOTTY).

Definition FrontPaneldev_ioctl (minor cmd : Z) (a : uarg) : M (tffp D) fp_reply :=
  if cmd =? TCGETS then
    t ← gets termAttributes; mret (copy_to_user t a)
  else if cmd =? TCSETSF then
    modify (fun s => s <| termAttributes := copy_from_user (termAttributes s) a |>);; fp_returns 0
  else
    f ← gets FrontPanelOpen;
    fp ← lift (aget f minor);
    if (fp =? 0) || negb (minor =? FRONTPANEL_MINOR_FPC) then fp_returns (- EUSERS)
    else if cmd .& 0xfffffe00 =? VFDMAGIC then vfd_ioctl cmd a
    else if negb ((cmd ≫ 8) .& 0xff =? IOCTLMAGIC) then fp_returns (- ENOTTY)
    else tffpctl_ioctl (_IOC_NR cmd) a.

(** ** Proc files (tffp_procfs.c) *)

(** The page a write handler copies [user] into; [None]: no memory. *)
Definition proc_page (allocated : bool) (user : option (list Z)) (k : list Z -> M (tffp D) Z)
    : M (tffp D) Z :=
  if negb allocated then mret (- ENOMEM)
  else match user with
       | None => mret (- EFAULT)
       | Some u =>
           page ← lift (amemcpy (stack_junk (Z.to_nat PAGE_SIZE)) 0 u 0 (Z.of_nat (length u)));
           k page
       end.

(** page[count] = 0 *)
Definition proc_text (allocated : bool) (user : option (list Z)) (k : list Z -> M (tffp D) unit)
    : M (tffp D) Z :=
  proc_page allocated user (fun page =>
    let count := Z.of_nat (length (default [] user)) in
    page ← lift (aset page count 0);
    k page;;
    mret count).

(** kmalloc(count + 1), strncpy(myString, page, count), myString[count - 1] = 0 *)
Definition proc_string (allocated : bool) (user : option (list Z)) (k : list Z -> M (tffp D) unit)
    : M (tffp D) Z :=
  proc_page allocated user (fun page =>
    let count := length (default [] user) in
    str ← lift (strncpy count page);
    str ← lift (aset (str ++ stack_junk 1) (Z.of_nat count - 1) 0);
    k str;;
    mret (Z.of_nat count)).

Definition symbol_circle_write allocated user : M (tffp D) Z :=
  proc_string allocated user (fun str =>
    modify (fun s => s <| symbol_circle := default (symbol_circle s) (sscanf_d str) |>);;
    modify (fun s => s <| proc_Spinner_on := if symbol_circle s =? 0 then 0 else 1 |>)).

Definition symbol_timeshift_write allocated user : M (tffp D) Z :=
  proc_string allocated user (fun str =>
    modify (fun s => s <| symbol_timeshift := default (symbol_timeshift s) (sscanf_d str) |>);;
    v ← gets symbol_timeshift;
    SetIconBits 27 1 (if v =? 0 then 0 else 0x0f)).

Definition symbol_circle_read : M (tffp D) string :=
  v ← gets symbol_circle; mret (pretty v).
Definition symbol_timeshift_read : M (tffp D) string :=
  v ← gets symbol_timeshift; mret (pretty v).

(** led0_pattern_write and led_pattern_speed_write only log. *)
Definition led_pattern_write allocated user : M (tffp D) Z :=
  proc_text allocated user (fun _ => skip).

Definition wakeup_time_write allocated user : M (tffp D) Z :=
  proc_text allocated user (fun page => vfdSetGmtWakeupTime (simple_strtol page)).

Definition rtc_write allocated user : M (tffp D) Z :=
  proc_text allocated user (fun page => vfdSetGmtTime (simple_strtol page)).

Definition new_line (s : string) : string := String.append s (String (Ascii.ascii_of_nat 10) "").
Definition was_timer_wakeup_read : M (tffp D) string :=
  r ← gets bootreason; mret (new_line (if r =? 2 then "1" else "0")).

Definition rtc_read : M (tffp D) string := t ← vfdGetGmtTime delay; mret (new_line (pretty t)).
Definition version_read : string := new_line "0".

(** ** Module *)

Definition frontpanel_init_func : M (tffp D) unit := VFDInit.

(** What is sent once the interrupt is there. *)
Definition init_panel : M (tffp D) unit :=
  v ← fp_inl (ASC3BaseAddress + ASC_INT_EN);
  fp_outl (ASC3BaseAddress + ASC_INT_EN) (v .| 1);;
  off ← gmt_offset;
  t ← (if negb (off =? -1) then t ← VFDReqDateTime delay; mret (s32 (ft_now t - off)) else mret 0);
  fp_do (do_settimeofday t);;
  VFDGetBootReason;;
  VFDClearTimers;;
  SendFPData [0x40];;
  SendFPData [0x51; 0x5a];;
  SendFPData [0x54; 0xff; 0xff; 0x00; 0x00];;
  SendFPData [0x41; 0x88];;
  SendFPData [0x11; 0x81].

(** The task sleeps until the first interrupt; the registrations of the clock
    and of the proc files change nothing here. *)
Definition frontpanel_init_module : M (tffp D) Z :=
  v ← fp_inl (ASC3BaseAddress + ASC_INT_EN);
  fp_outl (ASC3BaseAddress + ASC_INT_EN) (Z.ldiff v 0x1ff);;
  registered ← fp_call fp_register_chrdev;
  when (registered : bool) frontpanel_init_func;;
  modify (fun s => s <| FrontPanelOpen := [0; 0; 0; 0] |>);;
  clear_icons;;
  modify (fun s => s <| ScrollMode := mkScroll 1 100 20 |>);;
  m ← gets Message;
  m ← lift (aset m 0 0);
  modify (fun s => s <| Message := m |>);;
  readTffpConfig;;
  c ← gets tffpConfig;
  modify (fun s => s <| DefaultTypematicRate := typematicRate c |>
                     <| DefaultTypematicDelay := typematicDelay c |>
                     <| ScrollMode := mkScroll (scrollMode c) (scrollPause c) (scrollDelay c) |>);;
  VFDSetIRMode 0 (irFilter1 c);;
  VFDSetIRMode 1 (irFilter2 c);;
  VFDSetIRMode 2 (irFilter3 c);;
  VFDSetIRMode 3 (irFilter4 c);;
  VFDBrightness (brightness c);;
  modify (fun s => s <| rx_int_sem := 0 |>);;
  v ← fp_inl (ASC3BaseAddress + ASC_CTRL);
  fp_outl (ASC3BaseAddress + ASC_CTRL) (v .| ASC_CTRL_FIFO_EN);;
  irq ← fp_call fp_request_irq;
  when (irq : bool) init_panel;;
  modify (fun s => s <| termAttributes := replicate TERMIOS_SIZE 0 |> <| Spinner_on := 0 |>);;
  HighRes_FP_Timer;;
  mret 0.

Definition frontpanel_cleanup_module : M (tffp D) unit :=
  v ← fp_inl (ASC3BaseAddress + ASC_INT_EN);
  fp_outl (ASC3BaseAddress + ASC_INT_EN) (Z.ldiff v 0x1ff);;
  modify (fun s => s <| Spinner_on := 0 |>);;
  fp_do fp_unregister;;
  VFDClearBuffer.
End dev.
