(* ===== verification/TffpFrame.v ===== *)
(** * Topfield front panel: sending, on any hardware and on a concrete one

    Sending a message ends on every hardware and touches nothing else, as long
    as the array holds what the length nibble of the command asks for.  On the
    concrete [panel] the bytes sent are known. *)
From S2P Require Import Prelude TffpState TffpDisplay.

(** What is relied on about the kernel's side: local arrays have their size. *)
Class FpKernelOk `{FpKernel} := {
  junk_length : forall n, length (stack_junk n) = n;
  junk_u8 : forall n, Forall is_u8 (stack_junk n)
}.

(** The array holds the bytes that the command byte announces. *)
Definition sendable (s : list Z) : Prop :=
  match s with [] => False | cmd :: _ => cmd .& 0x0f < Z.of_nat (length s) end.

Section ends.
Context {D : Type} `{FpHw D} `{FpKernel}.
Context (R : relation (tffp D)) `{!PreOrder R}.
Hypothesis io_free : forall s d, R s (s <| fp_io := d |>).

Lemma ends_fp_do f : ends R (fp_do f).
Proof. unfold fp_do. ends. apply io_free. Qed.
Lemma ends_fp_call {A} (f : D -> A * D) : ends R (fp_call f).
Proof.
  intros s. unfold runs, fp_call. destruct (f (fp_io s)) as [a d]. exists a, (s <| fp_io := d |>).
  split; [done|apply io_free].
Qed.
Lemma ends_fp_inl a : ends R (fp_inl a).
Proof. apply ends_fp_call. Qed.
Lemma ends_fp_outl a v : ends R (fp_outl a v).
Proof. apply ends_fp_do. Qed.
#[local] Hint Resolve ends_fp_inl ends_fp_outl ends_fp_do ends_fp_call : ends.

Lemma ends_wait n : ends R (wait_the n).
Proof. induction n; simpl; ends. Qed.
#[local] Hint Resolve ends_wait : ends.
Lemma ends_SendFPByte b : ends R (SendFPByte b).
Proof. unfold SendFPByte. ends. Qed.
#[local] Hint Resolve ends_SendFPByte : ends.

Lemma ends_bind_lift {A B} (r : res A) a (k : A -> M (tffp D) B) :
  r = Ok a -> ends R (k a) -> ends R (lift r ≫= k).
Proof. intros -> Hk s. apply Hk. Qed.

Lemma ends_send_rest s n : forall i, 0 <= i -> i + Z.of_nat n <= Z.of_nat (length s) ->
  ends R (send_rest n i s).
Proof.
  induction n as [|n IH]; intros i Hi Hn; simpl; [ends|].
  destruct (aget_in s i) as [b Hb]; [lia|].
  apply (ends_bind_lift _ _ _ Hb). ends. apply IH; lia.
Qed.

Lemma ends_SendFPString s : sendable s -> ends R (SendFPString s).
Proof.
  destruct s as [|cmd s]; [done|]. intros Hc. unfold sendable in Hc. unfold SendFPString.
  apply ends_bind; [apply _|ends|intros _].
  apply (ends_bind_lift _ cmd); [done|]. ends. apply ends_send_rest; [lia|].
  pose proof (nibble_lo cmd). lia.
Qed.

Lemma ends_SendFPData `{!FpKernelOk} cmd data :
  (length data < 20)%nat -> ends R (SendFPData (cmd :: data)).
Proof.
  intros Hd. apply ends_SendFPString. unfold sendable. cbn [map app].
  rewrite app_comm_cons, length_app, length_drop, junk_length. simpl length. rewrite length_map.
  pose proof (nibble_lo (u8 cmd)). lia.
Qed.
End ends.

(** ** A panel on the serial line *)

(** [p_rx]: bytes received and not read yet; [p_tx]: all bytes sent; the EEPROM
    refuses [p_busy] more transfers, and [p_cycle] after every write. *)
Record panel := Panel {
  p_rx : list Z; p_tx : list Z; p_regs : gmap Z Z;
  p_eeprom : list Z; p_busy : nat; p_cycle : nat; p_clock : Z
}.
Definition eta_panel (d : panel) : panel :=
  Panel (p_rx d) (p_tx d) (p_regs d) (p_eeprom d) (p_busy d) (p_cycle d) (p_clock d).
#[export] Instance set_p_rx : Setter p_rx := ltac:(setter eta_panel p_rx).
#[export] Instance set_p_tx : Setter p_tx := ltac:(setter eta_panel p_tx).
#[export] Instance set_p_regs : Setter p_regs := ltac:(setter eta_panel p_regs).
#[export] Instance set_p_eeprom : Setter p_eeprom := ltac:(setter eta_panel p_eeprom).
#[export] Instance set_p_busy : Setter p_busy := ltac:(setter eta_panel p_busy).
#[export] Instance set_p_clock : Setter p_clock := ltac:(setter eta_panel p_clock).

Definition STA3 := ASC3BaseAddress + ASC_INT_STA.
Definition TX3 := ASC3BaseAddress + ASC_TX_BUFF.
Definition RX3 := ASC3BaseAddress + ASC_RX_BUFF.

Definition panel_rd (a : Z) (d : panel) : Z * panel :=
  if a =? STA3 then (ASC_INT_STA_THE .| match p_rx d with [] => 0 | _ => 1 end, d)
  else if a =? RX3 then
    match p_rx d with [] => (0, d) | b :: r => (b, d <| p_rx := r |>) end
  else (default 0 (p_regs d !! a), d).

Definition panel_wr (a v : Z) (d : panel) : panel :=
  if a =? TX3 then d <| p_tx := p_tx d ++ [v] |> else d <| p_regs := <[a := v]> (p_regs d) |>.

(** An offset and bytes to write there. *)
Definition eeprom_put (msg : list Z) (d : panel) : bool * panel :=
  match p_busy d with
  | S n => (false, d <| p_busy := n |>)
  | O =>
      match msg with
      | [] => (true, d)
      | off :: bytes =>
          (true, d <| p_eeprom := take (Z.to_nat off) (p_eeprom d) ++ bytes
                                  ++ drop (Z.to_nat off + length bytes) (p_eeprom d) |>
                   <| p_busy := p_cycle d |>)
      end
  end.
Definition eeprom_get (offset len : Z) (d : panel) : option (list Z) * panel :=
  match p_busy d with
  | S n => (None, d <| p_busy := n |>)
  | O => (Some (map u8 (take (Z.to_nat len) (drop (Z.to_nat offset) (p_eeprom d)))), d)
  end.

#[export] Instance panel_hw : FpHw panel := {|
  fp_mmio := {| mmio_rd := panel_rd; mmio_wr := panel_wr |};
  i2c_put := eeprom_put;
  i2c_get := eeprom_get;
  do_gettimeofday := p_clock;
  do_settimeofday t d := d <| p_clock := t |>;
  fp_register_chrdev d := (true, d);
  fp_request_irq d := (true, d);
  fp_unregister d := d
|}.

(** A message on the line. *)
Definition frame (m : list Z) : list Z := 2 :: m ++ [3].

Section panel.
Context `{FpKernel}.
Implicit Types s : tffp panel.

Definition sent_more s (bs : list Z) : tffp panel :=
  s <| fp_io := (fp_io s) <| p_tx := p_tx (fp_io s) ++ bs |> |>.

Lemma sent_more_app s a b : sent_more (sent_more s a) b = sent_more s (a ++ b).
Proof. unfold sent_more. simpl. by rewrite app_assoc. Qed.
Lemma sent_more_nil s : sent_more s [] = s.
Proof. unfold sent_more. rewrite app_nil_r. by destruct s as [[] ?]. Qed.

Lemma SendFPByte_panel b s : SendFPByte b s = Ok (tt, sent_more s [u8 b]).
Proof.
  unfold SendFPByte. replace (Z.to_nat 100000) with (S (Z.to_nat 99999)).
  2: { rewrite <- Z2Nat.inj_succ by lia. reflexivity. }
  generalize (Z.to_nat 99999). intros n.
  unfold wait_the at 1. fold wait_the.
  unfold mbind, M_bind, fp_inl, fp_call. simpl mmio_rd. unfold panel_rd at 1.
  rewrite Z.eqb_refl. cbv beta iota zeta.
  replace (truthy _) with true by by destruct (p_rx (fp_io s)).
  unfold sent_more. by destruct s as [[] ?].
Qed.

Lemma send_rest_panel l n : forall i s, 0 <= i -> i + Z.of_nat n <= Z.of_nat (length l) ->
  send_rest n i l s = Ok (tt, sent_more s (map u8 (seg l i (i + Z.of_nat n)))).
Proof.
  induction n as [|n IH]; intros i s Hi Hn; cbn [send_rest].
  { rewrite Z.add_0_r, seg_nil. simpl. by rewrite sent_more_nil. }
  destruct (aget_in l i) as [b Hb]; [lia|].
  rewrite (M_bind_run _ _ _ _ _ (lift_run _ _ _ Hb)).
  rewrite (M_bind_run _ _ _ _ _ (SendFPByte_panel _ _)).
  rewrite IH, sent_more_app by lia. do 3 f_equal.
  rewrite <- (seg_app l i (i + 1)) by lia. rewrite (seg_one _ _ _ Hb). simpl. do 3 f_equal. lia.
Qed.

(** The bytes sent for an array: its command, as many bytes as that says. *)
Definition sent_of (l : list Z) : list Z :=
  map u8 (seg l 0 (1 + hd 0 l .& 0x0f)).

Lemma SendFPString_panel l s :
  sendable l -> SendFPString l s = Ok (tt, sent_more s (frame (sent_of l))).
Proof.
  destruct l as [|cmd l]; [done|]. intros Hc. unfold sendable in Hc. unfold SendFPString.
  rewrite (M_bind_run _ _ _ _ _ (SendFPByte_panel _ _)).
  rewrite (M_bind_run _ _ _ cmd _ eq_refl).
  rewrite (M_bind_run _ _ _ _ _ (SendFPByte_panel _ _)).
  pose proof (nibble_lo cmd) as Hn.
  rewrite (M_bind_run _ _ _ _ _ (send_rest_panel (cmd :: l) (Z.to_nat (cmd .& 0x0f)) 1 _ ltac:(lia) ltac:(lia))).
  rewrite SendFPByte_panel, !sent_more_app. do 3 f_equal. unfold frame, sent_of.
  change (hd 0 (cmd :: l)) with cmd.
  rewrite <- (seg_app _ 0 1) by lia. rewrite (seg_one (cmd :: l) 0 cmd eq_refl : seg (cmd :: l) 0 1 = [cmd]).
  rewrite Z2Nat.id by lia. rewrite map_app. done.
Qed.

Lemma SendFPData_panel `{!FpKernelOk} data s :
  (1 <= length data <= 20)%nat -> u8 (hd 0 data) .& 0x0f = Z.of_nat (length data) - 1 ->
  SendFPData data s = Ok (tt, sent_more s (frame (map u8 data))).
Proof.
  intros Hl Hc. unfold SendFPData.
  assert (Hlen : length (map u8 data ++ drop (length data) (stack_junk 20)) = 20%nat).
  { rewrite length_app, length_map, length_drop, junk_length. lia. }
  destruct data as [|cmd data]; [simpl in Hl; lia|]. simpl in Hc.
  rewrite SendFPString_panel.
  - do 4 f_equal. unfold sent_of. simpl hd. rewrite Hc. rewrite seg_0.
    rewrite take_app_le by (rewrite length_map; simpl; lia).
    rewrite take_ge by (rewrite length_map; simpl; lia).
    rewrite map_map. apply map_ext. intros x. unfold u8. by rewrite Z.mod_mod by lia.
  - cbn [map app]. unfold sendable. cbn [map app] in Hlen. rewrite Hlen, Hc. cbn [length] in *. lia.
Qed.
End panel.

(** ** An example kernel *)

(** The CRC of the kernel, polynomial 0xA001. *)
Definition crc_bit (c : Z) : Z := if Z.odd c then Z.lxor (c ≫ 1) 0xA001 else c ≫ 1.
Definition crc_byte (c b : Z) : Z := Nat.iter 8 crc_bit (Z.lxor c b).

(** Seconds since 1970 of a Gregorian date; March is the first month. *)
Definition seconds_since_1970 (year mon day hour min sec : Z) : Z :=
  let late := mon <=? 2 in
  let m := if late then mon + 10 else mon - 2 in
  let y := if late then year - 1 else year in
  (((y / 4 - y / 100 + y / 400 + 367 * m / 12 + day + y * 365 - 719499) * 24 + hour) * 60 + min) * 60
  + sec.

Fixpoint decimal (acc : Z) (l : list Z) : Z :=
  match l with
  | [] => acc
  | c :: l => if (48 <=? c) && (c <=? 57) then decimal (acc * 10 + (c - 48)) l else acc
  end.

Definition example_kernel : FpKernel := {|
  crc16 c l := fold_left crc_byte l c;
  toupper c := if (97 <=? c) && (c <=? 122) then c - 32 else c;
  mktime := seconds_since_1970;
  rtc_time_to_tm t := RtcTime (t mod 60) (t / 60 mod 60) (t / 3600 mod 24) (t / 86400) 0 70;
  simple_strtol := decimal 0;
  sscanf_d l := match l with [] => None | c :: _ => if (48 <=? c) && (c <=? 57) then Some (decimal 0 l) else None end;
  stack_junk n := replicate n 0xA5
|}.

Lemma example_kernel_ok : @FpKernelOk example_kernel.
Proof.
  split; intros n; simpl; [apply length_replicate|].
  apply Forall_replicate. unfold is_u8. lia.
Qed.

(** An EEPROM without a valid configuration. *)
Definition example_panel : panel := Panel [] [] ∅ (replicate 256 0) 0 5 0.
