(* ===== verification/TffpInv.v ===== *)
(** * Topfield front panel: the types of the driver's state

    What every variable of the driver is at all times: sizes of arrays, ranges
    of indices and bytes, terminated strings.  Part one: the invariant, and the
    functions that never fault in a state that satisfies it. *)
From S2P Require Import Prelude TffpState TffpDisplay TffpTime TffpInput TffpFrame.

#[local] Arguments replicate : simpl never.

(** ** The invariant *)

Definition bytes (n : nat) (l : list Z) : Prop := length l = n /\ Forall is_u8 l.
(** Bytes with a terminator at the end. *)
Definition text (l : list Z) : Prop := bytes 40 l /\ l !! 39%nat = Some 0.

Record config_ok (c : tTffpConfig) : Prop := {
  co_brightness : 0 <= brightness c < 8;
  co_delay : is_u8 (typematicDelay c);
  co_rate : is_u8 (typematicRate c);
  co_mode : is_u8 (scrollMode c);
  co_pause : is_u8 (scrollPause c);
  co_scroll : is_u8 (scrollDelay c);
  co_gmt : - 2 ^ 15 <= gmtOffset c < 2 ^ 15
}.

Definition scroll_ok (m : frontpanel_ioctl_scrollmode) : Prop :=
  is_u8 (sm_mode m) /\ is_u8 (sm_pause m) /\ is_u8 (sm_delay m).

Section invariant.
Context {D : Type}.
Implicit Types s : tffp D.

Record fp_ok s : Prop := {
  ok_open : length (FrontPanelOpen s) = 4%nat;
  ok_led : bytes 4 (DisplayBufferLED s);
  ok_vfd : bytes 48 (DisplayBufferVFD s);
  ok_current : bytes 48 (DisplayBufferVFDCurrent s);
  ok_rcv : bytes 256 (RCVBuffer s);
  ok_start : 0 <= RCVBufferStart s < 256;
  ok_end : 0 <= RCVBufferEnd s < 256;
  ok_icons : length (IconBlinkMode s) = 48%nat /\ Forall (bytes 4) (IconBlinkMode s);
  ok_ddelay : is_u8 (DefaultTypematicDelay s);
  ok_drate : is_u8 (DefaultTypematicRate s);
  ok_keys : bytes 256 (KeyBuffer s);
  ok_kstart : 0 <= KeyBufferStart s < 256;
  ok_kend : 0 <= KeyBufferEnd s < 256;
  ok_config : config_ok (tffpConfig s);
  ok_delay : is_u8 (TypematicDelay s);
  ok_rate : is_u8 (TypematicRate s);
  ok_srate : is_u8 (ShutdownTypematicRate s);
  ok_reason : is_u8 (bootreason s);
  ok_ir : bytes 24 (FPIRData s);
  ok_segments : length (Segment_flag s) = 11%nat;
  ok_spin : 0 <= Spinner_on s <= 1;
  ok_spinner : 0 <= Spinner_state s <= 10;
  ok_mode : scroll_ok (ScrollMode s);
  ok_message : text (Message s);
  ok_text : text (ScrollText s);
  ok_counter : 0 <= DelayCounter s < 4
}.

Definition fp_kept s s' : Prop := fp_ok s -> fp_ok s'.
#[export] Instance fp_kept_preorder : PreOrder fp_kept.
Proof. split; [by intros s H|intros s1 s2 s3 H1 H2 H; by apply H2, H1]. Qed.

Lemma bytes_zero n : bytes n (replicate n 0).
Proof. split; [apply length_replicate|]. apply Forall_replicate. unfold is_u8. lia. Qed.
Lemma icons_zero :
  length (replicate 48 [0; 0; 0; 0]) = 48%nat /\ Forall (bytes 4) (replicate 48 [0; 0; 0; 0]).
Proof. split; [apply length_replicate|apply Forall_replicate, (bytes_zero 4)]. Qed.

Lemma boot_ok d : fp_ok (tffp_boot d).
Proof.
  constructor; simpl; try apply bytes_zero; try apply icons_zero; try (unfold is_u8; lia); try done.
  - split; [done|]. repeat (apply Forall_cons_2; [by unfold is_u8|]). constructor.
  - split; [apply bytes_zero|done].
  - split; [apply bytes_zero|done].
Qed.
End invariant.

(** Closes [fp_kept s (f s)] where [f] changes fields to values in range. *)
Ltac fp_kept :=
  let H := fresh in
  intros H; destruct H; constructor; simpl; try assumption; auto with drv;
  try apply bytes_zero; try apply icons_zero; try (unfold is_u8 in *; lia).

Lemma bytes_aset n l i v l' : bytes n l -> is_u8 v -> aset l i v = Ok l' -> bytes n l'.
Proof.
  intros [Hl Hf] Hv (Hi & ->)%aset_Ok. split; [by rewrite length_insert|by apply Forall_insert].
Qed.
Lemma bytes_aget n l i v : bytes n l -> aget l i = Ok v -> is_u8 v.
Proof. intros [_ Hf]. by apply aget_Forall. Qed.
Lemma bytes_in n l i : bytes n l -> 0 <= i < Z.of_nat n -> exists v, aget l i = Ok v /\ is_u8 v.
Proof.
  intros Hb Hi. destruct (aget_in l i) as [v Hv]; [by rewrite (proj1 Hb)|].
  exists v. split; [done|by eapply bytes_aget].
Qed.
Lemma bytes_set n l i v :
  bytes n l -> is_u8 v -> 0 <= i < Z.of_nat n -> exists l', aset l i v = Ok l' /\ bytes n l'.
Proof.
  intros Hb Hv Hi. eexists. split; [by apply aset_in; rewrite (proj1 Hb)|].
  eapply bytes_aset; [done|done|]. apply aset_in. by rewrite (proj1 Hb).
Qed.
Lemma is_u8_mod x : is_u8 (x .& 0xff).
Proof. change 0xff with (Z.ones 8). rewrite Z.land_ones by lia. apply (is_u8_u8 x). Qed.
Lemma u8_land y : is_u8 y -> y .& Z.ones 8 = y.
Proof. intros Hy. rewrite Z.land_ones by lia. by apply Z.mod_small. Qed.
Lemma is_u8_land x y : is_u8 y -> is_u8 (x .& y).
Proof. intros Hy. rewrite <- (u8_land y Hy), Z.land_assoc. apply is_u8_mod. Qed.
Lemma is_u8_lor x y : is_u8 x -> is_u8 y -> is_u8 (x .| y).
Proof.
  intros Hx Hy. rewrite <- (u8_land x Hx), <- (u8_land y Hy), <- Z.land_lor_distr_l. apply is_u8_mod.
Qed.
Lemma land_mask x n : 0 <= n -> 0 <= x .& Z.ones n < 2 ^ n.
Proof. intros. rewrite Z.land_ones by lia. apply Z.mod_pos_bound. lia. Qed.
#[export] Hint Resolve is_u8_mod : drv.

(** ** Functions that never fault *)

(** In every state of the right types [m] ends in one. *)
Definition sound {D A} (m : M (tffp D) A) : Prop :=
  forall s, fp_ok s -> runs m s (fun _ => fp_ok).

Section sound.
Context {D : Type}.
Implicit Types s : tffp D.

Lemma sound_ret {A} (a : A) : sound (D := D) (mret a).
Proof. intros s Hs. by apply runs_ret. Qed.
Lemma sound_skip : sound (D := D) skip.
Proof. apply sound_ret. Qed.
Lemma sound_gets {A} (f : tffp D -> A) : sound (gets f).
Proof. intros s Hs. by apply runs_gets. Qed.
Lemma sound_modify f : (forall s, fp_kept s (f s)) -> sound (D := D) (modify f).
Proof. intros Hf s Hs. apply runs_modify. by apply Hf. Qed.
Lemma sound_bind {A B} (m : M (tffp D) A) (k : A -> M (tffp D) B) :
  sound m -> (forall a, sound (k a)) -> sound (m ≫= k).
Proof.
  intros Hm Hk s Hs. apply runs_bind. eapply runs_conseq; [by apply Hm|]. intros a s' Hs'. by apply Hk.
Qed.
(** The value read from the state has the type of its field. *)
Lemma sound_read {A B} (f : tffp D -> A) (P : A -> Prop) (k : A -> M (tffp D) B) :
  (forall s, fp_ok s -> P (f s)) -> (forall a, P a -> sound (k a)) -> sound (gets f ≫= k).
Proof. intros Hf Hk s Hs. apply runs_bind, runs_gets, Hk; [by apply Hf|done]. Qed.
Lemma sound_lift {A B} (r : res A) (P : A -> Prop) (k : A -> M (tffp D) B) :
  (exists a, r = Ok a /\ P a) -> (forall a, P a -> sound (k a)) -> sound (lift r ≫= k).
Proof. intros (a & -> & Ha) Hk s Hs. by apply (Hk a Ha). Qed.
Lemma sound_when b (m : M (tffp D) unit) : sound m -> sound (when b m).
Proof. destruct b; [done|]. intros _. apply sound_skip. Qed.
Lemma sound_if {A} (b : bool) (m1 m2 : M (tffp D) A) :
  sound m1 -> sound m2 -> sound (if b then m1 else m2).
Proof. by destruct b. Qed.
Lemma sound_ends {A} (m : M (tffp D) A) : ends fp_kept m -> sound m.
Proof. intros Hm s Hs. eapply runs_conseq; [apply Hm|]. intros a s' Hk. by apply Hk. Qed.
Lemma sound_keeps {A} (m : M (tffp D) A) : sound m -> keeps fp_kept m.
Proof. intros Hm s a s' E Hs. exact (runs_inv _ _ _ _ _ (Hm s Hs) E). Qed.
End sound.

Create HintDb sound discriminated.
#[export] Hint Constants Opaque : sound.
Ltac sound_step :=
  lazymatch goal with
  | |- sound (mbind _ _) => apply sound_bind; [|intros ?]
  | |- sound (mret _) => apply sound_ret
  | |- sound skip => apply sound_skip
  | |- sound (gets _) => apply sound_gets
  | |- sound (modify _) => apply sound_modify; intros ?; simpl
  | |- sound (when _ _) => apply sound_when
  | |- sound (if _ then _ else _) => apply sound_if
  | |- sound _ => first [assumption | solve [eauto with sound]]
  end.
Ltac sound := repeat (sound_step; cbv beta zeta).

Section operations.
Context {D : Type} `{HD : FpHw D} `{HK : !FpKernel} `{HO : !FpKernelOk}.

Lemma kept_fp_io (s : tffp D) d : fp_kept s (s <| fp_io := d |>).
Proof. fp_kept. Qed.

Lemma SendFPString_sound s : sendable s -> sound (D := D) (SendFPString s).
Proof. intros Hs. apply sound_ends, (ends_SendFPString _ kept_fp_io), Hs. Qed.
Lemma SendFPData_sound cmd data : (length data < 20)%nat -> sound (D := D) (SendFPData (cmd :: data)).
Proof. intros Hs. by apply sound_ends, (ends_SendFPData _ kept_fp_io). Qed.
Lemma inl_sound a : sound (D := D) (fp_inl a).
Proof. apply sound_ends, (ends_fp_inl _ kept_fp_io). Qed.
Lemma outl_sound a v : sound (D := D) (fp_outl a v).
Proof. apply sound_ends, (ends_fp_outl _ kept_fp_io). Qed.
Lemma do_sound f : sound (D := D) (fp_do f).
Proof. apply sound_ends, (ends_fp_do _ kept_fp_io). Qed.
Lemma call_sound {A} (f : D -> A * D) : sound (fp_call f).
Proof. apply sound_ends, (ends_fp_call _ kept_fp_io). Qed.
#[local] Hint Resolve inl_sound outl_sound do_sound call_sound : sound.
#[local] Hint Extern 2 (sound (SendFPData _)) => apply SendFPData_sound; simpl; lia : sound.

(** ** The display *)

Lemma send_block_sound Force off : (off + 8 <= 48)%nat -> sound (D := D) (send_block Force off).
Proof.
  intros Hoff. unfold send_block.
  apply (sound_read _ (bytes 48)); [by intros s []|intros v [Hv _]].
  sound. apply SendFPString_sound. unfold sendable. cbn [length]. rewrite length_take, length_drop, Hv.
  change (0x99 .& 0x0f) with 9. lia.
Qed.

Lemma VFDSendToDisplay_sound Force : sound (D := D) (VFDSendToDisplay Force).
Proof. unfold VFDSendToDisplay. sound; try (apply send_block_sound; lia). fp_kept. Qed.
#[local] Hint Resolve VFDSendToDisplay_sound : sound.

Lemma VFDClearBuffer_sound : sound (D := D) VFDClearBuffer.
Proof. unfold VFDClearBuffer. sound. fp_kept. Qed.
#[local] Hint Resolve VFDClearBuffer_sound : sound.
Lemma VFDInit_sound : sound (D := D) VFDInit.
Proof. unfold VFDInit. sound. Qed.

Lemma vfd_put_sound i f : 0 <= i < 48 -> sound (D := D) (vfd_put i f).
Proof.
  intros Hi. unfold vfd_put. apply (sound_read _ (bytes 48)); [by intros s []|intros v Hv].
  apply (sound_lift _ is_u8); [by eapply bytes_in|intros old Ho].
  apply (sound_lift _ (bytes 48)); [apply bytes_set; auto with drv|intros v' Hv'].
  sound. fp_kept.
Qed.
#[local] Hint Extern 2 (sound (vfd_put _ _)) => apply vfd_put_sound; lia : sound.

Lemma set_digit_14_sound s j : sound (D := D) (set_digit_14 s j).
Proof. unfold set_digit_14. sound. Qed.
Lemma set_digit_17_sound s j : sound (D := D) (set_digit_17 s j).
Proof. unfold set_digit_17. sound. Qed.
#[local] Hint Resolve set_digit_14_sound set_digit_17_sound : sound.

Lemma translate_in c t : is_u8 c -> exists v, VFDTranslateSegments c t = Ok v.
Proof. intros Hc. unfold is_u8 in Hc. destruct t; (apply aget_in; simpl; lia). Qed.

Lemma VFDSetDisplayDigit_sound c t j : is_u8 c -> 0 <= j -> sound (D := D) (VFDSetDisplayDigit c t j).
Proof.
  intros Hc Hj. unfold VFDSetDisplayDigit.
  apply (sound_lift _ (fun _ => True)); [destruct (translate_in c t Hc); eauto|intros v _].
  destruct t; [|by sound..]. unfold when. destruct (Z.ltb_spec j 4); [|apply sound_skip].
  apply (sound_read _ (bytes 4)); [by intros s []|intros l Hl].
  apply (sound_lift _ (bytes 4)); [apply bytes_set; auto with drv; lia|intros l' Hl'].
  sound. fp_kept.
Qed.

Lemma c_str_length l s : c_str l = Ok s -> (length s < length l)%nat.
Proof.
  revert s. induction l as [|c l IH]; intros s; simpl; [done|]. destruct (c =? 0).
  - intros [= <-]. simpl. lia.
  - intros (s' & E & [= <-])%res_bind_Ok. apply IH in E. simpl. lia.
Qed.
Lemma strlen_bound l n : strlen l = Ok n -> 0 <= n < Z.of_nat (length l).
Proof. unfold strlen. intros (s & E & [= <-])%res_bind_Ok. apply c_str_length in E. lia. Qed.

Lemma show_digits_sound t n : forall j i l,
  Forall is_u8 l -> 0 <= j -> i <= Z.of_nat (length l) -> sound (D := D) (show_digits t n j i l).
Proof.
  induction n as [|n IH]; intros j i l Hl Hj Hi; simpl; [sound|].
  apply (sound_lift _ is_u8).
  - destruct (Z.ltb_spec j i).
    + destruct (aget_in l j) as [c Hc]; [lia|]. exists c. split; [done|by eapply aget_Forall].
    + exists 0x20. split; [done|]. unfold is_u8. lia.
  - intros c Hc. apply sound_bind; [by apply VFDSetDisplayDigit_sound|]. intros _. by apply IH; [|lia|].
Qed.

Lemma c_str_in l i : l !! i = Some 0 -> exists s, c_str l = Ok s.
Proof.
  revert i. induction l as [|c l IH]; intros i Hi; [done|]. simpl. destruct (Z.eqb_spec c 0); [eauto|].
  destruct i as [|i]; simpl in Hi; [congruence|]. destruct (IH i Hi) as [s ->]. by eexists.
Qed.
Lemma strlen_in l i : l !! i = Some 0 -> exists n, strlen l = Ok n /\ 0 <= n < Z.of_nat (length l).
Proof.
  intros Hi. destruct (c_str_in l i Hi) as [s Hs]. unfold strlen. rewrite Hs. cbn.
  eexists. split; [done|]. apply c_str_length in Hs. lia.
Qed.

Lemma VFDSetDisplaySmallString_sound l i :
  Forall is_u8 l -> l !! i = Some 0 -> sound (D := D) (VFDSetDisplaySmallString l).
Proof.
  intros Hl Hi. unfold VFDSetDisplaySmallString.
  apply (sound_lift _ (fun n => 0 <= n < Z.of_nat (length l))); [by eapply strlen_in|intros n Hn].
  sound. apply show_digits_sound; [done|lia|lia].
Qed.

Lemma upcase_text l : text l -> exists l', upcase l = Ok l' /\ text l'.
Proof.
  unfold text, bytes. generalize 40%nat 39%nat. intros n m [[<- Hf] Hm]. revert m Hm.
  induction l as [|c l IH]; intros m Hm; [done|]. simpl.
  destruct (Z.eqb_spec c 0) as [->|Hc]; [by eexists|].
  destruct m as [|m]; simpl in Hm; [congruence|]. apply Forall_cons_1 in Hf as [Hu Hf].
  destruct (IH Hf m Hm) as (l' & E & [Hl Hf'] & Hm'). rewrite E. cbn. eexists. split; [done|].
  split_and!; [simpl; congruence|constructor; auto with drv|done].
Qed.

(** Showing a text on the large display gives a text. *)
Lemma VFDSetDisplayLargeString_sound {B} l (k : list Z -> M (tffp D) B) :
  text l -> (forall l', text l' -> sound (k l')) -> sound (VFDSetDisplayLargeString l ≫= k).
Proof.
  intros Hl Hk. unfold VFDSetDisplayLargeString. intros s Hs.
  apply runs_bind. do 2 runs_step. apply runs_bind.
  assert (E : exists l', (if truthy (allCaps (tffpConfig s)) then upcase l else Ok l) = Ok l' /\ text l').
  { destruct (truthy _); [by apply upcase_text|by eexists]. }
  destruct E as (l' & E & Ht). eapply (runs_lift _ _ _ _ E). apply runs_bind.
  destruct (strlen_in l' 39 (proj2 Ht)) as (n & En & Hn). eapply (runs_lift _ _ _ _ En).
  apply runs_bind. eapply runs_conseq;
    [apply show_digits_sound; [apply Ht|lia|lia|done]|]. intros ? s1 H1.
  apply runs_bind. eapply runs_conseq; [by apply VFDSendToDisplay_sound|]. intros ? s2 H2.
  apply runs_ret. by apply (Hk l' Ht).
Qed.

(** ** Icons *)

Lemma blink_bit_u8 old i Mode k : is_u8 i -> is_u8 (blink_bit old i Mode k).
Proof.
  intros Hi. unfold blink_bit. eapply is_u8_lor.
  - apply is_u8_land. rewrite <- (u8_land i Hi). change 0xff with (Z.ones 8).
    replace (Z.lxor (i .& Z.ones 8) (Z.ones 8)) with (Z.lxor i (-1) .& Z.ones 8).
    + apply is_u8_mod.
    + apply Z.bits_inj'. intros b Hb. rewrite Z.land_spec, !Z.lxor_spec, Z.land_spec, Z.bits_m1 by lia.
      by destruct (Z.testbit i b), (Z.testbit (Z.ones 8) b).
  - destruct (truthy _); [done|]. unfold is_u8. lia.
Qed.

Lemma SetIconBits_sound Reg Bit Mode : 0 <= Reg < 48 -> sound (D := D) (SetIconBits Reg Bit Mode).
Proof.
  intros HR. unfold SetIconBits. apply (sound_read _ (fun v => length v = 48%nat /\ Forall (bytes 4) v));
    [by intros s []|intros v [Hv Hf]].
  apply (sound_lift _ (fun _ => True)); [destruct (aget_in v Reg) as [r Hr]; [lia|eauto]|intros r _].
  eapply (sound_lift _ (fun v => length v = 48%nat /\ Forall (bytes 4) v)).
  { eexists. split; [apply aset_in; lia|]. split; [by rewrite length_insert|]. apply Forall_insert; [done|].
    split; [done|]. repeat (apply Forall_cons_2; [apply blink_bit_u8, is_u8_u8|]). constructor. }
  intros v' Hv'. sound. fp_kept.
Qed.
#[local] Hint Extern 2 (sound (SetIconBits _ _ _)) => apply SetIconBits_sound; lia : sound.

Lemma VFDSetIcons_sound i1 i2 m : sound (D := D) (VFDSetIcons i1 i2 m).
Proof. unfold VFDSetIcons. sound. Qed.
#[local] Hint Resolve VFDSetIcons_sound : sound.
Lemma icon_switch_sound nr onoff : sound (D := D) (icon_switch nr onoff).
Proof. unfold icon_switch. sound. fp_kept. destruct (truthy _); lia. Qed.
Lemma clear_icons_sound : sound (D := D) clear_icons.
Proof. unfold clear_icons. sound. fp_kept. Qed.

(** ** Spinner and scrolling *)

Lemma CD_icons_onoff_sound onoff : sound (D := D) (CD_icons_onoff onoff).
Proof. unfold CD_icons_onoff. sound. fp_kept. Qed.
#[local] Hint Resolve CD_icons_onoff_sound : sound.
Lemma spin_segment_sound st onoff : sound (D := D) (spin_segment st onoff).
Proof. unfold spin_segment. sound. Qed.
#[local] Hint Resolve spin_segment_sound : sound.

Lemma spin_step_sound : sound (D := D) spin_step.
Proof.
  unfold spin_step. apply (sound_read _ (fun st => 0 <= st <= 10)); [by intros s []|intros st Hst].
  apply (sound_read _ (fun l => length l = 11%nat)); [by intros s []|intros fl Hfl].
  apply (sound_lift _ (fun _ => True)); [destruct (aget_in fl st) as [f Hf]; [lia|eauto]|intros f _].
  apply sound_bind; [apply spin_segment_sound|intros _].
  apply (sound_lift _ (fun l => length l = 11%nat)).
  { eexists. split; [apply aset_in; lia|by rewrite length_insert]. }
  intros fl' Hfl'. sound. fp_kept. destruct (Z.eqb_spec (st + 1) 11); lia.
Qed.
#[local] Hint Resolve spin_step_sound : sound.
Lemma SpinnerTimer_sound : sound (D := D) SpinnerTimer.
Proof. unfold SpinnerTimer. sound; fp_kept. Qed.

Lemma strncpy_bytes n : forall l d, strncpy n l = Ok d -> Forall is_u8 l -> bytes n d.
Proof.
  induction n as [|n IH]; intros l d; cbn [strncpy]; [by intros [= <-]|].
  destruct l as [|c l]; [done|]. destruct (c =? 0); [intros [= <-] _; apply bytes_zero|].
  intros (d' & E & [= <-])%res_bind_Ok [Hc Hl]%Forall_cons_1. apply IH in E as [<- Hd]; [|done].
  split; [done|]. by constructor.
Qed.
Lemma strncpy_in n : forall l i, l !! i = Some 0 -> exists d, strncpy n l = Ok d.
Proof.
  induction n as [|n IH]; intros l i Hi; cbn [strncpy]; [eauto|].
  destruct l as [|c l]; [done|]. destruct (Z.eqb_spec c 0); [eauto|].
  destruct i as [|i]; simpl in Hi; [congruence|]. destruct (IH l i Hi) as [d ->]. by eexists.
Qed.

Lemma text_aset l i v l' : text l -> is_u8 v -> i < 39 -> aset l i v = Ok l' -> text l'.
Proof.
  intros [Hb H0] Hv Hi E. split; [by eapply bytes_aset|].
  apply aset_Ok in E as [Hr ->]. by rewrite list_lookup_insert_ne by lia.
Qed.
Lemma text_end l i v l' : bytes 40 l -> v = 0 -> i = 39 -> aset l i v = Ok l' -> text l'.
Proof.
  intros Hb -> -> E. split; [eapply bytes_aset; [done| |done]; unfold is_u8; lia|].
  apply aset_Ok in E as [Hr ->]. apply list_lookup_insert_eq. by rewrite (proj1 Hb); simpl; lia.
Qed.

Lemma shift_text_ok n : forall d t, text t -> 0 <= d <= 38 -> 38 - d < Z.of_nat n ->
  exists t', shift_text n d t = Ok t' /\ text t'.
Proof.
  induction n as [|n IH]; intros d t Ht Hd Hn; [lia|]. cbn [shift_text].
  destruct (bytes_in 40 t (d + 1) (proj1 Ht) ltac:(lia)) as (c & Ec & Hc). rewrite Ec. cbn -[aset].
  destruct (bytes_set 40 t d c (proj1 Ht) Hc ltac:(lia)) as (t' & Et & _). rewrite Et. cbn.
  assert (Ht' : text t') by (eapply text_aset; [done|done| |done]; lia).
  destruct (bytes_in 40 t' (d + 1) (proj1 Ht') ltac:(lia)) as (c' & Ec' & Hc'). rewrite Ec'. cbn.
  destruct (Z.eqb_spec c' 0) as [->|Hne]; [by eexists|].
  apply IH; [done| |lia]. destruct (decide (d = 38)) as [->|]; [|lia].
  apply aget_Ok in Ec' as [_ Ec']. change (Z.to_nat (38 + 1)) with 39%nat in Ec'.
  rewrite (proj2 Ht') in Ec'. congruence.
Qed.

Lemma goto_sound st : sound (D := D) (goto st).
Proof. unfold goto. sound. fp_kept. Qed.
#[local] Hint Resolve goto_sound : sound.
Lemma count_delay_sound : sound (D := D) count_delay.
Proof. unfold count_delay. sound. fp_kept. Qed.

Lemma scroll_init_sound : sound (D := D) scroll_init.
Proof.
  unfold scroll_init. apply (sound_read _ text); [by intros s []|intros m Hm].
  destruct (strncpy_in 40 m 39 (proj2 Hm)) as [d Ed].
  assert (Hd : bytes 40 d) by (eapply strncpy_bytes; [done|apply Hm]).
  apply (sound_lift _ (bytes 40)); [by exists d|]. intros t Ht.
  apply (sound_lift _ text).
  { destruct (bytes_set 40 t 39 0 Ht ltac:(by unfold is_u8) ltac:(lia)) as (t' & E & _).
    exists t'. split; [done|by eapply text_end]. }
  intros t' Ht'. apply VFDSetDisplayLargeString_sound; [done|]. intros t2 Ht2.
  apply sound_bind; [apply sound_modify; intros ?; fp_kept|intros _].
  apply (sound_lift _ (fun _ => True)); [destruct (strlen_in m 39 (proj2 Hm)) as (n & E & _); eauto|].
  intros n _. sound. fp_kept.
Qed.

Lemma scroll_text_sound : sound (D := D) scroll_text.
Proof.
  unfold scroll_text. apply (sound_read _ text); [by intros s []|intros t Ht].
  apply (sound_lift _ (fun _ => True)); [destruct (bytes_in 40 t 0 (proj1 Ht)) as (c & E & _); [lia|eauto]|].
  intros c _. apply sound_if; [|sound].
  apply (sound_lift _ text); [apply shift_text_ok; [done|lia|lia]|intros t' Ht'].
  apply VFDSetDisplayLargeString_sound; [done|]. intros t2 Ht2. sound. fp_kept.
Qed.

Lemma ScrollTimer_sound : sound (D := D) ScrollTimer.
Proof.
  unfold ScrollTimer. apply sound_bind; [sound|]. intros []; [apply scroll_init_sound| |
    apply scroll_text_sound| |sound]; apply count_delay_sound.
Qed.

(** ** Timers *)

Lemma icon_mask_u8 : Forall is_u8 IconMask /\ length IconMask = 48%nat.
Proof. split; [|done]. repeat (apply Forall_cons_2; [by unfold is_u8|]). constructor. Qed.

Lemma refresh_icons_sound n : forall i, 0 <= i -> i + Z.of_nat n <= 48 -> sound (D := D) (refresh_icons n i).
Proof.
  induction n as [|n IH]; intros i Hi Hn; cbn [refresh_icons]; [sound|].
  apply (sound_read _ (fun k => 0 <= k < 4)); [by intros s []|intros k Hk].
  apply (sound_read _ (fun v => length v = 48%nat /\ Forall (bytes 4) v));
    [by intros s []|intros v [Hv Hf]].
  apply (sound_lift _ (bytes 4)).
  { destruct (aget_in v i) as [r Hr]; [lia|]. exists r. split; [done|by eapply aget_Forall]. }
  intros r Hr. apply (sound_lift _ is_u8); [by apply (bytes_in 4)|intros b Hb].
  apply (sound_lift _ (fun _ => True));
    [destruct (aget_in IconMask i) as [m Hm]; [rewrite (proj2 icon_mask_u8); lia|eauto]|intros m _].
  sound. apply IH; lia.
Qed.

Lemma FP_Timer_sound : sound (D := D) FP_Timer.
Proof.
  unfold FP_Timer. apply sound_bind; [apply refresh_icons_sound; lia|intros _]. sound.
  fp_kept. apply (land_mask _ 2). lia.
Qed.

Lemma HighRes_FP_Timer_sound : sound (D := D) HighRes_FP_Timer.
Proof.
  unfold HighRes_FP_Timer. apply sound_bind; [apply ScrollTimer_sound|intros _].
  apply sound_bind; [apply SpinnerTimer_sound|intros _].
  apply sound_bind; [sound|intros c]. apply sound_if; [|sound; fp_kept].
  apply sound_bind; [apply FP_Timer_sound|intros _]. sound. fp_kept.
Qed.
End operations.
