(* ===== verification/TffpTypes.v ===== *)
(** * Topfield front panel: every operation keeps the types

    Part two of [TffpInv]: the operations that can fault, all of the driver's
    entry points, and any interleaving of them. *)
From S2P Require Import Prelude TffpState TffpDisplay TffpTime TffpInput TffpDev TffpFrame TffpInv.

#[local] Arguments replicate : simpl never.

(** The EEPROM delivers bytes. *)
Class FpHwOk (D : Type) `{FpHw D} := {
  i2c_bytes : forall off n d l d', i2c_get off n d = (Some l, d') -> Forall is_u8 l
}.

Lemma byte_at_u8 l i : Forall is_u8 l -> is_u8 (byte_at l i).
Proof.
  intros Hl. unfold byte_at. destruct (nth_in_or_default i l 0) as [Hin|E]; [|rewrite E; unfold is_u8; lia].
  rewrite Forall_forall in Hl. by apply Hl.
Qed.
Lemma copy_from_user_bytes old a :
  Forall is_u8 old -> Forall is_u8 (u_mem a) -> bytes (length old) (copy_from_user old a).
Proof.
  intros Ho Ha. unfold copy_from_user. split.
  - rewrite length_app, length_drop. pose proof (length_take (u_mem a) (length old)). lia.
  - apply Forall_app. split; [by apply Forall_take|by apply Forall_drop].
Qed.

Section keeps.
Context {D : Type} `{HD : FpHw D} `{HK : !FpKernel} `{HO : !FpKernelOk} `{HB : !FpHwOk D}.
#[local] Notation "'kept' m" := (keeps (@fp_kept D) m) (at level 10, m at level 9).

Lemma keeps_read {A B} (f : tffp D -> A) (P : A -> Prop) (k : A -> M (tffp D) B) :
  (forall s, fp_ok s -> P (f s)) -> (forall a, P a -> kept (k a)) -> kept (gets f ≫= k).
Proof. intros Hf Hk s b s' E Hs. by apply (Hk _ (Hf s Hs) s b s'). Qed.
Lemma keeps_lifted {A B} (r : res A) (P : A -> Prop) (k : A -> M (tffp D) B) :
  (forall a, r = Ok a -> P a) -> (forall a, P a -> kept (k a)) -> kept (lift r ≫= k).
Proof. intros Hr Hk s b s' (a & s1 & (a' & E & [= -> ->])%lift_Ok & E2)%M_bind_Ok. by apply (Hk _ (Hr _ E) s b). Qed.

#[local] Hint Extern 3 (keeps (@fp_kept _) _) => apply sound_keeps; solve [eauto with sound] : keeps.
#[local] Hint Resolve inl_sound outl_sound do_sound call_sound VFDSendToDisplay_sound
  VFDClearBuffer_sound VFDInit_sound VFDSetIcons_sound icon_switch_sound clear_icons_sound
  CD_icons_onoff_sound HighRes_FP_Timer_sound : sound.
#[local] Hint Extern 2 (sound (SendFPData _)) => apply SendFPData_sound; simpl; lia : sound.
#[local] Hint Extern 2 (sound (SetIconBits _ _ _)) => apply SetIconBits_sound; lia : sound.

(** ** Sending arrays of any contents *)

Lemma SendFPString_kept l : kept (SendFPString l).
Proof.
  unfold SendFPString. assert (Hb : forall b, kept (SendFPByte b)).
  { intros b. apply ends_keeps, (ends_SendFPByte _ kept_fp_io). }
  keeps. generalize (Z.to_nat (a0 .& 0x0f)) 1. intros n. induction n; intros i; simpl; keeps.
Qed.
#[local] Hint Resolve SendFPString_kept : keeps.
Lemma SendFPData_kept l : kept (SendFPData l).
Proof. unfold SendFPData. keeps. Qed.
#[local] Hint Resolve SendFPData_kept : keeps.

(** ** Keys *)

Lemma ring_index x : 0 <= x .& 0xff < 256.
Proof. apply (land_mask x 8). lia. Qed.

Lemma AddKeyBuffer_sound Key : is_u8 Key -> sound (D := D) (AddKeyBuffer Key).
Proof.
  intros HKey. unfold AddKeyBuffer.
  apply (sound_read _ (fun st => 0 <= st < 256)); [by intros s []|intros st Hst].
  apply sound_bind; [sound|intros e]. apply sound_when.
  apply (sound_read _ (bytes 256)); [by intros s []|intros b Hb].
  apply (sound_lift _ (bytes 256)); [by apply bytes_set|intros b' Hb'].
  sound. fp_kept. apply ring_index.
Qed.
Lemma ufs_map_u8 : Forall is_u8 ufs910map.
Proof.
  unfold ufs910map. apply Forall_app. split; [|apply Forall_replicate; by unfold is_u8].
  repeat (apply Forall_cons_2; [by unfold is_u8|]). constructor.
Qed.
Lemma AddKeyToBuffer_sound Key fp : is_u8 Key -> sound (D := D) (AddKeyToBuffer Key fp).
Proof.
  intros HKey. unfold AddKeyToBuffer. apply sound_bind; [sound|intros mode].
  apply sound_if.
  { apply sound_bind; [apply AddKeyBuffer_sound; by destruct fp|intros _]. by apply AddKeyBuffer_sound. }
  apply sound_if; [|sound].
  apply (sound_lift _ is_u8).
  { destruct (aget_in ufs910map Key) as [k Hk]; [unfold is_u8 in HKey; simpl; lia|].
    exists k. split; [done|exact (aget_Forall _ _ _ _ ufs_map_u8 Hk)]. }
  intros k Hk. sound. by apply AddKeyBuffer_sound.
Qed.
Lemma key_burst_sound cmd Key : is_u8 Key -> sound (D := D) (key_burst cmd Key).
Proof.
  intros HKey. unfold key_burst. apply sound_bind; [sound|intros mode].
  apply sound_if; [by apply AddKeyToBuffer_sound|]. apply sound_if.
  - apply sound_bind; [by apply AddKeyToBuffer_sound|intros _]. sound. fp_kept.
  - apply (sound_read _ is_u8); [by intros s []|intros d Hd].
    destruct (Z.eqb_spec d 0); [|sound; fp_kept].
    apply (sound_read _ is_u8); [by intros s []|intros r Hr].
    destruct (Z.eqb_spec r 0); [|sound; fp_kept].
    apply sound_bind; [apply AddKeyToBuffer_sound, is_u8_land; by unfold is_u8|intros _].
    sound. fp_kept.
Qed.

Lemma on_shutdown_sound : sound (D := D) on_shutdown.
Proof.
  unfold on_shutdown. assert (Hk : sound (D := D) (AddKeyBuffer 0x0c)) by (apply AddKeyBuffer_sound; by unfold is_u8).
  assert (Hf : sound (D := D) (AddKeyBuffer FPKEYPRESSFP)) by (apply AddKeyBuffer_sound; by unfold is_u8).
  apply sound_bind; [sound|intros mode]. apply sound_if; [sound|].
  apply (sound_read _ is_u8); [by intros s []|intros r Hr].
  destruct (Z.ltb_spec r 1); sound; fp_kept.
Qed.
#[local] Hint Resolve on_shutdown_sound : sound.

(** ** Received messages *)

Lemma GetBufferByte_kept {B} Offset (k : Z -> M (tffp D) B) :
  (forall b, is_u8 b -> kept (k b)) -> kept (GetBufferByte Offset ≫= k).
Proof.
  intros Hk s b s' E. unfold GetBufferByte in E. rewrite M_bind_assoc in E. revert E.
  apply (keeps_read _ (bytes 256)); [by intros ? []|intros l Hl].
  intros s1 b1 s1' E. rewrite M_bind_assoc in E. revert s1 b1 s1' E.
  apply (keeps_read _ (fun _ => True)); [done|intros e _].
  apply (keeps_lifted _ is_u8); [intros c E; by eapply bytes_aget|done].
Qed.

Lemma InterpretDateTime_kept : kept InterpretDateTime.
Proof.
  unfold InterpretDateTime. do 2 (apply GetBufferByte_kept; intros). cbv zeta.
  apply GetBufferByte_kept; intros. apply (keeps_lifted _ (fun _ => True)); [done|intros].
  do 2 (apply GetBufferByte_kept; intros). keeps. fp_kept.
Qed.

Lemma FPCommandInterpreter_kept : kept FPCommandInterpreter.
Proof.
  unfold FPCommandInterpreter. apply GetBufferByte_kept. intros cmd _.
  apply keeps_if; [keeps|]. apply keeps_if; [apply InterpretDateTime_kept|].
  apply keeps_if.
  { unfold InterpretBootReason. apply GetBufferByte_kept. intros r Hr. keeps. fp_kept. }
  apply keeps_if; [|keeps]. apply keeps_bind; [apply _|keeps|intros r].
  apply keeps_bind; [apply _|keeps; fp_kept|intros _].
  apply keeps_bind; [apply _|keeps|intros _].
  apply keeps_bind; [apply _| |intros; keeps]. unfold InterpretKeyPresses.
  apply GetBufferByte_kept. intros Key HKey. apply GetBufferByte_kept. intros c _. by apply sound_keeps, key_burst_sound.
Qed.

Lemma find_sot_range n : forall i st b r,
  0 <= i < 256 -> find_sot n i st b = Ok r -> 0 <= r < 256.
Proof.
  induction n as [|n IH]; intros i st b r Hi; cbn [find_sot]; [done|].
  destruct (i =? st); [by intros [= <-]|]. intros (c & _ & E)%res_bind_Ok.
  destruct (c =? 2); [by injection E as <-|]. eapply IH; [|done]. apply ring_index.
Qed.

Lemma task_round_kept : kept task_round.
Proof.
  unfold task_round. apply keeps_bind; [apply _|keeps|intros st].
  apply (keeps_read _ (fun e => 0 <= e < 256)); [by intros s []|intros e He].
  apply keeps_bind; [apply _|keeps|intros b].
  apply (keeps_lifted _ (fun i => 0 <= i < 256)); [intros i E; by eapply find_sot_range|intros i Hi].
  apply keeps_bind; [apply _|keeps; fp_kept|intros _]. cbv zeta.
  apply keeps_if; [keeps|]. apply keeps_if; [|keeps]. apply GetBufferByte_kept. intros c _.
  apply keeps_if; [|keeps]. apply keeps_bind; [apply _|apply FPCommandInterpreter_kept|intros _].
  keeps. fp_kept. apply ring_index.
Qed.
#[local] Hint Resolve task_round_kept : keeps.

Lemma fpTask_kept : kept fpTask.
Proof.
  unfold fpTask. keeps; [fp_kept|]. generalize 87%nat. intros n. induction n; simpl; keeps.
Qed.

Lemma rx_byte_kept : kept rx_byte.
Proof.
  unfold rx_byte. apply keeps_bind; [apply _|keeps|intros v]. cbv zeta.
  apply keeps_bind; [apply _|keeps|intros st].
  apply (keeps_read _ (bytes 256)); [by intros s []|intros b Hb].
  apply (keeps_lifted _ (bytes 256)); [intros b' E; eapply bytes_aset; [done| |done]; auto with drv|intros b' Hb'].
  keeps; fp_kept. unfold BUFFERSIZE. apply Z.mod_pos_bound. lia.
Qed.
#[local] Hint Resolve rx_byte_kept : keeps.
Lemma rx_drain_kept fuel : kept (rx_drain fuel).
Proof. induction fuel; simpl; keeps. Qed.
#[local] Hint Resolve rx_drain_kept : keeps.
Lemma FP_interrupt_kept fuel : kept (FP_interrupt fuel).
Proof. unfold FP_interrupt. keeps. fp_kept. Qed.
#[local] Hint Resolve FP_interrupt_kept fpTask_kept : keeps.

(** ** Text from callers *)

Lemma aset_u8 l i v l' : Forall is_u8 l -> is_u8 v -> aset l i v = Ok l' -> Forall is_u8 l'.
Proof. intros Hl Hv [_ ->]%aset_Ok. by apply Forall_insert. Qed.

Lemma star_u8 : is_u8 0x2a.
Proof. unfold is_u8. lia. Qed.
Lemma latin_u8 a b : is_u8 (((a .& 0x03) ≪ 6) .| (b .& 0x3f)).
Proof.
  apply is_u8_lor; [|apply is_u8_land; unfold is_u8; lia].
  rewrite Z.shiftl_mul_pow2 by lia. pose proof (land_mask a 2 ltac:(lia)) as Hm.
  change (Z.ones 2) with 3 in Hm. unfold is_u8. lia.
Qed.

Lemma utf_char_u8 a src dst a' src' :
  Forall is_u8 a -> utf_char a src dst = Ok (a', src') -> Forall is_u8 a'.
Proof.
  intros Ha. unfold utf_char, utf_invalid. intros (c & Hc & E)%res_bind_Ok.
  apply (aget_Forall _ _ _ _ Ha) in Hc. destruct (0xbf <? c).
  - destruct (0xc3 <? c).
    + apply res_bind_Ok in E as (a1 & E1 & E). apply aset_u8 in E1; [|done|apply star_u8].
      apply res_bind_Ok in E as (c1 & _ & E). repeat case_match; minv; done.
    + apply res_bind_Ok in E as (c2 & _ & E). apply res_bind_Ok in E as (a1 & E1 & E).
      apply aset_u8 in E1; [|done|apply latin_u8]. by minv.
  - apply res_bind_Ok in E as (a1 & E1 & E). apply aset_u8 in E1; [|done..]. by minv.
Qed.

Lemma utf_loop_u8 fuel : forall a src dst a' d,
  Forall is_u8 a -> utf_loop fuel a src dst = Ok (a', d) -> Forall is_u8 a'.
Proof.
  induction fuel as [|fuel IH]; intros a src dst a' d Ha; cbn [utf_loop]; [done|].
  intros (c & _ & E)%res_bind_Ok. destruct (c =? 0); [by injection E as <- <-|].
  apply res_bind_Ok in E as ([a1 src1] & E1 & E). apply utf_char_u8 in E1; [|done].
  apply res_bind_Ok in E as (c1 & _ & E). destruct (c1 =? 0); by eapply IH; [|done].
Qed.

Lemma translate_u8 l l' : Forall is_u8 l -> TranslateUTFString l = Ok l' -> Forall is_u8 l'.
Proof.
  intros Hl. unfold TranslateUTFString. intros (c & _ & E)%res_bind_Ok.
  destruct (c =? 0); [by injection E as <-|].
  apply res_bind_Ok in E as ([a d] & E1 & E). apply utf_loop_u8 in E1; [|done].
  eapply aset_u8; [done| |done]. unfold is_u8. lia.
Qed.

Lemma ShowText_kept l : Forall is_u8 l -> kept (ShowText l).
Proof.
  intros Hl. unfold ShowText.
  apply (keeps_lifted _ (bytes 39)); [intros m E; by eapply strncpy_bytes|intros m [Hm Hf]]. cbv zeta.
  assert (Ht : text (m ++ [0])).
  { split; [split|]; [by rewrite length_app, Hm|by apply Forall_app; split; [|repeat constructor]|].
    by rewrite lookup_app_r, Hm by lia. }
  apply (keeps_lifted _ (fun n => 0 <= n <= 39)).
  { intros n E. apply strlen_bound in E. rewrite length_app, Hm in E. simpl in E. lia. }
  intros n Hn. apply (keeps_lifted _ text).
  - intros m' E. destruct (Z.ltb_spec 0 n) as [Hp|]; [|by injection E as <-].
    apply res_bind_Ok in E as (i & Ei & E).
    assert (Hi : (i <= Z.to_nat (n - 1))%nat).
    { clear -Ei. revert i Ei. induction (Z.to_nat (n - 1)) as [|k IH]; intros i; cbn [trim].
      - by intros [= <-].
      - intros (c & _ & E)%res_bind_Ok. destruct (c =? 0x20); [apply IH in E; lia|by injection E as <-]. }
    destruct (decide (Z.of_nat i + 1 = 39)) as [Ei'|].
    + by eapply text_end; [apply Ht| |exact Ei'|].
    + eapply text_aset; [done| | |done]; [unfold is_u8; lia|lia].
  - intros m' Hm'. keeps. fp_kept.
Qed.

Variable delay : M (tffp D) unit.
Hypothesis delay_kept : kept delay.

(** ** Time *)

Lemma VFDSetTime_kept t : kept (VFDSetTime t).
Proof. unfold VFDSetTime. keeps. Qed.
Lemma VFDSetTimer_kept t : kept (VFDSetTimer t).
Proof. unfold VFDSetTimer. keeps. Qed.
Lemma VFDReqDateTime_kept : kept (VFDReqDateTime delay).
Proof. unfold VFDReqDateTime. keeps. fp_kept. Qed.
#[local] Hint Resolve VFDSetTime_kept VFDSetTimer_kept VFDReqDateTime_kept : keeps.
Lemma vfdSetGmtWakeupTime_kept t : kept (vfdSetGmtWakeupTime t).
Proof. unfold vfdSetGmtWakeupTime, gmt_offset. keeps. fp_kept. Qed.
Lemma vfdSetGmtTime_kept t : kept (vfdSetGmtTime t).
Proof. unfold vfdSetGmtTime, gmt_offset. keeps. Qed.
Lemma vfdSetLocalTime_kept t : kept (vfdSetLocalTime t).
Proof. unfold vfdSetLocalTime. keeps. Qed.
Lemma vfdGetGmtTime_kept : kept (vfdGetGmtTime delay).
Proof. unfold vfdGetGmtTime, gmt_offset. keeps. Qed.
Lemma vfdGetLocalTime_kept : kept (vfdGetLocalTime delay).
Proof. unfold vfdGetLocalTime. keeps. Qed.
Lemma VFDClearTimers_kept : kept VFDClearTimers.
Proof. unfold VFDClearTimers. keeps. Qed.
#[local] Hint Resolve vfdSetGmtWakeupTime_kept vfdSetGmtTime_kept vfdSetLocalTime_kept
  vfdGetGmtTime_kept vfdGetLocalTime_kept VFDClearTimers_kept : keeps.

Lemma rtc_read_time_kept : kept (tffp_rtc_read_time delay).
Proof. unfold tffp_rtc_read_time. keeps. Qed.
Lemma rtc_set_time_kept tm : kept (tffp_rtc_set_time tm).
Proof. unfold tffp_rtc_set_time. keeps. Qed.
Lemma rtc_set_alarm_kept e tm : kept (tffp_rtc_set_alarm e tm).
Proof. unfold tffp_rtc_set_alarm. keeps. Qed.

(** ** Configuration *)

Lemma writeEepromData_kept off len l : kept (writeEepromData off len l).
Proof.
  assert (Hb : forall n msg, kept (write_burst n msg)).
  { intros n msg. induction n; simpl; keeps. }
  unfold writeEepromData. keeps.
  generalize 33%nat, 0. intros n. revert a. induction n as [|n IH]; intros buf i; cbn [write_bursts]; keeps.
Qed.
#[local] Hint Resolve writeEepromData_kept : keeps.

Definition config_keeps (f : tTffpConfig -> tTffpConfig) : Prop := forall c, config_ok c -> config_ok (f c).
Lemma config_update f : config_keeps f -> forall s : tffp D, fp_kept s (s <| tffpConfig := f (tffpConfig s) |>).
Proof. intros Hf s. fp_kept. Qed.

Lemma writeTffpConfig_kept : kept writeTffpConfig.
Proof. unfold writeTffpConfig. keeps. fp_kept. by match goal with H : config_ok _ |- _ => destruct H end. Qed.
#[local] Hint Resolve writeTffpConfig_kept : keeps.

Lemma config_of_bytes_ok l : Forall is_u8 l -> config_ok (config_of_bytes l).
Proof.
  intros Hl. constructor; simpl; try by apply byte_at_u8.
  - apply (land_mask _ 3). lia.
  - unfold s16, u16. pose proof (Z.mod_pos_bound (nth 9 l 0 .| (nth 10 l 0 ≪ 8)) (2 ^ 16) ltac:(lia)).
    destruct (Z.ltb_spec ((nth 9 l 0 .| (nth 10 l 0 ≪ 8)) mod 2 ^ 16) (2 ^ 15)); lia.
Qed.
Lemma default_config_ok : config_ok defaultConfig.
Proof. constructor; simpl; unfold is_u8; lia. Qed.

Lemma readTffpConfig_kept : kept readTffpConfig.
Proof.
  intros s r s' E Hs. unfold readTffpConfig, readEepromData in E.
  apply M_bind_Ok in E as (d & s1 & E1 & E). unfold fp_call in E1.
  destruct (i2c_get _ _ _) as [d1 io] eqn:Ed. injection E1 as -> <-.
  assert (H1 : fp_ok (s <| fp_io := io |>)) by by apply kept_fp_io.
  assert (Hd : forall c, config_ok c -> fp_ok ((s <| fp_io := io |>) <| tffpConfig := c |>)).
  { intros c Hc. apply (config_update (fun _ => c)); [by intros ? _|done]. }
  destruct d as [l|]; [|minv; by apply (Hd defaultConfig), default_config_ok].
  apply i2c_bytes in Ed. destruct (_ || _); minv; (apply (Hd defaultConfig), default_config_ok ||
    by apply (Hd (config_of_bytes l)), config_of_bytes_ok).
Qed.
#[local] Hint Resolve readTffpConfig_kept : keeps.

Lemma save_config_kept same f : config_keeps f -> kept (save_config same f).
Proof. intros Hf. unfold save_config. keeps. by apply config_update. Qed.
Lemma save_field_kept get v f : config_keeps f -> kept (save_field get v f).
Proof. intros Hf. unfold save_field. keeps. by apply save_config_kept. Qed.

Lemma VFDBrightness_kept b : kept (VFDBrightness b).
Proof. unfold VFDBrightness. keeps. Qed.
Lemma VFDSetIRMode_kept Mode OnOff : kept (VFDSetIRMode Mode OnOff).
Proof.
  unfold VFDSetIRMode. apply keeps_when; [apply _|].
  apply (keeps_read _ (bytes 24)); [by intros s []|intros d Hd].
  apply (keeps_lifted _ (fun _ => True)); [done|intros b1 _].
  apply (keeps_lifted _ (bytes 24)); [intros d' E; eapply bytes_aset; [exact Hd|apply is_u8_u8|exact E]|intros d' Hd'].
  do 4 (apply (keeps_lifted _ (fun _ => True)); [done|intros ? _]).
  apply (keeps_lifted _ (bytes 24)); [intros e E; eapply bytes_aset; [exact Hd'|apply is_u8_mod|exact E]|intros e He].
  keeps. fp_kept.
Qed.
#[local] Hint Resolve VFDBrightness_kept VFDSetIRMode_kept : keeps.

(** ** Commands *)

Definition arg_ok (a : uarg) : Prop := Forall is_u8 (u_mem a).

Lemma user_byte_u8 a : arg_ok a -> is_u8 (user_byte a).
Proof.
  intros Ha. apply byte_at_u8. destruct (copy_from_user_bytes (stack_junk 1) a) as [_ Hf];
    [apply junk_u8|done|done].
Qed.
Lemma copied_u8 n a i : arg_ok a -> is_u8 (byte_at (copy_from_user (stack_junk n) a) i).
Proof.
  intros Ha. apply byte_at_u8. destruct (copy_from_user_bytes (stack_junk n) a) as [_ Hf];
    [apply junk_u8|done|done].
Qed.

Lemma spinner_off_kept : kept spinner_off.
Proof. unfold spinner_off. keeps. fp_kept. Qed.
#[local] Hint Resolve spinner_off_kept : keeps.

Lemma vfd_display_chars_kept a : arg_ok a -> kept (vfd_display_chars a).
Proof.
  intros Ha. unfold vfd_display_chars, fp_returns. cbv zeta.
  assert (Hd : Forall is_u8 (copy_from_user (stack_junk 66) a)).
  { apply copy_from_user_bytes; [apply junk_u8|done]. }
  apply (keeps_lifted _ (Forall is_u8)).
  { intros d E. eapply aset_u8; [|apply (is_u8_u8 0)|exact E]. by apply Forall_take, Forall_drop. }
  intros d Hd'. apply (keeps_lifted _ (Forall is_u8)); [intros d' E; by eapply translate_u8|intros d2 Hd2].
  apply keeps_bind; [apply _|by apply ShowText_kept|intros; keeps].
Qed.

Lemma set_brightness_ok v : config_keeps (fun c => c <| brightness := v mod 8 |>).
Proof. intros c []. constructor; simpl; try done. apply Z.mod_pos_bound. lia. Qed.

Lemma vfd_brightness_kept d : kept (vfd_brightness d).
Proof.
  unfold vfd_brightness, fp_returns. cbv zeta. set (l := s32 (le32 d 0)).
  set (level := if l <? 0 then 0 else if 5 <? l then 5 else l).
  assert (Hl : 0 <= level <= 5).
  { unfold level. destruct (Z.ltb_spec l 0); [lia|]. destruct (Z.ltb_spec 5 l); lia. }
  keeps; [|fp_kept]. apply save_field_kept. intros c []. constructor; simpl; try done. lia.
Qed.

Lemma vfd_ioctl_kept cmd a : arg_ok a -> kept (vfd_ioctl delay cmd a).
Proof.
  intros Ha. unfold vfd_ioctl, vfd_icon, vfd_onoff, VFDReboot, VFDShutdown, fp_returns. cbv zeta.
  keeps; try (by apply vfd_display_chars_kept); try apply vfd_brightness_kept.
Qed.

Lemma set_ir_filter_kept get put Mode a :
  (forall v, config_keeps (put v)) -> kept (set_ir_filter get put Mode a).
Proof. intros Hp. unfold set_ir_filter. keeps. by apply save_field_kept. Qed.

Lemma set_gmt_offset_kept arg : kept (set_gmt_offset delay arg).
Proof.
  unfold set_gmt_offset, gmt_offset. keeps. fp_kept.
  match goal with Hc : config_ok _ |- _ => destruct Hc end. constructor; simpl; try done. unfold s16, u16.
  pose proof (Z.mod_pos_bound arg (2 ^ 16) ltac:(lia)). destruct (Z.ltb_spec (arg mod 2 ^ 16) (2 ^ 15)); lia.
Qed.

Lemma at_least_1_u8 x : is_u8 x -> is_u8 (at_least_1 x).
Proof. unfold at_least_1, is_u8. destruct (x =? 0); lia. Qed.

Lemma set_scroll_mode_kept a : arg_ok a -> kept (set_scroll_mode a).
Proof.
  intros Ha. unfold set_scroll_mode. cbv zeta.
  apply (keeps_read _ scroll_ok); [by intros s []|intros m (H1 & H2 & H3)].
  set (d := copy_from_user _ a).
  assert (Hd : Forall is_u8 d) by (apply copy_from_user_bytes; [repeat constructor; apply H1 || apply H2 || apply H3|done]).
  pose proof (byte_at_u8 d 0 Hd). pose proof (at_least_1_u8 _ (byte_at_u8 d 1 Hd)).
  pose proof (at_least_1_u8 _ (byte_at_u8 d 2 Hd)).
  keeps; [fp_kept; by split_and!| |fp_kept].
  apply save_config_kept. intros c []. by constructor.
Qed.

Lemma set_keyemulation_kept v : kept (set_keyemulation v).
Proof. unfold set_keyemulation. keeps. fp_kept. Qed.
Lemma copy_fptime_kept a : kept (copy_fptime a).
Proof. unfold copy_fptime. keeps. fp_kept. Qed.
#[local] Hint Resolve set_gmt_offset_kept set_scroll_mode_kept set_keyemulation_kept copy_fptime_kept : keeps.

Lemma tffpctl_ioctl_kept nr a : arg_ok a -> kept (tffpctl_ioctl delay nr a).
Proof.
  intros Ha. pose proof (user_byte_u8 a Ha) as Hu.
  unfold tffpctl_ioctl, brightness_command, VFDShutdown, VFDReboot, gmt_offset, fp_returns. cbv zeta.
  keeps; try (apply set_ir_filter_kept; by intros v c []);
    try (apply save_field_kept; by intros c []); try apply save_field_kept, set_brightness_ok; fp_kept.
  all: destruct (truthy _); lia.
Qed.

Lemma ioctl_kept minor cmd a : arg_ok a -> kept (FrontPaneldev_ioctl delay minor cmd a).
Proof.
  intros Ha. unfold FrontPaneldev_ioctl, fp_returns. keeps; [fp_kept|by apply vfd_ioctl_kept|by apply tffpctl_ioctl_kept].
Qed.

(** ** Device and proc files *)

Lemma open_kept minor filp : kept (FrontPaneldev_open minor filp).
Proof.
  unfold FrontPaneldev_open. apply (keeps_read _ (fun l => length l = 4%nat)); [by intros s []|intros f Hf].
  apply (keeps_lifted _ (fun _ => True)); [done|intros old _]. apply keeps_if; [keeps|].
  apply (keeps_lifted _ (fun l => length l = 4%nat)); [intros l [_ ->]%aset_Ok; by rewrite length_insert|intros l Hl].
  keeps. fp_kept.
Qed.
Lemma close_kept minor : kept (FrontPaneldev_close minor).
Proof.
  unfold FrontPaneldev_close. apply (keeps_read _ (fun l => length l = 4%nat)); [by intros s []|intros f Hf].
  apply (keeps_lifted _ (fun _ => True)); [done|intros old _]. apply keeps_if; [keeps|].
  apply (keeps_lifted _ (fun l => length l = 4%nat)); [intros l [_ ->]%aset_Ok; by rewrite length_insert|intros l Hl].
  keeps. fp_kept.
Qed.

Lemma small_string_kept l : Forall is_u8 l -> kept (VFDSetDisplaySmallString l).
Proof.
  intros Hl. unfold VFDSetDisplaySmallString.
  apply (keeps_lifted _ (fun n => n <= Z.of_nat (length l))).
  { intros n E. apply strlen_bound in E. lia. }
  intros n Hn. apply keeps_bind; [apply _|apply sound_keeps, show_digits_sound; [done|lia|done]|intros _].
  keeps.
Qed.

Lemma write_kept filp user len allocated :
  Forall is_u8 user -> kept (FrontPaneldev_write filp user len allocated).
Proof.
  intros Hu. unfold FrontPaneldev_write, minor_of. apply keeps_bind; [apply _|keeps|intros i].
  destruct i as [i|]; [|keeps]. apply keeps_if; [keeps|]. cbv zeta.
  apply (keeps_lifted _ (Forall is_u8)).
  { intros l E. eapply aset_u8; [|apply (is_u8_u8 0)|exact E].
    apply copy_from_user_bytes; [apply junk_u8|done]. }
  intros l Hl. apply keeps_if; [keeps|]. apply keeps_if.
  - apply (keeps_lifted _ (Forall is_u8)); [intros t E; by eapply translate_u8|intros t Ht].
    apply keeps_bind; [apply _|by apply ShowText_kept|intros; keeps].
  - apply keeps_bind; [apply _|by apply small_string_kept|intros; keeps].
Qed.

Lemma next_key_kept : kept next_key.
Proof. unfold next_key. keeps. fp_kept. apply ring_index. Qed.
#[local] Hint Resolve next_key_kept : keeps.
Lemma read_kept filp interrupted : kept (FrontPaneldev_read delay filp interrupted).
Proof.
  unfold FrontPaneldev_read, minor_of, take_key, fp_returns. apply keeps_bind; [apply _|keeps|intros i].
  destruct i; keeps.
Qed.
Lemma poll_kept : kept FrontPaneldev_poll.
Proof. unfold FrontPaneldev_poll. keeps. Qed.

Lemma proc_page_kept allocated user k : (forall p, kept (k p)) -> kept (proc_page allocated user k).
Proof. intros Hk. unfold proc_page. keeps. destruct user; keeps. Qed.
Lemma proc_text_kept allocated user k : (forall p, kept (k p)) -> kept (proc_text allocated user k).
Proof. intros Hk. unfold proc_text. apply proc_page_kept. intros p. keeps. Qed.
Lemma proc_string_kept allocated user k : (forall p, kept (k p)) -> kept (proc_string allocated user k).
Proof. intros Hk. unfold proc_string. apply proc_page_kept. intros p. keeps. Qed.
Lemma symbol_circle_write_kept allocated user : kept (symbol_circle_write allocated user).
Proof. apply proc_string_kept. intros p. keeps; fp_kept. Qed.
Lemma symbol_timeshift_write_kept allocated user : kept (symbol_timeshift_write allocated user).
Proof. apply proc_string_kept. intros p. keeps; fp_kept. Qed.
Lemma led_pattern_write_kept allocated user : kept (led_pattern_write allocated user).
Proof. apply proc_text_kept. intros p. keeps. Qed.
Lemma wakeup_time_write_kept allocated user : kept (wakeup_time_write allocated user).
Proof. apply proc_text_kept. intros p. keeps. Qed.
Lemma rtc_write_kept allocated user : kept (rtc_write allocated user).
Proof. apply proc_text_kept. intros p. keeps. Qed.
Lemma rtc_read_kept : kept (rtc_read delay).
Proof. unfold rtc_read. keeps. Qed.

(** ** Module *)

Lemma init_panel_kept : kept (init_panel delay).
Proof. unfold init_panel, gmt_offset, VFDGetBootReason. keeps. Qed.
#[local] Hint Resolve init_panel_kept : keeps.

Lemma cleanup_kept : kept frontpanel_cleanup_module.
Proof. unfold frontpanel_cleanup_module. keeps. fp_kept. Qed.

Lemma init_kept : kept (frontpanel_init_module delay).
Proof.
  unfold frontpanel_init_module, frontpanel_init_func.
  do 3 (apply keeps_bind; [apply _|keeps|intros ?]).
  apply keeps_bind; [apply _|keeps|intros _]. apply keeps_bind; [apply _|keeps; fp_kept|intros _].
  apply keeps_bind; [apply _|keeps|intros _].
  apply keeps_bind; [apply _|keeps; fp_kept; unfold scroll_ok; simpl; unfold is_u8; lia|intros _].
  apply (keeps_read _ text); [by intros s []|intros m Hm].
  apply (keeps_lifted _ text); [intros m' E; eapply text_aset; [exact Hm|apply (is_u8_u8 0)| |exact E]; lia|intros m' Hm'].
  apply keeps_bind; [apply _|keeps; fp_kept|intros _]. apply keeps_bind; [apply _|keeps|intros _].
  apply (keeps_read _ config_ok); [by intros s []|intros c []].
  apply keeps_bind; [apply _|keeps; fp_kept; by split_and!|intros _].
  keeps; fp_kept.
Qed.
End keeps.

(** ** Any interleaving

    A function that waits lets the rest of the system run, which may wait in
    its turn. *)

Inductive fp_event (D : Type) :=
  | FpHardware (f : D -> D)
  | FpInterrupt (fuel : nat)
  | FpTask
  | FpTick
  | FpOpen (minor filp : Z)
  | FpClose (minor : Z)
  | FpWrite (filp : Z) (user : list Z) (len : Z) (allocated : bool)
  | FpRead (filp : Z) (interrupted : bool)
  | FpPoll
  | FpIoctl (minor cmd : Z) (a : uarg)
  | FpRtcRead
  | FpRtcSet (tm : rtc_time)
  | FpRtcAlarm (enabled : bool) (tm : rtc_time)
  | FpCircle (allocated : bool) (user : option (list Z))
  | FpTimeshift (allocated : bool) (user : option (list Z))
  | FpLed (allocated : bool) (user : option (list Z))
  | FpWakeup (allocated : bool) (user : option (list Z))
  | FpProcRtcWrite (allocated : bool) (user : option (list Z))
  | FpProcRtcRead
  | FpInit
  | FpCleanup.
Arguments FpHardware {D} _.
Arguments FpInterrupt {D} _.
Arguments FpTask {D}.
Arguments FpTick {D}.
Arguments FpOpen {D} _ _.
Arguments FpClose {D} _.
Arguments FpWrite {D} _ _ _ _.
Arguments FpRead {D} _ _.
Arguments FpPoll {D}.
Arguments FpIoctl {D} _ _ _.
Arguments FpRtcRead {D}.
Arguments FpRtcSet {D} _.
Arguments FpRtcAlarm {D} _ _.
Arguments FpCircle {D} _ _.
Arguments FpTimeshift {D} _ _.
Arguments FpLed {D} _ _.
Arguments FpWakeup {D} _ _.
Arguments FpProcRtcWrite {D} _ _.
Arguments FpProcRtcRead {D}.
Arguments FpInit {D}.
Arguments FpCleanup {D}.

(** What callers give are bytes. *)
Definition fp_event_fits {D} (e : fp_event D) : Prop :=
  match e with
  | FpWrite _ user _ _ => Forall is_u8 user
  | FpIoctl _ _ a => arg_ok a
  | _ => True
  end.

Section system.
Context {D : Type} `{HD : FpHw D} `{HK : !FpKernel}.

Definition fp_run (delay : M (tffp D) unit) (e : fp_event D) : M (tffp D) unit :=
  match e with
  | FpHardware f => fp_do f
  | FpInterrupt fuel => FP_interrupt fuel
  | FpTask => fpTask
  | FpTick => HighRes_FP_Timer
  | FpOpen minor filp => FrontPaneldev_open minor filp;; skip
  | FpClose minor => FrontPaneldev_close minor;; skip
  | FpWrite filp user len allocated => FrontPaneldev_write filp user len allocated;; skip
  | FpRead filp interrupted => FrontPaneldev_read delay filp interrupted;; skip
  | FpPoll => FrontPaneldev_poll;; skip
  | FpIoctl minor cmd a => FrontPaneldev_ioctl delay minor cmd a;; skip
  | FpRtcRead => tffp_rtc_read_time delay;; skip
  | FpRtcSet tm => tffp_rtc_set_time tm;; skip
  | FpRtcAlarm enabled tm => tffp_rtc_set_alarm enabled tm;; skip
  | FpCircle allocated user => symbol_circle_write allocated user;; skip
  | FpTimeshift allocated user => symbol_timeshift_write allocated user;; skip
  | FpLed allocated user => led_pattern_write allocated user;; skip
  | FpWakeup allocated user => wakeup_time_write allocated user;; skip
  | FpProcRtcWrite allocated user => rtc_write allocated user;; skip
  | FpProcRtcRead => rtc_read delay;; skip
  | FpInit => frontpanel_init_module delay;; skip
  | FpCleanup => frontpanel_cleanup_module
  end.

Fixpoint fp_runs (delay : M (tffp D) unit) (es : list (fp_event D)) : M (tffp D) unit :=
  match es with [] => skip | e :: es => fp_run delay e;; fp_runs delay es end.

(** What happens while a function waits, with [n] more waits inside. *)
Fixpoint fp_asleep (world : nat -> list (fp_event D)) (n : nat) : M (tffp D) unit :=
  match n with O => skip | S n => fp_runs (fp_asleep world n) (world n) end.

Inductive fp_step : relation (tffp D) :=
  | fp_step_event world n e s s' :
      (forall k, Forall fp_event_fits (world k)) -> fp_event_fits e ->
      fp_run (fp_asleep world n) e s = Ok (tt, s') -> fp_step s s'.

Context `{HO : !FpKernelOk} `{HB : !FpHwOk D}.

Lemma fp_run_kept delay e :
  keeps (@fp_kept D) delay -> fp_event_fits e -> keeps (@fp_kept D) (fp_run delay e).
Proof.
  intros Hd He. destruct e; simpl in *;
    try (apply keeps_bind; [apply _| |intros; apply keeps_skip; apply _]).
  all: auto using FP_interrupt_kept, fpTask_kept, open_kept, close_kept, write_kept, read_kept,
    poll_kept, ioctl_kept, rtc_read_time_kept, rtc_set_time_kept, rtc_set_alarm_kept,
    symbol_circle_write_kept, symbol_timeshift_write_kept, led_pattern_write_kept,
    wakeup_time_write_kept, rtc_write_kept, rtc_read_kept, init_kept, cleanup_kept.
  - apply sound_keeps, do_sound.
  - apply sound_keeps, HighRes_FP_Timer_sound.
Qed.

Lemma fp_runs_kept delay es :
  keeps (@fp_kept D) delay -> Forall fp_event_fits es -> keeps (@fp_kept D) (fp_runs delay es).
Proof.
  intros Hd. induction 1 as [|e es He _ IH]; simpl; [apply keeps_skip; apply _|].
  apply keeps_bind; [apply _|by apply fp_run_kept|done].
Qed.

Lemma fp_asleep_kept world n :
  (forall k, Forall fp_event_fits (world k)) -> keeps (@fp_kept D) (fp_asleep world n).
Proof.
  intros Hw. induction n as [|n IH]; simpl; [apply keeps_skip; apply _|by apply fp_runs_kept].
Qed.

Lemma fp_step_kept s s' : fp_step s s' -> fp_kept s s'.
Proof. intros [world n e s1 s2 Hw He E]. by apply (fp_run_kept _ _ (fp_asleep_kept world n Hw) He _ _ _ E). Qed.
End system.

(** C8. However the interrupts, the timer, the task, the callers of the device
    and proc files and the loading and unloading of the module follow each
    other, also while a function waits, every variable of the driver keeps its
    type: arrays their length, indices their range, texts their terminator,
    every buffer holds bytes. So the timer, which runs a hundred times a second
    in interrupt context, never faults on any hardware, whatever came before. *)
Theorem tffp_types {D} `{FpHw D} `{!FpKernel} `{!FpKernelOk} `{!FpHwOk D} (d : D) s :
  rtc fp_step (tffp_boot d) s ->
  fp_ok s /\ exists s', HighRes_FP_Timer s = Ok (tt, s') /\ fp_ok s'.
Proof.
  intros R. assert (G : fp_ok s).
  { assert (K : fp_kept (tffp_boot d) s); [|exact (K (boot_ok d))].
    induction R as [|s1 s2 s3 S1 _ IH]; [reflexivity|].
    transitivity s2; [by apply fp_step_kept|done]. }
  split; [done|]. apply (runs_value fp_ok). eapply runs_conseq; [by apply HighRes_FP_Timer_sound|].
  by intros [] s' Hs'.
Qed.

(** ** Example *)

#[export] Instance panel_ok : FpHwOk panel.
Proof.
  split. intros off n d l d'. simpl. unfold eeprom_get.
  destruct (p_busy d); [|done]. intros [= <- <-]. generalize (take (Z.to_nat n) (drop (Z.to_nat off) (p_eeprom d))).
  intros l'. induction l'; simpl; constructor; [apply is_u8_u8|done].
Qed.

(** The module is loaded; the panel's clock has no valid offset, so nothing
    waits. *)
Section example.
#[local] Existing Instance example_kernel.
#[local] Existing Instance example_kernel_ok.

Definition panel_loaded : tffp panel :=
  match fp_run skip FpInit (tffp_boot example_panel) with
  | Ok (_, s) => s
  | Fault _ => tffp_boot example_panel
  end.

Lemma panel_loaded_reached : fp_step (tffp_boot example_panel) panel_loaded.
Proof. apply (fp_step_event (fun _ => []) 0 FpInit); [by intros|done|vm_compute; reflexivity]. Qed.

Lemma panel_loaded_ok : fp_ok panel_loaded.
Proof. apply (fp_step_kept _ _ panel_loaded_reached), boot_ok. Qed.

Lemma tffp_types_witness :
  fp_ok panel_loaded /\ exists s', HighRes_FP_Timer panel_loaded = Ok (tt, s') /\ fp_ok s'.
Proof. apply (tffp_types example_panel), rtc_once, panel_loaded_reached. Defined.
End example.
