(* ===== verification/TffpCalendar.v ===== *)
(** * Topfield front panel: the calendar against the rule of the next day

    The reference knows the lengths of the months and how a date is followed by
    the next one; gmtime of [TffpTime] counts years and months instead. *)
From S2P Require Import Prelude TffpState TffpDisplay TffpTime.

(** ** The Gregorian calendar, day by day *)

Definition is_leap (y : Z) : bool :=
  if y mod 400 =? 0 then true else if y mod 100 =? 0 then false else y mod 4 =? 0.

Definition month_days (y m : Z) : Z :=
  if m =? 2 then (if is_leap y then 29 else 28)
  else if (m =? 4) || (m =? 6) || (m =? 9) || (m =? 11) then 30 else 31.

Record date := Date { d_year : Z; d_month : Z; d_day : Z }.

Definition next_day (d : date) : date :=
  let 'Date y m n := d in
  if n <? month_days y m then Date y m (n + 1)
  else if m <? 12 then Date y (m + 1) 1
  else Date (y + 1) 1 1.

(** The date [n] days after 1 January 1970. *)
Definition date_of (n : nat) : date := Nat.iter n next_day (Date 1970 1 1).

Definition valid_date (d : date) : Prop :=
  1970 <= d_year d /\ 1 <= d_month d <= 12 /\ 1 <= d_day d <= month_days (d_year d) (d_month d).

(** ** Counting years and months *)

Lemma leap_spec y : LEAPYEAR y = is_leap y.
Proof.
  unfold LEAPYEAR, is_leap.
  destruct (Z.eqb_spec (y mod 400) 0), (Z.eqb_spec (y mod 100) 0), (Z.eqb_spec (y mod 4) 0);
    simpl; try done; exfalso; Z.div_mod_to_equations; lia.
Qed.

Lemma month_days_range y m : 28 <= month_days y m <= 31.
Proof. unfold month_days. repeat case_match; lia. Qed.

Lemma valid_next d : valid_date d -> valid_date (next_day d).
Proof.
  destruct d as [y m n]. unfold valid_date, next_day. simpl. intros (Hy & Hm & Hn).
  pose proof (month_days_range y (m + 1)). pose proof (month_days_range (y + 1) 1).
  destruct (Z.ltb_spec n (month_days y m)); simpl; [lia|].
  destruct (Z.ltb_spec m 12); simpl; lia.
Qed.

Lemma date_of_valid n : valid_date (date_of n).
Proof.
  induction n; [by vm_compute; intuition discriminate|]. by apply valid_next.
Qed.

(** The days before month [m] of year [y]. *)
Fixpoint days_before (y : Z) (m : nat) : Z :=
  match m with O => 0 | S m => days_before y m + month_days y (Z.of_nat m + 1) end.

(** The number of a date: [n] is [Z.of_nat] of how many times the next day was
    taken to get there. *)
Fixpoint year_days (k : nat) : Z :=
  match k with O => 0 | S k => year_days k + YEARSIZE (1970 + Z.of_nat k) end.
Definition day_number (d : date) : Z :=
  year_days (Z.to_nat (d_year d - 1970)) + days_before (d_year d) (Z.to_nat (d_month d - 1))
  + (d_day d - 1).

Lemma year_is_months y : days_before y 12 = YEARSIZE y.
Proof. unfold YEARSIZE. rewrite leap_spec. unfold days_before, month_days. simpl. by destruct (is_leap y). Qed.

Lemma day_number_next d : valid_date d -> day_number (next_day d) = day_number d + 1.
Proof.
  destruct d as [y m n]. unfold valid_date, next_day, day_number. simpl. intros (Hy & Hm & Hn).
  destruct (Z.ltb_spec n (month_days y m)); simpl; [lia|].
  assert (n = month_days y m) as -> by lia.
  destruct (Z.ltb_spec m 12); simpl.
  - replace (Z.to_nat (m + 1 - 1)) with (S (Z.to_nat (m - 1))) by lia. simpl.
    replace (Z.of_nat (Z.to_nat (m - 1)) + 1) with m by lia. lia.
  - assert (m = 12) as -> by lia. replace (Z.to_nat (y + 1 - 1970)) with (S (Z.to_nat (y - 1970))) by lia.
    cbn [year_days]. replace (1970 + Z.of_nat (Z.to_nat (y - 1970))) with y by lia.
    pose proof (year_is_months y) as E. change (days_before y 12) with
      (days_before y (Z.to_nat (12 - 1)) + month_days y 12) in E. lia.
Qed.

Lemma day_number_date_of n : day_number (date_of n) = Z.of_nat n.
Proof.
  induction n as [|n IH]; [done|]. change (date_of (S n)) with (next_day (date_of n)).
  rewrite day_number_next by apply date_of_valid. lia.
Qed.

Lemma days_before_mono y m m' : (m <= m')%nat -> days_before y m <= days_before y m'.
Proof.
  induction 1; [lia|]. simpl. pose proof (month_days_range y (Z.of_nat m0 + 1)). lia.
Qed.

Lemma year_days_mono k k' : (k <= k')%nat -> year_days k <= year_days k'.
Proof.
  induction 1; [lia|]. simpl. unfold YEARSIZE. destruct (LEAPYEAR _); lia.
Qed.

Lemma day_in_year d : valid_date d ->
  year_days (Z.to_nat (d_year d - 1970)) <= day_number d < year_days (S (Z.to_nat (d_year d - 1970))).
Proof.
  destruct d as [y m n]. unfold valid_date, day_number. simpl. intros (Hy & Hm & Hn).
  replace (1970 + Z.of_nat (Z.to_nat (y - 1970))) with y by lia. rewrite <- year_is_months.
  pose proof (days_before_mono y 0 (Z.to_nat (m - 1)) ltac:(lia)).
  pose proof (days_before_mono y (S (Z.to_nat (m - 1))) 12 ltac:(lia)) as Hm'.
  cbn [days_before] in *. replace (Z.of_nat (Z.to_nat (m - 1)) + 1) with m in Hm' by lia. lia.
Qed.

(** ** gmtime *)

(** From year [y] the loop stops in the year the day falls into. *)
Lemma find_year_run fuel : forall k k' n,
  (k <= k')%nat -> (k' - k < fuel)%nat -> year_days k' <= n < year_days (S k') ->
  find_year fuel (n - year_days k) (1970 + Z.of_nat k) = Ok (n - year_days k', 1970 + Z.of_nat k').
Proof.
  induction fuel as [|fuel IH]; intros k k' n Hk Hf Hn; [lia|]. cbn [find_year].
  destruct (decide (k = k')) as [->|Hne].
  - cbn [year_days] in Hn. rewrite (proj2 (Z.leb_gt _ _)) by lia. done.
  - pose proof (year_days_mono (S k) k' ltac:(lia)) as Hm. cbn [year_days] in Hm.
    rewrite (proj2 (Z.leb_le _ _)) by lia. rewrite <- (IH (S k)) by lia.
    f_equal; [cbn [year_days]; lia|lia].
Qed.

Lemma ytab_get y m : (m < 12)%nat ->
  exists tab, aget _ytab (if LEAPYEAR y then 1 else 0) = Ok tab /\
    aget tab (Z.of_nat m) = Ok (month_days y (Z.of_nat m + 1)).
Proof.
  intros Hm. rewrite leap_spec. unfold month_days.
  do 12 (destruct m as [|m]; [destruct (is_leap y); by eexists|]). lia.
Qed.

Lemma find_month_run fuel : forall m m' y n,
  (m <= m')%nat -> (m' < 12)%nat -> (m' - m < fuel)%nat ->
  days_before y m' <= n < days_before y (S m') ->
  find_month fuel (n - days_before y m) y (Z.of_nat m) = Ok (n - days_before y m', Z.of_nat m').
Proof.
  induction fuel as [|fuel IH]; intros m m' y n Hm Hm' Hf Hn; [lia|]. cbn [find_month].
  destruct (ytab_get y m) as (tab & E1 & E2); [lia|].
  apply (res_bind_Ok _ _ _). exists tab. split; [done|].
  apply (res_bind_Ok _ _ _). exists (month_days y (Z.of_nat m + 1)). split; [done|].
  destruct (decide (m = m')) as [->|Hne].
  - cbn [days_before] in Hn. by rewrite (proj2 (Z.leb_gt _ _)) by lia.
  - pose proof (days_before_mono y (S m) m' ltac:(lia)) as Hmm. cbn [days_before] in Hmm.
    rewrite (proj2 (Z.leb_le _ _)) by lia. rewrite <- (IH (S m)) by lia.
    f_equal; [cbn [days_before]; lia|lia].
Qed.

Lemma years_enough : year_days 137 > 49710.
Proof. reflexivity. Qed.

(** The date of a day before 2107. *)
Lemma find_date n : Z.of_nat n <= 49710 ->
  exists rest, find_year 138 (Z.of_nat n) 1970 = Ok (rest, d_year (date_of n)) /\
    find_month 13 rest (d_year (date_of n)) 0
      = Ok (d_day (date_of n) - 1, d_month (date_of n) - 1) /\
    1970 <= d_year (date_of n) <= 2106.
Proof.
  intros Hn. pose proof (date_of_valid n) as Hv. pose proof (day_number_date_of n) as En.
  pose proof (day_in_year _ Hv) as Hy. rewrite En in Hy.
  destruct (date_of n) as [y m d]. unfold valid_date in Hv. cbn [d_year d_month d_day] in *.
  assert (Hk : (Z.to_nat (y - 1970) < 137)%nat).
  { destruct (decide (137 <= Z.to_nat (y - 1970))%nat) as [Hge|]; [|lia].
    pose proof (year_days_mono _ _ Hge). pose proof years_enough. lia. }
  exists (Z.of_nat n - year_days (Z.to_nat (y - 1970))). split_and!; [| |lia|lia].
  - pose proof (find_year_run 138 0 (Z.to_nat (y - 1970)) (Z.of_nat n) ltac:(lia) ltac:(lia) Hy) as E.
    cbn [year_days] in E. rewrite Z.sub_0_r in E.
    replace (1970 + Z.of_nat (Z.to_nat (y - 1970))) with y in E by lia. exact E.
  - unfold day_number in En. cbn [d_year d_month d_day] in En.
    pose proof (find_month_run 13 0 (Z.to_nat (m - 1)) y
      (days_before y (Z.to_nat (m - 1)) + (d - 1)) ltac:(lia) ltac:(lia) ltac:(lia)) as E.
    cbn [days_before] in E. replace (Z.of_nat (Z.to_nat (m - 1)) + 1) with m in E by lia.
    specialize (E ltac:(lia)). rewrite Z.sub_0_r in E.
    replace (Z.of_nat n - year_days (Z.to_nat (y - 1970)))
      with (days_before y (Z.to_nat (m - 1)) + (d - 1)) by lia.
    change (Z.of_nat 0) with 0 in E. rewrite E. do 2 f_equal; lia.
Qed.

Lemma u32_range t : 0 <= u32 t < 2 ^ 32.
Proof. apply Z.mod_pos_bound. lia. Qed.

(** What gmtime computes. *)
Definition broken_down (w : Z) : frontpanel_ioctl_time :=
  let d := date_of (Z.to_nat (w / 86400)) in
  {| ft_year := d_year d; ft_month := d_month d; ft_day := d_day d;
     ft_dow := (4 + w / 86400) mod 7; ft_sdow := [0; 0; 0; 0];
     ft_hour := w mod 86400 / 3600; ft_min := w mod 86400 mod 3600 / 60;
     ft_sec := w mod 86400 mod 60; ft_now := 0 |}.

Lemma day_bound w : 0 <= w < 2 ^ 32 -> 0 <= w / 86400 <= 49710.
Proof. intros Hw. split; [apply Z.div_pos; lia|]. apply Z.lt_succ_r, Z.div_lt_upper_bound; lia. Qed.

Lemma gmtime_run t : gmtime t = Ok (broken_down (u32 t)).
Proof.
  pose proof (u32_range t) as Ht. unfold gmtime, broken_down. set (w := u32 t) in *. clearbody w.
  pose proof (day_bound w Ht) as Hd.
  destruct (find_date (Z.to_nat (w / 86400))) as (rest & E1 & E2 & Hy); [lia|].
  rewrite Z2Nat.id in E1 by lia. rewrite E1. cbn -[find_month]. rewrite E2. cbn.
  f_equal. unfold u16. rewrite Z.mod_small by lia. f_equal; try lia. f_equal. lia.
Qed.

Lemma time_of_day x : 0 <= x ->
  x / 3600 * 3600 + x mod 3600 / 60 * 60 + x mod 60 = x /\ 0 <= x mod 3600 / 60 < 60 /\ 0 <= x mod 60 < 60.
Proof.
  intros Hx. pose proof (Z.mod_pos_bound x 3600). split_and!;
    [Z.div_mod_to_equations; lia|apply Z.div_pos; lia|apply Z.div_lt_upper_bound; lia|apply Z.mod_pos_bound; lia..].
Qed.

(** C13. gmtime is the Gregorian calendar: for every time of 32 bits it returns,
    and year, month and day are those reached from 1 January 1970 by taking the
    next day once for every 86400 seconds; the weekday counts from Thursday and
    the time of day is the rest in hours, minutes and seconds. *)
Theorem tffp_calendar (t : Z) :
  exists r, gmtime t = Ok r /\
    Date (ft_year r) (ft_month r) (ft_day r) = date_of (Z.to_nat (u32 t / 86400)) /\
    ft_dow r = (4 + u32 t / 86400) mod 7 /\
    ft_hour r * 3600 + ft_min r * 60 + ft_sec r = u32 t mod 86400 /\
    0 <= ft_hour r < 24 /\ 0 <= ft_min r < 60 /\ 0 <= ft_sec r < 60.
Proof.
  exists (broken_down (u32 t)). split; [apply gmtime_run|]. pose proof (u32_range t) as Ht.
  pose proof (Z.mod_pos_bound (u32 t) 86400 ltac:(lia)) as Hm.
  destruct (time_of_day (u32 t mod 86400)) as (H1 & H2 & H3); [lia|].
  unfold broken_down. cbn. split_and!; try lia. by destruct (date_of _).
Qed.
