(* ===== verification/TffpReceive.v ===== *)
(** * Topfield front panel: what the panel sends is understood

    Bytes travel from the serial controller through the interrupt handler and
    the ring to the task.  The theorem: however the bytes of a sequence of
    messages are spread over interrupts and turns of the task, the driver acts
    on exactly these messages, in order. *)
From S2P Require Import Prelude TffpState TffpDisplay TffpTime TffpInput TffpFrame TffpInv TffpTypes.

#[local] Arguments replicate : simpl never.

(** ** What reception changes *)

Record line (D : Type) := Line {
  l_io : D; l_buf : list Z; l_start : Z; l_end : Z; l_mark : Z; l_sem : Z
}.
Arguments Line {D} _ _ _ _ _ _.
Arguments l_io {D} _.
Arguments l_buf {D} _.
Arguments l_start {D} _.
Arguments l_end {D} _.
Arguments l_mark {D} _.
Arguments l_sem {D} _.

Section line.
Context {D : Type}.
Implicit Types (s : tffp D) (r : line D).

Definition line_of s : line D :=
  Line (fp_io s) (RCVBuffer s) (RCVBufferStart s) (RCVBufferEnd s) (msgStart s) (rx_int_sem s).
Definition over r s : tffp D :=
  s <| fp_io := l_io r |> <| RCVBuffer := l_buf r |> <| RCVBufferStart := l_start r |>
    <| RCVBufferEnd := l_end r |> <| msgStart := l_mark r |> <| rx_int_sem := l_sem r |>.

Lemma over_line_of s : over (line_of s) s = s.
Proof. by destruct s. Qed.
Lemma over_over r1 r2 s : over r1 (over r2 s) = over r1 s.
Proof. done. Qed.
Lemma over_io r d s : over r (s <| fp_io := d |>) = over r s.
Proof. done. Qed.
(** The line with another number of wake-ups. *)
Definition woken n r : line D := Line (l_io r) (l_buf r) (l_start r) (l_end r) (l_mark r) n.
Lemma over_woken n r s : (over r s) <| rx_int_sem := n |> = over (woken n r) s.
Proof. destruct r, s. reflexivity. Qed.
Lemma line_over r s : line_of (over r s) = r.
Proof. by destruct r. Qed.

(** ** The ring *)

Definition ring_ok r : Prop :=
  bytes 256 (l_buf r) /\ 0 <= l_start r < 256 /\ 0 <= l_end r < 256.

(** The bytes not interpreted yet. *)
Definition unread r : list Z :=
  map (fun i => l_buf r !!! Z.to_nat ((l_end r + Z.of_nat i) mod 256))
    (seq 0 (Z.to_nat ((l_start r - l_end r) mod 256))).

Lemma unread_length r : Z.of_nat (length (unread r)) = (l_start r - l_end r) mod 256.
Proof.
  unfold unread. rewrite length_map, length_seq, Z2Nat.id; [done|]. apply Z.mod_pos_bound. lia.
Qed.

Lemma unread_lookup r i :
  Z.of_nat i < (l_start r - l_end r) mod 256 ->
  unread r !! i = Some (l_buf r !!! Z.to_nat ((l_end r + Z.of_nat i) mod 256)).
Proof.
  intros Hi. unfold unread. rewrite list_lookup_fmap, lookup_seq_lt by lia. done.
Qed.

Lemma ring_mask x : x .& 255 = x mod 256.
Proof. change 255 with (Z.ones 8). by rewrite Z.land_ones by lia. Qed.

Lemma ring_get r i c :
  ring_ok r -> unread r !! i = Some c -> aget (l_buf r) ((l_end r + Z.of_nat i) .& 255) = Ok c.
Proof.
  intros ((Hl & _) & _ & _) Hi. pose proof (lookup_lt_Some _ _ _ Hi) as Hlt.
  pose proof (unread_length r). rewrite unread_lookup in Hi by lia. injection Hi as <-.
  rewrite ring_mask. pose proof (Z.mod_pos_bound (l_end r + Z.of_nat i) 256 ltac:(lia)).
  apply aget_Ok. split; [lia|]. apply list_lookup_lookup_total_lt. lia.
Qed.

Lemma ring_empty r : ring_ok r -> unread r = [] <-> l_end r = l_start r.
Proof.
  intros (_ & Hs & He). rewrite <- length_zero_iff_nil. pose proof (unread_length r) as H. split.
  - intros E. rewrite E in H. Z.div_mod_to_equations. lia.
  - intros E. rewrite E, Z.sub_diag in H. change (0 mod 256) with 0 in H. lia.
Qed.

(** The line after a byte has been stored. *)
Definition stored (c : Z) r : line D :=
  Line (l_io r) (<[Z.to_nat (l_start r) := c]> (l_buf r)) ((l_start r + 1) mod 256) (l_end r)
    (l_mark r) (l_sem r).

Lemma stored_ok c r : is_u8 c -> ring_ok r -> ring_ok (stored c r).
Proof.
  intros Hc ((Hl & Hf) & Hs & He). unfold ring_ok, bytes. simpl. rewrite length_insert.
  split_and!; try done; try lia; [by apply Forall_insert|..]; apply Z.mod_pos_bound; lia.
Qed.

Lemma unread_stored c r :
  ring_ok r -> (length (unread r) < 255)%nat -> unread (stored c r) = unread r ++ [c].
Proof.
  intros ((Hl & _) & Hs & He) Hn. pose proof (unread_length r) as Hu.
  assert (Hm : (l_start (stored c r) - l_end (stored c r)) mod 256 = (l_start r - l_end r) mod 256 + 1).
  { simpl. rewrite Zminus_mod_idemp_l. Z.div_mod_to_equations. lia. }
  unfold unread at 1. rewrite Hm, Z2Nat.inj_add by (rewrite <- ?Hu; lia).
  rewrite Nat.add_1_r, seq_S, map_app. f_equal.
  - unfold unread. apply map_ext_in. intros i [_ Hi]%in_seq. simpl.
    apply list_lookup_total_insert_ne. intros E. apply (f_equal Z.of_nat) in E.
    rewrite !Z2Nat.id in E by (try apply Z.mod_pos_bound; lia). Z.div_mod_to_equations. lia.
  - simpl. f_equal.
    replace ((l_end r + Z.of_nat (Z.to_nat ((l_start r - l_end r) mod 256))) mod 256) with (l_start r).
    + rewrite list_lookup_total_insert, decide_True; [done|]. lia.
    + rewrite <- Hu, Nat2Z.id, Hu. Z.div_mod_to_equations. lia.
Qed.

(** The line after [k] bytes have been interpreted. *)
Definition consumed (k : Z) r : line D :=
  Line (l_io r) (l_buf r) (l_start r) ((l_end r + k) mod 256) (l_mark r) (l_sem r).

Lemma consumed_ok k r : ring_ok r -> ring_ok (consumed k r).
Proof. intros (? & ? & ?). split_and!; simpl; try apply Z.mod_pos_bound; done || lia. Qed.

Lemma unread_consumed k r :
  0 <= k <= Z.of_nat (length (unread r)) -> unread (consumed k r) = drop (Z.to_nat k) (unread r).
Proof.
  intros Hk. pose proof (unread_length r) as Hu.
  assert (Hm : (l_start (consumed k r) - l_end (consumed k r)) mod 256 = (l_start r - l_end r) mod 256 - k).
  { simpl. rewrite Zminus_mod_idemp_r. Z.div_mod_to_equations. lia. }
  apply list_eq. intros i. rewrite lookup_drop.
  destruct (decide (Z.of_nat i < (l_start r - l_end r) mod 256 - k)) as [Hi|Hi].
  - rewrite !unread_lookup by lia. simpl. do 3 f_equal.
    rewrite Zplus_mod_idemp_l. f_equal. lia.
  - rewrite !lookup_ge_None_2; [done| |].
    + apply Nat2Z.inj_le. rewrite Nat2Z.inj_add, Z2Nat.id by lia. lia.
    + apply Nat2Z.inj_le. rewrite unread_length, Hm. lia.
Qed.
End line.

(** ** What does not look at the line *)

Definition blind {D A} (m : M (tffp D) A) : Prop :=
  forall r s, m (over r s) = match m s with Ok (a, s') => Ok (a, over r s') | Fault e => Fault e end.

Section blind.
Context {D : Type}.

Lemma blind_ret {A} (a : A) : blind (D := D) (mret a).
Proof. done. Qed.
Lemma blind_gets {A} (f : tffp D -> A) : (forall r s, f (over r s) = f s) -> blind (gets f).
Proof. intros Hf r s. unfold gets. by rewrite Hf. Qed.
Lemma blind_modify f : (forall r s, f (over r s) = over r (f s)) -> blind (D := D) (modify f).
Proof. intros Hf r s. unfold modify. by rewrite Hf. Qed.
Lemma blind_lift {A} (x : res A) : blind (D := D) (lift x).
Proof. intros r s. unfold lift. by destruct x. Qed.
Lemma blind_bind {A B} (m : M (tffp D) A) (k : A -> M (tffp D) B) :
  blind m -> (forall a, blind (k a)) -> blind (m ≫= k).
Proof.
  intros Hm Hk r s. unfold mbind, M_bind. rewrite Hm. destruct (m s) as [[a s1]|]; [apply Hk|done].
Qed.
Lemma blind_if {A} (b : bool) (m1 m2 : M (tffp D) A) : blind m1 -> blind m2 -> blind (if b then m1 else m2).
Proof. by destruct b. Qed.
Lemma blind_when b (m : M (tffp D) unit) : blind m -> blind (when b m).
Proof. intros Hm. by apply blind_if. Qed.

(** So it leaves the line alone. *)
Lemma blind_line {A} (m : M (tffp D) A) s a s' : blind m -> m s = Ok (a, s') -> line_of s' = line_of s.
Proof.
  intros Hm E. specialize (Hm (line_of s) s). rewrite over_line_of, E in Hm.
  injection Hm as Hm. by rewrite Hm, line_over.
Qed.
End blind.

Create HintDb blind discriminated.
#[export] Hint Constants Opaque : blind.
Ltac blind_step :=
  lazymatch goal with
  | |- blind (mbind _ _) => apply blind_bind; [|intros ?]
  | |- blind (mret _) => apply blind_ret
  | |- blind skip => apply blind_ret
  | |- blind (gets _) => apply blind_gets; reflexivity
  | |- blind (modify _) => apply blind_modify; reflexivity
  | |- blind (lift _) => apply blind_lift
  | |- blind (when _ _) => apply blind_when
  | |- blind (if _ then _ else _) => apply blind_if
  | |- blind _ => first [assumption | solve [eauto with blind]]
  end.
Ltac blind := repeat (blind_step; cbv beta zeta).

(** ** Messages *)

Section messages.
Context {D : Type} `{HD : FpHw D} `{HK : !FpKernel}.

Lemma SetIconBits_blind Reg Bit Mode : blind (D := D) (SetIconBits Reg Bit Mode).
Proof. unfold SetIconBits. blind. Qed.
#[local] Hint Resolve SetIconBits_blind : blind.
Lemma VFDSetIcons_blind a b c : blind (D := D) (VFDSetIcons a b c).
Proof. unfold VFDSetIcons. blind. Qed.
Lemma AddKeyBuffer_blind k : blind (D := D) (AddKeyBuffer k).
Proof. unfold AddKeyBuffer. blind. Qed.
#[local] Hint Resolve VFDSetIcons_blind AddKeyBuffer_blind : blind.
Lemma AddKeyToBuffer_blind k b : blind (D := D) (AddKeyToBuffer k b).
Proof. unfold AddKeyToBuffer. blind. Qed.
#[local] Hint Resolve AddKeyToBuffer_blind : blind.
Lemma key_burst_blind c k : blind (D := D) (key_burst c k).
Proof. unfold key_burst. blind. Qed.
Lemma on_shutdown_blind : blind (D := D) on_shutdown.
Proof. unfold on_shutdown. blind. Qed.
#[local] Hint Resolve key_burst_blind on_shutdown_blind : blind.

(** The time a clock message carries. *)
Definition clock_of (b2 b3 b4 b5 b6 : Z) (name : list Z) : frontpanel_ioctl_time :=
  let w := b2 * 256 + b3 in
  let year := w / 512 + 2000 in
  let month := w / 32 mod 16 in
  let day := w mod 32 in
  let hour := b4 mod 32 in
  mkTime year month day (b4 / 32) name hour b5 b6 (u32 (mktime year month day hour b5 b6)).

Definition set_clock (b2 b3 b4 b5 b6 : Z) : M (tffp D) unit :=
  name ← lift (aget sdow_names (b4 / 32));
  modify (fun s => s <| fptime := clock_of b2 b3 b4 b5 b6 name |> <| FPREQDATETIMENEWPending := 0 |>).

(** The first key pressed takes the reason of the boot, and the power icon with
    it; the dot is on while a key is handled. *)
Definition key_pressed (cmd key : Z) : M (tffp D) unit :=
  r ← gets bootreason;
  when (truthy r) (modify (fun s => s <| bootreason := 0 |>);; SetIconBits 1 5 0);;
  SetIconBits 1 4 0x0f;;
  key_burst cmd key;;
  SetIconBits 1 4 0.

(** What the driver does with a message, as a function of its bytes. *)
Definition on_message (m : list Z) : M (tffp D) unit :=
  match m with
  | [cmd] => when (cmd =? FPSHUTDOWN) on_shutdown
  | [cmd; x] =>
      if cmd =? FPBOOTREASON then modify (fun s => s <| bootreason := x |>)
      else when ((cmd =? FPKEYPRESS) || (cmd =? FPKEYPRESSFP)) (key_pressed cmd x)
  | [cmd; b2; b3; b4; b5; b6] => when (cmd =? FPDATETIMENEW) (set_clock b2 b3 b4 b5 b6)
  | _ => skip
  end.

Fixpoint on_messages (ms : list (list Z)) : M (tffp D) unit :=
  match ms with [] => skip | m :: ms => on_message m;; on_messages ms end.

(** Bytes of which the first announces as many more as follow, a weekday below
    seven in a clock message, and no timer message, of which the driver reads
    more than it has. *)
Definition is_byte (b : Z) : bool := (0 <=? b) && (b <? 256).
Definition message_ok (m : list Z) : bool :=
  match m with
  | [] => false
  | cmd :: p =>
      forallb is_byte m && (cmd .& 15 =? Z.of_nat (length p)) && negb (cmd =? FPTIMERNEW)
      && (negb (cmd =? FPDATETIMENEW) || (nth 2 p 0 <? 224))
  end.

Lemma set_clock_blind b2 b3 b4 b5 b6 : blind (set_clock b2 b3 b4 b5 b6).
Proof. unfold set_clock. blind. Qed.
Lemma key_pressed_blind cmd key : blind (key_pressed cmd key).
Proof. unfold key_pressed. blind. Qed.
#[local] Hint Resolve set_clock_blind key_pressed_blind : blind.
Lemma on_message_blind m : blind (on_message m).
Proof. unfold on_message. repeat case_match; blind. Qed.

Lemma on_messages_blind ms : blind (on_messages ms).
Proof.
  induction ms as [|m ms IH]; simpl; [apply blind_ret|].
  apply blind_bind; [apply on_message_blind|intros; apply IH].
Qed.

Lemma message_bytes m : message_ok m = true -> Forall is_u8 m.
Proof.
  destruct m as [|cmd p]; [done|]. unfold message_ok. rewrite !andb_true_iff. intros [[[H _] _] _].
  rewrite forallb_forall in H. apply Forall_forall. intros x Hb%H.
  unfold is_byte in Hb. unfold is_u8. apply andb_true_iff in Hb as [?%Z.leb_le ?%Z.ltb_lt]. lia.
Qed.

(** ** The interpreter reads the message from the ring *)

Lemma power_icon s : VFDSetIcons (D := D) FPICON_POWER 0 0 s = SetIconBits 1 5 0 s.
Proof.
  cbv -[SetIconBits]. by destruct (SetIconBits 1 5 0 s) as [[[] ?]|].
Qed.

Lemma GetBufferByte_run (s : tffp D) i c :
  ring_ok (line_of s) -> unread (line_of s) !! i = Some c -> GetBufferByte (Z.of_nat i) s = Ok (c, s).
Proof.
  intros Hr Hi. pose proof (ring_get _ _ _ Hr Hi) as E. unfold GetBufferByte.
  rewrite (M_bind_run _ _ s _ s eq_refl), (M_bind_run _ _ s _ s eq_refl). by apply lift_run.
Qed.

Section interpreter.
Variables (m rest : list Z) (s0 : tffp D).
Hypothesis Hring : ring_ok (line_of s0).
Hypothesis Hm : unread (line_of s0) = frame m ++ rest.

(** Byte [i] of the message, also after the line-blind part of its handling. *)
Lemma message_byte i c s :
  m !! i = Some c -> line_of s = line_of s0 -> GetBufferByte (Z.of_nat (S i)) s = Ok (c, s).
Proof using Hring Hm.
  intros Hi Hs. apply GetBufferByte_run; rewrite Hs; [done|]. rewrite Hm. unfold frame. simpl.
  rewrite <- app_assoc. by apply lookup_app_l_Some.
Qed.

Lemma key_message cmd key : m = [cmd; key] ->
  (r ← gets bootreason;
   when (truthy r) (modify (fun s => s <| bootreason := 0 |>);; VFDSetIcons FPICON_POWER 0x0 0x0);;
   SetIconBits 1 4 0x0f;; InterpretKeyPresses;; SetIconBits 1 4 0) s0 = key_pressed cmd key s0.
Proof using Hring Hm.
  intros E. unfold key_pressed. apply M_bind_ext; [done|]. intros r s' [= <- <-].
  apply M_bind_ext; [|intros [] s1 E1].
  { destruct (truthy _); [|done]. apply M_bind_ext; [done|]. intros [] s' _. apply power_icon. }
  apply blind_line in E1; [|blind].
  apply M_bind_ext; [done|]. intros [] s2 E2%blind_line; [|blind].
  apply M_bind_ext; [|done]. assert (Hs : line_of s2 = line_of s0) by congruence.
  unfold InterpretKeyPresses.
  rewrite (M_bind_run _ _ _ _ _ (message_byte 1 key s2 ltac:(by rewrite E) Hs)).
  by rewrite (M_bind_run _ _ _ _ _ (message_byte 0 cmd s2 ltac:(by rewrite E) Hs)).
Qed.

Lemma clock_message cmd b2 b3 b4 b5 b6 :
  m = [cmd; b2; b3; b4; b5; b6] -> Forall is_u8 m ->
  InterpretDateTime s0 = set_clock b2 b3 b4 b5 b6 s0.
Proof using Hring Hm.
  intros E Hb. rewrite E in Hb.
  do 6 (apply Forall_cons_1 in Hb as [? Hb]). unfold is_u8 in *.
  assert (Hg : forall i c, m !! i = Some c -> GetBufferByte (Z.of_nat (S i)) s0 = Ok (c, s0)).
  { intros i c Hi. by apply message_byte. }
  rewrite E in Hg. unfold InterpretDateTime, set_clock.
  rewrite (M_bind_run _ _ _ _ _ (Hg 1%nat b2 eq_refl)), (M_bind_run _ _ _ _ _ (Hg 2%nat b3 eq_refl)).
  cbv zeta. rewrite (M_bind_run _ _ _ _ _ (Hg 3%nat b4 eq_refl)).
  assert (Hw : u16 ((b2 ≪ 8) .| b3) = b2 * 256 + b3).
  { rewrite lor_shift by lia. unfold u16. rewrite Z.mod_small; lia. }
  rewrite Hw. change 0x0f with (Z.ones 4). change 0x1f with (Z.ones 5).
  rewrite !Z.shiftr_div_pow2, !Z.land_ones by lia.
  apply M_bind_ext; [done|]. intros name s' (? & _ & [= <- ->])%lift_Ok.
  rewrite (M_bind_run _ _ _ _ _ (Hg 4%nat b5 eq_refl)), (M_bind_run _ _ _ _ _ (Hg 5%nat b6 eq_refl)).
  done.
Qed.

(** The interpreter acts on the message in front of the ring. *)
Lemma interpret : message_ok m = true -> FPCommandInterpreter s0 = on_message m s0.
Proof using Hring Hm.
  intros Hok. pose proof (message_bytes _ Hok) as Hb.
  assert (E : exists cmd p, m = cmd :: p) by (destruct m as [|cmd p]; [done|eauto]).
  destruct E as (cmd & p & E). rewrite E in Hok |- *. unfold message_ok in Hok.
  rewrite !andb_true_iff in Hok. destruct Hok as [[[_ Hn%Z.eqb_eq] Ht%negb_true_iff] _].
  unfold FPCommandInterpreter.
  assert (E1 : GetBufferByte 1 s0 = Ok (cmd, s0)) by (apply (message_byte 0); by rewrite ?E).
  rewrite (M_bind_run _ _ _ _ _ E1). clear E1. rewrite Ht.
  destruct (Z.eqb_spec cmd FPSHUTDOWN) as [->|N1].
  { change (FPSHUTDOWN .& 15) with 0 in Hn. destruct p; [done|cbn [length] in Hn; lia]. }
  destruct (Z.eqb_spec cmd FPDATETIMENEW) as [->|N2].
  { change (FPDATETIMENEW .& 15) with 5 in Hn.
    do 5 (destruct p as [|? p]; [done|]). destruct p; [|cbn [length] in Hn; lia].
    simpl. by apply (clock_message FPDATETIMENEW z z0 z1 z2 z3). }
  cbn [orb]. destruct (Z.eqb_spec cmd FPBOOTREASON) as [->|N3].
  { change (FPBOOTREASON .& 15) with 1 in Hn.
    destruct p as [|x p]; [done|]. destruct p; [|cbn [length] in Hn; lia].
    unfold InterpretBootReason. simpl. by rewrite (M_bind_run _ _ _ _ _ (message_byte 1 x s0 ltac:(by rewrite E) eq_refl)). }
  destruct ((cmd =? FPKEYPRESS) || (cmd =? FPKEYPRESSFP)) eqn:K.
  { assert (Hk : cmd .& 15 = 1).
    { apply orb_true_iff in K as [->%Z.eqb_eq| ->%Z.eqb_eq]; done. }
    rewrite Hk in Hn. destruct p as [|x p]; [done|]. destruct p; [|cbn [length] in Hn; lia].
    unfold on_message. apply Z.eqb_neq in N3. rewrite N3, K. unfold when at 2. by apply key_message. }
  apply Z.eqb_neq in N1, N2, N3. unfold on_message. rewrite N1.
  do 6 (destruct p as [|? p]; rewrite ?N1, ?N2, ?N3, ?K; try done).
Qed.
End interpreter.

(** ** The task *)

(** The length of what is unread, as the task computes it. *)
Lemma buff_size (s : tffp D) :
  ring_ok (line_of s) -> RCVBufferEnd s <> RCVBufferStart s ->
  (let d := RCVBufferStart s - RCVBufferEnd s in if d <? 0 then d + BUFFERSIZE else d)
  = Z.of_nat (length (unread (line_of s))).
Proof.
  intros (_ & Hs & He) Hn. rewrite unread_length. simpl in *. unfold BUFFERSIZE.
  destruct (Z.ltb_spec (RCVBufferStart s - RCVBufferEnd s) 0); Z.div_mod_to_equations; lia.
Qed.

Lemma unread_empty (s : tffp D) :
  ring_ok (line_of s) -> unread (line_of s) = [] <-> RCVBufferEnd s = RCVBufferStart s.
Proof. apply ring_empty. Qed.

(** A ring that is empty or begins with a start mark is not searched. *)
Lemma find_sot_here (s : tffp D) l n :
  ring_ok (line_of s) -> unread (line_of s) = 2 :: l ->
  find_sot (S n) (RCVBufferEnd s) (RCVBufferStart s) (RCVBuffer s) = Ok (RCVBufferEnd s).
Proof.
  intros Hr Hl. pose proof (ring_get _ 0 2 Hr ltac:(by rewrite Hl)) as H2.
  assert (He : RCVBufferEnd s <> RCVBufferStart s) by (rewrite <- unread_empty by done; by rewrite Hl).
  apply Z.eqb_neq in He. simpl in H2 |- *. rewrite He.
  destruct Hr as (_ & _ & Hr). simpl in Hr. rewrite Z.add_0_r, ring_mask, Z.mod_small in H2 by lia.
  by rewrite H2.
Qed.

Lemma find_sot_empty n e b : find_sot (S n) e e b = Ok e.
Proof. cbn [find_sot]. by rewrite Z.eqb_refl. Qed.

Lemma task_round_here (s : tffp D) l :
  ring_ok (line_of s) -> unread (line_of s) = 2 :: l ->
  task_round s =
  (if 2 <? Z.of_nat (length (2 :: l)) then
     c ← GetBufferByte 1;
     if c .& 0x0f + 3 <=? Z.of_nat (length (2 :: l)) then
       FPCommandInterpreter;;
       modify (fun s => s <| RCVBufferEnd := (RCVBufferEnd s + c .& 0x0f + 3) .& (BUFFERSIZE - 1) |>);;
       mret true
     else mret false
   else mret false) s.
Proof.
  intros Hr Hl. unfold task_round. do 3 rewrite (M_bind_run _ _ s _ s eq_refl).
  rewrite (M_bind_run _ _ s _ s (lift_run _ _ _ (find_sot_here _ _ 256 Hr Hl))).
  rewrite Z.eqb_refl. cbn [negb when]. rewrite (M_bind_run _ _ s _ s eq_refl).
  assert (He : RCVBufferEnd s <> RCVBufferStart s) by (rewrite <- unread_empty by done; by rewrite Hl).
  pose proof (buff_size s Hr He) as Hb. cbv zeta in Hb |- *. rewrite Hb, Hl.
  apply Z.eqb_neq in He. by rewrite He.
Qed.

(** A whole message in front is acted upon and taken from the ring. *)
Lemma task_round_message m rest s s' :
  ring_ok (line_of s) -> unread (line_of s) = frame m ++ rest -> message_ok m = true ->
  on_message m s = Ok (tt, s') ->
  task_round s = Ok (true, over (consumed (Z.of_nat (length (frame m))) (line_of s)) s').
Proof.
  intros Hr Hl Hok E. destruct m as [|cmd p] eqn:Em; [done|]. rewrite <- Em in E, Hok, Hl.
  pose proof Hok as Hc. rewrite Em in Hc. unfold message_ok in Hc. rewrite !andb_true_iff in Hc.
  destruct Hc as [[[_ Hc%Z.eqb_eq] _] _].
  assert (Hlen : Z.of_nat (length (frame (cmd :: p))) = cmd .& 15 + 3).
  { unfold frame. cbn [length app]. rewrite length_app. simpl length. lia. }
  pose proof (nibble_lo cmd).
  assert (Hl2 : unread (line_of s) = 2 :: m ++ [3] ++ rest).
  { rewrite Hl. unfold frame. simpl. by rewrite <- app_assoc. }
  rewrite (task_round_here s _ Hr Hl2).
  assert (Hsz : Z.of_nat (length (2 :: m ++ [3] ++ rest)) = cmd .& 15 + 3 + Z.of_nat (length rest)).
  { rewrite <- Hlen, <- Em. unfold frame. cbn [length]. rewrite !length_app. simpl length. lia. }
  rewrite Hsz. destruct (Z.ltb_spec 2 (cmd .& 15 + 3 + Z.of_nat (length rest))); [|lia].
  assert (E1 : GetBufferByte 1 s = Ok (cmd, s)).
  { eapply (message_byte m rest s Hr Hl 0); [by rewrite Em|done]. }
  rewrite (M_bind_run _ _ _ _ _ E1).
  destruct (Z.leb_spec (cmd .& 15 + 3) (cmd .& 15 + 3 + Z.of_nat (length rest))); [|lia].
  assert (E2 : FPCommandInterpreter s = Ok (tt, s')) by (by rewrite (interpret m rest s Hr Hl Hok)).
  rewrite (M_bind_run _ _ _ _ _ E2). apply blind_line in E; [|apply on_message_blind].
  rewrite (M_bind_run _ _ _ _ _ eq_refl). rewrite Hlen. unfold mret, M_ret. do 2 f_equal.
  change (BUFFERSIZE - 1) with 255. rewrite ring_mask, <- E. unfold consumed, over. simpl.
  rewrite Z.add_assoc. by destruct s'.
Qed.

(** The task stops at the beginning of a message. *)
Lemma task_round_part m part more (s : tffp D) :
  ring_ok (line_of s) -> unread (line_of s) = part -> message_ok m = true ->
  part ++ more = frame m -> more <> [] -> task_round s = Ok (false, s).
Proof.
  intros Hr Hl Hok Hp Hmore. destruct part as [|x part].
  { apply unread_empty in Hl; [|done]. unfold task_round. do 3 rewrite (M_bind_run _ _ s _ s eq_refl).
    rewrite Hl, (M_bind_run _ _ s _ s (lift_run _ _ _ (find_sot_empty 256 _ _))), Z.eqb_refl.
    cbn [negb when]. by rewrite (M_bind_run _ _ s _ s eq_refl). }
  assert (Hx : x = 2) by (unfold frame in Hp; simpl in Hp; congruence). subst x.
  rewrite (task_round_here s part Hr Hl).
  destruct (Z.ltb_spec 2 (Z.of_nat (length (2 :: part)))) as [H2|H2]; [|done].
  destruct m as [|cmd p]; [done|]. unfold frame in Hp. injection Hp as Hp.
  destruct part as [|cmd' part]; [simpl in H2; lia|]. simpl in Hp. injection Hp as -> Hp.
  rewrite (M_bind_run _ _ s cmd s).
  2: { apply (GetBufferByte_run s 1); [done|]. by rewrite Hl. }
  unfold message_ok in Hok. rewrite !andb_true_iff in Hok. destruct Hok as [[[_ Hc%Z.eqb_eq] _] _].
  apply (f_equal (@length Z)) in Hp. rewrite !length_app in Hp. simpl length in Hp |- *.
  destruct more; [done|]. simpl length in Hp.
  destruct (Z.leb_spec (cmd .& 15 + 3) (Z.of_nat (length (2 :: cmd :: part)))) as [Hle|Hle]; [|done].
  simpl length in Hle. lia.
Qed.

Lemma consumed_add a b (r : line D) : consumed a (consumed b r) = consumed (b + a) r.
Proof. unfold consumed. simpl. by rewrite Zplus_mod_idemp_l, Z.add_assoc. Qed.
Lemma consumed_0 (r : line D) : ring_ok r -> consumed 0 r = r.
Proof. intros (_ & _ & He). unfold consumed. rewrite Z.add_0_r, Z.mod_small by lia. by destruct r. Qed.

(** The beginning of a message. *)
Definition partial (part : list Z) : Prop :=
  exists m more, message_ok m = true /\ part ++ more = frame m /\ more <> [].

Lemma partial_nil : partial [].
Proof. by exists [FPSHUTDOWN], (frame [FPSHUTDOWN]). Qed.

Lemma frame_length m : length (frame m) = S (S (length m)).
Proof. unfold frame. simpl. rewrite length_app. simpl. lia. Qed.

Lemma task_rounds_run ms part : forall n (s s' : tffp D),
  ring_ok (line_of s) -> unread (line_of s) = concat (map frame ms) ++ part -> partial part ->
  Forall (fun m => message_ok m = true) ms -> on_messages ms s = Ok (tt, s') ->
  (length ms < n)%nat ->
  task_rounds n s = Ok (tt, over (consumed (Z.of_nat (length (concat (map frame ms)))) (line_of s)) s').
Proof.
  induction ms as [|m ms IH]; intros n s s' Hr Hl Hp Hms E Hn; (destruct n as [|n]; [lia|]); cbn [task_rounds].
  - injection E as <-. destruct Hp as (m & more & Hok & Hpm & Hmore).
    rewrite (M_bind_run _ _ _ _ _ (task_round_part m part more s Hr Hl Hok Hpm Hmore)).
    simpl. by rewrite consumed_0, over_line_of by done.
  - cbn [map concat] in Hl |- *. rewrite <- app_assoc in Hl. apply Forall_cons_1 in Hms as [Hok Hms].
    cbn [on_messages] in E. apply M_bind_Ok in E as ([] & s1 & E1 & E).
    rewrite (M_bind_run _ _ _ _ _ (task_round_message m _ s s1 Hr Hl Hok E1)).
    set (r1 := consumed _ (line_of s)).
    assert (E2 : on_messages ms (over r1 s1) = Ok (tt, over r1 s')).
    { by rewrite (on_messages_blind ms r1 s1), E. }
    assert (Hr1 : ring_ok (line_of (over r1 s1))) by (rewrite line_over; by apply consumed_ok).
    assert (Hl1 : unread (line_of (over r1 s1)) = concat (map frame ms) ++ part).
    { rewrite line_over. unfold r1. rewrite unread_consumed by (rewrite Hl, length_app; lia).
      by rewrite Nat2Z.id, Hl, drop_app_length. }
    rewrite (IH n _ _ Hr1 Hl1 Hp Hms E2) by (simpl in Hn; lia).
    rewrite line_over. unfold r1. rewrite consumed_add, over_over, length_app, Nat2Z.inj_add. reflexivity.
Qed.

Lemma frames_length ms : (3 * length ms <= length (concat (map frame ms)) + 3 * length (filter (eq []) ms))%nat.
Proof.
  induction ms as [|m ms IH]; [done|]. cbn [map concat length]. rewrite length_app, frame_length.
  rewrite filter_cons. destruct (decide ([] = m)) as [<-|Hm]; simpl length; [lia|].
  destruct m; [done|]. simpl length. lia.
Qed.

(** A turn of the task when a count of the semaphore is there, or nothing to do. *)
Lemma fpTask_run ms part (s s' : tffp D) :
  ring_ok (line_of s) -> unread (line_of s) = concat (map frame ms) ++ part -> partial part ->
  Forall (fun m => message_ok m = true) ms -> on_messages ms s = Ok (tt, s') ->
  0 <= rx_int_sem s -> (ms <> [] -> 0 < rx_int_sem s) ->
  exists r, fpTask s = Ok (tt, over r s') /\ ring_ok r /\ unread r = part /\ 0 <= l_sem r /\
    l_io r = fp_io s /\ l_mark r = msgStart s.
Proof.
  intros Hr Hl Hp Hms E Hsem Hpos.
  assert (Hn : (length ms < 87)%nat).
  { pose proof (frames_length ms) as Hf. rewrite (proj2 (length_zero_iff_nil (filter _ ms))) in Hf.
    - pose proof (unread_length (line_of s)) as Hu. rewrite Hl, length_app in Hu.
      pose proof (Z.mod_pos_bound (l_start (line_of s) - l_end (line_of s)) 256 ltac:(lia)). lia.
    - clear -Hms. induction Hms as [|m ms Hm _ IH]; [done|]. rewrite filter_cons.
      by destruct (decide _) as [<-|]. }
  unfold fpTask. rewrite (M_bind_run _ _ s _ s eq_refl).
  destruct (Z.ltb_spec 0 (rx_int_sem s)) as [Hs|Hs].
  - cbn [when]. rewrite (M_bind_run _ _ s _ _ eq_refl).
    set (r1 := Line (fp_io s) (RCVBuffer s) (RCVBufferStart s) (RCVBufferEnd s) (msgStart s) (rx_int_sem s - 1)).
    change (s <| rx_int_sem := rx_int_sem s - 1 |>) with (over r1 s).
    assert (E1 : on_messages ms (over r1 s) = Ok (tt, over r1 s')) by by rewrite (on_messages_blind ms r1 s), E.
    assert (Hr1 : ring_ok (line_of (over r1 s))) by by rewrite line_over.
    assert (Hl1 : unread (line_of (over r1 s)) = concat (map frame ms) ++ part) by by rewrite line_over.
    rewrite (task_rounds_run ms part 87 _ _ Hr1 Hl1 Hp Hms E1 Hn), line_over, over_over.
    eexists. split; [reflexivity|]. split_and!; [by apply consumed_ok| |simpl; lia|done..].
    assert (Hlr : unread r1 = concat (map frame ms) ++ part) by exact Hl.
    rewrite unread_consumed by (rewrite Hlr, length_app; lia). by rewrite Nat2Z.id, Hlr, drop_app_length.
  - destruct ms as [|m ms]; [|specialize (Hpos ltac:(done)); lia]. injection E as <-.
    exists (line_of s). cbn [when]. rewrite over_line_of. split_and!; done.
Qed.

(** ** Messages are acted upon in every state of the right types *)

Context `{HO : !FpKernelOk}.

Lemma key_pressed_sound cmd key : is_u8 key -> sound (D := D) (key_pressed cmd key).
Proof.
  intros Hk. unfold key_pressed. sound; try (apply SetIconBits_sound; lia); try fp_kept.
  by apply key_burst_sound.
Qed.

Lemma set_clock_sound b2 b3 b4 b5 b6 : 0 <= b4 < 224 -> sound (D := D) (set_clock b2 b3 b4 b5 b6).
Proof.
  intros Hb. unfold set_clock. apply (sound_lift _ (fun _ => True)).
  - destruct (aget_in sdow_names (b4 / 32)) as [name E]; [simpl; Z.div_mod_to_equations; lia|eauto].
  - intros name _. sound. fp_kept.
Qed.

Lemma on_message_sound m : message_ok m = true -> sound (D := D) (on_message m).
Proof.
  intros Hok. pose proof (message_bytes _ Hok) as Hb. unfold on_message, when.
  repeat case_match; subst; sound; repeat (apply Forall_cons_1 in Hb as [? Hb]).
  - apply on_shutdown_sound.
  - fp_kept.
  - by apply key_pressed_sound.
  - unfold message_ok in Hok. rewrite !andb_true_iff in Hok. destruct Hok as [_ Hd].
    match goal with H : (_ =? FPDATETIMENEW) = true |- _ => rewrite H in Hd end.
    apply set_clock_sound. apply Z.ltb_lt in Hd. unfold is_u8 in *. cbn [nth] in Hd. lia.
Qed.

Lemma on_messages_sound ms :
  Forall (fun m => message_ok m = true) ms -> sound (D := D) (on_messages ms).
Proof.
  induction 1 as [|m ms Hm _ IH]; simpl; [apply sound_skip|].
  apply sound_bind; [by apply on_message_sound|done].
Qed.
End messages.

(** ** The interrupt handler on the serial line *)

(** A shutdown command is answered at once, in the interrupt handler, which
    takes the two bytes 0x02 and 0x20 for one wherever it meets them. *)
Definition ack (mark c : Z) : list Z :=
  if truthy mark && (c =? 0x20) then frame [FPSHUTDOWNACK; 2] ++ frame [FPGETDISPLAYCONTROL] else [].
Definition mark_after (c : Z) : Z := if c =? 2 then 1 else 0.
Fixpoint acks (mark : Z) (cs : list Z) : list Z :=
  match cs with [] => [] | c :: cs => ack mark c ++ acks (mark_after c) cs end.
Definition marks (mark : Z) (cs : list Z) : Z := fold_left (fun _ => mark_after) cs mark.

Lemma acks_app mark a b : acks mark (a ++ b) = acks mark a ++ acks (marks mark a) b.
Proof.
  revert mark. induction a as [|c a IH]; intros mark; simpl; [done|]. by rewrite IH, app_assoc.
Qed.
Lemma marks_app mark a b : marks mark (a ++ b) = marks (marks mark a) b.
Proof. apply fold_left_app. Qed.

Section interrupt.
Context `{HK : FpKernel} `{HO : !FpKernelOk}.
Implicit Types s : tffp panel.

(** The line after the handler has taken [c] from the controller, which then has
    [rest]. *)
Definition heard (c : Z) (rest : list Z) s : line panel :=
  let r := stored c (line_of s) in
  Line ((fp_io s) <| p_rx := rest |> <| p_tx := p_tx (fp_io s) ++ ack (msgStart s) c |>)
    (l_buf r) (l_start r) (l_end r) (mark_after c) (l_sem r).

Lemma rx_byte_panel c rest s :
  p_rx (fp_io s) = c :: rest -> is_u8 c -> ring_ok (line_of s) ->
  rx_byte s = Ok (tt, over (heard c rest s) s).
Proof.
  intros Hrx Hc ((Hl & _) & Hs & _). unfold rx_byte.
  assert (E1 : fp_inl (ASC3BaseAddress + ASC_RX_BUFF) s = Ok (c, s <| fp_io := (fp_io s) <| p_rx := rest |> |>)).
  { unfold fp_inl, fp_call. simpl mmio_rd. unfold panel_rd. simpl. by rewrite Hrx. }
  rewrite (M_bind_run _ _ _ _ _ E1). clear E1. cbv zeta.
  assert (Hu : u8 c = c) by (by apply Z.mod_small). rewrite Hu.
  do 2 rewrite (M_bind_run _ _ _ _ _ eq_refl). simpl RCVBuffer. simpl RCVBufferStart.
  assert (Hset : aset (RCVBuffer s) (RCVBufferStart s) c = Ok (<[Z.to_nat (RCVBufferStart s) := c]> (RCVBuffer s))).
  { apply aset_in. simpl in *. lia. }
  rewrite (M_bind_run _ _ _ _ _ (lift_run _ _ _ Hset)), (M_bind_run _ _ _ _ _ eq_refl).
  unfold heard, ack, mark_after. destruct (Z.eqb_spec c 2) as [->|N2].
  { rewrite andb_false_r, app_nil_r. by destruct s as [[] ?]. }
  rewrite M_bind_assoc, (M_bind_run _ _ _ _ _ eq_refl). simpl msgStart.
  destruct (truthy (msgStart s) && (c =? 0x20)); cbn [when].
  - rewrite !M_bind_assoc. rewrite (M_bind_run _ _ _ _ _ (SendFPData_panel [FPSHUTDOWNACK; 2] _ ltac:(simpl; lia) eq_refl)).
    rewrite (M_bind_run _ _ _ _ _ (SendFPData_panel [FPGETDISPLAYCONTROL] _ ltac:(simpl; lia) eq_refl)).
    rewrite sent_more_app. by destruct s as [[] ?].
  - rewrite app_nil_r. by destruct s as [[] ?].
Qed.

(** What interrupts change, apart from the line's other fields. *)
Record got (cs : list Z) (r r' : line panel) : Prop := {
  got_ok : ring_ok r';
  got_unread : unread r' = unread r ++ cs;
  got_rx : p_rx (l_io r') = [];
  got_tx : p_tx (l_io r') = p_tx (l_io r) ++ acks (l_mark r) cs;
  got_mark : l_mark r' = marks (l_mark r) cs
}.

Lemma rx_drain_panel cs : forall s,
  p_rx (fp_io s) = cs -> Forall is_u8 cs -> ring_ok (line_of s) ->
  (length (unread (line_of s)) + length cs < 256)%nat ->
  exists r, rx_drain (S (length cs)) s = Ok (bool_decide (cs <> []), over r s) /\
    got cs (line_of s) r /\ l_sem r = rx_int_sem s.
Proof.
  induction cs as [|c cs IH]; intros s Hrx Hcs Hr Hn; cbn [rx_drain length].
  - exists (line_of s). rewrite over_line_of.
    assert (E1 : fp_inl (ASC3BaseAddress + ASC_INT_STA) s = Ok (4, s)).
    { unfold fp_inl, fp_call. simpl mmio_rd. unfold panel_rd. simpl. rewrite Hrx. by destruct s. }
    rewrite (M_bind_run _ _ _ _ _ E1). split; [done|]. split; [|done].
    split; simpl; rewrite ?app_nil_r; done.
  - assert (E1 : fp_inl (ASC3BaseAddress + ASC_INT_STA) s = Ok (5, s)).
    { unfold fp_inl, fp_call. simpl mmio_rd. unfold panel_rd. simpl. rewrite Hrx. by destruct s. }
    rewrite (M_bind_run _ _ _ _ _ E1). apply Forall_cons_1 in Hcs as [Hc Hcs].
    change (truthy (5 .& ASC_INT_STA_RBF)) with true. cbv iota.
    rewrite (M_bind_run _ _ _ _ _ (rx_byte_panel c cs s Hrx Hc Hr)).
    set (s1 := over (heard c cs s) s).
    assert (Hs1 : ring_ok (line_of s1)) by exact (stored_ok c (line_of s) Hc Hr).
    assert (Hu1 : unread (line_of s1) = unread (line_of s) ++ [c]).
    { apply (unread_stored c (line_of s)); [done|]. simpl in Hn. lia. }
    destruct (IH s1 eq_refl Hcs Hs1) as (r & E & Hg & Hsem).
    { rewrite Hu1, length_app. simpl in Hn |- *. lia. }
    exists r. rewrite (M_bind_run _ _ _ _ _ E). split; [|split; [|done]].
    + unfold s1. rewrite over_over. by rewrite bool_decide_true.
    + destruct Hg as [G1 G2 G3 G4 G5]. split; [done| |done| |done].
      * by rewrite G2, Hu1, <- app_assoc.
      * rewrite G4. simpl. by rewrite <- app_assoc.
Qed.

(** The panel sends bytes, which raises the interrupt. *)
Definition irq (cs : list Z) : M (tffp panel) unit :=
  fp_do (fun d => d <| p_rx := p_rx d ++ cs |>);;
  FP_interrupt (S (length cs)).

Lemma irq_run cs s :
  p_rx (fp_io s) = [] -> Forall is_u8 cs -> ring_ok (line_of s) ->
  (length (unread (line_of s)) + length cs < 256)%nat ->
  exists r, irq cs s = Ok (tt, over r s) /\ got cs (line_of s) r /\
    l_sem r = rx_int_sem s + (if bool_decide (cs <> []) then 1 else 0).
Proof.
  intros Hrx Hcs Hr Hn. unfold irq. rewrite (M_bind_run _ _ _ _ _ eq_refl).
  set (s1 := s <| fp_io := _ |>).
  destruct (rx_drain_panel cs s1) as (r & E & Hg & Hsem); [simpl; by rewrite Hrx|done..|].
  unfold FP_interrupt. rewrite (M_bind_run _ _ _ _ _ E). unfold s1. rewrite over_io. clear E.
  destruct Hg as [G1 G2 G3 G4 G5]. destruct (bool_decide (cs <> [])).
  - exists (woken (l_sem r + 1) r). rewrite <- over_woken.
    split; [reflexivity|]. split; [by split|]. simpl. by rewrite Hsem.
  - exists r. split; [done|]. split; [by split|]. rewrite Hsem. simpl. lia.
Qed.

(** Any number of interrupts, then a turn of the task. *)
Fixpoint irqs (css : list (list Z)) : M (tffp panel) unit :=
  match css with [] => skip | cs :: css => irq cs;; irqs css end.
Definition turn (css : list (list Z)) : M (tffp panel) unit := irqs css;; fpTask.
Fixpoint turns (t : list (list (list Z))) : M (tffp panel) unit :=
  match t with [] => skip | css :: t => turn css;; turns t end.

Lemma irqs_run css : forall s,
  p_rx (fp_io s) = [] -> Forall is_u8 (concat css) -> ring_ok (line_of s) ->
  (length (unread (line_of s)) + length (concat css) < 256)%nat -> 0 <= rx_int_sem s ->
  exists r, irqs css s = Ok (tt, over r s) /\ got (concat css) (line_of s) r /\
    rx_int_sem s <= l_sem r /\ (concat css <> [] -> 0 < l_sem r).
Proof.
  induction css as [|cs css IH]; intros s Hrx Hcs Hr Hn Hsem; cbn [irqs concat].
  - exists (line_of s). rewrite over_line_of. split; [done|]. split; [|split; [done|done]].
    split; simpl; rewrite ?app_nil_r; done.
  - cbn [concat] in Hcs, Hn. rewrite length_app in Hn. apply Forall_app in Hcs as [Hc Hcs].
    destruct (irq_run cs s Hrx Hc Hr) as (r1 & E1 & [G1 G2 G3 G4 G5] & Hs1); [lia|].
    rewrite (M_bind_run _ _ _ _ _ E1).
    destruct (IH (over r1 s)) as (r & E & [F1 F2 F3 F4 F5] & Hs2 & Hp); rewrite ?line_over; try done.
    { rewrite G2, length_app. lia. }
    { simpl. rewrite Hs1. case_bool_decide; lia. }
    exists r. rewrite E, over_over. split; [done|]. rewrite line_over in F2, F4, F5.
    simpl in Hs2. split.
    + split; [done| |done| |].
      * by rewrite F2, G2, app_assoc.
      * by rewrite F4, G4, G5, acks_app, app_assoc.
      * by rewrite F5, G5, marks_app.
    + rewrite Hs1 in Hs2. destruct cs as [|c cs]; simpl in *; split; [lia|done|lia|lia].
Qed.

(** ** Any way to cut the stream *)

Definition wire (ms : list (list Z)) : list Z := concat (map frame ms).
Definition all_ok (ms : list (list Z)) : Prop := Forall (fun m => message_ok m = true) ms.

Lemma message_length m : message_ok m = true -> length m = S (Z.to_nat (hd 0 m .& 15)).
Proof.
  destruct m as [|cmd p]; [done|]. unfold message_ok. rewrite !andb_true_iff.
  intros [[[_ H%Z.eqb_eq] _] _]. simpl. lia.
Qed.

Lemma partial_not_whole m l : message_ok m = true -> partial (frame m ++ l) -> False.
Proof.
  intros Hm (m' & more & Hm' & Hp & Hmore). rewrite <- app_assoc in Hp.
  assert (Hh : hd 0 m = hd 0 m').
  { destruct m, m'; try done. unfold frame in Hp. simpl in Hp |- *. congruence. }
  apply (f_equal length) in Hp. rewrite !length_app, !frame_length, (message_length m Hm), (message_length m' Hm'), Hh in Hp.
  destruct more; [done|]. simpl in Hp. lia.
Qed.

Lemma partial_short part : partial part -> (length part <= 17)%nat.
Proof.
  intros (m & more & Hm & Hp & Hmore). apply (f_equal length) in Hp.
  rewrite length_app, frame_length, (message_length m Hm) in Hp. pose proof (nibble_lo (hd 0 m)).
  destruct more; [done|]. simpl in Hp. lia.
Qed.

Lemma split_wire ms : forall p rest, all_ok ms -> p ++ rest = wire ms ->
  exists ms1 ms2 part, ms = ms1 ++ ms2 /\ p = wire ms1 ++ part /\ part ++ rest = wire ms2 /\ partial part.
Proof.
  induction ms as [|m ms IH]; intros p rest Hok E.
  { apply app_eq_nil in E as [-> ->]. exists [], [], []. split_and!; try done. apply partial_nil. }
  apply Forall_cons_1 in Hok as [Hm Hok]. change (p ++ rest = frame m ++ wire ms) in E.
  assert (Hwhole : forall k, p = frame m ++ k -> wire ms = k ++ rest -> exists ms1 ms2 part,
    m :: ms = ms1 ++ ms2 /\ p = wire ms1 ++ part /\ part ++ rest = wire ms2 /\ partial part).
  { intros k -> Hk. destruct (IH k rest Hok (eq_sym Hk)) as (ms1 & ms2 & part & -> & -> & H3 & H4).
    exists (m :: ms1), ms2, part. split_and!; try done.
    change (wire (m :: ms1)) with (frame m ++ wire ms1). by rewrite app_assoc. }
  apply app_eq_inv in E as [(k & Hk1 & Hk2)|(k & Hk1 & Hk2)]; [by apply (Hwhole k)|].
  destruct k as [|x k].
  - apply (Hwhole []); [by rewrite app_nil_r in *|done].
  - exists [], (m :: ms), p. split_and!; try done.
    + change (wire (m :: ms)) with (frame m ++ wire ms). by rewrite Hk2, Hk1, <- app_assoc.
    + by exists m, (x :: k).
Qed.

Lemma on_messages_app {D} `{HD : FpHw D} a b (s : tffp D) :
  on_messages (a ++ b) s = (on_messages a;; on_messages b) s.
Proof.
  revert s. induction a as [|m a IH]; intros s; simpl; [done|]. rewrite M_bind_assoc.
  apply M_bind_ext; [done|]. intros [] s' _. apply IH.
Qed.

Lemma wire_bytes ms : all_ok ms -> Forall is_u8 (wire ms).
Proof.
  induction 1 as [|m ms Hm _ IH]; [constructor|]. apply (Forall_app _ (frame m) (wire ms)). split; [|done].
  unfold frame. constructor; [done|]. apply Forall_app. split; [by apply message_bytes|]. by repeat constructor.
Qed.

Lemma turns_run t : forall ms part s s',
  ring_ok (line_of s) -> unread (line_of s) = part -> partial part ->
  part ++ concat (concat t) = wire ms -> all_ok ms -> p_rx (fp_io s) = [] -> 0 <= rx_int_sem s ->
  Forall (fun css => (length (concat css) <= 238)%nat) t -> on_messages ms s = Ok (tt, s') ->
  exists r, turns t s = Ok (tt, over r s') /\ ring_ok r /\ unread r = [] /\ p_rx (l_io r) = [] /\
    p_tx (l_io r) = p_tx (fp_io s) ++ acks (msgStart s) (concat (concat t)).
Proof.
  induction t as [|css t IH]; intros ms part s s' Hr Hu Hp Hw Hok Hrx Hsem Hlen E; cbn [turns].
  { simpl in Hw. rewrite app_nil_r in Hw. destruct ms as [|m ms].
    - injection E as <-. exists (line_of s). rewrite over_line_of. simpl. rewrite app_nil_r, Hu, Hw. done.
    - exfalso. apply Forall_cons_1 in Hok as [Hm _]. rewrite Hw in Hp. by apply (partial_not_whole m) in Hp. }
  cbn [concat] in Hw |- *. rewrite concat_app in Hw |- *. apply Forall_cons_1 in Hlen as [Hc Hlen].
  pose proof (partial_short _ Hp) as Hshort. pose proof (wire_bytes _ Hok) as Hb. rewrite <- Hw in Hb.
  apply Forall_app in Hb as [_ [Hb _]%Forall_app].
  destruct (irqs_run css s Hrx Hb Hr) as (r1 & E1 & [G1 G2 G3 G4 G5] & Hs1 & Hs2); [rewrite Hu; lia|done|].
  rewrite app_assoc in Hw.
  destruct (split_wire ms _ _ Hok Hw) as (ms1 & ms2 & part2 & -> & Hpre & Hrest & Hp2).
  apply Forall_app in Hok as [Hok1 Hok2]. rewrite on_messages_app in E.
  apply M_bind_Ok in E as ([] & s1 & Em1 & Em2).
  assert (Hpos : ms1 <> [] -> 0 < l_sem r1).
  { intros Hne. apply Hs2. intros Hnil. rewrite Hnil, app_nil_r in Hpre. destruct ms1 as [|m ms1]; [done|].
    apply Forall_cons_1 in Hok1 as [Hm _]. rewrite Hpre in Hp.
    change (wire (m :: ms1)) with (frame m ++ wire ms1) in Hp. rewrite <- app_assoc in Hp. by apply partial_not_whole in Hp. }
  destruct (fpTask_run ms1 part2 (over r1 s) (over r1 s1)) as (r2 & E2 & R1 & R2 & R3 & R4 & R5);
    rewrite ?line_over; try done.
  { by rewrite G2, Hu, Hpre. }
  { by rewrite (on_messages_blind ms1 r1 s), Em1. }
  { simpl. lia. }
  rewrite over_over in E2.
  destruct (IH ms2 part2 (over r2 s1) (over r2 s')) as (r & E3 & T1 & T2 & T3 & T4); rewrite ?line_over; try done.
  { simpl. rewrite R4. exact G3. }
  { by rewrite (on_messages_blind ms2 r2 s1), Em2. }
  exists r. unfold turn. rewrite M_bind_assoc, (M_bind_run _ _ _ _ _ E1), (M_bind_run _ _ _ _ _ E2), E3, over_over.
  split_and!; try done. rewrite T4. simpl. rewrite R4, R5. simpl. rewrite G4, G5, acks_app, app_assoc. done.
Qed.
End interrupt.

(** ** Shutdown acknowledges *)

(** No 0x02 directly before a 0x20. *)
Fixpoint quiet (m : list Z) : bool :=
  match m with
  | a :: (b :: _) as m => negb ((a =? 2) && (b =? 0x20)) && quiet m
  | _ => true
  end.
Definition answer_of (m : list Z) : list Z :=
  if hd 0 m =? FPSHUTDOWN then frame [FPSHUTDOWNACK; 2] ++ frame [FPGETDISPLAYCONTROL] else [].

Lemma acks_body p : forall c rest,
  quiet (c :: p) = true -> acks (mark_after c) (p ++ 3 :: rest) = acks 0 rest.
Proof.
  induction p as [|x p IH]; intros c rest Hq.
  - simpl. unfold ack. by rewrite andb_false_r.
  - cbn [quiet] in Hq. apply andb_true_iff in Hq as [Hcx%negb_true_iff Hq]. simpl. rewrite (IH x rest Hq).
    unfold ack, mark_after. destruct (c =? 2); [|done]. simpl in Hcx |- *. by rewrite Hcx.
Qed.

Lemma acks_frame mark m rest : m <> [] -> quiet m = true ->
  acks mark (frame m ++ rest) = answer_of m ++ acks 0 rest.
Proof.
  destruct m as [|cmd p]; [done|]. intros _ Hq. unfold frame. rewrite <- app_comm_cons, <- app_assoc.
  simpl. unfold ack at 1. rewrite andb_false_r. simpl. by rewrite acks_body.
Qed.

Lemma acks_wire mark ms : all_ok ms -> forallb quiet ms = true ->
  acks mark (wire ms) = concat (map answer_of ms).
Proof.
  intros Hok. revert mark. induction Hok as [|m ms Hm _ IH]; intros mark; [done|].
  cbn [forallb]. rewrite andb_true_iff. intros [Hq Hqs].
  change (wire (m :: ms)) with (frame m ++ wire ms). rewrite acks_frame; [|by destruct m|done].
  cbn [map concat]. by rewrite IH by done.
Qed.

Lemma over_ok {D} r (s : tffp D) : fp_ok s -> ring_ok r -> fp_ok (over r s).
Proof. intros [] (? & ? & ?). by constructor. Qed.

Lemma ring_of_ok {D} (s : tffp D) : fp_ok s -> ring_ok (line_of s).
Proof. intros []. split; [done|by split]. Qed.

(** C7. What the front processor sends reaches the driver: take any messages on
    the serial line (but timer answers, of which the driver reads more than
    there is, and clock messages with the weekday 7, which has no name), cut their bytes at any places into interrupts and give the
    task a turn after any of them (after 238 bytes at the latest). Nothing
    faults or hangs, the driver ends with an empty ring in the state that acting
    on exactly these messages one after another gives, and what it has sent
    meanwhile are the acknowledges of the interrupt handler: one for each
    shutdown message when no message has the bytes 0x02 0x20 inside. *)
Theorem tffp_receive `{!FpKernel} `{!FpKernelOk} ms t (s : tffp panel) :
  fp_ok s -> RCVBufferStart s = RCVBufferEnd s -> p_rx (fp_io s) = [] -> 0 <= rx_int_sem s ->
  all_ok ms -> concat (concat t) = wire ms ->
  Forall (fun css => (length (concat css) <= 238)%nat) t ->
  exists s1 s', on_messages ms s = Ok (tt, s1) /\ turns t s = Ok (tt, s') /\ fp_ok s' /\
    s' = over (line_of s') s1 /\ unread (line_of s') = [] /\ p_rx (fp_io s') = [] /\
    p_tx (fp_io s') = p_tx (fp_io s) ++ acks (msgStart s) (wire ms) /\
    (forallb quiet ms = true -> acks (msgStart s) (wire ms) = concat (map answer_of ms)).
Proof.
  intros Hs He Hrx Hsem Hok Ht Hlen.
  destruct (on_messages_sound ms Hok s Hs) as ([] & s1 & E1 & H1).
  assert (Hu : unread (line_of s) = []) by (apply unread_empty; [by apply ring_of_ok|done]).
  destruct (turns_run t ms [] s s1) as (r & E & R1 & R2 & R3 & R4); try done.
  { by apply ring_of_ok. } { apply partial_nil. }
  exists s1, (over r s1). rewrite line_over, <- Ht. split_and!; try done; [by apply over_ok|].
  rewrite Ht. by apply acks_wire.
Qed.

(** C33. The acknowledge is sent for data, too: a clock message whose minute is 2
    and whose second is 32 sets the clock like any other, but the interrupt
    handler has already told the front processor that the box agrees to be shut
    down. *)
Theorem tffp_false_ack `{!FpKernel} `{!FpKernelOk} b2 b3 b4 (s : tffp panel) :
  let m := [FPDATETIMENEW; b2; b3; b4; 2; 32] in
  fp_ok s -> RCVBufferStart s = RCVBufferEnd s -> p_rx (fp_io s) = [] -> 0 <= rx_int_sem s ->
  message_ok m = true -> quiet [b2; b3; b4] = true ->
  exists s1 s', set_clock b2 b3 b4 2 32 s = Ok (tt, s1) /\ turn [frame m] s = Ok (tt, s') /\
    s' = over (line_of s') s1 /\
    p_tx (fp_io s') = p_tx (fp_io s) ++ frame [FPSHUTDOWNACK; 2] ++ frame [FPGETDISPLAYCONTROL].
Proof.
  intros m Hs He Hrx Hsem Hok Hq.
  assert (Hoks : all_ok [m]) by by repeat constructor.
  destruct (on_messages_sound [m] Hoks s Hs) as ([] & s1 & E1 & H1).
  assert (Hu : unread (line_of s) = []) by (apply unread_empty; [by apply ring_of_ok|done]).
  destruct (turns_run [[frame m]] [m] [] s s1) as (r & E & R1 & R2 & R3 & R4); try done.
  { by apply ring_of_ok. } { apply partial_nil. } { constructor; [|done]. simpl. lia. }
  exists s1, (over r s1). rewrite line_over. cbn [on_messages turns] in E1, E.
  rewrite M_bind_skip in E1, E. split_and!; try done. simpl fp_io. rewrite R4. f_equal.
  simpl. unfold ack, mark_after. rewrite !andb_false_r. simpl.
  simpl in Hq. by destruct (b2 =? 2), (b3 =? 32), (b3 =? 2), (b4 =? 32).
Qed.

(** ** Examples *)

Section example.
#[local] Existing Instance example_kernel.
#[local] Existing Instance example_kernel_ok.

(** A shutdown request, a key and the time, in three interrupts of which the
    first ends in the middle of the key. *)
Definition example_messages : list (list Z) :=
  [[FPSHUTDOWN]; [FPKEYPRESS; 0x0c]; [FPDATETIMENEW; 0x2a; 0xd5; 0x4d; 30; 15]].
Definition example_turns : list (list (list Z)) :=
  [[[2; 0x20; 3; 2; 0x61]]; [[0x0c]; [3; 2; 0x25; 0x2a; 0xd5; 0x4d; 30; 15; 3]]].

Lemma tffp_receive_witness :
  exists s1 s', on_messages example_messages panel_loaded = Ok (tt, s1) /\
    turns example_turns panel_loaded = Ok (tt, s') /\ fp_ok s' /\
    s' = over (line_of s') s1 /\ unread (line_of s') = [] /\ p_rx (fp_io s') = [] /\
    p_tx (fp_io s') = p_tx (fp_io panel_loaded) ++ acks (msgStart panel_loaded) (wire example_messages) /\
    (forallb quiet example_messages = true ->
     acks (msgStart panel_loaded) (wire example_messages) = concat (map answer_of example_messages)).
Proof.
  apply (tffp_receive example_messages example_turns panel_loaded).
  - apply panel_loaded_ok.
  - vm_compute; reflexivity.
  - vm_compute; reflexivity.
  - vm_compute; discriminate.
  - repeat (constructor; [vm_compute; reflexivity|]). constructor.
  - vm_compute; reflexivity.
  - repeat (constructor; [vm_compute; lia|]). constructor.
Defined.

Lemma tffp_false_ack_witness :
  exists s1 s', set_clock 0x2a 0xd5 0x4d 2 32 panel_loaded = Ok (tt, s1) /\
    turn [frame [FPDATETIMENEW; 0x2a; 0xd5; 0x4d; 2; 32]] panel_loaded = Ok (tt, s') /\
    s' = over (line_of s') s1 /\
    p_tx (fp_io s') = p_tx (fp_io panel_loaded) ++ frame [FPSHUTDOWNACK; 2] ++ frame [FPGETDISPLAYCONTROL].
Proof.
  apply (tffp_false_ack 0x2a 0xd5 0x4d panel_loaded).
  - apply panel_loaded_ok.
  - vm_compute; reflexivity.
  - vm_compute; reflexivity.
  - vm_compute; discriminate.
  - vm_compute; reflexivity.
  - reflexivity.
Defined.
End example.
