(* ===== verification/TffpKeys.v ===== *)
(** * Topfield front panel: keys from the message to the reader

    The ring of keys between the task and the remote control's device file as a
    queue of keys, what happens when it overflows, and the repetition of a key
    that is held. *)
From S2P Require Import Prelude TffpState TffpDisplay TffpTime TffpInput TffpDev TffpFrame TffpInv TffpTypes TffpReceive.

(** ** The ring *)

Section ring.
Context {D : Type} `{HD : FpHw D} `{HK : !FpKernel}.
Implicit Types (s : tffp D) (r : line D).

(** The key ring has the shape of the ring of received bytes. *)
Definition keys_of s : line D := Line (fp_io s) (KeyBuffer s) (KeyBufferStart s) (KeyBufferEnd s) 0 0.
Definition with_keys r s : tffp D :=
  s <| KeyBuffer := l_buf r |> <| KeyBufferStart := l_start r |> <| KeyBufferEnd := l_end r |>.
Definition keys s : list Z := unread (keys_of s).

Lemma keys_with r s : keys (with_keys r s) = unread r.
Proof. done. Qed.

(** A key is dropped when 255 wait. *)
Definition push (q : list Z) (k : Z) : list Z := if (length q <? 255)%nat then q ++ [k] else q.

(** Nothing but the ring changes, which holds [q]. *)
Definition rings (q : list Z) s s' : Prop :=
  exists r, s' = with_keys r s /\ ring_ok r /\ unread r = q.

Lemma rings_keys q s s' : rings q s s' -> keys s' = q /\ ring_ok (keys_of s').
Proof. intros (r & -> & Hr & Hq). by destruct Hr as (? & ? & ?). Qed.

Lemma rings_trans q1 q2 s1 s2 s3 : rings q1 s1 s2 -> rings q2 s2 s3 -> rings q2 s1 s3.
Proof. intros (r1 & -> & _ & _) (r2 & -> & H2 & H3). by exists r2. Qed.

Lemma rings_same s : ring_ok (keys_of s) -> rings (keys s) s s.
Proof. intros Hr. exists (keys_of s). split_and!; try done; [by destruct s|apply Hr..]. Qed.

Lemma AddKeyBuffer_run k s :
  ring_ok (keys_of s) -> is_u8 k ->
  exists s', AddKeyBuffer k s = Ok (tt, s') /\ rings (push (keys s) k) s s'.
Proof.
  intros Hr Hk. pose proof Hr as ((Hl & _) & Hs & He). simpl in Hl, Hs, He.
  unfold AddKeyBuffer. do 2 rewrite (M_bind_run _ _ s _ s eq_refl). cbv zeta.
  change 0xff with 255. rewrite ring_mask.
  pose proof (unread_length (keys_of s)) as Hn. fold (keys s) in Hn. simpl in Hn.
  unfold push. destruct (Z.eqb_spec ((KeyBufferStart s + 1) mod 256) (KeyBufferEnd s)) as [E|E].
  - exists s. split; [done|]. destruct (Nat.ltb_spec (length (keys s)) 255) as [Hlt|Hge].
    + exfalso. Z.div_mod_to_equations. lia.
    + by apply rings_same.
  - cbn [negb when]. rewrite (M_bind_run _ _ s _ s eq_refl).
    assert (Hset : aset (KeyBuffer s) (KeyBufferStart s) k = Ok (<[Z.to_nat (KeyBufferStart s) := k]> (KeyBuffer s))).
    { apply aset_in. lia. }
    rewrite (M_bind_run _ _ _ _ _ (lift_run _ _ _ Hset)).
    assert (Hlt : (length (keys s) < 255)%nat) by (Z.div_mod_to_equations; lia).
    eexists. split; [reflexivity|]. exists (stored k (keys_of s)).
    split; [by destruct s|]. split; [by apply stored_ok|].
    destruct (Nat.ltb_spec (length (keys s)) 255); [|lia]. by apply unread_stored.
Qed.

Lemma next_key_run s :
  ring_ok (keys_of s) ->
  exists k s', next_key s = Ok (k, s') /\ s' = with_keys (keys_of s') s /\ ring_ok (keys_of s') /\
    (forall k' q, keys s = k' :: q -> k = k' /\ rings q s s') /\
    (keys s = [] -> length (keys s') = 255%nat).
Proof.
  intros Hr. pose proof Hr as ((Hl & Hf) & Hs & He). simpl in Hl, Hs, He.
  unfold next_key. do 2 rewrite (M_bind_run _ _ s _ s eq_refl).
  destruct (aget_in (KeyBuffer s) (KeyBufferEnd s)) as [k Hk]; [lia|].
  rewrite (M_bind_run _ _ _ _ _ (lift_run _ _ _ Hk)), (M_bind_run _ _ _ _ _ eq_refl).
  eexists k, _. split; [reflexivity|]. change 0xff with 255. rewrite ring_mask.
  set (s' := s <| KeyBufferEnd := _ |>).
  assert (Hs' : s' = with_keys (consumed 1 (keys_of s)) s) by by destruct s.
  assert (Hr' : ring_ok (keys_of s')) by exact (consumed_ok 1 (keys_of s) Hr).
  split; [by rewrite Hs' at 1|]. split; [done|]. split.
  - intros k' q Hq. assert (Hg : aget (KeyBuffer s) (KeyBufferEnd s) = Ok k').
    { pose proof (ring_get (keys_of s) 0 k' Hr) as Hg. fold (keys s) in Hg. rewrite Hq in Hg.
      specialize (Hg eq_refl). simpl in Hg. by rewrite Z.add_0_r, ring_mask, Z.mod_small in Hg by lia. }
    split; [congruence|]. exists (consumed 1 (keys_of s)). split; [done|]. split; [done|].
    rewrite unread_consumed by (fold (keys s); rewrite Hq; simpl; lia). fold (keys s). by rewrite Hq.
  - intros Hq. pose proof (unread_length (keys_of s)) as Hn. fold (keys s) in Hn. rewrite Hq in Hn.
    pose proof (unread_length (keys_of s')) as Hn'. fold (keys s') in Hn'. simpl in Hn, Hn'.
    Z.div_mod_to_equations. lia.
Qed.
End ring.

(** ** Pressing and reading *)

(** A key is put into the ring, or the holder [filp] of the remote control's
    file reads without waiting. *)
Inductive key_op := KPress (front : bool) (key : Z) | KRead.

Section use.
Context {D : Type} `{HD : FpHw D} `{HK : !FpKernel}.
Implicit Types (s : tffp D) (q : list (list Z)) (ops : list key_op).
Variable filp : Z.

Definition key_op_run (op : key_op) : M (tffp D) (option fp_reply) :=
  match op with
  | KPress front key => AddKeyToBuffer key front;; mret None
  | KRead => r ← FrontPaneldev_read skip filp false; mret (Some r)
  end.
Fixpoint key_ops_run ops : M (tffp D) (list (option fp_reply)) :=
  match ops with
  | [] => mret []
  | op :: ops => a ← key_op_run op; l ← key_ops_run ops; mret (a :: l)
  end.

(** *** A queue of keys *)

(** The two emulation modes of two bytes, and that of the UFS910. *)
Definition paired (mode : Z) : bool := (mode =? KEYEMUTF7700) || (mode =? KEYEMUTF7700LKP).
Definition known (mode : Z) : bool := paired mode || (mode =? KEYEMUUFS910).

(** What a reader gets for a key; [None]: the UFS910 has no such key. *)
Definition key_answer (mode : Z) (front : bool) (key : Z) : option (list Z) :=
  if paired mode then Some [if front then FPKEYPRESSFP else FPKEYPRESS; key]
  else let k := nth (Z.to_nat key) ufs910map 0 in if k =? 0xff then None else Some (hex2 k).

Definition room (mode : Z) : nat := if paired mode then 127%nat else 255%nat.

Definition queue_op (mode : Z) (op : key_op) q : option fp_reply * list (list Z) :=
  match op with
  | KPress front key =>
      (None, match key_answer mode front key with
             | Some a => if (length q <? room mode)%nat then q ++ [a] else q
             | None => q
             end)
  | KRead => match q with [] => (Some (- ERESTARTSYS, []), []) | a :: q => (Some (2, a), q) end
  end.
Fixpoint queue_ops (mode : Z) ops q : list (option fp_reply) * list (list Z) :=
  match ops with
  | [] => ([], q)
  | op :: ops =>
      let (a, q) := queue_op mode op q in let (l, q) := queue_ops mode ops q in (a :: l, q)
  end.

Definition key_op_ok (op : key_op) : Prop :=
  match op with KPress _ key => is_u8 key | KRead => True end.

(** No key comes while 127 wait; only asked of the modes with two bytes. *)
Fixpoint keeps_up (mode : Z) ops q : bool :=
  match ops with
  | [] => true
  | op :: ops =>
      match op with KPress _ _ => negb (paired mode) || (length q <? 127)%nat | KRead => true end
      && keeps_up mode ops (snd (queue_op mode op q))
  end.

(** The bytes in the ring. *)
Definition coded (mode : Z) q (l : list Z) : Prop :=
  if paired mode then l = concat q /\ Forall (fun a => length a = 2%nat) q else q = map hex2 l.

Definition reader (s : tffp D) : Prop := minor_from 0 (FrontPanelOpen s) filp = Some FRONTPANEL_MINOR_RC.

Lemma coded_length mode q l :
  coded mode q l -> length l = (if paired mode then 2 * length q else length q)%nat.
Proof.
  unfold coded. destruct (paired mode); [|intros ->; by rewrite length_map].
  intros [-> Hq]. induction Hq as [|a q Ha _ IH]; [done|]. simpl. rewrite length_app, IH, Ha. lia.
Qed.

Lemma press_run key front s :
  ring_ok (keys_of s) -> is_u8 key ->
  exists s' l, AddKeyToBuffer key front s = Ok (tt, s') /\ rings l s s' /\
    (paired (KeyEmulationMode s) = true ->
     l = push (push (keys s) (if front then FPKEYPRESSFP else FPKEYPRESS)) key) /\
    (KeyEmulationMode s = KEYEMUUFS910 ->
     l = let k := nth (Z.to_nat key) ufs910map 0 in if k =? 0xff then keys s else push (keys s) k).
Proof.
  intros Hr Hk. unfold AddKeyToBuffer. rewrite (M_bind_run _ _ s _ s eq_refl).
  destruct ((KeyEmulationMode s =? KEYEMUTF7700) || (KeyEmulationMode s =? KEYEMUTF7700LKP)) eqn:Hm.
  - destruct (AddKeyBuffer_run (if front then FPKEYPRESSFP else FPKEYPRESS) s Hr) as (s1 & E1 & H1); [by destruct front|].
    destruct (rings_keys _ _ _ H1) as [Hq1 Hr1].
    destruct (AddKeyBuffer_run key s1 Hr1 Hk) as (s2 & E2 & H2). rewrite Hq1 in H2.
    eexists s2, _. rewrite (M_bind_run _ _ _ _ _ E1). split; [done|].
    split; [by eapply rings_trans|]. split; [done|]. intros Hu. by rewrite Hu in Hm.
  - assert (Hp : paired (KeyEmulationMode s) = true -> False) by (unfold paired; by rewrite Hm).
    destruct (Z.eqb_spec (KeyEmulationMode s) KEYEMUUFS910) as [Hu|Hu].
    2: { exists s, (keys s). split; [done|]. split; [by apply rings_same|]. split; [by intros ?%Hp|done]. }
    set (k := nth (Z.to_nat key) ufs910map 0).
    assert (Hg : aget ufs910map key = Ok k).
    { unfold is_u8 in Hk. apply aget_Ok. split; [lia|]. unfold k. rewrite nth_lookup.
      destruct (lookup_lt_is_Some_2 ufs910map (Z.to_nat key)) as [x ->]; [simpl; lia|done]. }
    rewrite (M_bind_run _ _ _ _ _ (lift_run _ _ _ Hg)).
    destruct (k =? 0xff) eqn:Hff.
    + exists s, (keys s). split; [done|]. split; [by apply rings_same|]. split; [by intros ?%Hp|].
      done.
    + destruct (AddKeyBuffer_run k s Hr) as (s1 & E1 & H1).
      { exact (aget_Forall _ _ _ _ ufs_map_u8 Hg). }
      eexists s1, _. split; [done|]. split; [done|]. split; [by intros ?%Hp|done].
Qed.

Lemma read_run s :
  ring_ok (keys_of s) -> reader s -> known (KeyEmulationMode s) = true -> keys s <> [] ->
  exists k s', FrontPaneldev_read skip filp false s = Ok ((2, k), s') /\ s' = with_keys (keys_of s') s /\
    ring_ok (keys_of s') /\
    (forall a l, paired (KeyEmulationMode s) = false -> keys s = a :: l -> k = hex2 a /\ keys s' = l) /\
    (forall a b l, paired (KeyEmulationMode s) = true -> keys s = a :: b :: l -> k = [a; b] /\ keys s' = l) /\
    (forall a, paired (KeyEmulationMode s) = true -> keys s = [a] -> length (keys s') = 255%nat).
Proof.
  intros Hr Hh Hm Hne. unfold FrontPaneldev_read, minor_of.
  rewrite M_bind_assoc, (M_bind_run _ _ s _ s eq_refl), Hh, (M_bind_run _ _ s _ s eq_refl).
  change (FRONTPANEL_MINOR_RC =? FRONTPANEL_MINOR_RC) with true. cbn [negb].
  rewrite (M_bind_run _ _ s _ s eq_refl).
  assert (Hk : no_key s = false).
  { unfold no_key. apply Z.eqb_neq. intros E. apply Hne. by apply (ring_empty (keys_of s) Hr). }
  rewrite Hk. cbn [when]. do 2 rewrite (M_bind_run _ _ s _ s eq_refl). rewrite Hk.
  unfold take_key. rewrite M_bind_assoc, (M_bind_run _ _ s _ s eq_refl).
  destruct (next_key_run s Hr) as (k1 & s1 & E1 & W1 & Hr1 & H1 & _).
  destruct (keys s) as [|a l] eqn:Hks; [done|]. destruct (H1 a l eq_refl) as (-> & R1).
  destruct (rings_keys _ _ _ R1) as [Hq1 _].
  fold (paired (KeyEmulationMode s)). unfold known in Hm.
  destruct (paired (KeyEmulationMode s)) eqn:Hp.
  - destruct (next_key_run s1 Hr1) as (k2 & s2 & E2 & W2 & Hr2 & H2 & H2').
    rewrite !M_bind_assoc, (M_bind_run _ _ _ _ _ E1), M_bind_assoc, (M_bind_run _ _ _ _ _ E2).
    exists [a; k2], s2. rewrite Hq1 in H2, H2'. split; [done|].
    split; [by rewrite W2, W1|]. split; [done|]. split; [done|]. split.
    + intros a' b l' _ [= <- ->]. destruct (H2 b l' eq_refl) as [-> R2]. by destruct (rings_keys _ _ _ R2).
    + intros a' _ [= <- ->]. by apply H2'.
  - cbn [orb] in Hm. rewrite Hm, M_bind_assoc, (M_bind_run _ _ _ _ _ E1).
    exists (hex2 a), s1. split; [done|]. split; [done|]. split; [done|].
    split; [|split; discriminate]. by intros a' l' _ [= <- ->].
Qed.

Lemma read_empty s : reader s -> keys s = [] -> ring_ok (keys_of s) ->
  FrontPaneldev_read skip filp false s = Ok ((- ERESTARTSYS, []), s).
Proof.
  intros Hh He Hr. unfold FrontPaneldev_read, minor_of.
  rewrite M_bind_assoc, (M_bind_run _ _ s _ s eq_refl), Hh, (M_bind_run _ _ s _ s eq_refl).
  change (FRONTPANEL_MINOR_RC =? FRONTPANEL_MINOR_RC) with true. cbn [negb].
  assert (Hk : no_key s = true).
  { unfold no_key. apply Z.eqb_eq. symmetry. by apply (ring_empty (keys_of s) Hr). }
  rewrite (M_bind_run _ _ s _ s eq_refl), Hk. cbn [when].
  by rewrite (M_bind_run _ _ s _ s eq_refl), (M_bind_run _ _ s _ s eq_refl), Hk.
Qed.

(** Only the ring changes. *)
Definition ring_only s s' : Prop := s' = with_keys (keys_of s') s /\ ring_ok (keys_of s').
Lemma ring_only_same s : ring_ok (keys_of s) -> ring_only s s.
Proof. intros Hr. split; [by destruct s|done]. Qed.
Lemma ring_only_trans s1 s2 s3 : ring_only s1 s2 -> ring_only s2 s3 -> ring_only s1 s3.
Proof. intros [H1 _] [H2 H3]. split; [|done]. rewrite H2 at 1. by rewrite H1. Qed.
Lemma rings_only l s s' : rings l s s' -> ring_only s s' /\ keys s' = l.
Proof. intros H. destruct (rings_keys _ _ _ H). split; [|done]. split; [|done]. by destruct H as (r & -> & _). Qed.
Lemma ring_only_reader s s' : ring_only s s' -> reader s -> reader s'.
Proof. intros [-> _]. done. Qed.
Lemma ring_only_mode s s' : ring_only s s' -> KeyEmulationMode s' = KeyEmulationMode s.
Proof. intros [-> _]. done. Qed.

Lemma key_op_step op q s :
  let mode := KeyEmulationMode s in
  ring_ok (keys_of s) -> reader s -> known mode = true -> coded mode q (keys s) -> key_op_ok op ->
  (match op with KPress _ _ => negb (paired mode) || (length q <? 127)%nat | KRead => true end) = true ->
  exists s', key_op_run op s = Ok (fst (queue_op mode op q), s') /\ ring_only s s' /\
    coded mode (snd (queue_op mode op q)) (keys s').
Proof.
  intros mode Hr Hh Hm Hc Hop Hup. pose proof (coded_length _ _ _ Hc) as Hlen.
  destruct op as [front key|]; cbn [key_op_run queue_op fst snd].
  - destruct (press_run key front s Hr Hop) as (s' & l & E & R & Hp & Hu). fold mode in Hp, Hu.
    exists s'. rewrite (M_bind_run _ _ _ _ _ E). split; [done|].
    destruct (rings_only _ _ _ R) as [Ho Hk]. split; [done|]. rewrite Hk. clear E R Hk.
    unfold key_answer, room, coded, known in *. destruct (paired mode).
    + rewrite Hp by done. cbn [negb orb] in Hup. rewrite Hup. apply Nat.ltb_lt in Hup.
      destruct Hc as [Hc Hq]. unfold push.
      destruct (Nat.ltb_spec (length (keys s)) 255); [|lia]. rewrite length_app. cbn [length].
      destruct (Nat.ltb_spec (length (keys s) + 1) 255); [|lia].
      split; [by rewrite Hc, concat_app, <- app_assoc|]. apply Forall_app. split; [done|by constructor].
    + rewrite Hu by (by apply Z.eqb_eq in Hm). cbv zeta. destruct (_ =? 0xff); [done|].
      unfold push. rewrite Hlen. destruct (length q <? 255)%nat; [|done]. by rewrite map_app, Hc.
  - destruct q as [|a q].
    { assert (Hk : keys s = []) by (apply length_zero_iff_nil; rewrite Hlen; by destruct (paired mode)).
      exists s. rewrite (M_bind_run _ _ _ _ _ (read_empty s Hh Hk Hr)). split; [done|].
      split; [by apply ring_only_same|]. cbn [snd]. by rewrite Hk in *. }
    assert (Hk : keys s <> []) by (intros Hk; rewrite Hk in Hlen; by destruct (paired mode)).
    destruct (read_run s Hr Hh Hm Hk) as (k & s' & E & Hw & Hr' & H1 & H2 & _). fold mode in H1, H2.
    exists s'. rewrite (M_bind_run _ _ _ _ _ E). cbn [fst snd]. unfold coded in *.
    destruct (paired mode).
    + destruct Hc as [Hc [Ha Hq]%Forall_cons_1]. destruct a as [|a [|b [|]]]; try done.
      destruct (H2 a b (concat q) eq_refl Hc) as [-> Hk']. by rewrite Hk'.
    + destruct (keys s) as [|a' l] eqn:Hks; [done|]. injection Hc as -> ->.
      destruct (H1 a' l eq_refl eq_refl) as [-> Hk']. by rewrite Hk'.
Qed.

Lemma key_ops_refine ops : forall q s,
  let mode := KeyEmulationMode s in
  ring_ok (keys_of s) -> reader s -> known mode = true -> coded mode q (keys s) ->
  Forall key_op_ok ops -> keeps_up mode ops q = true ->
  exists s', key_ops_run ops s = Ok (fst (queue_ops mode ops q), s') /\ ring_only s s' /\
    coded mode (snd (queue_ops mode ops q)) (keys s').
Proof.
  induction ops as [|op ops IH]; intros q s mode Hr Hh Hm Hc Hops Hup; cbn [key_ops_run queue_ops].
  { exists s. split; [done|]. split; [by apply ring_only_same|done]. }
  apply Forall_cons_1 in Hops as [Hop Hops]. cbn [keeps_up] in Hup. apply andb_true_iff in Hup as [Hup1 Hup].
  destruct (key_op_step op q s Hr Hh Hm Hc Hop Hup1) as (s1 & E1 & O1 & Hc1). fold mode in E1, Hc1.
  rewrite (M_bind_run _ _ _ _ _ E1). destruct (queue_op mode op q) as [a q1] eqn:Hq. cbn [fst snd] in *.
  pose proof (ring_only_mode _ _ O1) as Hmode.
  destruct (IH q1 s1) as (s2 & E2 & O2 & Hc2); rewrite ?Hmode; try done; [apply O1|by eapply ring_only_reader|].
  rewrite Hmode in E2, Hc2. fold mode in E2, Hc2.
  rewrite (M_bind_run _ _ _ _ _ E2). destruct (queue_ops mode ops q1) as [l q2]. cbn [fst snd] in *.
  exists s2. split; [done|]. split; [by eapply ring_only_trans|done].
Qed.

(** *** An odd number of bytes in a mode of two *)

Lemma keys_length s : (length (keys s) <= 255)%nat.
Proof.
  pose proof (unread_length (keys_of s)) as H. fold (keys s) in H.
  pose proof (Z.mod_pos_bound (l_start (keys_of s) - l_end (keys_of s)) 256 ltac:(lia)). lia.
Qed.

Lemma press_paired key front s :
  ring_ok (keys_of s) -> paired (KeyEmulationMode s) = true -> is_u8 key ->
  exists s', key_op_run (KPress front key) s = Ok (None, s') /\ ring_only s s' /\
    length (keys s') = (if length (keys s) <? 254 then length (keys s) + 2 else 255)%nat.
Proof.
  intros Hr Hp Hk. destruct (press_run key front s Hr Hk) as (s' & l & E & R & Hl & _).
  exists s'. cbn [key_op_run]. rewrite (M_bind_run _ _ _ _ _ E). split; [done|].
  destruct (rings_only _ _ _ R) as [Ho ->]. split; [done|]. rewrite (Hl Hp). unfold push.
  pose proof (keys_length s). destruct (Nat.ltb_spec (length (keys s)) 255).
  - rewrite length_app. cbn [length]. destruct (Nat.ltb_spec (length (keys s) + 1) 255), (Nat.ltb_spec (length (keys s)) 254);
      rewrite ?length_app; cbn [length]; rewrite ?length_app; cbn [length]; lia.
  - destruct (Nat.ltb_spec (length (keys s)) 255), (Nat.ltb_spec (length (keys s)) 254); lia.
Qed.

(** An answer to a read of two bytes. *)
Definition served (op : key_op) (a : option fp_reply) : Prop :=
  match op with KPress _ _ => a = None | KRead => exists k, a = Some (2, k) end.

Lemma odd_step op s :
  ring_ok (keys_of s) -> reader s -> paired (KeyEmulationMode s) = true -> key_op_ok op ->
  Nat.Odd (length (keys s)) ->
  exists a s', key_op_run op s = Ok (a, s') /\ served op a /\ ring_only s s' /\ Nat.Odd (length (keys s')).
Proof.
  intros Hr Hh Hp Hop [n Hn]. destruct op as [front key|].
  - destruct (press_paired key front s Hr Hp Hop) as (s' & E & Ho & Hl). exists None, s'.
    split; [done|]. split; [done|]. split; [done|]. rewrite Hl.
    destruct (Nat.ltb_spec (length (keys s)) 254); [exists (n + 1)%nat|exists 127%nat]; lia.
  - assert (Hk : keys s <> []) by (intros Hk; rewrite Hk in Hn; simpl in Hn; lia).
    assert (Hm : known (KeyEmulationMode s) = true) by (unfold known; by rewrite Hp).
    destruct (read_run s Hr Hh Hm Hk) as (k & s' & E & Hw & Hr' & _ & H2 & H1).
    exists (Some (2, k)), s'. cbn [key_op_run]. rewrite (M_bind_run _ _ _ _ _ E).
    split; [done|]. split; [by exists k|]. split; [done|].
    destruct (keys s) as [|a [|b l]] eqn:Hks; [done| |].
    + rewrite (H1 a Hp eq_refl). by exists 127%nat.
    + destruct (H2 a b l Hp eq_refl) as [_ ->]. exists (n - 1)%nat. simpl in Hn. lia.
Qed.

Lemma odd_ops ops : forall s,
  ring_ok (keys_of s) -> reader s -> paired (KeyEmulationMode s) = true -> Forall key_op_ok ops ->
  Nat.Odd (length (keys s)) ->
  exists l s', key_ops_run ops s = Ok (l, s') /\ Forall2 served ops l /\ ring_only s s' /\
    Nat.Odd (length (keys s')).
Proof.
  induction ops as [|op ops IH]; intros s Hr Hh Hp Hops Hn; cbn [key_ops_run].
  { exists [], s. split; [done|]. split; [done|]. split; [by apply ring_only_same|done]. }
  apply Forall_cons_1 in Hops as [Hop Hops].
  destruct (odd_step op s Hr Hh Hp Hop Hn) as (a & s1 & E1 & Ha & O1 & Hn1).
  rewrite (M_bind_run _ _ _ _ _ E1).
  destruct (IH s1) as (l & s2 & E2 & Hl & O2 & Hn2); try done; [apply O1|by eapply ring_only_reader|
    by rewrite (ring_only_mode _ _ O1)|].
  exists (a :: l), s2. rewrite (M_bind_run _ _ _ _ _ E2). split; [done|]. split; [by constructor|].
  split; [by eapply ring_only_trans|done].
Qed.

Definition press_all (ps : list (bool * Z)) : list key_op := map (fun p => KPress (fst p) (snd p)) ps.

Lemma press_all_run ps : forall s,
  ring_ok (keys_of s) -> paired (KeyEmulationMode s) = true -> Forall (fun p => is_u8 (snd p)) ps ->
  Nat.Even (length (keys s)) \/ length (keys s) = 255%nat ->
  exists l s', key_ops_run (press_all ps) s = Ok (l, s') /\ ring_only s s' /\
    length (keys s') = Nat.min 255 (length (keys s) + 2 * length ps).
Proof.
  induction ps as [|[front key] ps IH]; intros s Hr Hp Hps Hn; cbn [press_all map key_ops_run].
  { exists [], s. split; [done|]. split; [by apply ring_only_same|]. pose proof (keys_length s). cbn [length]. lia. }
  apply Forall_cons_1 in Hps as [Hk Hps]. cbn [fst snd].
  destruct (press_paired key front s Hr Hp Hk) as (s1 & E1 & O1 & Hl1).
  rewrite (M_bind_run _ _ _ _ _ E1).
  destruct (IH s1) as (l & s2 & E2 & O2 & Hl2); try done; [apply O1|by rewrite (ring_only_mode _ _ O1)| |].
  { rewrite Hl1. destruct (Nat.ltb_spec (length (keys s)) 254); [left|by right].
    destruct Hn as [[n Hn]|Hn]; [exists (n + 1)%nat|]; lia. }
  exists (None :: l), s2. fold (press_all ps). rewrite (M_bind_run _ _ _ _ _ E2). split; [done|].
  split; [by eapply ring_only_trans|]. rewrite Hl2, Hl1. cbn [length]. pose proof (keys_length s).
  destruct (Nat.ltb_spec (length (keys s)) 254); destruct Hn as [[n Hn]|Hn]; lia.
Qed.
End use.

(** C14. The ring of keys between the task and the reader of the remote
    control's file is a first-in first-out queue of keys: over any sequence of
    keys and reads in one of the three emulation modes, a read gives the oldest
    key not read yet in the form of the mode, no key is lost or doubled, and a
    UFS910 key that finds 255 others waiting is dropped. In the modes with two
    bytes for a key this holds as long as no key comes while 127 wait. *)
Theorem tffp_keys {D} `{FpHw D} `{!FpKernel} filp ops q (s : tffp D) :
  let mode := KeyEmulationMode s in
  fp_ok s -> reader filp s -> known mode = true -> coded mode q (keys s) ->
  Forall key_op_ok ops -> keeps_up mode ops q = true ->
  exists s', key_ops_run filp ops s = Ok (fst (queue_ops mode ops q), s') /\
    s' = with_keys (keys_of s') s /\ coded mode (snd (queue_ops mode ops q)) (keys s').
Proof.
  intros mode Hs Hh Hm Hc Hops Hup.
  assert (Hr : ring_ok (keys_of s)) by (destruct Hs; split; [done|by split]).
  destruct (key_ops_refine filp ops q s Hr Hh Hm Hc Hops Hup) as (s' & E & [Ho _] & Hc'). eauto.
Qed.

(** C32. In the modes with two bytes for a key, 128 keys that nobody reads spoil
    the ring for good: the last key leaves its first byte only. From then on,
    whatever keys come and however often the file is read, every read returns
    two bytes at once, the old keys over and over, and poll always reports a
    key. *)
Theorem tffp_keys_replayed {D} `{FpHw D} `{!FpKernel} filp ps ops (s : tffp D) :
  fp_ok s -> reader filp s -> paired (KeyEmulationMode s) = true -> keys s = [] ->
  Forall (fun p => is_u8 (snd p)) ps -> (128 <= length ps)%nat -> Forall key_op_ok ops ->
  exists l1 s1 l2 s2, key_ops_run filp (press_all ps) s = Ok (l1, s1) /\
    key_ops_run filp ops s1 = Ok (l2, s2) /\ Forall2 served ops l2 /\
    FrontPaneldev_poll s2 = Ok (POLLIN_POLLRDNORM, s2).
Proof.
  intros Hs Hh Hp He Hps Hn Hops.
  assert (Hr : ring_ok (keys_of s)) by (destruct Hs; split; [done|by split]).
  destruct (press_all_run filp ps s Hr Hp Hps) as (l1 & s1 & E1 & O1 & Hl1).
  { left. rewrite He. by exists 0%nat. }
  destruct (odd_ops filp ops s1) as (l2 & s2 & E2 & Hl2 & O2 & Hn2); try done.
  { apply O1. } { by eapply ring_only_reader. } { by rewrite (ring_only_mode _ _ O1). }
  { rewrite Hl1, He. exists 127%nat. simpl length. lia. }
  exists l1, s1, l2, s2. split_and!; try done. unfold FrontPaneldev_poll.
  do 2 rewrite (M_bind_run _ _ s2 _ s2 eq_refl).
  destruct (Z.eqb_spec (KeyBufferStart s2) (KeyBufferEnd s2)) as [Heq|]; [|done].
  destruct O2 as [_ Hr2]. apply eq_sym, (ring_empty (keys_of s2) Hr2) in Heq. fold (keys s2) in Heq.
  rewrite Heq in Hn2. destruct Hn2 as [n Hn2]. simpl in Hn2. lia.
Qed.

(** ** Held keys *)

Section held.
Context {D : Type} `{HD : FpHw D} `{HK : !FpKernel}.
Implicit Types s : tffp D.

Fixpoint times {S} (n : nat) (m : M S unit) : M S unit :=
  match n with O => skip | S n => times n m;; m end.

Definition counters (d r : Z) s : tffp D := s <| TypematicDelay := d |> <| TypematicRate := r |>.

(** Putting a key into the ring does not depend on the counters. *)
Definition steady (m : M (tffp D) unit) : Prop :=
  forall s, (forall d r, m (counters d r s) = match m s with Ok (a, s') => Ok (a, counters d r s') | Fault e => Fault e end)
    /\ (forall s', m s = Ok (tt, s') -> s' = with_keys (keys_of s') s).

Lemma steady_skip : steady skip.
Proof. intros s. split; [done|]. intros s' [= <-]. by destruct s. Qed.
Lemma steady_bind m1 m2 : steady m1 -> steady m2 -> steady (m1;; m2).
Proof.
  intros H1 H2 s. split.
  - intros d r. unfold mbind, M_bind. rewrite (proj1 (H1 s)). destruct (m1 s) as [[[] s1]|]; [apply H2|done].
  - intros s' ([] & s1 & E1 & E2)%M_bind_Ok. apply H1 in E1. apply H2 in E2. rewrite E2 at 1. by rewrite E1.
Qed.
Lemma steady_AddKeyBuffer k : steady (AddKeyBuffer k).
Proof.
  intros s. unfold AddKeyBuffer, when, mbind, M_bind, gets, lift, modify. simpl. case_match.
  - destruct (aset (KeyBuffer s) (KeyBufferStart s) k) as [b|] eqn:E;
      (split; [intros d r; simpl; by rewrite E|]); [|done]. intros s' [= <-]. by destruct s.
  - split; [done|]. intros s' [= <-]. by destruct s.
Qed.
Lemma steady_AddKeyToBuffer k b : steady (AddKeyToBuffer k b).
Proof.
  pose proof (steady_bind _ _ (steady_AddKeyBuffer (if b then FPKEYPRESSFP else FPKEYPRESS)) (steady_AddKeyBuffer k)) as Hp.
  intros s. unfold AddKeyToBuffer. split.
  - intros d r. do 2 rewrite (M_bind_run _ _ _ _ _ eq_refl). simpl KeyEmulationMode.
    destruct (_ || _); [apply Hp|]. destruct (_ =? _); [|done].
    unfold mbind, M_bind, lift. destruct (aget ufs910map k) as [x|]; [|done].
    destruct (x =? 255); [done|]. apply steady_AddKeyBuffer.
  - intros s'. rewrite (M_bind_run _ _ _ _ _ eq_refl).
    destruct (_ || _); [apply Hp|]. destruct (_ =? _); [|apply steady_skip].
    unfold mbind, M_bind, lift. destruct (aget ufs910map k) as [x|]; [|done].
    destruct (x =? 255); [apply steady_skip|]. apply steady_AddKeyBuffer.
Qed.
Lemma steady_times n m : steady m -> steady (times n m).
Proof. intros Hm. induction n as [|n IH]; simpl; [apply steady_skip|by apply steady_bind]. Qed.

(** After [n] repetitions: how often the key has been repeated, and where the
    two counters are. *)
Definition repeated (d r : Z) (n : nat) : nat := Z.to_nat ((Z.of_nat n - d) `max` 0 / (r + 1)).
Definition delay_left (d : Z) (n : nat) : Z := (d - Z.of_nat n) `max` 0.
Definition rate_left (d r : Z) (n : nat) : Z := r - (Z.of_nat n - d) `max` 0 mod (r + 1).

Lemma repeated_step d r n : 0 <= d -> 0 <= r ->
  if delay_left d n =? 0 then
    if rate_left d r n =? 0
    then repeated d r (S n) = S (repeated d r n) /\ delay_left d (S n) = 0 /\ rate_left d r (S n) = r
    else repeated d r (S n) = repeated d r n /\ delay_left d (S n) = 0 /\ rate_left d r (S n) = rate_left d r n - 1
  else repeated d r (S n) = repeated d r n /\ delay_left d (S n) = delay_left d n - 1 /\
       rate_left d r (S n) = rate_left d r n.
Proof.
  intros Hd Hr. unfold repeated, delay_left, rate_left.
  destruct (Z.eqb_spec ((d - Z.of_nat n) `max` 0) 0) as [E|E].
  - replace ((Z.of_nat n - d) `max` 0) with (Z.of_nat n - d) by lia.
    replace ((Z.of_nat (S n) - d) `max` 0) with (Z.of_nat n - d + 1) by lia.
    set (x := Z.of_nat n - d). assert (Hx : 0 <= x) by lia.
    pose proof (Z.mod_pos_bound x (r + 1) ltac:(lia)).
    pose proof (Z.div_mod x (r + 1) ltac:(lia)) as Hdm.
    destruct (Z.eqb_spec (r - x mod (r + 1)) 0) as [E2|E2].
    + assert (Hq : (x + 1) / (r + 1) = x / (r + 1) + 1) by (symmetry; apply (Z.div_unique _ _ _ 0); lia).
      assert (Hm : (x + 1) mod (r + 1) = 0) by (symmetry; apply (Z.mod_unique _ _ (x / (r + 1) + 1)); lia).
      rewrite Hq, Hm. pose proof (Z.div_pos x (r + 1) Hx ltac:(lia)). lia.
    + assert (Hq : (x + 1) / (r + 1) = x / (r + 1)) by (symmetry; apply (Z.div_unique _ _ _ (x mod (r + 1) + 1)); lia).
      assert (Hm : (x + 1) mod (r + 1) = x mod (r + 1) + 1) by (symmetry; apply (Z.mod_unique _ _ (x / (r + 1))); lia).
      rewrite Hq, Hm. lia.
  - replace ((Z.of_nat n - d) `max` 0) with 0 by lia. replace ((Z.of_nat (S n) - d) `max` 0) with 0 by lia. lia.
Qed.

(** A key that is held: its first burst, then bursts with the repeat bit. *)
Definition hold (cmd key : Z) (n : nat) : M (tffp D) unit :=
  key_burst cmd key;; times n (key_burst cmd (key .| 0x80)).

Lemma repeat_bit key : 0 <= key < 128 ->
  (key .& 0x80 =? 0) = true /\ ((key .| 0x80) .& 0x80 =? 0) = false /\ (key .| 0x80) .& 0x7f = key.
Proof.
  intros Hk. assert (Hb : is_u8 key) by (unfold is_u8; lia).
  assert (H : key < 128 -> (key .& 0x80 =? 0) = true /\ ((key .| 0x80) .& 0x80 =? 0) = false /\ (key .| 0x80) .& 0x7f = key).
  { clear Hk. by_bytes key Hb. }
  apply H. lia.
Qed.
End held.

(** C29. A key that is held is entered once, and again after a pause: of [n]
    bursts that repeat it, the first DefaultTypematicDelay do nothing, and then
    every (DefaultTypematicRate + 1)th enters the key again, for every setting
    of the two and in the two modes that repeat keys. *)
Theorem tffp_typematic {D} `{FpHw D} `{!FpKernel} cmd key n (s : tffp D) :
  let d := DefaultTypematicDelay s in
  let r := DefaultTypematicRate s in
  0 <= key < 128 -> KeyEmulationMode s <> KEYEMUTF7700LKP -> 0 <= d -> 0 <= r ->
  hold cmd key n s =
  (times (S (repeated d r n)) (AddKeyToBuffer key (cmd =? FPKEYPRESSFP));;
   modify (counters (delay_left d n) (rate_left d r n))) s.
Proof.
  intros d r Hk Hm Hd Hr. destruct (repeat_bit key Hk) as (B1 & B2 & B3).
  set (add := AddKeyToBuffer key (cmd =? FPKEYPRESSFP)).
  assert (Ha : steady add) by apply steady_AddKeyToBuffer. unfold hold.
  assert (Hmode : (KeyEmulationMode s =? KEYEMUTF7700LKP) = false) by by apply Z.eqb_neq.
  induction n as [|n IH]; cbn [times].
  - assert (Hrep : repeated d r 0 = 0%nat).
    { unfold repeated. replace ((Z.of_nat 0 - d) `max` 0) with 0 by lia. by rewrite Z.div_0_l by lia. }
    assert (Hdl : delay_left d 0 = d) by (unfold delay_left; lia).
    assert (Hrl : rate_left d r 0 = r).
    { unfold rate_left. replace ((Z.of_nat 0 - d) `max` 0) with 0 by lia. rewrite Z.mod_0_l by lia. lia. }
    rewrite Hrep, Hdl, Hrl, M_bind_skip. unfold key_burst. rewrite (M_bind_run _ _ s _ s eq_refl), Hmode, B1.
    apply M_bind_ext; [done|]. intros [] s' E. apply Ha in E. unfold modify. by rewrite E.
  - rewrite <- M_bind_assoc.
    transitivity ((times (S (repeated d r n)) add;; modify (counters (delay_left d n) (rate_left d r n));;
      key_burst cmd (key .| 128)) s).
    { rewrite <- M_bind_assoc. apply M_bind_ext; [exact IH|done]. }
    pose proof (steady_times (S (repeated d r n)) add Ha s) as [_ Hs1].
    pose proof (repeated_step d r n Hd Hr) as Hstep.
    set (X := times (S (repeated d r n)) add) in *. set (dl := delay_left d n) in *. set (rl := rate_left d r n) in *.
    assert (Hburst : forall s1, s1 = with_keys (keys_of s1) s ->
      (modify (counters dl rl);; key_burst cmd (key .| 0x80)) s1 =
      if dl =? 0 then
        if rl =? 0 then (add;; modify (counters 0 r)) s1 else modify (counters dl (rl - 1)) s1
      else modify (counters (dl - 1) rl) s1).
    { intros s1 H1. rewrite (M_bind_run _ _ s1 _ _ eq_refl). unfold key_burst.
      rewrite (M_bind_run _ _ _ _ _ eq_refl).
      assert (Hm1 : KeyEmulationMode (counters dl rl s1) = KeyEmulationMode s) by (simpl; by rewrite H1).
      rewrite Hm1, Hmode, B2, (M_bind_run _ _ _ _ _ eq_refl).
      change (TypematicDelay (counters dl rl s1)) with dl.
      destruct (Z.eqb_spec dl 0) as [->|]; [|done].
      rewrite (M_bind_run _ _ _ _ _ eq_refl).
      change (TypematicRate (counters 0 rl s1)) with rl.
      destruct (Z.eqb_spec rl 0) as [->|]; [|done]. rewrite B3. fold add.
      unfold mbind, M_bind. rewrite (proj1 (Ha s1)). destruct (add s1) as [[[] s2]|] eqn:E2; [|done].
      apply Ha in E2.
      assert (Hd2 : DefaultTypematicRate s2 = r) by (rewrite E2, H1; done).
      unfold modify, counters. simpl. by rewrite Hd2. }
    destruct (dl =? 0) eqn:Hdl; [destruct (rl =? 0) eqn:Hrl|]; destruct Hstep as (-> & -> & ->).
    + rewrite M_bind_assoc. apply M_bind_ext; [done|]. intros [] s1 E1. apply Hburst, Hs1, E1.
    + apply Z.eqb_eq in Hdl. rewrite <- Hdl. apply M_bind_ext; [done|]. intros [] s1 E1. apply Hburst, Hs1, E1.
    + apply M_bind_ext; [done|]. intros [] s1 E1. apply Hburst, Hs1, E1.
Qed.

(** ** Examples *)

Section example.
#[local] Existing Instance example_kernel.
#[local] Existing Instance example_kernel_ok.

(** The remote control's file is open in emulation mode [mode]. *)
Definition with_rc (mode : Z) (s : tffp panel) : tffp panel :=
  s <| FrontPanelOpen := [0; 7; 0; 0] |> <| KeyEmulationMode := mode |>.
Definition rc_opened (mode : Z) : tffp panel := with_rc mode panel_loaded.
Lemma with_rc_ok mode s : fp_ok s -> fp_ok (with_rc mode s).
Proof. intros []. by constructor. Qed.
Lemma rc_opened_ok mode : fp_ok (rc_opened mode).
Proof. apply with_rc_ok, panel_loaded_ok. Qed.

Definition example_ops : list key_op := [KPress false 0x10; KPress true 0x0d; KRead; KRead; KRead].
Lemma tffp_keys_witness :
  exists s', key_ops_run 7 example_ops (rc_opened 0) = Ok (fst (queue_ops 0 example_ops []), s') /\
    s' = with_keys (keys_of s') (rc_opened 0) /\ coded 0 (snd (queue_ops 0 example_ops [])) (keys s').
Proof.
  apply (tffp_keys 7 example_ops [] (rc_opened 0)).
  - apply rc_opened_ok.
  - vm_compute; reflexivity.
  - vm_compute; reflexivity.
  - vm_compute; split; [reflexivity|constructor].
  - repeat (constructor; [vm_compute; try split; (discriminate || reflexivity)|]). constructor.
  - vm_compute; reflexivity.
Defined.

Lemma tffp_keys_replayed_witness :
  exists l1 s1 l2 s2, key_ops_run 7 (press_all (replicate 128 (false, 0x10))) (rc_opened 0) = Ok (l1, s1) /\
    key_ops_run 7 (replicate 1000 KRead) s1 = Ok (l2, s2) /\ Forall2 served (replicate 1000 KRead) l2 /\
    FrontPaneldev_poll s2 = Ok (POLLIN_POLLRDNORM, s2).
Proof.
  apply (tffp_keys_replayed 7 (replicate 128 (false, 0x10)) (replicate 1000 KRead) (rc_opened 0)).
  - apply rc_opened_ok.
  - vm_compute; reflexivity.
  - vm_compute; reflexivity.
  - vm_compute; reflexivity.
  - apply Forall_replicate. vm_compute; split; (discriminate || reflexivity).
  - rewrite length_replicate. lia.
  - apply Forall_replicate. exact I.
Defined.

Lemma tffp_typematic_witness :
  hold FPKEYPRESS 0x10 12 (rc_opened 1) =
  (times 5 (AddKeyToBuffer 0x10 false);; modify (counters 0 0)) (rc_opened 1).
Proof.
  exact (tffp_typematic FPKEYPRESS 0x10 12 (rc_opened 1) ltac:(lia) ltac:(vm_compute; discriminate)
    ltac:(vm_compute; discriminate) ltac:(vm_compute; discriminate)).
Defined.
End example.
