(* ===== verification/TffpText.v ===== *)
(** * Topfield front panel: texts

    The translation of UTF-8 to the single-byte characters of the display, in
    the caller's buffer. *)
From S2P Require Import Prelude TffpState TffpDisplay.

(** ** Arrays as lists with a position *)

Lemma aget_at {A} (l1 l2 : list A) x i : i = Z.of_nat (length l1) -> aget (l1 ++ x :: l2) i = Ok x.
Proof. intros ->. apply aget_Ok. split; [lia|]. rewrite Nat2Z.id. by apply list_lookup_middle. Qed.
Lemma aset_at {A} (l1 l2 : list A) x y i :
  i = Z.of_nat (length l1) -> aset (l1 ++ x :: l2) i y = Ok (l1 ++ y :: l2).
Proof.
  intros ->. rewrite aset_in by (rewrite length_app; simpl; lia). by rewrite Nat2Z.id, insert_app_r_alt, Nat.sub_diag by lia.
Qed.

(** ** UTF-8 of a Latin-1 character *)

Definition utf8 (c : Z) : list Z := if c <? 128 then [c] else [0xc0 .| (c ≫ 6); 0x80 .| (c .& 0x3f)].
Definition latin (c : Z) : Prop := 0 < c < 256.

Lemma utf8_bytes c : latin c -> 128 <= c ->
  0xbf < 0xc0 .| (c ≫ 6) <= 0xc3 /\ 0x80 <= 0x80 .| (c .& 0x3f) <= 0xbf /\
  (((0xc0 .| (c ≫ 6)) .& 0x03) ≪ 6) .| ((0x80 .| (c .& 0x3f)) .& 0x3f) = c.
Proof.
  intros Hc. assert (Hu : is_u8 c) by (unfold is_u8, latin in *; lia). clear Hc. by_bytes c Hu.
Qed.

(** ** One round

    The array is [dn ++ mid ++ bs ++ todo]: the characters written, the bytes
    between Dest and Source, the bytes of the character in front, the rest. *)

Implicit Types (dn mid todo : list Z).

(** The first byte after [dn] is written. *)
Lemma aset_front dn mid b todo x :
  aset (dn ++ mid ++ b :: todo) (Z.of_nat (length dn)) x = Ok ((dn ++ [x]) ++ tail (mid ++ [b]) ++ todo).
Proof.
  destruct mid as [|m mid]; simpl.
  - rewrite (aset_at dn todo b x) by done. by rewrite <- app_assoc.
  - rewrite (aset_at dn _ m x) by done. by rewrite <- !app_assoc.
Qed.

Lemma tl_length {A} (mid : list A) b : length (tail (mid ++ [b])) = length mid.
Proof. destruct mid; simpl; [done|]. rewrite length_app. simpl. lia. Qed.

Lemma aset_front_last dn mid b todo :
  aget ((dn ++ [b]) ++ tail (mid ++ [b]) ++ todo) (Z.of_nat (length dn + length mid)) = Ok b.
Proof.
  destruct mid as [|m mid]; simpl.
  - rewrite <- app_assoc. simpl. apply aget_at. lia.
  - rewrite <- !app_assoc. simpl.
    change (dn ++ b :: mid ++ b :: todo) with (dn ++ (b :: mid) ++ b :: todo). rewrite app_assoc.
    apply aget_at. rewrite length_app. simpl. lia.
Qed.

(** A character of one byte. *)
Lemma utf_round_1 fuel dn mid c todo : 0 < c <= 0xbf ->
  utf_loop (S fuel) (dn ++ mid ++ c :: todo) (Z.of_nat (length dn + length mid)) (Z.of_nat (length dn)) =
  utf_loop fuel ((dn ++ [c]) ++ tail (mid ++ [c]) ++ todo) (Z.of_nat (length dn + length mid) + 1)
    (Z.of_nat (length dn) + 1).
Proof.
  intros Hc. cbn [utf_loop].
  assert (Hg : aget (dn ++ mid ++ c :: todo) (Z.of_nat (length dn + length mid)) = Ok c).
  { rewrite app_assoc. apply aget_at. by rewrite length_app. }
  rewrite Hg. cbn. destruct (Z.eqb_spec c 0); [lia|]. unfold utf_char. rewrite Hg. cbn.
  destruct (Z.ltb_spec 0xbf c); [lia|]. rewrite aset_front. cbn. rewrite aset_front_last. cbn.
  by destruct (Z.eqb_spec c 0); [lia|].
Qed.

(** A character of two bytes that fits. *)
Lemma utf_round_2 fuel dn mid c todo : latin c -> 128 <= c ->
  utf_loop (S fuel) (dn ++ mid ++ utf8 c ++ todo) (Z.of_nat (length dn + length mid)) (Z.of_nat (length dn)) =
  utf_loop fuel ((dn ++ [c]) ++ (tail (mid ++ [0xc0 .| (c ≫ 6)]) ++ [0x80 .| (c .& 0x3f)]) ++ todo)
    (Z.of_nat (length dn + length mid) + 2) (Z.of_nat (length dn) + 1).
Proof.
  intros Hc Hb. destruct (utf8_bytes c Hc Hb) as (H1 & H2 & H3).
  unfold utf8. destruct (Z.ltb_spec c 128); [lia|].
  set (b1 := 0xc0 .| (c ≫ 6)) in *. set (b2 := 0x80 .| (c .& 0x3f)) in *. cbn [app].
  cbn [utf_loop].
  assert (Hg : aget (dn ++ mid ++ b1 :: b2 :: todo) (Z.of_nat (length dn + length mid)) = Ok b1).
  { rewrite app_assoc. apply aget_at. by rewrite length_app. }
  assert (Hg2 : aget (dn ++ mid ++ b1 :: b2 :: todo) (Z.of_nat (length dn + length mid) + 1) = Ok b2).
  { change (mid ++ b1 :: b2 :: todo) with (mid ++ [b1] ++ b2 :: todo). rewrite !app_assoc. apply aget_at.
    rewrite !length_app. simpl. lia. }
  rewrite Hg. cbn. destruct (Z.eqb_spec b1 0); [lia|]. unfold utf_char. rewrite Hg. cbn.
  destruct (Z.ltb_spec 0xbf b1); [|lia]. destruct (Z.ltb_spec 0xc3 b1); [lia|]. rewrite Hg2. cbn.
  rewrite aset_front, H3. cbn.
  assert (Hg3 : aget ((dn ++ [c]) ++ tail (mid ++ [b1]) ++ b2 :: todo) (Z.of_nat (length dn + length mid) + 1) = Ok b2).
  { rewrite app_assoc. apply aget_at. rewrite !length_app, tl_length. simpl. lia. }
  rewrite Hg3. cbn. destruct (Z.eqb_spec b2 0); [lia|]. rewrite <- (app_assoc _ [b2]). f_equal. lia.
Qed.

(** All characters that fit: [gap] bytes are saved. *)
Fixpoint gap (l : list Z) : nat := match l with [] => O | c :: l => (if c <? 128 then 0 else 1) + gap l end.

Lemma utf_latin l : forall fuel dn mid todo, Forall latin l ->
  exists mid', length mid' = (length mid + gap l)%nat /\
  utf_loop (length l + fuel) (dn ++ mid ++ concat (map utf8 l) ++ todo) (Z.of_nat (length dn + length mid))
    (Z.of_nat (length dn)) =
  utf_loop fuel ((dn ++ l) ++ mid' ++ todo) (Z.of_nat (length (dn ++ l) + length mid')) (Z.of_nat (length (dn ++ l))).
Proof.
  induction l as [|c l IH]; intros fuel dn mid todo Hl; cbn [map concat gap length Nat.add].
  { exists mid. rewrite app_nil_r. split; [lia|done]. }
  apply Forall_cons_1 in Hl as [Hc Hl]. rewrite <- app_assoc.
  destruct (Z.ltb_spec c 128) as [H|H].
  - assert (E : utf8 c = [c]) by (unfold utf8; destruct (Z.ltb_spec c 128); [done|lia]).
    rewrite E. cbn [app]. rewrite utf_round_1 by (unfold latin in Hc; lia).
    destruct (IH fuel (dn ++ [c]) (tail (mid ++ [c])) todo Hl) as (mid' & Hm & Hr).
    exists mid'. rewrite tl_length in Hm. split; [lia|].
    rewrite <- (app_assoc dn [c] l) in Hr. cbn [app] in Hr. rewrite <- Hr. f_equal.
    + rewrite tl_length, length_app. simpl. lia.
    + rewrite length_app. simpl. lia.
  - rewrite utf_round_2 by done.
    destruct (IH fuel (dn ++ [c]) (tail (mid ++ [0xc0 .| (c ≫ 6)]) ++ [0x80 .| (c .& 0x3f)]) todo Hl) as (mid' & Hm & Hr).
    exists mid'. rewrite length_app, tl_length in Hm. cbn [length] in Hm. split; [lia|].
    rewrite <- (app_assoc dn [c] l) in Hr. cbn [app] in Hr. rewrite <- Hr. f_equal.
    + rewrite !length_app, tl_length. simpl. lia.
    + rewrite length_app. simpl. lia.
Qed.

Lemma aget_head {A} (x : A) l : aget (x :: l) 0 = Ok x.
Proof. done. Qed.

Lemma utf_end fuel dn mid rest :
  exists tail, length tail = (length mid + length rest)%nat /\
  ('(a, Dest) ← utf_loop (S fuel) (dn ++ mid ++ 0 :: rest) (Z.of_nat (length dn + length mid)) (Z.of_nat (length dn));
   aset a Dest 0) = Ok (dn ++ 0 :: tail).
Proof.
  cbn [utf_loop].
  assert (Hg : aget (dn ++ mid ++ 0 :: rest) (Z.of_nat (length dn + length mid)) = Ok 0).
  { rewrite app_assoc. apply aget_at. by rewrite length_app. }
  rewrite Hg. cbn. rewrite aset_front. exists (tail (mid ++ [0]) ++ rest).
  rewrite length_app, tl_length, <- !app_assoc. done.
Qed.

(** The translation of a text that does not start with its end. *)
Lemma translate_text l todo : l <> [] -> Forall latin l ->
  TranslateUTFString (concat (map utf8 l) ++ todo) =
  ('(a, Dest) ← utf_loop (S (S (length (concat (map utf8 l) ++ todo)))) (concat (map utf8 l) ++ todo) 0 0;
   aset a Dest 0).
Proof.
  intros Hne Hl. destruct l as [|c l]; [done|]. apply Forall_cons_1 in Hl as [Hc _]. unfold TranslateUTFString.
  assert (Hg : exists b, aget (concat (map utf8 (c :: l)) ++ todo) 0 = Ok b /\ b <> 0).
  { cbn [map concat]. unfold utf8 at 1. destruct (Z.ltb_spec c 128) as [H|H]; cbn [app]; rewrite aget_head.
    - exists c. unfold latin in Hc. split; [done|lia].
    - destruct (utf8_bytes c Hc H) as (H1 & _ & _). exists (0xc0 .| (c ≫ 6)). split; [done|lia]. }
  destruct Hg as (b & -> & Hb). cbn [mbind res_bind]. by destruct (Z.eqb_spec b 0).
Qed.

Lemma utf8_length l : (length l <= length (concat (map utf8 l)))%nat.
Proof.
  induction l as [|c l IH]; [done|]. cbn [map concat length]. rewrite length_app. unfold utf8 at 1.
  destruct (c <? 128); simpl; lia.
Qed.

(** The part of the translation that is common to all texts. *)
Lemma translate_latin l todo : Forall latin l -> l <> [] ->
  exists n mid, length mid = gap l /\
  TranslateUTFString (concat (map utf8 l) ++ todo) =
  ('(a, Dest) ← utf_loop (S (S (length todo)) + n) (l ++ mid ++ todo) (Z.of_nat (length l + length mid)) (Z.of_nat (length l));
   aset a Dest 0).
Proof.
  intros Hl Hne. rewrite translate_text by done. pose proof (utf8_length l) as Hn. rewrite length_app.
  set (n := (length (concat (map utf8 l)) - length l)%nat).
  destruct (utf_latin l (S (S (length todo)) + n) [] [] todo Hl) as (mid & Hm & E).
  exists n, mid. split; [done|]. cbn [app length Nat.add] in E.
  replace (S (S (length (concat (map utf8 l)) + length todo)))
    with (length l + S (S (length todo + n)))%nat by (unfold n; lia).
  change (Z.of_nat 0) with 0 in E. by rewrite E.
Qed.

(** C24. Every text of Latin-1 characters survives the way through UTF-8: the
    driver's translation in place gives back the characters of their encoding,
    for every length of the buffer and whatever follows the terminator. *)
Theorem tffp_latin1 l rest :
  Forall latin l ->
  exists tail, TranslateUTFString (concat (map utf8 l) ++ 0 :: rest) = Ok (l ++ 0 :: tail) /\
    length (l ++ 0 :: tail) = length (concat (map utf8 l) ++ 0 :: rest).
Proof.
  intros Hl. destruct (decide (l = [])) as [->|Hne]; [by exists rest|].
  destruct (translate_latin l (0 :: rest) Hl Hne) as (n & mid & Hm & ->).
  destruct (utf_end (S (length (0 :: rest)) + n) l mid rest) as (tail & Ht & E). exists tail. split; [exact E|].
  rewrite !length_app. simpl. rewrite Ht, Hm.
  assert (Hg : length (concat (map utf8 l)) = (length l + gap l)%nat); [|lia].
  clear. induction l as [|c l IH]; [done|]. cbn [map concat gap length]. rewrite length_app, IH. unfold utf8.
  destruct (c <? 128); simpl; lia.
Qed.

(** ** Characters that do not fit *)

Lemma three_bytes e : 0xe0 <= e <= 0xef ->
  (e .& 0xe0 =? 0xc0) = false /\ (e .& 0xf0 =? 0xe0) = true.
Proof.
  intros He. assert (Hu : is_u8 e) by (unfold is_u8; lia). revert He. by_bytes e Hu.
Qed.

(** With bytes saved before, the whole character is skipped. *)
Lemma utf_star_behind fuel dn m mid e c1 c2 todo :
  0xe0 <= e <= 0xef -> c1 <> 0 -> c2 <> 0 ->
  exists mid', utf_loop (S fuel) (dn ++ (m :: mid) ++ e :: c1 :: c2 :: todo)
    (Z.of_nat (length dn + length (m :: mid))) (Z.of_nat (length dn)) =
  utf_loop fuel ((dn ++ [0x2a]) ++ mid' ++ todo) (Z.of_nat (length (dn ++ [0x2a]) + length mid')) (Z.of_nat (length (dn ++ [0x2a]))).
Proof.
  intros He H1 H2. destruct (three_bytes e He) as [E1 E2]. exists (mid ++ [e; c1; c2]).
  set (src := Z.of_nat (length dn + length (m :: mid))).
  assert (Hsrc : src = Z.of_nat (length dn) + 1 + Z.of_nat (length mid)) by (unfold src; simpl; lia).
  assert (Hg : aget (dn ++ (m :: mid) ++ e :: c1 :: c2 :: todo) src = Ok e).
  { rewrite app_assoc. apply aget_at. by rewrite length_app. }
  cbn [utf_loop]. rewrite Hg. cbn [mbind res_bind]. destruct (Z.eqb_spec e 0); [lia|].
  unfold utf_char. rewrite Hg. cbn [mbind res_bind].
  destruct (Z.ltb_spec 0xbf e); [|lia]. destruct (Z.ltb_spec 0xc3 e); [|lia]. unfold utf_invalid.
  rewrite aset_front. cbn [mbind res_bind tail app].
  set (a := (dn ++ [42]) ++ (mid ++ [e]) ++ c1 :: c2 :: todo).
  assert (Ha0 : aget a src = Ok e).
  { unfold a. rewrite app_assoc, app_assoc, <- app_assoc. apply aget_at. rewrite !length_app. simpl. lia. }
  assert (Ha1 : aget a (src + 1) = Ok c1).
  { unfold a. rewrite app_assoc. apply aget_at. rewrite !length_app. simpl. lia. }
  assert (Ha2 : aget a (src + 1 + 1) = Ok c2).
  { unfold a. change (c1 :: c2 :: todo) with ([c1] ++ c2 :: todo). rewrite !app_assoc. apply aget_at.
    rewrite !length_app. simpl. lia. }
  rewrite Ha0. cbn [mbind res_bind]. rewrite E1, E2. unfold past_byte. rewrite Ha1. cbn [mbind res_bind].
  destruct (Z.eqb_spec c1 0); [done|]. cbn [mret res_ret mbind res_bind]. rewrite Ha2. cbn [mbind res_bind].
  destruct (Z.eqb_spec c2 0); [done|]. unfold a. f_equal.
  - by rewrite <- !app_assoc.
  - rewrite !length_app. simpl. lia.
  - rewrite length_app. simpl. lia.
Qed.

(** Without, the star overwrites the byte that says how long the character is. *)
Lemma utf_star_here fuel dn e todo : 0xe0 <= e <= 0xef ->
  utf_loop (S fuel) (dn ++ e :: todo) (Z.of_nat (length dn)) (Z.of_nat (length dn)) =
  utf_loop fuel ((dn ++ [0x2a]) ++ todo) (Z.of_nat (length dn) + 1) (Z.of_nat (length dn) + 1).
Proof.
  intros He. assert (Hg : forall x, aget (dn ++ x :: todo) (Z.of_nat (length dn)) = Ok x) by (intros; by apply aget_at).
  cbn [utf_loop]. rewrite Hg. cbn [mbind res_bind].
  destruct (Z.eqb_spec e 0); [lia|]. unfold utf_char. rewrite Hg. cbn [mbind res_bind].
  destruct (Z.ltb_spec 0xbf e); [|lia]. destruct (Z.ltb_spec 0xc3 e); [|lia]. unfold utf_invalid.
  rewrite (aset_at dn todo e 0x2a _ eq_refl). cbn [mbind res_bind]. rewrite Hg. cbn [mbind res_bind].
  change (42 .& 224 =? 192) with false. change (42 .& 240 =? 224) with false. change (42 .& 248 =? 240) with false.
  cbn [mret res_ret mbind res_bind]. rewrite Hg. cbn [mbind res_bind].
  change (42 =? 0) with false. cbv iota. by rewrite <- app_assoc.
Qed.

(** Characters of one byte with nothing saved. *)
Lemma utf_plain fuel dn c todo i : 0 < c <= 0xbf -> i = Z.of_nat (length dn) ->
  utf_loop (S fuel) (dn ++ c :: todo) i i = utf_loop fuel ((dn ++ [c]) ++ todo) (i + 1) (i + 1).
Proof.
  intros Hc ->. pose proof (utf_round_1 fuel dn [] c todo Hc) as E. cbn [app tail length] in E.
  by rewrite Nat.add_0_r in E.
Qed.

(** A character of three bytes, which does not fit, becomes one star only
    if a two-byte character came before it; otherwise the star is written over
    the first byte before that byte is looked at, and its two continuation bytes
    are shown as characters. *)
Theorem tffp_star l e c1 c2 rest :
  Forall latin l -> l <> [] -> 0xe0 <= e <= 0xef -> 0x80 <= c1 <= 0xbf -> 0x80 <= c2 <= 0xbf ->
  exists tail, TranslateUTFString (concat (map utf8 l) ++ e :: c1 :: c2 :: 0 :: rest) =
    Ok (l ++ (if forallb (fun c => c <? 128) l then [0x2a; c1; c2] else [0x2a]) ++ 0 :: tail).
Proof.
  intros Hl Hne He H1 H2.
  destruct (translate_latin l (e :: c1 :: c2 :: 0 :: rest) Hl Hne) as (n & mid & Hm & ->).
  assert (Hg : forallb (fun c => c <? 128) l = (gap l =? 0)%nat).
  { clear. induction l as [|c l IH]; [done|]. cbn [forallb gap]. rewrite IH. by destruct (c <? 128). }
  rewrite Hg. destruct (Nat.eqb_spec (gap l) 0) as [Hg0|Hg0].
  - rewrite Hg0 in Hm. apply length_zero_iff_nil in Hm as ->. rewrite Nat.add_0_r. cbn [app length Nat.add].
    rewrite utf_star_here by done.
    rewrite utf_plain by (rewrite ?length_app; simpl; lia).
    rewrite utf_plain by (rewrite ?length_app; simpl; lia).
    set (dn := ((l ++ [42]) ++ [c1]) ++ [c2]).
    destruct (utf_end (S (S (length rest + n))) dn [] rest) as (tail & _ & E). exists tail.
    replace (Z.of_nat (length l) + 1 + 1 + 1) with (Z.of_nat (length dn))
      by (unfold dn; rewrite !length_app; simpl; lia).
    cbn [app length] in E. rewrite Nat.add_0_r in E. rewrite E. unfold dn. by rewrite <- !app_assoc.
  - destruct mid as [|m mid]; [simpl in Hm; lia|]. cbn [length Nat.add].
    destruct (utf_star_behind (S (S (S (S (S (length rest + n)))))) l m mid e c1 c2 (0 :: rest) He) as (mid' & E); [lia..|].
    cbn [length] in E. rewrite E.
    destruct (utf_end (S (S (S (S (length rest + n))))) (l ++ [42]) mid' rest) as (tail & _ & E'). exists tail.
    rewrite E'. by rewrite <- app_assoc.
Qed.

(** ** Examples *)

(** "Käse": the encoding of four characters takes five bytes. *)
Lemma tffp_latin1_witness :
  exists tail, TranslateUTFString (concat (map utf8 [0x4b; 0xe4; 0x73; 0x65]) ++ [0]) = Ok ([0x4b; 0xe4; 0x73; 0x65] ++ 0 :: tail) /\
    length ([0x4b; 0xe4; 0x73; 0x65] ++ 0 :: tail) = length (concat (map utf8 [0x4b; 0xe4; 0x73; 0x65]) ++ [0]).
Proof. apply (tffp_latin1 [0x4b; 0xe4; 0x73; 0x65] []). repeat (constructor; [unfold latin; lia|]). constructor. Defined.

(** "1€" *)
Lemma tffp_star_witness :
  exists tail, TranslateUTFString [0x31; 0xe2; 0x82; 0xac; 0] = Ok ([0x31; 0x2a; 0x82; 0xac] ++ 0 :: tail).
Proof.
  apply (tffp_star [0x31] 0xe2 0x82 0xac []); [|done|lia..]. constructor; [unfold latin; lia|constructor].
Defined.
