(* ===== verification/TffpConfig.v ===== *)
(** * Topfield front panel: the configuration in the EEPROM

    The layout of the record, the transfers in bursts with their retries, and
    the round trip through the memory of the concrete panel. *)
From S2P Require Import Prelude TffpState TffpDisplay TffpFrame TffpInv TffpTypes TffpText.

#[local] Arguments replicate : simpl never.

(** ** Layout *)

Definition bit (x : Z) : Prop := x = 0 \/ x = 1.
Record config_fits (c : tTffpConfig) : Prop := {
  cf_crc : is_u16 (crc c); cf_version : is_u8 (version c); cf_ok : config_ok c;
  cf_filter1 : bit (irFilter1 c); cf_filter2 : bit (irFilter2 c); cf_filter3 : bit (irFilter3 c);
  cf_filter4 : bit (irFilter4 c); cf_caps : bit (allCaps c); cf_pad_u8 : is_u8 (cfg_pad c)
}.

Lemma two_bytes x : u8 x .| (u8 (x ≫ 8) ≪ 8) = x mod 2 ^ 16.
Proof.
  rewrite Z.lor_comm, lor_shift by (try lia; apply is_u8_u8). unfold u8. rewrite Z.shiftr_div_pow2 by lia.
  Z.div_mod_to_equations. lia.
Qed.

Lemma packed_byte b i1 i2 i3 i4 a :
  0 <= b < 8 -> bit i1 -> bit i2 -> bit i3 -> bit i4 -> bit a ->
  let x := u8 (b .| (i1 ≪ 3) .| (i2 ≪ 4) .| (i3 ≪ 5) .| (i4 ≪ 6) .| (a ≪ 7)) in
  x .& 7 = b /\ (x ≫ 3) .& 1 = i1 /\ (x ≫ 4) .& 1 = i2 /\ (x ≫ 5) .& 1 = i3 /\ (x ≫ 6) .& 1 = i4 /\
  (x ≫ 7) .& 1 = a.
Proof.
  intros Hb. assert (Hc : b = 0 \/ b = 1 \/ b = 2 \/ b = 3 \/ b = 4 \/ b = 5 \/ b = 6 \/ b = 7) by lia.
  intros H1 H2 H3 H4 Ha. clear Hb.
  destruct H1 as [->| ->], H2 as [->| ->], H3 as [->| ->], H4 as [->| ->], Ha as [->| ->];
    destruct Hc as [->|[->|[->|[->|[->|[->|[->| ->]]]]]]]; vm_compute; done.
Qed.

Lemma config_bytes_u8 c : Forall is_u8 (config_bytes c).
Proof. unfold config_bytes. repeat (constructor; [apply is_u8_u8|]). constructor. Qed.

(** The bytes of a record give it back. *)
Lemma config_layout c : config_fits c -> config_of_bytes (config_bytes c) = c.
Proof.
  intros [Hcrc Hv [Hb Hd Hr Hm Hp Hs Hg] H1 H2 H3 H4 Ha Hpad].
  destruct (packed_byte _ _ _ _ _ _ Hb H1 H2 H3 H4 Ha) as (P1 & P2 & P3 & P4 & P5 & P6).
  unfold config_of_bytes, config_bytes. cbn [nth]. rewrite P1, P2, P3, P4, P5, P6, !two_bytes, !(u8_id _) by done.
  rewrite Z.mod_small by done.
  assert (Hs16 : s16 (gmtOffset c mod 2 ^ 16) = gmtOffset c).
  { unfold s16, u16. rewrite Z.mod_mod by lia.
    destruct (Z.ltb_spec (gmtOffset c mod 2 ^ 16) (2 ^ 15)); Z.div_mod_to_equations; lia. }
  rewrite Hs16. by destruct c.
Qed.

(** ** Transfers *)

Section eeprom.
Context `{HK : FpKernel} `{HO : !FpKernelOk}.
Implicit Types s : tffp panel.

(** A burst is repeated until the memory takes it, eleven times at most. *)
Lemma write_burst_run n off bytes : forall s,
  write_burst n (off :: bytes) s =
  Ok (bool_decide (p_busy (fp_io s) < n)%nat,
      s <| fp_io := if bool_decide (p_busy (fp_io s) < n)%nat
                    then snd (eeprom_put (off :: bytes) ((fp_io s) <| p_busy := 0%nat |>))
                    else (fp_io s) <| p_busy := (p_busy (fp_io s) - n)%nat |> |>).
Proof.
  induction n as [|n IH]; intros s; cbn [write_burst].
  { rewrite bool_decide_false by lia. rewrite Nat.sub_0_r. by destruct s as [[] ?]. }
  destruct (p_busy (fp_io s)) as [|b] eqn:Hb.
  - rewrite bool_decide_true by lia.
    rewrite (M_bind_run _ _ s true (s <| fp_io := snd (eeprom_put (off :: bytes) ((fp_io s) <| p_busy := 0%nat |>)) |>)).
    + done.
    + unfold fp_call. simpl i2c_put. unfold eeprom_put. rewrite Hb. simpl. by destruct s as [[] ?].
  - rewrite (M_bind_run _ _ s false (s <| fp_io := (fp_io s) <| p_busy := b |> |>)).
    + rewrite IH. simpl p_busy. destruct (decide (b < n)%nat) as [Hlt|Hge].
      * rewrite !bool_decide_true by lia. by destruct s as [[] ?].
      * rewrite !bool_decide_false by lia. by destruct s as [[] ?].
    + unfold fp_call. simpl i2c_put. unfold eeprom_put. by rewrite Hb.
Qed.

(** The memory with [bytes] at [off]. *)
Definition patched (off : nat) (bytes e : list Z) : list Z :=
  take off e ++ bytes ++ drop (off + length bytes) e.

Lemma patched_twice off a b e : (off + length a + length b <= length e)%nat ->
  patched (off + length a) b (patched off a e) = patched off (a ++ b) e.
Proof.
  intros Hl. unfold patched. rewrite length_app.
  assert (Ht : length (take off e) = off) by (rewrite length_take; lia).
  rewrite (take_app_ge (take off e)) by lia. rewrite Ht.
  replace (off + length a - off)%nat with (length a) by lia. rewrite take_app_length.
  rewrite (drop_app_ge (take off e)) by lia. rewrite Ht.
  replace (off + length a + length b - off)%nat with (length a + length b)%nat by lia.
  rewrite (drop_app_ge a) by lia. replace (length a + length b - length a)%nat with (length b) by lia.
  rewrite drop_drop, <- !app_assoc.
  by replace (off + length a + length b)%nat with (off + (length a + length b))%nat by lia.
Qed.

(** One round: the byte in front of the burst takes its address. *)
Lemma write_bursts_step n off len pre x bs post s :
  Z.of_nat (length pre) < len ->
  Z.of_nat (length bs) = (if 8 <? len - Z.of_nat (length pre) then 8 else len - Z.of_nat (length pre)) ->
  write_bursts (S n) (Z.of_nat (length pre)) off len (pre ++ x :: bs ++ post) s =
  (ok ← write_burst 11 (u8 (off + Z.of_nat (length pre)) :: bs);
   if (ok : bool) then write_bursts n (Z.of_nat (length pre) + 8) off len
                         (pre ++ u8 (off + Z.of_nat (length pre)) :: bs ++ post)
   else mret (-1)) s.
Proof.
  intros Hi Hb. cbn [write_bursts]. destruct (Z.ltb_spec (Z.of_nat (length pre)) len); [|lia]. cbv zeta.
  unfold EEPROM_BURST_SIZE in *. rewrite <- Hb.
  rewrite (M_bind_run _ _ _ _ _ (lift_run _ _ _ (aset_at pre (bs ++ post) x _ _ eq_refl))).
  assert (Hs : aslice (pre ++ u8 (off + Z.of_nat (length pre)) :: bs ++ post) (Z.of_nat (length pre))
    (1 + Z.of_nat (length bs)) = Ok (u8 (off + Z.of_nat (length pre)) :: bs)).
  { apply aslice_Ok. rewrite length_app. cbn [length]. rewrite length_app. split_and!; [lia..|].
    rewrite Nat2Z.id, drop_app_length. replace (Z.to_nat (1 + Z.of_nat (length bs))) with (S (length bs)) by lia.
    cbn [take]. by rewrite take_app_length. }
  by rewrite (M_bind_run _ _ _ _ _ (lift_run _ _ _ Hs)).
Qed.

(** The record is written in two bursts, eight bytes and four: how many bytes of
    it the memory takes. *)
Definition taken (d : panel) : nat :=
  if (10 <? p_busy d)%nat then 0 else if (10 <? p_cycle d)%nat then 8 else 12.

Lemma patched_nil off e : patched off [] e = e.
Proof. unfold patched. rewrite Nat.add_0_r. apply take_drop. Qed.

Lemma writeEepromData_run bytes s :
  length bytes = 12%nat -> (140 <= length (p_eeprom (fp_io s)))%nat ->
  exists d, writeEepromData TFFP_CFG_OFFSET 12 bytes s =
    Ok (if (taken (fp_io s) =? 12)%nat then 12 else -1, s <| fp_io := d |>) /\
    p_eeprom d = patched 128 (take (taken (fp_io s)) bytes) (p_eeprom (fp_io s)).
Proof.
  intros Hl He. do 12 (destruct bytes as [|? bytes]; [done|]). destruct bytes; [clear Hl|done].
  unfold writeEepromData. change (256 <? 12) with false. cbv iota zeta.
  pose proof (junk_length 260) as Hj. destruct (stack_junk 260) as [|j junk] eqn:Ej; [done|].
  set (bs1 := [z; z0; z1; z2; z3; z4; z5; z6]). set (bs2 := [z7; z8; z9; z10]).
  assert (Hc : amemcpy (j :: junk) 1 (bs1 ++ bs2) 0 12 = Ok ([] ++ j :: bs1 ++ bs2 ++ drop 12 junk)).
  { apply amemcpy_Ok. rewrite Hj. split_and!; try lia; [simpl; lia|done]. }
  change [z; z0; z1; z2; z3; z4; z5; z6; z7; z8; z9; z10] with (bs1 ++ bs2).
  rewrite (M_bind_run _ _ _ _ _ (lift_run _ _ _ Hc)). set (rest := drop 12 junk).
  change 33%nat with (S (S (S 30))).
  rewrite (write_bursts_step _ _ 12 [] j bs1 (bs2 ++ rest)) by done.
  change (u8 (TFFP_CFG_OFFSET + Z.of_nat (length (@nil Z)))) with 128.
  rewrite (M_bind_run _ _ _ _ _ (write_burst_run 11 128 bs1 s)). unfold taken.
  destruct (Nat.ltb_spec 10 (p_busy (fp_io s))) as [Hb|Hb].
  { rewrite bool_decide_false by lia. eexists. split; [reflexivity|]. by rewrite patched_nil. }
  rewrite bool_decide_true by lia. set (d1 := snd _).
  assert (Hd1 : d1 = (fp_io s) <| p_eeprom := patched 128 bs1 (p_eeprom (fp_io s)) |> <| p_busy := p_cycle (fp_io s) |>) by done.
  set (pre := [128; z; z0; z1; z2; z3; z4; z5]).
  change ([] ++ 128 :: bs1 ++ bs2 ++ rest) with (pre ++ z6 :: bs2 ++ rest).
  change (Z.of_nat (length (@nil Z)) + 8) with (Z.of_nat (length pre)).
  rewrite (write_bursts_step 31 TFFP_CFG_OFFSET 12 pre z6 bs2 rest) by done.
  change (u8 (TFFP_CFG_OFFSET + Z.of_nat (length pre))) with 136.
  rewrite (M_bind_run _ _ _ _ _ (write_burst_run 11 136 bs2 _)).
  change (fp_io (s <| fp_io := d1 |>)) with d1. rewrite Hd1. simpl p_busy.
  destruct (Nat.ltb_spec 10 (p_cycle (fp_io s))) as [Hy|Hy].
  { rewrite !(bool_decide_false (p_cycle (fp_io s) < 11)%nat) by lia. eexists. by split. }
  rewrite !(bool_decide_true (p_cycle (fp_io s) < 11)%nat) by lia. eexists. split; [reflexivity|].
  change (take 12 (bs1 ++ bs2)) with (bs1 ++ bs2). rewrite <- (patched_twice 128 bs1 bs2) by (change (length bs1) with 8%nat; change (length bs2) with 4%nat; lia).
  done.
Qed.

(** The record that writeTffpConfig stores. *)
Definition sealed (c : tTffpConfig) : tTffpConfig :=
  c <| crc := u16 (crc16 0 (drop 2 (config_bytes c))) |>.

Lemma writeTffpConfig_run s :
  version (tffpConfig s) = TFFP_CFG_VERSION -> (140 <= length (p_eeprom (fp_io s)))%nat ->
  exists s', writeTffpConfig s = Ok (if (taken (fp_io s) =? 12)%nat then 0 else -1, s') /\
    tffpConfig s' = sealed (tffpConfig s) /\
    p_eeprom (fp_io s') =
      patched 128 (take (taken (fp_io s)) (config_bytes (sealed (tffpConfig s)))) (p_eeprom (fp_io s)).
Proof.
  intros Hv He. unfold writeTffpConfig. rewrite (M_bind_run _ _ _ _ _ eq_refl), (M_bind_run _ _ _ _ _ eq_refl).
  set (s1 := s <| tffpConfig := _ |>).
  assert (Hc : tffpConfig s1 = sealed (tffpConfig s)).
  { unfold s1, sealed. simpl. rewrite <- Hv. by destruct (tffpConfig s). }
  rewrite Hc. destruct (writeEepromData_run (config_bytes (sealed (tffpConfig s))) s1 eq_refl He) as (d & E & H1).
  exists (s1 <| fp_io := d |>). rewrite (M_bind_run _ _ _ _ _ E).
  change (fp_io s1) with (fp_io s) in *. split; [by destruct (_ =? 12)%nat|]. by split.
Qed.

Lemma config_bytes_length c : length (config_bytes c) = 12%nat.
Proof. done. Qed.

Lemma config_bytes_crc c v : drop 2 (config_bytes (c <| crc := v |>)) = drop 2 (config_bytes c).
Proof. done. Qed.

(** What a written record reads as. *)
Lemma readTffpConfig_run c e s :
  config_fits c -> version c = TFFP_CFG_VERSION -> (140 <= length e)%nat ->
  (forall l, Forall is_u8 l -> is_u16 (crc16 0 l)) ->
  p_busy (fp_io s) = 0%nat -> p_eeprom (fp_io s) = patched 128 (config_bytes (sealed c)) e ->
  readTffpConfig s = Ok (0, s <| tffpConfig := sealed c |>).
Proof.
  intros Hc Hv He Hcrc Hb Hp. unfold readTffpConfig, readEepromData.
  assert (Hfits : config_fits (sealed c)).
  { destruct Hc as [? ? []]. constructor; try done; try (apply Z.mod_pos_bound; lia). }
  assert (E : fp_call (i2c_get TFFP_CFG_OFFSET 12) s = Ok (Some (config_bytes (sealed c)), s)).
  { unfold fp_call. simpl i2c_get. unfold eeprom_get. rewrite Hb, Hp.
    change (Z.to_nat TFFP_CFG_OFFSET) with 128%nat. change (Z.to_nat 12) with 12%nat. unfold patched.
    rewrite drop_app_ge by (rewrite length_take; lia). rewrite length_take.
    replace (128 - 128 `min` length e)%nat with 0%nat by lia. rewrite drop_0.
    rewrite take_app_le by (by rewrite config_bytes_length). rewrite take_ge by (by rewrite config_bytes_length).
    rewrite (map_u8_id _ (config_bytes_u8 _)). by destruct s. }
  rewrite (M_bind_run _ _ _ _ _ E). cbv zeta. rewrite (config_layout _ Hfits).
  change (version (sealed c)) with (version c). rewrite Hv. change (TFFP_CFG_VERSION =? TFFP_CFG_VERSION) with true.
  assert (Hs : crc16 0 (drop 2 (config_bytes (sealed c))) = crc (sealed c)).
  { unfold sealed. rewrite config_bytes_crc. symmetry. apply Z.mod_small, Hcrc, Forall_drop, config_bytes_u8. }
  rewrite Hs, Z.eqb_refl. done.
Qed.
End eeprom.

(** C23. A configuration that has been stored is what the driver starts with the
    next time. The record goes out in bursts of eight and four bytes, each tried
    eleven times. When the EEPROM takes both, writing succeeds and changes just
    the twelve bytes of the record, and reading them after a restart accepts
    version and checksum and gives every field back. When it refuses a burst
    eleven times writing reports the error, and the memory is left as it was
    only if that was the first burst: after the second it holds the first eight
    bytes of the new record before the last four of the old one. *)
Theorem tffp_config_roundtrip `{!FpKernel} `{!FpKernelOk} (s : tffp panel) :
  config_fits (tffpConfig s) -> version (tffpConfig s) = TFFP_CFG_VERSION ->
  (140 <= length (p_eeprom (fp_io s)))%nat -> (forall l, Forall is_u8 l -> is_u16 (crc16 0 l)) ->
  let n := if (10 <? p_busy (fp_io s))%nat then 0%nat else if (10 <? p_cycle (fp_io s))%nat then 8%nat else 12%nat in
  exists s1, writeTffpConfig s = Ok (if (n =? 12)%nat then 0 else -1, s1) /\
    tffpConfig s1 = sealed (tffpConfig s) /\
    p_eeprom (fp_io s1) = patched 128 (take n (config_bytes (tffpConfig s1))) (p_eeprom (fp_io s)) /\
    (n = 12%nat -> forall d, p_eeprom d = p_eeprom (fp_io s1) -> p_busy d = 0%nat ->
     exists s2, readTffpConfig (tffp_boot d) = Ok (0, s2) /\ tffpConfig s2 = tffpConfig s1).
Proof.
  intros Hc Hv He Hcrc. destruct (writeTffpConfig_run s Hv He) as (s1 & E & Ht & Hw).
  fold (taken (fp_io s)). exists s1. rewrite Ht. split_and!; [done..|]. intros Hn d Hd Hb. rewrite Hn in Hw.
  assert (Hp : p_eeprom d = patched 128 (config_bytes (sealed (tffpConfig s))) (p_eeprom (fp_io s))) by (by rewrite Hd, Hw).
  eexists. split; [by eapply readTffpConfig_run|done].
Qed.

(** ** Example *)

Section example.
#[local] Existing Instance example_kernel.
#[local] Existing Instance example_kernel_ok.

Lemma u16_land x : is_u16 x -> x .& Z.ones 16 = x.
Proof. intros Hx. rewrite Z.land_ones by lia. by apply Z.mod_small. Qed.
Lemma is_u16_lxor x y : is_u16 x -> is_u16 y -> is_u16 (Z.lxor x y).
Proof.
  intros Hx Hy. rewrite <- (u16_land x Hx), <- (u16_land y Hy).
  replace (Z.lxor (x .& Z.ones 16) (y .& Z.ones 16)) with (Z.lxor x y .& Z.ones 16); [apply land_mask; lia|].
  apply Z.bits_inj'. intros b Hb. rewrite !Z.lxor_spec, !Z.land_spec, Z.lxor_spec.
  by destruct (Z.testbit x b), (Z.testbit y b), (Z.testbit (Z.ones 16) b).
Qed.
Lemma crc_bit_u16 c : is_u16 c -> is_u16 (crc_bit c).
Proof.
  intros Hc. assert (Hs : is_u16 (c ≫ 1)).
  { unfold is_u16 in *. rewrite Z.shiftr_div_pow2 by lia. change (2 ^ 1) with 2. Z.div_mod_to_equations. lia. }
  unfold crc_bit. destruct (Z.odd c); [|done]. apply is_u16_lxor; [done|]. unfold is_u16. lia.
Qed.
Lemma crc_byte_u16 c b : is_u16 c -> is_u8 b -> is_u16 (crc_byte c b).
Proof.
  intros Hc Hb. unfold crc_byte. assert (H : is_u16 (Z.lxor c b)).
  { apply is_u16_lxor; [done|]. unfold is_u8, is_u16 in *. lia. }
  revert H. generalize (Z.lxor c b). generalize 8%nat. intros n. induction n as [|n IH]; intros x Hx; simpl; [done|].
  by apply crc_bit_u16, IH.
Qed.
Lemma example_crc_u16 l : Forall is_u8 l -> is_u16 (crc16 0 l).
Proof.
  intros Hl. simpl. assert (H : is_u16 0) by (unfold is_u16; lia). revert H. generalize 0.
  induction Hl as [|b l Hb _ IH]; intros c Hc; simpl; [done|]. by apply IH, crc_byte_u16.
Qed.

(** The default configuration on an EEPROM that is busy five times after each
    write. *)
Definition fresh : tffp panel := (tffp_boot example_panel) <| tffpConfig := defaultConfig |>.

(** One that is busy for longer than the driver waits. *)
Definition slow : tffp panel := fresh <| fp_io := Panel [] [] ∅ (replicate 256 0) 0 20 0 |>.

Lemma fresh_fits : config_fits defaultConfig.
Proof. constructor; try (by left); try (by right); try (by unfold is_u8, is_u16). Qed.

Lemma tffp_config_roundtrip_witness :
  (exists s1, writeTffpConfig fresh = Ok (0, s1) /\ tffpConfig s1 = sealed defaultConfig /\
    exists s2, readTffpConfig (tffp_boot (Panel [] [] ∅ (p_eeprom (fp_io s1)) 0 0 0)) = Ok (0, s2) /\
      tffpConfig s2 = sealed defaultConfig) /\
  exists s1, writeTffpConfig slow = Ok (-1, s1) /\
    p_eeprom (fp_io s1) = patched 128 (take 8 (config_bytes (sealed defaultConfig))) (p_eeprom example_panel).
Proof.
  split.
  - destruct (tffp_config_roundtrip fresh fresh_fits eq_refl) as (s1 & E & C & _ & R);
      [vm_compute; lia|apply example_crc_u16|].
    exists s1. split; [exact E|]. split; [exact C|].
    destruct (R eq_refl (Panel [] [] ∅ (p_eeprom (fp_io s1)) 0 0 0) eq_refl eq_refl) as (s2 & E2 & C2).
    exists s2. split; [exact E2|]. rewrite C2. exact C.
  - destruct (tffp_config_roundtrip slow fresh_fits eq_refl) as (s1 & E & C & P & _);
      [vm_compute; lia|apply example_crc_u16|].
    exists s1. split; [exact E|]. rewrite C in P. exact P.
Defined.
End example.
