(* ===== verification/TffpClock.v ===== *)
(** * Topfield front panel: setting the clock and reading it

    The date is sent in 16 bits, and comes back with the weekday in the byte of
    the hour.  The theorem follows a time from gmtime through the message, the
    interrupt handler and the task to mktime. *)
From S2P Require Import Prelude TffpState TffpDisplay TffpTime TffpInput TffpFrame TffpInv TffpTypes TffpCalendar TffpReceive.

(** What the clock relies on: the kernel's mktime counts the seconds since 1970
    of a Gregorian date, here up to 2038. *)
Class CalendarKernel `{FpKernel} := {
  mktime_date : forall n h mi se, Z.of_nat n <= 24855 -> 0 <= h < 24 -> 0 <= mi < 60 -> 0 <= se < 60 ->
    mktime (d_year (date_of n)) (d_month (date_of n)) (d_day (date_of n)) h mi se
    = Z.of_nat n * 86400 + h * 3600 + mi * 60 + se
}.

(** Seconds of the year 2000 and later that a signed number can hold. *)
Definition clock_range (x : Z) : Prop := 946684800 <= x < 2 ^ 31.

(** The clock message of a time, with the weekday that the panel adds. *)
Definition time_message (x dow : Z) : list Z :=
  let t := broken_down x in
  let w := (ft_year t - 2000) * 512 + ft_month t * 32 + ft_day t in
  [FPDATETIMENEW; w / 256; w mod 256; dow * 32 + ft_hour t; ft_min t; ft_sec t].

Lemma clock_range_u32 x : clock_range x -> u32 x = x /\ s32 x = x.
Proof. intros Hx. unfold clock_range in Hx. split; [apply Z.mod_small|apply s32_small]; lia. Qed.

(** 1 January 2000 is day 10957; dates do not get smaller. *)
Lemma year_2000 n : 10957 <= Z.of_nat n -> 2000 <= d_year (date_of n).
Proof.
  intros Hn. pose proof (date_of_valid n) as Hv. pose proof (day_in_year _ Hv) as Hy.
  rewrite day_number_date_of in Hy. unfold valid_date in Hv.
  destruct (decide (2000 <= d_year (date_of n))) as [|Hlt]; [done|].
  pose proof (year_days_mono (S (Z.to_nat (d_year (date_of n) - 1970))) 30 ltac:(lia)) as Hm.
  assert (year_days 30 = 10957) by reflexivity. lia.
Qed.

(** The parts of a time in range. *)
Record parts (x : Z) : Prop := {
  part_year : 0 <= ft_year (broken_down x) - 2000 < 128;
  part_month : 0 <= ft_month (broken_down x) < 16;
  part_day : 0 <= ft_day (broken_down x) < 32;
  part_hour : 0 <= ft_hour (broken_down x) < 24;
  part_min : 0 <= ft_min (broken_down x) < 60;
  part_sec : 0 <= ft_sec (broken_down x) < 60;
  part_sum : x / 86400 * 86400 + ft_hour (broken_down x) * 3600 + ft_min (broken_down x) * 60
             + ft_sec (broken_down x) = x
}.

Lemma parts_of x : clock_range x -> parts x.
Proof.
  unfold clock_range. intros Hx.
  assert (Hd : 10957 <= x / 86400 <= 24855).
  { split; [apply Z.div_le_lower_bound; lia|]. apply Z.lt_succ_r, Z.div_lt_upper_bound; lia. }
  pose proof (date_of_valid (Z.to_nat (x / 86400))) as (_ & Hm & Hn).
  pose proof (month_days_range (d_year (date_of (Z.to_nat (x / 86400)))) (d_month (date_of (Z.to_nat (x / 86400))))).
  destruct (find_date (Z.to_nat (x / 86400))) as (_ & _ & _ & Hy); [lia|].
  pose proof (year_2000 (Z.to_nat (x / 86400)) ltac:(lia)).
  pose proof (Z.mod_pos_bound x 86400 ltac:(lia)) as Hmod.
  destruct (time_of_day (x mod 86400)) as (T1 & T2 & T3); [lia|].
  pose proof (Z.div_mod x 86400 ltac:(lia)).
  constructor; unfold broken_down; cbn -[date_of Z.div Z.modulo]; try lia.
Qed.

(** The date is packed without loss. *)
Lemma pack_date_run x : clock_range x ->
  pack_date (broken_down x)
  = (ft_year (broken_down x) - 2000) * 512 + ft_month (broken_down x) * 32 + ft_day (broken_down x).
Proof.
  intros Hx. destruct (parts_of x Hx) as [Hy Hm Hd _ _ _ _]. unfold pack_date.
  generalize dependent (broken_down x). intros [y m d] Hy Hm Hd. cbn in *.
  change 0x7f with (Z.ones 7). change 0xf with (Z.ones 4). change 0x1f with (Z.ones 5).
  rewrite !Z.land_ones, !(Z.mod_small) by lia.
  rewrite <- Z.lor_assoc, (lor_shift m d 5) by lia. rewrite lor_shift by lia.
  unfold u16. rewrite Z.mod_small by lia. lia.
Qed.

Lemma is_byte_all l : Forall is_u8 l -> forallb is_byte l = true.
Proof.
  induction 1 as [|b l Hb _ IH]; [done|]. cbn [forallb]. rewrite IH. unfold is_byte, is_u8 in *. lia.
Qed.

Lemma time_message_ok x dow : clock_range x -> 0 <= dow < 7 ->
  message_ok (time_message x dow) = true /\ Forall is_u8 (time_message x dow).
Proof.
  intros Hx Hd. destruct (parts_of x Hx) as [Hy Hm Hn Hh Hmi Hs _]. unfold time_message.
  set (t := broken_down x) in *. set (w := (ft_year t - 2000) * 512 + ft_month t * 32 + ft_day t).
  assert (Hw : 0 <= w < 65536) by lia. pose proof (Z.mod_pos_bound w 256 ltac:(lia)) as Hw1.
  assert (Hw2 : 0 <= w / 256 < 256) by (split; [apply Z.div_pos; lia|apply Z.div_lt_upper_bound; lia]).
  assert (Hf : Forall is_u8 [FPDATETIMENEW; w / 256; w mod 256; dow * 32 + ft_hour t; ft_min t; ft_sec t]).
  { repeat (constructor; [unfold is_u8, FPDATETIMENEW; lia|]). constructor. }
  split; [|done].
  assert (Hb : forallb is_byte [FPDATETIMENEW; w / 256; w mod 256; dow * 32 + ft_hour t; ft_min t; ft_sec t] = true).
  { by apply is_byte_all. }
  unfold message_ok. rewrite Hb. change ((dow * 32 + ft_hour t <? 224) = true).
  lia.
Qed.

Section clock.
Context `{HK : FpKernel} `{HO : !FpKernelOk} `{HC : !CalendarKernel}.
Implicit Types s : tffp panel.

(** The message that setting a time sends. *)
Lemma VFDSetTime_run x s : clock_range x ->
  VFDSetTime (broken_down x) s = Ok (tt, sent_more s (frame (time_message x 0))).
Proof.
  intros Hx. destruct (time_message_ok x 0 Hx ltac:(lia)) as [_ Hb].
  destruct (parts_of x Hx) as [Hy Hm Hn Hh Hmi Hs _]. unfold VFDSetTime. rewrite pack_date_run by done.
  unfold time_message in Hb |- *. set (t := broken_down x) in *.
  set (w := (ft_year t - 2000) * 512 + ft_month t * 32 + ft_day t) in *.
  rewrite Z.shiftr_div_pow2 by lia. change (2 ^ 8) with 256. change 0xff with (Z.ones 8). rewrite Z.land_ones by lia.
  change (2 ^ 8) with 256. rewrite !u8_id by (unfold is_u8; lia).
  change (0 * 32 + ft_hour t) with (ft_hour t) in Hb |- *.
  rewrite SendFPString_panel by done. do 4 f_equal. unfold sent_of. by rewrite map_u8_id.
Qed.

(** The driver takes the time from the message of [x]. *)
Lemma on_time_message x dow s : clock_range x -> 0 <= dow < 7 ->
  exists s1, on_message (time_message x dow) s = Ok (tt, s1) /\ mktime_of (fptime s1) = x /\
    tffpConfig s1 = tffpConfig s.
Proof.
  intros Hx Hd. destruct (parts_of x Hx) as [Hy Hm Hn Hh Hmi Hs Hsum].
  assert (Hday : 0 <= x / 86400 <= 24855).
  { unfold clock_range in Hx. split; [apply Z.div_pos; lia|]. apply Z.lt_succ_r, Z.div_lt_upper_bound; lia. }
  pose proof (mktime_date (Z.to_nat (x / 86400)) _ _ _ ltac:(lia) Hh Hmi Hs) as E.
  unfold time_message. set (t := broken_down x) in *.
  set (w := (ft_year t - 2000) * 512 + ft_month t * 32 + ft_day t).
  destruct (aget_in sdow_names dow) as [name En]; [simpl length; lia|].
  assert (Ew : w / 256 * 256 + w mod 256 = w) by (Z.div_mod_to_equations; lia).
  assert (Ey : w / 512 + 2000 = ft_year t) by (unfold w; Z.div_mod_to_equations; lia).
  assert (Em : w / 32 mod 16 = ft_month t) by (unfold w; Z.div_mod_to_equations; lia).
  assert (Ed : w mod 32 = ft_day t) by (unfold w; Z.div_mod_to_equations; lia).
  assert (Eh : (dow * 32 + ft_hour t) mod 32 = ft_hour t) by (Z.div_mod_to_equations; lia).
  assert (Edow : (dow * 32 + ft_hour t) / 32 = dow) by (Z.div_mod_to_equations; lia).
  cbn [on_message]. change ((FPDATETIMENEW =? FPDATETIMENEW)) with true. unfold when, set_clock.
  rewrite Edow, (M_bind_run _ _ _ _ _ (lift_run _ _ _ En)). eexists. split; [reflexivity|]. split; [|done].
  unfold clock_of. rewrite Ew, Ey, Em, Ed, Eh. unfold mktime_of. simpl.
  refine (eq_trans E _). rewrite Z2Nat.id by lia. exact Hsum.
Qed.

(** Asking for the time while the panel answers with that of [x]. *)
Lemma VFDReqDateTime_run x dow s : clock_range x -> 0 <= dow < 7 ->
  fp_ok s -> RCVBufferStart s = RCVBufferEnd s -> p_rx (fp_io s) = [] -> 0 <= rx_int_sem s ->
  exists t s1, VFDReqDateTime (turn [frame (time_message x dow)]) s = Ok (t, s1) /\
    mktime_of t = x /\ tffpConfig s1 = tffpConfig s.
Proof.
  intros Hx Hd Hs He Hrx Hsem. destruct (time_message_ok x dow Hx Hd) as [Hok _].
  unfold VFDReqDateTime. rewrite (M_bind_run _ _ _ _ _ eq_refl).
  rewrite (M_bind_run _ _ _ _ _ (SendFPData_panel [FPREQDATETIMENEW] _ ltac:(simpl; lia) eq_refl)).
  set (s1 := sent_more _ _).
  assert (Hu : unread (line_of s1) = []).
  { apply unread_empty; [|done]. destruct (ring_of_ok s Hs) as (? & ? & ?). by split. }
  destruct (on_time_message x dow s1 Hx Hd) as (s2 & E2 & Ex & Ec).
  destruct (turns_run [[frame (time_message x dow)]] [time_message x dow] [] s1 s2) as (r & E & _); try done.
  { destruct (ring_of_ok s Hs) as (? & ? & ?). by split. }
  { apply partial_nil. } { by repeat constructor. } { constructor; [|done]. simpl. lia. }
  { cbn [on_messages]. by rewrite M_bind_skip. }
  cbn [turns] in E. rewrite M_bind_skip in E. rewrite (M_bind_run _ _ _ _ _ E).
  eexists _, _. split; [reflexivity|]. done.
Qed.
End clock.

(** The panel adds the weekday to a date it was given. *)
Definition on_day (dow : Z) (m : list Z) : list Z :=
  match m with [c; a; b; h; mi; se] => [c; a; b; dow * 32 + h; mi; se] | _ => m end.

Lemma on_day_message dow x : on_day dow (time_message x 0) = time_message x dow.
Proof. done. Qed.

(** C17. The clock keeps the time it is given: from 2000 to 2038, setting the
    clock sends one message, and when the panel answers a later question with
    the bytes of that message and any weekday, the driver reads the very time
    that was set. It does so for local time and, with the offset of the
    configuration added and taken away again, for GMT. *)
Theorem tffp_clock_roundtrip `{!FpKernel} `{!FpKernelOk} `{HC : !CalendarKernel} t (s : tffp panel) :
  fp_ok s -> RCVBufferStart s = RCVBufferEnd s -> p_rx (fp_io s) = [] -> 0 <= rx_int_sem s ->
  (clock_range t -> exists m, message_ok m = true /\
     vfdSetLocalTime t s = Ok (tt, sent_more s (frame m)) /\
     forall dow, 0 <= dow < 7 -> exists s2,
       vfdGetLocalTime (turn [frame (on_day dow m)]) (sent_more s (frame m)) = Ok (t, s2)) /\
  (clock_range (t + gmtOffset (tffpConfig s)) -> t < 2 ^ 31 -> exists m, message_ok m = true /\
     vfdSetGmtTime t s = Ok (tt, sent_more s (frame m)) /\
     forall dow, 0 <= dow < 7 -> exists s2,
       vfdGetGmtTime (turn [frame (on_day dow m)]) (sent_more s (frame m)) = Ok (t, s2)).
Proof.
  intros Hs He Hrx Hsem.
  assert (Hs1 : forall bs, fp_ok (sent_more s bs)) by (intros bs; destruct Hs; by constructor).
  split.
  - intros Ht. destruct (clock_range_u32 t Ht) as [Eu Es]. exists (time_message t 0).
    split; [by apply time_message_ok|]. split.
    + unfold vfdSetLocalTime. rewrite gmtime_run, Eu. by apply VFDSetTime_run.
    + intros dow Hd. rewrite on_day_message.
      destruct (VFDReqDateTime_run t dow (sent_more s (frame (time_message t 0))) Ht Hd (Hs1 _) He Hrx Hsem)
        as (ft & s2 & E & Ex & Ec).
      exists s2. unfold vfdGetLocalTime. rewrite (M_bind_run _ _ _ _ _ E), Ex, Es. done.
  - set (x := t + gmtOffset (tffpConfig s)). intros Hx Ht. destruct (clock_range_u32 x Hx) as [Eu Es].
    exists (time_message x 0). split; [by apply time_message_ok|]. split.
    + unfold vfdSetGmtTime, gmt_offset. rewrite (M_bind_run _ _ _ _ _ eq_refl). fold x.
      rewrite Es, gmtime_run, Eu. by apply VFDSetTime_run.
    + intros dow Hd. rewrite on_day_message.
      destruct (VFDReqDateTime_run x dow (sent_more s (frame (time_message x 0))) Hx Hd (Hs1 _) He Hrx Hsem)
        as (ft & s2 & E & Ex & Ec).
      exists s2. unfold vfdGetGmtTime, gmt_offset. rewrite (M_bind_run _ _ _ _ _ E), (M_bind_run _ _ _ _ _ eq_refl).
      rewrite Ex, Ec, Es. change (tffpConfig (sent_more _ _)) with (tffpConfig s).
      pose proof (co_gmt _ (ok_config _ Hs)) as Hg. unfold x, clock_range in *.
      rewrite Z.add_simpl_r, s32_small by lia. done.
Qed.

(** ** Example *)

Section example.
#[local] Existing Instance example_kernel.
#[local] Existing Instance example_kernel_ok.

(** The days from [d], which is day [n], checked one by one. *)
Fixpoint days_agree (fuel : nat) (n : Z) (d : date) : bool :=
  match fuel with
  | O => true
  | S fuel => (seconds_since_1970 (d_year d) (d_month d) (d_day d) 0 0 0 =? n * 86400)
              && days_agree fuel (n + 1) (next_day d)
  end.

Lemma days_agree_at fuel : forall n d k, days_agree fuel n d = true -> (k < fuel)%nat ->
  let d' := Nat.iter k next_day d in
  seconds_since_1970 (d_year d') (d_month d') (d_day d') 0 0 0 = (n + Z.of_nat k) * 86400.
Proof.
  induction fuel as [|fuel IH]; intros n d k Hf Hk; [lia|].
  cbn [days_agree] in Hf. apply andb_true_iff in Hf as [H0%Z.eqb_eq Hf]. destruct k as [|k].
  - simpl. rewrite H0. lia.
  - cbv zeta. rewrite Nat.iter_succ_r. rewrite (IH _ _ k Hf) by lia. lia.
Qed.

Lemma days_all : days_agree (Z.to_nat 24856) 0 (Date 1970 1 1) = true.
Proof. vm_compute. reflexivity. Qed.

Lemma example_calendar : CalendarKernel.
Proof.
  constructor. intros n h mi se Hn _ _ _.
  pose proof (days_agree_at _ _ _ n days_all ltac:(lia)) as E. cbv zeta in E. fold (date_of n) in E.
  simpl mktime. revert E. unfold seconds_since_1970.
  cbv zeta. destruct (d_month (date_of n) <=? 2); intros E; lia.
Qed.

(** 13:30:15 on 21 July 2021, a Wednesday, and an offset of two hours. *)
Definition summer : tffp panel :=
  panel_loaded <| tffpConfig := (tffpConfig panel_loaded) <| gmtOffset := 7200 |> |>.

Lemma gmt_ok (s : tffp panel) off : - 2 ^ 15 <= off < 2 ^ 15 -> fp_ok s ->
  fp_ok (s <| tffpConfig := (tffpConfig s) <| gmtOffset := off |> |>).
Proof. intros Hoff []. constructor; try assumption. by destruct ok_config. Qed.

Lemma tffp_clock_roundtrip_witness :
  exists m, message_ok m = true /\
    vfdSetGmtTime 1626867015 summer = Ok (tt, sent_more summer (frame m)) /\
    forall dow, 0 <= dow < 7 -> exists s2,
      vfdGetGmtTime (turn [frame (on_day dow m)]) (sent_more summer (frame m)) = Ok (1626867015, s2).
Proof.
  apply (tffp_clock_roundtrip (HC := example_calendar) 1626867015 summer).
  - apply gmt_ok, panel_loaded_ok. lia.
  - vm_compute; reflexivity.
  - vm_compute; reflexivity.
  - vm_compute; discriminate.
  - vm_compute. split; [discriminate|reflexivity].
  - reflexivity.
Defined.
End example.
