(* ===== verification/TffpShow.v ===== *)
(** * Topfield front panel: what a text looks like on the large display

    The driver spreads the segments of eight digits over the bits of a buffer;
    three tables of masks and shifts say how.  Here every bit of the buffer is
    followed: where each segment is, and what a text does to it. *)
From S2P Require Import Prelude TffpState TffpDisplay TffpFrame TffpInv TffpTypes TffpReceive.

(** ** Where the segments are *)

(** Byte and bit of the seventeen segments: the digits come in pairs, one in the
    odd bits and one in the even bits of the same five bytes, in two shapes. *)
Definition shape_a : list (Z * Z) :=
  [(4, 7); (4, 5); (2, 1); (1, 7); (0, 5); (0, 3); (0, 1); (3, 7); (2, 7); (2, 5); (2, 3); (3, 3);
   (3, 1); (3, 5); (1, 1); (1, 5); (1, 3)].
Definition shape_b : list (Z * Z) :=
  [(4, 5); (4, 3); (3, 7); (1, 5); (0, 3); (0, 1); (1, 7); (3, 5); (2, 5); (2, 3); (2, 1); (3, 1);
   (4, 7); (3, 3); (2, 7); (1, 3); (1, 1)].
Definition digits_at : list (Z * Z * list (Z * Z)) :=
  [(33, 0, shape_a); (17, 0, shape_a); (17, 1, shape_a); (37, 0, shape_b); (37, 1, shape_b);
   (21, 0, shape_b); (21, 1, shape_b); (33, 1, shape_a)].
(** Segment [k] of digit [d]. *)
Definition place (d k : nat) : Z * Z :=
  let '(base, even, shape) := nth d digits_at (0, 0, []) in
  let '(byte, bit) := nth k shape (0, 0) in
  (base + byte, bit - even).
(** A bit of the buffer that shows no segment of the large display. *)
Definition places : list (Z * Z) := d ← seq 0 8; place d <$> seq 0 17.
Definition elsewhere (p : Z * Z) : bool := negb (bool_decide (p ∈ places)).

Definition lit (v : list Z) (p : Z * Z) : bool := Z.testbit (v !!! Z.to_nat p.1) p.2.

(** ** What writing a digit does to a bit *)

(** A byte of the buffer takes segments [(b, k)]: bit and number. *)
Definition update (keep : Z) (l : list (Z * Z)) (sg old : Z) : Z :=
  fold_left (fun x '(b, k) => x .| ((sg ≫ (k - b)) .& 2 ^ b)) l (old .& keep).

(** The updates of each digit, read off the code. *)
Definition updates : list (list (Z * (Z * list (Z * Z)))) :=
  [[(33, (0xd5, [(1, 6); (3, 5); (5, 4)]));
    (34, (0x55, [(1, 14); (3, 16); (5, 15); (7, 3)]));
    (35, (0x55, [(1, 2); (3, 10); (5, 9); (7, 8)]));
    (36, (0x55, [(1, 12); (3, 11); (5, 13); (7, 7)]));
    (37, (0x55, [(5, 1); (7, 0)]))];
   [(17, (0xd5, [(1, 6); (3, 5); (5, 4)]));
    (18, (0x55, [(1, 14); (3, 16); (5, 15); (7, 3)]));
    (19, (0x55, [(1, 2); (3, 10); (5, 9); (7, 8)]));
    (20, (0x55, [(1, 12); (3, 11); (5, 13); (7, 7)]));
    (21, (0x55, [(5, 1); (7, 0)]))];
   [(17, (0xea, [(0, 6); (2, 5); (4, 4)]));
    (18, (0xaa, [(0, 14); (2, 16); (4, 15); (6, 3)]));
    (19, (0xaa, [(0, 2); (2, 10); (4, 9); (6, 8)]));
    (20, (0xaa, [(0, 12); (2, 11); (4, 13); (6, 7)]));
    (21, (0xaf, [(4, 1); (6, 0)]))];
   [(37, (0xf5, [(1, 5); (3, 4)]));
    (38, (0x55, [(1, 16); (3, 15); (5, 3); (7, 6)]));
    (39, (0x55, [(1, 10); (3, 9); (5, 8); (7, 14)]));
    (40, (0x55, [(1, 11); (3, 13); (5, 7); (7, 2)]));
    (41, (0x57, [(3, 1); (5, 0); (7, 12)]))];
   [(37, (0xfa, [(0, 5); (2, 4)]));
    (38, (0xaa, [(0, 16); (2, 15); (4, 3); (6, 6)]));
    (39, (0xaa, [(0, 10); (2, 9); (4, 8); (6, 14)]));
    (40, (0xaa, [(0, 11); (2, 13); (4, 7); (6, 2)]));
    (41, (0xab, [(2, 1); (4, 0); (6, 12)]))];
   [(21, (0xf5, [(1, 5); (3, 4)]));
    (22, (0x55, [(1, 16); (3, 15); (5, 3); (7, 6)]));
    (23, (0x55, [(1, 10); (3, 9); (5, 8); (7, 14)]));
    (24, (0x55, [(1, 11); (3, 13); (5, 7); (7, 2)]));
    (25, (0x57, [(3, 1); (5, 0); (7, 12)]))];
   [(21, (0xfa, [(0, 5); (2, 4)]));
    (22, (0xaa, [(0, 16); (2, 15); (4, 3); (6, 6)]));
    (23, (0xaa, [(0, 10); (2, 9); (4, 8); (6, 14)]));
    (24, (0xaa, [(0, 11); (2, 13); (4, 7); (6, 2)]));
    (25, (0xab, [(2, 1); (4, 0); (6, 12)]))];
   [(33, (0xea, [(0, 6); (2, 5); (4, 4)]));
    (34, (0xaa, [(0, 14); (2, 16); (4, 15); (6, 3)]));
    (35, (0xaa, [(0, 2); (2, 10); (4, 9); (6, 8)]));
    (36, (0xaa, [(0, 12); (2, 11); (4, 13); (6, 7)]));
    (37, (0xaf, [(4, 1); (6, 0)]))]].

Inductive effect := Seg (k : Z) | Kept | Gone.
#[export] Instance effect_eq : EqDecision effect.
Proof. solve_decision. Defined.

Definition effect_of (u : Z * list (Z * Z)) (b : Z) : effect :=
  match find (fun '(b', _) => b' =? b) u.2 with
  | Some (_, k) => Seg k
  | None => if Z.testbit u.1 b then Kept else Gone
  end.
Definition update_of (d : nat) (i : Z) : option (Z * list (Z * Z)) :=
  snd <$> find (fun '(i', _) => i' =? i) (nth d updates []).
Definition effect_at (d : nat) (p : Z * Z) : effect :=
  match update_of d p.1 with Some u => effect_of u p.2 | None => Kept end.

(** What a bit is after an effect. *)
Definition outcome (e : effect) (sg : Z) (old : bool) : bool :=
  match e with Seg k => Z.testbit sg k | Kept => old | Gone => false end.

(** The bits of an update are distinct, in the byte, and cleared before. *)
Definition update_ok (u : Z * list (Z * Z)) : bool :=
  bool_decide (NoDup (fst <$> u.2))
  && forallb (fun '(b, k) => (0 <=? b) && (b <? 8) && (0 <=? k) && negb (Z.testbit u.1 b)) u.2.
(** Every digit updates different bytes of the buffer. *)
Definition digit_ok (l : list (Z * (Z * list (Z * Z)))) : bool :=
  bool_decide (NoDup (fst <$> l)) && forallb (fun x => (0 <=? x.1) && (x.1 <? 48) && update_ok x.2) l.
Lemma updates_ok d : digit_ok (nth d updates []) = true.
Proof. do 8 (destruct d as [|d]; [vm_compute; reflexivity|]). by destruct d. Qed.
Lemma digit_spec d : NoDup (fst <$> nth d updates []) /\
  forall x, In x (nth d updates []) -> 0 <= x.1 < 48 /\ update_ok x.2 = true.
Proof.
  pose proof (updates_ok d) as H. unfold digit_ok in H.
  apply andb_true_iff in H as [Hd%bool_decide_eq_true Hf]. split; [done|].
  intros x Hx. rewrite forallb_forall in Hf. specialize (Hf x Hx).
  rewrite !andb_true_iff in Hf. destruct Hf as [? ?]. split; [lia|done].
Qed.

Lemma moved_bit sg b k b' : 0 <= b -> 0 <= b' -> 0 <= k ->
  Z.testbit ((sg ≫ (k - b)) .& 2 ^ b) b' = (b =? b') && Z.testbit sg k.
Proof.
  intros Hb Hb' Hk. rewrite Z.land_spec, Z.pow2_bits_eqb by lia. destruct (Z.eqb_spec b b') as [<-|]; [|apply andb_false_r].
  rewrite Z.shiftr_spec, andb_true_r by lia. simpl. f_equal. lia.
Qed.

Lemma update_bits l sg x b : 0 <= b -> Forall (fun '(b', k) => 0 <= b' /\ 0 <= k) l ->
  Z.testbit (fold_left (fun x '(b, k) => x .| ((sg ≫ (k - b)) .& 2 ^ b)) l x) b
  = Z.testbit x b || existsb (fun '(b', k) => (b' =? b) && Z.testbit sg k) l.
Proof.
  intros Hb Hl. revert x. induction Hl as [|[b' k] l [H1 H2] _ IH]; intros x; simpl; [by rewrite orb_false_r|].
  by rewrite IH, Z.lor_spec, moved_bit, orb_assoc by lia.
Qed.

Lemma existsb_found l sg b : NoDup (l.*1) ->
  existsb (fun '(b', k) => (b' =? b) && Z.testbit sg k) l
  = match find (fun '(b', _) => b' =? b) l with Some (_, k) => Z.testbit sg k | None => false end.
Proof.
  induction l as [|[b' k] l IH]; [done|]. cbn [fmap list_fmap fst]. intros Hd0. inversion Hd0 as [|? ? Hn Hd]; subst. simpl.
  rewrite (IH Hd). destruct (Z.eqb_spec b' b) as [->|]; [|done]. simpl.
  destruct (find _ l) as [[b2 k2]|] eqn:E; [|apply orb_false_r].
  apply find_some in E as [Hin E]. exfalso. apply Hn. simpl in E. apply Z.eqb_eq in E as ->.
  apply list_elem_of_fmap. exists (b, k2). split; [done|]. by apply list_elem_of_In.
Qed.

Lemma update_spec u sg old b : update_ok u = true -> 0 <= b < 8 ->
  Z.testbit (u8 (update u.1 u.2 sg old)) b = outcome (effect_of u b) sg (Z.testbit old b).
Proof.
  unfold update_ok. rewrite andb_true_iff, bool_decide_eq_true, forallb_forall. intros [Hd Hf] Hb.
  unfold u8. rewrite Z.mod_pow2_bits_low by lia. unfold update. rewrite update_bits; [|lia|].
  2: { apply Forall_forall. intros [b' k] Hin. specialize (Hf _ Hin). simpl in Hf. lia. }
  rewrite existsb_found by done. rewrite Z.land_spec. unfold effect_of.
  destruct (find _ u.2) as [[b' k]|] eqn:E.
  - apply find_some in E as [Hin E%Z.eqb_eq]. specialize (Hf _ Hin). simpl in E, Hf. subst b'.
    rewrite !andb_true_iff in Hf. destruct Hf as [_ Hf%negb_true_iff]. by rewrite Hf, andb_false_r.
  - rewrite orb_false_r. destruct (Z.testbit u.1 b); simpl; [apply andb_true_r|apply andb_false_r].
Qed.

(** ** Writing one digit *)

Definition put1 (x : Z * (Z -> Z)) (v : list Z) : list Z :=
  <[Z.to_nat x.1 := u8 (x.2 (v !!! Z.to_nat x.1))]> v.
Definition draw_digit (d : nat) (sg : Z) (v : list Z) : list Z :=
  foldl (fun v x => put1 (x.1, update x.2.1 x.2.2 sg) v) v (nth d updates []).

Section draw.
Context {D : Type}.
Implicit Types s : tffp D.

Lemma vfd_put_run i f s : 0 <= i < 48 -> length (DisplayBufferVFD s) = 48%nat ->
  vfd_put i f s = Ok (tt, s <| DisplayBufferVFD := put1 (i, f) (DisplayBufferVFD s) |>).
Proof.
  intros Hi Hv. destruct (aget_in (DisplayBufferVFD s) i) as [x Hx]; [lia|].
  unfold vfd_put. rewrite (M_bind_run _ _ _ _ _ eq_refl), (M_bind_run _ _ _ _ _ (lift_run _ _ _ Hx)).
  rewrite (M_bind_run _ _ _ _ _ (lift_run _ _ _ (aset_in (DisplayBufferVFD s) i (u8 (f x)) ltac:(lia)))).
  unfold put1. simpl. apply aget_Ok in Hx as [_ Hx]. by rewrite (list_lookup_total_correct _ _ _ Hx).
Qed.

(** A sequence of updates of the buffer. *)
Fixpoint vfd_puts (l : list (Z * (Z -> Z))) : M (tffp D) unit :=
  match l with
  | [] => skip
  | [x] => vfd_put x.1 x.2
  | x :: l => vfd_put x.1 x.2;; vfd_puts l
  end.

Lemma vfd_puts_run l : forall s,
  Forall (fun x => 0 <= x.1 < 48) l -> length (DisplayBufferVFD s) = 48%nat ->
  vfd_puts l s = Ok (tt, s <| DisplayBufferVFD := foldl (fun v x => put1 x v) (DisplayBufferVFD s) l |>).
Proof.
  induction l as [|[i f] l IH]; intros s Hl Hv; [by destruct s|].
  apply Forall_cons_1 in Hl as [Hi Hl]. destruct l as [|y l]; [by apply vfd_put_run|].
  change (vfd_puts ((i, f) :: y :: l)) with (vfd_put i f;; vfd_puts (y :: l)).
  rewrite (M_bind_run _ _ _ _ _ (vfd_put_run i f s Hi Hv)).
  rewrite IH; [done|done|]. simpl DisplayBufferVFD. unfold put1. by rewrite length_insert.
Qed.

Definition puts_of (d : nat) (sg : Z) : list (Z * (Z -> Z)) :=
  (fun x => (x.1, update x.2.1 x.2.2 sg)) <$> nth d updates [].

Lemma set_digit_17_puts sg d : (d < 8)%nat -> set_digit_17 sg (Z.of_nat d) = vfd_puts (puts_of d sg).
Proof. intros Hd. do 8 (destruct d as [|d]; [reflexivity|]). lia. Qed.

Lemma set_digit_17_run sg d s : (d < 8)%nat -> length (DisplayBufferVFD s) = 48%nat ->
  set_digit_17 sg (Z.of_nat d) s = Ok (tt, s <| DisplayBufferVFD := draw_digit d sg (DisplayBufferVFD s) |>).
Proof.
  intros Hd Hv. rewrite set_digit_17_puts by done. rewrite vfd_puts_run; [| |done].
  2: { apply Forall_fmap, Forall_forall. intros x Hx. by apply (digit_spec d). }
  do 4 f_equal. unfold puts_of, draw_digit. generalize (nth d updates []) (DisplayBufferVFD s).
  intros l. induction l as [|x l IH]; intros v; simpl; [done|]. apply IH.
Qed.
End draw.

Lemma put1_length x v : length (put1 x v) = length v.
Proof. apply length_insert. Qed.

Lemma put1_lookup i f v j : 0 <= i -> 0 <= j -> (Z.to_nat j < length v)%nat ->
  put1 (i, f) v !!! Z.to_nat j = if i =? j then u8 (f (v !!! Z.to_nat j)) else v !!! Z.to_nat j.
Proof.
  intros Hi Hj Hv. unfold put1. simpl. destruct (Z.eqb_spec i j) as [<-|].
  - by apply list_lookup_total_insert_eq.
  - apply list_lookup_total_insert_ne. lia.
Qed.

Lemma draw_lookup sg l : forall v j,
  NoDup (fst <$> l) -> (forall x, In x l -> 0 <= x.1) -> 0 <= j -> (Z.to_nat j < length v)%nat ->
  foldl (fun v x => put1 (x.1, update x.2.1 x.2.2 sg) v) v l !!! Z.to_nat j
  = match snd <$> find (fun '(i, _) => i =? j) l with
    | Some u => u8 (update u.1 u.2 sg (v !!! Z.to_nat j))
    | None => v !!! Z.to_nat j
    end.
Proof.
  induction l as [|[i u] l IH]; intros v j Hd Hl Hj Hv; [done|].
  cbn [fmap list_fmap fst] in Hd. inversion Hd as [|? ? Hn Hd']; subst. cbn [foldl fst snd].
  rewrite IH; [|done|intros; apply Hl; by right|done|by rewrite put1_length].
  rewrite put1_lookup; [|apply (Hl (i, u)); by left|done|done]. cbn [find].
  destruct (Z.eqb_spec i j) as [->|]; [|done]. simpl.
  destruct (find _ l) as [[j' u']|] eqn:E; [|done].
  apply find_some in E as [Hin E]. simpl in E. apply Z.eqb_eq in E as ->. exfalso. apply Hn.
  apply list_elem_of_fmap. exists (j, u'). split; [done|]. by apply list_elem_of_In.
Qed.

Lemma draw_digit_length d sg v : length (draw_digit d sg v) = length v.
Proof.
  unfold draw_digit. revert v. induction (nth d updates []) as [|x l IH]; intros v; simpl; [done|].
  by rewrite IH, put1_length.
Qed.

(** Where bits of the buffer are. *)
Definition in_buffer (p : Z * Z) : Prop := 0 <= p.1 < 48 /\ 0 <= p.2 < 8.

Lemma draw_digit_bit d sg v p : length v = 48%nat -> in_buffer p ->
  lit (draw_digit d sg v) p = outcome (effect_at d p) sg (lit v p).
Proof.
  intros Hv [Hi Hb]. destruct p as [i b]. cbn [fst snd] in Hi, Hb. destruct (digit_spec d) as [Hd Hl].
  unfold lit, draw_digit, effect_at, update_of. cbn [fst snd].
  rewrite draw_lookup; [|done|intros x Hx; by apply Hl|lia|lia].
  destruct (find _ _) as [[i' u]|] eqn:E; [|done]. simpl.
  apply find_some in E as [Hin _]. by apply update_spec; [apply (Hl _ Hin)|].
Qed.

(** The layout: a digit writes its own segments, leaves those of the digits
    before it and all bits that belong to no digit. *)
Definition layout_ok (d : nat) : bool :=
  forallb (fun k => bool_decide (effect_at d (place d k) = Seg (Z.of_nat k))
    && forallb (fun d' => bool_decide (effect_at d (place d' k) = Kept)) (seq 0 d)) (seq 0 17)
  && forallb (fun i => forallb (fun b =>
       if elsewhere (Z.of_nat i, Z.of_nat b) then bool_decide (effect_at d (Z.of_nat i, Z.of_nat b) = Kept)
       else true) (seq 0 8)) (seq 0 48).
Lemma layout_checked : forallb layout_ok (seq 0 8) = true.
Proof. vm_compute. reflexivity. Qed.

Lemma digit_layout d : (d < 8)%nat ->
  (forall k, (k < 17)%nat -> effect_at d (place d k) = Seg (Z.of_nat k)) /\
  (forall d' k, (d' < d)%nat -> (k < 17)%nat -> effect_at d (place d' k) = Kept) /\
  (forall p, in_buffer p -> elsewhere p = true -> effect_at d p = Kept).
Proof.
  intros Hd. pose proof layout_checked as H. rewrite forallb_forall in H.
  specialize (H d). rewrite in_seq in H. specialize (H ltac:(lia)). unfold layout_ok in H.
  apply andb_true_iff in H as [H1 H2]. rewrite forallb_forall in H1, H2. split_and!.
  - intros k Hk. specialize (H1 k). rewrite in_seq in H1. specialize (H1 ltac:(lia)).
    apply andb_true_iff in H1 as [H1 _]. by apply bool_decide_eq_true in H1.
  - intros d' k Hd' Hk. specialize (H1 k). rewrite in_seq in H1. specialize (H1 ltac:(lia)).
    apply andb_true_iff in H1 as [_ H1]. rewrite forallb_forall in H1.
    specialize (H1 d'). rewrite in_seq in H1. specialize (H1 ltac:(lia)). by apply bool_decide_eq_true in H1.
  - intros [i b] [Hi Hb] He. cbn [fst snd] in Hi, Hb.
    specialize (H2 (Z.to_nat i)). rewrite in_seq in H2. specialize (H2 ltac:(lia)). rewrite forallb_forall in H2.
    specialize (H2 (Z.to_nat b)). rewrite in_seq, !Z2Nat.id in H2 by lia. specialize (H2 ltac:(lia)).
    rewrite He in H2. by apply bool_decide_eq_true in H2.
Qed.

Lemma places_checked : forallb (fun d => forallb (fun k =>
  let '(i, b) := place d k in (0 <=? i) && (i <? 48) && (0 <=? b) && (b <? 8)) (seq 0 17)) (seq 0 8) = true.
Proof. vm_compute. reflexivity. Qed.
Lemma place_in_buffer d k : (d < 8)%nat -> (k < 17)%nat -> in_buffer (place d k).
Proof.
  intros Hd Hk. pose proof places_checked as H. rewrite forallb_forall in H.
  specialize (H d). rewrite in_seq, forallb_forall in H. specialize (H ltac:(lia) k). rewrite in_seq in H.
  specialize (H ltac:(lia)). destruct (place d k) as [i b]. unfold in_buffer. simpl. lia.
Qed.

(** ** Writing a text *)

Definition glyph (c : Z) : Z := VFDSegmentMap17 !!! Z.to_nat c.
(** The character at digit [d]: texts are padded with blanks. *)
Definition char_at (cs : list Z) (d : nat) : Z := nth d cs 0x20.

Fixpoint draw (n d : nat) (cs v : list Z) : list Z :=
  match n with
  | O => v
  | S n => draw n (S d) cs (draw_digit d (glyph (char_at cs d)) v)
  end.

Lemma draw_length n : forall d cs v, length (draw n d cs v) = length v.
Proof. induction n as [|n IH]; intros d cs v; simpl; [done|]. by rewrite IH, draw_digit_length. Qed.

Lemma draw_bits n : forall d cs v, (d + n <= 8)%nat -> length v = 48%nat ->
  (forall d' k, (d <= d' < d + n)%nat -> (k < 17)%nat ->
     lit (draw n d cs v) (place d' k) = Z.testbit (glyph (char_at cs d')) (Z.of_nat k)) /\
  (forall d' k, (d' < d)%nat -> (k < 17)%nat -> lit (draw n d cs v) (place d' k) = lit v (place d' k)) /\
  (forall p, in_buffer p -> elsewhere p = true -> lit (draw n d cs v) p = lit v p).
Proof.
  induction n as [|n IH]; intros d cs v Hn Hv; cbn [draw]; [split_and!; [lia|done|done]|].
  destruct (digit_layout d) as (L1 & L2 & L3); [lia|].
  destruct (IH (S d) cs (draw_digit d (glyph (char_at cs d)) v)) as (H1 & H2 & H3);
    [lia|by rewrite draw_digit_length|]. split_and!.
  - intros d' k Hd Hk. destruct (decide (d' = d)) as [->|]; [|by apply H1; [lia|]].
    rewrite H2, draw_digit_bit, L1 by (try lia; try done; apply place_in_buffer; lia). done.
  - intros d' k Hd Hk. rewrite H2, draw_digit_bit, L2 by (try lia; try done; apply place_in_buffer; lia). done.
  - intros p Hp He. rewrite H3, draw_digit_bit, L3 by done. done.
Qed.

Lemma c_str_split l cs : c_str l = Ok cs -> exists rest, l = cs ++ 0 :: rest.
Proof.
  revert cs. induction l as [|c l IH]; intros cs E; [done|]. simpl in E. destruct (Z.eqb_spec c 0) as [->|].
  - injection E as <-. by exists l.
  - apply res_bind_Ok in E as (s & Es & [= <-]). destruct (IH s Es) as [rest ->]. by exists rest.
Qed.

Section show.
Context {D : Type}.
Implicit Types s : tffp D.

Lemma char_read l cs d : c_str l = Ok cs ->
  (if Z.of_nat d <? Z.of_nat (length cs) then aget l (Z.of_nat d) else Ok 0x20) = Ok (char_at cs d).
Proof.
  intros E. destruct (c_str_split _ _ E) as [rest ->]. unfold char_at. destruct (Z.ltb_spec (Z.of_nat d) (Z.of_nat (length cs))).
  - apply aget_Ok. split; [lia|]. rewrite Nat2Z.id, lookup_app_l by lia. rewrite nth_lookup.
    destruct (lookup_lt_is_Some_2 cs d) as [x ->]; [lia|done].
  - by rewrite nth_overflow by lia.
Qed.

Lemma glyph_read c : is_u8 c -> VFDTranslateSegments c VFD_17 = Ok (glyph c).
Proof.
  intros Hc. unfold is_u8 in Hc. simpl. destruct (aget_in VFDSegmentMap17 c) as [x Hx].
  { change (Z.of_nat (length VFDSegmentMap17)) with 256. lia. }
  rewrite Hx. apply aget_Ok in Hx as [_ Hx]. unfold glyph. by rewrite (list_lookup_total_correct _ _ _ Hx).
Qed.

Lemma show_digits_run l cs : c_str l = Ok cs -> Forall is_u8 cs -> forall n d s,
  (d + n <= 8)%nat -> length (DisplayBufferVFD s) = 48%nat ->
  show_digits VFD_17 n (Z.of_nat d) (Z.of_nat (length cs)) l s
  = Ok (tt, s <| DisplayBufferVFD := draw n d cs (DisplayBufferVFD s) |>).
Proof.
  intros E Hcs. induction n as [|n IH]; intros d s Hn Hv; cbn [show_digits]; [by destruct s|].
  rewrite (M_bind_run _ _ _ _ _ (lift_run _ _ _ (char_read l cs d E))).
  assert (Hc : is_u8 (char_at cs d)).
  { unfold char_at. destruct (nth_in_or_default d cs 0x20) as [Hin| ->]; [|unfold is_u8; lia].
    rewrite Forall_forall in Hcs. by apply Hcs. }
  assert (Ed : VFDSetDisplayDigit (char_at cs d) VFD_17 (Z.of_nat d) s
    = Ok (tt, s <| DisplayBufferVFD := draw_digit d (glyph (char_at cs d)) (DisplayBufferVFD s) |>)).
  { unfold VFDSetDisplayDigit. rewrite (M_bind_run _ _ _ _ _ (lift_run _ _ _ (glyph_read _ Hc))).
    apply set_digit_17_run; [lia|done]. }
  rewrite (M_bind_run _ _ _ _ _ Ed). replace (Z.of_nat d + 1) with (Z.of_nat (S d)) by lia.
  rewrite IH; [done|lia|]. simpl DisplayBufferVFD. by rewrite draw_digit_length.
Qed.
End show.

(** ** Sending the buffer *)

(** The panel's copy of the buffer: a message puts eight bytes at an offset. *)
Definition ram_write (ram m : list Z) : list Z :=
  match m with
  | _ :: off :: bs => take (Z.to_nat off) ram ++ bs ++ drop (Z.to_nat off + length bs) ram
  | _ => ram
  end.
(** [v] in the first [n] bytes, [c] behind. *)
Definition upto (n : nat) (v c : list Z) : list Z := take n v ++ drop n c.
Definition block (off : nat) (v : list Z) : list Z := take 8 (drop off v).

Lemma upto_next off v c : upto (off + 8) v c = take off v ++ block off v ++ drop (off + 8) c.
Proof. unfold upto, block. by rewrite <- take_take_drop, <- app_assoc. Qed.

Lemma ram_write_upto off v c : length v = 48%nat -> length c = 48%nat -> (off + 8 <= 48)%nat ->
  ram_write (upto off v c) (0x99 :: Z.of_nat off :: block off v) = upto (off + 8) v c.
Proof.
  intros Hv Hc Ho. assert (Hb : length (block off v) = 8%nat) by (unfold block; rewrite length_take, length_drop; lia).
  assert (Ht : length (take off v) = off) by (rewrite length_take; lia).
  unfold ram_write. rewrite Nat2Z.id, Hb, upto_next. unfold upto. f_equal; [|f_equal].
  - by rewrite take_app_le, take_take, Nat.min_id by lia.
  - rewrite drop_app_ge, drop_drop by lia. f_equal. lia.
Qed.

Lemma upto_same off v c : block off v = block off c -> upto off v c = upto (off + 8) v c.
Proof.
  intros E. rewrite upto_next, E. unfold upto, block. f_equal.
  rewrite <- (take_drop 8 (drop off c)) at 1. f_equal. rewrite drop_drop. done.
Qed.

Section send.
Context `{HK : FpKernel} `{HO : !FpKernelOk}.
Implicit Types s : tffp panel.

Lemma send_block_panel off s : (off + 8 <= 48)%nat ->
  bytes 48 (DisplayBufferVFD s) -> bytes 48 (DisplayBufferVFDCurrent s) ->
  exists ms, send_block false off s = Ok (tt, sent_more s (wire ms)) /\
    fold_left ram_write ms (upto off (DisplayBufferVFD s) (DisplayBufferVFDCurrent s))
    = upto (off + 8) (DisplayBufferVFD s) (DisplayBufferVFDCurrent s).
Proof.
  intros Ho [Hv Hb] [Hc _]. unfold send_block.
  rewrite (M_bind_run _ _ _ _ _ eq_refl), (M_bind_run _ _ _ _ _ eq_refl). cbv zeta. simpl orb.
  fold (block off (DisplayBufferVFD s)) (block off (DisplayBufferVFDCurrent s)).
  destruct (bool_decide_reflect (block off (DisplayBufferVFD s) = block off (DisplayBufferVFDCurrent s))) as [E|E]; simpl.
  - exists []. simpl. split; [by rewrite sent_more_nil|]. by apply upto_same.
  - exists [0x99 :: Z.of_nat off :: block off (DisplayBufferVFD s)]. split; [|by apply ram_write_upto].
    assert (Hl : length (block off (DisplayBufferVFD s)) = 8%nat) by (unfold block; rewrite length_take, length_drop; lia).
    assert (Hs : sendable (0x99 :: Z.of_nat off :: block off (DisplayBufferVFD s))).
    { simpl. rewrite Hl. reflexivity. }
    rewrite SendFPString_panel by done. do 3 f_equal. unfold wire. simpl map. simpl concat. rewrite app_nil_r.
    f_equal. unfold sent_of. change (1 + hd 0 (0x99 :: _) .& 0xf) with 10. unfold seg.
    change (Z.to_nat (10 - 0)) with 10%nat. change (Z.to_nat 0) with 0%nat. rewrite drop_0, take_ge by (simpl; lia).
    change (2 :: ?a :: ?b :: ?c ++ [3]) with (frame (a :: b :: c)). f_equal.
    apply map_u8_id. constructor; [done|]. constructor; [unfold is_u8; lia|]. by apply Forall_take, Forall_drop.
Qed.

Lemma wire_app a b : wire (a ++ b) = wire a ++ wire b.
Proof. unfold wire. by rewrite map_app, concat_app. Qed.

Lemma VFDSendToDisplay_panel s :
  bytes 48 (DisplayBufferVFD s) -> bytes 48 (DisplayBufferVFDCurrent s) ->
  exists ms, VFDSendToDisplay false s
    = Ok (tt, (sent_more s (wire ms)) <| DisplayBufferVFDCurrent := DisplayBufferVFD s |>) /\
    fold_left ram_write ms (DisplayBufferVFDCurrent s) = DisplayBufferVFD s.
Proof.
  intros Hv Hc. set (v := DisplayBufferVFD s) in *. set (c := DisplayBufferVFDCurrent s) in *.
  assert (E0 : c = upto 0 v c) by done.
  assert (E6 : v = upto 48 v c).
  { destruct Hv as [Hv _], Hc as [Hc _]. unfold upto. rewrite take_ge, drop_ge, app_nil_r by lia. done. }
  assert (Hstep : forall off s1 ms0, (off + 8 <= 48)%nat -> s1 = sent_more s (wire ms0) ->
    fold_left ram_write ms0 c = upto off v c ->
    exists ms, send_block false off s1 = Ok (tt, sent_more s (wire (ms0 ++ ms))) /\
      fold_left ram_write (ms0 ++ ms) c = upto (off + 8) v c).
  { intros off s1 ms0 Ho -> E. destruct (send_block_panel off (sent_more s (wire ms0)) Ho Hv Hc) as (ms & Es & Em).
    exists ms. split; [by rewrite Es, sent_more_app, wire_app|]. by rewrite fold_left_app, E. }
  unfold VFDSendToDisplay.
  destruct (Hstep 0x00%nat s []) as (m1 & S1 & F1); [lia|simpl; by rewrite sent_more_nil|done|].
  destruct (Hstep 0x08%nat _ _ ltac:(lia) eq_refl F1) as (m2 & S2 & F2).
  destruct (Hstep 0x10%nat _ _ ltac:(lia) eq_refl F2) as (m3 & S3 & F3).
  destruct (Hstep 0x18%nat _ _ ltac:(lia) eq_refl F3) as (m4 & S4 & F4).
  destruct (Hstep 0x20%nat _ _ ltac:(lia) eq_refl F4) as (m5 & S5 & F5).
  destruct (Hstep 0x28%nat _ _ ltac:(lia) eq_refl F5) as (m6 & S6 & F6).
  rewrite (M_bind_run _ _ _ _ _ S1), (M_bind_run _ _ _ _ _ S2), (M_bind_run _ _ _ _ _ S3),
    (M_bind_run _ _ _ _ _ S4), (M_bind_run _ _ _ _ _ S5), (M_bind_run _ _ _ _ _ S6).
  eexists. split; [reflexivity|]. rewrite F6. symmetry. exact E6.
Qed.
End send.

(** ** The text on the panel *)

Lemma c_str_u8 l cs : c_str l = Ok cs -> Forall is_u8 l -> Forall is_u8 cs.
Proof. intros E Hl. destruct (c_str_split _ _ E) as [rest ->]. by apply Forall_app in Hl as [Hl _]. Qed.

Lemma draw_text_u8 n : forall d cs v, Forall is_u8 v -> Forall is_u8 (draw n d cs v).
Proof.
  induction n as [|n IH]; intros d cs v Hv; simpl; [done|]. apply IH. unfold draw_digit.
  revert v Hv. induction (nth d updates []) as [|x l IHl]; intros v Hv; simpl; [done|].
  apply IHl. unfold put1. apply Forall_insert; [done|]. apply is_u8_u8.
Qed.

Section large.
Context `{HK : FpKernel} `{HO : !FpKernelOk}.
Implicit Types s : tffp panel.

(** The state after showing the characters [cs], which sends [ms]. *)
Definition showing (cs : list Z) (ms : list (list Z)) s : tffp panel :=
  (sent_more s (wire ms)) <| DisplayBufferVFD := draw 8 0 cs (DisplayBufferVFD s) |>
    <| DisplayBufferVFDCurrent := draw 8 0 cs (DisplayBufferVFD s) |>.

Lemma VFDSetDisplayLargeString_run l l' cs s :
  (if truthy (allCaps (tffpConfig s)) then upcase l else Ok l) = Ok l' -> c_str l' = Ok cs ->
  Forall is_u8 cs -> bytes 48 (DisplayBufferVFD s) -> bytes 48 (DisplayBufferVFDCurrent s) ->
  exists ms, VFDSetDisplayLargeString l s = Ok (l', showing cs ms s) /\
    fold_left ram_write ms (DisplayBufferVFDCurrent s) = draw 8 0 cs (DisplayBufferVFD s).
Proof.
  intros El Ec Hcs [Hv Hb] Hc. unfold VFDSetDisplayLargeString.
  rewrite (M_bind_run _ _ _ _ _ eq_refl), (M_bind_run _ _ _ _ _ (lift_run _ _ _ El)).
  assert (En : strlen l' = Ok (Z.of_nat (length cs))) by (unfold strlen; by rewrite Ec).
  rewrite (M_bind_run _ _ _ _ _ (lift_run _ _ _ En)).
  rewrite (M_bind_run _ _ _ _ _ (show_digits_run l' cs Ec Hcs 8 0 s ltac:(lia) Hv)).
  assert (Hd : bytes 48 (draw 8 0 cs (DisplayBufferVFD s))).
  { split; [|by apply (draw_text_u8 8)]. exact (eq_trans (draw_length 8 0 cs _) Hv). }
  unfold showing. generalize dependent (draw 8 0 cs (DisplayBufferVFD s)). intros v Hd.
  destruct (VFDSendToDisplay_panel (s <| DisplayBufferVFD := v |>)) as (ms & E & Em); [by destruct s..|].
  exists ms. split; [|exact Em]. rewrite (M_bind_run _ _ _ _ _ E). by destruct s.
Qed.
End large.

(** C9. A text is what the large display shows: after showing a text, for each
    of the eight digits every one of its seventeen segments is lit if and only
    if the font says so for the character there (a blank behind the end), every
    bit of the buffer that is no segment of these digits is as before, and the
    blocks that were sent turn the panel's copy of the old buffer into the new
    one, nothing else having changed. *)
Theorem tffp_shown `{!FpKernel} `{!FpKernelOk} l (s : tffp panel) :
  fp_ok s -> text l ->
  exists l' cs s' ms, (if truthy (allCaps (tffpConfig s)) then upcase l else Ok l) = Ok l' /\
    c_str l' = Ok cs /\ VFDSetDisplayLargeString l s = Ok (l', s') /\
    s' = (sent_more s (wire ms)) <| DisplayBufferVFD := DisplayBufferVFD s' |>
           <| DisplayBufferVFDCurrent := DisplayBufferVFD s' |> /\
    (forall d k, (d < 8)%nat -> (k < 17)%nat ->
       lit (DisplayBufferVFD s') (place d k) = Z.testbit (glyph (char_at cs d)) (Z.of_nat k)) /\
    (forall p, in_buffer p -> elsewhere p = true ->
       lit (DisplayBufferVFD s') p = lit (DisplayBufferVFD s) p) /\
    fold_left ram_write ms (DisplayBufferVFDCurrent s) = DisplayBufferVFD s'.
Proof.
  intros Hs Hl.
  assert (E : exists l', (if truthy (allCaps (tffpConfig s)) then upcase l else Ok l) = Ok l' /\ text l').
  { destruct (truthy _); [by apply upcase_text|by eexists]. }
  destruct E as (l' & El & [[Hn Hu] Hz]). destruct (c_str_in l' 39 Hz) as [cs Ec].
  destruct (VFDSetDisplayLargeString_run l l' cs s El Ec) as (ms & E & Em);
    [by eapply c_str_u8|apply Hs|apply Hs|].
  exists l', cs, (showing cs ms s), ms.
  destruct (draw_bits 8 0 cs (DisplayBufferVFD s)) as (B1 & _ & B3); [lia|apply Hs|].
  unfold showing in *. generalize dependent (draw 8 0 cs (DisplayBufferVFD s)). intros v E Em B1 B3.
  split; [exact El|]. split; [exact Ec|]. split; [exact E|]. split; [reflexivity|].
  split; [|by split]. intros d k Hd Hk. apply B1; [lia|exact Hk].
Qed.

(** The digits are not independent: the first digit's last mask also clears two
    segments of the fourth digit, so the order from left to right matters. *)
Lemma first_digit_clears_fourth :
  effect_at 0 (place 3 4) = Gone /\ effect_at 0 (place 3 5) = Gone /\
  effect_at 1 (place 5 4) = Gone /\ effect_at 1 (place 5 5) = Gone.
Proof. done. Qed.

(** ** Example *)

Section example.
#[local] Existing Instance example_kernel.
#[local] Existing Instance example_kernel_ok.

(** HELLO *)
Definition hello : list Z := [72; 69; 76; 76; 79] ++ replicate 35 0.

Lemma tffp_shown_witness :
  exists l' cs s' ms, (if truthy (allCaps (tffpConfig panel_loaded)) then upcase hello else Ok hello) = Ok l' /\
    c_str l' = Ok cs /\ VFDSetDisplayLargeString hello panel_loaded = Ok (l', s') /\
    s' = (sent_more panel_loaded (wire ms)) <| DisplayBufferVFD := DisplayBufferVFD s' |>
           <| DisplayBufferVFDCurrent := DisplayBufferVFD s' |> /\
    (forall d k, (d < 8)%nat -> (k < 17)%nat ->
       lit (DisplayBufferVFD s') (place d k) = Z.testbit (glyph (char_at cs d)) (Z.of_nat k)) /\
    (forall p, in_buffer p -> elsewhere p = true ->
       lit (DisplayBufferVFD s') p = lit (DisplayBufferVFD panel_loaded) p) /\
    fold_left ram_write ms (DisplayBufferVFDCurrent panel_loaded) = DisplayBufferVFD s'.
Proof.
  apply (tffp_shown hello panel_loaded).
  - apply panel_loaded_ok.
  - split; [split; [reflexivity|]|reflexivity]. unfold hello. apply Forall_app. split.
    + repeat (constructor; [unfold is_u8; lia|]). constructor.
    + apply Forall_replicate. unfold is_u8. lia.
Defined.
End example.
