(* ===== verification/TffpScroll.v ===== *)
(** * Topfield front panel: a long text scrolls once and comes back

    The scroll state machine, tick by tick: which part of the text each state
    shows, and that the machine comes to rest with the beginning of the text. *)
From S2P Require Import Prelude TffpState TffpDisplay TffpFrame TffpInv TffpTypes TffpReceive TffpText TffpShow.

(** What is relied on about toupper: it is idempotent and gives no terminator. *)
Class CapsKernel `{FpKernel} := {
  toupper_twice : forall c, 0 < c < 256 -> u8 (toupper (u8 (toupper c))) = u8 (toupper c);
  toupper_not_0 : forall c, 0 < c < 256 -> u8 (toupper c) <> 0
}.

(** ** Strings in arrays *)

Definition chars (cs : list Z) : Prop := Forall (fun c => 0 < c < 256) cs.
(** The array holds the characters and a terminator. *)
Definition holds (t cs : list Z) : Prop := exists rest, t = cs ++ 0 :: rest /\ Forall is_u8 rest.

Lemma holds_c_str t cs : chars cs -> holds t cs -> c_str t = Ok cs.
Proof.
  intros Hc (rest & -> & _). induction Hc as [|c cs Hc _ IH]; [done|]. simpl.
  destruct (Z.eqb_spec c 0); [lia|]. by rewrite IH.
Qed.

Lemma chars_u8 cs : chars cs -> Forall is_u8 cs.
Proof. apply Forall_impl. unfold is_u8. lia. Qed.

Lemma chars_drop i cs : chars cs -> chars (drop i cs).
Proof. apply Forall_drop. Qed.

Lemma holds_of_text t cs : text t -> c_str t = Ok cs -> chars cs /\ holds t cs.
Proof.
  intros [[_ Hu] _] E. destruct (c_str_split _ _ E) as [rest ->].
  apply Forall_app in Hu as [Hc Hr]. apply Forall_cons_1 in Hr as [_ Hr]. split; [|by exists rest].
  clear Hr. revert E. induction Hc as [|c cs Hc _ IH]; intros E; [constructor|]. simpl in E.
  destruct (Z.eqb_spec c 0); [done|]. apply res_bind_Ok in E as (x & Ex & [= <-]).
  constructor; [unfold is_u8 in Hc; lia|by apply IH].
Qed.

Lemma strncpy_run cs rest : chars cs -> forall n, (length cs < n)%nat ->
  strncpy n (cs ++ 0 :: rest) = Ok (cs ++ replicate (n - length cs) 0).
Proof.
  induction 1 as [|c cs Hc _ IH]; intros n Hn; destruct n as [|n]; cbn [length] in Hn; try lia; [done|].
  simpl. destruct (Z.eqb_spec c 0); [lia|]. by rewrite IH by lia.
Qed.

Lemma aget_next pre x y (l : list Z) : aget (pre ++ x :: y :: l) (Z.of_nat (length pre) + 1) = Ok y.
Proof. rewrite (cons_middle x pre), (app_assoc pre). apply aget_at. rewrite length_app. simpl. lia. Qed.

(** The loop moves the text one place to the front. *)
Lemma shift_text_run cs : chars cs -> forall n pre a rest, (length cs < n)%nat ->
  shift_text n (Z.of_nat (length pre)) (pre ++ a :: cs ++ 0 :: rest) = Ok (pre ++ cs ++ 0 :: 0 :: rest).
Proof.
  induction 1 as [|c cs Hc _ IH]; intros n pre a rest Hn; destruct n as [|n]; cbn [length] in Hn; try lia;
    cbn [shift_text app].
  - rewrite aget_next. cbn [mbind res_bind]. rewrite (aset_at pre _ a 0) by done. cbn [mbind res_bind].
    by rewrite aget_next.
  - rewrite aget_next. cbn [mbind res_bind]. rewrite (aset_at pre _ a c) by done. cbn [mbind res_bind].
    rewrite aget_next. cbn [mbind res_bind].
    destruct (Z.eqb_spec c 0); [lia|]. specialize (IH n (pre ++ [c]) c rest ltac:(lia)).
    rewrite <- !app_assoc in IH. cbn [app] in IH. rewrite <- IH. f_equal. rewrite length_app. simpl. lia.
Qed.

Section caps.
Context `{HK : FpKernel} `{HC : !CapsKernel}.

Definition upper (caps : bool) (c : Z) : Z := if caps then u8 (toupper c) else c.

Lemma upper_chars caps cs : chars cs -> chars (map (upper caps) cs).
Proof.
  induction 1 as [|c cs Hc _ IH]; simpl; constructor; [|done]. unfold upper. destruct caps; [|done].
  pose proof (toupper_not_0 c Hc). pose proof (is_u8_u8 (toupper c)) as Hu. unfold is_u8 in Hu. lia.
Qed.

Lemma upper_twice caps cs : chars cs -> map (upper caps) (map (upper caps) cs) = map (upper caps) cs.
Proof.
  induction 1 as [|c cs Hc _ IH]; [done|]. simpl. rewrite IH. f_equal. unfold upper. destruct caps; [|done].
  by apply toupper_twice.
Qed.

Lemma upcase_run cs t : chars cs -> holds t cs -> exists t', upcase t = Ok t' /\ holds t' (map (upper true) cs) /\
  length t' = length t.
Proof.
  intros Hc (rest & -> & Hr). exists (map (upper true) cs ++ 0 :: rest). split; [|split].
  - induction Hc as [|c cs Hc _ IH]; [done|]. simpl. destruct (Z.eqb_spec c 0); [lia|]. by rewrite IH.
  - by exists rest.
  - by rewrite !length_app, length_map.
Qed.
End caps.

(** ** The machine *)

(** The buffer shows the characters. *)
Definition shows (v cs : list Z) : Prop :=
  forall d k, (d < 8)%nat -> (k < 17)%nat -> lit v (place d k) = Z.testbit (glyph (char_at cs d)) (Z.of_nat k).

Section scroll.
Context `{HK : FpKernel} `{HO : !FpKernelOk} `{HC : !CapsKernel}.
Implicit Types s : tffp panel.

Definition caps s : bool := truthy (allCaps (tffpConfig s)).
(** The state with another display. *)
Definition displayed (io : panel) (v : list Z) s : tffp panel :=
  s <| fp_io := io |> <| DisplayBufferVFD := v |> <| DisplayBufferVFDCurrent := v |>.

Lemma show_run l cs s :
  chars cs -> holds l cs -> length l = 40%nat ->
  bytes 48 (DisplayBufferVFD s) -> bytes 48 (DisplayBufferVFDCurrent s) ->
  exists l' io v, VFDSetDisplayLargeString l s = Ok (l', displayed io v s) /\
    holds l' (map (upper (caps s)) cs) /\ length l' = 40%nat /\
    bytes 48 v /\ shows v (map (upper (caps s)) cs).
Proof.
  intros Hc Hl Hn Hv Hcur.
  assert (E : exists l', (if caps s then upcase l else Ok l) = Ok l' /\
    holds l' (map (upper (caps s)) cs) /\ length l' = 40%nat).
  { destruct (caps s).
    - destruct (upcase_run cs l Hc Hl) as (l' & E & H1 & H2). exists l'. by rewrite <- Hn.
    - exists l. split; [done|]. split; [|done]. by rewrite map_id. }
  destruct E as (l' & El & Hl' & Hn'). pose proof (upper_chars (caps s) cs Hc) as Hc'.
  destruct (VFDSetDisplayLargeString_run l l' _ s El (holds_c_str _ _ Hc' Hl') (chars_u8 _ Hc') Hv Hcur)
    as (ms & E & _).
  destruct (draw_bits 8 0 (map (upper (caps s)) cs) (DisplayBufferVFD s)) as (B & _ & _); [lia|apply Hv|].
  assert (Hd : bytes 48 (draw 8 0 (map (upper (caps s)) cs) (DisplayBufferVFD s))).
  { split; [|by apply (draw_text_u8 8), Hv]. exact (eq_trans (draw_length 8 0 _ _) (proj1 Hv)). }
  unfold showing in E. generalize dependent (draw 8 0 (map (upper (caps s)) cs) (DisplayBufferVFD s)).
  intros v E B Hd. exists l'. eexists. exists v. split; [exact E|]. split_and!; try done.
  intros d k Hd' Hk. apply B; [lia|exact Hk].
Qed.

Fixpoint ticks (n : nat) : M (tffp panel) unit :=
  match n with O => skip | S n => ScrollTimer;; ticks n end.

Lemma ticks_add a b s s' : ticks a s = Ok (tt, s') -> ticks (a + b) s = ticks b s'.
Proof.
  revert s. induction a as [|a IH]; intros s E; cbn [ticks Nat.add] in *; [by injection E as ->|].
  apply M_bind_Ok in E as ([] & s1 & E1 & E2). rewrite (M_bind_run _ _ _ _ _ E1). by apply IH.
Qed.

Lemma ticks_1 s s' : ScrollTimer s = Ok (tt, s') -> ticks 1 s = Ok (tt, s').
Proof. intros E. cbn [ticks]. by rewrite (M_bind_run _ _ _ _ _ E). Qed.

(** Waiting. *)
Definition waiting s : Prop := ScrollState s = SS_WaitPauseTimeout \/ ScrollState s = SS_WaitDelayTimeout.

Lemma count_delay_run k s : CurrentDelay s = Z.of_nat (S k) -> (k < 255)%nat ->
  count_delay s = Ok (tt, let s1 := s <| CurrentDelay := Z.of_nat k |> in
                          if (k =? 0)%nat then s1 <| ScrollState := SS_ScrollText |> else s1).
Proof.
  intros E Hk. unfold count_delay. rewrite (M_bind_run _ _ _ _ _ eq_refl), (M_bind_run _ _ _ _ _ eq_refl).
  assert (Es : s32 (CurrentDelay s - 1) = Z.of_nat k) by (rewrite E, s32_small; lia).
  cbv zeta. simpl CurrentDelay. rewrite Es. destruct k as [|k]; [done|].
  destruct (Z.eqb_spec (Z.of_nat (S k)) 0); [lia|done].
Qed.

Lemma wait_run k : forall s, CurrentDelay s = Z.of_nat (S k) -> (k < 255)%nat -> waiting s ->
  ticks (S k) s = Ok (tt, s <| CurrentDelay := 0 |> <| ScrollState := SS_ScrollText |>).
Proof.
  induction k as [|k IH]; intros s E Hk Hw.
  - assert (Et : ScrollTimer s = count_delay s).
    { unfold ScrollTimer. rewrite (M_bind_run _ _ _ _ _ eq_refl). by destruct Hw as [-> | ->]. }
    apply ticks_1. rewrite Et, (count_delay_run 0) by (done || lia). done.
  - assert (Et : ScrollTimer s = count_delay s).
    { unfold ScrollTimer. rewrite (M_bind_run _ _ _ _ _ eq_refl). by destruct Hw as [-> | ->]. }
    rewrite (count_delay_run (S k)) in Et by (done || lia). simpl in Et.
    change (S (S k)) with (1 + S k)%nat. rewrite (ticks_add 1 (S k) s _ (ticks_1 _ _ Et)).
    rewrite IH; [done|done|lia|done].
Qed.

(** A text of more than eight characters, to be scrolled once. *)
Variables (s0 : tffp panel) (cs : list Z).
Hypothesis Hmessage : text (Message s0).
Hypothesis Hchars : c_str (Message s0) = Ok cs.
Hypothesis Hlong : (8 < length cs)%nat.
Hypothesis Hmode : sm_mode (ScrollMode s0) = 1.
Hypothesis Hpause : 1 <= sm_pause (ScrollMode s0) < 256.
Hypothesis Hdelay : 1 <= sm_delay (ScrollMode s0) < 256.

Let up := map (upper (caps s0)) cs.

(** The display shows the text from place [i]. *)
Record view (i : nat) s : Prop := {
  view_text : holds (ScrollText s) (drop i up);
  view_length : length (ScrollText s) = 40%nat;
  view_shows : shows (DisplayBufferVFD s) (drop i up);
  view_vfd : bytes 48 (DisplayBufferVFD s);
  view_current : bytes 48 (DisplayBufferVFDCurrent s);
  view_message : Message s = Message s0;
  view_mode : ScrollMode s = ScrollMode s0;
  view_config : tffpConfig s = tffpConfig s0;
  view_once : ScrollOnce s = 0
}.

Lemma up_chars : chars up.
Proof using HC Hmessage Hchars. apply upper_chars. by destruct (holds_of_text _ _ Hmessage Hchars). Qed.

Lemma up_length : length up = length cs.
Proof using. apply length_map. Qed.

Lemma upper_drop i : map (upper (caps s0)) (drop i up) = drop i up.
Proof using HC Hmessage Hchars.
  refine (eq_trans (fmap_drop (upper (caps s0)) i up) _). f_equal. apply upper_twice.
  by destruct (holds_of_text _ _ Hmessage Hchars).
Qed.

Lemma scroll_init_run s :
  ScrollState s = SS_InitChars -> Message s = Message s0 -> ScrollMode s = ScrollMode s0 ->
  tffpConfig s = tffpConfig s0 -> bytes 48 (DisplayBufferVFD s) -> bytes 48 (DisplayBufferVFDCurrent s) ->
  ScrollOnce s = 0 \/ ScrollOnce s = 1 ->
  exists s', ScrollTimer s = Ok (tt, s') /\ view 0 s' /\ CurrentDelay s' = sm_pause (ScrollMode s0) /\
    ScrollState s' = (if truthy (ScrollOnce s) then SS_WaitPauseTimeout else SS_ShortString).
Proof using All.
  intros Hst Hm Hmd Hcfg Hv Hcur Honce. destruct (holds_of_text _ _ Hmessage Hchars) as [Hc (rest & Em & Hr)].
  assert (Hn : (length cs < 40)%nat).
  { destruct Hmessage as [[Hl _] _]. rewrite Em, length_app in Hl. simpl in Hl. lia. }
  set (t := cs ++ replicate (40 - length cs) 0).
  assert (Et : strncpy 40 (Message s0) = Ok t) by (rewrite Em; by apply strncpy_run).
  assert (Ea : aset t 39 0 = Ok t).
  { rewrite aset_in by (unfold t; rewrite length_app, length_replicate; lia). f_equal. apply list_insert_id.
    unfold t. rewrite lookup_app_r by (change (Z.to_nat 39) with 39%nat; lia). apply lookup_replicate_2.
    change (Z.to_nat 39) with 39%nat. lia. }
  assert (Hh : holds t cs).
  { exists (replicate (39 - length cs) 0). split.
    - unfold t. by replace (40 - length cs)%nat with (S (39 - length cs)) by lia.
    - apply Forall_replicate. unfold is_u8. lia. }
  assert (Hlt : length t = 40%nat) by (unfold t; rewrite length_app, length_replicate; lia).
  destruct (show_run t cs s Hc Hh Hlt Hv Hcur) as (t' & io & v & E & H1 & H2 & H3 & H4).
  assert (Ecaps : caps s = caps s0) by (unfold caps; by rewrite Hcfg). rewrite Ecaps in H1, H4. fold up in H1, H4.
  assert (En : strlen (Message s0) = Ok (Z.of_nat (length cs))) by (unfold strlen; by rewrite Hchars).
  unfold ScrollTimer. rewrite (M_bind_run _ _ _ _ _ eq_refl), Hst. unfold scroll_init.
  rewrite (M_bind_run _ _ _ _ _ eq_refl), Hm, (M_bind_run _ _ _ _ _ (lift_run _ _ _ Et)).
  rewrite (M_bind_run _ _ _ _ _ (lift_run _ _ _ Ea)), (M_bind_run _ _ _ _ _ E).
  rewrite (M_bind_run _ _ _ _ _ eq_refl), (M_bind_run _ _ _ _ _ (lift_run _ _ _ En)).
  set (s2 := _ <| CurrentDelay := _ |>).
  assert (Emode : sm_mode (ScrollMode s2) = 1) by exact (eq_trans (f_equal sm_mode Hmd) Hmode).
  assert (Eonce : ScrollOnce s2 = ScrollOnce s) by done.
  rewrite (M_bind_run _ _ _ _ _ eq_refl), (M_bind_run _ _ _ _ _ eq_refl). cbv beta.
  rewrite Emode, Eonce, (proj2 (Z.leb_gt _ _)) by lia. change (1 =? 0) with false. change (1 =? 1) with true.
  cbv iota. destruct Honce as [Ho|Ho]; rewrite Ho; simpl truthy; cbv iota; eexists; (split; [reflexivity|]);
    (split; [by constructor|split; [exact (f_equal sm_pause Hmd)|done]]).
Qed.

(** A step moves the text by one character. *)
Lemma scroll_step i s : (i < length cs)%nat -> view i s -> ScrollState s = SS_ScrollText ->
  exists s', ScrollTimer s = Ok (tt, s') /\ view (S i) s' /\
    CurrentDelay s' = sm_delay (ScrollMode s0) /\ ScrollState s' = SS_WaitDelayTimeout.
Proof using All.
  intros Hi [Vt Vl Vs Vv Vc Vm Vmd Vcfg Vo] Hst.
  destruct (lookup_lt_is_Some_2 up i) as [c Hc]; [rewrite up_length; lia|].
  rewrite (drop_S _ _ _ Hc) in Vt. destruct Vt as (rest & Et & Hr).
  pose proof (chars_drop i _ up_chars) as Hcs. rewrite (drop_S _ _ _ Hc) in Hcs.
  apply Forall_cons_1 in Hcs as [Hc0 Hcs].
  assert (Eg : aget (ScrollText s) 0 = Ok c) by (by rewrite Et).
  assert (Hle : (length (drop (S i) up) < 40)%nat).
  { rewrite Et in Vl. simpl in Vl. rewrite length_app in Vl. simpl in Vl. lia. }
  assert (Esh : shift_text 40 0 (ScrollText s) = Ok (drop (S i) up ++ 0 :: 0 :: rest)).
  { rewrite Et. exact (shift_text_run _ Hcs 40 [] c rest Hle). }
  destruct (show_run (drop (S i) up ++ 0 :: 0 :: rest) (drop (S i) up) s Hcs) as (t' & io & v & E & H1 & H2 & H3 & H4);
    [exists (0 :: rest); split; [done|by constructor]| |done|done|].
  { rewrite <- Vl, Et. simpl. rewrite !length_app. simpl. lia. }
  assert (Ecaps : caps s = caps s0) by (unfold caps; by rewrite Vcfg). rewrite Ecaps, upper_drop in H1, H4.
  unfold ScrollTimer. rewrite (M_bind_run _ _ _ _ _ eq_refl), Hst. unfold scroll_text.
  rewrite (M_bind_run _ _ _ _ _ eq_refl), (M_bind_run _ _ _ _ _ (lift_run _ _ _ Eg)).
  assert (Ec : truthy c = true) by (unfold truthy; destruct (Z.eqb_spec c 0); [lia|done]). rewrite Ec.
  rewrite (M_bind_run _ _ _ _ _ (lift_run _ _ _ Esh)), (M_bind_run _ _ _ _ _ E).
  eexists. split; [reflexivity|]. split; [by constructor|]. split; [exact (f_equal sm_delay Vmd)|done].
Qed.

(** Behind the end of the text the machine starts again. *)
Lemma scroll_end s : view (length cs) s -> ScrollState s = SS_ScrollText ->
  ScrollTimer s = Ok (tt, s <| ScrollState := SS_InitChars |>).
Proof using Hlong.
  intros [Vt _ _ _ _ _ _ _ _] Hst. rewrite drop_ge in Vt by (rewrite up_length; lia).
  destruct Vt as (rest & Et & _). assert (Eg : aget (ScrollText s) 0 = Ok 0) by (by rewrite Et).
  unfold ScrollTimer. rewrite (M_bind_run _ _ _ _ _ eq_refl), Hst. unfold scroll_text.
  rewrite (M_bind_run _ _ _ _ _ eq_refl), (M_bind_run _ _ _ _ _ (lift_run _ _ _ Eg)). done.
Qed.

Lemma view_wait i s : view i s -> view i (s <| CurrentDelay := 0 |> <| ScrollState := SS_ScrollText |>).
Proof using. intros []. by constructor. Qed.

Lemma wait_delay d i s : 1 <= d < 256 -> CurrentDelay s = d -> waiting s -> view i s ->
  exists s', ticks (Z.to_nat d) s = Ok (tt, s') /\ view i s' /\ ScrollState s' = SS_ScrollText.
Proof using Hlong.
  intros Hd E Hw Hv. replace (Z.to_nat d) with (S (Z.to_nat (d - 1))) by lia.
  rewrite (wait_run (Z.to_nat (d - 1)) s) by (done || lia). eexists. split; [reflexivity|].
  split; [by apply view_wait|done].
Qed.

(** The ticks until the text stands at place [i]. *)
Definition ticks_to (i : nat) : nat :=
  1 + Z.to_nat (sm_pause (ScrollMode s0)) + i * (1 + Z.to_nat (sm_delay (ScrollMode s0))).

Hypothesis Hstate : ScrollState s0 = SS_InitChars.
Hypothesis Honce : ScrollOnce s0 = 1.
Hypothesis Hvfd : bytes 48 (DisplayBufferVFD s0).
Hypothesis Hcurrent : bytes 48 (DisplayBufferVFDCurrent s0).

Lemma scroll_to i : (i <= length cs)%nat ->
  exists s, ticks (ticks_to i) s0 = Ok (tt, s) /\ view i s /\ ScrollState s = SS_ScrollText.
Proof using All.
  unfold ticks_to. induction i as [|i IH]; intros Hi.
  - destruct (scroll_init_run s0) as (s1 & E1 & V1 & D1 & S1); try done; [by right|]. rewrite Honce in S1.
    destruct (wait_delay _ 0 s1 Hpause D1 (or_introl S1) V1) as (s2 & E2 & V2 & S2).
    exists s2. split; [|done]. rewrite Nat.add_0_r. by rewrite (ticks_add 1 _ _ _ (ticks_1 _ _ E1)).
  - destruct IH as (s1 & E1 & V1 & S1); [lia|].
    destruct (scroll_step i s1) as (s2 & E2 & V2 & D2 & S2); [lia|done|done|].
    destruct (wait_delay _ (S i) s2 Hdelay D2 (or_intror S2) V2) as (s3 & E3 & V3 & S3).
    exists s3. split; [|done].
    replace (1 + Z.to_nat (sm_pause (ScrollMode s0)) + S i * (1 + Z.to_nat (sm_delay (ScrollMode s0))))%nat
      with (1 + Z.to_nat (sm_pause (ScrollMode s0)) + i * (1 + Z.to_nat (sm_delay (ScrollMode s0)))
            + (1 + Z.to_nat (sm_delay (ScrollMode s0))))%nat by lia.
    rewrite (ticks_add _ _ _ _ E1). by rewrite (ticks_add 1 _ _ _ (ticks_1 _ _ E2)).
Qed.

Lemma ticks_rest n s : ScrollState s = SS_ShortString -> ticks n s = Ok (tt, s).
Proof using.
  intros Hs. induction n as [|n IH]; [done|]. cbn [ticks].
  assert (E : ScrollTimer s = Ok (tt, s)) by (unfold ScrollTimer; by rewrite (M_bind_run _ _ _ _ _ eq_refl), Hs).
  by rewrite (M_bind_run _ _ _ _ _ E).
Qed.

Lemma scroll_rest : exists s, ticks (ticks_to (length cs) + 2) s0 = Ok (tt, s) /\ view 0 s /\
  ScrollState s = SS_ShortString.
Proof using All.
  destruct (scroll_to (length cs)) as (s1 & E1 & V1 & S1); [lia|].
  pose proof (scroll_end s1 V1 S1) as E2. destruct V1 as [_ _ _ Vv Vc Vm Vmd Vcfg Vo].
  destruct (scroll_init_run (s1 <| ScrollState := SS_InitChars |>)) as (s2 & E3 & V3 & _ & S3); try done; [by left|].
  change (ScrollOnce (s1 <| ScrollState := SS_InitChars |>)) with (ScrollOnce s1) in S3. rewrite Vo in S3.
  exists s2. split; [|done]. rewrite (ticks_add _ 2 _ _ E1). change 2%nat with (1 + 1)%nat.
  rewrite (ticks_add 1 1 _ _ (ticks_1 _ _ E2)). by apply ticks_1.
Qed.
End scroll.

(** C18. A text of more than eight characters that is to be scrolled once does
    scroll, and the display comes to rest: pause, delay and length tell in which
    tick the display shows the text from its [i]-th character, up to the blank
    display behind the end, and two ticks later it shows the beginning again,
    for ever. *)
Theorem tffp_scroll `{!FpKernel} `{!FpKernelOk} `{HC : !CapsKernel} (s : tffp panel) cs :
  fp_ok s -> ScrollState s = SS_InitChars -> ScrollOnce s = 1 -> sm_mode (ScrollMode s) = 1 ->
  1 <= sm_pause (ScrollMode s) -> 1 <= sm_delay (ScrollMode s) ->
  c_str (Message s) = Ok cs -> (8 < length cs)%nat ->
  let up := map (upper (caps s)) cs in
  (forall i, (i <= length cs)%nat -> exists s', ticks (ticks_to s i) s = Ok (tt, s') /\
     shows (DisplayBufferVFD s') (drop i up)) /\
  exists s', ticks (ticks_to s (length cs) + 2) s = Ok (tt, s') /\
    shows (DisplayBufferVFD s') up /\ forall n, ticks n s' = Ok (tt, s').
Proof.
  intros Hs Hst Honce Hmode Hp Hd Hc Hn up.
  destruct (ok_mode s Hs) as (_ & Up & Ud). unfold is_u8 in Up, Ud.
  assert (Hm : text (Message s)) by apply Hs.
  assert (Hv : bytes 48 (DisplayBufferVFD s)) by apply Hs.
  assert (Hcur : bytes 48 (DisplayBufferVFDCurrent s)) by apply Hs.
  split.
  - intros i Hi. destruct (scroll_to s cs Hm Hc Hn Hmode ltac:(lia) ltac:(lia) Hst Honce Hv Hcur i Hi)
      as (s' & E & V & _). exists s'. split; [done|apply V].
  - destruct (scroll_rest s cs Hm Hc Hn Hmode ltac:(lia) ltac:(lia) Hst Honce Hv Hcur) as (s' & E & V & Hr).
    exists s'. split; [done|]. split; [apply (view_shows _ _ _ _ V)|]. intros n. by apply ticks_rest.
Qed.

(** With a pause of 0 the counter passes 0 on its way down, and the text stays
    where it is for more than two thousand million ticks. *)
Lemma scroll_pause_0 `{!FpKernel} k (s : tffp panel) : Z.of_nat k <= 2 ^ 31 - 1 ->
  ScrollState s = SS_WaitPauseTimeout -> CurrentDelay s = 0 ->
  ticks k s = Ok (tt, s <| CurrentDelay := - Z.of_nat k |>).
Proof.
  intros Hk Hst E. assert (Hgen : forall n j (s : tffp panel), ScrollState s = SS_WaitPauseTimeout ->
    CurrentDelay s = - j -> 0 <= j -> j + Z.of_nat n <= 2 ^ 31 - 1 ->
    ticks n s = Ok (tt, s <| CurrentDelay := - (j + Z.of_nat n) |>)).
  { clear. induction n as [|n IH]; intros j s Hst E Hj Hn.
    - simpl. rewrite Z.add_0_r, <- E. by destruct s.
    - cbn [ticks]. assert (Et : ScrollTimer s = Ok (tt, s <| CurrentDelay := - (j + 1) |>)).
      { unfold ScrollTimer. rewrite (M_bind_run _ _ _ _ _ eq_refl), Hst. unfold count_delay.
        rewrite (M_bind_run _ _ _ _ _ eq_refl), (M_bind_run _ _ _ _ _ eq_refl). cbv beta. simpl CurrentDelay.
        assert (Es : s32 (CurrentDelay s - 1) = - (j + 1)).
        { rewrite E. unfold s32, u32. replace (- j - 1) with (2 ^ 32 - (j + 1) + (-1) * 2 ^ 32) by lia.
          rewrite Z.mod_add, Z.mod_small by lia. rewrite (proj2 (Z.ltb_ge _ _)) by lia. lia. }
        rewrite Es. rewrite (proj2 (Z.eqb_neq _ _)) by lia. done. }
      rewrite (M_bind_run _ _ _ _ _ Et). rewrite (IH (j + 1)); [|done|done|lia|lia].
      by replace (j + 1 + Z.of_nat n) with (j + Z.of_nat (S n)) by lia. }
  rewrite (Hgen k 0 s) by (done || lia). done.
Qed.

(** ** Example *)

Section example.
#[local] Existing Instance example_kernel.
#[local] Existing Instance example_kernel_ok.

Lemma example_caps : CapsKernel.
Proof.
  split; intros c Hc; assert (Hu : is_u8 c) by (unfold is_u8; lia); simpl.
  - clear Hc. by_bytes c Hu.
  - assert (E : negb (u8 (if (97 <=? c) && (c <=? 122) then c - 32 else c) =? 0) || (c =? 0) = true).
    { clear Hc. by_bytes c Hu. }
    lia.
Qed.

(** A text of ten characters, with a pause of three ticks and a delay of two. *)
Definition scrolling : tffp panel :=
  panel_loaded <| Message := [83; 99; 114; 111; 108; 108; 32; 111; 110; 101] ++ replicate 30 0 |>
    <| ScrollMode := mkScroll 1 3 2 |> <| ScrollState := SS_InitChars |> <| ScrollOnce := 1 |>.

Lemma text_ok (s : tffp panel) m md st once : text m -> scroll_ok md -> fp_ok s ->
  fp_ok (s <| Message := m |> <| ScrollMode := md |> <| ScrollState := st |> <| ScrollOnce := once |>).
Proof. intros Hm Hmd []. constructor; assumption. Qed.

Lemma tffp_scroll_witness :
  let up := map (upper (caps scrolling)) [83; 99; 114; 111; 108; 108; 32; 111; 110; 101] in
  (forall i, (i <= 10)%nat -> exists s', ticks (ticks_to scrolling i) scrolling = Ok (tt, s') /\
     shows (DisplayBufferVFD s') (drop i up)) /\
  exists s', ticks (ticks_to scrolling 10 + 2) scrolling = Ok (tt, s') /\
    shows (DisplayBufferVFD s') up /\ forall n, ticks n s' = Ok (tt, s').
Proof.
  apply (tffp_scroll (HC := example_caps) scrolling [83; 99; 114; 111; 108; 108; 32; 111; 110; 101]).
  - apply text_ok; [| |apply panel_loaded_ok].
    + split; [split; [reflexivity|]|reflexivity]. repeat (constructor; [unfold is_u8; lia|]). constructor.
    + unfold scroll_ok, is_u8. simpl. lia.
  - reflexivity.
  - reflexivity.
  - reflexivity.
  - vm_compute. discriminate.
  - vm_compute. discriminate.
  - reflexivity.
  - vm_compute. lia.
Defined.
End example.
