(* ===== verification/Bpamem.v ===== *)
(** * Memory from the BPA2 partitions for user space (bpamem/bpamem.c)

    Thirty-two devices, each of which stands for one block of physical memory:
    ALLOCMEM takes a block from a partition, MAPMEM a block that the caller
    names, FREEMEM and UNMAPMEM give the device back, mmap shows the block to a
    process.  The partitions and the kernel's memory management are the class
    [BpaHw]; a user's structure is what copy_from_user reads of it and whether
    copy_to_user will succeed. *)
From S2P Require Import Prelude.

Definition MAX_BPA_ALLOCS := 32.

Record bpamem_dev_private := BpaDev { used : Z; part : Z; phys_addr : Z; size : Z }.
Definition eta_dev (d : bpamem_dev_private) : bpamem_dev_private :=
  BpaDev (used d) (part d) (phys_addr d) (size d).
#[export] Instance set_used : Setter used := ltac:(setter eta_dev used).
#[export] Instance set_part : Setter part := ltac:(setter eta_dev part).
#[export] Instance set_phys_addr : Setter phys_addr := ltac:(setter eta_dev phys_addr).
#[export] Instance set_size : Setter size := ltac:(setter eta_dev size).

(** The file-level variables with the rest of the kernel. *)
Record bpamem (K : Type) := mkBpamem {
  kernel : K; bpamem_dev : list bpamem_dev_private; sem_find_dev : Z
}.
Arguments mkBpamem {K} _ _ _.
Arguments kernel {K} _.
Arguments bpamem_dev {K} _.
Arguments sem_find_dev {K} _.
Definition eta_bpamem {K} (s : bpamem K) : bpamem K := mkBpamem (kernel s) (bpamem_dev s) (sem_find_dev s).
#[export] Instance set_kernel {K} : Setter (@kernel K) := ltac:(setter (@eta_bpamem K) (@kernel K)).
#[export] Instance set_bpamem_dev {K} : Setter (@bpamem_dev K) := ltac:(setter (@eta_bpamem K) (@bpamem_dev K)).
#[export] Instance set_sem_find_dev {K} : Setter (@sem_find_dev K) := ltac:(setter (@eta_bpamem K) (@sem_find_dev K)).

(** Before the module is loaded. *)
Definition bpamem_boot {K} (k : K) : bpamem K := mkBpamem k (replicate 32 (BpaDev 0 0 0 0)) 0.

(** What the driver uses of the kernel: partitions are pointers, 0 for NULL. *)
Class BpaHw (K : Type) := {
  PAGE_SHIFT : Z;
  bpa2_find_part : Z -> K -> Z;
  bpa2_alloc_pages : Z -> Z -> Z -> K -> Z * K;
  bpa2_free_pages : Z -> Z -> K -> K;
  io_remap_pfn_range : Z -> Z -> Z -> K -> Z * K;
  register_chrdev_region : K -> Z * K;
  cdev_add : K -> Z * K;
  create_class : K -> K;
  create_device : Z -> K -> K;
  destroy_device : Z -> K -> K;
  remove_driver : K -> K
}.

Record BPAMemAllocMemData := AllocData { am_part : Z; am_size : Z; am_dev : Z }.
Record BPAMemMapMemData := MapData { mm_part : Z; mm_size : Z; mm_dev : Z; mm_phys : Z }.
(** A user's structure: what reading gives, [None] for a fault, and whether it
    can be written. *)
Record user (A : Type) := User { u_read : option A; u_writable : bool }.
Arguments User {A} _ _.
Arguments u_read {A} _.
Arguments u_writable {A} _.

Definition ENOMEM := 12.
Definition EIO := 5.

Section bpamem.
Context {K : Type} `{HK : BpaHw K}.

Definition PAGE_SIZE : Z := 1 ≪ PAGE_SHIFT.

Definition kernel_do (f : K -> K) : M (bpamem K) unit := modify (fun s => s <| kernel := f (kernel s) |>).
Definition kernel_call {A} (f : K -> A * K) : M (bpamem K) A :=
  fun s => let (a, k) := f (kernel s) in Ok (a, s <| kernel := k |>).

(** bpamem_dev[dev], read and changed. *)
Definition dev_get (dev : Z) : M (bpamem K) bpamem_dev_private :=
  l ← gets bpamem_dev; lift (aget l dev).
Definition dev_put (dev : Z) (f : bpamem_dev_private -> bpamem_dev_private) : M (bpamem K) unit :=
  d ← dev_get dev;
  l ← gets bpamem_dev;
  l ← lift (aset l dev (f d));
  modify (fun s => s <| bpamem_dev := l |>).

(** A semaphore at 0 has nobody who would raise it: down() sleeps for ever. *)
Definition down : M (bpamem K) unit :=
  n ← gets sem_find_dev;
  if 0 <? n then modify (fun s => s <| sem_find_dev := n - 1 |>) else faulty Diverges.
Definition up : M (bpamem K) unit := modify (fun s => s <| sem_find_dev := sem_find_dev s + 1 |>).

(** for (i = 0; i < MAX_BPA_ALLOCS; i++) if (bpamem_dev[i].used == 0) ... *)
Fixpoint first_free (l : list bpamem_dev_private) (i : Z) : option Z :=
  match l with
  | [] => None
  | d :: l => if used d =? 0 then Some i else first_free l (i + 1)
  end.

(** The result -1 is [None]. *)
Definition find_next_device : M (bpamem K) (option Z) :=
  down;;
  l ← gets bpamem_dev;
  let dev := first_free l 0 in
  match dev with Some dev => dev_put dev (fun d => d <| used := 1 |>) | None => skip end;;
  up;;
  mret dev.

Definition release_device (dev : Z) : M (bpamem K) unit := dev_put dev (fun d => d <| used := 0 |>).

(** Sizes are unsigned long, of 32 bits. *)
Definition round_up (mem_size : Z) : Z :=
  if mem_size mod PAGE_SIZE =? 0 then mem_size else u32 ((mem_size / PAGE_SIZE + 1) * PAGE_SIZE).

Definition free_block (dev : Z) : M (bpamem K) unit :=
  d ← dev_get dev;
  kernel_do (bpa2_free_pages (part d) (phys_addr d));;
  dev_put dev (fun d => d <| phys_addr := 0 |>);;
  release_device dev.

(** The result and the structure as the user finds it when it was written. *)
Definition bpamemio_allocmem (in_data : user BPAMemAllocMemData)
    : M (bpamem K) (Z * option BPAMemAllocMemData) :=
  dev ← find_next_device;
  match dev with
  | None => mret (-1, None)
  | Some dev =>
      match u_read in_data with
      | None => release_device dev;; mret (-1, None)
      | Some data =>
          let mem_size := round_up (am_size data) in
          p ← gets (fun s => bpa2_find_part (am_part data) (kernel s));
          dev_put dev (fun d => d <| part := p |>);;
          if p =? 0 then release_device dev;; mret (-1, None)
          else
            a ← kernel_call (bpa2_alloc_pages p (mem_size / PAGE_SIZE) 1);
            dev_put dev (fun d => d <| phys_addr := a |>);;
            if a =? 0 then release_device dev;; mret (- ENOMEM, None)
            else
              dev_put dev (fun d => d <| size := mem_size |>);;
              if u_writable in_data then mret (0, Some (AllocData (am_part data) mem_size dev))
              else free_block dev;; mret (-1, None)
      end
  end.

Definition bpamemio_mapmem (in_data : user BPAMemMapMemData)
    : M (bpamem K) (Z * option BPAMemMapMemData) :=
  dev ← find_next_device;
  match dev with
  | None => mret (-1, None)
  | Some dev =>
      match u_read in_data with
      | None => release_device dev;; mret (-1, None)
      | Some data =>
          p ← gets (fun s => bpa2_find_part (mm_part data) (kernel s));
          dev_put dev (fun d => d <| part := p |>);;
          if p =? 0 then release_device dev;; mret (-1, None)
          else
            dev_put dev (fun d => d <| size := mm_size data |> <| phys_addr := mm_phys data |>);;
            if u_writable in_data
            then mret (0, Some (MapData (mm_part data) (mm_size data) dev (mm_phys data)))
            else free_block dev;; mret (-1, None)
      end
  end.

Definition bpamemio_deallocmem (dev : Z) : M (bpamem K) Z :=
  d ← dev_get dev;
  when (truthy (used d)) (free_block dev);;
  mret 0.

Definition bpamemio_unmapmem (dev : Z) : M (bpamem K) Z :=
  d ← dev_get dev;
  when (truthy (used d)) (dev_put dev (fun d => d <| phys_addr := 0 |>);; release_device dev);;
  mret 0.

Inductive bpamem_request :=
  | BPAMEMIO_ALLOCMEM (in_data : user BPAMemAllocMemData)
  | BPAMEMIO_FREEMEM
  | BPAMEMIO_MAPMEM (in_data : user BPAMemMapMemData)
  | BPAMEMIO_UNMAPMEM
  | BPAMEMIO_OTHER.

(** What an ioctl leaves in the user's memory. *)
Inductive bpamem_written :=
  | NothingWritten
  | AllocWritten (d : BPAMemAllocMemData)
  | MapWritten (d : BPAMemMapMemData).

Definition bpamem_ioctl (minor : Z) (ioctl : bpamem_request) : M (bpamem K) (Z * bpamem_written) :=
  match ioctl with
  | BPAMEMIO_ALLOCMEM a =>
      '(r, o) ← bpamemio_allocmem a;
      mret (r, match o with Some d => AllocWritten d | None => NothingWritten end)
  | BPAMEMIO_MAPMEM a =>
      '(r, o) ← bpamemio_mapmem a;
      mret (r, match o with Some d => MapWritten d | None => NothingWritten end)
  | BPAMEMIO_FREEMEM => r ← bpamemio_deallocmem minor; mret (r, NothingWritten)
  | BPAMEMIO_UNMAPMEM => r ← bpamemio_unmapmem minor; mret (r, NothingWritten)
  | BPAMEMIO_OTHER => mret (-1, NothingWritten)
  end.

Definition bpamem_open : M (bpamem K) Z := mret 0.
Definition bpamem_release : M (bpamem K) Z := mret 0.

(** The part of struct vm_area_struct that is read. *)
Record vm_area := VmArea { vm_start : Z; vm_end : Z; vm_pgoff : Z }.

Definition bpamem_mmap (minor : Z) (vma : vm_area) : M (bpamem K) Z :=
  d ← dev_get minor;
  if truthy (used d) && (phys_addr d =? 0) then mret (-1)
  else
    let start := u32 (phys_addr d + u32 (vm_pgoff vma ≪ PAGE_SHIFT)) in
    r ← kernel_call (io_remap_pfn_range (vm_start vma) (start ≫ PAGE_SHIFT) (vm_end vma - vm_start vma));
    mret (if truthy r then - EIO else 0).

(** ** Loading and unloading *)

(** for (i = 0; i < MAX_BPA_ALLOCS; i++), [n] rounds left *)
Fixpoint each (n : nat) (i : Z) (f : Z -> M (bpamem K) unit) : M (bpamem K) unit :=
  match n with O => skip | S n => f i;; each n (i + 1) f end.

(** [users]: what processes do with the device once cdev_add has made it
    reachable, before the semaphore has its value. *)
Definition bpamem_init (users : M (bpamem K) unit) : M (bpamem K) Z :=
  each 32 0 (fun i => dev_put i (fun d => d <| used := 0 |> <| phys_addr := 0 |>));;
  result ← kernel_call register_chrdev_region;
  if result <? 0 then mret result
  else
    r ← kernel_call cdev_add;
    if r <? 0 then mret (-1)
    else
      kernel_do create_class;;
      each 32 0 (fun i => kernel_do (create_device i));;
      users;;
      modify (fun s => s <| sem_find_dev := 1 |>);;
      mret result.

Definition bpamem_exit : M (bpamem K) unit :=
  each 32 0 (fun i => bpamemio_deallocmem i;; skip);;
  kernel_do remove_driver;;
  each 32 0 (fun i => kernel_do (destroy_device i)).
End bpamem.

(** ** Running the pieces *)

#[global] Arguments dev_put : simpl never.

Section runs.
Context {K : Type} `{HK : BpaHw K}.
Implicit Types (s : bpamem K) (l : list bpamem_dev_private) (d : bpamem_dev_private).

Lemma dev_get_run s i d : bpamem_dev s !! i = Some d -> dev_get (Z.of_nat i) s = Ok (d, s).
Proof.
  intros Hd. unfold dev_get. rewrite (M_bind_run _ _ _ _ _ eq_refl). apply lift_run, aget_Ok.
  split; [lia|]. by rewrite Nat2Z.id.
Qed.

Lemma dev_put_run s i d f : bpamem_dev s !! i = Some d ->
  dev_put (Z.of_nat i) f s = Ok (tt, s <| bpamem_dev := <[i := f d]> (bpamem_dev s) |>).
Proof.
  intros Hd. pose proof (lookup_lt_Some _ _ _ Hd) as Hi. unfold dev_put.
  rewrite (M_bind_run _ _ _ _ _ (dev_get_run s i d Hd)), (M_bind_run _ _ _ _ _ eq_refl).
  rewrite (M_bind_run _ _ _ _ _ (lift_run _ s _ (aset_in (bpamem_dev s) (Z.of_nat i) (f d) ltac:(lia)))).
  by rewrite Nat2Z.id.
Qed.

(** [s] with another kernel and another device [i]. *)
Definition at_dev (i : nat) (d : bpamem_dev_private) (k : K) s : bpamem K :=
  s <| kernel := k |> <| bpamem_dev := <[i := d]> (bpamem_dev s) |>.

Lemma at_dev_lookup i d k s : (i < length (bpamem_dev s))%nat -> bpamem_dev (at_dev i d k s) !! i = Some d.
Proof. intros Hi. by apply list_lookup_insert_eq. Qed.

Lemma at_dev_put i d k s f : (i < length (bpamem_dev s))%nat ->
  dev_put (Z.of_nat i) f (at_dev i d k s) = Ok (tt, at_dev i (f d) k s).
Proof.
  intros Hi. rewrite (dev_put_run _ i d) by by apply at_dev_lookup.
  unfold at_dev. simpl. by rewrite list_insert_insert_eq.
Qed.

Lemma at_dev_same i d s : bpamem_dev s !! i = Some d -> at_dev i d (kernel s) s = s.
Proof. intros Hd. unfold at_dev. simpl. rewrite list_insert_id by done. by destruct s. Qed.

Lemma first_free_Some l : forall b n, first_free l b = Some n ->
  exists i d, n = b + Z.of_nat i /\ l !! i = Some d /\ used d = 0 /\
    forall j d', (j < i)%nat -> l !! j = Some d' -> used d' <> 0.
Proof.
  induction l as [|d l IH]; intros b n E; [done|]. simpl in E. destruct (Z.eqb_spec (used d) 0) as [Hu|Hu].
  - injection E as <-. exists 0%nat, d. split_and!; [lia|done|done|lia].
  - destruct (IH _ _ E) as (i & d' & -> & Hd & Hz & Hall). exists (S i), d'. split_and!; [lia|done|done|].
    intros [|j] d2 Hj Hd2; [by injection Hd2 as <-|]. apply (Hall j); [lia|done].
Qed.

Lemma first_free_None l b i d : first_free l b = None -> l !! i = Some d -> used d <> 0.
Proof.
  revert b i. induction l as [|d' l IH]; intros b i E Hd; [done|]. simpl in E.
  destruct (Z.eqb_spec (used d') 0); [done|]. destruct i as [|i]; [by injection Hd as <-|]. by eapply IH.
Qed.

Lemma find_next_device_run s : 0 < sem_find_dev s ->
  match first_free (bpamem_dev s) 0 with
  | None => find_next_device s = Ok (None, s)
  | Some n => exists i d, n = Z.of_nat i /\ bpamem_dev s !! i = Some d /\ used d = 0 /\
      (forall j d', (j < i)%nat -> bpamem_dev s !! j = Some d' -> used d' <> 0) /\
      find_next_device s = Ok (Some n, at_dev i (d <| used := 1 |>) (kernel s) s)
  end.
Proof.
  intros Hs. assert (Ed : down s = Ok (tt, s <| sem_find_dev := sem_find_dev s - 1 |>)).
  { unfold down. rewrite (M_bind_run _ _ _ _ _ eq_refl). by rewrite (proj2 (Z.ltb_lt _ _) Hs). }
  unfold find_next_device. rewrite (M_bind_run _ _ _ _ _ Ed), (M_bind_run _ _ _ _ _ eq_refl). cbv zeta.
  change (bpamem_dev (s <| sem_find_dev := _ |>)) with (bpamem_dev s).
  destruct (first_free (bpamem_dev s) 0) as [n|] eqn:E.
  - destruct (first_free_Some _ _ _ E) as (i & d & -> & Hd & Hu & Hall). exists i, d.
    split; [lia|]. split; [done|]. split; [done|]. split; [done|]. rewrite Z.add_0_l. cbv iota beta.
    set (s1 := s <| sem_find_dev := _ |>).
    pose proof (dev_put_run s1 i d (fun d => d <| used := 1 |>) Hd) as Ep.
    rewrite (M_bind_run _ _ _ _ _ Ep).
    unfold up. rewrite (M_bind_run _ _ _ _ _ eq_refl). unfold mret, M_ret, at_dev. simpl. by rewrite Z.sub_add.
  - unfold up. rewrite (M_bind_run _ _ _ _ _ eq_refl), (M_bind_run _ _ _ _ _ eq_refl).
    unfold mret, M_ret. simpl. rewrite Z.sub_add. by destruct s.
Qed.

Lemma free_block_run i d k s : (i < length (bpamem_dev s))%nat ->
  free_block (Z.of_nat i) (at_dev i d k s)
  = Ok (tt, at_dev i (d <| phys_addr := 0 |> <| used := 0 |>) (bpa2_free_pages (part d) (phys_addr d) k) s).
Proof.
  intros Hi. unfold free_block. rewrite (M_bind_run _ _ _ _ _ (dev_get_run _ i d (at_dev_lookup i d k s Hi))).
  unfold kernel_do. rewrite (M_bind_run _ _ _ _ _ eq_refl).
  change (_ <| kernel := _ |>) with (at_dev i d (bpa2_free_pages (part d) (phys_addr d) k) s).
  rewrite (M_bind_run _ _ _ _ _ (at_dev_put i d _ s _ Hi)). unfold release_device. by rewrite at_dev_put.
Qed.

(** What happens to device [i], which was free, when a process asks for memory. *)
Definition alloc_outcome (a : user BPAMemAllocMemData) (i : nat) (d : bpamem_dev_private) (k : K)
    : Z * option BPAMemAllocMemData * bpamem_dev_private * K :=
  match u_read a with
  | None => (-1, None, d <| used := 0 |>, k)
  | Some data =>
      let sz := round_up (am_size data) in
      let p := bpa2_find_part (am_part data) k in
      if p =? 0 then (-1, None, d <| part := p |> <| used := 0 |>, k)
      else
        let '(x, k) := bpa2_alloc_pages p (sz / PAGE_SIZE) 1 k in
        if x =? 0 then (- ENOMEM, None, BpaDev 0 p x (size d), k)
        else if u_writable a then (0, Some (AllocData (am_part data) sz (Z.of_nat i)), BpaDev 1 p x sz, k)
        else (-1, None, BpaDev 0 p 0 sz, bpa2_free_pages p x k)
  end.

Lemma alloc_run a s : 0 < sem_find_dev s ->
  (first_free (bpamem_dev s) 0 = None /\ bpamemio_allocmem a s = Ok ((-1, None), s)) \/
  exists i d, bpamem_dev s !! i = Some d /\ used d = 0 /\
    (forall j d', (j < i)%nat -> bpamem_dev s !! j = Some d' -> used d' <> 0) /\
    let '(r, o, d', k') := alloc_outcome a i d (kernel s) in
    bpamemio_allocmem a s = Ok ((r, o), at_dev i d' k' s).
Proof.
  intros Hs. pose proof (find_next_device_run s Hs) as E. unfold bpamemio_allocmem.
  destruct (first_free (bpamem_dev s) 0) as [n|]; [|left; split; [done|]; by rewrite (M_bind_run _ _ _ _ _ E)].
  right. destruct E as (i & d & -> & Hd & Hu & Hall & E). exists i, d. split; [done|]. split; [done|]. split; [done|].
  pose proof (lookup_lt_Some _ _ _ Hd) as Hi. rewrite (M_bind_run _ _ _ _ _ E). unfold alloc_outcome, release_device.
  destruct (u_read a) as [data|].
  2: { by rewrite (M_bind_run _ _ _ _ _ (at_dev_put i _ _ s _ Hi)). }
  cbv zeta. rewrite (M_bind_run _ _ _ _ _ eq_refl), (M_bind_run _ _ _ _ _ (at_dev_put i _ _ s _ Hi)). cbv beta.
  change (kernel (at_dev i ?d ?k ?s)) with k. set (p := bpa2_find_part _ _).
  destruct (p =? 0); [by rewrite (M_bind_run _ _ _ _ _ (at_dev_put i _ _ s _ Hi))|].
  unfold kernel_call at 1, mbind at 1, M_bind at 1. change (kernel (at_dev i ?d ?k ?s)) with k.
  destruct (bpa2_alloc_pages p _ 1 (kernel s)) as [x k'].
  change (_ <| kernel := k' |>) with (at_dev i (d <| used := 1 |> <| part := p |>) k' s).
  rewrite (M_bind_run _ _ _ _ _ (at_dev_put i _ _ s _ Hi)).
  destruct (x =? 0); [by rewrite (M_bind_run _ _ _ _ _ (at_dev_put i _ _ s _ Hi))|].
  rewrite (M_bind_run _ _ _ _ _ (at_dev_put i _ _ s _ Hi)). destruct (u_writable a); [done|].
  by rewrite (M_bind_run _ _ _ _ _ (free_block_run i _ _ s Hi)).
Qed.

Lemma dealloc_run i d s : bpamem_dev s !! i = Some d ->
  bpamemio_deallocmem (Z.of_nat i) s
  = Ok (0, if truthy (used d)
           then at_dev i (d <| phys_addr := 0 |> <| used := 0 |>) (bpa2_free_pages (part d) (phys_addr d) (kernel s)) s
           else s).
Proof.
  intros Hd. pose proof (lookup_lt_Some _ _ _ Hd) as Hi. unfold bpamemio_deallocmem.
  rewrite (M_bind_run _ _ _ _ _ (dev_get_run s i d Hd)). destruct (truthy (used d)); [|done]. cbn [when].
  pose proof (free_block_run i d (kernel s) s Hi) as E. rewrite (at_dev_same i d s Hd) in E.
  by rewrite (M_bind_run _ _ _ _ _ E).
Qed.

Lemma unmap_run i d s : bpamem_dev s !! i = Some d ->
  bpamemio_unmapmem (Z.of_nat i) s
  = Ok (0, if truthy (used d) then at_dev i (d <| phys_addr := 0 |> <| used := 0 |>) (kernel s) s else s).
Proof.
  intros Hd. pose proof (lookup_lt_Some _ _ _ Hd) as Hi. unfold bpamemio_unmapmem.
  rewrite (M_bind_run _ _ _ _ _ (dev_get_run s i d Hd)). destruct (truthy (used d)); [|done]. cbn [when].
  rewrite M_bind_assoc. pose proof (at_dev_put i d (kernel s) s (fun d => d <| phys_addr := 0 |>) Hi) as E.
  rewrite (at_dev_same i d s Hd) in E. rewrite (M_bind_run _ _ _ _ _ E). unfold release_device.
  by rewrite (M_bind_run _ _ _ _ _ (at_dev_put i _ _ s _ Hi)).
Qed.

Lemma map_run a s : 0 < sem_find_dev s ->
  (first_free (bpamem_dev s) 0 = None /\ bpamemio_mapmem a s = Ok ((-1, None), s)) \/
  exists i d, bpamem_dev s !! i = Some d /\ used d = 0 /\
    (forall j d', (j < i)%nat -> bpamem_dev s !! j = Some d' -> used d' <> 0) /\
    match u_read a with
    | None => bpamemio_mapmem a s = Ok ((-1, None), at_dev i (d <| used := 0 |>) (kernel s) s)
    | Some data =>
        let p := bpa2_find_part (mm_part data) (kernel s) in
        bpamemio_mapmem a s =
        if p =? 0 then Ok ((-1, None), at_dev i (d <| part := p |> <| used := 0 |>) (kernel s) s)
        else if u_writable a
        then Ok ((0, Some (MapData (mm_part data) (mm_size data) (Z.of_nat i) (mm_phys data))),
                 at_dev i (BpaDev 1 p (mm_phys data) (mm_size data)) (kernel s) s)
        else Ok ((-1, None), at_dev i (BpaDev 0 p 0 (mm_size data)) (bpa2_free_pages p (mm_phys data) (kernel s)) s)
    end.
Proof.
  intros Hs. pose proof (find_next_device_run s Hs) as E. unfold bpamemio_mapmem.
  destruct (first_free (bpamem_dev s) 0) as [n|]; [|left; split; [done|]; by rewrite (M_bind_run _ _ _ _ _ E)].
  right. destruct E as (i & d & -> & Hd & Hu & Hall & E). exists i, d. split; [done|]. split; [done|]. split; [done|].
  pose proof (lookup_lt_Some _ _ _ Hd) as Hi. rewrite (M_bind_run _ _ _ _ _ E). unfold release_device.
  destruct (u_read a) as [data|].
  2: { by rewrite (M_bind_run _ _ _ _ _ (at_dev_put i _ _ s _ Hi)). }
  cbv zeta. rewrite (M_bind_run _ _ _ _ _ eq_refl), (M_bind_run _ _ _ _ _ (at_dev_put i _ _ s _ Hi)). cbv beta.
  change (kernel (at_dev i ?d ?k ?s)) with k. set (p := bpa2_find_part _ _).
  destruct (p =? 0); [by rewrite (M_bind_run _ _ _ _ _ (at_dev_put i _ _ s _ Hi))|].
  rewrite (M_bind_run _ _ _ _ _ (at_dev_put i _ _ s _ Hi)). destruct (u_writable a); [done|].
  by rewrite (M_bind_run _ _ _ _ _ (free_block_run i _ _ s Hi)).
Qed.
End runs.
