(* ===== verification/BpamemOwn.v ===== *)
(** * Memory from the BPA2 partitions: who owns which block

    The allocator is known by its laws.  While processes only use ALLOCMEM,
    FREEMEM and mmap the driver's table and the allocator agree; MAPMEM and
    UNMAPMEM break that. *)
From S2P Require Import Prelude Bpamem.

(** What is documented of the BPA2 allocator: the blocks allocated are a set of
    partitions and addresses; an allocation gives a block that was free, or 0;
    freeing a block that is allocated gives back just this one.  Nothing is said
    about freeing other addresses. *)
Class BpaLaws (K : Type) `{BpaHw K} := {
  held : K -> gset (Z * Z);
  page_shift_range : (0 <= PAGE_SHIFT) /\ (PAGE_SHIFT < 32);
  alloc_held : forall p n k a k', bpa2_alloc_pages p n 1 k = (a, k') -> a <> 0 ->
    ((p, a) ∉ held k) /\ held k' = ({[ (p, a) ]} ∪ held k);
  alloc_none : forall p n k k', bpa2_alloc_pages p n 1 k = (0, k') -> held k' = held k;
  free_held : forall p a k, (p, a) ∈ held k -> held (bpa2_free_pages p a k) = (held k ∖ {[ (p, a) ]});
  remap_held : forall v f n k, held (snd (io_remap_pfn_range v f n k)) = held k;
  register_held : forall k, held (snd (register_chrdev_region k)) = held k;
  cdev_held : forall k, held (snd (cdev_add k)) = held k;
  class_held : forall k, held (create_class k) = held k;
  create_held : forall i k, held (create_device i k) = held k;
  destroy_held : forall i k, held (destroy_device i k) = held k;
  remove_held : forall k, held (remove_driver k) = held k
}.

Lemma given_back (b : Z * Z) (X : gset (Z * Z)) : b ∉ X -> ({[ b ]} ∪ X) ∖ {[ b ]} = X.
Proof.
  intros Hb. apply set_eq. intros x. rewrite elem_of_difference, elem_of_union, elem_of_singleton.
  split; [by intros [[->|Hx] Hne]|]. intros Hx. split; [by right|congruence].
Qed.

Definition blk (d : bpamem_dev_private) : Z * Z := (part d, phys_addr d).

Section own.
Context {K : Type} `{HL : BpaLaws K}.
Implicit Types (s : bpamem K) (k : K) (d : bpamem_dev_private) (others : gset (Z * Z)).

(** Between two calls: a device in use has a block of its own, and allocated are
    these blocks and the [others] of others. *)
Record settled others s : Prop := {
  st_length : length (bpamem_dev s) = 32%nat;
  st_sem : sem_find_dev s = 1;
  st_free : forall i d, bpamem_dev s !! i = Some d -> used d = 0 -> phys_addr d = 0;
  st_used : forall i d, bpamem_dev s !! i = Some d -> used d <> 0 -> used d = 1 /\ phys_addr d <> 0 /\ blk d ∉ others;
  st_distinct : forall i j d d', bpamem_dev s !! i = Some d -> bpamem_dev s !! j = Some d' ->
    used d <> 0 -> used d' <> 0 -> blk d = blk d' -> i = j;
  st_held : forall b, b ∈ held (kernel s) <->
    b ∈ others \/ exists i d, bpamem_dev s !! i = Some d /\ used d <> 0 /\ b = blk d
}.

(** Looking up in the table after one device has changed. *)
Lemma at_dev_cases i d' k' s j d : bpamem_dev (at_dev i d' k' s) !! j = Some d ->
  (j = i /\ d = d') \/ (j <> i /\ bpamem_dev s !! j = Some d).
Proof.
  unfold at_dev. simpl. intros [(-> & -> & _)|[Hne Hd]]%list_lookup_insert_Some; [by left|by right].
Qed.

Lemma at_dev_other i d' k' s j d : j <> i -> bpamem_dev s !! j = Some d ->
  bpamem_dev (at_dev i d' k' s) !! j = Some d.
Proof. intros Hj Hd. unfold at_dev. simpl. by rewrite list_lookup_insert_ne. Qed.

(** A free device stays free. *)
Lemma settled_idle others s i d d' k' : settled others s -> bpamem_dev s !! i = Some d -> used d = 0 ->
  used d' = 0 -> phys_addr d' = 0 -> held k' = held (kernel s) -> settled others (at_dev i d' k' s).
Proof.
  intros [L S F U D Hh] Hd Hu Hu' Hp Hk. pose proof (lookup_lt_Some _ _ _ Hd) as Hi. split.
  - unfold at_dev. simpl. by rewrite length_insert.
  - done.
  - intros j e [(-> & ->)|[Hj He]]%at_dev_cases; [done|by eapply F].
  - intros j e [(-> & ->)|[Hj He]]%at_dev_cases; [done|by apply (U j)].
  - intros j1 j2 e1 e2 [(-> & ->)|[Hj He]]%at_dev_cases [(-> & ->)|[Hj2 He2]]%at_dev_cases; try done. by apply D.
  - intros b. change (kernel (at_dev i d' k' s)) with k'. rewrite Hk, Hh. split.
    + intros [Hb|(j & e & He & Hue & ->)]; [by left|right]. exists j, e. split; [|done].
      apply at_dev_other; [congruence|done].
    + intros [Hb|(j & e & [(-> & ->)|[Hj He]]%at_dev_cases & Hue & ->)]; [by left|done|right; by exists j, e].
Qed.

(** A free device gets a new block. *)
Lemma settled_taken others s i d d' k' : settled others s -> bpamem_dev s !! i = Some d -> used d = 0 ->
  used d' = 1 -> phys_addr d' <> 0 -> blk d' ∉ held (kernel s) -> held k' = ({[ blk d' ]} ∪ held (kernel s)) ->
  settled others (at_dev i d' k' s).
Proof.
  intros [L S F U D Hh] Hd Hu Hu' Hp Hnew Hk. pose proof (lookup_lt_Some _ _ _ Hd) as Hi.
  assert (Hfresh : forall j e, bpamem_dev s !! j = Some e -> used e <> 0 -> blk e <> blk d').
  { intros j e He Hue Eb. apply Hnew, Hh. right. exists j, e. by rewrite Eb. }
  split.
  - unfold at_dev. simpl. by rewrite length_insert.
  - done.
  - intros j e [(-> & ->)|[Hj He]]%at_dev_cases; [congruence|by eapply F].
  - intros j e [(-> & ->)|[Hj He]]%at_dev_cases; [|by apply (U j)]. intros _. split_and!; try done.
    intros Hb. apply Hnew, Hh. by left.
  - intros j1 j2 e1 e2 [(-> & ->)|[Hj He]]%at_dev_cases [(-> & ->)|[Hj2 He2]]%at_dev_cases U1 U2 Eb; try done.
    + exfalso. by apply (Hfresh j2 e2).
    + exfalso. by apply (Hfresh j1 e1).
    + by apply (D j1 j2 e1 e2).
  - intros b. change (kernel (at_dev i d' k' s)) with k'. rewrite Hk, elem_of_union, elem_of_singleton, Hh. split.
    + intros [->|[Hb|(j & e & He & Hue & ->)]]; [right|by left|right].
      * exists i, d'. split; [by apply at_dev_lookup|]. split; [lia|done].
      * exists j, e. split; [|done]. apply at_dev_other; [congruence|done].
    + intros [Hb|(j & e & [(-> & ->)|[Hj He]]%at_dev_cases & Hue & ->)]; [by right; left|by left|].
      right; right. by exists j, e.
Qed.

(** A device gives its block back. *)
Lemma settled_given others s i d d' k' : settled others s -> bpamem_dev s !! i = Some d -> used d <> 0 ->
  used d' = 0 -> phys_addr d' = 0 -> held k' = (held (kernel s) ∖ {[ blk d ]}) -> settled others (at_dev i d' k' s).
Proof.
  intros [L S F U D Hh] Hd Hu Hu' Hp Hk. pose proof (lookup_lt_Some _ _ _ Hd) as Hi. split.
  - unfold at_dev. simpl. by rewrite length_insert.
  - done.
  - intros j e [(-> & ->)|[Hj He]]%at_dev_cases; [done|by eapply F].
  - intros j e [(-> & ->)|[Hj He]]%at_dev_cases; [done|by apply (U j)].
  - intros j1 j2 e1 e2 [(-> & ->)|[Hj He]]%at_dev_cases [(-> & ->)|[Hj2 He2]]%at_dev_cases; try done. by apply D.
  - intros b. change (kernel (at_dev i d' k' s)) with k'. rewrite Hk, elem_of_difference, not_elem_of_singleton, Hh. split.
    + intros [[Hb|(j & e & He & Hue & ->)] Hne]; [by left|right]. exists j, e. split; [|done].
      apply at_dev_other; [|done]. intros ->. congruence.
    + intros [Hb|(j & e & [(-> & ->)|[Hj He]]%at_dev_cases & Hue & ->)]; [|done|].
      * split; [by left|]. intros ->. by apply (U i d Hd Hu).
      * split; [right; by exists j, e|]. intros Eb. by apply Hj, (D j i e d).
Qed.

(** A block that a device has is allocated. *)
Lemma settled_block others s i d : settled others s -> bpamem_dev s !! i = Some d -> used d <> 0 -> blk d ∈ held (kernel s).
Proof. intros Hs Hd Hu. apply (st_held _ _ Hs). right. by exists i, d. Qed.

(** ** Sequences of calls *)

Inductive bpa_op :=
  | Ioctl (minor : nat) (r : bpamem_request)
  | Mmap (minor : nat) (vma : vm_area).
Definition bpa_do (op : bpa_op) : M (bpamem K) Z :=
  match op with
  | Ioctl minor r => '(x, _) ← bpamem_ioctl (Z.of_nat minor) r; mret x
  | Mmap minor vma => bpamem_mmap (Z.of_nat minor) vma
  end.
Fixpoint bpa_run (ops : list bpa_op) : M (bpamem K) (list Z) :=
  match ops with [] => mret [] | op :: ops => r ← bpa_do op; rs ← bpa_run ops; mret (r :: rs) end.

(** Calls on one of the thirty-two devices. *)
Definition op_minor (op : bpa_op) : nat := match op with Ioctl i _ => i | Mmap i _ => i end.
(** No MAPMEM and no UNMAPMEM. *)
Definition allocating (op : bpa_op) : bool :=
  match op with Ioctl _ (BPAMEMIO_MAPMEM _) | Ioctl _ BPAMEMIO_UNMAPMEM => false | _ => true end.

Lemma settled_lookup others s i : settled others s -> (i < 32)%nat -> exists d, bpamem_dev s !! i = Some d.
Proof. intros Hs Hi. apply lookup_lt_is_Some_2. by rewrite (st_length _ _ Hs). Qed.

Lemma alloc_settled others a s : settled others s ->
  exists r s', bpamemio_allocmem a s = Ok (r, s') /\ settled others s'.
Proof.
  intros Hs. destruct (alloc_run a s) as [[_ E]|(i & d & Hd & Hu & _ & E)]; [by rewrite (st_sem _ _ Hs)| |].
  { by exists (-1, None), s. }
  pose proof (st_free _ _ Hs i d Hd Hu) as Hp. unfold alloc_outcome in E.
  destruct (u_read a) as [data|]; [|eexists _, _; split; [exact E|by eapply settled_idle]].
  cbv zeta in E. destruct (_ =? 0); [eexists _, _; split; [exact E|by eapply settled_idle]|].
  destruct (bpa2_alloc_pages _ _ 1 (kernel s)) as [x k'] eqn:Ea. destruct (Z.eqb_spec x 0) as [->|Hx].
  { eexists _, _. split; [exact E|]. eapply settled_idle; try done. by eapply alloc_none. }
  destruct (alloc_held _ _ _ _ _ Ea Hx) as [Hnew Hk]. destruct (u_writable a).
  - eexists _, _. split; [exact E|]. by eapply settled_taken.
  - eexists _, _. split; [exact E|]. eapply settled_idle; try done.
    rewrite free_held, Hk by (rewrite Hk; apply elem_of_union_l, elem_of_singleton_2; done). by apply given_back.
Qed.

Lemma dealloc_settled others i s : settled others s -> (i < 32)%nat ->
  exists s', bpamemio_deallocmem (Z.of_nat i) s = Ok (0, s') /\ settled others s' /\
    (forall d, bpamem_dev s' !! i = Some d -> used d = 0) /\
    (forall j d, j <> i -> bpamem_dev s' !! j = Some d -> bpamem_dev s !! j = Some d).
Proof.
  intros Hs Hi. destruct (settled_lookup _ _ _ Hs Hi) as [d Hd]. rewrite (dealloc_run i d s Hd).
  eexists. split; [reflexivity|]. unfold truthy. destruct (Z.eqb_spec (used d) 0) as [Hu|Hu]; cbn [negb].
  - split; [done|]. split; [|done]. intros d' Hd'. by simplify_eq.
  - split; [|split].
    + eapply settled_given; try done. apply free_held. by eapply settled_block.
    + by intros d' [[_ ->]|[? _]]%at_dev_cases.
    + by intros j e Hj [[-> ->]|[_ He]]%at_dev_cases.
Qed.

Lemma mmap_settled others i vma s : settled others s -> (i < 32)%nat ->
  exists r s', bpamem_mmap (Z.of_nat i) vma s = Ok (r, s') /\ settled others s'.
Proof.
  intros Hs Hi. destruct (settled_lookup _ _ _ Hs Hi) as [d Hd]. unfold bpamem_mmap.
  rewrite (M_bind_run _ _ _ _ _ (dev_get_run s i d Hd)). destruct (_ && _); [by exists (-1), s|].
  cbv zeta. unfold kernel_call, mbind, M_bind.
  pose proof (remap_held (vm_start vma) (u32 (phys_addr d + u32 (vm_pgoff vma ≪ PAGE_SHIFT)) ≫ PAGE_SHIFT)
    (vm_end vma - vm_start vma) (kernel s)) as Hk.
  destruct (io_remap_pfn_range _ _ _ _) as [r k']. simpl in Hk. eexists _, _. split; [reflexivity|].
  destruct Hs as [L S F U D Hh]. split; try done. intros b. simpl. by rewrite Hk.
Qed.

Lemma op_settled others op s : settled others s -> (op_minor op < 32)%nat -> allocating op = true ->
  exists r s', bpa_do op s = Ok (r, s') /\ settled others s'.
Proof.
  intros Hs Hm Ha. destruct op as [i r|i vma]; simpl in Hm; [|by apply mmap_settled].
  unfold bpa_do. destruct r as [a| |a| |]; try done; simpl bpamem_ioctl.
  - destruct (alloc_settled others a s Hs) as ([x o] & s' & E & Hs'). exists x, s'. split; [|done].
    rewrite M_bind_assoc. by rewrite (M_bind_run _ _ _ _ _ E).
  - destruct (dealloc_settled others i s Hs Hm) as (s' & E & Hs' & _). exists 0, s'. split; [|done].
    rewrite M_bind_assoc. by rewrite (M_bind_run _ _ _ _ _ E).
  - by exists (-1), s.
Qed.

Lemma run_settled others ops : forall s, settled others s ->
  Forall (fun op => (op_minor op < 32)%nat /\ allocating op = true) ops ->
  exists rs s', bpa_run ops s = Ok (rs, s') /\ settled others s' /\ length rs = length ops.
Proof.
  induction ops as [|op ops IH]; intros s Hs Hops; [by exists [], s|].
  apply Forall_cons_1 in Hops as [[Hm Ha] Hops]. destruct (op_settled others op s Hs Hm Ha) as (r & s1 & E1 & H1).
  destruct (IH s1 H1 Hops) as (rs & s2 & E2 & H2 & Hl). exists (r :: rs), s2. cbn [bpa_run].
  rewrite (M_bind_run _ _ _ _ _ E1), (M_bind_run _ _ _ _ _ E2). split_and!; [done|done|]. simpl. by rewrite Hl.
Qed.

(** ** Loading and unloading *)

Lemma each_kernel f n : (forall i k, held (f i k) = held k) -> forall i s,
  exists k', each n i (fun i => kernel_do (f i)) s = Ok (tt, s <| kernel := k' |>) /\ held k' = held (kernel s).
Proof.
  intros Hf. induction n as [|n IH]; intros i s; cbn [each]; [exists (kernel s); by destruct s|].
  unfold kernel_do at 1. rewrite (M_bind_run _ _ _ _ _ eq_refl).
  destruct (IH (i + 1) (s <| kernel := f i (kernel s) |>)) as (k' & E & Hk). exists k'.
  split; [exact E|]. rewrite Hk. apply Hf.
Qed.

Lemma kernel_call_run {A} (f : K -> A * K) s :
  kernel_call f s = Ok (fst (f (kernel s)), s <| kernel := snd (f (kernel s)) |>).
Proof. unfold kernel_call. by destruct (f (kernel s)). Qed.

Lemma boot_dev i d : replicate 32 (BpaDev 0 0 0 0) !! i = Some d -> d = BpaDev 0 0 0 0.
Proof. by intros [-> _]%lookup_replicate. Qed.

Lemma init_settled k : 0 <= fst (register_chrdev_region k) ->
  0 <= fst (cdev_add (snd (register_chrdev_region k))) ->
  exists r s, bpamem_init skip (bpamem_boot k) = Ok (r, s) /\ 0 <= r /\ settled (held k) s.
Proof.
  intros Hr Hc. unfold bpamem_init.
  assert (E : each 32 0 (fun i => dev_put i (fun d => d <| used := 0 |> <| phys_addr := 0 |>)) (bpamem_boot k)
    = Ok (tt, bpamem_boot k)) by (vm_compute; reflexivity).
  rewrite (M_bind_run _ _ _ _ _ E). clear E.
  pose proof (register_held k) as H1. pose proof (cdev_held (snd (register_chrdev_region k))) as H2.
  rewrite (M_bind_run _ _ _ _ _ (kernel_call_run _ _)). simpl kernel. rewrite (proj2 (Z.ltb_ge _ _)) by done.
  rewrite (M_bind_run _ _ _ _ _ (kernel_call_run _ _)). simpl kernel. rewrite (proj2 (Z.ltb_ge _ _)) by done.
  unfold kernel_do at 1. rewrite (M_bind_run _ _ _ _ _ eq_refl).
  set (s1 := _ <| kernel := create_class _ |>).
  destruct (each_kernel create_device 32 create_held 0 s1) as (k' & E & Hk). rewrite (M_bind_run _ _ _ _ _ E).
  rewrite (M_bind_run _ _ _ _ _ eq_refl), (M_bind_run _ _ _ _ _ eq_refl). eexists _, _. split; [reflexivity|].
  split; [done|]. split.
  - done.
  - done.
  - intros i d Hd _. by apply boot_dev in Hd as ->.
  - intros i d Hd Hu. by apply boot_dev in Hd as ->.
  - intros i j d d' Hd _ Hu. by apply boot_dev in Hd as ->.
  - intros b. simpl kernel. rewrite Hk. unfold s1. simpl kernel. rewrite class_held, H2, H1. split; [by left|].
    intros [Hb|(i & d & Hd & Hu & _)]; [done|]. by apply boot_dev in Hd as ->.
Qed.

Lemma each_dealloc others n : forall i s, (i + n <= 32)%nat -> settled others s ->
  (forall j d, (j < i)%nat -> bpamem_dev s !! j = Some d -> used d = 0) ->
  exists s', each n (Z.of_nat i) (fun i => bpamemio_deallocmem i;; skip) s = Ok (tt, s') /\ settled others s' /\
    (forall j d, (j < i + n)%nat -> bpamem_dev s' !! j = Some d -> used d = 0).
Proof.
  induction n as [|n IH]; intros i s Hi Hs Hfree; cbn [each].
  { exists s. split; [done|]. split; [done|]. intros j d Hj. apply Hfree. lia. }
  destruct (dealloc_settled others i s Hs ltac:(lia)) as (s1 & E & H1 & Hi1 & Hother).
  destruct (IH (S i) s1) as (s2 & E2 & H2 & Hall); [lia|done| |].
  { intros j d Hj Hd. destruct (decide (j = i)) as [->|Hne]; [by apply Hi1|].
    apply (Hfree j); [lia|]. by apply Hother. }
  exists s2. rewrite M_bind_assoc, (M_bind_run _ _ _ _ _ E), (M_bind_run _ _ _ _ _ eq_refl).
  replace (Z.of_nat i + 1) with (Z.of_nat (S i)) by lia. split; [done|]. split; [done|].
  intros j d Hj. apply Hall. lia.
Qed.

Lemma exit_held others s : settled others s ->
  exists s', bpamem_exit s = Ok (tt, s') /\ held (kernel s') = others.
Proof.
  intros Hs. destruct (each_dealloc others 32 0 s) as (s1 & E & H1 & Hfree); [lia|done|lia|].
  unfold bpamem_exit. rewrite (M_bind_run _ _ _ _ _ E). unfold kernel_do at 1.
  rewrite (M_bind_run _ _ _ _ _ eq_refl).
  destruct (each_kernel destroy_device 32 destroy_held 0 (s1 <| kernel := remove_driver (kernel s1) |>)) as (k' & E2 & Hk).
  eexists. split; [exact E2|]. simpl kernel. rewrite Hk. simpl kernel. rewrite remove_held.
  apply set_eq. intros b. rewrite (st_held _ _ H1). split; [|by left].
  intros [Hb|(j & d & Hd & Hu & _)]; [done|]. exfalso. apply Hu. apply (Hfree j); [|done].
  pose proof (lookup_lt_Some _ _ _ Hd) as Hj. rewrite (st_length _ _ H1) in Hj. lia.
Qed.

(** ** Who uses what the driver gives *)

(** The pages that cover a size. *)
Lemma round_up_spec sz : 0 <= sz <= 2 ^ 32 - PAGE_SIZE ->
  sz <= round_up sz < sz + PAGE_SIZE /\ round_up sz mod PAGE_SIZE = 0.
Proof.
  intros Hsz. pose proof page_shift_range as Hr.
  assert (Hp : 0 < PAGE_SIZE) by (unfold PAGE_SIZE; rewrite Z.shiftl_1_l; apply Z.pow_pos_nonneg; lia).
  unfold round_up. destruct (Z.eqb_spec (sz mod PAGE_SIZE) 0) as [E|E]; [lia|].
  assert (Hn : PAGE_SIZE <> 0) by lia. pose proof (Z.div_mod sz PAGE_SIZE Hn) as Hdm. pose proof (Z.mod_pos_bound sz PAGE_SIZE Hp) as Hm.
  assert (Eq : (sz / PAGE_SIZE + 1) * PAGE_SIZE = PAGE_SIZE * (sz / PAGE_SIZE) + PAGE_SIZE) by ring.
  unfold u32. rewrite Z.mod_small by lia. split; [lia|]. apply Z.mod_mul. lia.
Qed.

(** There is no multiple of the page size from [sz] on that fits the word. *)
Lemma round_up_wraps sz : 2 ^ 32 - PAGE_SIZE < sz < 2 ^ 32 -> round_up sz = 0.
Proof.
  intros Hsz. pose proof page_shift_range as Hr.
  assert (HP : PAGE_SIZE = 2 ^ PAGE_SHIFT) by (unfold PAGE_SIZE; by rewrite Z.shiftl_1_l).
  assert (Hp : 0 < PAGE_SIZE) by (rewrite HP; apply Z.pow_pos_nonneg; lia).
  assert (Hk : 2 ^ 32 = 2 ^ (32 - PAGE_SHIFT) * PAGE_SIZE) by (rewrite HP, <- Z.pow_add_r by lia; f_equal; lia).
  revert Hk. generalize (2 ^ (32 - PAGE_SHIFT)). intros k Hk.
  assert (Hd : sz / PAGE_SIZE = k - 1).
  { symmetry. apply (Z.div_unique _ _ _ (sz - PAGE_SIZE * (k - 1))); [left|]; lia. }
  assert (Hn : PAGE_SIZE <> 0) by lia. unfold round_up. pose proof (Z.div_mod sz PAGE_SIZE Hn) as Hdm. rewrite Hd in Hdm |- *.
  destruct (Z.eqb_spec (sz mod PAGE_SIZE) 0) as [E|E]; [rewrite E in Hdm; nia|].
  replace ((k - 1 + 1) * PAGE_SIZE) with (2 ^ 32) by lia. apply Z.mod_same. lia.
Qed.
End own.

(** C12. The driver's table and the allocator agree: from loading to unloading,
    over any sequence of ALLOCMEM, FREEMEM and mmap calls with any arguments and
    any failures, nothing faults or hangs, every device in use owns a block of
    its own, no block is freed twice, lost or taken from others, and unloading
    gives all of them back. *)
Theorem bpa_ownership {K} `{BpaLaws K} (k : K) ops :
  0 <= fst (register_chrdev_region k) -> 0 <= fst (cdev_add (snd (register_chrdev_region k))) ->
  Forall (fun op => (op_minor op < 32)%nat /\ allocating op = true) ops ->
  exists r s0 rs s s', bpamem_init skip (bpamem_boot k) = Ok (r, s0) /\
    bpa_run ops s0 = Ok (rs, s) /\ length rs = length ops /\ settled (held k) s /\
    bpamem_exit s = Ok (tt, s') /\ held (kernel s') = held k.
Proof.
  intros Hr Hc Hops. destruct (init_settled k Hr Hc) as (r & s0 & E0 & _ & H0').
  destruct (run_settled (held k) ops s0 H0' Hops) as (rs & s & E & Hs & Hl).
  destruct (exit_held (held k) s Hs) as (s' & E' & Hk). exists r, s0, rs, s, s'. by split_and!.
Qed.

(** C25. A block goes its way: when a partition has memory, ALLOCMEM takes the
    first free device and reports it with the least multiple of the page size
    that covers what was asked, except that a size above 2^32 - PAGE_SIZE wraps
    to 0 and the partition is asked for no page at all; mmap on that device, at an
    offset below 2^32 - address, maps as many bytes as the caller names from the
    page at the offset on, which is the block where they lie inside it, since
    neither offset nor length is compared with the size; and FREEMEM gives the block back and leaves the allocator and the
    devices in use as they were before. *)
Theorem bpa_alloc_cycle {K} `{BpaLaws K} others (s : bpamem K) name sz dev0 a k' :
  let p := bpa2_find_part name (kernel s) in
  settled others s -> first_free (bpamem_dev s) 0 <> None -> 0 <= sz < 2 ^ 32 ->
  p <> 0 -> a <> 0 -> bpa2_alloc_pages p (round_up sz / PAGE_SIZE) 1 (kernel s) = (a, k') ->
  exists i s1 s2,
    bpamemio_allocmem (User (Some (AllocData name sz dev0)) true) s
      = Ok ((0, Some (AllocData name (round_up sz) (Z.of_nat i))), s1) /\
    (if sz <=? 2 ^ 32 - PAGE_SIZE then sz <= round_up sz < sz + PAGE_SIZE /\ round_up sz mod PAGE_SIZE = 0
     else round_up sz = 0) /\
    first_free (bpamem_dev s) 0 = Some (Z.of_nat i) /\
    (forall vma, 0 <= a -> a mod PAGE_SIZE = 0 -> 0 <= vm_pgoff vma -> a + vm_pgoff vma * PAGE_SIZE < 2 ^ 32 ->
       let r := io_remap_pfn_range (vm_start vma) (a / PAGE_SIZE + vm_pgoff vma) (vm_end vma - vm_start vma) k' in
       bpamem_mmap (Z.of_nat i) vma s1
         = Ok (if truthy (fst r) then - EIO else 0, s1 <| kernel := snd r |>)) /\
    bpamemio_deallocmem (Z.of_nat i) s1 = Ok (0, s2) /\ held (kernel s2) = held (kernel s) /\
    used <$> bpamem_dev s2 = used <$> bpamem_dev s.
Proof.
  intros p Hs Hff Hsz Hp Ha Ea. pose proof (find_next_device_run s) as Hn. rewrite (st_sem _ _ Hs) in Hn.
  destruct (first_free (bpamem_dev s) 0) as [n|] eqn:Ef; [|done]. clear Hn.
  destruct (alloc_run (User (Some (AllocData name sz dev0)) true) s) as [[E _]|(i & d & Hd & Hu & Hall & E)];
    [by rewrite (st_sem _ _ Hs)|congruence|].
  destruct (first_free_Some _ _ _ Ef) as (i' & d' & -> & Hd' & Hu' & Hall').
  assert (i' = i) as ->.
  { destruct (lt_eq_lt_dec i i') as [[Hlt|He]|Hlt]; [|done|]; exfalso;
      [by apply (Hall' i d)|by apply (Hall i' d')]. }
  pose proof (lookup_lt_Some _ _ _ Hd) as Hi. unfold alloc_outcome in E. cbn [u_read am_size am_part u_writable] in E.
  fold p in E. rewrite (proj2 (Z.eqb_neq p 0) Hp), Ea, (proj2 (Z.eqb_neq a 0) Ha) in E.
  destruct (alloc_held _ _ _ _ _ Ea Ha) as [Hnew Hk].
  set (d1 := BpaDev 1 p a (round_up sz)) in *. exists i, (at_dev i d1 k' s). eexists.
  split; [exact E|].
  split; [destruct (Z.leb_spec sz (2 ^ 32 - PAGE_SIZE)); [apply round_up_spec|apply round_up_wraps]; lia|]. split; [done|]. split; [|split; [|split]].
  - intros vma Ha0 Hal Ho Hlt. cbv zeta. unfold bpamem_mmap.
    rewrite (M_bind_run _ _ _ _ _ (dev_get_run _ i d1 (at_dev_lookup i d1 k' s Hi))).
    unfold d1 at 1 2. cbn [used phys_addr]. rewrite (proj2 (Z.eqb_neq a 0) Ha), andb_false_r. cbv iota zeta.
    pose proof page_shift_range as Hsh.
    assert (Hps : PAGE_SIZE = 2 ^ PAGE_SHIFT) by (unfold PAGE_SIZE; by rewrite Z.shiftl_1_l).
    assert (Hpos : 0 < PAGE_SIZE) by (rewrite Hps; apply Z.pow_pos_nonneg; lia).
    assert (Epfn : u32 (phys_addr d1 + u32 (vm_pgoff vma ≪ PAGE_SHIFT)) ≫ PAGE_SHIFT = a / PAGE_SIZE + vm_pgoff vma).
    { unfold d1. cbn [phys_addr]. rewrite Z.shiftl_mul_pow2, <- Hps by lia. unfold u32.
      rewrite (Z.mod_small (vm_pgoff vma * PAGE_SIZE)) by nia. rewrite Z.mod_small by nia.
      rewrite Z.shiftr_div_pow2, <- Hps by lia. apply Z.div_add. lia. }
    rewrite Epfn, (M_bind_run _ _ _ _ _ (kernel_call_run _ _)). done.
  - rewrite (dealloc_run i d1) by by apply at_dev_lookup. reflexivity.
  - cbn [truthy used d1]. change (truthy 1) with true. cbv iota.
    change (kernel (at_dev i ?d ?k ?s)) with k. cbn [part phys_addr d1]. unfold at_dev. simpl kernel.
    rewrite free_held, Hk by (rewrite Hk; apply elem_of_union_l, elem_of_singleton_2; done). by apply given_back.
  - cbn [truthy used d1]. change (truthy 1) with true. cbv iota. unfold at_dev. simpl bpamem_dev.
    rewrite list_insert_insert_eq, list_fmap_insert. apply list_insert_id. rewrite list_lookup_fmap, Hd. simpl. by rewrite Hu.
Qed.

(** C31. The driver does not remember how a device got its block: a process that
    names with MAPMEM a block which belongs to somebody else, and calls FREEMEM
    on the device it gets, frees that block; if its structure cannot be written
    MAPMEM alone frees it. And UNMAPMEM on a device from ALLOCMEM loses the
    block: it stays allocated although no device has it. *)
Theorem bpa_map_mixes {K} `{BpaLaws K} others (s : bpamem K) name sz dev0 x :
  let p := bpa2_find_part name (kernel s) in
  settled others s -> p <> 0 -> (p, x) ∈ others ->
  (first_free (bpamem_dev s) 0 <> None ->
   (exists i s1 s2,
      bpamemio_mapmem (User (Some (MapData name sz dev0 x)) true) s
        = Ok ((0, Some (MapData name sz (Z.of_nat i) x)), s1) /\
      bpamemio_deallocmem (Z.of_nat i) s1 = Ok (0, s2) /\ (p, x) ∉ held (kernel s2)) /\
   exists s1, bpamemio_mapmem (User (Some (MapData name sz dev0 x)) false) s = Ok ((-1, None), s1) /\
     (p, x) ∉ held (kernel s1)) /\
  (forall i d, bpamem_dev s !! i = Some d -> used d <> 0 ->
   exists s1, bpamemio_unmapmem (Z.of_nat i) s = Ok (0, s1) /\ blk d ∈ held (kernel s1) /\
     forall j e, bpamem_dev s1 !! j = Some e -> used e <> 0 -> blk e <> blk d).
Proof.
  intros p Hs Hp Hx. assert (Hheld : (p, x) ∈ held (kernel s)) by (apply (st_held _ _ Hs); by left).
  assert (Hgone : (p, x) ∉ held (bpa2_free_pages p x (kernel s))).
  { rewrite free_held by done. by intros [_ []%not_elem_of_singleton]%elem_of_difference. }
  split.
  - intros Hff. assert (Hm : forall w, exists i d, bpamem_dev s !! i = Some d /\
      bpamemio_mapmem (User (Some (MapData name sz dev0 x)) w) s =
      if w then Ok ((0, Some (MapData name sz (Z.of_nat i) x)), at_dev i (BpaDev 1 p x sz) (kernel s) s)
      else Ok ((-1, None), at_dev i (BpaDev 0 p 0 sz) (bpa2_free_pages p x (kernel s)) s)).
    { intros w. destruct (map_run (User (Some (MapData name sz dev0 x)) w) s) as [[E _]|(i & d & Hd & Hu & _ & E)];
        [by rewrite (st_sem _ _ Hs)|done|].
      exists i, d. split; [done|]. cbn [u_read mm_part u_writable mm_size mm_phys] in E. cbv zeta in E. fold p in E.
      rewrite (proj2 (Z.eqb_neq p 0) Hp) in E. by destruct w. }
    split.
    + destruct (Hm true) as (i & d & Hd & E). pose proof (lookup_lt_Some _ _ _ Hd) as Hi.
      eexists i, _, _. split; [exact E|]. split; [by apply (dealloc_run i (BpaDev 1 p x sz)), at_dev_lookup|]. exact Hgone.
    + destruct (Hm false) as (i & d & Hd & E). eexists. split; [exact E|]. exact Hgone.
  - intros i d Hd Hu. rewrite (unmap_run i d s Hd). eexists. split; [reflexivity|].
    unfold truthy. rewrite (proj2 (Z.eqb_neq _ 0) Hu). cbn [negb]. split; [by apply (settled_block others s i d)|].
    intros j e [(-> & ->)|[Hj He]]%at_dev_cases Hue Eb; [done|]. by apply Hj, (st_distinct _ _ Hs j i e d).
Qed.

(** C37. mmap does not ask whether the device is in use or how long its block is:
    on a device that nobody uses, which stands for address 0, it maps any page
    of the physical memory for any length the process asks for. *)
Theorem bpa_mmap_any {K} `{BpaLaws K} others (s : bpamem K) i d vma :
  settled others s -> bpamem_dev s !! i = Some d -> used d = 0 ->
  0 <= vm_pgoff vma -> vm_pgoff vma * PAGE_SIZE < 2 ^ 32 ->
  let r := io_remap_pfn_range (vm_start vma) (vm_pgoff vma) (vm_end vma - vm_start vma) (kernel s) in
  bpamem_mmap (Z.of_nat i) vma s = Ok (if truthy (fst r) then - EIO else 0, s <| kernel := snd r |>).
Proof.
  intros Hs Hd Hu Ho Hlt. cbv zeta. unfold bpamem_mmap.
  rewrite (M_bind_run _ _ _ _ _ (dev_get_run _ i d Hd)). rewrite Hu, (st_free _ _ Hs i d Hd Hu). cbn [truthy andb].
  change (truthy 0) with false. cbn [andb]. cbv iota zeta. pose proof page_shift_range as Hsh.
  assert (Hps : PAGE_SIZE = 2 ^ PAGE_SHIFT) by (unfold PAGE_SIZE; by rewrite Z.shiftl_1_l).
  assert (Hpos : 0 < PAGE_SIZE) by (rewrite Hps; apply Z.pow_pos_nonneg; lia).
  assert (Epfn : u32 (0 + u32 (vm_pgoff vma ≪ PAGE_SHIFT)) ≫ PAGE_SHIFT = vm_pgoff vma).
  { rewrite Z.shiftl_mul_pow2, <- Hps by lia. unfold u32. rewrite Z.add_0_l, !(Z.mod_small (vm_pgoff vma * PAGE_SIZE)) by nia.
    rewrite Z.shiftr_div_pow2, <- Hps by lia. apply Z.div_mul. lia. }
  by rewrite Epfn, (M_bind_run _ _ _ _ _ (kernel_call_run _ _)).
Qed.

(** The semaphore gets its value at the end of loading; a process that opens the
    device as soon as cdev_add has made it reachable sleeps for ever. *)
Lemma early_alloc_hangs {K} `{BpaHw K} a (k : K) : bpamemio_allocmem a (bpamem_boot k) = Fault Diverges.
Proof. done. Qed.

(** ** Example *)

Section example.
(** One partition, with the pointer 1, of three blocks. *)
Definition toy_find (p : Z) (k : gset (Z * Z)) : Z :=
  default 0 (list_find (fun a => (p, a) ∉ k) [0x10000000; 0x10100000; 0x10200000] ≫= Some ∘ snd).
#[local] Instance toy : BpaHw (gset (Z * Z)) := {|
  PAGE_SHIFT := 12;
  bpa2_find_part name _ := if name =? 100 then 1 else 0;
  bpa2_alloc_pages p _ _ k := let a := toy_find p k in (a, if a =? 0 then k else {[ (p, a) ]} ∪ k);
  bpa2_free_pages p a k := k ∖ {[ (p, a) ]};
  io_remap_pfn_range _ _ _ k := (0, k);
  register_chrdev_region k := (0, k);
  cdev_add k := (0, k);
  create_class k := k;
  create_device _ k := k;
  destroy_device _ k := k;
  remove_driver k := k
|}.

#[local] Program Instance toy_laws : BpaLaws (gset (Z * Z)) := {| held k := k |}.
Next Obligation. simpl. lia. Qed.
Next Obligation.
  simpl. intros p _ k a k' [= <- <-] Ha. rewrite (proj2 (Z.eqb_neq _ 0) Ha). split; [|done].
  unfold toy_find in *. destruct (list_find _ _) as [[j x]|] eqn:E; [|done].
  apply list_find_Some in E as (_ & Hx & _). exact Hx.
Qed.
Next Obligation. simpl. intros p _ k k' [= E <-]. by rewrite E. Qed.
Next Obligation. done. Qed.
Next Obligation. done. Qed.
Next Obligation. done. Qed.
Next Obligation. done. Qed.
Next Obligation. done. Qed.
Next Obligation. done. Qed.
Next Obligation. done. Qed.
Next Obligation. done. Qed.

(** A block of somebody else, and after loading. *)
Definition foreign : gset (Z * Z) := {[ (1, 0x10200000) ]}.
Definition loaded : bpamem (gset (Z * Z)) := (bpamem_boot foreign) <| sem_find_dev := 1 |>.

Lemma loaded_settled : settled foreign loaded.
Proof.
  destruct (init_settled foreign) as (r & s & E & _ & Hs); [done|done|].
  assert (E' : bpamem_init skip (bpamem_boot foreign) = Ok (0, loaded)) by (vm_compute; reflexivity).
  rewrite E' in E. injection E as <- <-. exact Hs.
Qed.

(** Two processes ask, the second fails in the end; the first gives back, and
    somebody else's device is mapped. *)
Definition example_ops : list bpa_op :=
  [Ioctl 0 (BPAMEMIO_ALLOCMEM (User (Some (AllocData 100 5000 0)) true));
   Ioctl 0 (BPAMEMIO_ALLOCMEM (User (Some (AllocData 100 4096 0)) false));
   Mmap 0 (VmArea 0x40000000 0x40002000 0); Ioctl 7 BPAMEMIO_FREEMEM; Ioctl 0 BPAMEMIO_FREEMEM].

Lemma bpa_ownership_witness :
  exists r s0 rs s s', bpamem_init skip (bpamem_boot foreign) = Ok (r, s0) /\
    bpa_run example_ops s0 = Ok (rs, s) /\ length rs = length example_ops /\ settled (held foreign) s /\
    bpamem_exit s = Ok (tt, s') /\ held (kernel s') = held foreign.
Proof.
  apply (bpa_ownership foreign example_ops).
  - vm_compute. discriminate.
  - vm_compute. discriminate.
  - repeat (constructor; [split; [simpl; lia|reflexivity]|]). constructor.
Defined.

Lemma bpa_alloc_cycle_witness :
  exists i s1 s2,
    bpamemio_allocmem (User (Some (AllocData 100 5000 0)) true) loaded
      = Ok ((0, Some (AllocData 100 (round_up 5000) (Z.of_nat i))), s1) /\
    (if 5000 <=? 2 ^ 32 - PAGE_SIZE then 5000 <= round_up 5000 < 5000 + PAGE_SIZE /\ round_up 5000 mod PAGE_SIZE = 0
     else round_up 5000 = 0) /\
    first_free (bpamem_dev loaded) 0 = Some (Z.of_nat i) /\
    (forall vma, 0 <= 0x10000000 -> 0x10000000 mod PAGE_SIZE = 0 -> 0 <= vm_pgoff vma ->
       0x10000000 + vm_pgoff vma * PAGE_SIZE < 2 ^ 32 ->
       let r := io_remap_pfn_range (vm_start vma) (0x10000000 / PAGE_SIZE + vm_pgoff vma)
                  (vm_end vma - vm_start vma) ({[ (1, 0x10000000) ]} ∪ foreign) in
       bpamem_mmap (Z.of_nat i) vma s1
         = Ok (if truthy (fst r) then - EIO else 0, s1 <| kernel := snd r |>)) /\
    bpamemio_deallocmem (Z.of_nat i) s1 = Ok (0, s2) /\ held (kernel s2) = held (kernel loaded) /\
    used <$> bpamem_dev s2 = used <$> bpamem_dev loaded.
Proof.
  apply (bpa_alloc_cycle foreign loaded 100 5000 0 0x10000000).
  - apply loaded_settled.
  - vm_compute. discriminate.
  - lia.
  - vm_compute. discriminate.
  - discriminate.
  - vm_compute. reflexivity.
Defined.

Lemma bpa_map_mixes_witness :
  (first_free (bpamem_dev loaded) 0 <> None ->
   (exists i s1 s2,
      bpamemio_mapmem (User (Some (MapData 100 4096 0 0x10200000)) true) loaded
        = Ok ((0, Some (MapData 100 4096 (Z.of_nat i) 0x10200000)), s1) /\
      bpamemio_deallocmem (Z.of_nat i) s1 = Ok (0, s2) /\ (bpa2_find_part 100 (kernel loaded), 0x10200000) ∉ held (kernel s2)) /\
   exists s1, bpamemio_mapmem (User (Some (MapData 100 4096 0 0x10200000)) false) loaded = Ok ((-1, None), s1) /\
     (bpa2_find_part 100 (kernel loaded), 0x10200000) ∉ held (kernel s1)) /\
  (forall i d, bpamem_dev loaded !! i = Some d -> used d <> 0 ->
   exists s1, bpamemio_unmapmem (Z.of_nat i) loaded = Ok (0, s1) /\ blk d ∈ held (kernel s1) /\
     forall j e, bpamem_dev s1 !! j = Some e -> used e <> 0 -> blk e <> blk d).
Proof.
  apply (bpa_map_mixes foreign loaded 100 4096 0 0x10200000).
  - apply loaded_settled.
  - vm_compute. discriminate.
  - by apply elem_of_singleton_2.
Defined.

Lemma bpa_mmap_any_witness :
  let r := io_remap_pfn_range 0x40000000 0x8000 (0x48000000 - 0x40000000) (kernel loaded) in
  bpamem_mmap (Z.of_nat 5) (VmArea 0x40000000 0x48000000 0x8000) loaded
    = Ok (if truthy (fst r) then - EIO else 0, loaded <| kernel := snd r |>).
Proof.
  apply (bpa_mmap_any foreign loaded 5 (BpaDev 0 0 0 0) (VmArea 0x40000000 0x48000000 0x8000)).
  - apply loaded_settled.
  - reflexivity.
  - reflexivity.
  - vm_compute. discriminate.
  - vm_compute. reflexivity.
Defined.
End example.
